(* ===== verification/_CoqProject ===== *)
-Q . S2P
Prelude.v
Ports.v
Memory.v
Kutil.v
FrameAlloc.v
Pfa.v
Paging.v
Mkfs.v
Fs.v
Process.v
ProcessCreate.v
Fb.v
Keyboard.v
Pic.v
Serial.v
Tables.v
Kernel.v
Kheap.v
Kmain.v
Cpu.v
Startup.v
Ulib.v
Usys.v
UserKernel.v
Int80.v
Shell.v
Top.v
