(* ===== verification/Prelude.v ===== *)
(** * A verified model of the so-finalproject kernel

    so-finalproject is a small 32-bit x86 kernel: it boots from GRUB with one
    module, a read-only file system image (SOFS), and runs a shell and other
    programs as preemptively scheduled processes, each in an address space of
    its own.  This library models its C code, from kmain to the user programs,
    the assembly between it and the processor, and the image builder mkfs.py as
    executable functions, and proves what makes them correct.

    ** How the code is modelled

    - Integers are [Z]; unsigned 32-bit arithmetic wraps where the C code's
      does ([u32], and [+ᵤ], [-ᵤ], [*ᵤ] of the scope [c_scope]); [s32] is the
      signed reading of a word.  The range conditions are [is_u32].
    - Memory is a finite map from physical addresses to bytes (Memory.v).  Every
      pointer access of the kernel goes through the two-level page tables that
      [cr3] names ([walk], [kld8], [kst8], [kld32], [kst32]); a page fault is
      [None], as is an access outside an array and a loop that does not end.
      Theorems say that the code returns [Some]; none only says what holds if it
      does.  [kmapped cr3 R m] is the usual hypothesis: on the addresses of [R]
      the tables are the identity, and no write inside [R] changes that.
    - Loops with a bound are [for_range] and [loop_range]; the others are
      [while], a loop of at most 2^33 steps.  The bound is twice the number of
      addresses, and each use of [while] is proved to end within it.
    - I/O ports are a trace of accesses (Ports.v); what an [inb] returns is an
      argument of the code, the device.  What the accesses do to a device is said
      by machines that read the trace: the two 8259A and the 8253 in Pic.v, the
      16550 in Serial.v.
    - Code that the C code only calls is an argument: the addresses of assembly
      entry points and tables (the linker's), and the devices.

    ** The parts, and the files that model them

    - Prelude.v: machine integers, loops and their rules, tactics ([word_lia],
      [zcase], [ztest]), the hint databases [kernel] and [words].
    - Ports.v (src/io.s); Memory.v (the memory and the processor's page walk);
      Kutil.v (src/kutil.c: memset, memcpy, strcmp, strlen).
    - FrameAlloc.v: the class [FrameAlloc] with its laws, what paging4k.c and
      process.c need of a frame allocator.  Pfa.v (src/pfa.c) is the bitmap
      allocator, and an instance of it.
    - Paging.v (src/paging4k.c): page directories; [space] is the abstract
      address space a directory in memory represents.
    - Mkfs.v (tools/mkfs.py) and Fs.v (src/fs.c): the writer and the reader of
      the file system image.
    - Process.v (src/process.c): the process table, its queries and the
      round-robin scheduler.  ProcessCreate.v: process_create, which loads a
      program into new frames.
    - Fb.v, Keyboard.v, Serial.v (src/drivers/fb.c, keyboard.c, serial.c) and
      Pic.v (src/drivers/pic.c, src/pit.c): the drivers, with their abstract
      devices (a terminal, a line editor, the chips).
    - Tables.v (src/gdt.c, src/tss.c, and the table of src/idt.c): the
      descriptor tables, as the processor reads them.
    - Kernel.v (src/syscall.c, and interrupt_handler of src/idt.c): the two
      entry points, on the state of the whole kernel.  A process that gave up
      the processor inside the kernel is described by what it still has to do
      there ([kcont]); [kstep] runs the handlers as a machine with many
      processes, one step per system call, interrupt or end of `hlt`, for the
      calls that keep away from the kernel's own memory ([does]).
    - Kheap.v (src/kheap.c): kmalloc and kfree, on their free list in raw
      memory.
    - Kmain.v (src/kmain.c): the boot, from the entry to the jump into the
      first process; its state holds the variables of all the parts.
    - Cpu.v (src/context_switch.s, syscall_handler.s, interrupt_handlers.s,
      usermode.s): the routines as lists of instructions, on a core with its
      registers, and the interrupt and `iret` of the processor.
    - Startup.v (src/loader.s, paging.s, gdt.s, gdt_flush.s, idt.s, and tss_load
      of src/tss.c): the routines that set the processor up, on a processor that
      also has its control registers, its table registers, the descriptors its
      segment registers hold, and a translation buffer; [bringup] is loader.s
      and the first calls of kmain.
    - Ulib.v (programs/ulib.h): the string functions of the user programs, on
      the memory ring 3 sees.  Usys.v (programs/syscall.h): the system calls as
      the programs see them; a program is an interaction tree whose events are
      the calls, and a handler answers them as syscall_dispatch does; [start] is
      programs/start.s.  Shell.v (programs/shell.c, hello.c, program.c) and Top.v
      (programs/top.c): the programs.
    - UserKernel.v: the two sides of a system call together, the handler of
      Usys.v on the memory ring 3 sees and [syscall_dispatch] on physical
      memory, through the process's page directory.  Int80.v: the same with the
      assembly of Cpu.v around it, from the `int 0x80` to the instruction after.

    ** What is proved

    - The kernel as a whole: [kernel_invariant] over every sequence of
      interrupts and of system calls whose pointers stay away from the kernel's
      own memory, and [kernel_refines_table], by which each step of it is a step
      of the scheduler's model or leaves the process table alone.
      System calls and interrupts on every path ([sys_read_correct],
      [sys_wait_correct], [sys_exit_correct], [interrupt_handler_correct]).
    - The boot: [kmain_boots], from what GRUB leaves in memory to the initial
      state of that invariant, with the shell loaded and current; and
      [kmain_errors], on every way it can fail.  [boot_enters_shell] takes the
      boot on to the first instruction of the shell in ring 3.  Before kmain:
      [startup_correct], the segments, the task register and the identity paging
      that the rest relies on are in force, and [grub_boots], which joins the
      entry from GRUB to [kmain_boots].
    - Between the processor and the C code: a switch of processes and back
      restores the first ([switch_roundtrip]); an interrupt finds the C code's
      parameters where it expects them, and returns to the program as it was
      ([interrupt_roundtrip]; [syscall_roundtrip] for a system call).
    - Processes: the table's invariant, round robin and fairness
      ([scheduler_fairness]: a READY process runs within 15 decisions), and
      process_create: what ring 3 sees of a loaded program
      ([process_create_loads]), that processes share no frame
      and that creating one changes no byte another sees ([process_isolation]), and that it never fails otherwise than by -1
      ([process_create_total]).
    - Memory: paging_map_4k changes the processor's translation of one page and
      no other; pfa.c is first fit, with the counter equal to the set bits; the
      heap's list stays well formed under any use, blocks are disjoint and no
      byte is lost ([heap_calls_invariant]), kmalloc and kfree end and do what
      they promise ([kmalloc_correct], [kfree_correct]).
    - The file system: [mkfs_roundtrip], from a directory through mkfs.py's
      image to the contents fs_find hands out, by the first 63 characters of
      each name, which are all that mkfs.py stores; fs_find, fs_list and fs_init on
      any image, errors included.
    - Devices: the console is a terminal ([fb_write_refines],
      [fb_shows_last_rows]), the keyboard a line editor ([keyboard_refines],
      [typed_line_roundtrip]); the controllers, the timer, the UART and the
      descriptor tables are left in the states the kernel needs.
    - The programs: [shell_session], for any lines typed the shell does what
      the specification of a session says, waiting for ever for a program that
      never ends, and [top_shows], the table top
      prints; the library: [itoa_roundtrip], and streq and ustrlen against
      lists.
    - The programs and the kernel: [user_calls_refine], the kernel answers every
      call as the handler of Usys.v does, on which the programs are verified;
      [fresh_process_sees], the memory a program starts with;
      [system_call_correct], a whole system call as the program has it: the gate,
      the stack, the answer, the return to ring 3, and the state from which the
      next one starts.

    Some theorems say where the code does not do what it is meant to:
    [pfa_region_wraparound], [paging_map_4k_out_of_frames],
    [process_kernel_stack], [fs_list_empty_buffer], [fb_cell_colours],
    [serial_init_correct], [malloc_units_range] and
    [sys_read_reaches_variables]; and [pfa_init_correct] and [mkfs_roundtrip] say
    it of regions that end at 4 GiB and of names of 64 characters and more.

    Where a theorem has hypotheses, a lemma with the same name and [_witness]
    applies it to a concrete state.

    ** What is not modelled

    - The kernel's variables as bytes of memory.  The process table, the TSS, the
      keyboard's line and so on are records ([kernel], [kstate], [pfa], the
      tables), and so are the kernel stacks of the processes that do not run
      ([kcont]); memory is everything else.  A pointer that a program gives to
      SYS_READ, SYS_GETPROCS or SYS_LISTFILES may be the address of a variable,
      which is mapped and writable for the kernel, and the code does not check
      it; the call then overwrites the variable, which no theorem follows.  The
      theorems on single calls (Kernel.v, UserKernel.v, Int80.v) are about calls
      whose buffers are not there, and [kstep] has only such runs: [does] asks
      that they come out the same whatever is in that memory, and leave it
      alone.
    - The C code as the compiler translates it.  Between the entry and the exit
      of a system call or of an interrupt it runs on [machine] (Kernel.v), not on
      the registers of Cpu.v: the theorems of Cpu.v, Startup.v and Int80.v take
      what the calling convention promises of it (the stack pointer, the frame it
      leaves, the size of kmain's own frame) as hypotheses.
    - Translations that the processor remembers while the tables change: in
      Startup.v the buffer may hold any translation the tables gave
      ([remembers]), and paging_invalidate is proved to drop one; Cpu.v and the C
      code walk the tables, of which each change of cr3 is a fresh reading.
    - The compiled programs: Shell.v and Top.v are the C code, with its literals
      and variables at addresses that are parameters; that the bytes of the
      image are their machine code is not stated.
    - Keyboard interrupts during the boot, which are possible from idt_init on.
    - The directory walk and the file writes of mkfs.py: the input and the
      output of [build_fs].
    - Interrupts inside the kernel, other than in the `sti; hlt; cli` of SYS_READ
      and SYS_WAIT: the gates clear the interrupt flag, so that there are none. *)

From stdpp Require Import prelude gmap strings.
From Stdlib Require Import ZArith Lia.

Global Open Scope Z_scope.
#[global] Arguments Z.testbit : simpl never.

(** ** Machine integers

    C's unsigned types are modelled by [Z] with the wrap-around written out:
    [u32 x] is the value of [x] after conversion to [unsigned int], and
    likewise for the other widths. *)

Definition u8 (x : Z) : Z := x mod 256.
Definition u16 (x : Z) : Z := x mod 65536.
Definition u32 (x : Z) : Z := x mod 4294967296.
Definition u64 (x : Z) : Z := x mod 18446744073709551616.

(** Conversion of an [unsigned int] to [int] (two's complement, as GCC does). *)
Definition s32 (x : Z) : Z :=
  let v := u32 x in if v <? 2147483648 then v else v - 4294967296.

Declare Scope c_scope.
Delimit Scope c_scope with c.
Notation "a +ᵤ b" := (u32 (a + b)) (at level 50, left associativity) : c_scope.
Notation "a -ᵤ b" := (u32 (a - b)) (at level 50, left associativity) : c_scope.
Notation "a *ᵤ b" := (u32 (a * b)) (at level 40, left associativity) : c_scope.
Global Open Scope c_scope.

Abbreviation is_u8 x := (0 <= x < 256).
Abbreviation is_u32 x := (0 <= x < 4294967296).

(** ** Proof automation *)

Create HintDb kernel discriminated.
Create Rewrite HintDb words.

(** Arithmetic with the wrap-around unfolded. *)
Ltac word_lia :=
  unfold u8, u16, u32, u64 in *; Z.to_euclidean_division_equations; lia.

(** Case analysis on the boolean tests of the code. *)
Ltac zcase :=
  match goal with
  | |- context [?a <? ?b] => destruct (Z.ltb_spec a b)
  | |- context [?a <=? ?b] => destruct (Z.leb_spec a b)
  | |- context [?a =? ?b] => destruct (Z.eqb_spec a b)
  end.
Ltac zcases := repeat (zcase; simpl; try lia).
Ltac zcase_in H :=
  match type of H with
  | context [?a <? ?b] => destruct (Z.ltb_spec a b)
  | context [?a <=? ?b] => destruct (Z.leb_spec a b)
  | context [?a =? ?b] => destruct (Z.eqb_spec a b)
  end.

(** Resolve a boolean test whose outcome arithmetic decides. *)
Ltac ztest :=
  match goal with
  | |- context [?a <? ?b] =>
      first [ rewrite (proj2 (Z.ltb_lt a b)) by lia
            | rewrite (proj2 (Z.ltb_ge a b)) by lia ]
  | |- context [?a <=? ?b] =>
      first [ rewrite (proj2 (Z.leb_le a b)) by lia
            | rewrite (proj2 (Z.leb_gt a b)) by lia ]
  | |- context [?a =? ?b] =>
      first [ rewrite (proj2 (Z.eqb_eq a b)) by lia
            | rewrite (proj2 (Z.eqb_neq a b)) by lia ]
  end.

Lemma u32_small x : is_u32 x → u32 x = x.
Proof. intros. by apply Z.mod_small. Qed.

Lemma u8_small x : is_u8 x → u8 x = x.
Proof. intros. by apply Z.mod_small. Qed.

Lemma u32_range x : is_u32 (u32 x).
Proof. by apply Z.mod_pos_bound. Qed.

Lemma u8_range x : is_u8 (u8 x).
Proof. by apply Z.mod_pos_bound. Qed.

#[export] Hint Resolve u32_range u8_range : kernel.
#[export] Hint Rewrite u32_small u8_small using lia : words.

Lemma bind_Some {A B} (x : A) (f : A → option B) : (y ← Some x; f y) = f x.
Proof. done. Qed.

Lemma mod_pred a n : 0 < n → a mod n ≠ 0 → (a - 1) mod n = a mod n - 1.
Proof.
  intros Hn Ha. pose proof (Z.mod_pos_bound a n Hn).
  symmetry. apply Z.mod_unique_pos with (a / n); [lia|]. rewrite (Z.div_mod a n) at 1 by lia. lia.
Qed.

(** ** Loops

    [None] stands for undefined behaviour (an access outside an array, a page
    fault) or for a loop that does not end within its fuel, so that a theorem
    which exhibits [Some] shows the absence of all of them.

    [for_range lo hi body s] is [for (i = lo; i < hi; i++) body] on a state. *)

Fixpoint for_up {S} (n : nat) (i : Z) (body : Z → S → option S) (s : S)
    : option S :=
  match n with
  | O => Some s
  | Datatypes.S n' => s' ← body i s; for_up n' (i + 1) body s'
  end.

Definition for_range {S} (lo hi : Z) (body : Z → S → option S) (s : S)
    : option S :=
  for_up (Z.to_nat (hi - lo)) lo body s.

(** A [for] loop whose body may leave the function: [inl] goes on with the
    next iteration, [inr] returns. *)
Fixpoint loop_up {S R} (n : nat) (i : Z) (body : Z → S → option (S + R)) (s : S)
    : option (S + R) :=
  match n with
  | O => Some (inl s)
  | Datatypes.S n' =>
      o ← body i s;
      match o with
      | inl s' => loop_up n' (i + 1) body s'
      | inr r => Some (inr r)
      end
  end.

Definition loop_range {S R} (lo hi : Z) (body : Z → S → option (S + R)) (s : S)
    : option (S + R) :=
  loop_up (Z.to_nat (hi - lo)) lo body s.

(** A [while] loop runs its step at most [2 ^ n] times; the doubling keeps the
    fuel small enough to be evaluated. *)
Fixpoint while_loop {S R} (n : nat) (step : S → option (S + R)) (s : S)
    : option (S + R) :=
  match n with
  | O => step s
  | Datatypes.S n' =>
      o ← while_loop n' step s;
      match o with
      | inl s' => while_loop n' step s'
      | inr r => Some (inr r)
      end
  end.

(** Enough for every loop of a 32-bit program that makes progress: more steps
    than twice the number of addresses. *)
Definition while_fuel : nat := 33.

(** A [while] loop that returns: running out of fuel is [None]. *)
Definition while {S R} (step : S → option (S + R)) (s : S) : option R :=
  o ← while_loop while_fuel step s;
  match o with inl _ => None | inr r => Some r end.

Section loop_rules.
Context {S R : Type}.

Lemma for_up_ind (I : Z → S → Prop) body n i s :
  I i s →
  (∀ j s, i <= j < i + Z.of_nat n → I j s →
     ∃ s', body j s = Some s' ∧ I (j + 1) s') →
  ∃ s', for_up n i body s = Some s' ∧ I (i + Z.of_nat n) s'.
Proof.
  revert i s. induction n as [|n IH]; intros i s HI Hb; simpl.
  - exists s. by rewrite Z.add_0_r.
  - destruct (Hb i s) as (s' & -> & HI'); [lia|done|]. simpl.
    destruct (IH (i + 1) s' HI') as (s'' & -> & ?).
    + intros; apply Hb; [lia|done].
    + exists s''. split; [done|].
      by replace (i + Z.of_nat (Datatypes.S n)) with (i + 1 + Z.of_nat n) by lia.
Qed.

(** The total-correctness rule for [for] loops. *)
Lemma for_range_ind (I : Z → S → Prop) body lo hi s :
  lo <= hi → I lo s →
  (∀ j s, lo <= j < hi → I j s → ∃ s', body j s = Some s' ∧ I (j + 1) s') →
  ∃ s', for_range lo hi body s = Some s' ∧ I hi s'.
Proof.
  intros Hle HI Hb. unfold for_range.
  destruct (for_up_ind I body (Z.to_nat (hi - lo)) lo s) as (s' & -> & HI').
  - done.
  - intros; apply Hb; [lia|done].
  - exists s'. split; [done|]. by replace hi with (lo + Z.of_nat (Z.to_nat (hi - lo))) by lia.
Qed.

Lemma for_range_nil body lo hi (s : S) : hi <= lo → for_range lo hi body s = Some s.
Proof. intros. unfold for_range. by replace (Z.to_nat (hi - lo)) with O by lia. Qed.

Lemma for_range_cons body lo hi (s : S) :
  lo < hi → for_range lo hi body s = (s' ← body lo s; for_range (lo + 1) hi body s').
Proof.
  intros. unfold for_range.
  by replace (Z.to_nat (hi - lo)) with (Datatypes.S (Z.to_nat (hi - (lo + 1)))) by lia.
Qed.

Lemma loop_up_ind (I : Z → S → Prop) (Q : R → Prop) body n i s :
  I i s →
  (∀ j s, i <= j < i + Z.of_nat n → I j s →
     ∃ o, body j s = Some o ∧
          match o with inl s' => I (j + 1) s' | inr r => Q r end) →
  ∃ o, loop_up n i body s = Some o ∧
       match o with inl s' => I (i + Z.of_nat n) s' | inr r => Q r end.
Proof.
  revert i s. induction n as [|n IH]; intros i s HI Hb; simpl.
  - exists (inl s). by rewrite Z.add_0_r.
  - destruct (Hb i s) as ([s'|r] & -> & HI'); [lia|done| |]; simpl.
    + replace (i + Z.of_nat (Datatypes.S n)) with (i + 1 + Z.of_nat n) by lia.
      apply IH; [done|]. intros; apply Hb; [lia|done].
    + by exists (inr r).
Qed.

(** The total-correctness rule for [for] loops that may return. *)
Lemma loop_range_ind (I : Z → S → Prop) (Q : R → Prop) body lo hi s :
  lo <= hi → I lo s →
  (∀ j s, lo <= j < hi → I j s →
     ∃ o, body j s = Some o ∧
          match o with inl s' => I (j + 1) s' | inr r => Q r end) →
  ∃ o, loop_range lo hi body s = Some o ∧
       match o with inl s' => I hi s' | inr r => Q r end.
Proof.
  intros Hle HI Hb. unfold loop_range.
  destruct (loop_up_ind I Q body (Z.to_nat (hi - lo)) lo s HI) as (o & -> & Ho).
  - intros; apply Hb; [lia|done].
  - exists o. split; [done|].
    by replace (lo + Z.of_nat (Z.to_nat (hi - lo))) with hi in Ho by lia.
Qed.

Lemma while_loop_ind (I : S → Prop) (Q : R → Prop) (μ : S → Z) step n s :
  I s → 0 <= μ s →
  (∀ s, I s → ∃ o, step s = Some o ∧
     match o with inl s' => I s' ∧ 0 <= μ s' < μ s | inr r => Q r end) →
  ∃ o, while_loop n step s = Some o ∧
       match o with inl s' => I s' ∧ 0 <= μ s' <= μ s - 2 ^ Z.of_nat n
                  | inr r => Q r end.
Proof.
  intros HI Hμ Hs. revert s HI Hμ. induction n as [|n IH]; intros s HI Hμ.
  - destruct (Hs s HI) as (o & Ho & HQ). exists o. split; [done|].
    destruct o; [|done]. change (2 ^ Z.of_nat 0) with 1. naive_solver lia.
  - simpl. destruct (IH s HI Hμ) as ([s1|r] & -> & H1); simpl; [|by exists (inr r)].
    destruct H1 as [HI1 Hμ1].
    destruct (IH s1 HI1) as ([s2|r] & -> & H2); [lia| |by exists (inr r)].
    exists (inl s2). split; [done|]. destruct H2.
    rewrite Nat2Z.inj_succ, Z.pow_succ_r by lia. split; [done|lia].
Qed.

(** The total-correctness rule for [while] loops: an invariant, and a measure
    that decreases and fits in the fuel. *)
Lemma while_ind (I : S → Prop) (Q : R → Prop) (μ : S → Z) step s :
  I s → 0 <= μ s < 8589934592 →
  (∀ s, I s → ∃ o, step s = Some o ∧
     match o with inl s' => I s' ∧ 0 <= μ s' < μ s | inr r => Q r end) →
  ∃ r, while step s = Some r ∧ Q r.
Proof.
  intros HI Hμ Hs.
  destruct (while_loop_ind I Q μ step while_fuel s) as ([s'|r] & He & Ho); [done|lia|done| |].
  - destruct Ho as [_ Ho]. change (2 ^ Z.of_nat while_fuel) with 8589934592 in Ho. lia.
  - exists r. unfold while. by rewrite He.
Qed.

(** The same rule with the measure kept by the invariant. *)
Lemma while_rank (I : Z → S → Prop) (Q : R → Prop) step k s :
  I k s → 0 <= k < 8589934592 →
  (∀ k s, I k s → 0 <= k → ∃ o, step s = Some o ∧
     match o with inl s' => ∃ k', I k' s' ∧ 0 <= k' < k | inr r => Q r end) →
  ∃ r, while step s = Some r ∧ Q r.
Proof.
  intros HI Hk Hs. assert (∀ n k s, I k s → 0 <= k →
    ∃ o, while_loop n step s = Some o ∧
      match o with inl s' => ∃ k', I k' s' ∧ 0 <= k' <= k - 2 ^ Z.of_nat n | inr r => Q r end) as Hn.
  { clear - Hs. induction n as [|n IH]; intros k s HI Hk; cbn [while_loop].
    - destruct (Hs k s HI Hk) as (o & Ho & HQ). exists o. split; [done|].
      destruct o as [s'|r]; [|done]. destruct HQ as (k' & ? & ?). exists k'. split; [done|].
      change (2 ^ Z.of_nat 0) with 1. lia.
    - destruct (IH k s HI Hk) as ([s1|r] & -> & H1); rewrite bind_Some; [|by exists (inr r)].
      destruct H1 as (k1 & HI1 & Hk1). destruct (IH k1 s1 HI1) as ([s2|r] & -> & H2); [lia| |by exists (inr r)].
      exists (inl s2). split; [done|]. destruct H2 as (k2 & ? & ?). exists k2. split; [done|].
      rewrite Nat2Z.inj_succ, Z.pow_succ_r by lia. lia. }
  destruct (Hn while_fuel k s HI) as ([s'|r] & He & Ho); [lia| |].
  - destruct Ho as (k' & _ & Ho). change (2 ^ Z.of_nat while_fuel) with 8589934592 in Ho. lia.
  - exists r. unfold while. by rewrite He.
Qed.
End loop_rules.

#[global] Opaque while_fuel.
#[global] Arguments while : simpl never.
#[global] Arguments for_range : simpl never.
#[global] Arguments loop_range : simpl never.

(** ** Bits *)

(** Testing, setting and clearing one bit of a word with a mask. *)
Lemma testbit_shiftl1 b i : 0 <= b → 0 <= i → Z.testbit (Z.shiftl 1 b) i = (i =? b).
Proof.
  intros. rewrite Z.shiftl_1_l, Z.pow2_bits_eqb by done. apply Z.eqb_sym.
Qed.

Lemma land_bit_zero w b : 0 <= b → (Z.land w (Z.shiftl 1 b) =? 0) = negb (Z.testbit w b).
Proof.
  intros Hb. destruct (Z.testbit w b) eqn:Ht; simpl.
  - apply Z.eqb_neq. intros H. apply (f_equal (λ z, Z.testbit z b)) in H.
    rewrite Z.land_spec, Ht, testbit_shiftl1, Z.eqb_refl, Z.bits_0 in H by done. done.
  - apply Z.eqb_eq, Z.bits_inj'. intros i Hi.
    rewrite Z.land_spec, testbit_shiftl1, Z.bits_0 by done.
    destruct (Z.eqb_spec i b) as [->|]; [by rewrite Ht|apply andb_false_r].
Qed.

Lemma u32_shiftl1 b : 0 <= b < 32 → u32 (Z.shiftl 1 b) = Z.shiftl 1 b.
Proof.
  intros. apply u32_small. rewrite Z.shiftl_1_l.
  pose proof (Z.pow_lt_mono_r 2 b 32). pose proof (Z.pow_nonneg 2 b).
  change (2 ^ 32) with 4294967296 in *. lia.
Qed.

Lemma testbit_u32 x i : 0 <= i < 32 → Z.testbit (u32 x) i = Z.testbit x i.
Proof. intros. apply (Z.mod_pow2_bits_low x 32). lia. Qed.

Lemma u32_bits_high x i : is_u32 x → 32 <= i → Z.testbit x i = false.
Proof.
  intros Hx Hi. rewrite <- (Z.mod_small x (2 ^ 32)) by done.
  apply Z.mod_pow2_bits_high. lia.
Qed.

(** A word of which no bit above the 31st is set is an [unsigned int]. *)
Lemma u32_of_bits x : (∀ i, 32 <= i → Z.testbit x i = false) → is_u32 x.
Proof.
  intros H. enough (u32 x = x) as <- by apply u32_range.
  apply Z.bits_inj'. intros i Hi. destruct (Z.lt_ge_cases i 32).
  - apply testbit_u32. lia.
  - rewrite H by done. apply (Z.mod_pow2_bits_high x 32). lia.
Qed.

Lemma land_u32 x y : is_u32 x → is_u32 (Z.land x y).
Proof.
  intros Hx. apply u32_of_bits. intros i Hi. by rewrite Z.land_spec, u32_bits_high.
Qed.

Lemma lor_u32 x y : is_u32 x → is_u32 y → is_u32 (Z.lor x y).
Proof.
  intros Hx Hy. apply u32_of_bits. intros i Hi.
  by rewrite Z.lor_spec, !u32_bits_high.
Qed.
#[export] Hint Resolve land_u32 lor_u32 : kernel.

(** Masking off the low [k] bits rounds down; the low part and the rounded
    part put together give the word back. *)
Lemma land_high_mask k n v : 0 <= k → 0 <= n → 0 <= v < 2 ^ (k + n) →
  Z.land v (Z.shiftl (Z.ones n) k) = v / 2 ^ k * 2 ^ k.
Proof.
  intros Hk Hn Hv. rewrite <- Z.shiftr_div_pow2, <- Z.shiftl_mul_pow2 by done.
  apply Z.bits_inj'. intros i Hi. rewrite Z.land_spec, !Z.shiftl_spec by done.
  destruct (Z.lt_ge_cases i k).
  - rewrite !(Z.testbit_neg_r _ (i - k)) by lia. apply andb_false_r.
  - rewrite Z.shiftr_spec by lia. replace (i - k + k) with i by lia.
    destruct (Z.lt_ge_cases i (k + n)).
    + rewrite Z.ones_spec_low by lia. apply andb_true_r.
    + rewrite <- (Z.mod_small v (2 ^ (k + n))) by done.
      by rewrite Z.mod_pow2_bits_high by lia.
Qed.

Lemma lor_low k a b : 0 <= k → 0 <= b < 2 ^ k → Z.lor (a * 2 ^ k) b = a * 2 ^ k + b.
Proof.
  intros Hk Hb. rewrite <- Z.shiftl_mul_pow2 by done.
  enough (Z.land (Z.shiftl a k) b = 0) as H0
    by (rewrite Z.add_nocarry_lxor by done; symmetry; by apply Z.lxor_lor).
  apply Z.bits_inj'. intros i Hi. rewrite Z.land_spec, Z.shiftl_spec, Z.bits_0 by done.
  destruct (Z.lt_ge_cases i k).
  - by rewrite (Z.testbit_neg_r _ (i - k)) by lia.
  - rewrite <- (Z.mod_small b (2 ^ k)) by done.
    rewrite Z.mod_pow2_bits_high by done. apply andb_false_r.
Qed.

Lemma land_page v : is_u32 v → Z.land v 0xFFFFF000 = v / 4096 * 4096.
Proof. intros. by apply (land_high_mask 12 20). Qed.
Lemma land_large_page v : is_u32 v → Z.land v 0xFFC00000 = v / 4194304 * 4194304.
Proof. intros. by apply (land_high_mask 22 10). Qed.
Lemma land_page_offset v : Z.land v 0xFFF = v mod 4096.
Proof. by apply (Z.land_ones v 12). Qed.
Lemma land_large_page_offset v : Z.land v 0x3FFFFF = v mod 4194304.
Proof. by apply (Z.land_ones v 22). Qed.
Lemma land_pte_index v : Z.land v 0x3FF = v mod 1024.
Proof. by apply (Z.land_ones v 10). Qed.

(** ** Counting

    The number of integers in [0..n-1] that satisfy a boolean predicate. *)
Fixpoint count_upto (p : Z → bool) (n : nat) : Z :=
  match n with
  | O => 0
  | S n' => count_upto p n' + Z.b2z (p (Z.of_nat n'))
  end.

Lemma count_upto_bounds p n : 0 <= count_upto p n <= Z.of_nat n.
Proof. induction n; simpl; [lia|]. destruct (p _); simpl; lia. Qed.

Lemma count_upto_ext p q n :
  (∀ i, 0 <= i < Z.of_nat n → p i = q i) → count_upto p n = count_upto q n.
Proof.
  induction n as [|n IH]; intros H; simpl; [done|].
  rewrite IH, H by (lia || intros; apply H; lia). done.
Qed.

(** Turning one integer on adds one to the count. *)
Lemma count_upto_set p q f n : 0 <= f < Z.of_nat n →
  p f = false → (∀ i, 0 <= i < Z.of_nat n → q i = (i =? f) || p i) →
  count_upto q n = count_upto p n + 1.
Proof.
  induction n as [|n IH]; intros Hf Hp Hq; simpl; [lia|].
  destruct (decide (f = Z.of_nat n)) as [->|].
  - rewrite (count_upto_ext q p), (Hq (Z.of_nat n)), Z.eqb_refl, Hp; [simpl; lia|lia|].
    intros i Hi. rewrite Hq by lia. by ztest.
  - rewrite IH, (Hq (Z.of_nat n)); [|lia|lia|done|intros; apply Hq; lia].
    ztest. simpl. lia.
Qed.

(** Turning one integer off takes one from the count. *)
Lemma count_upto_clear p q f n : 0 <= f < Z.of_nat n →
  p f = true → (∀ i, 0 <= i < Z.of_nat n → q i = negb (i =? f) && p i) →
  count_upto q n = count_upto p n - 1.
Proof.
  intros Hf Hp Hq. enough (count_upto p n = count_upto q n + 1) by lia.
  apply (count_upto_set q p f); [done|by rewrite Hq, Z.eqb_refl|].
  intros i Hi. rewrite Hq by done. destruct (Z.eqb_spec i f) as [->|]; done.
Qed.

Lemma count_upto_true p n : (∀ i, 0 <= i < Z.of_nat n → p i = true) → count_upto p n = Z.of_nat n.
Proof.
  induction n as [|n IH]; intros H; simpl; [done|].
  rewrite IH, H by (lia || intros; apply H; lia). simpl. lia.
Qed.

Lemma count_upto_at_least p n lo hi : 0 <= lo <= hi → hi <= Z.of_nat n →
  (∀ i, lo <= i < hi → p i = true) → hi - lo <= count_upto p n.
Proof.
  revert hi. induction n as [|n IH]; intros hi Hlo Hhi Hp; simpl; [lia|].
  destruct (decide (hi = Z.of_nat (S n))) as [->|].
  - destruct (decide (lo = Z.of_nat (S n))) as [->|].
    + pose proof (count_upto_bounds p n). destruct (p _); simpl; lia.
    + rewrite (Hp (Z.of_nat n)) by lia. specialize (IH (Z.of_nat n)). simpl.
      assert (Z.of_nat n - lo <= count_upto p n); [|lia]. apply IH; [lia|lia|]. intros. apply Hp. lia.
  - assert (hi - lo <= count_upto p n) by (apply IH; [lia|lia|done]). destruct (p _); simpl; lia.
Qed.

Lemma count_upto_negb p n : count_upto (λ i, negb (p i)) n = Z.of_nat n - count_upto p n.
Proof. induction n as [|n IH]; simpl; [done|]. rewrite IH. destruct (p _); simpl; lia. Qed.

(** ** Labelled runs

    Finite sequences of steps, with the labels they produce put together. *)
Inductive run {S L} (step : S → list L → S → Prop) : S → list L → S → Prop :=
  | run_nil s : run step s [] s
  | run_cons s ls s' ls' s'' :
      step s ls s' → run step s' ls' s'' → run step s (ls ++ ls') s''.

(** An invariant of the steps that tells something of every label. *)
Lemma run_invariant {S L} (step : S → list L → S → Prop) (I : S → Prop) (Q : L → Prop) :
  (∀ s ls s', I s → step s ls s' → I s' ∧ Forall Q ls) →
  ∀ s ls s', run step s ls s' → I s → I s' ∧ Forall Q ls.
Proof.
  intros Hstep s ls s' Hr. induction Hr as [s|s ls s' ls' s'' Hs _ IH]; intros HI; [done|].
  destruct (Hstep _ _ _ HI Hs) as [HI' HQ]. destruct (IH HI') as [HI'' HQ'].
  split; [done|]. by apply Forall_app.
Qed.

(** ** String literals *)

(** The bytes of a literal of the source; [bytesln] adds the newline. *)
Definition bytes (s : string) : list Z := (λ c, Z.of_nat (Ascii.nat_of_ascii c)) <$> String.list_ascii_of_string s.
Definition bytesln (s : string) : list Z := bytes s ++ [10].

(** Strings one after the other, each padded to [slot] bytes: where a string of
    the list is. *)
Definition in_slot (slot : nat) (s : list Z) : list Z := s ++ replicate (slot - length s) 0.
Definition string_place (a : Z) (slot : nat) (strs : list (list Z)) (s : list Z) : Z :=
  a + Z.of_nat slot * Z.of_nat (default O (fst <$> list_find (λ s', s' = s) strs)).
