(* ===== verification/Ports.v ===== *)
(** * io.s: the I/O ports

    What passes through the ports is a trace, the oldest access first.  The
    drivers append to it; a device is a machine that reads it.  The value an
    [inb] gives is the device's: an argument [dev] of the code, which may
    depend on all that passed through the ports before. *)

From stdpp Require Import prelude.
From Stdlib Require Import ZArith Lia.
From S2P Require Import Prelude.

Inductive io :=
  | Out (port v : Z)
  | In (port v : Z).

Definition device := list io → Z → Z.

(** A byte to a 16-bit port. *)
Definition outb (port data : Z) (tr : list io) : list io := tr ++ [Out (u16 port) (u8 data)].

(** A byte from a 16-bit port. *)
Definition inb (dev : device) (port : Z) (tr : list io) : Z * list io :=
  let v := u8 (dev tr (u16 port)) in (v, tr ++ [In (u16 port) v]).

(** A device that sees the accesses of a trace one by one. *)
Definition observe {S} (step : S → io → S) (s : S) (tr : list io) : S := foldl step s tr.

Lemma observe_snoc {S} (step : S → io → S) s tr e : observe step s (tr ++ [e]) = step (observe step s tr) e.
Proof. unfold observe. by rewrite foldl_app. Qed.

Lemma observe_outb {S} (step : S → io → S) s p v tr :
  observe step s (outb p v tr) = step (observe step s tr) (Out (u16 p) (u8 v)).
Proof. apply observe_snoc. Qed.

(** Accesses a device does not answer to. *)
Lemma observe_skip {S} (step : S → io → S) s tr evs : Forall (λ e, ∀ s, step s e = s) evs →
  observe step s (tr ++ evs) = observe step s tr.
Proof.
  intros HF. unfold observe. rewrite foldl_app. generalize (foldl step s tr) as s'.
  induction HF as [|e evs He _ IH]; intros s'; [done|]. cbn [foldl]. by rewrite He.
Qed.

Create Rewrite HintDb ports.
#[export] Hint Rewrite @observe_outb @observe_snoc : ports.

(** What a port was sent. *)
Definition sent (port : Z) (tr : list io) : list Z :=
  omap (λ e, match e with Out p v => if p =? port then Some v else None | In _ _ => None end) tr.

Lemma sent_app port tr tr' : sent port (tr ++ tr') = sent port tr ++ sent port tr'.
Proof. unfold sent. by rewrite omap_app. Qed.
