(* ===== verification/Memory.v ===== *)
(** * Physical memory and address translation

    The kernel reads and writes raw memory through pointers, and from
    [paging_enable_identity] on every pointer goes through the page tables that
    [cr3] names.  This file holds the byte memory, its little-endian 32-bit
    view, the two-level page walk of the 80386 with 4 MiB pages ([walk]), and
    the accesses of kernel code ([kld8], [kst8], ...), which fail with [None]
    on a page fault.

    [kmapped cr3 R m] is the contract under which kernel code can be reasoned
    about as if memory were flat: on the addresses of [R] the current tables
    are the identity, and no write inside [R] can change that. *)

From stdpp Require Import prelude gmap.
From Stdlib Require Import ZArith Lia.
From S2P Require Import Prelude.

Abbreviation mem := (gmap Z Z).

(** ** Bytes and words *)

Definition ld8 (m : mem) (a : Z) : Z := u8 (default 0 (m !! u32 a)).
Definition st8 (m : mem) (a v : Z) : mem := <[u32 a := u8 v]> m.

Definition word_of (b0 b1 b2 b3 : Z) : Z :=
  b0 + 256 * b1 + 65536 * b2 + 16777216 * b3.

Definition ld32 (m : mem) (a : Z) : Z :=
  word_of (ld8 m a) (ld8 m (a + 1)) (ld8 m (a + 2)) (ld8 m (a + 3)).
Definition st32 (m : mem) (a v : Z) : mem :=
  st8 (st8 (st8 (st8 m a v) (a + 1) (v / 256)) (a + 2) (v / 65536))
      (a + 3) (v / 16777216).

(** Two memories with the same bytes. *)
#[export] Instance mem_equiv : Equiv mem :=
  λ m1 m2, ∀ a, is_u32 a → ld8 m1 a = ld8 m2 a.

(** [m'] differs from [m] only inside [R]. *)
Definition changes_only (R : Z → Prop) (m m' : mem) : Prop :=
  ∀ a, is_u32 a → ¬ R a → ld8 m' a = ld8 m a.

Definition within (lo len a : Z) : Prop := lo <= a < lo + len.
#[export] Instance within_dec lo len a : Decision (within lo len a).
Proof. unfold within. apply _. Defined.

(** ** The page walk

    [walk m cr3 va] is the physical address the processor uses for a
    supervisor access to [va] (CR4.PSE set, CR0.WP clear); [None] is a page
    fault.  [user_walk] is the walk for an access from ring 3: both levels must
    carry the user bit. *)

Definition pg_present (e : Z) : bool := Z.testbit e 0.
Definition pg_user (e : Z) : bool := Z.testbit e 2.
Definition pg_large (e : Z) : bool := Z.testbit e 7.

Definition pde_addr (cr3 va : Z) : Z := Z.land cr3 0xFFFFF000 + 4 * Z.shiftr va 22.
Definition pte_addr (pde va : Z) : Z :=
  Z.land pde 0xFFFFF000 + 4 * Z.land (Z.shiftr va 12) 0x3FF.

Definition walk (m : mem) (cr3 va : Z) : option Z :=
  let va := u32 va in
  let pde := ld32 m (pde_addr cr3 va) in
  if negb (pg_present pde) then None
  else if pg_large pde then
    Some (Z.lor (Z.land pde 0xFFC00000) (Z.land va 0x3FFFFF))
  else
    let pte := ld32 m (pte_addr pde va) in
    if negb (pg_present pte) then None
    else Some (Z.lor (Z.land pte 0xFFFFF000) (Z.land va 0xFFF)).

Definition user_walk (m : mem) (cr3 va : Z) : option Z :=
  let va := u32 va in
  let pde := ld32 m (pde_addr cr3 va) in
  if negb (pg_user pde) then None
  else if pg_large pde then walk m cr3 va
  else if pg_user (ld32 m (pte_addr pde va)) then walk m cr3 va else None.

(** ** Accesses of kernel code *)

Definition kld8 (cr3 : Z) (m : mem) (a : Z) : option Z :=
  pa ← walk m cr3 a; Some (ld8 m pa).
Definition kst8 (cr3 : Z) (m : mem) (a v : Z) : option mem :=
  pa ← walk m cr3 a; Some (st8 m pa v).

Definition kld32 (cr3 : Z) (m : mem) (a : Z) : option Z :=
  b0 ← kld8 cr3 m a; b1 ← kld8 cr3 m (a + 1);
  b2 ← kld8 cr3 m (a + 2); b3 ← kld8 cr3 m (a + 3);
  Some (word_of b0 b1 b2 b3).
Definition kst32 (cr3 : Z) (m : mem) (a v : Z) : option mem :=
  m ← kst8 cr3 m a v; m ← kst8 cr3 m (a + 1) (v / 256);
  m ← kst8 cr3 m (a + 2) (v / 65536); kst8 cr3 m (a + 3) (v / 16777216).

Definition kmapped (cr3 : Z) (R : Z → Prop) (m : mem) : Prop :=
  ∀ m', changes_only R m m' → ∀ a, is_u32 a → R a → walk m' cr3 a = Some a.

(** The byte at [a] reads as [v], and goes on doing so whatever is written
    inside [R]: how kernel code sees a buffer it does not own. *)
Definition kreads (cr3 : Z) (R : Z → Prop) (m : mem) (a v : Z) : Prop :=
  ∀ m', changes_only R m m' → kld8 cr3 m' a = Some v.

(** ** Lemmas: bytes and words *)

Lemma ld8_range m a : is_u8 (ld8 m a).
Proof. apply u8_range. Qed.
#[export] Hint Resolve ld8_range : kernel.

Lemma ld32_range m a : is_u32 (ld32 m a).
Proof.
  unfold ld32, word_of.
  pose proof (ld8_range m a). pose proof (ld8_range m (a + 1)).
  pose proof (ld8_range m (a + 2)). pose proof (ld8_range m (a + 3)). lia.
Qed.
#[export] Hint Resolve ld32_range : kernel.

Lemma ld8_st8 m a b v : is_u32 a → is_u32 b →
  ld8 (st8 m a v) b = if decide (a = b) then u8 v else ld8 m b.
Proof.
  intros Ha Hb. unfold ld8, st8. rewrite !u32_small by done.
  rewrite lookup_insert. case_decide; simpl; [|done]. word_lia.
Qed.

Lemma ld8_u32 m a : ld8 m (u32 a) = ld8 m a.
Proof. unfold ld8. do 3 f_equal. apply u32_small, u32_range. Qed.

Lemma ld32_u32_aligned m a : 0 <= u32 a <= 4294967292 → ld32 m (u32 a) = ld32 m a.
Proof.
  intros Ha. unfold ld32. rewrite ld8_u32.
  rewrite <- (ld8_u32 m (a + 1)), <- (ld8_u32 m (a + 2)), <- (ld8_u32 m (a + 3)).
  replace (u32 (a + 1)) with (u32 a + 1) by word_lia.
  replace (u32 (a + 2)) with (u32 a + 2) by word_lia.
  by replace (u32 (a + 3)) with (u32 a + 3) by word_lia.
Qed.

Lemma ld8_st32 m a b v : 0 <= a <= 4294967292 → is_u32 b → ¬ within a 4 b →
  ld8 (st32 m a v) b = ld8 m b.
Proof.
  unfold within. intros. unfold st32.
  rewrite !ld8_st8 by lia. repeat (case_decide; [lia|]). done.
Qed.

Lemma ld32_st32_eq m a v : 0 <= a <= 4294967292 → is_u32 v →
  ld32 (st32 m a v) a = v.
Proof.
  intros Ha Hv. unfold ld32, st32, word_of.
  rewrite !ld8_st8 by lia.
  repeat (case_decide; [try lia|try lia]). word_lia.
Qed.

Lemma ld32_ext m m' a : 0 <= a <= 4294967292 →
  (∀ b, within a 4 b → ld8 m' b = ld8 m b) → ld32 m' a = ld32 m a.
Proof.
  unfold within. intros Ha H. unfold ld32.
  by rewrite (H a), (H (a + 1)), (H (a + 2)), (H (a + 3)) by lia.
Qed.

Lemma ld32_st32_ne m a b v : 0 <= a <= 4294967292 → 0 <= b <= 4294967292 →
  a + 4 <= b ∨ b + 4 <= a → ld32 (st32 m a v) b = ld32 m b.
Proof.
  intros. apply ld32_ext; [done|]. unfold within. intros c Hc.
  apply ld8_st32; [done|lia|unfold within; lia].
Qed.

(** Storing back the word that is there changes no byte. *)
Lemma ld8_st32_same m a b : 0 <= a <= 4294967292 → is_u32 b →
  ld8 (st32 m a (ld32 m a)) b = ld8 m b.
Proof.
  intros Ha Hb. unfold st32. rewrite !ld8_st8 by lia. unfold ld32, word_of.
  pose proof (ld8_range m a). pose proof (ld8_range m (a + 1)).
  pose proof (ld8_range m (a + 2)). pose proof (ld8_range m (a + 3)).
  repeat case_decide; subst; word_lia.
Qed.

(** ** Lemmas: frames of changes *)

Lemma changes_only_refl R m : changes_only R m m.
Proof. done. Qed.
Lemma changes_only_trans R m1 m2 m3 :
  changes_only R m1 m2 → changes_only R m2 m3 → changes_only R m1 m3.
Proof. intros H1 H2 a Ha HR. by rewrite H2, H1. Qed.
Lemma changes_only_mono (R R' : Z → Prop) m m' :
  (∀ a, R a → R' a) → changes_only R m m' → changes_only R' m m'.
Proof. intros HR H a Ha Hn. apply H; naive_solver. Qed.
Lemma changes_only_st8 (R : Z → Prop) m a v : is_u32 a → R a → changes_only R m (st8 m a v).
Proof. intros Ha HR b Hb Hn. rewrite ld8_st8 by done. case_decide; naive_solver. Qed.
#[export] Hint Resolve changes_only_refl changes_only_trans changes_only_st8 : kernel.

Lemma kmapped_changes cr3 R m m' :
  kmapped cr3 R m → changes_only R m m' → kmapped cr3 R m'.
Proof. intros Hk Hc m2 H2. apply Hk. eauto with kernel. Qed.

Lemma kreads_changes cr3 R m m' a v :
  kreads cr3 R m a v → changes_only R m m' → kreads cr3 R m' a v.
Proof. intros Hk Hc m2 H2. apply Hk. eauto with kernel. Qed.

Lemma kreads_now cr3 R m a v : kreads cr3 R m a v → kld8 cr3 m a = Some v.
Proof. intros H. apply H, changes_only_refl. Qed.

Lemma kmapped_mono cr3 (R R' : Z → Prop) m :
  (∀ a, R' a → R a) → kmapped cr3 R m → kmapped cr3 R' m.
Proof.
  intros HR Hk m' Hc a Ha Ha'. apply Hk; [|done|by apply HR].
  by apply (changes_only_mono R').
Qed.

Section kmapped_access.
Context (cr3 : Z) (R : Z → Prop) (m : mem) (Hk : kmapped cr3 R m).

Lemma walk_kmapped a : is_u32 a → R a → walk m cr3 a = Some a.
Proof. apply Hk, changes_only_refl. Qed.

Lemma kld8_kmapped a : is_u32 a → R a → kld8 cr3 m a = Some (ld8 m a).
Proof. intros. unfold kld8. by rewrite walk_kmapped. Qed.

Lemma kst8_kmapped a v : is_u32 a → R a →
  kst8 cr3 m a v = Some (st8 m a v) ∧ kmapped cr3 R (st8 m a v).
Proof.
  intros. unfold kst8. rewrite walk_kmapped by done. split; [done|].
  eapply kmapped_changes; [exact Hk|]. by apply changes_only_st8.
Qed.

Lemma kld32_kmapped a : 0 <= a <= 4294967292 → (∀ b, within a 4 b → R b) →
  kld32 cr3 m a = Some (ld32 m a).
Proof.
  unfold within. intros Ha HR. unfold kld32.
  rewrite !kld8_kmapped by (lia || apply HR; lia). done.
Qed.
End kmapped_access.

Lemma kst32_kmapped cr3 R m a v :
  kmapped cr3 R m → 0 <= a <= 4294967292 → (∀ b, within a 4 b → R b) →
  kst32 cr3 m a v = Some (st32 m a v) ∧ changes_only R m (st32 m a v).
Proof.
  unfold within. intros Hk Ha HR. unfold kst32.
  destruct (kst8_kmapped _ _ _ Hk a v) as [-> H1]; [lia|apply HR; lia|]. simpl.
  destruct (kst8_kmapped _ _ _ H1 (a + 1) (v / 256)) as [-> H2]; [lia|apply HR; lia|]. simpl.
  destruct (kst8_kmapped _ _ _ H2 (a + 2) (v / 65536)) as [-> H3]; [lia|apply HR; lia|]. simpl.
  destruct (kst8_kmapped _ _ _ H3 (a + 3) (v / 16777216)) as [-> H4]; [lia|apply HR; lia|].
  split; [done|]. intros b Hb Hn. apply ld8_st32; [lia|done|]. intros ?. by apply Hn, HR.
Qed.

(** ** Buffers reached through any mapping

    [vmapped cr3 V phi m]: the virtual addresses of [V] translate by the
    injection [phi], and writes through them cannot change that.  This is how
    kernel code sees a buffer of the process that made a system call. *)
Record vmapped (cr3 : Z) (V : Z → Prop) (phi : Z → Z) (m : mem) : Prop := {
  vm_walk : ∀ m', changes_only (λ pa, ∃ va, V va ∧ phi va = pa) m m' →
              ∀ va, V va → walk m' cr3 va = Some (phi va);
  vm_range : ∀ va, V va → is_u32 va ∧ is_u32 (phi va);
  vm_inj : ∀ a b, V a → V b → phi a = phi b → a = b
}.

Definition image (V : Z → Prop) (phi : Z → Z) (pa : Z) : Prop := ∃ va, V va ∧ phi va = pa.

Lemma vmapped_changes cr3 V phi m m' :
  vmapped cr3 V phi m → changes_only (image V phi) m m' → vmapped cr3 V phi m'.
Proof.
  intros [Hw Hr Hi] Hc. split; [|done|done]. intros m2 H2. apply Hw. by eapply changes_only_trans.
Qed.

Lemma vmapped_mono cr3 (V V' : Z → Prop) phi m : (∀ a, V' a → V a) → vmapped cr3 V phi m → vmapped cr3 V' phi m.
Proof.
  intros HV [Hw Hr Hi]. split; [|naive_solver..]. intros m' Hc va Hva. apply Hw; [|by apply HV].
  eapply changes_only_mono; [|exact Hc]. intros pa (v & Hv & E). exists v. split; [by apply HV|exact E].
Qed.

(** One byte written to the buffer: that byte reads back, the others do not
    change. *)
Lemma vmapped_st8 cr3 V phi m va v :
  vmapped cr3 V phi m → V va → is_u8 v →
  ∃ m', kst8 cr3 m va v = Some m' ∧ changes_only (image V phi) m m' ∧
        kld8 cr3 m' va = Some v ∧
        ∀ vb, V vb → vb ≠ va → kld8 cr3 m' vb = kld8 cr3 m vb.
Proof.
  intros Hm HV Hv. pose proof Hm as [Hw Hr Hi]. destruct (Hr va HV) as [_ Hpa].
  assert (changes_only (image V phi) m (st8 m (phi va) v)) as Hc
    by (apply changes_only_st8; [done|by exists va]).
  exists (st8 m (phi va) v). split; [|split; [done|split]].
  - unfold kst8. rewrite (Hw m) by done. done.
  - unfold kld8. rewrite (Hw _ Hc va HV). simpl. rewrite ld8_st8 by done.
    rewrite decide_True by done. f_equal. by apply u8_small.
  - intros vb HVb Hne. unfold kld8. rewrite (Hw _ Hc vb HVb), (Hw m) by done. simpl.
    rewrite ld8_st8 by (done || by apply Hr). rewrite decide_False; [done|].
    intros Heq. apply Hne. by apply Hi.
Qed.

(** ** Byte strings in memory *)

(** The bytes [bs] can be read from [a] on. *)
Definition bytes_at (cr3 : Z) (m : mem) (a : Z) (bs : list Z) : Prop :=
  ∀ i b, bs !! i = Some b → kld8 cr3 m (a + Z.of_nat i) = Some b.

(** Memory with [bs] put at physical address [a]. *)
Fixpoint put_bytes (m : mem) (a : Z) (bs : list Z) : mem :=
  match bs with
  | [] => m
  | b :: bs' => st8 (put_bytes m (a + 1) bs') a b
  end.

Lemma ld8_put_bytes m a bs x : 0 <= a → a + Z.of_nat (length bs) <= 4294967296 → is_u32 x →
  ld8 (put_bytes m a bs) x =
    if decide (within a (Z.of_nat (length bs)) x) then u8 (nth (Z.to_nat (x - a)) bs 0) else ld8 m x.
Proof.
  revert a. induction bs as [|b bs IH]; intros a Ha Hlen Hx.
  { rewrite decide_False; [done|]. unfold within; simpl. lia. }
  cbn [put_bytes length] in *. rewrite ld8_st8 by lia. unfold within in *. case_decide as Hax.
  - subst. rewrite decide_True by lia. by rewrite Z.sub_diag.
  - rewrite IH by lia. repeat case_decide; try lia.
    by replace (Z.to_nat (x - a)) with (S (Z.to_nat (x - (a + 1)))) by lia.
Qed.

Lemma put_bytes_changes m a bs : 0 <= a → a + Z.of_nat (length bs) <= 4294967296 →
  changes_only (within a (Z.of_nat (length bs))) m (put_bytes m a bs).
Proof. intros Ha Hl x Hx Hn. rewrite ld8_put_bytes by done. by rewrite decide_False. Qed.

Lemma bytes_at_put cr3 (R : Z → Prop) m a bs : kmapped cr3 R (put_bytes m a bs) →
  0 <= a → a + Z.of_nat (length bs) <= 4294967296 →
  (∀ x, within a (Z.of_nat (length bs)) x → R x) → Forall (λ b, is_u8 b) bs →
  bytes_at cr3 (put_bytes m a bs) a bs.
Proof.
  unfold within. intros Hk Ha Hl HR HF i b Hi. pose proof (lookup_lt_Some _ _ _ Hi).
  rewrite (kld8_kmapped _ _ _ Hk) by (lia || apply HR; lia).
  rewrite ld8_put_bytes by lia. unfold within. rewrite decide_True by lia.
  replace (a + Z.of_nat i - a) with (Z.of_nat i) by lia. rewrite Nat2Z.id, (nth_lookup_Some _ _ _ _ Hi).
  f_equal. apply u8_small. by apply (proj1 (Forall_lookup _ _) HF i).
Qed.

Lemma bytes_at_app cr3 m a bs bs' :
  bytes_at cr3 m a (bs ++ bs') ↔
  bytes_at cr3 m a bs ∧ bytes_at cr3 m (a + Z.of_nat (length bs)) bs'.
Proof.
  unfold bytes_at. split.
  - intros H. split; intros i b Hi.
    + apply H. by rewrite lookup_app_l by (by eapply lookup_lt_Some).
    + rewrite <- Z.add_assoc, <- Nat2Z.inj_add. apply H. rewrite lookup_app_r by lia. rewrite <- Hi.
      f_equal. lia.
  - intros [H1 H2] i b Hi. apply lookup_app_Some in Hi as [Hi|[Hge Hi]]; [by apply H1|].
    rewrite <- (H2 _ _ Hi). f_equal. lia.
Qed.

Lemma bytes_at_changes cr3 (R W : Z → Prop) m m' a bs :
  kmapped cr3 R m → bytes_at cr3 m a bs → changes_only W m m' → (∀ x, W x → R x) →
  0 <= a → a + Z.of_nat (length bs) <= 4294967296 →
  (∀ x, within a (Z.of_nat (length bs)) x → R x ∧ ¬ W x) → bytes_at cr3 m' a bs.
Proof.
  unfold within. intros Hk Hb Hc HWR Ha Hl HR i b Hi. pose proof (lookup_lt_Some _ _ _ Hi).
  rewrite <- (Hb _ _ Hi). assert (kmapped cr3 R m') as Hk'
    by (eapply kmapped_changes; [exact Hk|by eapply changes_only_mono]).
  destruct (HR (a + Z.of_nat i)) as [HRa HWa]; [lia|].
  rewrite (kld8_kmapped _ _ _ Hk), (kld8_kmapped _ _ _ Hk') by (lia || done). f_equal.
  apply Hc; [lia|done].
Qed.

(** The little-endian bytes of a word. *)
Definition le_bytes (v : Z) : list Z :=
  [v mod 256; v / 256 mod 256; v / 65536 mod 256; v / 16777216 mod 256].

Lemma kld32_le_bytes cr3 m a v : is_u32 v → bytes_at cr3 m a (le_bytes v) → kld32 cr3 m a = Some v.
Proof.
  intros Hv Hb. unfold kld32. pose proof (Hb O _ eq_refl) as H0. rewrite Z.add_0_r in H0.
  pose proof (Hb 1%nat _ eq_refl) as H1. pose proof (Hb 2%nat _ eq_refl) as H2.
  pose proof (Hb 3%nat _ eq_refl) as H3.
  change (Z.of_nat 1) with 1 in H1. change (Z.of_nat 2) with 2 in H2. change (Z.of_nat 3) with 3 in H3.
  rewrite H0, H1, H2, H3. simpl. unfold word_of. f_equal. word_lia.
Qed.

(** Bytes written one after the other. *)
Fixpoint kwrite (cr3 : Z) (m : mem) (a : Z) (bs : list Z) : option mem :=
  match bs with
  | [] => Some m
  | b :: bs' => m ← kst8 cr3 m a b; kwrite cr3 m (a + 1) bs'
  end.

Lemma kwrite_app cr3 m a bs bs' :
  kwrite cr3 m a (bs ++ bs') = (m ← kwrite cr3 m a bs; kwrite cr3 m (a + Z.of_nat (length bs)) bs').
Proof.
  revert m a. induction bs as [|b bs IH]; intros m a; simpl; [by rewrite Z.add_0_r|].
  destruct (kst8 cr3 m a b) as [m1|]; simpl; [|done]. rewrite IH.
  by replace (a + 1 + Z.of_nat (length bs)) with (a + Z.of_nat (S (length bs))) by lia.
Qed.

Lemma kld8_u8 cr3 m a b : kld8 cr3 m a = Some b → is_u8 b.
Proof.
  unfold kld8. intros H. apply option.bind_Some in H as (pa & _ & H). simplify_eq. apply u8_range.
Qed.

Lemma kst8_u8 cr3 m a v : kst8 cr3 m a (u8 v) = kst8 cr3 m a v.
Proof. unfold kst8, st8. destruct (walk m cr3 a); simpl; [|done]. by rewrite (u8_small (u8 v)) by apply u8_range. Qed.

Lemma kst32_kwrite cr3 m a v : kst32 cr3 m a v = kwrite cr3 m a (le_bytes v).
Proof.
  unfold kst32. simpl. change (v mod 256) with (u8 v). change (v / 256 mod 256) with (u8 (v / 256)).
  change (v / 65536 mod 256) with (u8 (v / 65536)). change (v / 16777216 mod 256) with (u8 (v / 16777216)).
  rewrite kst8_u8. destruct (kst8 cr3 m a v) as [m1|]; simpl; [|done].
  rewrite kst8_u8. destruct (kst8 cr3 m1 _ _) as [m2|]; simpl; [|done].
  replace (a + 1 + 1) with (a + 2) by lia. rewrite kst8_u8.
  destruct (kst8 cr3 m2 _ _) as [m3|]; simpl; [|done].
  replace (a + 2 + 1) with (a + 3) by lia. rewrite kst8_u8. by destruct (kst8 cr3 m3 _ _).
Qed.

Lemma kwrite_vmapped cr3 V phi m a bs : vmapped cr3 V phi m →
  (∀ x, within a (Z.of_nat (length bs)) x → V x) → Forall (λ b, is_u8 b) bs →
  ∃ m', kwrite cr3 m a bs = Some m' ∧ changes_only (image V phi) m m' ∧ bytes_at cr3 m' a bs ∧
        ∀ x, V x → ¬ within a (Z.of_nat (length bs)) x → kld8 cr3 m' x = kld8 cr3 m x.
Proof.
  revert m a. induction bs as [|b bs IH]; intros m a Hm HV HF; cbn [kwrite length] in *.
  { exists m. done. }
  apply Forall_cons in HF as [Hb HF]. unfold within in *.
  destruct (vmapped_st8 cr3 V phi m a b Hm) as (m1 & -> & Hc1 & Hn1 & Ho1); [apply HV; lia|done|].
  rewrite bind_Some. destruct (IH m1 (a + 1)) as (m' & -> & Hc & Hb' & Ho);
    [by eapply vmapped_changes|intros; apply HV; lia|done|].
  exists m'. split; [done|]. split; [by eapply changes_only_trans|]. split.
  - intros [|i] x Hx; simpl in Hx.
    + simplify_eq. rewrite Z.add_0_r, Ho by (lia || apply HV; lia). done.
    + rewrite <- (Hb' _ _ Hx). f_equal. lia.
  - intros x Hx Hn. rewrite Ho, Ho1 by (done || lia). done.
Qed.

Lemma le_bytes_u8 v : Forall (λ b, is_u8 b) (le_bytes v).
Proof. unfold le_bytes. repeat constructor; apply Z.mod_pos_bound; lia. Qed.

(** A loop that copies an array to memory. *)
Lemma kwrite_for cr3 m (f : Z → Z) a l n :
  0 <= n <= Z.of_nat (length l) → (∀ i, 0 <= i < n → f i = a + i) →
  for_range 0 n (λ i m, b ← l !! Z.to_nat i; kst8 cr3 m (f i) b) m = kwrite cr3 m a (take (Z.to_nat n) l).
Proof.
  intros Hn Hf.
  assert (∀ k j m, Z.of_nat k = n - j → 0 <= j →
    for_range j n (λ i m, b ← l !! Z.to_nat i; kst8 cr3 m (f i) b) m =
    kwrite cr3 m (a + j) (take k (drop (Z.to_nat j) l))) as Hgen.
  { induction k as [|k IH]; intros j m1 Hk Hj.
    - rewrite for_range_nil by lia. done.
    - rewrite for_range_cons by lia. destruct (lookup_lt_is_Some_2 l (Z.to_nat j)) as [b Hb]; [lia|].
      rewrite (drop_S _ _ _ Hb), Hb. cbn [take kwrite]. rewrite bind_Some, Hf by lia.
      destruct (kst8 cr3 m1 (a + j) b) as [m2|]; [|done]. rewrite !bind_Some, IH by lia.
      replace (Z.to_nat (j + 1)) with (S (Z.to_nat j)) by lia. f_equal. lia. }
  rewrite (Hgen (Z.to_nat n) 0 m) by lia. by rewrite Z.add_0_r.
Qed.
