(* ===== verification/Kutil.v ===== *)
(** * kutil.c: memset, memcpy, strcmp, strlen

    Each function runs on the memory the page tables of [cr3] show, byte by
    byte as the C loops do.  Strings are described by [cstring_at]: the bytes
    before the terminating NUL, read through any address. *)

From stdpp Require Import prelude gmap.
From Stdlib Require Import ZArith Lia.
From S2P Require Import Prelude Memory.

(** ** The functions *)

Definition memset (cr3 : Z) (m : mem) (s c n : Z) : option (Z * mem) :=
  m ← for_range 0 n (λ i m, kst8 cr3 m (s +ᵤ i) (u8 c)) m;
  Some (s, m).

Definition memcpy (cr3 : Z) (m : mem) (dest src n : Z) : option (Z * mem) :=
  m ← for_range 0 n (λ i m, b ← kld8 cr3 m (src +ᵤ i); kst8 cr3 m (dest +ᵤ i) b) m;
  Some (dest, m).

(** The loop of strcmp on the pair of pointers; the result is the difference
    of the bytes where it stops. *)
Definition strcmp_step (cr3 : Z) (m : mem) (p : Z * Z) : option ((Z * Z) + Z) :=
  let '(s1, s2) := p in
  b1 ← kld8 cr3 m s1;
  b2 ← kld8 cr3 m s2;
  if negb (b1 =? 0) && (b1 =? b2) then Some (inl (s1 +ᵤ 1, s2 +ᵤ 1))
  else Some (inr (b1 - b2)).
Definition strcmp (cr3 : Z) (m : mem) (s1 s2 : Z) : option Z :=
  while (strcmp_step cr3 m) (s1, s2).

Definition strlen_step (cr3 : Z) (m : mem) (s len : Z) : option (Z + Z) :=
  b ← kld8 cr3 m (s +ᵤ len);
  if b =? 0 then Some (inr len) else Some (inl (len +ᵤ 1)).
Definition strlen (cr3 : Z) (m : mem) (s : Z) : option Z :=
  while (strlen_step cr3 m s) 0.

(** ** Specifications *)

(** The C string at [s] is [bs]: its bytes are not NUL, and a NUL follows. *)
Record cstring_at (cr3 : Z) (m : mem) (s : Z) (bs : list Z) : Prop := {
  cs_addr : is_u32 s;
  cs_fits : s + Z.of_nat (length bs) < 4294967296;
  cs_bytes : ∀ i b, bs !! i = Some b → kld8 cr3 m (s + Z.of_nat i) = Some b ∧ 0 < b < 256;
  cs_nul : kld8 cr3 m (s + Z.of_nat (length bs)) = Some 0
}.

(** The lexicographic comparison strcmp computes, on byte strings. *)
Fixpoint str_diff (a b : list Z) : Z :=
  match a, b with
  | [], [] => 0
  | [], y :: _ => - y
  | x :: _, [] => x
  | x :: a', y :: b' => if x =? y then str_diff a' b' else x - y
  end.

(** ** Proofs *)

(** Copying or filling one byte at a time changes exactly the destination. *)
Lemma memset_spec cr3 R m s c n :
  kmapped cr3 R m → 0 <= s → 0 <= n → s + n <= 4294967296 →
  (∀ a, within s n a → R a) →
  ∃ m', memset cr3 m s c n = Some (s, m') ∧
        ∀ a, is_u32 a → ld8 m' a = if decide (within s n a) then u8 c else ld8 m a.
Proof.
  unfold within. intros Hk Hs Hn Hsn HR. unfold memset.
  destruct (for_range_ind (λ i m', changes_only R m m' ∧
      ∀ a, is_u32 a → ld8 m' a = if decide (within s i a) then u8 c else ld8 m a)
    (λ i m, kst8 cr3 m (s +ᵤ i) (u8 c)) 0 n m) as (m' & -> & _ & Hm');
    unfold within in *; simpl; [done| | |by eauto].
  - split; [done|]. intros. by rewrite decide_False by lia.
  - intros j m1 Hj [Hc1 Hm1].
    assert (u32 (s + j) = s + j) as -> by (apply u32_small; lia).
    destruct (kst8_kmapped cr3 R m1 (kmapped_changes _ _ _ _ Hk Hc1) (s + j) (u8 c))
      as [-> _]; [lia|apply HR; lia|].
    eexists. split; [done|]. split.
    + eapply changes_only_trans; [done|]. apply changes_only_st8; [lia|apply HR; lia].
    + intros a Ha. rewrite ld8_st8, Hm1 by lia.
      repeat case_decide; try lia. apply u8_small, u8_range.
Qed.

Lemma memcpy_spec cr3 R m dest src n (f : Z → Z) :
  kmapped cr3 R m → 0 <= dest → 0 <= src → 0 <= n →
  dest + n <= 4294967296 → src + n <= 4294967296 →
  (∀ a, within dest n a → R a) →
  (∀ i, 0 <= i < n → kreads cr3 (within dest n) m (src + i) (f i)) →
  ∃ m', memcpy cr3 m dest src n = Some (dest, m') ∧
        ∀ a, is_u32 a → ld8 m' a = if decide (within dest n a) then u8 (f (a - dest)) else ld8 m a.
Proof.
  unfold within. intros Hk Hd Hs Hn Hdn Hsn HR Hf. unfold memcpy.
  destruct (for_range_ind (λ i m', changes_only (within dest n) m m' ∧
      ∀ a, is_u32 a → ld8 m' a = if decide (within dest i a) then u8 (f (a - dest)) else ld8 m a)
    (λ i m, b ← kld8 cr3 m (src +ᵤ i); kst8 cr3 m (dest +ᵤ i) b) 0 n m) as (m' & -> & _ & Hm');
    unfold within in *; simpl; [done| | |by eauto].
  - split; [done|]. intros. by rewrite decide_False by lia.
  - intros j m1 Hj [Hc1 Hm1].
    assert (u32 (src + j) = src + j) as -> by (apply u32_small; lia).
    assert (u32 (dest + j) = dest + j) as -> by (apply u32_small; lia).
    rewrite (Hf j Hj m1 Hc1). simpl.
    assert (changes_only R m m1) as HcR by (by eapply changes_only_mono; [|exact Hc1]).
    destruct (kst8_kmapped cr3 R m1 (kmapped_changes _ _ _ _ Hk HcR) (dest + j) (f j))
      as [-> _]; [lia|apply HR; lia|].
    eexists. split; [done|]. split.
    + eapply changes_only_trans; [done|]. apply changes_only_st8; lia.
    + intros a Ha. rewrite ld8_st8, Hm1 by lia.
      repeat case_decide; try lia. do 2 f_equal. lia.
Qed.

(** ** strlen and strcmp *)

Lemma strlen_spec cr3 m s bs :
  cstring_at cr3 m s bs → strlen cr3 m s = Some (Z.of_nat (length bs)).
Proof.
  intros [Ha Hf Hb H0].
  destruct (while_ind (λ n, 0 <= n <= Z.of_nat (length bs))
    (λ r, r = Z.of_nat (length bs)) (λ n, Z.of_nat (length bs) - n)
    (strlen_step cr3 m s) 0) as (r & Hr & ->); simpl; [lia|lia| |done].
  intros n Hn. unfold strlen_step. rewrite (u32_small (s + n)) by lia.
  destruct (decide (n = Z.of_nat (length bs))) as [->|Hne].
  - rewrite H0. eexists. split; [done|]. done.
  - destruct (lookup_lt_is_Some_2 bs (Z.to_nat n)) as [b Hlk]; [lia|].
    destruct (Hb _ _ Hlk) as [Hl ?]. rewrite Z2Nat.id in Hl by lia. rewrite Hl. simpl.
    ztest. eexists. split; [done|]. simpl. rewrite u32_small by lia. lia.
Qed.

Lemma str_diff_zero a b : Forall (λ x, 0 < x) a → Forall (λ x, 0 < x) b →
  str_diff a b = 0 ↔ a = b.
Proof.
  intros Ha. revert b. induction Ha as [|x a Hx Ha IH]; intros b Hb; destruct Hb as [|y b Hy Hb]; simpl.
  - done.
  - split; [lia|done].
  - split; [lia|done].
  - destruct (Z.eqb_spec x y) as [->|]; [rewrite IH by done; naive_solver|].
    split; [lia|]. intros; naive_solver.
Qed.

Lemma cstring_drop cr3 m s b bs :
  cstring_at cr3 m s (b :: bs) → cstring_at cr3 m (s + 1) bs.
Proof.
  intros [Ha Hf Hb H0]. simpl in *. split; [lia|lia| |].
  - intros i x Hx. replace (s + 1 + Z.of_nat i) with (s + Z.of_nat (S i)) by lia. by apply Hb.
  - by replace (s + 1 + Z.of_nat (length bs)) with (s + Z.of_nat (S (length bs))) by lia.
Qed.

Lemma cstring_head cr3 m s bs : cstring_at cr3 m s bs →
  kld8 cr3 m s = Some (default 0 (head bs)) ∧
  (∀ b, head bs = Some b → 0 < b < 256).
Proof.
  intros [Ha Hf Hb H0]. destruct bs as [|b bs]; simpl in *.
  - by rewrite Z.add_0_r in H0.
  - destruct (Hb O b eq_refl) as [Hl ?]. rewrite Z.add_0_r in Hl. split; [done|]. naive_solver.
Qed.

Lemma cstring_positive cr3 m s bs : cstring_at cr3 m s bs → Forall (λ x, 0 < x) bs.
Proof.
  intros [_ _ Hb _]. apply Forall_lookup. intros i x Hx. apply Hb in Hx. lia.
Qed.

(** strcmp is the lexicographic difference, for strings at any two addresses. *)
Lemma strcmp_spec cr3 m s1 s2 a b :
  cstring_at cr3 m s1 a → cstring_at cr3 m s2 b →
  strcmp cr3 m s1 s2 = Some (str_diff a b).
Proof.
  intros Ha Hb.
  destruct (while_ind
    (λ p, ∃ a' b', cstring_at cr3 m p.1 a' ∧ cstring_at cr3 m p.2 b' ∧
                   str_diff a' b' = str_diff a b ∧ Z.of_nat (length a') = s1 + Z.of_nat (length a) - p.1)
    (λ r, r = str_diff a b) (λ p, s1 + Z.of_nat (length a) - p.1)
    (strcmp_step cr3 m) (s1, s2)) as (r & Hr & ->); simpl; [| | |done].
  - exists a, b. split; [done|]. split; [done|]. split; [done|lia].
  - destruct Ha. lia.
  - clear Ha Hb. intros [p q] (a' & b' & Ha & Hb & Hd & Hlen); simpl in *.
    destruct (cstring_head _ _ _ _ Ha) as [-> Ha']. destruct (cstring_head _ _ _ _ Hb) as [-> Hb'].
    simpl. destruct a' as [|x a'], b' as [|y b']; simpl in *.
    + eexists. split; [done|]. naive_solver.
    + eexists. split; [done|]. simpl. specialize (Hb' y eq_refl). lia.
    + specialize (Ha' x eq_refl). ztest. simpl. eexists. split; [done|]. simpl. lia.
    + specialize (Ha' x eq_refl). ztest. simpl. destruct (Z.eqb_spec x y) as [->|].
      * eexists. split; [done|]. simpl.
        pose proof (cs_fits _ _ _ _ Ha). pose proof (cs_fits _ _ _ _ Hb).
        pose proof (cs_addr _ _ _ _ Ha). pose proof (cs_addr _ _ _ _ Hb). simpl in *.
        rewrite !u32_small by lia. split; [|lia].
        exists a', b'. split; [|split; [|split; [done|lia]]]; by eapply cstring_drop.
      * eexists. split; [done|]. simpl. lia.
Qed.

(** strcmp returns zero exactly on equal strings. *)
Lemma strcmp_eq cr3 m s1 s2 a b :
  cstring_at cr3 m s1 a → cstring_at cr3 m s2 b →
  ∃ r, strcmp cr3 m s1 s2 = Some r ∧ (r = 0 ↔ a = b).
Proof.
  intros Ha Hb. exists (str_diff a b). split; [by apply strcmp_spec|].
  apply str_diff_zero; by eapply cstring_positive.
Qed.

(** ** Copying into a buffer reached through any mapping *)

Lemma memcpy_vmapped cr3 V phi m dest src (bs : list Z) :
  vmapped cr3 V phi m →
  0 <= dest → dest + Z.of_nat (length bs) <= 4294967296 →
  0 <= src → src + Z.of_nat (length bs) <= 4294967296 →
  (∀ a, within dest (Z.of_nat (length bs)) a → V a) →
  (∀ i b, bs !! i = Some b → is_u8 b ∧ kreads cr3 (image V phi) m (src + Z.of_nat i) b) →
  ∃ m', memcpy cr3 m dest src (Z.of_nat (length bs)) = Some (dest, m') ∧
        changes_only (image V phi) m m' ∧
        (∀ i b, bs !! i = Some b → kld8 cr3 m' (dest + Z.of_nat i) = Some b) ∧
        (∀ a, V a → ¬ within dest (Z.of_nat (length bs)) a → kld8 cr3 m' a = kld8 cr3 m a).
Proof.
  unfold within. intros Hm Hd Hdn Hs Hsn HV Hb. unfold memcpy.
  destruct (for_range_ind (λ i m', changes_only (image V phi) m m' ∧
      (∀ j b, bs !! j = Some b → Z.of_nat j < i → kld8 cr3 m' (dest + Z.of_nat j) = Some b) ∧
      (∀ a, V a → ¬ within dest i a → kld8 cr3 m' a = kld8 cr3 m a))
    (λ i m, b ← kld8 cr3 m (src +ᵤ i); kst8 cr3 m (dest +ᵤ i) b) 0 (Z.of_nat (length bs)) m)
    as (m' & -> & Hc & H1 & H2); [lia|split_and!; [done|lia|done]| |].
  - unfold within. intros j m1 Hj (Hc1 & H1 & H2).
    rewrite (u32_small (src + j)), (u32_small (dest + j)) by lia.
    destruct (lookup_lt_is_Some_2 bs (Z.to_nat j)) as [b Hlk]; [lia|].
    destruct (Hb _ _ Hlk) as [Hbr Hrd]. rewrite Z2Nat.id in Hrd by lia. rewrite (Hrd m1 Hc1). simpl.
    destruct (vmapped_st8 cr3 V phi m1 (dest + j) b) as (m2 & -> & Hc2 & Hn & Ho);
      [by eapply vmapped_changes|apply HV; lia|done|].
    exists m2. split; [done|]. split; [by eapply changes_only_trans|]. split.
    + intros k b' Hk Hkj. destruct (decide (Z.of_nat k = j)) as [<-|].
      * rewrite Nat2Z.id in Hlk. by simplify_eq.
      * rewrite Ho by (lia || apply HV; apply lookup_lt_Some in Hk; lia). apply H1; [done|lia].
    + intros a Ha Hna. rewrite Ho by (done || lia). apply H2; [done|lia].
  - simpl. exists m'. split; [done|]. split; [done|]. split; [|done].
    intros i b Hi. apply H1; [done|]. apply lookup_lt_Some in Hi. lia.
Qed.
