(* ===== verification/FrameAlloc.v ===== *)
(** * The interface between the frame allocator and its clients

    paging4k.c and process.c only need a few promises of pfa.c.  They
    are stated here as a type class; Pfa.v discharges it for the bitmap
    allocator, and the clients are verified against it. *)

From stdpp Require Import prelude.
From Stdlib Require Import ZArith Lia.
From S2P Require Import Prelude.

Abbreviation PAGE_SIZE := 4096.
Abbreviation MAX_FRAMES := 1048576.

(** The operations: which frames are free, and the allocation call, which
    returns a physical address, [0] for none. *)
Class FrameAlloc (A : Type) := {
  fa_ok : A → Prop;
  fa_free : A → Z → bool;
  fa_alloc : A → option (Z * A)
}.

(** What one call of the allocator does: it hands out the address of a free
    frame other than frame zero and takes exactly that frame, or it returns
    [0] and there was none. *)
Record alloc_step {A} `{FrameAlloc A} (s : A) (a : Z) (s' : A) : Prop := {
  as_ok : fa_ok s';
  as_frames :
    (a = 0 ∧ s' = s ∧ ∀ g, 0 <= g < MAX_FRAMES → fa_free s g = false) ∨
    (∃ f, a = f * PAGE_SIZE ∧ 0 < f < MAX_FRAMES ∧ fa_free s f = true ∧
       ∀ g, 0 <= g < MAX_FRAMES → fa_free s' g = negb (g =? f) && fa_free s g)
}.

Class FrameAllocLaws (A : Type) `{FrameAlloc A} := {
  fa_alloc_step : ∀ s : A, fa_ok s →
    ∃ a s', fa_alloc s = Some (a, s') ∧ alloc_step s a s'
}.
