(* ===== verification/Pfa.v ===== *)
(** * pfa.c: the bitmap page-frame allocator

    The allocator's three static variables are the record [pfa]; the bitmap is
    a list of 32-bit words, and an access outside it is [None].  The abstract
    view is [frame_used], one boolean per frame, and the invariant [pfa_wf]
    ties the counter to it. *)

From stdpp Require Import prelude gmap.
From Stdlib Require Import ZArith Lia.
From S2P Require Import Prelude Memory FrameAlloc.

Abbreviation BITMAP_WORD_BITS := 32.
Abbreviation BITMAP_WORDS := 32768.

Record pfa := mkPfa {
  frame_bitmap : list Z;
  total_frame_count : Z;
  used_frame_count : Z
}.

(** ** Helpers *)

Definition bnot32 (x : Z) : Z := u32 (Z.lnot x).

Definition align_up (value align : Z) : Z :=
  Z.land (value +ᵤ (align -ᵤ 1)) (bnot32 (align -ᵤ 1)).

Definition align_down (value align : Z) : Z :=
  Z.land value (bnot32 (align -ᵤ 1)).

Definition set_word (st : pfa) (word v used : Z) : pfa :=
  {| frame_bitmap := <[Z.to_nat word := v]> (frame_bitmap st);
     total_frame_count := total_frame_count st;
     used_frame_count := used |}.

Definition mark_used (frame_idx : Z) (st : pfa) : option pfa :=
  let word := frame_idx / BITMAP_WORD_BITS in
  let bit := frame_idx mod BITMAP_WORD_BITS in
  let mask := u32 (Z.shiftl 1 bit) in
  w ← frame_bitmap st !! Z.to_nat word;
  if Z.land w mask =? 0
  then Some (set_word st word (Z.lor w mask) (used_frame_count st +ᵤ 1))
  else Some st.

Definition mark_free (frame_idx : Z) (st : pfa) : option pfa :=
  let word := frame_idx / BITMAP_WORD_BITS in
  let bit := frame_idx mod BITMAP_WORD_BITS in
  let mask := u32 (Z.shiftl 1 bit) in
  w ← frame_bitmap st !! Z.to_nat word;
  if negb (Z.land w mask =? 0)
  then Some (set_word st word (Z.land w (bnot32 mask)) (used_frame_count st -ᵤ 1))
  else Some st.

Definition is_used (frame_idx : Z) (st : pfa) : option Z :=
  let word := frame_idx / BITMAP_WORD_BITS in
  let bit := frame_idx mod BITMAP_WORD_BITS in
  w ← frame_bitmap st !! Z.to_nat word;
  Some (Z.land (Z.shiftr w bit) 1).

Definition mark_region_free (start_addr end_addr : Z) (st : pfa) : option pfa :=
  let start := align_up start_addr PAGE_SIZE in
  let end_ := align_down end_addr PAGE_SIZE in
  if end_ <=? start then Some st
  else for_range (start / PAGE_SIZE) (end_ / PAGE_SIZE)
         (λ frame_idx st,
            if frame_idx <? MAX_FRAMES then mark_free frame_idx st else Some st) st.

Definition mark_region_used (start_addr end_addr : Z) (st : pfa) : option pfa :=
  let start := align_down start_addr PAGE_SIZE in
  let end_ := align_up end_addr PAGE_SIZE in
  if end_ <=? start then Some st
  else for_range (start / PAGE_SIZE) (end_ / PAGE_SIZE)
         (λ frame_idx st,
            if frame_idx <? MAX_FRAMES then mark_used frame_idx st else Some st) st.

(** ** The Multiboot structures and pfa_init *)

Abbreviation MULTIBOOT_INFO_MEMORY := 1.
Abbreviation MULTIBOOT_INFO_MODS := 8.
Abbreviation MULTIBOOT_INFO_MMAP := 64.
Abbreviation sizeof_multiboot_info := 52.

(** The fields of [struct multiboot_info] the kernel reads. *)
Definition mbi_flags cr3 m mbi := kld32 cr3 m mbi.
Definition mbi_mem_upper cr3 m mbi := kld32 cr3 m (mbi + 8).
Definition mbi_mods_count cr3 m mbi := kld32 cr3 m (mbi + 20).
Definition mbi_mods_addr cr3 m mbi := kld32 cr3 m (mbi + 24).
Definition mbi_mmap_length cr3 m mbi := kld32 cr3 m (mbi + 44).
Definition mbi_mmap_addr cr3 m mbi := kld32 cr3 m (mbi + 48).

(** [struct multiboot_mmap_entry], packed. *)
Record mmap_entry := mkEntry {
  me_size : Z; me_addr : Z; me_len : Z; me_type : Z
}.

Definition kld64 (cr3 : Z) (m : mem) (a : Z) : option Z :=
  lo ← kld32 cr3 m a; hi ← kld32 cr3 m (a + 4); Some (lo + 4294967296 * hi).

Definition read_mmap_entry (cr3 : Z) (m : mem) (a : Z) : option mmap_entry :=
  size ← kld32 cr3 m a; addr ← kld64 cr3 m (a + 4);
  len ← kld64 cr3 m (a + 12); type ← kld32 cr3 m (a + 20);
  Some (mkEntry size addr len type).

(** The body of the loop over the memory map, for one entry. *)
Definition mmap_entry_free (e : mmap_entry) (st : pfa) : option pfa :=
  if me_type e =? 1 then
    let end64 := u64 (me_addr e + me_len e) in
    if me_addr e <? 0x100000000 then
      let start := u32 (me_addr e) in
      let end_ := if 0x100000000 <? end64 then 0xFFFFFFFF else u32 end64 in
      mark_region_free start end_ st
    else Some st
  else Some st.

Definition mmap_step (cr3 : Z) (m : mem) (mmap_end : Z) (s : Z * pfa)
    : option ((Z * pfa) + pfa) :=
  let '(mmap_curr, st) := s in
  if mmap_curr <? mmap_end then
    e ← read_mmap_entry cr3 m mmap_curr;
    st ← mmap_entry_free e st;
    Some (inl (mmap_curr +ᵤ (me_size e +ᵤ 4), st))
  else Some (inr st).

Definition pfa_init (cr3 : Z) (m : mem)
    (multiboot_info_addr kernel_physical_start kernel_physical_end : Z)
    (st : pfa) : option pfa :=
  let mbi := multiboot_info_addr in
  bm ← for_range 0 BITMAP_WORDS (λ i bm,
         _ ← bm !! Z.to_nat i; Some (<[Z.to_nat i := 0xFFFFFFFF]> bm)) (frame_bitmap st);
  let st := mkPfa bm MAX_FRAMES MAX_FRAMES in
  flags ← mbi_flags cr3 m mbi;
  st ← (if negb (Z.land flags MULTIBOOT_INFO_MMAP =? 0) then
          mmap_addr ← mbi_mmap_addr cr3 m mbi;
          mmap_length ← mbi_mmap_length cr3 m mbi;
          while (mmap_step cr3 m (mmap_addr +ᵤ mmap_length)) (mmap_addr, st)
        else if negb (Z.land flags MULTIBOOT_INFO_MEMORY =? 0) then
          mem_upper ← mbi_mem_upper cr3 m mbi;
          mark_region_free 0x100000 (0x100000 +ᵤ (mem_upper *ᵤ 1024)) st
        else Some st);
  st ← mark_region_used 0 PAGE_SIZE st;
  st ← mark_region_used kernel_physical_start kernel_physical_end st;
  st ← mark_region_used multiboot_info_addr
         (multiboot_info_addr +ᵤ sizeof_multiboot_info) st;
  if negb (Z.land flags MULTIBOOT_INFO_MMAP =? 0) then
    mmap_addr ← mbi_mmap_addr cr3 m mbi;
    mmap_length ← mbi_mmap_length cr3 m mbi;
    mark_region_used mmap_addr (mmap_addr +ᵤ mmap_length) st
  else Some st.

(** ** The public operations *)

Definition pfa_alloc (st : pfa) : option (Z * pfa) :=
  o ← loop_range 0 MAX_FRAMES (λ frame_idx _,
        u ← is_used frame_idx st;
        if u =? 0 then
          st ← mark_used frame_idx st;
          Some (inr (frame_idx *ᵤ PAGE_SIZE, st))
        else Some (inl ())) ();
  match o with inr r => Some r | inl _ => Some (0, st) end.

Definition pfa_free (frame_addr : Z) (st : pfa) : option pfa :=
  let frame_idx := frame_addr / PAGE_SIZE in
  if frame_idx <? MAX_FRAMES then mark_free frame_idx st else Some st.

(** The state of the search: the length and the start of the current run. *)
Definition contiguous_body (frame_count : Z) (st : pfa) (frame_idx : Z) (s : Z * Z)
    : option ((Z * Z) + (Z * pfa)) :=
  let '(run, run_start) := s in
  u ← is_used frame_idx st;
  if u =? 0 then
    let run_start := if run =? 0 then frame_idx else run_start in
    let run := run +ᵤ 1 in
    if run =? frame_count then
      st ← for_range 0 frame_count (λ i st, mark_used (run_start +ᵤ i) st) st;
      Some (inr (run_start *ᵤ PAGE_SIZE, st))
    else Some (inl (run, run_start))
  else Some (inl (0, run_start)).

Definition pfa_alloc_contiguous (frame_count : Z) (st : pfa) : option (Z * pfa) :=
  if frame_count =? 0 then Some (0, st) else
  o ← loop_range 0 MAX_FRAMES (contiguous_body frame_count st) (0, 0);
  match o with inr r => Some r | inl _ => Some (0, st) end.

Definition pfa_free_contiguous (frame_addr frame_count : Z) (st : pfa) : option pfa :=
  let base := frame_addr / PAGE_SIZE in
  for_range 0 frame_count (λ i st,
    if (base +ᵤ i) <? MAX_FRAMES then mark_free (base +ᵤ i) st else Some st) st.

Definition pfa_reserve (start_addr end_addr : Z) (st : pfa) : option pfa :=
  mark_region_used start_addr end_addr st.

Definition pfa_total_frames (st : pfa) : Z := total_frame_count st.
Definition pfa_used_frames (st : pfa) : Z := used_frame_count st.
Definition pfa_free_frames (st : pfa) : Z :=
  total_frame_count st -ᵤ used_frame_count st.

(** ** The abstract view and the invariant *)

Definition frame_used (st : pfa) (f : Z) : bool :=
  match frame_bitmap st !! Z.to_nat (f / 32) with
  | Some w => Z.testbit w (f mod 32)
  | None => true
  end.

(** The number of frames, sealed so that it is never unfolded in unary. *)
Definition all_frames : nat := Z.to_nat MAX_FRAMES.
Lemma all_frames_Z : Z.of_nat all_frames = MAX_FRAMES.
Proof. unfold all_frames. by rewrite Z2Nat.id. Qed.
#[global] Opaque all_frames.

Record pfa_wf (st : pfa) : Prop := {
  wf_length : Z.of_nat (length (frame_bitmap st)) = BITMAP_WORDS;
  wf_words : Forall (λ w, is_u32 w) (frame_bitmap st);
  wf_total : total_frame_count st = MAX_FRAMES;
  wf_used : used_frame_count st = count_upto (frame_used st) all_frames
}.

(** [st'] is a well-formed state whose used frames are those [p] says. *)
Definition pfa_like (st' : pfa) (p : Z → bool) : Prop :=
  pfa_wf st' ∧ ∀ g, 0 <= g < MAX_FRAMES → frame_used st' g = p g.

Lemma pfa_like_self st : pfa_wf st → pfa_like st (frame_used st).
Proof. done. Qed.
Lemma pfa_like_ext st p q :
  (∀ g, 0 <= g < MAX_FRAMES → p g = q g) → pfa_like st p → pfa_like st q.
Proof. intros H [Hwf Hp]. split; [done|]. intros. by rewrite Hp, H. Qed.

Section one_frame.
Context (st : pfa) (f : Z) (Hwf : pfa_wf st) (Hf : 0 <= f < MAX_FRAMES).

Lemma frame_word :
  ∃ w, frame_bitmap st !! Z.to_nat (f / 32) = Some w ∧ is_u32 w ∧
       frame_used st f = Z.testbit w (f mod 32).
Proof.
  destruct (lookup_lt_is_Some_2 (frame_bitmap st) (Z.to_nat (f / 32))) as [w Hw].
  { pose proof (wf_length _ Hwf). word_lia. }
  exists w. split; [done|]. split.
  - eapply (proj1 (Forall_lookup _ _) (wf_words _ Hwf)); exact Hw.
  - unfold frame_used. by rewrite Hw.
Qed.

(** Writing a word changes the frames it stands for and no other. *)
Lemma frame_used_set_word v used g : 0 <= g < MAX_FRAMES →
  frame_used (set_word st (f / 32) v used) g =
    if decide (g / 32 = f / 32) then Z.testbit v (g mod 32) else frame_used st g.
Proof.
  intros Hg. unfold frame_used, set_word; simpl.
  destruct (decide (g / 32 = f / 32)) as [->|Hne].
  - rewrite list_lookup_insert_eq; [done|]. pose proof (wf_length _ Hwf). word_lia.
  - rewrite list_lookup_insert_ne; [done|]. intros H. apply Hne. apply Z2Nat.inj in H; word_lia.
Qed.

Lemma set_word_wf v used :
  is_u32 v →
  used = count_upto (frame_used (set_word st (f / 32) v used)) all_frames →
  pfa_wf (set_word st (f / 32) v used).
Proof.
  intros Hv Hu. split; simpl; [|by apply Forall_insert; [apply Hwf|]|apply Hwf|done].
  rewrite length_insert. apply Hwf.
Qed.

Lemma is_used_spec : is_used f st = Some (Z.b2z (frame_used st f)).
Proof.
  unfold is_used. destruct frame_word as (w & -> & _ & ->). simpl. f_equal.
  change 1 with (Z.ones 1) at 1. rewrite Z.land_ones, Z.shiftr_div_pow2 by word_lia.
  rewrite Z.testbit_spec' by word_lia. done.
Qed.

Lemma mark_used_spec :
  ∃ st', mark_used f st = Some st' ∧ pfa_like st' (λ g, (g =? f) || frame_used st g).
Proof.
  unfold mark_used. destruct frame_word as (w & Hw & Hwr & Hu). rewrite Hw. simpl.
  rewrite u32_shiftl1, land_bit_zero by word_lia. rewrite <- Hu.
  destruct (frame_used st f) eqn:Hfu; simpl.
  - exists st. split; [done|]. split; [done|]. intros g Hg.
    destruct (Z.eqb_spec g f) as [->|]; done.
  - eexists. split; [done|].
    assert (∀ g, 0 <= g < MAX_FRAMES → frame_used (set_word st (f / 32)
        (Z.lor w (Z.shiftl 1 (f mod 32))) (used_frame_count st +ᵤ 1)) g =
        (g =? f) || frame_used st g) as Hall.
    { intros g Hg. rewrite frame_used_set_word by done. case_decide as Hd.
      - rewrite Z.lor_spec, testbit_shiftl1, orb_comm by word_lia. f_equal.
        + destruct (Z.eqb_spec g f), (Z.eqb_spec (g mod 32) (f mod 32)); word_lia.
        + unfold frame_used. by rewrite Hd, Hw.
      - destruct (Z.eqb_spec g f) as [->|]; done. }
    split; [|done]. apply set_word_wf.
    + apply lor_u32; [done|]. rewrite <- u32_shiftl1 by word_lia. apply u32_range.
    + rewrite (count_upto_set (frame_used st) _ f) by (rewrite ?all_frames_Z; done).
      rewrite (wf_used _ Hwf). apply u32_small.
      pose proof (count_upto_bounds (frame_used st) all_frames).
      rewrite all_frames_Z in *. lia.
Qed.

Lemma mark_free_spec :
  ∃ st', mark_free f st = Some st' ∧ pfa_like st' (λ g, negb (g =? f) && frame_used st g).
Proof.
  unfold mark_free. destruct frame_word as (w & Hw & Hwr & Hu). rewrite Hw. simpl.
  rewrite u32_shiftl1, land_bit_zero by word_lia. rewrite <- Hu.
  destruct (frame_used st f) eqn:Hfu; simpl.
  - eexists. split; [done|].
    assert (∀ g, 0 <= g < MAX_FRAMES → frame_used (set_word st (f / 32)
        (Z.land w (bnot32 (Z.shiftl 1 (f mod 32)))) (used_frame_count st -ᵤ 1)) g =
        negb (g =? f) && frame_used st g) as Hall.
    { intros g Hg. rewrite frame_used_set_word by done. case_decide as Hd.
      - unfold bnot32. rewrite Z.land_spec, testbit_u32, Z.lnot_spec, testbit_shiftl1 by word_lia.
        rewrite andb_comm. f_equal.
        + destruct (Z.eqb_spec g f), (Z.eqb_spec (g mod 32) (f mod 32)); word_lia.
        + unfold frame_used. by rewrite Hd, Hw.
      - destruct (Z.eqb_spec g f) as [->|]; done. }
    split; [|done]. apply set_word_wf; [by apply land_u32|].
    rewrite (count_upto_clear (frame_used st) _ f) by (rewrite ?all_frames_Z; done).
    rewrite (wf_used _ Hwf). apply u32_small.
    rewrite <- (count_upto_clear (frame_used st) _ f all_frames)
      by (rewrite ?all_frames_Z; done).
    match goal with |- context [count_upto ?p ?n] => pose proof (count_upto_bounds p n) end.
    rewrite all_frames_Z in *. lia.
  - exists st. split; [done|]. split; [done|]. intros g Hg.
    destruct (Z.eqb_spec g f) as [->|]; done.
Qed.
End one_frame.

(** ** Regions *)

Lemma align_down_page v : is_u32 v → align_down v PAGE_SIZE = v / 4096 * 4096.
Proof. intros. by apply land_page. Qed.

Lemma align_up_page v : align_up v PAGE_SIZE = u32 (v + 4095) / 4096 * 4096.
Proof. apply land_page, u32_range. Qed.

Lemma mark_used_range st lo hi :
  pfa_wf st → 0 <= lo <= hi → hi <= MAX_FRAMES →
  ∃ st', for_range lo hi (λ f st, if f <? MAX_FRAMES then mark_used f st else Some st) st
           = Some st' ∧
         pfa_like st' (λ g, (lo <=? g) && (g <? hi) || frame_used st g).
Proof.
  intros Hwf Hlo Hhi.
  apply (for_range_ind (λ i st', pfa_like st' (λ g, (lo <=? g) && (g <? i) || frame_used st g)));
    [lia| |].
  - split; [done|]. intros g Hg. by zcases.
  - intros j st1 Hj [Hwf1 H1]. ztest.
    destruct (mark_used_spec st1 j Hwf1) as (st2 & -> & H2); [lia|].
    exists st2. split; [done|]. eapply pfa_like_ext; [|exact H2]. simpl.
    intros g Hg. rewrite H1 by done. by zcases.
Qed.

Lemma mark_free_range st lo hi :
  pfa_wf st → 0 <= lo <= hi → hi <= MAX_FRAMES →
  ∃ st', for_range lo hi (λ f st, if f <? MAX_FRAMES then mark_free f st else Some st) st
           = Some st' ∧
         pfa_like st' (λ g, negb ((lo <=? g) && (g <? hi)) && frame_used st g).
Proof.
  intros Hwf Hlo Hhi.
  apply (for_range_ind (λ i st', pfa_like st' (λ g, negb ((lo <=? g) && (g <? i)) && frame_used st g)));
    [lia| |].
  - split; [done|]. intros g Hg. by zcases.
  - intros j st1 Hj [Hwf1 H1]. ztest.
    destruct (mark_free_spec st1 j Hwf1) as (st2 & -> & H2); [lia|].
    exists st2. split; [done|]. eapply pfa_like_ext; [|exact H2]. simpl.
    intros g Hg. rewrite H1 by done. by zcases.
Qed.

(** The frames that meet the region [s, e), and those that lie inside it. *)
Definition frame_meets (s e g : Z) : bool := (g * PAGE_SIZE <? e) && (s <? (g + 1) * PAGE_SIZE).
Definition frame_inside (s e g : Z) : bool := (s <=? g * PAGE_SIZE) && ((g + 1) * PAGE_SIZE <=? e).

(** Reserving a region takes every frame that meets it, as long as its end is
    not in the last page of the address space. *)
Lemma mark_region_used_spec st s e :
  pfa_wf st → is_u32 s → 0 <= e <= 0xFFFFF000 →
  ∃ st', mark_region_used s e st = Some st' ∧
         pfa_like st' (λ g, frame_meets s e g || frame_used st g).
Proof.
  intros Hwf Hs He. unfold mark_region_used, frame_meets.
  rewrite align_down_page, align_up_page, (u32_small (e + 4095)) by lia.
  destruct (Z.leb_spec ((e + 4095) / 4096 * 4096) (s / 4096 * 4096)) as [Hle|Hlt].
  - exists st. split; [done|]. split; [done|]. intros g Hg.
    destruct (Z.ltb_spec (g * 4096) e), (Z.ltb_spec s ((g + 1) * 4096)); simpl; try done. word_lia.
  - rewrite !Z.div_mul by done.
    destruct (mark_used_range st (s / 4096) ((e + 4095) / 4096) Hwf) as (st' & -> & H');
      [word_lia|word_lia|].
    exists st'. split; [done|]. eapply pfa_like_ext; [|exact H']. intros g Hg. simpl.
    f_equal. destruct (Z.leb_spec (s / 4096) g), (Z.ltb_spec g ((e + 4095) / 4096)),
      (Z.ltb_spec (g * 4096) e), (Z.ltb_spec s ((g + 1) * 4096)); simpl; try done; word_lia.
Qed.

(** Releasing a region frees exactly the frames that lie inside it, as long as
    its start is not in the last page of the address space. *)
Lemma mark_region_free_spec st s e :
  pfa_wf st → 0 <= s <= 0xFFFFF000 → is_u32 e →
  ∃ st', mark_region_free s e st = Some st' ∧
         pfa_like st' (λ g, negb (frame_inside s e g) && frame_used st g).
Proof.
  intros Hwf Hs He. unfold mark_region_free, frame_inside.
  rewrite align_down_page, align_up_page, (u32_small (s + 4095)) by lia.
  destruct (Z.leb_spec (e / 4096 * 4096) ((s + 4095) / 4096 * 4096)) as [Hle|Hlt].
  - exists st. split; [done|]. split; [done|]. intros g Hg.
    destruct (Z.leb_spec s (g * 4096)), (Z.leb_spec ((g + 1) * 4096) e); simpl; try done. word_lia.
  - rewrite !Z.div_mul by done.
    destruct (mark_free_range st ((s + 4095) / 4096) (e / 4096) Hwf) as (st' & -> & H');
      [word_lia|word_lia|].
    exists st'. split; [done|]. eapply pfa_like_ext; [|exact H']. intros g Hg. simpl.
    do 2 f_equal. destruct (Z.leb_spec ((s + 4095) / 4096) g), (Z.ltb_spec g (e / 4096)),
      (Z.leb_spec s (g * 4096)), (Z.leb_spec ((g + 1) * 4096) e); simpl; try done; word_lia.
Qed.

(** A region that ends in the last page wraps to zero in [align_up], and
    nothing is reserved; one that starts there releases memory from frame 0. *)
Lemma mark_region_used_wraps st s e :
  is_u32 s → 0xFFFFF000 < e < 4294967296 → mark_region_used s e st = Some st.
Proof.
  intros Hs He. unfold mark_region_used. rewrite align_down_page, align_up_page by done.
  replace (u32 (e + 4095) / 4096 * 4096) with 0 by word_lia. zcase; [done|word_lia].
Qed.

(** ** Single frames *)

Lemma pfa_alloc_spec st : pfa_wf st →
  ∃ a st', pfa_alloc st = Some (a, st') ∧
    ((a = 0 ∧ st' = st ∧ ∀ g, 0 <= g < MAX_FRAMES → frame_used st g = true) ∨
     (∃ f, a = f * PAGE_SIZE ∧ 0 <= f < MAX_FRAMES ∧ frame_used st f = false ∧
        (∀ g, 0 <= g < f → frame_used st g = true) ∧
        pfa_like st' (λ g, (g =? f) || frame_used st g))).
Proof.
  intros Hwf. unfold pfa_alloc.
  destruct (loop_range_ind (λ i _, ∀ g, 0 <= g < i → frame_used st g = true)
    (λ r, ∃ f, r.1 = f * PAGE_SIZE ∧ 0 <= f < MAX_FRAMES ∧ frame_used st f = false ∧
        (∀ g, 0 <= g < f → frame_used st g = true) ∧
        pfa_like r.2 (λ g, (g =? f) || frame_used st g))
    (λ frame_idx _, u ← is_used frame_idx st;
        if u =? 0 then st ← mark_used frame_idx st; Some (inr (frame_idx *ᵤ PAGE_SIZE, st))
        else Some (inl ())) 0 MAX_FRAMES ()) as (o & -> & Ho); [done|lia| |].
  - intros j [] Hj HI. rewrite is_used_spec by done. simpl.
    destruct (frame_used st j) eqn:Hu; simpl.
    + eexists. split; [done|]. intros g Hg. destruct (decide (g = j)) as [->|]; [done|].
      apply HI. lia.
    + destruct (mark_used_spec st j Hwf Hj) as (st' & -> & Hst'). simpl.
      eexists. split; [done|]. exists j. simpl. rewrite u32_small by lia. done.
  - destruct o as [[]|[a st']]; eauto 10.
Qed.

Lemma pfa_free_spec st a : pfa_wf st → is_u32 a →
  ∃ st', pfa_free a st = Some st' ∧
         pfa_like st' (λ g, negb (g =? a / PAGE_SIZE) && frame_used st g).
Proof. intros Hwf Ha. unfold pfa_free. zcase; [|word_lia]. apply mark_free_spec; [done|word_lia]. Qed.

(** ** Runs of frames *)

Definition run_free (st : pfa) (b n : Z) : Prop :=
  ∀ g, b <= g < b + n → frame_used st g = false.

Lemma mark_used_run st b n : pfa_wf st → 0 <= b → 0 <= n → b + n <= MAX_FRAMES →
  ∃ st', for_range 0 n (λ i st, mark_used (b +ᵤ i) st) st = Some st' ∧
         pfa_like st' (λ g, (b <=? g) && (g <? b + n) || frame_used st g).
Proof.
  intros Hwf Hb Hn Hbn.
  apply (for_range_ind (λ i st', pfa_like st' (λ g, (b <=? g) && (g <? b + i) || frame_used st g)));
    [lia| |].
  - split; [done|]. intros g Hg. by zcases.
  - intros j st1 Hj [Hwf1 H1]. rewrite u32_small by lia.
    destruct (mark_used_spec st1 (b + j) Hwf1) as (st2 & -> & H2); [lia|].
    exists st2. split; [done|]. eapply pfa_like_ext; [|exact H2]. simpl.
    intros g Hg. rewrite H1 by done. by zcases.
Qed.

(** The state of the search before frame [i] is examined: the current run is
    the longest run of free frames that ends at [i], and no run of [n] frames
    ends at or before it. *)
Record search_inv (st : pfa) (n i : Z) (s : Z * Z) : Prop := {
  si_run : 0 <= s.1 < n ∧ s.1 <= i;
  si_start : 0 < s.1 → s.2 = i - s.1;
  si_free : run_free st (i - s.1) s.1;
  si_max : i - s.1 = 0 ∨ frame_used st (i - s.1 - 1) = true;
  si_none : ∀ b, 0 <= b → b + n <= i → ¬ run_free st b n
}.

Definition contiguous_found (st : pfa) (n : Z) (r : Z * pfa) : Prop :=
  ∃ b, r.1 = b * PAGE_SIZE ∧ 0 <= b ∧ b + n <= MAX_FRAMES ∧ run_free st b n ∧
       (∀ b', 0 <= b' < b → ¬ run_free st b' n) ∧
       pfa_like r.2 (λ g, (b <=? g) && (g <? b + n) || frame_used st g).

(** A window that ends just after the current run and is longer than it
    contains the used frame before the run. *)
Lemma search_window st n i s : search_inv st n i s → s.1 + 1 < n →
  ∀ b, 0 <= b → b + n <= i + 1 → ¬ run_free st b n.
Proof.
  intros [[Hr Hri] Hs Hf Hm Hn] Hlt b Hb Hbn Hfree.
  destruct (Z.eq_dec (b + n) (i + 1)); [|eapply (Hn b); [lia|lia|done]].
  destruct Hm as [|Hm]; [lia|]. rewrite (Hfree (i - s.1 - 1)) in Hm; [done|lia].
Qed.

Lemma contiguous_step st n j s : pfa_wf st → 0 < n < 4294967296 → 0 <= j < MAX_FRAMES →
  search_inv st n j s →
  ∃ o, contiguous_body n st j s = Some o ∧
       match o with inl s' => search_inv st n (j + 1) s' | inr r => contiguous_found st n r end.
Proof.
  intros Hwf Hn Hj HI. pose proof HI as [[Hr Hri] Hs Hf Hm Hno].
  destruct s as [run rs]; simpl in *.
  unfold contiguous_body. rewrite is_used_spec by done. simpl.
  destruct (frame_used st j) eqn:Hu; simpl.
  - eexists. split; [done|]. split; simpl; [lia|lia|intros ?; lia| |].
    + right. by replace (j + 1 - 0 - 1) with j by lia.
    + intros b Hb Hbn Hfree. destruct (Z.eq_dec (b + n) (j + 1)).
      * rewrite (Hfree j) in Hu by lia. done.
      * apply (Hno b); [lia|lia|done].
  - assert ((if run =? 0 then j else rs) = j - run) as -> by (zcase; lia).
    rewrite (u32_small (run + 1)) by lia.
    assert (run_free st (j - run) (run + 1)) as Hfree.
    { intros g Hg. destruct (Z.eq_dec g j) as [->|]; [done|]. apply Hf. lia. }
    destruct (Z.eqb_spec (run + 1) n) as [<-|Hne].
    + destruct (mark_used_run st (j - run) (run + 1) Hwf) as (st' & -> & Hst'); [lia..|].
      eexists. split; [done|]. exists (j - run). simpl. rewrite u32_small by lia.
      split_and!; try lia; try done. intros b' Hb'. apply Hno; lia.
    + eexists. split; [done|]. split; simpl; [lia|lia| | |].
      * by replace (j + 1 - (run + 1)) with (j - run) by lia.
      * by replace (j + 1 - (run + 1)) with (j - run) by lia.
      * apply (search_window st n j (run, rs)); [done|simpl; lia].
Qed.

(** First fit: the lowest run of [n] free frames, or [0] when there is none. *)
Lemma pfa_alloc_contiguous_spec st n : pfa_wf st → 0 < n < 4294967296 →
  ∃ a st', pfa_alloc_contiguous n st = Some (a, st') ∧
    ((a = 0 ∧ st' = st ∧ ∀ b, 0 <= b → b + n <= MAX_FRAMES → ¬ run_free st b n) ∨
     contiguous_found st n (a, st')).
Proof.
  intros Hwf Hn. unfold pfa_alloc_contiguous. ztest.
  destruct (loop_range_ind (search_inv st n) (contiguous_found st n)
    (contiguous_body n st) 0 MAX_FRAMES (0, 0)) as (o & -> & Ho); [done| | |].
  - split; simpl; [lia|lia|intros ?; lia|by left|]. intros b Hb Hbn. lia.
  - intros j s Hj HI. by apply contiguous_step.
  - destruct o as [s|[a st']]; simpl; [|by eauto].
    do 2 eexists. split; [done|]. left. destruct Ho. done.
Qed.

Lemma pfa_free_contiguous_spec st a n : pfa_wf st → is_u32 a → is_u32 n →
  ∃ st', pfa_free_contiguous a n st = Some st' ∧
    pfa_like st' (λ g, negb ((a / PAGE_SIZE <=? g) && (g <? a / PAGE_SIZE + n)
       || (g + 4294967296 <? a / PAGE_SIZE + n)) && frame_used st g).
Proof.
  intros Hwf Ha Hn. unfold pfa_free_contiguous.
  apply (for_range_ind (λ i st', pfa_like st' (λ g,
     negb ((a / PAGE_SIZE <=? g) && (g <? a / PAGE_SIZE + i)
       || (g + 4294967296 <? a / PAGE_SIZE + i)) && frame_used st g))); [lia| |].
  - split; [done|]. intros g Hg.
    assert (a / 4096 < 1048576) by word_lia. by zcases.
  - intros j st1 Hj [Hwf1 H1].
    assert (0 <= a / 4096 < 1048576) as Hb by word_lia.
    revert H1 Hb. generalize (a / 4096). intros b H1 Hb.
    destruct (Z.ltb_spec (u32 (b + j)) 1048576) as [Hlt|Hge].
    + destruct (mark_free_spec st1 (u32 (b + j)) Hwf1) as (st2 & -> & H2);
        [pose proof (u32_range (b + j)); lia|].
      exists st2. split; [done|]. eapply pfa_like_ext; [|exact H2]. simpl.
      intros g Hg. rewrite H1 by done.
      assert (u32 (b + j) = b + j ∧ b + j < 4294967296 ∨
        u32 (b + j) = b + j - 4294967296 ∧ 4294967296 <= b + j)
        as [[-> ?]|[-> ?]] by word_lia; by zcases.
    + exists st1. split; [done|]. split; [done|]. intros g Hg. rewrite H1 by done.
      assert (u32 (b + j) = b + j ∧ b + j < 4294967296) as [Hu ?] by word_lia.
      rewrite Hu in Hge. by zcases.
Qed.

(** ** The interface *)

#[export] Instance pfa_frame_alloc : FrameAlloc pfa := {
  fa_ok st := pfa_wf st ∧ frame_used st 0 = true;
  fa_free st f := negb (frame_used st f);
  fa_alloc := pfa_alloc
}.

(** The bitmap allocator keeps the promises of the interface, in every state
    in which frame zero is taken. *)
#[export] Instance pfa_frame_alloc_laws : FrameAllocLaws pfa.
Proof.
  split. intros st [Hwf H0]. simpl.
  destruct (pfa_alloc_spec st Hwf) as (a & st' & -> & H). do 2 eexists. split; [done|].
  destruct H as [(-> & -> & Hall)|(f & -> & Hf & Hfu & Hlow & Hwf' & Hst')].
  - split; [done|]. left. split_and!; [done..|]. intros g Hg. simpl. by rewrite Hall.
  - split.
    + simpl. split; [done|]. rewrite Hst' by done. by rewrite H0, orb_true_r.
    + right. exists f. simpl. rewrite Hfu. split_and!; try done.
      * destruct (Z.eq_dec f 0) as [->|]; [congruence|lia].
      * lia.
      * intros g Hg. rewrite Hst' by done. by rewrite negb_orb.
Qed.

(** ** pfa_init *)

(** The memory map: entries one after the other, each saying where the next
    one starts, up to [e].  Multiboot has [size] at least 20. *)
Fixpoint mmap_at (cr3 : Z) (m : mem) (a e : Z) (es : list mmap_entry) : Prop :=
  match es with
  | [] => e <= a
  | x :: es' => a < e ∧ read_mmap_entry cr3 m a = Some x ∧ 20 <= me_size x ∧
                a + me_size x + 4 < 4294967296 ∧ mmap_at cr3 m (a + me_size x + 4) e es'
  end.

(** What the Multiboot specification promises of an available region below
    4 GiB: it does not run over 2^64; and it starts below the last page. *)
Definition entry_ok (x : mmap_entry) : Prop :=
  me_type x = 1 → me_addr x < 4294967296 →
  0 <= me_addr x <= 0xFFFFF000 ∧ 0 <= me_len x ∧ me_addr x + me_len x < 18446744073709551616.

(** The available regions of memory, each with its start and its end, which
    the entries give in 64 bits. *)
Definition available_regions (es : list mmap_entry) : list (Z * Z) :=
  (λ x, (me_addr x, me_addr x + me_len x)) <$> filter (λ x, me_type x = 1) es.
Definition frame_available (rs : list (Z * Z)) (g : Z) : bool := existsb (λ r, frame_inside r.1 r.2 g) rs.

(** The frames the code makes free: those inside the regions, but of a region
    that ends exactly at 4 GiB none, and never the last frame below 4 GiB. *)
Definition region_freed (g : Z) (r : Z * Z) : bool :=
  frame_inside r.1 r.2 g && negb (r.2 =? 4294967296) && negb (g =? MAX_FRAMES - 1).
Definition frame_freed (rs : list (Z * Z)) (g : Z) : bool := existsb (region_freed g) rs.
Arguments frame_freed : simpl never.

Definition entry_frees (g : Z) (x : mmap_entry) : bool :=
  (me_type x =? 1) && region_freed g (me_addr x, me_addr x + me_len x).

Lemma frame_freed_entries es g : frame_freed (available_regions es) g = existsb (entry_frees g) es.
Proof.
  induction es as [|x es IH]; [done|]. unfold frame_freed, available_regions in *. rewrite filter_cons. cbn [existsb].
  unfold entry_frees at 1. destruct (decide (me_type x = 1)) as [Ht|Ht].
  - rewrite (proj2 (Z.eqb_eq _ _) Ht), andb_true_l, <- IH. reflexivity.
  - by rewrite (proj2 (Z.eqb_neq _ _) Ht), IH.
Qed.

(** Only available frames are made free. *)
Lemma freed_available rs g : frame_freed rs g = true → frame_available rs g = true.
Proof.
  unfold frame_freed, frame_available. rewrite !existsb_exists. intros (r & Hr & Hf). exists r. split; [exact Hr|].
  unfold region_freed in Hf. by apply andb_prop in Hf as [[? _]%andb_prop _].
Qed.

(** All of them when no region with frames below 4 GiB reaches 4 GiB. *)
Lemma available_freed rs g : (∀ r, r ∈ rs → r.2 < 4294967296 ∨ 4294967296 <= r.1) → 0 <= g < MAX_FRAMES →
  frame_freed rs g = frame_available rs g.
Proof.
  intros Hrs Hg. apply Bool.eq_iff_eq_true. split; [apply freed_available|].
  unfold frame_freed, frame_available. rewrite !existsb_exists. intros (r & Hr & Hin). exists r. split; [exact Hr|].
  specialize (Hrs r ltac:(by apply list_elem_of_In)). unfold region_freed. rewrite Hin.
  unfold frame_inside in Hin. apply andb_prop in Hin as [H1%Z.leb_le H2%Z.leb_le].
  rewrite (proj2 (Z.eqb_neq r.2 4294967296)), (proj2 (Z.eqb_neq g (MAX_FRAMES - 1))) by (clear - Hrs Hg H1 H2; lia). done.
Qed.

Lemma mmap_entry_free_spec st x : pfa_wf st → entry_ok x →
  ∃ st', mmap_entry_free x st = Some st' ∧
         pfa_like st' (λ g, negb (entry_frees g x) && frame_used st g).
Proof.
  intros Hwf Hok. unfold mmap_entry_free, entry_frees, region_freed. cbn [fst snd].
  destruct (Z.eqb_spec (me_type x) 1) as [Ht|]; simpl; [|by exists st].
  destruct (Z.ltb_spec (me_addr x) 4294967296) as [Ha|Ha]; simpl.
  2:{ exists st. split; [done|]. split; [done|]. intros g Hg. unfold frame_inside. by rewrite (proj2 (Z.leb_gt _ _)) by lia. }
  destruct (Hok Ht Ha) as (Ha1 & Hl & Hs).
  replace (u64 (me_addr x + me_len x)) with (me_addr x + me_len x) by word_lia.
  rewrite (u32_small (me_addr x)) by lia.
  assert (∀ e, is_u32 e → (∀ g, 0 <= g < MAX_FRAMES → frame_inside (me_addr x) e g =
      frame_inside (me_addr x) (me_addr x + me_len x) g && negb (me_addr x + me_len x =? 4294967296) && negb (g =? 1048575)) →
    ∃ st', mark_region_free (me_addr x) e st = Some st' ∧ pfa_like st' (λ g, negb (frame_inside (me_addr x)
      (me_addr x + me_len x) g && negb (me_addr x + me_len x =? 4294967296) && negb (g =? 1048575)) && frame_used st g)) as Hend.
  { intros e He Heq. destruct (mark_region_free_spec st (me_addr x) e Hwf) as (st' & -> & H); [lia|exact He|].
    exists st'. split; [done|]. eapply pfa_like_ext; [|exact H]. intros g Hg. cbn beta. by rewrite Heq. }
  destruct (Z.ltb_spec 4294967296 (me_addr x + me_len x)); (apply Hend; [word_lia|]); intros g Hg; unfold frame_inside.
  - zcases.
  - destruct (Z.eq_dec (me_addr x + me_len x) 4294967296) as [->|]; [|rewrite u32_small by lia; zcases].
    change (u32 4294967296) with 0. zcases.
Qed.

(** The walk over the memory map ends and frees what the entries say. *)
Lemma mmap_loop_spec cr3 m a e es st :
  is_u32 a → is_u32 e → mmap_at cr3 m a e es → Forall entry_ok es → pfa_wf st →
  ∃ st', while (mmap_step cr3 m e) (a, st) = Some st' ∧
         pfa_like st' (λ g, negb (existsb (entry_frees g) es) && frame_used st g).
Proof.
  intros Ha He Hat Hok Hwf.
  apply (while_ind (λ s, ∃ es', is_u32 s.1 ∧ mmap_at cr3 m s.1 e es' ∧ Forall entry_ok es' ∧
      pfa_wf s.2 ∧ ∀ g, 0 <= g < MAX_FRAMES →
        negb (existsb (entry_frees g) es') && frame_used s.2 g =
        negb (existsb (entry_frees g) es) && frame_used st g)
    _ (λ s, 4294967296 - s.1)); simpl; [by exists es|lia|].
  clear Hat Hok Hwf. intros [b st1] (es' & Hb & Hat & Hok & Hwf & Heq); simpl in *.
  destruct es' as [|x es']; simpl in Hat.
  - ztest. eexists. split; [done|]. split; [done|]. intros. by rewrite <- Heq.
  - destruct Hat as (Hlt & -> & Hsz & Hov & Hat). ztest. simpl. inversion_clear Hok.
    destruct (mmap_entry_free_spec st1 x Hwf) as (st2 & -> & Hwf2 & H2); [done|]. simpl.
    eexists. split; [done|]. simpl. rewrite (u32_small (me_size x + 4)) by lia.
    rewrite u32_small by lia. replace (b + (me_size x + 4)) with (b + me_size x + 4) by lia.
    split; [|lia]. exists es'. split_and!; [lia|lia|done..|].
    intros g Hg. rewrite <- Heq, H2 by done. simpl. by rewrite negb_orb, andb_assoc, (andb_comm (negb _)).
Qed.

Lemma init_bitmap bm : Z.of_nat (length bm) = BITMAP_WORDS →
  for_range 0 BITMAP_WORDS (λ i bm,
    _ ← bm !! Z.to_nat i; Some (<[Z.to_nat i := 0xFFFFFFFF]> bm)) bm
  = Some (replicate (length bm) 0xFFFFFFFF).
Proof.
  intros Hl.
  destruct (for_range_ind (λ i bm', length bm' = length bm ∧
      ∀ j, (j < length bm)%nat → Z.of_nat j < i → bm' !! j = Some 0xFFFFFFFF)
    (λ i bm, _ ← bm !! Z.to_nat i; Some (<[Z.to_nat i := 0xFFFFFFFF]> bm))
    0 BITMAP_WORDS bm) as (bm' & -> & Hl' & Hbm'); [done|split; [done|lia]| |].
  - intros i bm1 Hi [Hl1 H1].
    destruct (lookup_lt_is_Some_2 bm1 (Z.to_nat i)) as [w ->]; [lia|].
    eexists. split; [done|]. rewrite length_insert. split; [done|]. intros j Hj Hji.
    destruct (decide (j = Z.to_nat i)) as [->|].
    + rewrite list_lookup_insert_eq; [done|lia].
    + rewrite list_lookup_insert_ne by done. apply H1; lia.
  - f_equal. apply list_eq. intros j. destruct (decide (j < length bm)%nat).
    + rewrite Hbm', lookup_replicate_2 by lia. done.
    + rewrite !lookup_ge_None_2 by (rewrite ?length_replicate; lia). done.
Qed.

Lemma full_bitmap_wf k : Z.of_nat k = BITMAP_WORDS →
  pfa_like (mkPfa (replicate k 0xFFFFFFFF) MAX_FRAMES MAX_FRAMES) (λ _, true).
Proof.
  intros Hk.
  assert (∀ g, 0 <= g < MAX_FRAMES →
    frame_used (mkPfa (replicate k 0xFFFFFFFF) MAX_FRAMES MAX_FRAMES) g = true) as Hall.
  { intros g Hg. unfold frame_used; simpl. rewrite lookup_replicate_2 by word_lia.
    apply (Z.ones_spec_low 32). word_lia. }
  split; [|done]. split; simpl; [by rewrite length_replicate| |done|].
  - by apply Forall_replicate.
  - symmetry. etransitivity; [apply count_upto_true|apply all_frames_Z].
    intros. apply Hall. by rewrite all_frames_Z in *.
Qed.

(** What the boot loader's information block tells about memory: the available
    regions, and the table it occupies besides itself. *)
Inductive boot_regions (cr3 : Z) (m : mem) (mbi : Z) : list (Z * Z) → (Z → bool) → Prop :=
  | boot_regions_mmap flags addr len es :
      mbi_flags cr3 m mbi = Some flags → Z.land flags MULTIBOOT_INFO_MMAP ≠ 0 →
      mbi_mmap_addr cr3 m mbi = Some addr → mbi_mmap_length cr3 m mbi = Some len →
      0 <= addr → 0 <= len → addr + len <= 0xFFFFF000 →
      mmap_at cr3 m addr (addr + len) es → Forall entry_ok es →
      boot_regions cr3 m mbi (available_regions es) (frame_meets addr (addr + len))
  | boot_regions_memory flags upper :
      mbi_flags cr3 m mbi = Some flags → Z.land flags MULTIBOOT_INFO_MMAP = 0 →
      Z.land flags MULTIBOOT_INFO_MEMORY ≠ 0 →
      mbi_mem_upper cr3 m mbi = Some upper →
      0 <= upper → 0x100000 + upper * 1024 < 4294967296 →
      boot_regions cr3 m mbi [(0x100000, 0x100000 + upper * 1024)] (λ _, false)
  | boot_regions_none flags :
      mbi_flags cr3 m mbi = Some flags → Z.land flags MULTIBOOT_INFO_MMAP = 0 →
      Z.land flags MULTIBOOT_INFO_MEMORY = 0 →
      boot_regions cr3 m mbi [] (λ _, false).

(** The frames that come out of it free. *)
Definition boot_map (cr3 : Z) (m : mem) (mbi : Z) (avail table : Z → bool) : Prop :=
  ∃ rs, boot_regions cr3 m mbi rs table ∧ ∀ g, 0 <= g < MAX_FRAMES → avail g = frame_freed rs g.

(** The frames that are never handed out after initialisation. *)
Definition boot_reserved (kstart kend mbi : Z) (table : Z → bool) (g : Z) : bool :=
  (g =? 0) || frame_meets kstart kend g ||
  frame_meets mbi (mbi + sizeof_multiboot_info) g || table g.

(** The three reservations every boot makes. *)
Lemma pfa_init_reserve kstart kend mbi st :
  pfa_wf st → is_u32 kstart → 0 <= kend <= 0xFFFFF000 → 0 <= mbi <= 0xFFFFEFCC →
  ∃ st', (st ← mark_region_used 0 PAGE_SIZE st;
          st ← mark_region_used kstart kend st;
          mark_region_used mbi (mbi +ᵤ sizeof_multiboot_info) st) = Some st' ∧
         pfa_like st' (λ g, boot_reserved kstart kend mbi (λ _, false) g || frame_used st g).
Proof.
  intros Hwf Hks Hke Hm. unfold boot_reserved.
  destruct (mark_region_used_spec st 0 PAGE_SIZE Hwf) as (st1 & -> & Hwf1 & H1); [lia|lia|]. simpl.
  destruct (mark_region_used_spec st1 kstart kend Hwf1) as (st2 & -> & Hwf2 & H2); [done|done|]. simpl.
  rewrite u32_small by lia.
  destruct (mark_region_used_spec st2 mbi (mbi + 52) Hwf2) as (st3 & -> & H3); [lia|lia|].
  exists st3. split; [done|]. eapply pfa_like_ext; [|exact H3]. intros g Hg. simpl.
  rewrite H2, H1 by done.
  replace (frame_meets 0 4096 g) with (g =? 0) by (unfold frame_meets; zcases; done).
  by destruct (g =? 0), (frame_meets kstart kend g), (frame_meets mbi (mbi + 52) g), (frame_used st g).
Qed.

Local Ltac reserve_tail Hr :=
  destruct (mark_region_used 0 PAGE_SIZE _) as [x|]; [simpl in *|done];
  destruct (mark_region_used _ _ x) as [y|]; [simpl in *|done]; by rewrite Hr.

(** What is free after pfa_init is what the loader made available, less the
    reserved frames, on every branch of the function. *)
Lemma pfa_init_regions cr3 m mbi kstart kend st rs table :
  Z.of_nat (length (frame_bitmap st)) = BITMAP_WORDS →
  is_u32 kstart → 0 <= kend <= 0xFFFFF000 → 0 <= mbi <= 0xFFFFEFCC →
  boot_regions cr3 m mbi rs table →
  ∃ st', pfa_init cr3 m mbi kstart kend st = Some st' ∧
         pfa_like st' (λ g, boot_reserved kstart kend mbi table g || negb (frame_freed rs g)).
Proof.
  intros Hlen Hks Hke Hm Hmap. unfold pfa_init. rewrite init_bitmap by done. simpl.
  destruct (full_bitmap_wf _ Hlen) as [Hwf0 H0].
  destruct Hmap as [flags addr len es Hf Hmm Hma Hml Ha Hl Hal Hat Hok
                   |flags upper Hf Hmm Hmem Hu Hup Hov|flags Hf Hmm Hmem];
    rewrite Hf; simpl.
  - ztest. simpl. rewrite Hma, Hml. simpl. rewrite u32_small by lia.
    destruct (mmap_loop_spec cr3 m addr (addr + len) es _ ltac:(lia) ltac:(lia) Hat Hok Hwf0)
      as (st1 & -> & Hwf1 & H1). simpl.
    destruct (pfa_init_reserve kstart kend mbi st1 Hwf1 Hks Hke Hm) as (st2 & Hr & Hwf2 & H2).
    destruct (mark_region_used_spec st2 addr (addr + len) Hwf2) as (st3 & Hst3 & H3); [lia|lia|].
    exists st3. split.
    + reserve_tail Hr.
    + eapply pfa_like_ext; [|exact H3]. intros g Hg. cbn beta. rewrite frame_freed_entries. simpl. rewrite H2, H1, H0 by done.
      unfold boot_reserved.
      by destruct (frame_meets addr (addr + len) g), (g =? 0), (frame_meets kstart kend g),
        (frame_meets mbi (mbi + 52) g), (existsb (entry_frees g) es).
  - ztest. simpl. ztest. simpl. rewrite Hu. simpl. rewrite (u32_small (upper * 1024)), (u32_small (0x100000 + upper * 1024)) by lia.
    destruct (mark_region_free_spec _ 0x100000 (0x100000 + upper * 1024) Hwf0)
      as (st1 & -> & Hwf1 & H1); [lia|lia|]. simpl.
    destruct (pfa_init_reserve kstart kend mbi st1 Hwf1 Hks Hke Hm) as (st2 & Hr & H2).
    exists st2. split.
    + reserve_tail Hr.
    + eapply pfa_like_ext; [|exact H2]. intros g Hg. cbn beta. rewrite available_freed; [|intros r ->%list_elem_of_singleton; left; exact Hov|exact Hg].
      unfold frame_available. simpl. rewrite H1, H0 by done. by rewrite andb_true_r, orb_false_r.
  - ztest. simpl. ztest. simpl.
    destruct (pfa_init_reserve kstart kend mbi _ Hwf0 Hks Hke Hm) as (st2 & Hr & H2).
    exists st2. split.
    + reserve_tail Hr.
    + eapply pfa_like_ext; [|exact H2]. intros g Hg. simpl. rewrite H0 by done.
      by rewrite orb_true_r.
Qed.

Lemma pfa_init_spec cr3 m mbi kstart kend st avail table :
  Z.of_nat (length (frame_bitmap st)) = BITMAP_WORDS →
  is_u32 kstart → 0 <= kend <= 0xFFFFF000 → 0 <= mbi <= 0xFFFFEFCC →
  boot_map cr3 m mbi avail table →
  ∃ st', pfa_init cr3 m mbi kstart kend st = Some st' ∧
         pfa_like st' (λ g, boot_reserved kstart kend mbi table g || negb (avail g)).
Proof.
  intros Hlen Hks Hke Hm (rs & Hrs & Ha).
  destruct (pfa_init_regions cr3 m mbi kstart kend st rs table Hlen Hks Hke Hm Hrs) as (st' & E & Hst).
  exists st'. split; [exact E|]. eapply pfa_like_ext; [|exact Hst]. intros g Hg. cbn beta. by rewrite Ha.
Qed.

(** ** States with the same used frames are equal *)

Lemma pfa_ext st1 st2 : pfa_wf st1 → pfa_wf st2 →
  (∀ g, 0 <= g < MAX_FRAMES → frame_used st1 g = frame_used st2 g) → st1 = st2.
Proof.
  intros H1 H2 Heq.
  assert (frame_bitmap st1 = frame_bitmap st2) as Hbm.
  { apply list_eq_same_length with (n := length (frame_bitmap st2)); [done| |].
    - apply Nat2Z.inj. by rewrite (wf_length _ H1), (wf_length _ H2).
    - intros i x y Hi Hx Hy.
      pose proof (proj1 (Forall_lookup _ _) (wf_words _ H1) i x Hx) as Hxr.
      pose proof (proj1 (Forall_lookup _ _) (wf_words _ H2) i y Hy) as Hyr. simpl in *.
      pose proof (wf_length _ H2).
      apply Z.bits_inj'. intros b Hb. destruct (Z.lt_ge_cases b 32); [|by rewrite !u32_bits_high].
      specialize (Heq (32 * Z.of_nat i + b) ltac:(lia)). unfold frame_used in Heq.
      replace ((32 * Z.of_nat i + b) / 32) with (Z.of_nat i) in Heq by word_lia.
      replace ((32 * Z.of_nat i + b) mod 32) with b in Heq by word_lia.
      by rewrite Nat2Z.id, Hx, Hy in Heq. }
  pose proof (wf_total _ H1). pose proof (wf_total _ H2).
  pose proof (wf_used _ H1). pose proof (wf_used _ H2).
  rewrite (count_upto_ext (frame_used st1) (frame_used st2)) in *
    by (intros; apply Heq; by rewrite all_frames_Z in *).
  destruct st1, st2; simpl in *; congruence.
Qed.

(** ** Reachable allocator states

    The calls the rest of the kernel makes of the allocator, with what they
    return.  [keep] is a set of frames the callers never give back. *)
Inductive pfa_call (keep : Z → bool) : pfa → list Z → pfa → Prop :=
  | call_alloc st a st' :
      pfa_alloc st = Some (a, st') → pfa_call keep st (if a =? 0 then [] else [a / PAGE_SIZE]) st'
  | call_contiguous st n a st' : 0 < n < 4294967296 →
      pfa_alloc_contiguous n st = Some (a, st') →
      pfa_call keep st (if a =? 0 then [] else seqZ (a / PAGE_SIZE) n) st'
  | call_free st a st' : is_u32 a → keep (a / PAGE_SIZE) = false →
      pfa_free a st = Some st' → pfa_call keep st [] st'
  | call_free_contiguous st a n st' : is_u32 a → 0 <= n → a / PAGE_SIZE + n < 4294967296 →
      (∀ g, a / PAGE_SIZE <= g < a / PAGE_SIZE + n → keep g = false) →
      pfa_free_contiguous a n st = Some st' → pfa_call keep st [] st'
  | call_reserve st s e st' : is_u32 s → is_u32 e →
      pfa_reserve s e st = Some st' → pfa_call keep st [] st'.

(** One call keeps the invariant, leaves the kept frames taken, and hands out
    only frames that were free. *)
Lemma pfa_call_inv keep st fs st' :
  pfa_wf st → pfa_call keep st fs st' →
  pfa_wf st' ∧
  (∀ g, 0 <= g < MAX_FRAMES → keep g = true → frame_used st g = true → frame_used st' g = true) ∧
  Forall (λ f, 0 <= f < MAX_FRAMES ∧ frame_used st f = false) fs.
Proof.
  intros Hwf Hc.
  destruct Hc as [st a st' Hc|st n a st' Hn Hc|st a st' Ha Hk Hc
                 |st a n st' Ha Hn Hov Hk Hc|st s e st' Hs He Hc].
  - destruct (pfa_alloc_spec st Hwf) as (? & ? & Hc' & H). rewrite Hc' in Hc. simplify_eq.
    destruct H as [(-> & -> & Hall)|(f & -> & Hf & Hfu & _ & Hwf' & Hst')]; [done|].
    split_and!; [done| |].
    + intros g Hg _ Hgu. by rewrite Hst', Hgu, orb_true_r.
    + zcase; [done|]. rewrite Z.div_mul by done. by apply Forall_singleton.
  - destruct (pfa_alloc_contiguous_spec st n Hwf Hn) as (? & ? & Hc' & H).
    rewrite Hc' in Hc. simplify_eq.
    destruct H as [(-> & -> & Hall)|(b & Hb & Hb0 & Hbn & Hfree & _ & Hwf' & Hst')]; [done|].
    simpl in *. subst a. split_and!; [done| |].
    + intros g Hg _ Hgu. by rewrite Hst', Hgu, orb_true_r.
    + zcase; [done|]. rewrite Z.div_mul by done. apply Forall_forall. intros f.
      rewrite elem_of_seqZ. intros ?. split; [lia|]. apply Hfree. lia.
  - destruct (pfa_free_spec st a Hwf Ha) as (? & Hc' & Hwf' & Hst'). rewrite Hc' in Hc. simplify_eq.
    split_and!; [done| |done]. intros g Hg Hkg Hgu. rewrite Hst', Hgu by done.
    destruct (Z.eqb_spec g (a / PAGE_SIZE)) as [->|]; [congruence|done].
  - destruct (pfa_free_contiguous_spec st a n Hwf Ha) as (? & Hc' & Hwf' & Hst');
      [assert (0 <= a / 4096) by word_lia; lia|].
    rewrite Hc' in Hc. simplify_eq.
    split_and!; [done| |done]. intros g Hg Hkg Hgu. rewrite Hst', Hgu by done.
    destruct (Z.leb_spec (a / 4096) g), (Z.ltb_spec g (a / 4096 + n)),
      (Z.ltb_spec (g + 4294967296) (a / 4096 + n)); simpl; try done; try lia.
    rewrite Hk in Hkg; [done|lia].
  - unfold pfa_reserve in Hc. destruct (Z.le_gt_cases e 0xFFFFF000).
    + destruct (mark_region_used_spec st s e Hwf Hs) as (? & Hc' & Hwf' & Hst'); [lia|].
      rewrite Hc' in Hc. simplify_eq. split_and!; [done| |done].
      intros g Hg _ Hgu. by rewrite Hst', Hgu, orb_true_r.
    + rewrite mark_region_used_wraps in Hc by lia. by simplify_eq.
Qed.

(** Allocator states for examples: every frame taken but frame 5. *)
Definition one_free_frame : pfa :=
  mkPfa (0xFFFFFFDF :: replicate (Z.to_nat 32767) 0xFFFFFFFF) MAX_FRAMES (MAX_FRAMES - 1).

Lemma one_free_frame_like : pfa_like one_free_frame (λ g, negb (g =? 5)).
Proof.
  assert (∀ g, 0 <= g < MAX_FRAMES → frame_used one_free_frame g = negb (g =? 5)) as Hall.
  { intros g Hg. unfold frame_used, one_free_frame, frame_bitmap.
    destruct (Z.lt_ge_cases g 32).
    - replace (g / 32) with 0 by word_lia. replace (g mod 32) with g by word_lia.
      change (Z.testbit (Z.ldiff (Z.ones 32) (Z.shiftl 1 5)) g = negb (g =? 5)).
      by rewrite Z.ldiff_spec, Z.ones_spec_low, testbit_shiftl1 by lia.
    - replace (Z.to_nat (g / 32)) with (S (Z.to_nat (g / 32 - 1))) by word_lia.
      rewrite lookup_cons_ne_0 by done. rewrite Nat.pred_succ, lookup_replicate_2 by word_lia.
      ztest. apply (Z.ones_spec_low 32). word_lia. }
  split; [|done]. split.
  - unfold one_free_frame, frame_bitmap. rewrite length_cons, length_replicate. lia.
  - unfold one_free_frame, frame_bitmap. apply Forall_cons_2; [lia|]. by apply Forall_replicate.
  - done.
  - rewrite (count_upto_clear (λ _, true) _ 5), count_upto_true, all_frames_Z;
      [reflexivity|intros; reflexivity|by rewrite all_frames_Z|reflexivity|].
    intros g Hg. rewrite all_frames_Z in Hg. by rewrite Hall, andb_true_r.
Qed.

(** There are well-formed states with any given range of frames free. *)
Lemma frames_free lo hi : 0 <= lo <= hi → hi <= MAX_FRAMES →
  ∃ st, pfa_like st (λ g, negb ((lo <=? g) && (g <? hi))).
Proof.
  intros Hlo Hhi. destruct (full_bitmap_wf (Z.to_nat 32768)) as [Hwf Hall]; [lia|].
  destruct (mark_free_range _ lo hi Hwf Hlo Hhi) as (st & _ & Hst). exists st.
  eapply pfa_like_ext; [|exact Hst]. intros g Hg. simpl. by rewrite Hall, andb_true_r.
Qed.

Lemma mark_region_free_wraps st s e :
  pfa_wf st → 0xFFFFF000 < s < 4294967296 → is_u32 e →
  ∃ st', mark_region_free s e st = Some st' ∧
         pfa_like st' (λ g, negb ((g + 1) * PAGE_SIZE <=? e) && frame_used st g).
Proof.
  intros Hwf Hs He.
  destruct (mark_region_free_spec st 0 e Hwf) as (st' & Heq & H'); [lia|done|].
  exists st'. split.
  - rewrite <- Heq. unfold mark_region_free. rewrite !align_up_page.
    by replace (u32 (s + 4095) / 4096 * 4096) with (u32 (0 + 4095) / 4096 * 4096) by word_lia.
  - eapply pfa_like_ext; [|exact H']. intros g Hg. unfold frame_inside.
    by rewrite (proj2 (Z.leb_le 0 (g * 4096))) by lia.
Qed.

(** ** Properties *)

(** C31: on every branch of pfa_init (memory map, [mem_upper] only, neither)
    the function succeeds, its loop over the memory map included.  A frame that
    is free afterwards lies inside an available region and is not frame zero nor
    part of the kernel image, the Multiboot block or its memory map; all such
    frames are free when no available region reaches 4 GiB; and in general all
    are but those that only a region ending exactly at 4 GiB has, and the last
    frame below 4 GiB.  The regions of the memory map start below the last page
    or at 4 GiB and above, and end before 2^64; that of [mem_upper] ends below
    4 GiB. *)
Theorem pfa_init_correct cr3 m mbi kstart kend st rs table :
  Z.of_nat (length (frame_bitmap st)) = BITMAP_WORDS →
  is_u32 kstart → 0 <= kend <= 0xFFFFF000 → 0 <= mbi <= 0xFFFFEFCC →
  boot_regions cr3 m mbi rs table →
  ∃ st', pfa_init cr3 m mbi kstart kend st = Some st' ∧ pfa_wf st' ∧
    (∀ g, 0 <= g < MAX_FRAMES → frame_used st' g = false →
       frame_available rs g = true ∧ boot_reserved kstart kend mbi table g = false) ∧
    ((∀ r, r ∈ rs → r.2 < 4294967296 ∨ 4294967296 <= r.1) →
     ∀ g, 0 <= g < MAX_FRAMES →
       frame_used st' g = boot_reserved kstart kend mbi table g || negb (frame_available rs g)) ∧
    (∀ g r, 0 <= g < MAX_FRAMES - 1 → r ∈ rs → frame_inside r.1 r.2 g = true → r.2 ≠ 4294967296 →
       frame_used st' g = boot_reserved kstart kend mbi table g).
Proof.
  intros Hlen Hks Hke Hm Hrs. destruct (pfa_init_regions cr3 m mbi kstart kend st rs table Hlen Hks Hke Hm Hrs)
    as (st' & E & Hwf & Hst). exists st'. split; [exact E|]. split; [exact Hwf|]. split; [|split].
  - intros g Hg Hu. rewrite Hst in Hu by exact Hg. apply orb_false_iff in Hu as [Hr Hf%negb_false_iff].
    split; [by apply freed_available|exact Hr].
  - intros Hb g Hg. rewrite Hst, available_freed by done. reflexivity.
  - intros g r Hg Hr Hin Hne. rewrite Hst by lia.
    assert (frame_freed rs g = true) as ->; [|by rewrite orb_false_r].
    apply existsb_exists. exists r. split; [by apply list_elem_of_In|]. unfold region_freed.
    by rewrite Hin, (proj2 (Z.eqb_neq _ _) Hne), (proj2 (Z.eqb_neq g (MAX_FRAMES - 1))) by lia.
Qed.

(** pfa_alloc returns the lowest free frame and takes it and no other; it
    returns 0 and changes nothing exactly when every frame is taken. *)
Theorem pfa_alloc_first_fit st : pfa_wf st →
  ∃ a st', pfa_alloc st = Some (a, st') ∧ pfa_wf st' ∧
    ((a = 0 ∧ st' = st ∧ ∀ g, 0 <= g < MAX_FRAMES → frame_used st g = true) ∨
     (∃ f, a = f * PAGE_SIZE ∧ 0 <= f < MAX_FRAMES ∧ frame_used st f = false ∧
        (∀ g, 0 <= g < f → frame_used st g = true) ∧
        ∀ g, 0 <= g < MAX_FRAMES → frame_used st' g = (g =? f) || frame_used st g)).
Proof.
  intros Hwf. destruct (pfa_alloc_spec st Hwf) as (a & st' & -> & H).
  exists a, st'. split; [done|]. destruct H as [(? & -> & ?)|(f & ? & ? & ? & ? & ? & ?)]; eauto 12.
Qed.

(** pfa_alloc_contiguous is first fit on runs: for a non-zero count it
    takes the lowest run of that many free frames, and it returns 0 with the
    state unchanged only when there is no such run. *)
Theorem pfa_alloc_contiguous_first_fit st n : pfa_wf st → 0 < n < 4294967296 →
  ∃ a st', pfa_alloc_contiguous n st = Some (a, st') ∧
    ((a = 0 ∧ st' = st ∧ ∀ b, 0 <= b → b + n <= MAX_FRAMES → ¬ run_free st b n) ∨
     (∃ b, a = b * PAGE_SIZE ∧ 0 <= b ∧ b + n <= MAX_FRAMES ∧ run_free st b n ∧
        (∀ b', 0 <= b' < b → ¬ run_free st b' n) ∧ pfa_wf st' ∧
        ∀ g, 0 <= g < MAX_FRAMES →
          frame_used st' g = (b <=? g) && (g <? b + n) || frame_used st g)).
Proof. apply pfa_alloc_contiguous_spec. Qed.

(** Giving back what an allocation returned restores the allocator's
    state, counter included, for single frames and for runs. *)
Theorem pfa_alloc_free_roundtrip st : pfa_wf st →
  (∀ a st', pfa_alloc st = Some (a, st') → a ≠ 0 → pfa_free a st' = Some st) ∧
  (∀ n a st', 0 < n < 4294967296 → pfa_alloc_contiguous n st = Some (a, st') → a ≠ 0 →
     pfa_free_contiguous a n st' = Some st).
Proof.
  intros Hwf. split.
  - intros a st' Ha Hne. destruct (pfa_alloc_spec st Hwf) as (? & ? & Ha' & H). simplify_eq.
    destruct H as [?|(f & -> & Hf & Hfu & _ & Hwf' & Hst')]; [naive_solver|].
    destruct (pfa_free_spec st' (f * 4096) Hwf') as (st2 & -> & Hwf2 & H2); [lia|].
    f_equal. apply pfa_ext; [done..|]. intros g Hg. rewrite H2, Hst', Z.div_mul by done.
    by destruct (Z.eqb_spec g f) as [->|].
  - intros n a st' Hn Ha Hne.
    destruct (pfa_alloc_contiguous_spec st n Hwf Hn) as (? & ? & Ha' & H). simplify_eq.
    destruct H as [?|(b & Hb & Hb0 & Hbn & Hfree & _ & Hwf' & Hst')]; [naive_solver|].
    simpl in *. subst a.
    destruct (pfa_free_contiguous_spec st' (b * 4096) n Hwf') as (st2 & -> & Hwf2 & H2); [lia..|].
    f_equal. apply pfa_ext; [done..|]. intros g Hg. rewrite H2, Hst', Z.div_mul by done.
    rewrite (proj2 (Z.ltb_ge (g + 4294967296) (b + n))), orb_false_r by lia.
    destruct (Z.leb_spec b g), (Z.ltb_spec g (b + n)); simpl; try done.
    symmetry. apply Hfree. lia.
Qed.

(** C32: in every state the kernel's calls can reach from a well-formed one,
    the cached counter is the number of set bits, so pfa_free_frames is the
    number of frames pfa_alloc can still hand out; and as long as the callers
    do not give back the frames of [keep], no call hands one of them out. *)
Theorem pfa_calls_invariant keep st fs st' :
  pfa_wf st → (∀ g, 0 <= g < MAX_FRAMES → keep g = true → frame_used st g = true) →
  run (pfa_call keep) st fs st' →
  pfa_wf st' ∧
  pfa_free_frames st' = count_upto (λ g, negb (frame_used st' g)) all_frames ∧
  Forall (λ f, keep f = false) fs.
Proof.
  intros Hwf Hk Hr.
  destruct (run_invariant (pfa_call keep)
    (λ st, pfa_wf st ∧ ∀ g, 0 <= g < MAX_FRAMES → keep g = true → frame_used st g = true)
    (λ f, keep f = false)) with (s := st) (ls := fs) (s' := st') as [[Hwf' _] HQ]; [|done|done|].
  - intros s ls s' [Hs Hks] Hc. destruct (pfa_call_inv _ _ _ _ Hs Hc) as (Hs' & Hk' & HF).
    split; [by eauto|]. eapply Forall_impl; [exact HF|]. intros f [Hf Hfu].
    destruct (keep f) eqn:Hkf; [|done]. rewrite Hks in Hfu by done. done.
  - split; [done|]. split; [|done]. unfold pfa_free_frames.
    rewrite (wf_total _ Hwf'), (wf_used _ Hwf'), count_upto_negb, all_frames_Z.
    apply u32_small. pose proof (count_upto_bounds (frame_used st') all_frames).
    rewrite all_frames_Z in *. lia.
Qed.

(** The corners of the address arithmetic.  Reserving a region that ends
    in the last page of the address space reserves nothing; an available
    region that ends exactly at 4 GiB is not made available; and releasing a
    region that starts in the last page releases from frame zero on. *)
Theorem pfa_region_wraparound st s e x :
  pfa_wf st → 0xFFFFF000 < e < 4294967296 → is_u32 s →
  entry_ok x → me_addr x + me_len x = 4294967296 →
  mark_region_used s e st = Some st ∧
  mmap_entry_free x st = Some st ∧
  ∃ st', mark_region_free e 0xFFFFFFFF st = Some st' ∧
         ∀ g, 0 <= g < MAX_FRAMES - 1 → frame_used st' g = false.
Proof.
  intros Hwf He Hs Hx Hend. split; [by apply mark_region_used_wraps|]. split.
  - destruct (mmap_entry_free_spec st x Hwf Hx) as (st' & -> & Hwf' & Hst').
    f_equal. apply pfa_ext; [done..|]. intros g Hg. rewrite Hst' by done.
    unfold entry_frees, region_freed. cbn [fst snd]. rewrite Hend. cbn [Z.eqb]. by rewrite !andb_false_r.
  - destruct (mark_region_free_wraps st e 0xFFFFFFFF Hwf He) as (st' & -> & _ & Hst'); [lia|].
    exists st'. split; [done|]. intros g Hg. rewrite Hst' by lia. by ztest.
Qed.

(** ** Witnesses *)

(** A boot memory: a page directory at 0x8000 that maps the first 4 MiB, and a
    Multiboot block at 0x10000 whose memory map, at 0x11000, has one available
    region, [0x100000, 0x200000). *)
Definition boot_memory : mem :=
  list_to_map [(0x8000, 0x83); (0x10000, 0x40); (0x1002C, 24); (0x10031, 0x10); (0x10032, 1);
               (0x11000, 20); (0x11006, 0x10); (0x1100E, 0x10); (0x11014, 1)].

Lemma boot_memory_map :
  boot_regions 0x8000 boot_memory 0x10000 [(0x100000, 0x200000)] (frame_meets 0x11000 0x11018).
Proof.
  apply (boot_regions_mmap _ _ _ 0x40 0x11000 24 [mkEntry 20 0x100000 0x100000 1]); try reflexivity; try lia.
  - done.
  - simpl. split; [lia|]. split; [reflexivity|lia].
  - apply Forall_singleton. unfold entry_ok; simpl. lia.
Qed.

Lemma pfa_init_correct_witness :
  ∃ st', pfa_init 0x8000 boot_memory 0x10000 0x100000 0x110000
           (mkPfa (replicate (Z.to_nat 32768) 0) 0 0) = Some st' ∧
         frame_used st' 0x110 = false ∧ frame_used st' 0x10F = true ∧ frame_used st' 0x200 = true.
Proof.
  assert (Z.of_nat (length (frame_bitmap (mkPfa (replicate (Z.to_nat 32768) 0) 0 0))) = BITMAP_WORDS)
    as Hlen by (unfold frame_bitmap; rewrite length_replicate; lia).
  destruct (pfa_init_correct 0x8000 boot_memory 0x10000 0x100000 0x110000 _ _ _
    Hlen ltac:(lia) ltac:(lia) ltac:(lia) boot_memory_map) as (st' & Heq & _ & _ & Hst' & _).
  assert (∀ r : Z * Z, r ∈ [(0x100000, 0x200000)] → r.2 < 4294967296 ∨ 4294967296 <= r.1) as Hr
    by (intros r ->%list_elem_of_singleton; left; reflexivity).
  specialize (Hst' Hr). exists st'. split; [exact Heq|]. rewrite !Hst' by lia. split_and!; reflexivity.
Defined.

Lemma one_free_frame_alloc : ∃ st', pfa_alloc one_free_frame = Some (5 * PAGE_SIZE, st').
Proof.
  destruct one_free_frame_like as [Hwf Hfr].
  destruct (pfa_alloc_spec one_free_frame Hwf) as (a & st' & Heq & [H|H]).
  - destruct H as (_ & _ & H). specialize (H 5 ltac:(lia)). by rewrite Hfr in H by lia.
  - destruct H as (f & -> & Hf & Hfu & _). rewrite Hfr in Hfu by done.
    destruct (Z.eqb_spec f 5) as [->|]; [by eauto|done].
Qed.

Lemma pfa_alloc_first_fit_witness :
  ∃ st', pfa_alloc one_free_frame = Some (5 * PAGE_SIZE, st') ∧ frame_used st' 5 = true.
Proof.
  destruct one_free_frame_like as [Hwf Hfr].
  destruct (pfa_alloc_first_fit one_free_frame Hwf) as (a & st' & Heq & _ & [H|H]).
  - destruct H as (_ & _ & H). specialize (H 5 ltac:(lia)). rewrite Hfr in H by lia. discriminate H.
  - destruct H as (f & -> & Hf & Hfu & _ & Hst'). rewrite Hfr in Hfu by done.
    destruct (Z.eqb_spec f 5) as [->|]; [|discriminate Hfu].
    exists st'. split; [exact Heq|]. by rewrite Hst' by lia.
Defined.

Lemma pfa_alloc_contiguous_first_fit_witness :
  ∃ st', pfa_alloc_contiguous 2 one_free_frame = Some (0, st') ∧ st' = one_free_frame.
Proof.
  destruct one_free_frame_like as [Hwf Hfr].
  destruct (pfa_alloc_contiguous_first_fit one_free_frame 2 Hwf) as (a & st' & Heq & [H|H]); [lia| |].
  - destruct H as (-> & -> & _). exists one_free_frame. split; [exact Heq|reflexivity].
  - destruct H as (b & _ & Hb & Hb2 & Hfree & _).
    pose proof (Hfree b ltac:(lia)) as H1. pose proof (Hfree (b + 1) ltac:(lia)) as H2.
    rewrite Hfr in H1, H2 by lia.
    clear Heq. exfalso. destruct (Z.eqb_spec b 5); [|discriminate H1].
    destruct (Z.eqb_spec (b + 1) 5); [lia|discriminate H2].
Defined.

Lemma pfa_alloc_free_roundtrip_witness :
  ∃ st', pfa_alloc one_free_frame = Some (5 * PAGE_SIZE, st') ∧
         pfa_free (5 * PAGE_SIZE) st' = Some one_free_frame.
Proof.
  destruct one_free_frame_alloc as [st' H]. exists st'. split; [exact H|].
  apply (pfa_alloc_free_roundtrip one_free_frame (proj1 one_free_frame_like)); [exact H|lia].
Defined.

Lemma pfa_calls_invariant_witness :
  ∃ st', pfa_alloc one_free_frame = Some (5 * PAGE_SIZE, st') ∧ pfa_wf st' ∧ (5 =? 0) = false.
Proof.
  destruct one_free_frame_alloc as [st' H]. exists st'. split; [exact H|].
  destruct (pfa_calls_invariant (λ g, g =? 0) one_free_frame ([5] ++ []) st') as (Hwf & _ & HF).
  - apply one_free_frame_like.
  - intros g Hg H0. apply Z.eqb_eq in H0 as ->.
    exact (proj2 one_free_frame_like 0 ltac:(lia)).
  - eapply run_cons; [|apply run_nil]. by apply (call_alloc _ _ (5 * PAGE_SIZE)).
  - split; [exact Hwf|]. by apply Forall_cons in HF as [HF _].
Defined.

Lemma pfa_region_wraparound_witness :
  mark_region_used 0x100000 0xFFFFF001 one_free_frame = Some one_free_frame ∧
  mmap_entry_free (mkEntry 20 0xF0000000 0x10000000 1) one_free_frame = Some one_free_frame.
Proof.
  destruct (pfa_region_wraparound one_free_frame 0x100000 0xFFFFF001
    (mkEntry 20 0xF0000000 0x10000000 1)) as (H1 & H2 & _).
  - apply one_free_frame_like.
  - lia.
  - lia.
  - unfold entry_ok; simpl; lia.
  - reflexivity.
  - split; [exact H1|exact H2].
Defined.
