(* ===== verification/Paging.v ===== *)
(** * paging4k.c: page directories and 4 KiB mappings

    The functions build page directories in raw memory, with frames of the
    allocator behind [FrameAlloc].  Their specification is an abstract address
    space, [space]: for each of the 1024 slots of the directory an identity
    4 MiB page, nothing, or a page table with its 1024 entries.  [space_at]
    says that the memory at [dir] represents one; the processor's walk over
    that memory is then a function of the space alone. *)

From stdpp Require Import prelude gmap.
From Stdlib Require Import ZArith Lia.
From S2P Require Import Prelude Memory Kutil FrameAlloc Pfa.

Abbreviation PTE_PRESENT := 1.
Abbreviation PTE_RW := 2.
Abbreviation PTE_USER := 4.
Abbreviation PDE_PRESENT := 1.
Abbreviation PDE_RW := 2.
Abbreviation PDE_USER := 4.
Abbreviation PDE_PS := 128.

(** ** The code *)

Section code.
Context {A : Type} `{FrameAlloc A}.

Definition paging_create_kernel_dir (cr3 : Z) (m : mem) (fa : A)
    : option (Z * mem * A) :=
  '(frame, fa) ← fa_alloc fa;
  if frame =? 0 then Some (0, m, fa) else
  let dir := frame in
  m ← for_range 0 1024 (λ i m,
        kst32 cr3 m (dir +ᵤ 4 * i)
          (Z.lor (Z.lor (Z.lor (u32 (Z.shiftl i 22)) PDE_PRESENT) PDE_RW) PDE_PS)) m;
  Some (dir, m, fa).

(** The slot of the directory after a new table: present, writable, and
    accessible from ring 3 when the mapping is. *)
Definition set_table (cr3 : Z) (m : mem) (slot pt_frame flags : Z) : option mem :=
  m ← kst32 cr3 m slot (Z.lor (Z.lor pt_frame PDE_PRESENT) PDE_RW);
  if negb (Z.land flags PTE_USER =? 0) then
    e ← kld32 cr3 m slot; kst32 cr3 m slot (Z.lor e PDE_USER)
  else Some m.

(** The two branches that need a page table: take a frame, fill it, enter it
    in the directory; [inr] is the early return when there is no frame. *)
Definition new_table (cr3 : Z) (m : mem) (fa : A) (slot flags : Z)
    (fill : Z → mem → option mem) : option ((Z * mem * A) + (mem * A)) :=
  '(pt_frame, fa) ← fa_alloc fa;
  if pt_frame =? 0 then Some (inr (m, fa)) else
  m ← fill pt_frame m;
  m ← set_table cr3 m slot pt_frame flags;
  Some (inl (pt_frame, m, fa)).

Definition paging_map_4k (cr3 : Z) (m : mem) (fa : A) (dir virt phys flags : Z)
    : option (mem * A) :=
  let pde_idx := Z.shiftr virt 22 in
  let pte_idx := Z.land (Z.shiftr virt 12) 0x3FF in
  let slot := dir +ᵤ 4 * pde_idx in
  pde ← kld32 cr3 m slot;
  r ← (if negb (Z.land pde PDE_PS =? 0) then
         let base := Z.land pde 0xFFC00000 in
         new_table cr3 m fa slot flags (λ pt m,
           for_range 0 1024 (λ i m,
             kst32 cr3 m (pt +ᵤ 4 * i)
               (Z.lor (Z.lor (base +ᵤ (i *ᵤ PAGE_SIZE)) PTE_PRESENT) PTE_RW)) m)
       else if Z.land pde PDE_PRESENT =? 0 then
         new_table cr3 m fa slot flags (λ pt m,
           '(_, m) ← memset cr3 m pt 0 PAGE_SIZE; Some m)
       else
         let pt := Z.land pde 0xFFFFF000 in
         m ← (if negb (Z.land flags PTE_USER =? 0) && (Z.land pde PDE_USER =? 0)
              then e ← kld32 cr3 m slot; kst32 cr3 m slot (Z.lor e PDE_USER)
              else Some m);
         Some (inl (pt, m, fa)));
  match r with
  | inr early => Some early
  | inl (pt, m, fa) =>
      m ← kst32 cr3 m (pt +ᵤ 4 * pte_idx) (Z.lor (Z.land phys 0xFFFFF000) flags);
      Some (m, fa)
  end.
End code.

(** ** Abstract address spaces *)

Inductive pde_view :=
  | Large
  | Absent
  | Table (pt : Z) (user : bool).

Record space := mkSpace {
  sp_pde : Z → pde_view;
  sp_pte : Z → Z
}.

Definition pde_word (i : Z) (v : pde_view) : Z :=
  match v with
  | Large => i * 4194304 + 131
  | Absent => 0
  | Table pt user => pt + (if user then 7 else 3)
  end.

Definition page_addr (a : Z) : Prop := 0 <= a <= 0xFFFFF000 ∧ a mod 4096 = 0.

(** The memory at [dir] holds the space [sp]. *)
Record space_at (m : mem) (dir : Z) (sp : space) : Prop := {
  sa_dir : page_addr dir;
  sa_pde : ∀ i, 0 <= i < 1024 → ld32 m (dir + 4 * i) = pde_word i (sp_pde sp i);
  sa_table : ∀ i pt u, 0 <= i < 1024 → sp_pde sp i = Table pt u →
    page_addr pt ∧ pt ≠ dir ∧
    ∀ j, 0 <= j < 1024 → ld32 m (pt + 4 * j) = sp_pte sp (1024 * i + j);
  sa_distinct : ∀ i i' pt u u', 0 <= i < 1024 → 0 <= i' < 1024 →
    sp_pde sp i = Table pt u → sp_pde sp i' = Table pt u' → i = i'
}.

(** The bytes that represent a space: the directory and its tables. *)
Definition footprint (dir : Z) (sp : space) (a : Z) : Prop :=
  within dir 4096 a ∨
  ∃ i pt u, 0 <= i < 1024 ∧ sp_pde sp i = Table pt u ∧ within pt 4096 a.

(** What a space means: the physical address of a virtual one, for the kernel
    and for ring 3. *)
Definition sp_walk (sp : space) (va : Z) : option Z :=
  match sp_pde sp (va / 4194304) with
  | Large => Some va
  | Absent => None
  | Table _ _ =>
      let w := sp_pte sp (va / 4096) in
      if pg_present w then Some (w / 4096 * 4096 + va mod 4096) else None
  end.

Definition sp_user_walk (sp : space) (va : Z) : option Z :=
  match sp_pde sp (va / 4194304) with
  | Table _ true => if pg_user (sp_pte sp (va / 4096)) then sp_walk sp va else None
  | _ => None
  end.

(** The identity space of paging_create_kernel_dir. *)
Definition identity_space : space := mkSpace (λ _, Large) (λ _, 0).

(** Mapping one page: the slot gets a table, whose entries keep what the slot
    meant, and then the page's entry is set. *)
Definition sp_split (sp : space) (i pt : Z) (user : bool) : space :=
  let pde := match sp_pde sp i with
             | Table pt0 u => Table pt0 (u || user)
             | _ => Table pt user
             end in
  let old k := match sp_pde sp i with
               | Large => k * 4096 + 3
               | Absent => 0
               | Table _ _ => sp_pte sp k
               end in
  mkSpace (λ k, if k =? i then pde else sp_pde sp k)
          (λ k, if k / 1024 =? i then old k else sp_pte sp k).

Definition sp_set (sp : space) (v w : Z) : space :=
  mkSpace (sp_pde sp) (λ k, if k =? v then w else sp_pte sp k).

Definition sp_map (sp : space) (v pt w : Z) (user : bool) : space :=
  sp_set (sp_split sp (v / 1024) pt user) v w.

(** ** The walk over a space *)

(** The flag bits of an entry are those below the page number. *)
Lemma testbit_entry k c i : 0 <= i < 12 → Z.testbit (k * 4096 + c) i = Z.testbit c i.
Proof.
  intros. rewrite <- (Z.mod_pow2_bits_low _ 12), <- (Z.mod_pow2_bits_low c 12) by lia.
  change (2 ^ 12) with 4096. by rewrite Z.add_comm, Z_mod_plus_full.
Qed.

(** The directory word of a view, bit by bit and as a page number. *)
Lemma pde_word_facts i v : 0 <= i < 1024 →
  (∀ pt u, v = Table pt u → page_addr pt) →
  pg_present (pde_word i v) = (match v with Absent => false | _ => true end) ∧
  pg_large (pde_word i v) = (match v with Large => true | _ => false end) ∧
  pg_user (pde_word i v) = (match v with Table _ u => u | _ => false end) ∧
  is_u32 (pde_word i v).
Proof.
  intros Hi Hpt. unfold pg_present, pg_large, pg_user. destruct v as [| |pt u]; cbn [pde_word].
  - replace (i * 4194304 + 131) with (i * 1024 * 4096 + 131) by lia.
    rewrite !testbit_entry by lia. split_and!; reflexivity || lia.
  - split_and!; reflexivity || lia.
  - destruct (Hpt pt u eq_refl) as [? Hal].
    replace pt with (pt / 4096 * 4096) by word_lia.
    destruct u; rewrite !testbit_entry by lia; split_and!; reflexivity || word_lia.
Qed.

Lemma sa_table_addr m dir sp i pt u :
  space_at m dir sp → 0 <= i < 1024 → sp_pde sp i = Table pt u → page_addr pt.
Proof. intros Hs Hi Hp. by apply (sa_table _ _ _ Hs i pt u). Qed.

Section walk_space.
Context (m : mem) (dir : Z) (sp : space) (Hs : space_at m dir sp).

Lemma pde_of_space va : is_u32 va →
  ld32 m (pde_addr dir va) = pde_word (va / 4194304) (sp_pde sp (va / 4194304)).
Proof.
  intros Hva. destruct (sa_dir _ _ _ Hs) as [? Hal].
  unfold pde_addr. rewrite land_page, Z.shiftr_div_pow2 by lia. change (2 ^ 22) with 4194304.
  replace (dir / 4096 * 4096) with dir by word_lia. apply Hs. word_lia.
Qed.

Lemma pte_of_space va pt u : is_u32 va → sp_pde sp (va / 4194304) = Table pt u →
  ld32 m (pte_addr (pde_word (va / 4194304) (Table pt u)) va) = sp_pte sp (va / 4096).
Proof.
  intros Hva Hp.
  destruct (sa_table _ _ _ Hs (va / 4194304) pt u) as ([Hr Hal] & _ & Hpte); [word_lia|done|].
  unfold pte_addr. rewrite land_pte_index, Z.shiftr_div_pow2 by lia. change (2 ^ 12) with 4096.
  simpl. rewrite land_page by (destruct u; word_lia).
  replace ((pt + (if u then 7 else 3)) / 4096 * 4096) with pt by (destruct u; word_lia).
  rewrite Hpte by word_lia. f_equal. word_lia.
Qed.

(** The processor's walk over the representation is the space's meaning. *)
Lemma walk_space va : is_u32 va →
  walk m dir va = sp_walk sp va ∧ user_walk m dir va = sp_user_walk sp va.
Proof.
  intros Hva. unfold user_walk, sp_user_walk, walk, sp_walk.
  rewrite (u32_small va), (u32_small va), pde_of_space by done.
  destruct (pde_word_facts (va / 4194304) (sp_pde sp (va / 4194304))) as (Hp & Hl & Hu & Hr).
  { word_lia. } { intros pt u Hpu. eapply (sa_table_addr _ _ _ _ _ _ Hs); [|exact Hpu]. word_lia. }
  rewrite Hp, Hl, Hu. destruct (sp_pde sp (va / 4194304)) as [| |pt u] eqn:Hpde; simpl.
  - split; [|done]. f_equal. unfold pde_word in *.
    rewrite land_large_page, land_large_page_offset by done.
    replace ((va / 4194304 * 4194304 + 131) / 4194304) with (va / 4194304) by word_lia.
    rewrite (lor_low 22) by word_lia. word_lia.
  - done.
  - fold (pde_word (va / 4194304) (Table pt u)).
    rewrite (pte_of_space va pt u) by done.
    assert (is_u32 (sp_pte sp (va / 4096))) as Hw
      by (rewrite <- (pte_of_space va pt u) by done; apply ld32_range).
    rewrite land_page, land_page_offset, (lor_low 12) by (done || word_lia).
    change (2 ^ 12) with 4096.
    destruct (pg_present (sp_pte sp (va / 4096))); destruct u; done.
Qed.
End walk_space.

(** ** What a space depends on *)

Lemma within_page a x : page_addr a → within a 4096 x → is_u32 x.
Proof. unfold within. intros [? ?]. lia. Qed.

Lemma pages_disjoint a b x : page_addr a → page_addr b → a ≠ b →
  within a 4096 x → ¬ within b 4096 x.
Proof. unfold within. intros [? ?] [? ?]. word_lia. Qed.

Lemma ld32_page m m' a i : page_addr a → 0 <= i < 1024 →
  (∀ x, within a 4096 x → ld8 m' x = ld8 m x) → ld32 m' (a + 4 * i) = ld32 m (a + 4 * i).
Proof.
  unfold within. intros [? ?] Hi Hx. apply ld32_ext; [lia|]. unfold within. intros. apply Hx. lia.
Qed.

Lemma space_at_changes m m' dir sp : space_at m dir sp →
  changes_only (λ a, ¬ footprint dir sp a) m m' → space_at m' dir sp.
Proof.
  intros Hs Hc.
  assert (∀ x, is_u32 x → footprint dir sp x → ld8 m' x = ld8 m x) as Heq
    by (intros x Hx Hf; apply Hc; [done|naive_solver]).
  destruct Hs as [Hd Hp Ht Hi]. split; [done| | |done].
  - intros i Hr. rewrite <- Hp by done. apply ld32_page; [done..|].
    intros x Hx. apply Heq; [by eapply within_page|by left].
  - intros i pt u Hr Hpt. destruct (Ht i pt u Hr Hpt) as (Ha & Hne & Hpte).
    split_and!; [done..|]. intros j Hj. rewrite <- Hpte by done. apply ld32_page; [done..|].
    intros x Hx. apply Heq; [by eapply within_page|]. right. eauto 8.
Qed.

Lemma split_pde sp i pt user : (∀ p u, sp_pde sp i ≠ Table p u) →
  sp_pde (sp_split sp i pt user) i = Table pt user.
Proof.
  intros Hnt. unfold sp_split; simpl. rewrite Z.eqb_refl.
  destruct (sp_pde sp i) eqn:E; try done. by destruct (Hnt pt0 user0).
Qed.

(** Through a directory, the kernel sees flat memory wherever the space is the
    identity and outside the directory itself. *)
Lemma kmapped_space m cr3 sp : space_at m cr3 sp →
  kmapped cr3 (λ a, sp_walk sp a = Some a ∧ ¬ footprint cr3 sp a) m.
Proof.
  intros Hs m' Hc a Ha [Hw _].
  assert (space_at m' cr3 sp) as Hs'.
  { eapply space_at_changes; [done|]. eapply changes_only_mono; [|exact Hc]. naive_solver. }
  rewrite <- Hw. by apply walk_space.
Qed.

(** Giving a slot a table: what must be in memory afterwards. *)
Lemma space_at_split m m' dir sp i pt (user : bool) :
  space_at m dir sp → 0 <= i < 1024 → (∀ p u, sp_pde sp i ≠ Table p u) →
  page_addr pt → (∀ a, within pt 4096 a → ¬ footprint dir sp a) →
  changes_only (λ a, within pt 4096 a ∨ within (dir + 4 * i) 4 a) m m' →
  ld32 m' (dir + 4 * i) = pt + (if user then 7 else 3) →
  (∀ j, 0 <= j < 1024 → ld32 m' (pt + 4 * j) = sp_pte (sp_split sp i pt user) (1024 * i + j)) →
  space_at m' dir (sp_split sp i pt user).
Proof.
  intros Hs Hi Hnt Hpt Hfp Hc Hslot Hpte. pose proof (sa_dir _ _ _ Hs) as Hd.
  assert (sp_pde (sp_split sp i pt user) i = Table pt user) as Hnew.
  { by apply split_pde. }
  assert (∀ k, k ≠ i → sp_pde (sp_split sp i pt user) k = sp_pde sp k) as Hold.
  { intros k Hk. unfold sp_split; simpl. by ztest. }
  assert (pt ≠ dir) as Hne.
  { intros ->. apply (Hfp dir); unfold within; [lia|left; unfold within; lia]. }
  assert (∀ k p u, 0 <= k < 1024 → sp_pde sp k = Table p u → p ≠ pt) as Hnept.
  { intros k p u Hk Hp ->. apply (Hfp pt); [unfold within; lia|]. right.
    exists k, pt, u. split_and!; [lia|lia|done|unfold within; lia]. }
  assert (∀ x, is_u32 x → ¬ within pt 4096 x → ¬ within (dir + 4 * i) 4 x → ld8 m' x = ld8 m x) as Heq.
  { intros x Hx H1 H2. apply Hc; [done|naive_solver]. }
  split; [done| | |].
  - intros k Hk. destruct (Z.eq_dec k i) as [->|Hki]; [by rewrite Hnew|]. rewrite Hold by done.
    rewrite <- (sa_pde _ _ _ Hs) by done. destruct Hd. apply ld32_ext; [lia|]. unfold within. intros x Hx.
    apply Heq; [lia| |unfold within; lia]. apply pages_disjoint with dir; [done..|unfold within; lia].
  - intros k p u Hk Hp. destruct (Z.eq_dec k i) as [->|Hki].
    + rewrite Hnew in Hp. simplify_eq. done.
    + rewrite Hold in Hp by done. destruct (sa_table _ _ _ Hs k p u Hk Hp) as (Ha & Hpd & Hw).
      split_and!; [done..|]. intros j Hj.
      replace (sp_pte (sp_split sp i pt user) (1024 * k + j)) with (sp_pte sp (1024 * k + j)).
      2:{ unfold sp_split; simpl. rewrite (proj2 (Z.eqb_neq ((1024 * k + j) / 1024) i)) by word_lia. done. }
      rewrite <- Hw by done. apply ld32_page; [done..|]. intros x Hx.
      apply Heq; [by eapply within_page|by apply pages_disjoint with p; eauto|].
      intros Hdx. apply (pages_disjoint p dir x); [done..|]. destruct Hd. unfold within in *; lia.
  - intros k k' p u u' Hk Hk' Hp Hp'.
    destruct (Z.eq_dec k i) as [->|], (Z.eq_dec k' i) as [->|]; [done| | |].
    + rewrite Hnew in Hp. rewrite Hold in Hp' by done. simplify_eq. by destruct (Hnept k' p u').
    + rewrite Hnew in Hp'. rewrite Hold in Hp by done. simplify_eq. by destruct (Hnept k p u).
    + rewrite Hold in Hp, Hp' by done. by apply (sa_distinct _ _ _ Hs k k' p u u').
Qed.

(** Raising the user bit of a slot that has a table. *)
Lemma space_at_user m dir sp i p u (user : bool) :
  space_at m dir sp → 0 <= i < 1024 → sp_pde sp i = Table p u →
  space_at (st32 m (dir + 4 * i) (p + (if u || user then 7 else 3))) dir (sp_split sp i p user).
Proof.
  intros Hs Hi Hp. pose proof (sa_dir _ _ _ Hs) as [Hd Hdal].
  destruct (sa_table _ _ _ Hs i p u Hi Hp) as ([Hpr Hpal] & Hpd & _).
  assert (∀ k, sp_pde (sp_split sp i p user) k =
               if k =? i then Table p (u || user) else sp_pde sp k) as Hpde.
  { intros k. unfold sp_split; simpl. by rewrite Hp. }
  assert (∀ k, sp_pte (sp_split sp i p user) k = sp_pte sp k) as Hpte.
  { intros k. unfold sp_split; simpl. rewrite Hp. by destruct (k / 1024 =? i). }
  split; [done| | |].
  - intros k Hk. rewrite Hpde. destruct (Z.eqb_spec k i) as [->|].
    + rewrite ld32_st32_eq; [done|lia|]. destruct (u || user); lia.
    + rewrite ld32_st32_ne by lia. by apply Hs.
  - intros k q w Hk Hq. rewrite Hpde in Hq.
    assert (∃ w', sp_pde sp k = Table q w') as [w' Hq'].
    { destruct (Z.eqb_spec k i) as [->|]; [|by eauto]. simplify_eq. eauto. }
    destruct (sa_table _ _ _ Hs k q w' Hk Hq') as ([Hqr Hqal] & Hqd & Hw).
    split_and!; [done..|]. intros j Hj. rewrite Hpte, <- Hw by done.
    rewrite ld32_st32_ne; [done|lia|lia|]. word_lia.
  - intros k k' q w w' Hk Hk' Hq Hq'. rewrite Hpde in Hq, Hq'.
    destruct (Z.eqb_spec k i) as [->|], (Z.eqb_spec k' i) as [->|]; simplify_eq; [done| | |].
    + by eapply (sa_distinct _ _ _ Hs i k'); eauto.
    + by eapply (sa_distinct _ _ _ Hs k i); eauto.
    + by eapply (sa_distinct _ _ _ Hs k k'); eauto.
Qed.

(** Setting one entry of a table. *)
Lemma space_at_set m dir sp v p u w :
  space_at m dir sp → 0 <= v < 1048576 → sp_pde sp (v / 1024) = Table p u → is_u32 w →
  space_at (st32 m (p + 4 * (v mod 1024)) w) dir (sp_set sp v w).
Proof.
  intros Hs Hv Hp Hw. pose proof (sa_dir _ _ _ Hs) as [Hd Hdal].
  destruct (sa_table _ _ _ Hs (v / 1024) p u) as ([Hpr Hpal] & Hpd & _); [word_lia|done|].
  split; [done| | |by apply Hs].
  - intros k Hk. simpl. rewrite ld32_st32_ne; [by apply Hs|word_lia|lia|word_lia].
  - intros k q w' Hk Hq. simpl in *.
    destruct (sa_table _ _ _ Hs k q w' Hk Hq) as ([Hqr Hqal] & Hqd & Hpte).
    split_and!; [done..|]. intros j Hj. simpl. destruct (Z.eqb_spec (1024 * k + j) v) as [Heq|Hne].
    + assert (k = v / 1024) as -> by word_lia. rewrite Hp in Hq. simplify_eq.
      replace j with (v mod 1024) by word_lia. apply ld32_st32_eq; [word_lia|done].
    + rewrite ld32_st32_ne; [by apply Hpte|word_lia|lia|].
      destruct (Z.eq_dec q p) as [->|]; [|word_lia].
      assert (k = v / 1024) as -> by (eapply (sa_distinct _ _ _ Hs); eauto; word_lia). word_lia.
Qed.

(** ** The allocator and the memory the kernel sees *)

Section specs.
Context {A : Type} `{FrameAllocLaws A}.

(** The kernel can write every free frame through the current tables. *)
Record kenv (cr3 : Z) (R : Z → Prop) (m : mem) (fa : A) : Prop := {
  ke_mapped : kmapped cr3 R m;
  ke_ok : fa_ok fa;
  ke_free : ∀ g a, 0 <= g < MAX_FRAMES → fa_free fa g = true → within (g * 4096) 4096 a → R a
}.

(** One call of the allocator, seen from the kernel: no frame left, or the
    address [a] of a frame that was free and is taken now. *)
Inductive frame_taken (fa : A) : Z → A → Prop :=
  | no_frame : (∀ g, 0 <= g < MAX_FRAMES → fa_free fa g = false) → frame_taken fa 0 fa
  | a_frame a fa' : page_addr a → a ≠ 0 → fa_free fa (a / 4096) = true →
      (∀ g, 0 <= g < MAX_FRAMES → fa_free fa' g = negb (g =? a / 4096) && fa_free fa g) →
      frame_taken fa a fa'.

Lemma kenv_changes cr3 R m m' fa :
  kenv cr3 R m fa → changes_only R m m' → kenv cr3 R m' fa.
Proof. intros [Hk Ho Hf] Hc. split; [by eapply kmapped_changes|done|done]. Qed.

Lemma kenv_alloc cr3 R m fa : kenv cr3 R m fa →
  ∃ a fa', fa_alloc fa = Some (a, fa') ∧ kenv cr3 R m fa' ∧ frame_taken fa a fa' ∧
           (a ≠ 0 → ∀ x, within a 4096 x → R x).
Proof.
  intros [Hk Ho Hf]. destruct (fa_alloc_step fa Ho) as (a & fa' & -> & Ho' & Hs).
  exists a, fa'. split; [done|].
  destruct Hs as [(-> & -> & Hall)|(f & -> & Hr & Hfr & Hfa')].
  - split; [done|]. split; [by constructor|done].
  - assert (f * 4096 / 4096 = f) as Hdiv by (by rewrite Z.div_mul).
    split; [split; [done..|]|split].
    + intros g x Hg Hgf Hx. rewrite Hfa' in Hgf by done. apply andb_prop in Hgf as [_ Hgf]. by eapply Hf.
    + apply a_frame; rewrite ?Hdiv; try done; [|lia]. split; word_lia.
    + intros _ x Hx. eapply Hf; [|exact Hfr|done]. lia.
Qed.

(** Filling a page with 1024 words. *)
Lemma fill_page cr3 R m a (f : Z → Z) :
  kmapped cr3 R m → page_addr a → (∀ x, within a 4096 x → R x) → (∀ i, 0 <= i < 1024 → is_u32 (f i)) →
  ∃ m', for_range 0 1024 (λ i m, kst32 cr3 m (a +ᵤ 4 * i) (f i)) m = Some m' ∧
        changes_only (within a 4096) m m' ∧
        ∀ i, 0 <= i < 1024 → ld32 m' (a + 4 * i) = f i.
Proof.
  intros Hk [Ha Hal] HR Hf.
  apply (for_range_ind (λ i m', changes_only (within a 4096) m m' ∧
    ∀ k, 0 <= k < i → ld32 m' (a + 4 * k) = f k)); [done|split; [done|lia]|].
  intros j m1 Hj [Hc Hw]. rewrite u32_small by lia.
  assert (changes_only R m m1) as HcR by (by eapply changes_only_mono).
  destruct (kst32_kmapped cr3 R m1 (a + 4 * j) (f j)) as [-> _].
  { by eapply kmapped_changes. } { lia. } { intros b Hb. apply HR. unfold within in *; lia. }
  eexists. split; [done|]. split.
  - eapply changes_only_trans; [done|]. intros b Hb Hn. apply ld8_st32; [lia|done|].
    unfold within in *; lia.
  - intros k Hkj. destruct (Z.eq_dec k j) as [->|].
    + apply ld32_st32_eq; [lia|]. apply Hf; lia.
    + rewrite ld32_st32_ne by lia. apply Hw. lia.
Qed.

(** A directory the kernel owns: it can write it, and no free frame is part
    of it. *)
Record dir_owned (cr3 : Z) (R : Z → Prop) (m : mem) (fa : A) (dir : Z) (sp : space) : Prop := {
  do_env : kenv cr3 R m fa;
  do_space : space_at m dir sp;
  do_R : ∀ a, footprint dir sp a → R a;
  do_taken : ∀ g a, 0 <= g < MAX_FRAMES → fa_free fa g = true →
               within (g * 4096) 4096 a → ¬ footprint dir sp a
}.

Lemma dir_owned_equiv cr3 R m m' fa dir sp :
  m ≡ m' → dir_owned cr3 R m' fa dir sp → dir_owned cr3 R m fa dir sp.
Proof.
  intros Heq [Hke Hs HR Hfp]. split; [|by eapply space_at_changes; [|intros a Ha _; by apply Heq]|done|done].
  eapply kenv_changes; [done|]. intros a Ha _. by apply Heq.
Qed.

Lemma page_index a x : page_addr a → within a 4096 x ↔ within (a / 4096 * 4096) 4096 x.
Proof. intros [? ?]. unfold within. word_lia. Qed.

Lemma identity_pde i : 0 <= i < 1024 →
  Z.lor (Z.lor (Z.lor (u32 (Z.shiftl i 22)) PDE_PRESENT) PDE_RW) PDE_PS = i * 4194304 + 131.
Proof.
  intros Hi. rewrite <- !Z.lor_assoc. change (Z.lor 1 (Z.lor 2 128)) with 131.
  rewrite Z.shiftl_mul_pow2, u32_small by lia. by apply (lor_low 22).
Qed.

(** A new directory is the identity space, or there was no frame. *)
Lemma paging_create_kernel_dir_spec cr3 R m fa : kenv cr3 R m fa →
  ∃ dir m' fa', paging_create_kernel_dir cr3 m fa = Some (dir, m', fa') ∧
    frame_taken fa dir fa' ∧
    (dir = 0 ∧ m' = m ∨
     dir ≠ 0 ∧ dir_owned cr3 R m' fa' dir identity_space ∧ changes_only (within dir 4096) m m').
Proof.
  intros Hke. unfold paging_create_kernel_dir.
  destruct (kenv_alloc cr3 R m fa Hke) as (a & fa' & -> & Hke' & Ht & HR). simpl.
  destruct (Z.eqb_spec a 0) as [->|Hne]; [by eauto 10|]. specialize (HR Hne).
  inversion Ht as [|? ? Ha _ Hfree Hfa']; subst; [done|].
  destruct (fill_page cr3 R m a (λ i,
    Z.lor (Z.lor (Z.lor (u32 (Z.shiftl i 22)) PDE_PRESENT) PDE_RW) PDE_PS)) as (m' & -> & Hc & Hw).
  { apply Hke. } { done. } { done. } { intros i Hi. rewrite identity_pde; lia. }
  simpl. exists a, m', fa'. split; [done|]. split; [done|]. right. split; [done|]. split; [|done]. split.
  - eapply kenv_changes; [done|]. by eapply changes_only_mono.
  - split; [done| |done|done]. intros i Hi. rewrite Hw, identity_pde by done. done.
  - intros x [Hx|(i & pt & u & _ & Hbad & _)]; [by apply HR|done].
  - intros g x Hg Hgf Hx [Hd|(i & pt & u & _ & Hbad & _)]; [|done].
    rewrite Hfa' in Hgf by done. apply page_index in Hd; [|done].
    unfold within in *. assert (g = a / 4096) as -> by lia. by rewrite Z.eqb_refl in Hgf.
Qed.

(** *** paging_map_4k *)

Lemma flag_user flags : (Z.land flags PTE_USER =? 0) = negb (Z.testbit flags 2).
Proof. by apply (land_bit_zero flags 2). Qed.

Lemma table_word pt : page_addr pt →
  Z.lor (Z.lor pt PDE_PRESENT) PDE_RW = pt + 3 ∧ Z.lor (pt + 3) PDE_USER = pt + 7 ∧
  Z.lor (pt + 7) PDE_USER = pt + 7.
Proof.
  intros [? ?]. rewrite <- Z.lor_assoc. change (Z.lor 1 2) with 3.
  replace pt with (pt / 4096 * 2 ^ 12) by (change (2 ^ 12) with 4096; word_lia).
  rewrite <- !(lor_low 12) by lia. rewrite <- !Z.lor_assoc.
  done.
Qed.

Lemma set_table_spec cr3 R m slot pt flags :
  kmapped cr3 R m → 0 <= slot <= 4294967292 → (∀ x, within slot 4 x → R x) → page_addr pt →
  ∃ m', set_table cr3 m slot pt flags = Some m' ∧ changes_only (within slot 4) m m' ∧
        ld32 m' slot = pt + (if Z.testbit flags 2 then 7 else 3).
Proof.
  intros Hk Hs HR Hpt. destruct (table_word pt Hpt) as (Hw3 & Hw7 & _). destruct Hpt as [Hpt _].
  unfold set_table. rewrite Hw3, flag_user, negb_involutive.
  destruct (kst32_kmapped cr3 R m slot (pt + 3) Hk Hs HR) as [-> Hc]. simpl.
  assert (∀ m v, changes_only (within slot 4) m (st32 m slot v)) as Hcs.
  { intros m0 v b Hb Hn. by apply ld8_st32. }
  destruct (Z.testbit flags 2).
  - rewrite (kld32_kmapped cr3 R) by (done || by eapply kmapped_changes).
    rewrite ld32_st32_eq by lia. simpl. rewrite Hw7.
    destruct (kst32_kmapped cr3 R (st32 m slot (pt + 3)) slot (pt + 7)) as [-> _];
      [by eapply kmapped_changes|done..|].
    eexists. split; [done|]. split; [by eapply changes_only_trans|]. apply ld32_st32_eq; lia.
  - eexists. split; [done|]. split; [done|]. apply ld32_st32_eq; lia.
Qed.

Lemma slot_in_dir dir i x : 0 <= i < 1024 → within (dir + 4 * i) 4 x → within dir 4096 x.
Proof. unfold within. lia. Qed.

Lemma footprint_split dir sp i pt user a : 0 <= i < 1024 → (∀ p u, sp_pde sp i ≠ Table p u) →
  footprint dir (sp_split sp i pt user) a ↔ footprint dir sp a ∨ within pt 4096 a.
Proof.
  intros Hi Hnt. assert (sp_pde (sp_split sp i pt user) i = Table pt user) as Hnew.
  { by apply split_pde. }
  assert (∀ k, k ≠ i → sp_pde (sp_split sp i pt user) k = sp_pde sp k) as Hold.
  { intros k Hk. unfold sp_split; simpl. by ztest. }
  unfold footprint. split.
  - intros [?|(k & p & u & Hk & Hp & Hx)]; [by eauto|]. destruct (Z.eq_dec k i) as [->|].
    + rewrite Hnew in Hp. simplify_eq. by right.
    + rewrite Hold in Hp by done. left. right. eauto 8.
  - intros [[?|(k & p & u & Hk & Hp & Hx)]|?]; [by left| |right; eauto 8].
    right. exists k, p, u. split_and!; [lia|lia| |done]. rewrite Hold; [done|]. intros ->. by eapply Hnt.
Qed.

(** A fresh frame becomes the table of a slot that had none. *)
Lemma split_owned cr3 R m m' fa fa' dir sp i pt (user : bool) :
  dir_owned cr3 R m fa dir sp → 0 <= i < 1024 → (∀ p u, sp_pde sp i ≠ Table p u) →
  frame_taken fa pt fa' → pt ≠ 0 → kenv cr3 R m fa' → (∀ x, within pt 4096 x → R x) →
  changes_only (λ a, within pt 4096 a ∨ within (dir + 4 * i) 4 a) m m' →
  ld32 m' (dir + 4 * i) = pt + (if user then 7 else 3) →
  (∀ j, 0 <= j < 1024 → ld32 m' (pt + 4 * j) = sp_pte (sp_split sp i pt user) (1024 * i + j)) →
  dir_owned cr3 R m' fa' dir (sp_split sp i pt user) ∧
  changes_only (footprint dir (sp_split sp i pt user)) m m'.
Proof.
  intros [Hke Hs HR Hfp] Hi Hnt Ht Hpt0 Hke' HRpt Hc Hslot Hpte.
  inversion Ht as [|? ? Hpt _ Hfree Hfa']; subst; [done|].
  assert (∀ a, within pt 4096 a → ¬ footprint dir sp a) as Hptf.
  { intros a Ha. apply Hfp with (pt / 4096); [destruct Hpt; word_lia|done|]. by apply (page_index pt). }
  assert (changes_only (footprint dir (sp_split sp i pt user)) m m') as Hcf.
  { eapply changes_only_mono; [|exact Hc]. intros a Ha. apply footprint_split; [done..|].
    destruct Ha as [|Ha]; [by right|]. left. left. by eapply slot_in_dir. }
  assert (∀ a, footprint dir (sp_split sp i pt user) a → R a) as HRf.
  { intros a Ha. apply footprint_split in Ha as [|]; auto. }
  split; [|done]. split; [| |done|].
  - eapply kenv_changes; [done|]. by eapply changes_only_mono.
  - by eapply space_at_split.
  - intros g x Hg Hgf Hx Hin. rewrite Hfa' in Hgf by done. apply andb_prop in Hgf as [Hgne Hgf].
    apply footprint_split in Hin as [Hin|Hin]; [exact (Hfp g x Hg Hgf Hx Hin)| |done|done].
    apply page_index in Hin; [|done]. unfold within in *.
    assert (g = pt / 4096) as -> by lia. by rewrite Z.eqb_refl in Hgne.
Qed.

(** The slot that has a table already gets the user bit if it needs it. *)
Lemma user_owned cr3 R m fa dir sp i p u (user : bool) :
  dir_owned cr3 R m fa dir sp → 0 <= i < 1024 → sp_pde sp i = Table p u →
  dir_owned cr3 R (st32 m (dir + 4 * i) (p + (if u || user then 7 else 3))) fa dir (sp_split sp i p user) ∧
  (∀ a, footprint dir (sp_split sp i p user) a ↔ footprint dir sp a) ∧
  changes_only (footprint dir sp) m (st32 m (dir + 4 * i) (p + (if u || user then 7 else 3))).
Proof.
  intros [Hke Hs HR Hfp] Hi Hp. pose proof (sa_dir _ _ _ Hs) as [Hd _].
  assert (∀ a, footprint dir (sp_split sp i p user) a ↔ footprint dir sp a) as Hfe.
  { intros a. unfold footprint. assert (∀ k, sp_pde (sp_split sp i p user) k =
      if k =? i then Table p (u || user) else sp_pde sp k) as Hpde
      by (intros k; unfold sp_split; simpl; by rewrite Hp).
    setoid_rewrite Hpde. split; (intros [?|(k & q & w & Hk & Hq & Hx)]; [by left|right; exists k, q]).
    - destruct (Z.eqb_spec k i) as [->|]; [simplify_eq; by exists u|by exists w].
    - destruct (Z.eqb_spec k i) as [->|]; [|by exists w].
      rewrite Hp in Hq. simplify_eq. by exists (w || user). }
  assert (changes_only (footprint dir sp) m
    (st32 m (dir + 4 * i) (p + (if u || user then 7 else 3)))) as Hc.
  { intros b Hb Hn. apply ld8_st32; [lia|done|]. intros Hx. apply Hn. left. by eapply slot_in_dir. }
  split; [|done]. split.
  - eapply kenv_changes; [done|]. by eapply changes_only_mono.
  - by apply space_at_user.
  - intros a Ha. by apply HR, Hfe.
  - intros g x Hg Hgf Hx Hin. apply Hfe in Hin. exact (Hfp g x Hg Hgf Hx Hin).
Qed.

(** The entry of the page is set, in the table of its slot. *)
Lemma set_owned cr3 R m fa dir sp v p u w :
  dir_owned cr3 R m fa dir sp → 0 <= v < 1048576 → sp_pde sp (v / 1024) = Table p u → is_u32 w →
  ∃ m', kst32 cr3 m (p +ᵤ 4 * (v mod 1024)) w = Some m' ∧
        dir_owned cr3 R m' fa dir (sp_set sp v w) ∧ changes_only (footprint dir sp) m m'.
Proof.
  intros [Hke Hs HR Hfp] Hv Hp Hw.
  destruct (sa_table _ _ _ Hs (v / 1024) p u) as ([Hpr Hpal] & _ & _); [word_lia|done|].
  assert (∀ b, within (p + 4 * (v mod 1024)) 4 b → footprint dir sp b) as Hin.
  { unfold within. intros b Hb. right. exists (v / 1024), p, u.
    split; [word_lia|]. split; [done|]. unfold within. word_lia. }
  rewrite u32_small by word_lia.
  destruct (kst32_kmapped cr3 R m (p + 4 * (v mod 1024)) w) as [-> _];
    [apply Hke|word_lia|by auto|].
  eexists. split; [done|].
  assert (changes_only (footprint dir sp) m (st32 m (p + 4 * (v mod 1024)) w)) as Hc.
  { intros b Hb Hn. apply ld8_st32; [word_lia|done|]. auto. }
  split; [|done]. split; [|by eapply space_at_set|done|done].
  eapply kenv_changes; [done|]. by eapply changes_only_mono.
Qed.

Lemma pde_tests i v : 0 <= i < 1024 → (∀ pt u, v = Table pt u → page_addr pt) →
  (Z.land (pde_word i v) PDE_PS =? 0) = (match v with Large => false | _ => true end) ∧
  (Z.land (pde_word i v) PDE_PRESENT =? 0) = (match v with Absent => true | _ => false end) ∧
  (Z.land (pde_word i v) PDE_USER =? 0) = (match v with Table _ u => negb u | _ => true end).
Proof.
  intros Hi Hv. destruct (pde_word_facts i v Hi Hv) as (Hp & Hl & Hu & _).
  unfold pg_present, pg_large, pg_user in *.
  rewrite (land_bit_zero _ 7), (land_bit_zero _ 0), (land_bit_zero _ 2), Hp, Hl, Hu by lia.
  by destruct v as [| |? []].
Qed.

(** What a successful mapping leaves behind. *)
Definition mapped (cr3 : Z) (R : Z → Prop) (m : mem) (fa : A) (dir : Z) (sp : space)
    (v w : Z) (user : bool) (m' : mem) (fa' : A) (pt : Z) : Prop :=
  dir_owned cr3 R m' fa' dir (sp_map sp v pt w user) ∧
  changes_only (footprint dir (sp_map sp v pt w user)) m m' ∧
  ((∃ u, sp_pde sp (v / 1024) = Table pt u) ∧ fa' = fa ∨
   (∀ p u, sp_pde sp (v / 1024) ≠ Table p u) ∧ pt ≠ 0 ∧ frame_taken fa pt fa').

(** [ready] is the state in which the slot [i] has a table [pt]. *)
Definition ready (cr3 : Z) (R : Z → Prop) (m : mem) (fa : A) (dir : Z) (sp : space)
    (i : Z) (user : bool) (o : (Z * mem * A) + (mem * A)) : Prop :=
  match o with
  | inr (m', fa') => m' = m ∧ fa' = fa ∧ (∀ p u, sp_pde sp i ≠ Table p u) ∧
                     ∀ g, 0 <= g < MAX_FRAMES → fa_free fa g = false
  | inl (pt, m', fa') =>
      dir_owned cr3 R m' fa' dir (sp_split sp i pt user) ∧
      changes_only (footprint dir (sp_split sp i pt user)) m m' ∧
      (∃ u, sp_pde (sp_split sp i pt user) i = Table pt u) ∧
      ((∃ u, sp_pde sp i = Table pt u) ∧ fa' = fa ∨
       (∀ p u, sp_pde sp i ≠ Table p u) ∧ pt ≠ 0 ∧ frame_taken fa pt fa')
  end.

Lemma new_table_spec cr3 R m fa dir sp i flags fill :
  dir_owned cr3 R m fa dir sp → 0 <= i < 1024 → (∀ p u, sp_pde sp i ≠ Table p u) →
  (∀ pt, page_addr pt → (∀ x, within pt 4096 x → R x) →
     ∃ m', fill pt m = Some m' ∧ changes_only (within pt 4096) m m' ∧
       ∀ j, 0 <= j < 1024 → ld32 m' (pt + 4 * j) =
         sp_pte (sp_split sp i pt (Z.testbit flags 2)) (1024 * i + j)) →
  ∃ o, new_table cr3 m fa (dir + 4 * i) flags fill = Some o ∧
       ready cr3 R m fa dir sp i (Z.testbit flags 2) o.
Proof.
  intros Hd Hi Hnt Hfill. pose proof Hd as [Hke Hs HR Hfp]. unfold new_table.
  destruct (kenv_alloc cr3 R m fa Hke) as (pt & fa' & -> & Hke' & Ht & HRpt). simpl.
  destruct (Z.eqb_spec pt 0) as [->|Hne].
  { inversion Ht; subst; [|done]. eexists. split; [done|]. simpl. eauto. }
  specialize (HRpt Hne). inversion Ht as [|? ? Hpt _ Hfree _]; subst; [done|].
  destruct (Hfill pt Hpt HRpt) as (m1 & -> & Hc1 & Hw1). simpl.
  pose proof (sa_dir _ _ _ Hs) as [Hdr Hdal].
  assert (∀ x, within (dir + 4 * i) 4 x → within dir 4096 x) as Hsl
    by (intros x; by apply slot_in_dir).
  assert (pt ≠ dir) as Hpd.
  { intros ->. apply (Hfp (dir / 4096) dir); [word_lia|done|unfold within; word_lia|].
    left. unfold within. lia. }
  destruct (set_table_spec cr3 R m1 (dir + 4 * i) pt flags) as (m2 & -> & Hc2 & Hw2).
  { eapply kmapped_changes; [apply Hke|]. by eapply changes_only_mono. } { lia. }
  { intros x Hx. apply HR. left. auto. } { done. }
  simpl. eexists. split; [done|]. simpl.
  assert (∀ j, 0 <= j < 1024 → ld32 m2 (pt + 4 * j) =
    sp_pte (sp_split sp i pt (Z.testbit flags 2)) (1024 * i + j)) as Hw.
  { intros j Hj. rewrite <- Hw1 by done. apply ld32_page; [done..|]. intros x Hx.
    apply Hc2; [by eapply within_page|]. intros Hx2. apply Hsl in Hx2.
    apply (pages_disjoint pt dir x); done. }
  destruct (split_owned cr3 R m m2 fa fa' dir sp i pt (Z.testbit flags 2)) as [Hd2 Hc];
    try done.
  { intros a Ha Hn. rewrite Hc2, Hc1; naive_solver. }
  split_and!; [done..| |by eauto 10]. exists (Z.testbit flags 2). by apply split_pde.
Qed.

Lemma split_entry_large pde k : 0 <= k < 1024 → pde = k * 4194304 + 131 → ∀ j, 0 <= j < 1024 →
  Z.lor (Z.lor (Z.land pde 0xFFC00000 +ᵤ (j *ᵤ PAGE_SIZE)) PTE_PRESENT) PTE_RW
  = (1024 * k + j) * 4096 + 3.
Proof.
  intros Hk -> j Hj. rewrite land_large_page by lia.
  replace ((k * 4194304 + 131) / 4194304) with k by word_lia.
  rewrite (u32_small (j * 4096)), u32_small by lia.
  rewrite <- Z.lor_assoc. change (Z.lor 1 2) with 3.
  replace (k * 4194304 + j * 4096) with ((1024 * k + j) * 2 ^ 12) by lia. by apply lor_low.
Qed.

(** Splitting a 4 MiB page. *)
Lemma ready_large cr3 R m fa dir sp i flags pde :
  dir_owned cr3 R m fa dir sp → 0 <= i < 1024 → sp_pde sp i = Large →
  pde = pde_word i Large →
  ∃ o, new_table cr3 m fa (dir + 4 * i) flags (λ pt m,
         for_range 0 1024 (λ i m,
           kst32 cr3 m (pt +ᵤ 4 * i)
             (Z.lor (Z.lor (Z.land pde 0xFFC00000 +ᵤ (i *ᵤ PAGE_SIZE)) PTE_PRESENT) PTE_RW)) m)
         = Some o ∧ ready cr3 R m fa dir sp i (Z.testbit flags 2) o.
Proof.
  intros Hd Hi Hl ->. apply new_table_spec; [done|done|by rewrite Hl|]. intros pt Hpt HRpt.
  destruct (fill_page cr3 R m pt (λ j,
    Z.lor (Z.lor (Z.land (pde_word i Large) 0xFFC00000 +ᵤ (j *ᵤ PAGE_SIZE)) PTE_PRESENT) PTE_RW))
    as (m' & Hm' & Hc & Hw).
  { apply Hd. } { done. } { done. }
  { intros j Hj. rewrite (split_entry_large _ i) by done. lia. }
  exists m'. split; [exact Hm'|]. split; [done|]. intros j Hj.
  rewrite Hw, (split_entry_large _ i) by done. unfold sp_split; simpl.
  rewrite (proj2 (Z.eqb_eq ((1024 * i + j) / 1024) i)) by word_lia. by rewrite Hl.
Qed.

(** A table of absent pages. *)
Lemma ready_absent cr3 R m fa dir sp i flags :
  dir_owned cr3 R m fa dir sp → 0 <= i < 1024 → sp_pde sp i = Absent →
  ∃ o, new_table cr3 m fa (dir + 4 * i) flags (λ pt m,
         '(_, m) ← memset cr3 m pt 0 PAGE_SIZE; Some m) = Some o ∧
       ready cr3 R m fa dir sp i (Z.testbit flags 2) o.
Proof.
  intros Hd Hi Hl. apply new_table_spec; [done|done|by rewrite Hl|]. intros pt Hpt HRpt.
  pose proof Hpt as [Hr _].
  destruct (memset_spec cr3 R m pt 0 4096) as (m' & -> & Hm'); [apply Hd|lia|lia|lia|done|].
  simpl. exists m'. split; [done|]. split.
  - intros a Ha Hn. rewrite Hm' by done. by rewrite decide_False.
  - intros j Hj. unfold sp_split; simpl.
    rewrite (proj2 (Z.eqb_eq ((1024 * i + j) / 1024) i)), Hl by word_lia.
    unfold ld32. rewrite !Hm' by lia.
    by rewrite !decide_True by (unfold within; lia).
Qed.

(** A slot that has its table. *)
Lemma ready_table cr3 R m fa dir sp i flags p u pde :
  dir_owned cr3 R m fa dir sp → 0 <= i < 1024 → sp_pde sp i = Table p u →
  pde = pde_word i (Table p u) →
  ∃ m', (if negb (Z.land flags PTE_USER =? 0) && (Z.land pde PDE_USER =? 0)
         then e ← kld32 cr3 m (dir + 4 * i); kst32 cr3 m (dir + 4 * i) (Z.lor e PDE_USER)
         else Some m) = Some m' ∧ Z.land pde 0xFFFFF000 = p ∧
        ready cr3 R m fa dir sp i (Z.testbit flags 2) (inl (p, m', fa)).
Proof.
  intros Hd Hi Hp ->. pose proof Hd as [Hke Hs HR Hfp].
  destruct (sa_table _ _ _ Hs i p u Hi Hp) as (Hpa & _ & _). destruct (sa_dir _ _ _ Hs) as [Hdr _].
  destruct (pde_tests i (Table p u)) as (_ & _ & Hu); [done|by intros ? ? [= <- <-]|].
  destruct (table_word p Hpa) as (_ & Hw7 & _).
  destruct (user_owned cr3 R m fa dir sp i p u (Z.testbit flags 2) Hd Hi Hp) as (Hd' & Hfe & Hc).
  assert (Z.land (pde_word i (Table p u)) 0xFFFFF000 = p) as Hpm.
  { destruct Hpa. unfold pde_word. rewrite land_page; destruct u; word_lia. }
  assert (sp_pde (sp_split sp i p (Z.testbit flags 2)) i = Table p (u || Z.testbit flags 2)) as Hnew.
  { unfold sp_split; simpl. by rewrite Z.eqb_refl, Hp. }
  rewrite flag_user, negb_involutive, Hu.
  destruct (Z.testbit flags 2 && negb u) eqn:Hb.
  - apply andb_prop in Hb as [Hbt ->%negb_true_iff]. rewrite Hbt in *.
    assert (∀ b, within (dir + 4 * i) 4 b → R b) as HRs
      by (intros; apply HR; left; by eapply slot_in_dir).
    rewrite (kld32_kmapped cr3 R m (ke_mapped _ _ _ _ Hke)) by (done || lia). simpl. rewrite (sa_pde _ _ _ Hs), Hp by done. simpl. rewrite Hw7.
    destruct (kst32_kmapped cr3 R m (dir + 4 * i) (p + 7)) as [-> _].
    { apply Hke. } { lia. } { done. }
    eexists. split; [done|]. split; [done|]. simpl in *. split; [done|]. split.
    + eapply changes_only_mono; [|exact Hc]. intros a. apply Hfe.
    + rewrite Z.eqb_refl. split; [by exists true|]. left. split; [by exists false|done].
  - exists m. split; [done|]. split; [done|].
    assert (m ≡ st32 m (dir + 4 * i) (p + (if u || Z.testbit flags 2 then 7 else 3))) as Hsame.
    { replace (p + (if u || Z.testbit flags 2 then 7 else 3)) with (ld32 m (dir + 4 * i)).
      - intros a Ha. by rewrite ld8_st32_same by lia.
      - rewrite (sa_pde _ _ _ Hs), Hp by done. simpl. destruct u, (Z.testbit flags 2); done. }
    split; [by eapply dir_owned_equiv|]. split; [done|]. split; [by eauto|].
    left. split; [by eauto|done].
Qed.

(** paging_map_4k maps the page, or finds no frame for its table and returns
    with nothing changed. *)
Lemma paging_map_4k_spec cr3 R m fa dir sp virt phys flags :
  dir_owned cr3 R m fa dir sp → is_u32 virt → is_u32 phys → 0 <= flags < 4096 →
  ∃ m' fa', paging_map_4k cr3 m fa dir virt phys flags = Some (m', fa') ∧
    ((m' = m ∧ fa' = fa ∧ (∀ p u, sp_pde sp (virt / 4194304) ≠ Table p u) ∧
      ∀ g, 0 <= g < MAX_FRAMES → fa_free fa g = false) ∨
     ∃ pt, mapped cr3 R m fa dir sp (virt / 4096) (phys / 4096 * 4096 + flags)
             (Z.testbit flags 2) m' fa' pt).
Proof.
  intros Hd Hv Hp Hf. pose proof Hd as [Hke Hs HR _]. pose proof (sa_dir _ _ _ Hs) as [Hdr _].
  assert (0 <= virt / 4194304 < 1024) as Hi by word_lia.
  assert (virt / 4096 / 1024 = virt / 4194304) as Hvi by word_lia.
  unfold paging_map_4k. rewrite !Z.shiftr_div_pow2, land_pte_index by lia.
  change (2 ^ 22) with 4194304. change (2 ^ 12) with 4096.
  rewrite (u32_small (dir + _)) by lia.
  assert (kld32 cr3 m (dir + 4 * (virt / 4194304)) =
          Some (pde_word (virt / 4194304) (sp_pde sp (virt / 4194304)))) as Hld.
  { rewrite (kld32_kmapped cr3 R m (ke_mapped _ _ _ _ Hke)) by
      (lia || (intros; apply HR; left; by eapply slot_in_dir)).
    by rewrite (sa_pde _ _ _ Hs). }
  rewrite Hld, bind_Some. rewrite land_page, (lor_low 12) by done. change (2 ^ 12) with 4096.
  destruct (pde_tests (virt / 4194304) (sp_pde sp (virt / 4194304)) Hi) as (Hps & Hpr & Hus).
  { intros pt u Hpt. by eapply sa_table_addr. }
  assert (∀ o, ready cr3 R m fa dir sp (virt / 4194304) (Z.testbit flags 2) o →
    ∃ m' fa', (match o with
      | inr early => Some early
      | inl (pt, m, fa) =>
          m ← kst32 cr3 m (pt +ᵤ 4 * ((virt / 4096) mod 1024)) (phys / 4096 * 4096 + flags);
          Some (m, fa)
      end) = Some (m', fa') ∧
    ((m' = m ∧ fa' = fa ∧ (∀ p u, sp_pde sp (virt / 4194304) ≠ Table p u) ∧
      ∀ g, 0 <= g < MAX_FRAMES → fa_free fa g = false) ∨
     ∃ pt, mapped cr3 R m fa dir sp (virt / 4096) (phys / 4096 * 4096 + flags)
             (Z.testbit flags 2) m' fa' pt)) as Hfin.
  { intros [[[pt m1] fa1]|[m1 fa1]] Ho; simpl in Ho; [|by eauto 10].
    destruct Ho as (Hd1 & Hc1 & [u Hu] & Hfa1). rewrite <- Hvi in *.
    destruct (set_owned cr3 R m1 fa1 dir _ (virt / 4096) pt u (phys / 4096 * 4096 + flags) Hd1)
      as (m2 & -> & Hd2 & Hc2); [word_lia|done|word_lia|].
    simpl. exists m2, fa1. split; [done|]. right. exists pt. split; [done|]. split; [|done].
    by eapply changes_only_trans. }
  rewrite Hps, Hpr. destruct (sp_pde sp (virt / 4194304)) as [| |p u] eqn:Hpde; cbn [negb].
  - edestruct ready_large as (o & -> & Ho); [done|done|done|reflexivity|]. by apply Hfin.
  - edestruct ready_absent as (o & -> & Ho); [done|done|done|]. by apply Hfin.
  - edestruct (ready_table cr3 R m fa dir sp (virt / 4194304) flags)
      as (m' & Hm' & Hpm & Ho); [done|done|done|reflexivity|].
    rewrite Hld in Hm'. rewrite Hm', Hpm, !bind_Some. apply (Hfin (inl (p, m', fa)) Ho).
Qed.
End specs.

Arguments mapped : simpl never.

(** ** The meaning of a mapped page *)

(** A page open to ring 3 has the user bit at both levels. *)
Definition sp_consistent (sp : space) : Prop :=
  ∀ v pt u, 0 <= v < 1048576 → sp_pde sp (v / 1024) = Table pt u →
    pg_user (sp_pte sp v) = true → u = true.

Lemma pde_of_page va : va / 4096 / 1024 = va / 4194304.
Proof. word_lia. Qed.

Lemma sp_map_pde sp v pt w user k :
  sp_pde (sp_map sp v pt w user) k =
    if k =? v / 1024 then
      match sp_pde sp (v / 1024) with
      | Table p u => Table p (u || user) | _ => Table pt user end
    else sp_pde sp k.
Proof. done. Qed.

Lemma entry_bits a c i : 0 <= c < 4096 → 0 <= i < 12 →
  Z.testbit (a / 4096 * 4096 + c) i = Z.testbit c i.
Proof. intros. by apply testbit_entry. Qed.

(** After sp_map the page goes where the entry says. *)
Lemma sp_map_here sp v pt phys flags va :
  va / 4096 = v → 0 <= flags < 4096 → Z.testbit flags 0 = true →
  let sp' := sp_map sp v pt (phys / 4096 * 4096 + flags) (Z.testbit flags 2) in
  sp_walk sp' va = Some (phys / 4096 * 4096 + va mod 4096) ∧
  sp_user_walk sp' va =
    if Z.testbit flags 2 then Some (phys / 4096 * 4096 + va mod 4096) else None.
Proof.
  intros <- Hf H0 sp'. unfold sp_user_walk, sp_walk, sp'. rewrite sp_map_pde, pde_of_page, Z.eqb_refl.
  cbn [sp_map sp_set sp_pte]. rewrite Z.eqb_refl. unfold pg_present, pg_user.
  rewrite !entry_bits, H0 by lia.
  replace ((phys / 4096 * 4096 + flags) / 4096) with (phys / 4096) by word_lia.
  destruct (sp_pde sp (va / 4194304)) as [| |p []], (Z.testbit flags 2); done.
Qed.

(** Every other page keeps its meaning, for the kernel and for ring 3. *)
Lemma sp_map_elsewhere sp v pt w user va :
  sp_consistent sp → 0 <= v < 1048576 → is_u32 va → va / 4096 ≠ v →
  let sp' := sp_map sp v pt w user in
  sp_walk sp' va = sp_walk sp va ∧ sp_user_walk sp' va = sp_user_walk sp va.
Proof.
  intros Hcons Hv Hva Hne sp'. unfold sp_user_walk, sp_walk, sp'. rewrite !sp_map_pde.
  cbn [sp_map sp_set sp_split sp_pte sp_pde]. rewrite (proj2 (Z.eqb_neq (va / 4096) v)) by done.
  rewrite pde_of_page.
  destruct (Z.eqb_spec (va / 4194304) (v / 1024)) as [Heq|]; [|done]. rewrite <- Heq.
  destruct (sp_pde sp (va / 4194304)) as [| |p u] eqn:Hp.
  - unfold pg_present, pg_user. rewrite !testbit_entry by lia.
    change (Z.testbit 3 0) with true. change (Z.testbit 3 2) with false. cbn iota.
    split; [f_equal; word_lia|by destruct user].
  - by destruct user.
  - split; [done|]. destruct u, user; try done. cbn [orb].
    destruct (pg_user (sp_pte sp (va / 4096))) eqn:Hu; [|done].
    exfalso. assert (false = true); [|done].
    eapply (Hcons (va / 4096)); [word_lia| |exact Hu]. by rewrite pde_of_page.
Qed.

Lemma sp_map_consistent sp v pt w user :
  sp_consistent sp → pg_user w = user → sp_consistent (sp_map sp v pt w user).
Proof.
  intros Hcons Hw k p u Hk Hp Hu. rewrite sp_map_pde in Hp.
  cbn [sp_map sp_set sp_split sp_pte sp_pde] in Hu.
  destruct (Z.eqb_spec k v) as [->|].
  - rewrite Z.eqb_refl in Hp. rewrite Hw in Hu. subst user.
    destruct (sp_pde sp (v / 1024)) as [| |q []]; rewrite ?Hu in Hp; by simplify_eq.
  - destruct (Z.eqb_spec (k / 1024) (v / 1024)) as [Heq|]; [|by eapply Hcons].
    destruct (sp_pde sp (v / 1024)) as [| |q u'] eqn:Hq.
    + unfold pg_user in Hu. by rewrite testbit_entry in Hu by lia.
    + done.
    + simplify_eq. erewrite (Hcons k p u'); [done|done|by rewrite Heq|done].
Qed.

(** ** A running kernel for examples

    An identity directory at 0x8000 in [cr3], and free frames 16 to 31. *)
Lemma identity_dir_exists dir (m : mem) : page_addr dir →
  ∃ m', space_at m' dir identity_space.
Proof.
  intros [Hd Hal].
  destruct (for_range_ind (λ i m', ∀ k, 0 <= k < i → ld32 m' (dir + 4 * k) = k * 4194304 + 131)
    (λ i m, Some (st32 m (dir + 4 * i) (i * 4194304 + 131))) 0 1024 m) as (m' & _ & Hm');
    [done|lia| |].
  - intros j m1 Hj Hm1. eexists. split; [done|]. intros k Hk. destruct (Z.eq_dec k j) as [->|].
    + apply ld32_st32_eq; lia.
    + rewrite ld32_st32_ne by lia. apply Hm1. lia.
  - exists m'. split; [done|exact Hm'|done|done].
Qed.

Lemma identity_kmapped m cr3 (R : Z → Prop) : space_at m cr3 identity_space →
  (∀ a, R a → ¬ within cr3 4096 a) → kmapped cr3 R m.
Proof.
  intros Hs HR. eapply kmapped_mono; [|by apply kmapped_space].
  intros a Ha. split; [done|]. intros [?|(i & pt & u & _ & Hbad & _)]; [by eapply HR|done].
Qed.

Lemma example_kenv : ∃ (m : mem) (st : pfa),
  kenv 0x8000 (λ a, ¬ within 0x8000 4096 a) m st ∧
  ∀ g, 0 <= g < MAX_FRAMES → fa_free st g = (16 <=? g) && (g <? 32).
Proof.
  destruct (identity_dir_exists 0x8000 ∅) as [m Hm]; [split; [lia|done]|].
  destruct (frames_free 16 32) as (st & Hwf & Hst); [lia|lia|].
  assert (∀ g, 0 <= g < MAX_FRAMES → fa_free st g = (16 <=? g) && (g <? 32)) as Hfree.
  { intros g Hg. simpl. by rewrite Hst, negb_involutive. }
  exists m, st. split; [|done]. split.
  - apply identity_kmapped; [done|]. auto.
  - split; [done|]. by rewrite Hst by lia.
  - intros g a Hg Hgf Ha. rewrite Hfree in Hgf by done. apply andb_prop in Hgf as [H1 H2].
    apply Z.leb_le in H1. apply Z.ltb_lt in H2. unfold within in *. lia.
Qed.

(** ** Properties *)

(** A directory made by paging_create_kernel_dir maps every address to
    itself for the kernel and nothing for ring 3; only its own frame changes,
    and 0 is returned, with nothing changed, when there is no frame. *)
Theorem paging_create_kernel_dir_correct {A} `{FrameAllocLaws A} cr3 R m (fa : A) :
  kenv cr3 R m fa →
  ∃ dir m' fa', paging_create_kernel_dir cr3 m fa = Some (dir, m', fa') ∧
    (dir = 0 ∧ m' = m ∧ (∀ g, 0 <= g < MAX_FRAMES → fa_free fa g = false) ∨
     fa_free fa (dir / 4096) = true ∧ changes_only (within dir 4096) m m' ∧
     ∀ va, is_u32 va → walk m' dir va = Some va ∧ user_walk m' dir va = None).
Proof.
  intros Hke. destruct (paging_create_kernel_dir_spec cr3 R m fa Hke)
    as (dir & m' & fa' & -> & Ht & Hd). exists dir, m', fa'. split; [done|].
  destruct Ht as [Hnone|dir fa' Hdir Hne Hfree _].
  - destruct Hd as [[_ ->]|[? _]]; [by left|done].
  - destruct Hd as [[? _]|(_ & Hd & Hc)]; [done|]. right. split_and!; [done..|].
    intros va Hva. by apply (walk_space m' dir identity_space (do_space _ _ _ _ _ _ Hd)).
Qed.

(** C20: when the page's slot has a table or a frame is left for one,
    paging_map_4k makes the page translate to the given frame, open to ring 3
    exactly when the flags say so, and leaves the translation of every other
    page of the directory as it was, for the kernel and for ring 3. *)
Theorem paging_map_4k_correct {A} `{FrameAllocLaws A} cr3 R m (fa : A) dir sp virt phys flags :
  dir_owned cr3 R m fa dir sp → sp_consistent sp →
  is_u32 virt → is_u32 phys → 0 <= flags < 4096 → Z.testbit flags 0 = true →
  (∃ g, 0 <= g < MAX_FRAMES ∧ fa_free fa g = true) →
  ∃ m' fa' sp', paging_map_4k cr3 m fa dir virt phys flags = Some (m', fa') ∧
    dir_owned cr3 R m' fa' dir sp' ∧ sp_consistent sp' ∧
    (∀ va, is_u32 va → va / 4096 = virt / 4096 →
       walk m' dir va = Some (phys / 4096 * 4096 + va mod 4096) ∧
       user_walk m' dir va =
         if Z.testbit flags 2 then Some (phys / 4096 * 4096 + va mod 4096) else None) ∧
    (∀ va, is_u32 va → va / 4096 ≠ virt / 4096 →
       walk m' dir va = walk m dir va ∧ user_walk m' dir va = user_walk m dir va).
Proof.
  intros Hd Hcons Hv Hp Hf Hf0 (g & Hg & Hgf).
  destruct (paging_map_4k_spec cr3 R m fa dir sp virt phys flags Hd Hv Hp Hf)
    as (m' & fa' & -> & [(_ & _ & _ & Hnone)|(pt & Hd' & _ & _)]).
  { by rewrite Hnone in Hgf. }
  do 3 eexists. split; [done|]. split; [exact Hd'|]. split; [|split].
  - apply sp_map_consistent; [done|]. unfold pg_user. by rewrite entry_bits.
  - intros va Hva Heq. destruct (walk_space m' dir _ (do_space _ _ _ _ _ _ Hd') va Hva) as [-> ->].
    by apply sp_map_here.
  - intros va Hva Hne. destruct (walk_space m' dir _ (do_space _ _ _ _ _ _ Hd') va Hva) as [-> ->].
    destruct (walk_space m dir sp (do_space _ _ _ _ _ _ Hd) va Hva) as [-> ->].
    apply sp_map_elsewhere; [done|word_lia|done..].
Qed.

(** C38: when the slot has no table and no frame is left, paging_map_4k returns
    without an error and without mapping anything: its caller cannot tell. *)
Theorem paging_map_4k_out_of_frames {A} `{FrameAllocLaws A} cr3 R m (fa : A) dir sp virt phys flags :
  dir_owned cr3 R m fa dir sp → is_u32 virt → is_u32 phys → 0 <= flags < 4096 →
  (∀ g, 0 <= g < MAX_FRAMES → fa_free fa g = false) →
  (∀ p u, sp_pde sp (virt / 4194304) ≠ Table p u) →
  paging_map_4k cr3 m fa dir virt phys flags = Some (m, fa).
Proof.
  intros Hd Hv Hp Hf Hnone Hnt.
  destruct (paging_map_4k_spec cr3 R m fa dir sp virt phys flags Hd Hv Hp Hf)
    as (m' & fa' & -> & [(-> & -> & _)|(pt & _ & _ & [[[u Hu] _]|(_ & Hpt & Ht)])]); [done| |].
  - rewrite pde_of_page in Hu. by destruct (Hnt pt u).
  - destruct Ht as [|a fa1 [Ha _] _ Hfree _]; [done|]. rewrite Hnone in Hfree by word_lia. done.
Qed.

(** ** Witnesses *)

Lemma paging_create_kernel_dir_correct_witness :
  ∃ (m : mem) (st : pfa) dir m' st', paging_create_kernel_dir 0x8000 m st = Some (dir, m', st') ∧
    walk m' dir 0x123456 = Some 0x123456 ∧ user_walk m' dir 0x123456 = None.
Proof.
  destruct example_kenv as (m & st & Hke & Hfree).
  destruct (paging_create_kernel_dir_correct _ _ m st Hke) as (dir & m' & st' & Heq & [(_ & _ & Hn)|H]).
  - specialize (Hn 16 ltac:(lia)). rewrite Hfree in Hn by lia. discriminate Hn.
  - destruct H as (_ & _ & H). exists m, st, dir, m', st'. split; [exact Heq|]. apply H. lia.
Defined.

Lemma example_dir : ∃ (m : mem) (st : pfa) dir,
  dir_owned 0x8000 (λ a, ¬ within 0x8000 4096 a) m st dir identity_space ∧
  ∃ g, 0 <= g < MAX_FRAMES ∧ fa_free st g = true.
Proof.
  destruct example_kenv as (m & st & Hke & Hfree).
  destruct (paging_create_kernel_dir_spec _ _ m st Hke) as (dir & m' & st' & Heq & Ht & Hd).
  destruct Ht as [Hn|dir st' Hdir Hne Hf Hst'].
  { specialize (Hn 16 ltac:(lia)). by rewrite Hfree in Hn by lia. }
  destruct Hd as [[? _]|(_ & Hd & _)]; [done|]. exists m', st', dir. split; [done|].
  exists (if dir / 4096 =? 20 then 21 else 20).
  destruct (Z.eqb_spec (dir / 4096) 20) as [Heq20|]; (split; [lia|]); rewrite Hst', Hfree by lia;
    repeat ztest; reflexivity.
Qed.

(** The same kernel with every frame taken. *)
Lemma example_dir_full : ∃ (m : mem) (st : pfa) dir,
  dir_owned 0x8000 (λ a, ¬ within 0x8000 4096 a) m st dir identity_space ∧
  ∀ g, 0 <= g < MAX_FRAMES → fa_free st g = false.
Proof.
  destruct example_dir as (m & _ & dir & [[Hk _ _] Hs HR _] & _).
  destruct (frames_free 0 0) as (st & Hwf & Hst); [lia|lia|].
  assert (∀ g, 0 <= g < MAX_FRAMES → fa_free st g = false) as Hfree.
  { intros g Hg. simpl. rewrite Hst by done. zcases; done. }
  exists m, st, dir. split; [|done]. split; [split|done|done|].
  - done.
  - split; [done|]. by rewrite Hst by lia.
  - intros g a Hg Hf. by rewrite Hfree in Hf.
  - intros g a Hg Hf. by rewrite Hfree in Hf.
Qed.

Lemma identity_consistent : sp_consistent identity_space.
Proof. done. Qed.

Lemma paging_map_4k_correct_witness :
  ∃ (m : mem) (st : pfa) dir m' st', paging_map_4k 0x8000 m st dir 0 0x1F000 7 = Some (m', st') ∧
    user_walk m' dir 0x10 = Some 0x1F010 ∧ walk m' dir 0x1234 = walk m dir 0x1234.
Proof.
  destruct example_dir as (m & st & dir & Hd & Hf).
  destruct (paging_map_4k_correct _ _ m st dir identity_space 0 0x1F000 7 Hd identity_consistent)
    as (m' & st' & sp' & Heq & _ & _ & H1 & H2); try lia; try reflexivity; [exact Hf|].
  exists m, st, dir, m', st'. split; [exact Heq|]. split.
  - apply (H1 0x10); [lia|reflexivity].
  - apply (H2 0x1234); [lia|vm_compute; lia].
Defined.

Lemma paging_map_4k_out_of_frames_witness :
  ∃ (m : mem) (st : pfa) dir, paging_map_4k 0x8000 m st dir 0xBFFFF000 0x1F000 7 = Some (m, st).
Proof.
  destruct example_dir_full as (m & st & dir & Hd & Hf). exists m, st, dir.
  apply (paging_map_4k_out_of_frames 0x8000 _ m st dir identity_space 0xBFFFF000 0x1F000 7 Hd);
    [lia|lia|lia|exact Hf|]. intros p u H. discriminate H.
Defined.
