(* ===== verification/Mkfs.v ===== *)
(** * tools/mkfs.py: building a SOFS image

    The image builder as a function from the files of a directory (name and
    contents, as byte lists) to the bytes of the image; [None] is a Python
    exception or the `sys.exit` on an empty directory.  The lemmas say where
    in the image the header, the entries and the contents lie. *)

From stdpp Require Import prelude sorting.
From Stdlib Require Import ZArith Lia.
From S2P Require Import Prelude Memory.

Abbreviation FS_MAGIC := 0x534F4653.
Abbreviation MAX_NAME := 64.
Abbreviation HEADER_SIZE := 8.
Abbreviation ENTRY_SIZE := 72.

(** ** The program *)

Definition align4 (n : Z) : Z := Z.land (n + 3) (Z.lnot 3).

(** The order of Python strings, on character codes. *)
Fixpoint str_le (a b : list Z) : bool :=
  match a, b with
  | [], _ => true
  | _ :: _, [] => false
  | x :: a', y :: b' => (x <? y) || (x =? y) && str_le a' b'
  end.
Definition entry_le (f g : list Z * list Z) : Prop := Is_true (str_le f.1 g.1).
#[export] Instance entry_le_dec f g : Decision (entry_le f g).
Proof. unfold entry_le. apply _. Defined.

(** `struct.pack("<II", a, b)`: a struct.error outside 32 bits. *)
Definition pack_u32 (v : Z) : option (list Z) :=
  if (0 <=? v) && (v <? 4294967296)
  then Some [v mod 256; v / 256 mod 256; v / 65536 mod 256; v / 16777216 mod 256]
  else None.
Definition pack_II (a b : Z) : option (list Z) :=
  x ← pack_u32 a; y ← pack_u32 b; Some (x ++ y).

(** `fname.encode("ascii")[:MAX_NAME - 1]`, then padded with NULs. *)
Definition name_field (fname : list Z) : option (list Z) :=
  if forallb (λ c, c <? 128) fname
  then let name_bytes := take 63 fname in
       Some (name_bytes ++ replicate (64 - length name_bytes) 0)
  else None.

(** The loop that lays out the files from [current_offset] on. *)
Fixpoint layout (current_offset : Z) (files : list (list Z * list Z))
    : option (list (list Z * Z * Z)) :=
  match files with
  | [] => Some []
  | (fname, data) :: files' =>
      name_bytes ← name_field fname;
      entries ← layout (align4 (current_offset + Z.of_nat (length data))) files';
      Some ((name_bytes, current_offset, Z.of_nat (length data)) :: entries)
  end.

Fixpoint write_entries (entries : list (list Z * Z * Z)) : option (list Z) :=
  match entries with
  | [] => Some []
  | (name_bytes, offset, size) :: entries' =>
      p ← pack_II offset size;
      rest ← write_entries entries';
      Some (name_bytes ++ p ++ rest)
  end.

Definition padded (data : list Z) : list Z :=
  data ++ replicate (Z.to_nat (align4 (Z.of_nat (length data)) - Z.of_nat (length data))) 0.

(** [dir] is what os.listdir and the reads give, in any order. *)
Definition build_fs (dir : list (list Z * list Z)) : option (list Z) :=
  let files := merge_sort entry_le dir in
  if (length files =? 0)%nat then None else
  let num_files := Z.of_nat (length files) in
  let data_start := HEADER_SIZE + ENTRY_SIZE * num_files in
  entries ← layout data_start files;
  header ← pack_II FS_MAGIC num_files;
  table ← write_entries entries;
  Some (header ++ table ++ concat (map (λ f, padded f.2) files)).

(** ** Where things lie *)

(** [img] has the bytes [x] at offset [off]. *)
Definition has_at {A} (img : list A) (off : Z) (x : list A) : Prop :=
  ∃ l r, img = l ++ x ++ r ∧ Z.of_nat (length l) = off.

Lemma has_at_app {A} (img pre post : list A) off x :
  has_at img off x → has_at (pre ++ img ++ post) (Z.of_nat (length pre) + off) x.
Proof.
  intros (l & r & -> & <-). exists (pre ++ l), (r ++ post). split.
  - by rewrite <- !app_assoc.
  - rewrite length_app. lia.
Qed.

Lemma has_at_inner {A} (img y x : list A) off k :
  has_at img off y → has_at y k x → has_at img (off + k) x.
Proof. intros (l & r & -> & <-) Hx. by apply has_at_app. Qed.

Lemma has_at_lookup {A} (img x : list A) off i b :
  has_at img off x → x !! i = Some b → img !! Z.to_nat (off + Z.of_nat i) = Some b.
Proof.
  intros (l & r & -> & <-) Hi. rewrite lookup_app_r by lia.
  rewrite lookup_app_l by (apply lookup_lt_Some in Hi; lia). rewrite <- Hi. f_equal. lia.
Qed.

Lemma has_at_bound {A} (img x : list A) off :
  has_at img off x → 0 <= off ∧ off + Z.of_nat (length x) <= Z.of_nat (length img).
Proof. intros (l & r & -> & <-). rewrite !length_app. lia. Qed.

Lemma align4_spec n : align4 n = (n + 3) / 4 * 4.
Proof.
  unfold align4. rewrite <- Z.ldiff_land. change 3 with (Z.ones 2) at 2.
  rewrite Z.ldiff_ones_r by lia. rewrite Z.shiftr_div_pow2, Z.shiftl_mul_pow2 by lia. done.
Qed.

Lemma padded_length data : Z.of_nat (length (padded data)) = align4 (Z.of_nat (length data)).
Proof. unfold padded. rewrite length_app, length_replicate, align4_spec. word_lia. Qed.

Lemma align4_add a n : a mod 4 = 0 → align4 (a + n) = a + align4 n.
Proof. rewrite !align4_spec. intros. word_lia. Qed.

Lemma align4_mod n : align4 n mod 4 = 0.
Proof. rewrite align4_spec. word_lia. Qed.

(** What pack_u32 writes, and its range. *)
Lemma pack_u32_inv v x : pack_u32 v = Some x → is_u32 v ∧ x = le_bytes v.
Proof. unfold pack_u32. zcases; intros; simplify_eq; split; done || lia. Qed.
Lemma pack_II_inv a b x : pack_II a b = Some x → is_u32 a ∧ is_u32 b ∧ x = le_bytes a ++ le_bytes b.
Proof.
  unfold pack_II. intros H. apply option.bind_Some in H as (p & Hp & H). apply option.bind_Some in H as (q & Hq & H).
  apply pack_u32_inv in Hp as [? ->], Hq as [? ->]. by simplify_eq.
Qed.

Lemma name_field_inv fname nb : name_field fname = Some nb →
  length nb = 64%nat ∧ Forall (λ c, c < 128) fname ∧
  nb = take 63 fname ++ replicate (64 - length (take 63 fname)) 0.
Proof.
  unfold name_field. destruct (forallb _ _) eqn:Hf; [|done]. intros ?; simplify_eq. split; [|split; [|done]].
  - rewrite length_app, length_replicate, length_take. lia.
  - rewrite Forall_forall. intros c Hc. apply list_elem_of_In in Hc.
    rewrite forallb_forall in Hf. apply Hf in Hc. lia.
Qed.

(** Where the contents of file [i] start, counted from the first file. *)
Definition data_before (files : list (list Z * list Z)) (i : nat) : Z :=
  Z.of_nat (length (concat (map (λ f, padded f.2) (take i files)))).

Lemma data_before_S f files i :
  data_before (f :: files) (S i) = align4 (Z.of_nat (length f.2)) + data_before files i.
Proof. unfold data_before; simpl. rewrite length_app, <- padded_length. lia. Qed.

Lemma layout_inv off files es : off mod 4 = 0 → layout off files = Some es →
  length es = length files ∧
  ∀ i fname data, files !! i = Some (fname, data) → ∃ nb, name_field fname = Some nb ∧
    es !! i = Some (nb, off + data_before files i, Z.of_nat (length data)).
Proof.
  revert off es. induction files as [|[fname data] files IH]; intros off es Hoff Hl; simpl in *.
  { simplify_eq. done. }
  apply option.bind_Some in Hl as (nb & Hnb & Hl). apply option.bind_Some in Hl as (es' & Hes & ?).
  simplify_eq. rewrite align4_add in Hes by done.
  apply IH in Hes as [Hlen Hes]; [|rewrite Z.add_mod, align4_mod, Hoff by lia; done].
  split; [simpl; lia|]. intros [|i] fname' data' Hi; simpl in Hi.
  - simplify_eq. exists nb. split; [done|]. unfold data_before; simpl. do 3 f_equal. lia.
  - destruct (Hes _ _ _ Hi) as (nb' & Hnb' & Hlk). exists nb'. split; [done|].
    simpl. rewrite Hlk, data_before_S. simpl. do 3 f_equal. lia.
Qed.

Lemma write_entries_inv es t : write_entries es = Some t →
  Forall (λ e, length e.1.1 = 64%nat) es →
  Z.of_nat (length t) = 72 * Z.of_nat (length es) ∧
  ∀ i nb o s, es !! i = Some (nb, o, s) →
    is_u32 o ∧ is_u32 s ∧ has_at t (72 * Z.of_nat i) (nb ++ le_bytes o ++ le_bytes s).
Proof.
  revert t. induction es as [|[[nb o] s] es IH]; intros t Ht HF; simpl in Ht.
  { simplify_eq. done. }
  apply option.bind_Some in Ht as (p & Hp & Ht). apply option.bind_Some in Ht as (t' & Ht' & ?). simplify_eq.
  apply pack_II_inv in Hp as (Ho & Hs & ->). apply Forall_cons in HF as [Hnb HF]; simpl in Hnb.
  destruct (IH _ Ht' HF) as [Hlen Hes]. split; [rewrite !length_app, Hnb; simpl; lia|].
  intros [|i] nb' o' s' Hi; simpl in Hi.
  - simplify_eq. split_and!; [lia..|]. exists [], t'. split; [by rewrite <- !app_assoc|done].
  - destruct (Hes _ _ _ _ Hi) as (? & ? & Hat). split_and!; [lia..|].
    apply (has_at_app _ (nb ++ le_bytes o ++ le_bytes s) []) in Hat.
    rewrite app_nil_r, <- !app_assoc in Hat. rewrite <- !app_assoc.
    replace (72 * Z.of_nat (S i)) with (Z.of_nat (length (nb ++ le_bytes o ++ le_bytes s)) + 72 * Z.of_nat i);
      [done|]. rewrite !length_app, Hnb. simpl. lia.
Qed.

Lemma contents_at files i f : files !! i = Some f →
  has_at (concat (map (λ f, padded f.2) files)) (data_before files i) f.2.
Proof.
  intros Hi. rewrite <- (take_drop_middle _ _ _ Hi) at 1. rewrite map_app, concat_app. simpl.
  unfold padded at 2. rewrite <- app_assoc. by eexists _, _.
Qed.

(** Where the contents of file [i] lie in the image. *)
Definition data_offset (files : list (list Z * list Z)) (i : nat) : Z :=
  8 + 72 * Z.of_nat (length files) + data_before files i.

(** The whole image: the header, and for each file its name field, its offset
    and size, and its contents at that offset. *)
Lemma build_fs_inv dir img : build_fs dir = Some img →
  let files := merge_sort entry_le dir in
  has_at img 0 (le_bytes FS_MAGIC ++ le_bytes (Z.of_nat (length files))) ∧
  is_u32 (Z.of_nat (length files)) ∧
  8 + 72 * Z.of_nat (length files) <= Z.of_nat (length img) ∧
  ∀ i fname data, files !! i = Some (fname, data) → ∃ nb,
    name_field fname = Some nb ∧ is_u32 (data_offset files i) ∧ is_u32 (Z.of_nat (length data)) ∧
    has_at img (8 + 72 * Z.of_nat i)
      (nb ++ le_bytes (data_offset files i) ++ le_bytes (Z.of_nat (length data))) ∧
    has_at img (data_offset files i) data.
Proof.
  unfold build_fs. set (files := merge_sort entry_le dir). cbv zeta.
  destruct (length files =? 0)%nat; [done|]. intros Hb.
  apply option.bind_Some in Hb as (es & Hes & Hb). apply option.bind_Some in Hb as (h & Hh & Hb).
  apply option.bind_Some in Hb as (t & Ht & [= <-]). apply pack_II_inv in Hh as (_ & Hn & ->).
  apply layout_inv in Hes as [Hlen Hes];
    [|rewrite <- Z.add_mod_idemp_r, Z.mul_comm, (Z.mul_mod _ 72), Z.mul_0_r by lia; done].
  assert (Forall (λ e : list Z * Z * Z, length e.1.1 = 64%nat) es) as HF.
  { apply Forall_lookup. intros i e He.
    destruct (lookup_lt_is_Some_2 files i) as [[fn d] Hf]; [apply lookup_lt_Some in He; lia|].
    destruct (Hes _ _ _ Hf) as (nb & Hnb & Heq). simplify_eq. simpl. apply (name_field_inv _ _ Hnb). }
  destruct (write_entries_inv _ _ Ht HF) as [Htl Hent].
  split_and!; [by exists [], (t ++ concat (map (λ f, padded f.2) files))|lia|lia|
    rewrite !length_app; simpl; lia|].
  intros i fname data Hi. destruct (Hes _ _ _ Hi) as (nb & Hnb & Hlk).
  destruct (Hent _ _ _ _ Hlk) as (Ho & Hs & Hat). exists nb. split; [done|].
  split; [exact Ho|]. split; [exact Hs|]. split.
  - apply (has_at_app _ (le_bytes FS_MAGIC ++ le_bytes (Z.of_nat (length files)))
             (concat (map (λ f, padded f.2) files)) _ _ Hat).
  - pose proof (has_at_app _ (le_bytes FS_MAGIC ++ le_bytes (Z.of_nat (length files)) ++ t) []
      _ _ (contents_at _ _ _ Hi)) as Hd. rewrite app_nil_r, <- !app_assoc in Hd.
    rewrite <- !app_assoc. erewrite <- (f_equal (λ x, has_at _ x data)); [exact Hd|].
    rewrite !length_app. unfold data_offset. simpl. lia.
Qed.
