(* ===== verification/Fs.v ===== *)
(** * fs.c: the SOFS read-only file system

    The image lies in memory where the boot loader put it: a header, the
    entries (64 bytes of name, offset, size), the data.  [sofs_at] describes an
    image as a list of files; the driver's functions are verified against it. *)

From stdpp Require Import prelude gmap sorting.
From Stdlib Require Import ZArith Lia.
From S2P Require Import Prelude Memory Kutil Mkfs FrameAlloc Paging.

Abbreviation FS_MAX_NAME := 64.
Abbreviation sizeof_fs_header := 8.
Abbreviation sizeof_fs_file_entry := 72.

(** [struct fs_instance]; the pointers are addresses, 0 is NULL. *)
Record fs_instance := mkFs {
  fs_base_addr : Z;
  fs_header : Z;
  fs_entries : Z
}.

(** ** The code *)

Definition header_magic cr3 m h := kld32 cr3 m h.
Definition header_num_files cr3 m h := kld32 cr3 m (h + 4).
Definition entry_addr (fs : fs_instance) (i : Z) : Z :=
  fs_entries fs +ᵤ sizeof_fs_file_entry * i.
Definition entry_offset cr3 m (fs : fs_instance) i := kld32 cr3 m (entry_addr fs i + 64).
Definition entry_size cr3 m (fs : fs_instance) i := kld32 cr3 m (entry_addr fs i + 68).

Definition fs_init (cr3 : Z) (m : mem) (base_addr : Z) : option (Z * fs_instance) :=
  magic ← header_magic cr3 m base_addr;
  if negb (magic =? FS_MAGIC)
  then Some (-1, mkFs base_addr 0 0)
  else Some (0, mkFs base_addr base_addr (base_addr +ᵤ sizeof_fs_header)).

Definition fs_num_files (cr3 : Z) (m : mem) (fs : fs_instance) : option Z :=
  if fs_header fs =? 0 then Some 0
  else n ← header_num_files cr3 m (fs_header fs); Some (s32 n).

Definition fs_find (cr3 : Z) (m : mem) (fs : fs_instance) (name : Z) : option Z :=
  if fs_header fs =? 0 then Some (-1) else
  num_files ← header_num_files cr3 m (fs_header fs);
  o ← loop_range 0 num_files (λ i _,
        r ← strcmp cr3 m (entry_addr fs i) name;
        Some (if r =? 0 then inr (s32 i) else inl ())) ();
  match o with inr i => Some i | inl _ => Some (-1) end.

Definition fs_file_data (cr3 : Z) (m : mem) (fs : fs_instance) (index : Z) : option Z :=
  offset ← entry_offset cr3 m fs index; Some (fs_base_addr fs +ᵤ offset).

Definition fs_file_size (cr3 : Z) (m : mem) (fs : fs_instance) (index : Z) : option Z :=
  entry_size cr3 m fs index.

Definition fs_file_name (fs : fs_instance) (index : Z) : Z := entry_addr fs index.

(** One turn of the loop of fs_list, on the memory and [pos]; [inr] leaves the
    loop, by its condition or by the [break]. *)
Definition fs_list_body (cr3 : Z) (fs : fs_instance) (buf buf_size : Z)
    (i : Z) (s : mem * Z) : option ((mem * Z) + (mem * Z)) :=
  let '(m, pos) := s in
  if negb (pos <? (buf_size -ᵤ 1)) then Some (inr (m, pos)) else
  let name := entry_addr fs i in
  nlen ← strlen cr3 m name;
  if buf_size <=? u32 (u32 (pos + nlen) + 1) then Some (inr (m, pos)) else
  '(_, m) ← memcpy cr3 m (buf +ᵤ pos) name nlen;
  let pos := pos +ᵤ nlen in
  m ← kst8 cr3 m (buf +ᵤ pos) 10;
  Some (inl (m, pos +ᵤ 1)).

Definition fs_list (cr3 : Z) (m : mem) (fs : fs_instance) (buf buf_size : Z)
    : option (Z * mem) :=
  if fs_header fs =? 0 then Some (0, m) else
  num ← header_num_files cr3 m (fs_header fs);
  o ← loop_range 0 num (fs_list_body cr3 fs buf buf_size) (m, 0);
  let '(m, pos) := match o with inl s => s | inr s => s end in
  m ← kst8 cr3 m (buf +ᵤ pos) 0;
  Some (s32 pos, m).

(** ** The image *)

Record file := mkFile { f_name : list Z; f_offset : Z; f_size : Z }.

Record sofs_at (cr3 : Z) (m : mem) (base : Z) (files : list file) : Prop := {
  so_addr : 0 < base;
  so_fits : base + 8 + 72 * Z.of_nat (length files) < 4294967296;
  so_magic : kld32 cr3 m base = Some FS_MAGIC;
  so_num : kld32 cr3 m (base + 4) = Some (Z.of_nat (length files));
  so_entry : ∀ i f, files !! i = Some f →
    cstring_at cr3 m (base + 8 + 72 * Z.of_nat i) (f_name f) ∧
    (length (f_name f) < 64)%nat ∧
    kld32 cr3 m (base + 8 + 72 * Z.of_nat i + 64) = Some (f_offset f) ∧
    kld32 cr3 m (base + 8 + 72 * Z.of_nat i + 68) = Some (f_size f)
}.

(** The instance fs_init makes of an image at [base]. *)
Definition mounted (base : Z) : fs_instance := mkFs base base (base + 8).

(** What `ls` shows in [room] bytes: the names in order, each with a newline,
    as long as a byte is left for the final NUL. *)
Fixpoint listing (room : Z) (files : list file) : list Z :=
  match files with
  | [] => []
  | f :: files' =>
      if Z.of_nat (length (f_name f)) + 1 <? room
      then f_name f ++ 10 :: listing (room - Z.of_nat (length (f_name f)) - 1) files'
      else []
  end.

(** ** Proofs *)

Section on_image.
Context (cr3 : Z) (m : mem) (base : Z) (files : list file) (Hs : sofs_at cr3 m base files).

Lemma entry_addr_mounted (i : nat) : (i < length files)%nat →
  entry_addr (mounted base) (Z.of_nat i) = base + 8 + 72 * Z.of_nat i.
Proof.
  intros Hi. pose proof (so_fits _ _ _ _ Hs). pose proof (so_addr _ _ _ _ Hs).
  unfold entry_addr; simpl. apply u32_small. lia.
Qed.

Lemma files_int : Z.of_nat (length files) < 2147483648.
Proof. pose proof (so_fits _ _ _ _ Hs). pose proof (so_addr _ _ _ _ Hs). lia. Qed.

Lemma s32_small i : 0 <= i < 2147483648 → s32 i = i.
Proof. intros. unfold s32. rewrite u32_small by lia. by ztest. Qed.

Lemma fs_init_spec : fs_init cr3 m base = Some (0, mounted base).
Proof.
  pose proof (so_fits _ _ _ _ Hs). pose proof (so_addr _ _ _ _ Hs).
  unfold fs_init, header_magic. rewrite (so_magic _ _ _ _ Hs). simpl.
  rewrite u32_small by lia. done.
Qed.

Lemma fs_num_files_spec : fs_num_files cr3 m (mounted base) = Some (Z.of_nat (length files)).
Proof.
  pose proof (so_addr _ _ _ _ Hs). unfold fs_num_files, header_num_files; simpl. ztest.
  rewrite (so_num _ _ _ _ Hs). simpl. rewrite s32_small; [done|]. pose proof files_int. lia.
Qed.

(** fs_find returns the index of the first file of that name, -1 if there is
    none. *)
Lemma fs_find_spec name s : cstring_at cr3 m name s →
  fs_find cr3 m (mounted base) name =
    Some (match list_find (λ f, f_name f = s) files with
          | Some (i, _) => Z.of_nat i
          | None => -1
          end).
Proof.
  intros Hn. pose proof (so_addr _ _ _ _ Hs). pose proof files_int.
  unfold fs_find, header_num_files; simpl. ztest. rewrite (so_num _ _ _ _ Hs). simpl.
  destruct (loop_range_ind
    (λ j _, ∀ i f, files !! i = Some f → Z.of_nat i < j → f_name f ≠ s)
    (λ r, ∃ i f, r = Z.of_nat i ∧ files !! i = Some f ∧ f_name f = s ∧
       ∀ k g, files !! k = Some g → (k < i)%nat → f_name g ≠ s)
    (λ i _, r ← strcmp cr3 m (entry_addr (mounted base) i) name;
        Some (if r =? 0 then inr (s32 i) else inl ()))
    0 (Z.of_nat (length files)) ()) as (o & Ho & HQ); [lia|lia| |].
  - intros j [] Hj HI. destruct (lookup_lt_is_Some_2 files (Z.to_nat j)) as [f Hf]; [lia|].
    destruct (so_entry _ _ _ _ Hs _ _ Hf) as (Hc & _).
    pose proof (entry_addr_mounted (Z.to_nat j) ltac:(lia)) as Hea.
    rewrite Z2Nat.id in Hea by lia. rewrite Hea. rewrite Z2Nat.id in Hc by lia.
    destruct (strcmp_eq _ _ _ _ _ _ Hc Hn) as (r & -> & Hr). simpl.
    eexists. split; [done|]. destruct (Z.eqb_spec r 0) as [->|Hne].
    + exists (Z.to_nat j), f. split; [rewrite s32_small; lia|]. split; [done|].
      split; [by apply Hr|]. intros k g Hk Hkj. apply (HI k g Hk). lia.
    + intros k g Hk Hkj. destruct (decide (k = Z.to_nat j)) as [->|].
      * simplify_eq. by intros Heq%Hr.
      * apply (HI k g Hk). lia.
  - simpl in Ho. rewrite Ho. simpl. destruct o as [[]|r].
    + rewrite (proj2 (list_find_None _ _)); [done|]. apply Forall_lookup. intros i f Hf.
      apply (HQ i f Hf). apply lookup_lt_Some in Hf. lia.
    + destruct HQ as (i & f & -> & Hf & Hfs & Hfirst).
      rewrite (proj2 (list_find_Some _ files i f)); [done|]. split_and!; [done..|].
      intros k g Hk Hki. by eapply Hfirst.
Qed.

Lemma fs_file_spec i f : files !! i = Some f →
  fs_file_data cr3 m (mounted base) (Z.of_nat i) = Some (base +ᵤ f_offset f) ∧
  fs_file_size cr3 m (mounted base) (Z.of_nat i) = Some (f_size f) ∧
  cstring_at cr3 m (fs_file_name (mounted base) (Z.of_nat i)) (f_name f).
Proof.
  intros Hf. pose proof (lookup_lt_Some _ _ _ Hf). destruct (so_entry _ _ _ _ Hs _ _ Hf) as (Hc & _ & Ho & Hz).
  unfold fs_file_data, fs_file_size, fs_file_name, entry_offset, entry_size.
  rewrite entry_addr_mounted by done. by rewrite Ho, Hz.
Qed.
End on_image.

(** ** fs_list *)

Lemma listing_length room files : 0 < room → Z.of_nat (length (listing room files)) < room.
Proof.
  revert room. induction files as [|f files IH]; intros room Hr; simpl; [lia|].
  zcase; simpl; [|lia]. rewrite length_app; simpl.
  specialize (IH (room - Z.of_nat (length (f_name f)) - 1)). lia.
Qed.

(** A readable image that writes to the buffer cannot disturb. *)
Definition sofs_stable (cr3 : Z) (R : Z → Prop) (m : mem) (base : Z) (files : list file) : Prop :=
  ∀ m', changes_only R m m' → sofs_at cr3 m' base files.

Section list_loop.
Context (cr3 : Z) (m0 : mem) (base : Z) (files : list file) (buf size : Z) (phi : Z → Z).
Abbreviation room := (Z.of_nat (length (listing size files)) + 1).
Context (Hv : vmapped cr3 (within buf room) phi m0).
Context (Hst : sofs_stable cr3 (image (within buf room) phi) m0 base files).
Context (Hsize : 0 < size <= 2147483648) (Hbuf : 0 <= buf) (Hfit : buf + room <= 4294967296).

(** What the buffer holds before file [j] is listed, and what is left. *)
Record list_inv (j : Z) (s : mem * Z) (out : list Z) : Prop := {
  li_mem : changes_only (image (within buf room) phi) m0 s.1;
  li_pos : s.2 = Z.of_nat (length out);
  li_out : ∀ i b, out !! i = Some b → kld8 cr3 s.1 (buf + Z.of_nat i) = Some b;
  li_rest : listing size files = out ++ listing (size - s.2) (drop (Z.to_nat j) files);
  li_room : s.2 < size
}.

Lemma list_step j s out : 0 <= j < Z.of_nat (length files) → list_inv j s out →
  ∃ o, fs_list_body cr3 (mounted base) buf size j s = Some o ∧
       match o with
       | inl s' => ∃ out', list_inv (j + 1) s' out'
       | inr s' => s' = s ∧ listing size files = out
       end.
Proof.
  intros Hj [Hc Hp Ho Hr Hroom]. destruct s as [m pos]; simpl in *.
  destruct (lookup_lt_is_Some_2 files (Z.to_nat j)) as [f Hf]; [lia|].
  rewrite (drop_S _ _ _ Hf) in Hr. pose proof (Hst m Hc) as Hso.
  destruct (so_entry _ _ _ _ Hso _ _ Hf) as (Hcs & Hlen & _).
  rewrite Z2Nat.id in Hcs by lia.
  unfold fs_list_body. rewrite (u32_small (size - 1)) by lia.
  destruct (Z.ltb_spec pos (size - 1)) as [Hlt|Hge]; simpl.
  2:{ eexists. split; [done|]. split; [done|]. rewrite Hr. simpl. ztest. by rewrite app_nil_r. }
  pose proof (entry_addr_mounted _ _ _ _ Hso (Z.to_nat j) ltac:(lia)) as Hea.
  rewrite Z2Nat.id in Hea by lia. rewrite Hea, (strlen_spec _ _ _ _ Hcs). simpl.
  rewrite (u32_small (pos + _)), (u32_small (pos + _ + 1)) by lia.
  destruct (Z.leb_spec size (pos + Z.of_nat (length (f_name f)) + 1)) as [Hle|Hgt].
  { eexists. split; [done|]. split; [done|]. rewrite Hr. simpl. ztest. by rewrite app_nil_r. }
  assert (pos + Z.of_nat (length (f_name f)) + 1 < room) as Hin.
  { cbn [listing] in Hr. rewrite (proj2 (Z.ltb_lt _ _)) in Hr by lia. rewrite Hr, !length_app. cbn [length]. lia. }
  rewrite (u32_small (buf + pos)), (u32_small (buf + (pos + _))) by lia.
  destruct (memcpy_vmapped cr3 (within buf room) phi m (buf + pos)
    (base + 8 + 72 * j) (f_name f)) as (m1 & -> & Hc1 & Hn1 & Hold1).
  { by eapply vmapped_changes. } { lia. } { lia. } { pose proof (cs_addr _ _ _ _ Hcs). lia. }
  { pose proof (cs_fits _ _ _ _ Hcs). lia. } { unfold within. lia. }
  { intros i b Hi. destruct (cs_bytes _ _ _ _ Hcs i b Hi) as [_ Hb]. split; [lia|].
    intros m2 Hc2. rewrite <- (Z2Nat.id j) by lia.
    eapply (cs_bytes _ _ _ _ (proj1 (so_entry _ _ _ _ (Hst m2 ltac:(by eapply changes_only_trans)) _ _ Hf)) i b Hi). }
  simpl.
  destruct (vmapped_st8 cr3 (within buf room) phi m1 (buf + (pos + Z.of_nat (length (f_name f)))) 10)
    as (m2 & -> & Hc2 & Hn2 & Hold2).
  { eapply vmapped_changes; [done|]. by eapply changes_only_trans. } { unfold within; lia. } { lia. }
  simpl. eexists. split; [done|].
  exists (out ++ f_name f ++ [10]). split; simpl.
  - eapply changes_only_trans; [exact Hc|]. by eapply changes_only_trans.
  - rewrite !length_app; simpl. lia.
  - intros i b Hi. apply lookup_app_Some in Hi as [Hi|[Hge Hi]].
    + pose proof (lookup_lt_Some _ _ _ Hi).
      rewrite Hold2, Hold1 by (unfold within; lia). by apply Ho.
    + apply lookup_app_Some in Hi as [Hi|[Hge2 Hi]].
      * pose proof (lookup_lt_Some _ _ _ Hi). rewrite Hold2 by (unfold within; lia).
        rewrite <- (Hn1 _ _ Hi). f_equal. lia.
      * apply list_lookup_singleton_Some in Hi as [Hi <-]. rewrite <- Hn2. f_equal. lia.
  - rewrite Hr. simpl. ztest. rewrite <- !app_assoc. simpl. do 3 f_equal.
    replace (Z.to_nat (j + 1)) with (S (Z.to_nat j)) by lia. f_equal. lia.
  - lia.
Qed.

Lemma fs_list_spec :
  ∃ m', fs_list cr3 m0 (mounted base) buf size = Some (Z.of_nat (length (listing size files)), m') ∧
        changes_only (image (within buf room) phi) m0 m' ∧
        ∀ i b, (listing size files ++ [0]) !! i = Some b → kld8 cr3 m' (buf + Z.of_nat i) = Some b.
Proof.
  pose proof (Hst m0 ltac:(done)) as Hso. pose proof (so_addr _ _ _ _ Hso) as Hb0.
  pose proof (files_int _ _ _ _ Hso) as Hint.
  unfold fs_list, header_num_files; simpl. ztest. rewrite (so_num _ _ _ _ Hso). simpl.
  destruct (loop_range_ind (λ j s, ∃ out, list_inv j s out)
    (λ s, ∃ j, list_inv j s (listing size files))
    (fs_list_body cr3 (mounted base) buf size) 0 (Z.of_nat (length files)) (m0, 0))
    as (o & Hloop & HQ); [lia| | |].
  - exists []. split; simpl; [done|done|done|by rewrite Z.sub_0_r|lia].
  - intros j s Hj [out HI]. destruct (list_step j s out Hj HI) as ([s'|s'] & -> & Hs').
    + by exists (inl s').
    + destruct Hs' as [-> Heq]. exists (inr s). split; [done|]. exists j. by rewrite Heq.
  - simpl in Hloop. rewrite Hloop. simpl.
    assert (∃ s j, match o with inl s => s | inr s => s end = s ∧ list_inv j s (listing size files))
      as ([m1 pos] & j & -> & [Hc Hp Ho _ Hroom]).
    { destruct o as [s|s].
      - destruct HQ as [out HI]. exists s, (Z.of_nat (length files)). split; [done|].
        pose proof (li_rest _ _ _ HI) as Hr. rewrite Nat2Z.id, drop_all, app_nil_r in Hr. by rewrite Hr.
      - destruct HQ as [j HI]. by exists s, j. }
    simpl in *. subst pos. rewrite u32_small by lia.
    destruct (vmapped_st8 cr3 (within buf room) phi m1 (buf + Z.of_nat (length (listing size files))) 0)
      as (m2 & -> & Hc2 & Hn2 & Hold2); [by eapply vmapped_changes|unfold within; lia|lia|].
    simpl. exists m2. split; [|split].
    + do 2 f_equal. apply s32_small. lia.
    + by eapply changes_only_trans.
    + intros i b Hi. apply lookup_app_Some in Hi as [Hi|[Hge Hi]].
      * pose proof (lookup_lt_Some _ _ _ Hi). rewrite Hold2 by (unfold within; lia). by apply Ho.
      * apply list_lookup_singleton_Some in Hi as [Hi <-]. rewrite <- Hn2. f_equal. lia.
Qed.
End list_loop.

(** ** Images of mkfs.py *)

Lemma bytes_at_has cr3 m base img off x :
  bytes_at cr3 m base img → has_at img off x → bytes_at cr3 m (base + off) x.
Proof.
  intros Hb (l & r & -> & <-). apply bytes_at_app in Hb as [_ Hb]. by apply bytes_at_app in Hb as [Hb _].
Qed.

Lemma name_field_cstring cr3 m a fname nb : name_field fname = Some nb →
  0 <= a → a + 64 <= 4294967296 → bytes_at cr3 m a nb → Forall (λ c, 0 < c) fname →
  cstring_at cr3 m a (take 63 fname).
Proof.
  intros Hnb Ha Hfit Hb Hpos. apply name_field_inv in Hnb as (Hlen & Hasc & ->).
  assert (length (take 63 fname) <= 63)%nat by (rewrite length_take; lia).
  apply bytes_at_app in Hb as [Hb Hz]. split; [lia|lia| |].
  - intros i b Hi. split; [by apply Hb|]. apply lookup_take_Some in Hi as [Hi _].
    rewrite Forall_lookup in Hpos, Hasc. specialize (Hpos _ _ Hi). specialize (Hasc _ _ Hi). lia.
  - rewrite <- (Hz O 0); [f_equal; lia|]. apply lookup_replicate. split; [done|lia].
Qed.

(** The name mkfs.py stores for a file. *)
Definition stored_name (name : list Z) : list Z := take 63 name.

(** The files of an image of mkfs.py as the driver sees them. *)
Definition image_files (dir : list (list Z * list Z)) : list file :=
  let files := merge_sort entry_le dir in
  imap (λ i f, mkFile (take 63 f.1) (data_offset files i) (Z.of_nat (length f.2))) files.

Lemma image_files_lookup dir i fname data : merge_sort entry_le dir !! i = Some (fname, data) →
  image_files dir !! i = Some (mkFile (take 63 fname) (data_offset (merge_sort entry_le dir) i)
                                      (Z.of_nat (length data))).
Proof. intros Hi. unfold image_files. by rewrite list_lookup_imap, Hi. Qed.

Lemma mkfs_sofs cr3 m base dir img : build_fs dir = Some img → bytes_at cr3 m base img →
  0 < base → base + Z.of_nat (length img) < 4294967296 →
  Forall (λ f, Forall (λ c, 0 < c) f.1) dir →
  sofs_at cr3 m base (image_files dir).
Proof.
  intros Hbuild Hb Hbase Hfit Hpos. destruct (build_fs_inv _ _ Hbuild) as (Hh & Hn & Htab & Hent).
  assert (length (image_files dir) = length (merge_sort entry_le dir)) as Hlen
    by (unfold image_files; by rewrite length_imap).
  pose proof (bytes_at_has _ _ _ _ _ _ Hb Hh) as Hhb. rewrite Z.add_0_r in Hhb.
  apply bytes_at_app in Hhb as [Hmag Hnum]. split; rewrite ?Hlen; [done|lia| | |].
  - by apply kld32_le_bytes.
  - by apply kld32_le_bytes.
  - intros i f Hf. destruct (lookup_lt_is_Some_2 (merge_sort entry_le dir) i) as [[fn d] Hi];
      [apply lookup_lt_Some in Hf; lia|].
    rewrite (image_files_lookup _ _ _ _ Hi) in Hf. simplify_eq. simpl.
    destruct (Hent _ _ _ Hi) as (nb & Hnb & Ho & Hs & Hat & _).
    pose proof (bytes_at_has _ _ _ _ _ _ Hb Hat) as Heb.
    apply bytes_at_app in Heb as [Hname Hw]. apply bytes_at_app in Hw as [Hoff Hsz].
    rewrite (proj1 (name_field_inv _ _ Hnb)) in Hoff, Hsz. simpl in Hsz.
    pose proof (lookup_lt_Some _ _ _ Hi).
    split; [|split; [|split]].
    + rewrite <- Z.add_assoc. eapply name_field_cstring; [done|lia|lia|done|].
      rewrite Forall_forall in Hpos. apply (Hpos (fn, d)).
      rewrite <- (merge_sort_Permutation entry_le). by eapply list_elem_of_lookup_2.
    + rewrite length_take. lia.
    + apply kld32_le_bytes; [done|]. by rewrite <- !Z.add_assoc in *.
    + apply kld32_le_bytes; [done|]. rewrite <- !Z.add_assoc in *. done.
Qed.

Lemma find_sorted dir i fname data :
  NoDup dir.*1 → (∀ other, other ∈ dir.*1 → stored_name other = stored_name fname → other = fname) →
  merge_sort entry_le dir !! i = Some (fname, data) →
  list_find (λ f, f_name f = stored_name fname) (image_files dir) =
    Some (i, mkFile (stored_name fname) (data_offset (merge_sort entry_le dir) i) (Z.of_nat (length data))).
Proof.
  intros Hnd Hone Hi. rewrite <- (merge_sort_Permutation entry_le) in Hnd.
  apply list_find_Some. rewrite (image_files_lookup _ _ _ _ Hi). split_and!; [done..|].
  intros j g Hj Hji Hname. unfold image_files in Hj. rewrite list_lookup_imap in Hj.
  destruct (merge_sort entry_le dir !! j) as [[fn' d']|] eqn:Hj'; [|done].
  simpl in *. simplify_eq. simpl in Hname.
  assert (fn' = fname) as ->.
  { apply Hone; [|exact Hname]. rewrite <- (merge_sort_Permutation entry_le), list_elem_of_fmap.
    eexists. split; [|by eapply list_elem_of_lookup_2]. done. }
  assert (i = j) as ->; [|lia]. eapply NoDup_lookup; [exact Hnd| |];
    rewrite list_lookup_fmap; [by rewrite Hi|by rewrite Hj'].
Qed.

Lemma find_absent dir s : s ∉ stored_name <$> dir.*1 →
  list_find (λ f, f_name f = s) (image_files dir) = None.
Proof.
  intros Hs. rewrite <- (merge_sort_Permutation entry_le) in Hs.
  apply list_find_None, Forall_lookup. intros i g Hg. unfold image_files in Hg.
  rewrite list_lookup_imap in Hg. destruct (merge_sort entry_le dir !! i) as [[fn d]|] eqn:Hi; [|done].
  simpl in Hg. simplify_eq. simpl. intros <-. apply Hs. apply list_elem_of_fmap_2. rewrite list_elem_of_fmap.
  eexists. split; [|by eapply list_elem_of_lookup_2]. done.
Qed.

(** ** Properties *)

(** C19: the image mkfs.py builds from any directory whose names have no NUL,
    loaded anywhere in memory, mounts, and the driver finds every file of the
    directory, with its size and its contents, by the name the image stores for
    it, which is the first 63 characters of its own name (as long as no other
    name of the directory begins with the same 63), and finds nothing by any
    other name.  Names of up to 63 characters are stored whole; a name of 64 or
    more is cut without an error, and its file is not found under it. *)
Theorem mkfs_roundtrip cr3 m base dir img :
  build_fs dir = Some img → bytes_at cr3 m base img →
  0 < base → base + Z.of_nat (length img) < 4294967296 →
  NoDup dir.*1 → Forall (λ f, Forall (λ c, 0 < c) f.1) dir →
  fs_init cr3 m base = Some (0, mounted base) ∧
  fs_num_files cr3 m (mounted base) = Some (Z.of_nat (length dir)) ∧
  (∀ name data p, (name, data) ∈ dir →
     (∀ other, other ∈ dir.*1 → stored_name other = stored_name name → other = name) →
     cstring_at cr3 m p (stored_name name) →
     ∃ i a, fs_find cr3 m (mounted base) p = Some i ∧
       fs_file_size cr3 m (mounted base) i = Some (Z.of_nat (length data)) ∧
       fs_file_data cr3 m (mounted base) i = Some a ∧ bytes_at cr3 m a data ∧
       cstring_at cr3 m (fs_file_name (mounted base) i) (stored_name name)) ∧
  (∀ s p, s ∉ stored_name <$> dir.*1 → cstring_at cr3 m p s → fs_find cr3 m (mounted base) p = Some (-1)) ∧
  (∀ name, (length name < 64)%nat → stored_name name = name) ∧
  (∀ name p, (64 <= length name)%nat → cstring_at cr3 m p name → fs_find cr3 m (mounted base) p = Some (-1)).
Proof.
  intros Hbuild Hb Hbase Hfit Hnd Hpos.
  pose proof (mkfs_sofs _ _ _ _ _ Hbuild Hb Hbase Hfit Hpos) as Hso.
  destruct (build_fs_inv _ _ Hbuild) as (_ & _ & _ & Hent).
  assert (∀ s p, s ∉ stored_name <$> dir.*1 → cstring_at cr3 m p s → fs_find cr3 m (mounted base) p = Some (-1)) as Hno.
  { intros s p Hs Hp. rewrite (fs_find_spec _ _ _ _ Hso _ _ Hp). by rewrite find_absent. }
  split; [by eapply fs_init_spec|]. split; [|split; [|split; [exact Hno|split]]].
  - rewrite (fs_num_files_spec _ _ _ _ Hso). unfold image_files.
    by rewrite length_imap, merge_sort_Permutation.
  - intros name data p Hin Hone Hp. rewrite <- (merge_sort_Permutation entry_le) in Hin.
    apply list_elem_of_lookup in Hin as [i Hi]. exists (Z.of_nat i).
    destruct (Hent _ _ _ Hi) as (_ & _ & Ho & _ & _ & Hdata).
    pose proof (find_sorted _ _ _ _ Hnd Hone Hi) as Hf.
    rewrite (fs_find_spec _ _ _ _ Hso _ _ Hp), Hf. apply list_find_Some in Hf as (Hf & _).
    destruct (fs_file_spec _ _ _ _ Hso _ _ Hf) as (-> & -> & Hn). eexists. split_and!; [done..| |done].
    simpl. pose proof (has_at_bound _ _ _ Hdata). rewrite u32_small by lia.
    by eapply bytes_at_has.
  - intros name Hl. apply take_ge. clear - Hl. lia.
  - intros name p Hl Hp. apply (Hno name p); [|exact Hp]. rewrite list_elem_of_fmap. intros (other & E & _).
    pose proof (f_equal length E) as El. unfold stored_name in El. rewrite length_take in El. clear - Hl El. lia.
Qed.

(** fs_find returns the index of the first file with the name, -1 for a
    name no file has, on any image, and the index gives that file's data
    pointer, size and name. *)
Theorem fs_find_correct cr3 m base files name s :
  sofs_at cr3 m base files → cstring_at cr3 m name s →
  (∃ i f, files !! i = Some f ∧ f_name f = s ∧
     (∀ k g, files !! k = Some g → (k < i)%nat → f_name g ≠ s) ∧
     fs_find cr3 m (mounted base) name = Some (Z.of_nat i) ∧
     fs_file_data cr3 m (mounted base) (Z.of_nat i) = Some (base +ᵤ f_offset f) ∧
     fs_file_size cr3 m (mounted base) (Z.of_nat i) = Some (f_size f)) ∨
  ((∀ f, f ∈ files → f_name f ≠ s) ∧ fs_find cr3 m (mounted base) name = Some (-1)).
Proof.
  intros Hs Hn. rewrite (fs_find_spec _ _ _ _ Hs _ _ Hn).
  destruct (list_find _ files) as [[i f]|] eqn:Hf.
  - left. apply list_find_Some in Hf as (Hi & Hfs & Hfirst).
    destruct (fs_file_spec _ _ _ _ Hs _ _ Hi) as (? & ? & _). exists i, f. split_and!; try done.
  - right. split; [|done]. apply list_find_None in Hf. by apply Forall_forall.
Qed.

(** fs_list writes to the caller's buffer the names in order, each with
    a newline, as many whole names as leave room for the final NUL, returns
    their length, and changes nothing outside the buffer. *)
Theorem fs_list_correct cr3 m base files buf size phi :
  vmapped cr3 (within buf size) phi m →
  sofs_stable cr3 (image (within buf size) phi) m base files →
  0 < size <= 2147483648 → 0 <= buf → buf + size <= 4294967296 →
  ∃ m', fs_list cr3 m (mounted base) buf size = Some (Z.of_nat (length (listing size files)), m') ∧
        Z.of_nat (length (listing size files)) < size ∧
        bytes_at cr3 m' buf (listing size files ++ [0]) ∧
        changes_only (image (within buf size) phi) m m'.
Proof.
  intros Hv Hs Hsz Hb Hf. pose proof (listing_length size files ltac:(lia)) as Hl.
  set (room := Z.of_nat (length (listing size files)) + 1).
  assert (∀ a, within buf room a → within buf size a) as Hw by (unfold within, room; lia).
  assert (∀ m1 m2, changes_only (image (within buf room) phi) m1 m2 → changes_only (image (within buf size) phi) m1 m2) as Hi.
  { intros m1 m2. apply changes_only_mono. intros x (va & Hva & E). exists va. split; [by apply Hw|exact E]. }
  destruct (fs_list_spec cr3 m base files buf size phi) as (m' & -> & Hc & Hout); [by eapply vmapped_mono| |done|done|lia|].
  - intros m' Hm'. apply Hs. by apply Hi.
  - exists m'. split; [done|]. split; [exact Hl|]. split; [exact Hout|]. by apply Hi.
Qed.

(** An image with the wrong magic number is refused, and the instance
    left behind is an empty file system on which no call reads memory. *)
Theorem fs_init_bad_magic cr3 m base magic :
  kld32 cr3 m base = Some magic → magic ≠ FS_MAGIC →
  ∃ fs, fs_init cr3 m base = Some (-1, fs) ∧ fs_num_files cr3 m fs = Some 0 ∧
    (∀ name, fs_find cr3 m fs name = Some (-1)) ∧
    ∀ buf size, fs_list cr3 m fs buf size = Some (0, m).
Proof.
  intros Hm Hne. exists (mkFs base 0 0). unfold fs_init, header_magic. rewrite Hm. simpl. ztest. done.
Qed.

(** With a buffer of size 0 the bound [buf_size - 1] wraps around and
    fs_list still writes the final NUL, one byte past the empty buffer. *)
Theorem fs_list_empty_buffer cr3 m base files buf pa :
  sofs_at cr3 m base files → is_u32 buf → walk m cr3 buf = Some pa →
  fs_list cr3 m (mounted base) buf 0 = Some (0, st8 m pa 0).
Proof.
  intros Hs Hb Hw. pose proof (so_addr _ _ _ _ Hs). pose proof (files_int _ _ _ _ Hs).
  unfold fs_list, header_num_files; simpl. ztest. rewrite (so_num _ _ _ _ Hs). simpl.
  assert (∃ o, loop_range 0 (Z.of_nat (length files)) (fs_list_body cr3 (mounted base) buf 0) (m, 0) = Some o ∧
               (o = inl (m, 0) ∨ o = inr (m, 0))) as (o & -> & Ho).
  { destruct (loop_range_ind (λ _ s, s = (m, 0)) (λ s, s = (m, 0))
      (fs_list_body cr3 (mounted base) buf 0) 0 (Z.of_nat (length files)) (m, 0))
      as (o & Ho & HQ); [lia|done| |].
    - intros j s Hj ->. unfold fs_list_body. simpl.
      destruct (lookup_lt_is_Some_2 files (Z.to_nat j)) as [f Hf]; [lia|].
      destruct (so_entry _ _ _ _ Hs _ _ Hf) as (Hcs & _).
      rewrite <- (entry_addr_mounted _ _ _ _ Hs), Z2Nat.id in Hcs by lia.
      rewrite (strlen_spec _ _ _ _ Hcs), bind_Some, (proj2 (Z.leb_le 0 _)) by apply u32_range. by eexists.
    - exists o. split; [done|]. destruct o; [left|right]; by rewrite HQ. }
  simpl. destruct Ho as [-> | ->]; simpl; unfold kst8; rewrite Z.add_0_r, u32_small, Hw by done; done.
Qed.

(** ** Witnesses *)

(** A directory with two files, "a" and "hi". *)
Definition example_files : list (list Z * list Z) := [([104; 105], [1; 2; 3]); ([97], [7])].
Definition example_image : list Z := default [] (build_fs example_files).

Definition example_bytes : list Z := example_image ++ [104; 105; 0].

(** Identity paging with the image of [example_files] at 1 MiB and the string
    "hi" after it. *)
Lemma example_mounted : ∃ m : mem,
  kmapped 0x8000 (λ a, ¬ within 0x8000 4096 a) m ∧
  ∀ (W : Z → Prop) m', changes_only W m m' →
    (∀ x, W x → ¬ within 0x8000 4096 x ∧ ¬ within 0x100000 163 x) →
    bytes_at 0x8000 m' 0x100000 example_bytes.
Proof.
  destruct (identity_dir_exists 0x8000 ∅) as [m0 Hm0]; [split; [lia|done]|].
  assert (Z.of_nat (length example_bytes) = 163) as Hlen by reflexivity.
  assert (kmapped 0x8000 (λ a, ¬ within 0x8000 4096 a) (put_bytes m0 0x100000 example_bytes)) as Hk.
  { eapply kmapped_changes; [apply identity_kmapped; [exact Hm0|auto]|].
    eapply changes_only_mono; [|apply put_bytes_changes; lia]. unfold within. lia. }
  eexists. split; [exact Hk|]. intros W m' Hc HW.
  eapply bytes_at_changes; [exact Hk| |exact Hc|intros x Hx; by apply HW|lia|lia|].
  - eapply bytes_at_put; [exact Hk|lia|lia| |]; [unfold within; lia|].
    apply (bool_decide_unpack _). vm_compute. done.
  - rewrite Hlen. intros x Hx. split; [unfold within in *; lia|]. intros HWx. by destruct (HW x HWx).
Qed.

Lemma example_string m : bytes_at 0x8000 m 0x100000 example_bytes →
  bytes_at 0x8000 m 0x100000 example_image ∧ cstring_at 0x8000 m (0x100000 + 160) [104; 105].
Proof.
  intros Hb. apply bytes_at_app in Hb as [Hi Hs]. split; [done|].
  change (Z.of_nat (length example_image)) with 160 in Hs. split; [lia|simpl; lia| |].
  - intros i b Hl. split.
    + apply Hs. by apply (lookup_app_l_Some [104; 105] [0]).
    + destruct i as [|[|]]; simpl in Hl; simplify_eq; lia.
  - by apply (Hs 2%nat 0).
Qed.

Lemma example_names : NoDup example_files.*1 ∧ Forall (λ f, Forall (λ c, 0 < c) f.1) example_files.
Proof. split; apply (bool_decide_unpack _); vm_compute; done. Qed.

Lemma example_one other : other ∈ example_files.*1 → stored_name other = stored_name [104; 105] → other = [104; 105].
Proof.
  cbn [example_files fmap list_fmap fst]. rewrite !elem_of_cons, elem_of_nil. intros [->|[->|[]]] E; [reflexivity|discriminate E].
Qed.

Lemma mkfs_roundtrip_witness : ∃ (m : mem) i a,
  fs_find 0x8000 m (mounted 0x100000) (0x100000 + 160) = Some i ∧
  fs_file_data 0x8000 m (mounted 0x100000) i = Some a ∧ bytes_at 0x8000 m a [1; 2; 3].
Proof.
  destruct example_mounted as (m & _ & Hb). specialize (Hb (λ _, False) m (changes_only_refl _ _) ltac:(intros ? [])).
  apply example_string in Hb as [Hb Hs]. destruct example_names as [Hnd Hn].
  destruct (mkfs_roundtrip 0x8000 m 0x100000 example_files example_image) as (_ & _ & H & _);
    [reflexivity|exact Hb|lia|reflexivity|exact Hnd|exact Hn|].
  destruct (H [104; 105] [1; 2; 3] (0x100000 + 160) ltac:(apply list_elem_of_here) example_one Hs) as (i & a & H1 & _ & H2 & H3 & _).
  by exists m, i, a.
Defined.

Lemma example_sofs m : bytes_at 0x8000 m 0x100000 example_bytes →
  sofs_at 0x8000 m 0x100000 (image_files example_files).
Proof.
  intros Hb. apply example_string in Hb as [Hb _].
  eapply (mkfs_sofs _ _ _ _ example_image); [reflexivity|exact Hb|lia|reflexivity|].
  apply (bool_decide_unpack _). vm_compute. done.
Qed.

Lemma fs_find_correct_witness : ∃ m : mem,
  fs_find 0x8000 m (mounted 0x100000) (0x100000 + 160) ≠ Some (-1).
Proof.
  destruct example_mounted as (m & _ & Hb). specialize (Hb (λ _, False) m (changes_only_refl _ _) ltac:(intros ? [])).
  pose proof (example_sofs _ Hb) as Hso. apply example_string in Hb as [_ Hs]. exists m.
  destruct (fs_find_correct _ _ _ _ _ _ Hso Hs) as [(i & f & _ & _ & _ & -> & _)|[Hno _]].
  - intros [= ?]. lia.
  - exfalso. apply (Hno (mkFile [104; 105] 156 3)); [|reflexivity].
    apply (list_elem_of_lookup_2 _ 1). vm_compute. reflexivity.
Defined.

Lemma example_buffer m : kmapped 0x8000 (λ a, ¬ within 0x8000 4096 a) m →
  vmapped 0x8000 (within 0x300000 5) (λ a, a) m.
Proof.
  unfold within. intros Hk. split; [|intros; split; lia|intros; lia].
  intros m' Hc va Hva. apply Hk; [|lia|unfold within; lia].
  eapply changes_only_mono; [|exact Hc]. unfold within. intros a (va' & ? & <-). lia.
Qed.

(** Five bytes hold "a\n" and the NUL, and not "hi\n" as well. *)
Lemma fs_list_correct_witness : ∃ m m' : mem,
  fs_list 0x8000 m (mounted 0x100000) 0x300000 5 = Some (2, m') ∧
  bytes_at 0x8000 m' 0x300000 [97; 10; 0].
Proof.
  destruct example_mounted as (m & Hk & Hb).
  destruct (fs_list_correct 0x8000 m 0x100000 (image_files example_files) 0x300000 5 (λ a, a))
    as (m' & Hl & _ & Hout & _); [by apply example_buffer| |lia|lia|lia|by exists m, m'].
  intros m' Hc. apply example_sofs. apply (Hb _ m' Hc).
  unfold within. intros a (va & ? & <-). lia.
Defined.

Lemma fs_init_bad_magic_witness : ∃ (m : mem) fs,
  fs_init 0x8000 m 0x200000 = Some (-1, fs) ∧ fs_num_files 0x8000 m fs = Some 0.
Proof.
  destruct (identity_dir_exists 0x8000 ∅) as [m0 Hm0]; [split; [lia|done]|].
  assert (kmapped 0x8000 (λ a, ¬ within 0x8000 4096 a) m0) as Hk by (apply identity_kmapped; auto).
  set (m := st8 m0 0x200000 1).
  assert (kmapped 0x8000 (λ a, ¬ within 0x8000 4096 a) m) as Hk'
    by (eapply kmapped_changes; [exact Hk|apply changes_only_st8; unfold within; lia]).
  destruct (fs_init_bad_magic 0x8000 m 0x200000 (ld32 m 0x200000)) as (fs & H1 & H2 & _).
  - apply (kld32_kmapped _ _ _ Hk'); unfold within; lia.
  - assert (ld8 m 0x200000 = 1) as H1 by (unfold m; rewrite ld8_st8 by lia; reflexivity).
    unfold ld32, word_of. rewrite H1. pose proof (ld8_range m (0x200000 + 1)). lia.
  - by exists m, fs.
Defined.

Lemma fs_list_empty_buffer_witness : ∃ m : mem,
  fs_list 0x8000 m (mounted 0x100000) 0x300000 0 = Some (0, st8 m 0x300000 0).
Proof.
  destruct example_mounted as (m & Hk & Hb). exists m.
  apply (fs_list_empty_buffer _ _ _ (image_files example_files)); [|lia|].
  - apply example_sofs. by apply (Hb (λ _, False) m (changes_only_refl _ _)).
  - apply (walk_kmapped _ _ _ Hk); unfold within; lia.
Defined.
