(* ===== verification/Process.v ===== *)
(** * process.c: the process table and the scheduler

    The table of 16 process control blocks, the queries wait and top use, and
    the round-robin scheduler.  [current] is the index of the current process
    ([None] before the first one runs).  A context switch is the value
    [switch]: what schedule hands to switch_context and to the TSS.
    process_create is in ProcessCreate.v. *)

From stdpp Require Import prelude gmap.
From Stdlib Require Import ZArith Lia.
From S2P Require Import Prelude Memory Kutil FrameAlloc Paging.

Abbreviation PROC_STATE_DEAD := 0.
Abbreviation PROC_STATE_READY := 1.
Abbreviation PROC_STATE_RUNNING := 2.
Abbreviation MAX_PROCESSES := 16.
Abbreviation PROC_NAME_MAX := 32.

(** [struct process]; [p_name] is the array of 32 characters. *)
Record process := mkProc {
  pid : Z;
  state : Z;
  esp : Z;
  page_dir_phys : Z;
  kernel_stack : Z;
  kernel_stack_top : Z;
  p_name : list Z
}.

Definition set_state (s : Z) (p : process) : process :=
  mkProc (pid p) s (esp p) (page_dir_phys p) (kernel_stack p) (kernel_stack_top p) (p_name p).
Definition set_pid (n : Z) (p : process) : process :=
  mkProc n (state p) (esp p) (page_dir_phys p) (kernel_stack p) (kernel_stack_top p) (p_name p).
Definition set_esp (e : Z) (p : process) : process :=
  mkProc (pid p) (state p) e (page_dir_phys p) (kernel_stack p) (kernel_stack_top p) (p_name p).

Record proctab := mkTab {
  procs : list process;
  current : option nat;
  next_pid : Z
}.

(** `procs[i]` and `procs[i].f = ...`: [None] outside the array. *)
Definition proc_at (t : proctab) (i : Z) : option process := procs t !! Z.to_nat i.
Definition proc_set (i : Z) (f : process → process) (t : proctab) : option proctab :=
  p ← proc_at t i; Some (mkTab (<[Z.to_nat i := f p]> (procs t)) (current t) (next_pid t)).

(** ** The code *)

Definition process_init (t : proctab) : option proctab :=
  t ← for_range 0 MAX_PROCESSES (λ i t,
        t ← proc_set i (set_state PROC_STATE_DEAD) t; proc_set i (set_pid 0) t) t;
  Some (mkTab (procs t) None (next_pid t)).

Definition process_current (t : proctab) : option nat := current t.

Definition process_is_alive (t : proctab) (n : Z) : option Z :=
  o ← loop_range 0 MAX_PROCESSES (λ i _,
        p ← proc_at t i;
        Some (if (pid p =? n) && negb (state p =? PROC_STATE_DEAD) then inr 1 else inl ())) ();
  match o with inr r => Some r | inl _ => Some 0 end.

(** One process into `buf[count]`, a [struct proc_info] of 40 bytes. *)
Definition write_info (cr3 : Z) (m : mem) (a : Z) (p : process) : option mem :=
  m ← kst32 cr3 m a (pid p);
  m ← kst32 cr3 m (a + 4) (state p);
  for_range 0 PROC_NAME_MAX (λ k m,
    b ← p_name p !! Z.to_nat k; kst8 cr3 m (a + 8 + k) b) m.

Definition process_get_info (cr3 : Z) (m : mem) (t : proctab) (buf max : Z) : option (Z * mem) :=
  o ← loop_range 0 MAX_PROCESSES (λ i s,
        let '(m, count) := s in
        if negb (count <? max) then Some (inr (m, count)) else
        p ← proc_at t i;
        if negb (state p =? PROC_STATE_DEAD) then
          m ← write_info cr3 m (buf +ᵤ 40 * count) p;
          Some (inl (m, count + 1))
        else Some (inl (m, count))) (m, 0);
  let '(m, count) := match o with inl s => s | inr s => s end in
  Some (count, m).

(** The index of [current] in the table. *)
Definition find_start (c : nat) : option Z :=
  o ← loop_range 0 MAX_PROCESSES (λ i _,
        Some (if i =? Z.of_nat c then inr i else inl ())) ();
  Some (match o with inr i => i | inl _ => 0 end).

(** The search of schedule: the first READY process after [start], and
    [start] itself last. *)
Definition find_next (t : proctab) (start : Z) : option (option Z) :=
  o ← loop_range 1 (MAX_PROCESSES + 1) (λ i _,
        let idx := (start +ᵤ i) mod MAX_PROCESSES in
        p ← proc_at t idx;
        Some (if state p =? PROC_STATE_READY then inr idx else inl ())) ();
  Some (match o with inr idx => Some idx | inl _ => None end).

(** What schedule passes on: the new top of the kernel stack to the TSS, the
    slot the old stack pointer is saved in, and the new stack and directory. *)
Record switch := mkSwitch {
  sw_esp0 : Z;
  sw_save : nat;
  sw_esp : Z;
  sw_cr3 : Z
}.

(** `switch_context(&old->esp, ...)` as the table sees it: [saved] is the
    stack pointer of the old process after its registers are pushed.  [next]'s
    stack pointer is read before. *)
Definition schedule (saved : Z) (t : proctab) : option (proctab * option switch) :=
  match current t with
  | None => Some (t, None)
  | Some c =>
      start ← find_start c;
      nxt ← find_next t start;
      match nxt with
      | None => Some (t, None)
      | Some idx =>
          old ← procs t !! c;
          t ← (if state old =? PROC_STATE_RUNNING
               then proc_set (Z.of_nat c) (set_state PROC_STATE_READY) t else Some t);
          t ← proc_set idx (set_state PROC_STATE_RUNNING) t;
          next ← proc_at t idx;
          let t := mkTab (procs t) (Some (Z.to_nat idx)) (next_pid t) in
          t ← proc_set (Z.of_nat c) (set_esp saved) t;
          Some (t, Some (mkSwitch (kernel_stack_top next) c (esp next) (page_dir_phys next)))
      end
  end.

(** scheduler_start: [None] as the second result is the message "No processes
    to run.", otherwise the stack and directory jump_to_process gets. *)
Definition scheduler_start (t : proctab) : option (proctab * option (Z * Z * Z)) :=
  o ← loop_range 0 MAX_PROCESSES (λ i _,
        p ← proc_at t i;
        Some (if state p =? PROC_STATE_READY then inr i else inl ())) ();
  match o with
  | inl _ => Some (t, None)
  | inr i =>
      t ← proc_set i (set_state PROC_STATE_RUNNING) t;
      first ← proc_at t i;
      Some (mkTab (procs t) (Some (Z.to_nat i)) (next_pid t),
            Some (kernel_stack_top first, esp first, page_dir_phys first))
  end.

(** SYS_EXIT up to its call of schedule. *)
Definition exit_current (t : proctab) : option proctab :=
  c ← process_current t; proc_set (Z.of_nat c) (set_state PROC_STATE_DEAD) t.

(** The end of process_create: the new entry of the table.  [nm] is the first
    [nlen] bytes of the name, at most 31. *)
Definition proc_install (slot : Z) (sp dir kbase ktop : Z) (nm : list Z) (t : proctab)
    : option proctab :=
  let n := next_pid t in
  let t := mkTab (procs t) (current t) (n +ᵤ 1) in
  proc_set slot (λ p, mkProc n PROC_STATE_READY sp dir kbase ktop
                        (nm ++ 0 :: drop (S (length nm)) (p_name p))) t.

(** ** The invariant of the table *)

Definition alive (p : process) : Prop := state p ≠ PROC_STATE_DEAD.
Definition ready (p : process) : Prop := state p = PROC_STATE_READY.
Definition ready_at (t : proctab) (i : nat) : Prop := ∃ p, procs t !! i = Some p ∧ ready p.

Definition name_ok (nm : list Z) : Prop := length nm = 32%nat ∧ Forall (λ b, is_u8 b) nm.

(** 16 entries in the three states; the only running process is the current
    one, which is never READY; processes that live have distinct pids below
    the next one. *)
Record tab_wf (t : proctab) : Prop := {
  tw_len : length (procs t) = 16%nat;
  tw_state : ∀ i p, procs t !! i = Some p → 0 <= state p <= 2;
  tw_running : ∀ i p, procs t !! i = Some p → state p = PROC_STATE_RUNNING → current t = Some i;
  tw_current : ∀ c, current t = Some c → ∃ p, procs t !! c = Some p ∧ ¬ ready p;
  tw_pid : ∀ i p, procs t !! i = Some p → alive p → 0 < pid p < next_pid t;
  tw_pids : ∀ i j p q, procs t !! i = Some p → procs t !! j = Some q →
    alive p → alive q → pid p = pid q → i = j;
  tw_name : ∀ i p, procs t !! i = Some p → name_ok (p_name p)
}.

(** ** The searches *)

Lemma proc_at_wf t i : tab_wf t → 0 <= i < 16 → ∃ p, proc_at t i = Some p ∧ procs t !! Z.to_nat i = Some p.
Proof.
  intros Hw Hi. destruct (lookup_lt_is_Some_2 (procs t) (Z.to_nat i)) as [p Hp];
    [rewrite (tw_len _ Hw); lia|]. by exists p.
Qed.

Lemma proc_set_at t i f p : procs t !! i = Some p →
  proc_set (Z.of_nat i) f t = Some (mkTab (<[i := f p]> (procs t)) (current t) (next_pid t)).
Proof. intros Hp. unfold proc_set, proc_at. by rewrite Nat2Z.id, Hp. Qed.

(** A search for the first index that satisfies a test on the table. *)
Lemma search_spec {R} (t : proctab) lo hi (idx : Z → Z) (test : process → bool) (ret : Z → R) :
  tab_wf t → lo <= hi → (∀ i, lo <= i < hi → 0 <= idx i < 16) →
  ∃ o, loop_range lo hi (λ i _, p ← proc_at t (idx i);
         Some (if test p then inr (ret i) else inl ())) () = Some o ∧
    match o with
    | inr r => ∃ i p, lo <= i < hi ∧ r = ret i ∧ procs t !! Z.to_nat (idx i) = Some p ∧ test p = true ∧
        ∀ j q, lo <= j < i → procs t !! Z.to_nat (idx j) = Some q → test q = false
    | inl _ => ∀ j q, lo <= j < hi → procs t !! Z.to_nat (idx j) = Some q → test q = false
    end.
Proof.
  intros Hw Hlh Hidx.
  destruct (loop_range_ind
    (λ i _, ∀ j q, lo <= j < i → procs t !! Z.to_nat (idx j) = Some q → test q = false)
    (λ r, ∃ i p, lo <= i < hi ∧ r = ret i ∧ procs t !! Z.to_nat (idx i) = Some p ∧ test p = true ∧
        ∀ j q, lo <= j < i → procs t !! Z.to_nat (idx j) = Some q → test q = false)
    (λ i _, p ← proc_at t (idx i); Some (if test p then inr (ret i) else inl ()))
    lo hi ()) as (o & Ho & HQ); [lia|lia| |by exists o].
  intros i [] Hi HI. destruct (proc_at_wf t (idx i) Hw (Hidx i Hi)) as (p & -> & Hp). simpl.
  eexists. split; [done|]. destruct (test p) eqn:Ht; [by eauto 10|].
  intros j q Hj Hq. destruct (Z.eq_dec j i) as [->|]; [by simplify_eq|]. eapply HI; [|done]. lia.
Qed.

Lemma find_start_spec c : (c < 16)%nat → find_start c = Some (Z.of_nat c).
Proof.
  intros Hc. unfold find_start.
  destruct (loop_range_ind (R := Z) (λ i _, i <= Z.of_nat c) (λ r, r = Z.of_nat c)
    (λ i _, Some (if i =? Z.of_nat c then inr i else inl ())) 0 16 ()) as (o & -> & HQ); [lia|lia| |].
  - intros i [] Hi Hle. eexists. split; [done|]. destruct (Z.eqb_spec i (Z.of_nat c)); [done|]. lia.
  - simpl. destruct o as [[]|r]; [lia|by subst].
Qed.

(** [next_after t c d i]: [i] is the first READY slot after [c], at distance
    [d] round the table. *)
Record next_after (t : proctab) (c : nat) (d : Z) (i : nat) : Prop := {
  na_dist : 1 <= d <= 16;
  na_index : Z.of_nat i = (Z.of_nat c + d) mod 16;
  na_ready : ready_at t i;
  na_first : ∀ d' j, 1 <= d' < d → Z.of_nat j = (Z.of_nat c + d') mod 16 → ¬ ready_at t j
}.

Lemma find_next_spec t c : tab_wf t → (c < 16)%nat →
  (∃ d i, find_next t (Z.of_nat c) = Some (Some (Z.of_nat i)) ∧ next_after t c d i) ∨
  find_next t (Z.of_nat c) = Some None ∧ ∀ i, ¬ ready_at t i.
Proof.
  intros Hw Hc. unfold find_next. cbv zeta. change (MAX_PROCESSES + 1) with 17.
  destruct (search_spec t 1 17 (λ i, (Z.of_nat c +ᵤ i) mod 16)
    (λ p, state p =? PROC_STATE_READY) (λ i, (Z.of_nat c +ᵤ i) mod 16) Hw)
    as (o & -> & Ho); [lia|intros; apply Z.mod_pos_bound; lia|]. simpl.
  assert (∀ i, 1 <= i < 17 → (Z.of_nat c +ᵤ i) = Z.of_nat c + i) as Hu by (intros; apply u32_small; lia).
  destruct o as [[]|r].
  - right. split; [done|]. intros i (p & Hp & Hr).
    pose proof (lookup_lt_Some _ _ _ Hp) as Hi. rewrite (tw_len _ Hw) in Hi.
    set (d := (Z.of_nat i - Z.of_nat c - 1) mod 16 + 1).
    specialize (Ho d p ltac:(subst d; word_lia)). rewrite Hu in Ho by (subst d; word_lia).
    replace (Z.to_nat ((Z.of_nat c + d) mod 16)) with i in Ho by (subst d; word_lia).
    specialize (Ho Hp). unfold ready in Hr. rewrite Hr in Ho. done.
  - left. destruct Ho as (d & p & Hd & -> & Hp & Ht & Hfirst). rewrite Hu in * by lia.
    exists d, (Z.to_nat ((Z.of_nat c + d) mod 16)). split; [do 2 f_equal; word_lia|]. split.
    + lia.
    + word_lia.
    + exists p. split; [done|]. by apply Z.eqb_eq.
    + intros d' j Hd' Hj (q & Hq & Hr). specialize (Hfirst d' q ltac:(lia)). rewrite Hu, <- Hj, Nat2Z.id in Hfirst by lia.
      specialize (Hfirst Hq). unfold ready in Hr. rewrite Hr in Hfirst. done.
Qed.

(** ** One call of schedule *)

(** What the old process keeps: READY if it was running, DEAD if it exited. *)
Definition demote (p : process) : process :=
  if state p =? PROC_STATE_RUNNING then set_state PROC_STATE_READY p else p.

(** The table after a switch from slot [c] to slot [i]. *)
Record switched (t : proctab) (saved : Z) (c i : nat) (t' : proctab) : Prop := {
  sw_length : length (procs t') = length (procs t);
  sw_current : current t' = Some i;
  sw_next : next_pid t' = next_pid t;
  sw_old : ∀ p, procs t !! c = Some p → procs t' !! c = Some (set_esp saved (demote p));
  sw_new : ∀ p, procs t !! i = Some p → procs t' !! i = Some (set_state PROC_STATE_RUNNING p);
  sw_rest : ∀ k, k ≠ c → k ≠ i → procs t' !! k = procs t !! k
}.

Lemma next_not_current t c d i : tab_wf t → current t = Some c → next_after t c d i → i ≠ c.
Proof.
  intros Hw Hc Hn ->. destruct (tw_current _ Hw _ Hc) as (p & Hp & Hnr).
  destruct (na_ready _ _ _ _ Hn) as (q & Hq & Hr). by simplify_eq.
Qed.

Lemma schedule_spec saved t c : tab_wf t → current t = Some c →
  (∃ d i p t', next_after t c d i ∧ procs t !! i = Some p ∧ switched t saved c i t' ∧
     schedule saved t = Some (t', Some (mkSwitch (kernel_stack_top p) c (esp p) (page_dir_phys p)))) ∨
  (∀ i, ¬ ready_at t i) ∧ schedule saved t = Some (t, None).
Proof.
  intros Hw Hc. destruct (tw_current _ Hw _ Hc) as (old & Hold & _).
  assert (c < 16)%nat as Hlt by (rewrite <- (tw_len _ Hw); by eapply lookup_lt_Some).
  unfold schedule. rewrite Hc, find_start_spec, bind_Some by done.
  destruct (find_next_spec t c Hw Hlt) as [(d & i & -> & Hn)|[-> Hno]]; [left|by right].
  pose proof (next_not_current _ _ _ _ Hw Hc Hn) as Hne.
  destruct (na_ready _ _ _ _ Hn) as (p & Hp & _). pose proof (lookup_lt_Some _ _ _ Hp).
  pose proof (lookup_lt_Some _ _ _ Hold).
  rewrite !bind_Some, Hold, bind_Some.
  set (t1 := mkTab (<[c := demote old]> (procs t)) (current t) (next_pid t)).
  assert ((if state old =? PROC_STATE_RUNNING
           then proc_set (Z.of_nat c) (set_state PROC_STATE_READY) t else Some t) = Some t1) as ->.
  { subst t1. unfold demote. destruct (state old =? PROC_STATE_RUNNING); [by apply proc_set_at|].
    rewrite list_insert_id by done. by destruct t. }
  rewrite bind_Some, (proc_set_at t1 i _ p) by (subst t1; simpl; by rewrite list_lookup_insert_ne by done).
  unfold proc_at. simpl. rewrite Nat2Z.id, list_lookup_insert_eq by (by rewrite length_insert). simpl.
  rewrite (proc_set_at _ c _ (demote old))
    by (simpl; rewrite list_lookup_insert_ne, list_lookup_insert_eq by done; done).
  simpl. eexists d, i, p, _. split; [done|]. split; [done|]. split; [|reflexivity].
  split; simpl; rewrite ?length_insert; try done.
  - intros p' Hp'. simplify_eq. by rewrite list_lookup_insert_eq by (by rewrite !length_insert).
  - intros p' Hp'. simplify_eq. rewrite list_lookup_insert_ne by done.
    by rewrite list_lookup_insert_eq by (by rewrite length_insert).
  - intros k Hkc Hki. by rewrite !list_lookup_insert_ne by done.
Qed.

(** A change of the table that keeps pids, names and who is alive. *)
Lemma switched_wf t saved c d i t' : tab_wf t → current t = Some c → next_after t c d i →
  switched t saved c i t' → tab_wf t'.
Proof.
  intros Hw Hc Hn Hs. pose proof (next_not_current _ _ _ _ Hw Hc Hn) as Hne.
  destruct (tw_current _ Hw _ Hc) as (old & Hold & Holdr).
  destruct (na_ready _ _ _ _ Hn) as (nxt & Hnxt & Hr).
  assert (∀ k p', procs t' !! k = Some p' → ∃ p, procs t !! k = Some p ∧ pid p' = pid p ∧
    (alive p' → alive p) ∧ 0 <= state p' <= 2 ∧ p_name p' = p_name p ∧
    (state p' = PROC_STATE_RUNNING → k = i)) as Hback.
  { intros k p' Hk. destruct (decide (k = c)) as [->|].
    - rewrite (sw_old _ _ _ _ _ Hs _ Hold) in Hk. simplify_eq. exists old. split; [done|].
      pose proof (tw_state _ Hw _ _ Hold). unfold demote, alive. destruct (Z.eqb_spec (state old) 2); simpl;
        split_and!; try done; try lia.
    - destruct (decide (k = i)) as [->|].
      + rewrite (sw_new _ _ _ _ _ Hs _ Hnxt) in Hk. simplify_eq. exists nxt. unfold alive, ready in *. simpl.
        split_and!; try done; lia.
      + rewrite (sw_rest _ _ _ _ _ Hs) in Hk by done. exists p'. pose proof (tw_state _ Hw _ _ Hk).
        split_and!; try done; try lia. intros Hrun. pose proof (tw_running _ Hw _ _ Hk Hrun). congruence. }
  split.
  - rewrite (sw_length _ _ _ _ _ Hs). by apply tw_len.
  - intros k p' Hk. by destruct (Hback _ _ Hk) as (p & _ & _ & _ & ? & _).
  - intros k p' Hk Hrun. destruct (Hback _ _ Hk) as (p & _ & _ & _ & _ & _ & Hki).
    rewrite (sw_current _ _ _ _ _ Hs). by rewrite Hki.
  - intros k Hk. rewrite (sw_current _ _ _ _ _ Hs) in Hk. simplify_eq.
    eexists. split; [by apply (sw_new _ _ _ _ _ Hs)|]. unfold ready. simpl. lia.
  - intros k p' Hk Ha. destruct (Hback _ _ Hk) as (p & Hp & -> & Hal & _).
    rewrite (sw_next _ _ _ _ _ Hs). eapply (tw_pid _ Hw); eauto.
  - intros k j p q Hk Hj Ha Hb Heq. destruct (Hback _ _ Hk) as (p1 & Hp1 & E1 & Ha1 & _).
    destruct (Hback _ _ Hj) as (q1 & Hq1 & E2 & Hb1 & _).
    eapply (tw_pids _ Hw); eauto. congruence.
  - intros k p' Hk. destruct (Hback _ _ Hk) as (p & Hp & _ & _ & _ & -> & _). by eapply (tw_name _ Hw).
Qed.

(** ** Life of the table: create, exit, tick *)

(** The current process runs: it makes the system calls, and a tick in ring 3
    interrupts it.  (After the last process has exited, the kernel halts with
    interrupts off and nothing happens any more.) *)
Definition on_cpu (t : proctab) : Prop :=
  ∀ c p, current t = Some c → procs t !! c = Some p → state p = PROC_STATE_RUNNING.

(** The events that change the table: the start of the first process, a timer tick or a yield, SYS_EXIT, and
    process_create's last lines on a slot that was DEAD. *)
Inductive event := Start | Tick | Exit | Spawn.

Inductive tab_step : proctab → event → proctab → Prop :=
  | step_start t t' o : current t = None → scheduler_start t = Some (t', o) → tab_step t Start t'
  | step_tick saved t t' sw : on_cpu t → schedule saved t = Some (t', sw) → tab_step t Tick t'
  | step_exit saved t t1 t' sw : on_cpu t → exit_current t = Some t1 →
      schedule saved t1 = Some (t', sw) → tab_step t Exit t'
  | step_spawn slot sp dir kb kt nm t t' p : on_cpu t → proc_at t slot = Some p → 0 <= slot →
      state p = PROC_STATE_DEAD → (length nm <= 31)%nat → Forall (λ b, is_u8 b) nm → next_pid t < 4294967295 →
      proc_install slot sp dir kb kt nm t = Some t' → tab_step t Spawn t'.

Lemma exit_wf t t' : tab_wf t → exit_current t = Some t' →
  tab_wf t' ∧ current t' = current t ∧
  ∀ i, current t ≠ Some i → procs t' !! i = procs t !! i.
Proof.
  intros Hw He. unfold exit_current, process_current in He.
  destruct (current t) as [c|] eqn:Hc; [|done]. simpl in He.
  destruct (tw_current _ Hw _ Hc) as (p & Hp & Hnr). pose proof (lookup_lt_Some _ _ _ Hp).
  rewrite (proc_set_at _ _ _ _ Hp) in He. simplify_eq. simpl.
  split; [|split; [done|intros i Hi; apply list_lookup_insert_ne; congruence]].
  assert (∀ k q, <[c := set_state 0 p]> (procs t) !! k = Some q →
    (k ≠ c ∧ procs t !! k = Some q) ∨ (k = c ∧ q = set_state 0 p)) as Hback.
  { intros k q Hk. apply list_lookup_insert_Some in Hk as [(-> & <- & _)|[? ?]]; auto. }
  split; simpl.
  - rewrite length_insert. by apply tw_len.
  - intros k q Hk. destruct (Hback _ _ Hk) as [[_ Hq]|[_ ->]]; [by eapply (tw_state _ Hw)|simpl; lia].
  - intros k q Hk Hrun. destruct (Hback _ _ Hk) as [[_ Hq]|[_ ->]]; [|done].
    by eapply (tw_running _ Hw).
  - intros c' Hc'. assert (c' = c) as -> by congruence. exists (set_state 0 p).
    by rewrite list_lookup_insert_eq by done.
  - intros k q Hk Ha. destruct (Hback _ _ Hk) as [[_ Hq]|[_ ->]]; [by eapply (tw_pid _ Hw)|done].
  - intros k j q r Hk Hj Ha Hb Heq. destruct (Hback _ _ Hk) as [[_ Hq]|[_ ->]]; [|done].
    destruct (Hback _ _ Hj) as [[_ Hr]|[_ ->]]; [|done]. by eapply (tw_pids _ Hw).
  - intros k q Hk. destruct (Hback _ _ Hk) as [[_ Hq]|[_ ->]]; [by eapply (tw_name _ Hw)|].
    simpl. by eapply (tw_name _ Hw).
Qed.

Lemma install_spec slot sp dir kb kt nm t t' p : tab_wf t → on_cpu t →
  proc_at t slot = Some p → 0 <= slot →
  state p = PROC_STATE_DEAD → (length nm <= 31)%nat → Forall (λ b, is_u8 b) nm → next_pid t < 4294967295 → 0 < next_pid t →
  proc_install slot sp dir kb kt nm t = Some t' →
  tab_wf t' ∧ current t' = current t ∧ next_pid t' = next_pid t + 1 ∧
  procs t' = <[Z.to_nat slot := mkProc (next_pid t) PROC_STATE_READY sp dir kb kt
                                  (nm ++ 0 :: drop (S (length nm)) (p_name p))]> (procs t).
Proof.
  intros Hw Hon Hp Hs Hd Hnm Hu8 Hpid Hpos Hi. unfold proc_at in Hp. unfold proc_install in Hi.
  rewrite <- (Z2Nat.id slot Hs) in Hi. rewrite (proc_set_at _ _ _ p) in Hi by done. simpl in Hi.
  rewrite u32_small in Hi by lia. simplify_eq. simpl. split; [|done].
  set (new := mkProc _ _ _ _ _ _ _). set (s := Z.to_nat slot) in *.
  pose proof (lookup_lt_Some _ _ _ Hp).
  assert (∀ k q, <[s := new]> (procs t) !! k = Some q →
    (k ≠ s ∧ procs t !! k = Some q) ∨ (k = s ∧ q = new)) as Hback.
  { intros k q Hk. apply list_lookup_insert_Some in Hk as [(-> & <- & _)|[? ?]]; auto. }
  split; simpl.
  - rewrite length_insert. by apply tw_len.
  - intros k q Hk. destruct (Hback _ _ Hk) as [[_ Hq]|[_ ->]]; [by eapply (tw_state _ Hw)|simpl; lia].
  - intros k q Hk Hrun. destruct (Hback _ _ Hk) as [[_ Hq]|[_ ->]]; [by eapply (tw_running _ Hw)|done].
  - intros c Hc. destruct (tw_current _ Hw _ Hc) as (q & Hq & Hnr). exists q. split; [|done].
    rewrite list_lookup_insert_ne; [done|]. intros Hcs. rewrite <- Hcs in Hc.
    by rewrite (Hon _ _ Hc Hp) in Hd.
  - intros k q Hk Ha. destruct (Hback _ _ Hk) as [[_ Hq]|[_ ->]]; [|simpl; lia].
    pose proof (tw_pid _ Hw _ _ Hq Ha). lia.
  - intros k j q r Hk Hj Ha Hb Heq.
    destruct (Hback _ _ Hk) as [[_ Hq]|[-> ->]], (Hback _ _ Hj) as [[_ Hr]|[-> ->]]; simpl in Heq.
    + by eapply (tw_pids _ Hw).
    + pose proof (tw_pid _ Hw _ _ Hq Ha). lia.
    + pose proof (tw_pid _ Hw _ _ Hr Hb). lia.
    + done.
  - intros k q Hk. destruct (Hback _ _ Hk) as [[_ Hq]|[_ ->]]; [by eapply (tw_name _ Hw)|]. simpl.
    destruct (tw_name _ Hw _ _ Hp) as [Hl Hb]. split.
    + rewrite length_app. simpl. rewrite length_drop, Hl. lia.
    + apply Forall_app. split; [done|]. constructor; [lia|]. by apply Forall_drop.
Qed.

Lemma schedule_wf saved t t' sw : tab_wf t → schedule saved t = Some (t', sw) →
  tab_wf t' ∧ next_pid t' = next_pid t.
Proof.
  intros Hw Hs. destruct (current t) as [c|] eqn:Hc.
  - destruct (schedule_spec saved t c Hw Hc) as [(d & i & p & t1 & Hn & Hp & Hsw & Heq)|[_ Heq]];
      rewrite Heq in Hs; simplify_eq; [|done].
    split; [by eapply switched_wf|by apply Hsw].
  - unfold schedule in Hs. rewrite Hc in Hs. by simplify_eq.
Qed.

(** ** process_init, the queries and the first process *)

Lemma process_init_spec t : length (procs t) = 16%nat → (∀ p, p ∈ procs t → name_ok (p_name p)) →
  ∃ t', process_init t = Some t' ∧ tab_wf t' ∧ current t' = None ∧ next_pid t' = next_pid t ∧
        ∀ i p, procs t' !! i = Some p → state p = PROC_STATE_DEAD ∧ pid p = 0.
Proof.
  intros Hlen Hnm. unfold process_init.
  destruct (for_range_ind (λ i t', length (procs t') = 16%nat ∧ next_pid t' = next_pid t ∧
      (∀ k p, procs t' !! k = Some p → name_ok (p_name p) ∧
         (Z.of_nat k < i → state p = PROC_STATE_DEAD ∧ pid p = 0)))
    (λ i t, t ← proc_set i (set_state PROC_STATE_DEAD) t; proc_set i (set_pid 0) t) 0 16 t)
    as (t' & -> & Hl & Hn & Hk); [lia| | |].
  - split; [done|]. split; [done|]. intros k p Hk. split; [|lia]. apply Hnm. by eapply list_elem_of_lookup_2.
  - intros j t1 Hj (Hl & Hn & Hk). destruct (lookup_lt_is_Some_2 (procs t1) (Z.to_nat j)) as [p Hp]; [lia|].
    rewrite <- (Z2Nat.id j) by lia. rewrite (proc_set_at _ _ _ _ Hp), bind_Some.
    rewrite (proc_set_at _ _ _ (set_state 0 p)) by (simpl; by rewrite list_lookup_insert_eq by lia).
    eexists. split; [done|]. simpl. rewrite !length_insert. split; [done|]. split; [done|].
    rewrite list_insert_insert_eq. intros k q Hq.
    apply list_lookup_insert_Some in Hq as [(-> & <- & _)|[Hne Hq]].
    + simpl. split; [by eapply Hk|done].
    + destruct (Hk _ _ Hq) as [? Hd]. split; [done|]. intros. apply Hd. lia.
  - rewrite bind_Some. eexists. split; [done|]. simpl.
    assert (∀ k p, procs t' !! k = Some p → state p = PROC_STATE_DEAD ∧ pid p = 0) as Hdead.
    { intros k p Hp. apply (Hk _ _ Hp). apply lookup_lt_Some in Hp. lia. }
    split; [|done]. split; simpl; try done.
    + intros k p Hp. destruct (Hdead _ _ Hp). lia.
    + intros k p Hp Hr. destruct (Hdead _ _ Hp). lia.
    + intros k p Hp Ha. destruct (Hdead _ _ Hp). by destruct Ha.
    + intros k j p q Hp _ Ha. destruct (Hdead _ _ Hp). by destruct Ha.
    + intros k p Hp. by apply (Hk _ _ Hp).
Qed.

Lemma process_is_alive_spec t n : tab_wf t →
  process_is_alive t n = Some (if bool_decide (Exists (λ p, pid p = n ∧ state p ≠ PROC_STATE_DEAD) (procs t)) then 1 else 0).
Proof.
  intros Hw. unfold process_is_alive.
  destruct (search_spec t 0 16 (λ i, i)
    (λ p, (pid p =? n) && negb (state p =? PROC_STATE_DEAD)) (λ _, 1) Hw) as (o & -> & Ho); [lia|lia|].
  simpl. destruct o as [[]|r].
  - rewrite bool_decide_false; [done|]. intros Hex. apply Exists_exists in Hex as (p & Hp & Hpid & Hst).
    apply list_elem_of_lookup in Hp as [i Hp]. pose proof (lookup_lt_Some _ _ _ Hp) as Hi.
    rewrite (tw_len _ Hw) in Hi. specialize (Ho (Z.of_nat i) p ltac:(lia)).
    rewrite Nat2Z.id in Ho. specialize (Ho Hp). zcase_in Ho; [|done]. simpl in Ho. zcase_in Ho; done.
  - destruct Ho as (i & p & _ & -> & Hp & Ht & _). rewrite bool_decide_true; [done|].
    apply Exists_exists. exists p. split; [by eapply list_elem_of_lookup_2|].
    apply andb_prop in Ht as [H1 H2]. apply Z.eqb_eq in H1. split; [done|].
    intros Heq. rewrite Heq in H2. done.
Qed.

(** The 40 bytes of a [struct proc_info]. *)
Definition info_bytes (p : process) : list Z := le_bytes (pid p) ++ le_bytes (state p) ++ p_name p.

Lemma write_name cr3 m a nm : length nm = 32%nat →
  for_range 0 PROC_NAME_MAX (λ k m, b ← nm !! Z.to_nat k; kst8 cr3 m (a + k) b) m = kwrite cr3 m a nm.
Proof.
  intros Hlen. rewrite (kwrite_for cr3 m (λ k, a + k) a nm) by (done || lia). by rewrite take_ge by lia.
Qed.

Lemma write_info_kwrite cr3 m a p : name_ok (p_name p) →
  write_info cr3 m a p = kwrite cr3 m a (info_bytes p).
Proof.
  intros [Hl _]. unfold write_info, info_bytes. rewrite kwrite_app, kst32_kwrite.
  destruct (kwrite cr3 m a (le_bytes (pid p))) as [m1|]; [|done]. rewrite !bind_Some.
  change (Z.of_nat (length (le_bytes (pid p)))) with 4.
  rewrite kwrite_app, kst32_kwrite. destruct (kwrite cr3 m1 (a + 4) (le_bytes (state p))) as [m2|]; [|done].
  rewrite !bind_Some. change (Z.of_nat (length (le_bytes (state p)))) with 4.
  replace (a + 4 + 4) with (a + 8) by lia. by apply write_name.
Qed.

Lemma info_bytes_ok p : name_ok (p_name p) →
  length (info_bytes p) = 40%nat ∧ Forall (λ b, is_u8 b) (info_bytes p).
Proof.
  intros [Hl Hb]. unfold info_bytes. split.
  - rewrite !length_app, Hl. done.
  - rewrite !Forall_app. split_and!; [apply le_bytes_u8..|done].
Qed.

(** The processes that are not DEAD, in the order of the table. *)
Definition live (ps : list process) : list process :=
  filter (λ p, state p ≠ PROC_STATE_DEAD) ps.

Lemma infos_length ps : Forall (λ p, name_ok (p_name p)) ps →
  Z.of_nat (length (ps ≫= info_bytes)) = 40 * Z.of_nat (length ps).
Proof.
  induction 1 as [|p ps Hp _ IH]; [done|]. rewrite bind_cons, length_app.
  rewrite (proj1 (info_bytes_ok p Hp)). simpl length. lia.
Qed.

(** What the loop has written after [i] slots: the live ones of them, [n] at
    most. *)
Definition shown (n i : nat) (ps : list process) : list process := take n (live (take i ps)).

Lemma shown_length n i ps : (length (shown n i ps) <= length (take n (live ps)))%nat.
Proof.
  unfold shown. rewrite <- (take_drop i ps) at 2. unfold live. rewrite filter_app, !length_take, length_app. lia.
Qed.

Lemma shown_full n i j ps : (i <= j)%nat → (n <= length (shown n i ps))%nat → shown n j ps = shown n i ps.
Proof.
  unfold shown. intros Hij Hn. rewrite <- (take_drop i (take j ps)) at 1. rewrite take_take, Nat.min_l by lia.
  unfold live at 1. rewrite filter_app. apply take_app_le. rewrite length_take in Hn. unfold live in *. lia.
Qed.

Lemma shown_next n i ps p : ps !! i = Some p → (length (shown n i ps) < n)%nat →
  shown n (S i) ps = shown n i ps ++ if state p =? PROC_STATE_DEAD then [] else [p].
Proof.
  intros Hp Hn. unfold shown in *. rewrite (take_S_r _ _ _ Hp). rewrite length_take in Hn.
  assert (live (take i ps ++ [p]) = live (take i ps) ++ live [p]) as -> by apply filter_app.
  destruct (Z.eqb_spec (state p) PROC_STATE_DEAD) as [Hd|Ha].
  - assert (live [p] = []) as -> by (unfold live; by rewrite filter_cons_False by (rewrite Hd; lia)). by rewrite !app_nil_r.
  - assert (live [p] = [p]) as -> by (unfold live; by rewrite filter_cons_True).
    rewrite (take_ge (_ ++ [p])), (take_ge (live _)); rewrite ?length_app; [done|simpl; lia..].
Qed.

Lemma shown_names n i t : tab_wf t → Forall (λ p, name_ok (p_name p)) (shown n i (procs t)).
Proof.
  intros Hw. apply Forall_take, Forall_forall. intros p Hp. apply list_elem_of_filter in Hp as [_ Hp].
  apply list_elem_of_lookup in Hp as [k Hk]. apply lookup_take_Some in Hk as [Hk _]. by eapply (tw_name _ Hw).
Qed.

Lemma process_get_info_spec cr3 m t buf max phi :
  let out := take (Z.to_nat max) (live (procs t)) in
  let size := 40 * Z.of_nat (length out) in
  tab_wf t → vmapped cr3 (within buf size) phi m → 0 <= buf → buf + size <= 4294967296 →
  ∃ m', process_get_info cr3 m t buf max = Some (Z.of_nat (length out), m') ∧
        bytes_at cr3 m' buf (out ≫= info_bytes) ∧
        changes_only (image (within buf size) phi) m m'.
Proof.
  intros last size Hw Hv Hb Hfit. unfold process_get_info. set (out i := shown (Z.to_nat max) i (procs t)).
  assert (out 16%nat = last) as Hlast by (unfold out, shown, last; by rewrite (take_ge (procs t)) by (rewrite (tw_len _ Hw); lia)).
  set (I := λ (o : list process) (s : mem * Z), s.2 = Z.of_nat (length o) ∧
     changes_only (image (within buf size) phi) m s.1 ∧ bytes_at cr3 s.1 buf (o ≫= info_bytes)).
  destruct (loop_range_ind (λ i s, I (out (Z.to_nat i)) s) (λ s, I (out 16%nat) s)
    (λ i s, let '(m, count) := s in
        if negb (count <? max) then Some (inr (m, count)) else
        p ← proc_at t i;
        if negb (state p =? PROC_STATE_DEAD) then
          m ← write_info cr3 m (buf +ᵤ 40 * count) p;
          Some (inl (m, count + 1))
        else Some (inl (m, count))) 0 16 (m, 0)) as (o & Ho & HQ); [lia| | |].
  - assert (out (Z.to_nat 0) = []) as -> by apply take_nil. done.
  - intros j [m1 count] Hj (Hcnt & Hc & Hbytes); simpl in *.
    destruct (Z.ltb_spec count max) as [Hlt|Hge]; cbn [negb].
    2:{ eexists. split; [done|]. assert (out 16%nat = out (Z.to_nat j)) as ->; [|done]. apply shown_full; [lia|]. unfold out in Hcnt. lia. }
    destruct (proc_at_wf t j Hw ltac:(lia)) as (p & -> & Hp). rewrite bind_Some.
    assert (out (Z.to_nat (j + 1)) = out (Z.to_nat j) ++ if state p =? PROC_STATE_DEAD then [] else [p]) as Hout.
    { replace (Z.to_nat (j + 1)) with (S (Z.to_nat j)) by lia. apply (shown_next (Z.to_nat max) _ _ _ Hp). unfold out in Hcnt. lia. }
    destruct (state p =? PROC_STATE_DEAD); cbn [negb]; [eexists; split; [done|]; by rewrite Hout, app_nil_r|].
    destruct (info_bytes_ok p (tw_name _ Hw _ _ Hp)) as [Hil Hiu].
    pose proof (shown_length (Z.to_nat max) (Z.to_nat (j + 1)) (procs t)) as Hroom. fold (out (Z.to_nat (j + 1))) in Hroom. fold last in Hroom.
    rewrite Hout, length_app in Hroom. cbn [length] in Hroom.
    rewrite u32_small, write_info_kwrite by (apply (tw_name _ Hw _ _ Hp) || lia).
    destruct (kwrite_vmapped cr3 (within buf size) phi m1 (buf + 40 * count) (info_bytes p))
      as (m2 & -> & Hc2 & Hb2 & Ho2); [by eapply vmapped_changes|rewrite Hil; unfold within; lia|done|].
    rewrite bind_Some. eexists. split; [done|]. rewrite Hout. split; [|split]; simpl.
    + rewrite length_app. simpl. lia.
    + by eapply changes_only_trans.
    + rewrite bind_app, bind_cons. simpl. rewrite app_nil_r. apply bytes_at_app. pose proof (infos_length _ (shown_names (Z.to_nat max) (Z.to_nat j) t Hw)) as Hl.
      fold (out (Z.to_nat j)) in Hl. rewrite Hl, <- Hcnt. split; [|done].
      intros i b Hi. pose proof (lookup_lt_Some _ _ _ Hi) as Hlt'. rewrite Hil in Ho2. rewrite Ho2 by (unfold within; lia). by apply Hbytes.
  - rewrite Ho. simpl. assert (I last (match o with inl s => s | inr s => s end)) as HI by (rewrite <- Hlast; by destruct o).
    destruct (match o with inl s => s | inr s => s end) as [m' count]. destruct HI as (Hcnt & Hc & Hbytes).
    simpl in *. rewrite Hcnt. exists m'. done.
Qed.

Lemma scheduler_start_spec t : tab_wf t → current t = None →
  (∃ i p, procs t !! i = Some p ∧ ready p ∧ (∀ k, (k < i)%nat → ¬ ready_at t k) ∧
     scheduler_start t = Some (mkTab (<[i := set_state PROC_STATE_RUNNING p]> (procs t)) (Some i) (next_pid t),
       Some (kernel_stack_top p, esp p, page_dir_phys p))) ∨
  (∀ i, ¬ ready_at t i) ∧ scheduler_start t = Some (t, None).
Proof.
  intros Hw Hc. unfold scheduler_start.
  destruct (search_spec t 0 16 (λ i, i) (λ p, state p =? PROC_STATE_READY) (λ i, i) Hw)
    as (o & -> & Ho); [lia|lia|]. rewrite bind_Some. destruct o as [[]|r].
  - right. split; [|done]. intros i (p & Hp & Hr). pose proof (lookup_lt_Some _ _ _ Hp) as Hi.
    rewrite (tw_len _ Hw) in Hi. specialize (Ho (Z.of_nat i) p ltac:(lia)). rewrite Nat2Z.id in Ho.
    specialize (Ho Hp). unfold ready in Hr. by rewrite Hr in Ho.
  - left. destruct Ho as (i & p & Hi & -> & Hp & Ht & Hfirst). apply Z.eqb_eq in Ht.
    exists (Z.to_nat i), p. split; [done|]. split; [done|]. split.
    + intros k Hk (q & Hq & Hr). specialize (Hfirst (Z.of_nat k) q ltac:(lia)). rewrite Nat2Z.id in Hfirst.
      specialize (Hfirst Hq). unfold ready in Hr. by rewrite Hr in Hfirst.
    + pose proof (lookup_lt_Some _ _ _ Hp). rewrite <- (Z2Nat.id i) at 1 by lia.
      rewrite (proc_set_at _ _ _ _ Hp), bind_Some. unfold proc_at. simpl.
      rewrite list_lookup_insert_eq by done. done.
Qed.

Lemma start_wf t t' o : tab_wf t → current t = None → scheduler_start t = Some (t', o) →
  tab_wf t' ∧ next_pid t' = next_pid t.
Proof.
  intros Hw Hc Hs. destruct (scheduler_start_spec t Hw Hc) as [(i & p & Hp & Hr & _ & Heq)|[_ Heq]];
    rewrite Heq in Hs; simplify_eq; [|done]. split; [|done].
  pose proof (lookup_lt_Some _ _ _ Hp).
  assert (∀ k q, <[i := set_state PROC_STATE_RUNNING p]> (procs t) !! k = Some q →
    ∃ q', procs t !! k = Some q' ∧ pid q = pid q' ∧ p_name q = p_name q' ∧ 0 <= state q <= 2 ∧
      (alive q → alive q') ∧ (state q = PROC_STATE_RUNNING → k = i)) as Hback.
  { intros k q Hk. apply list_lookup_insert_Some in Hk as [(-> & <- & _)|[Hne Hk]].
    - exists p. unfold alive, ready in *. simpl. split_and!; try done; lia.
    - exists q. pose proof (tw_state _ Hw _ _ Hk). split_and!; try done; try lia.
      intros Hrun. pose proof (tw_running _ Hw _ _ Hk Hrun). congruence. }
  split; simpl.
  - rewrite length_insert. by apply tw_len.
  - intros k q Hk. by destruct (Hback _ _ Hk) as (q' & _ & _ & _ & ? & _).
  - intros k q Hk Hrun. destruct (Hback _ _ Hk) as (q' & _ & _ & _ & _ & _ & Hki). by rewrite Hki.
  - intros c [= <-]. eexists. split; [by apply list_lookup_insert_eq|]. unfold ready. simpl. lia.
  - intros k q Hk Ha. destruct (Hback _ _ Hk) as (q' & Hq' & -> & _ & _ & Hal & _). eapply (tw_pid _ Hw); eauto.
  - intros k j q r Hk Hj Ha Hb Heq'. destruct (Hback _ _ Hk) as (q1 & Hq1 & E1 & _ & _ & Ha1 & _).
    destruct (Hback _ _ Hj) as (r1 & Hr1 & E2 & _ & _ & Hb1 & _). eapply (tw_pids _ Hw); eauto. congruence.
  - intros k q Hk. destruct (Hback _ _ Hk) as (q' & Hq' & _ & -> & _). by eapply (tw_name _ Hw).
Qed.

(** Every event keeps the invariant. *)
Lemma tab_step_wf t e t' : tab_wf t → 0 < next_pid t → tab_step t e t' → tab_wf t' ∧ 0 < next_pid t'.
Proof.
  intros Hw Hpos Hst. destruct Hst as [t t' o Hc Hs|saved t t' sw Hon Hs|saved t t1 t' sw Hon He Hs|
    slot sp dir kb kt nm t t' p Hon Hp Hsl Hd Hnm Hu8 Hpid Hi].
  - destruct (start_wf _ _ _ Hw Hc Hs) as [? ->]. done.
  - destruct (schedule_wf _ _ _ _ Hw Hs) as [? ->]. done.
  - destruct (exit_wf _ _ Hw He) as (Hw1 & _ & _). destruct (schedule_wf _ _ _ _ Hw1 Hs) as [? ->].
    split; [done|]. unfold exit_current, proc_set in He.
    destruct (process_current t); simpl in He; [|done]. destruct (proc_at t _); simpl in He; by simplify_eq.
  - destruct (install_spec _ _ _ _ _ _ _ _ _ Hw Hon Hp Hsl Hd Hnm Hu8 Hpid Hpos Hi) as (? & _ & -> & _).
    split; [done|lia].
Qed.

(** ** Fairness *)

(** How far slot [r] is after slot [c], round the table. *)
Definition turns (r c : nat) : Z := (Z.of_nat r - Z.of_nat c) mod 16.

(** One call of schedule that does not pick [r] brings its turn nearer. *)
Lemma schedule_turns saved t t' sw c r : tab_wf t → current t = Some c → ready_at t r →
  schedule saved t = Some (t', sw) → current t' ≠ Some r →
  ready_at t' r ∧ ∃ c', current t' = Some c' ∧ turns r c' < turns r c.
Proof.
  intros Hw Hc Hr Hs Hne. destruct (schedule_spec saved t c Hw Hc)
    as [(d & i & p & t1 & Hn & Hp & Hsw & Heq)|[Hno _]]; [|by destruct (Hno r)].
  rewrite Heq in Hs. simplify_eq. rewrite (sw_current _ _ _ _ _ Hsw) in *.
  destruct Hr as (q & Hq & Hrq). pose proof (lookup_lt_Some _ _ _ Hq) as Hr16.
  rewrite (tw_len _ Hw) in Hr16. destruct (tw_current _ Hw _ Hc) as (o & Ho & Hor).
  pose proof (lookup_lt_Some _ _ _ Ho) as Hc16. rewrite (tw_len _ Hw) in Hc16.
  assert (r ≠ c) as Hrc by (intros ->; by simplify_eq). assert (r ≠ i) as Hri by congruence.
  split; [exists q; by rewrite (sw_rest _ _ _ _ _ Hsw)|]. exists i. split; [done|].
  pose proof (na_dist _ _ _ _ Hn) as Hd. pose proof (na_index _ _ _ _ Hn) as Hi. unfold turns.
  destruct (decide (turns r c < d)) as [Hlt|Hge]; unfold turns in *.
  - exfalso. apply (na_first _ _ _ _ Hn ((Z.of_nat r - Z.of_nat c) mod 16) r); [word_lia|word_lia|by exists q].
  - assert (d ≠ (Z.of_nat r - Z.of_nat c) mod 16) by (intros ->; word_lia). word_lia.
Qed.

(** The scheduling decisions an event makes. *)
Definition quanta (e : event) : Z := match e with Tick | Exit => 1 | _ => 0 end.

Lemma step_turns t e t' c r : tab_wf t → 0 < next_pid t → current t = Some c → ready_at t r →
  tab_step t e t' → current t' ≠ Some r →
  ready_at t' r ∧ ∃ c', current t' = Some c' ∧ turns r c' + quanta e <= turns r c.
Proof.
  intros Hw Hpos Hc Hr Hst Hne. destruct Hst as [t t' o Hcn Hs|saved t t' sw Hon Hs|saved t t1 t' sw Hon He Hs|
    slot sp dir kb kt nm t t' p Hon Hp Hsl Hd Hnm Hu8 Hpid Hi]; simpl.
  - congruence.
  - destruct (schedule_turns _ _ _ _ _ _ Hw Hc Hr Hs Hne) as (? & c' & ? & ?). split; [done|].
    exists c'. split; [done|lia].
  - destruct (exit_wf _ _ Hw He) as (Hw1 & Hc1 & Hsame).
    assert (ready_at t1 r) as Hr1.
    { destruct Hr as (q & Hq & Hrq). exists q. rewrite Hsame; [done|]. intros Hcr.
      destruct (tw_current _ Hw _ Hcr) as (q' & Hq' & Hn). by simplify_eq. }
    rewrite <- Hc1 in Hc.
    destruct (schedule_turns _ _ _ _ _ _ Hw1 Hc Hr1 Hs Hne) as (? & c' & ? & ?). split; [done|].
    exists c'. split; [done|lia].
  - destruct (install_spec _ _ _ _ _ _ _ _ _ Hw Hon Hp Hsl Hd Hnm Hu8 Hpid Hpos Hi) as (_ & Hc' & _ & Hpr).
    split.
    + destruct Hr as (q & Hq & Hrq). exists q. rewrite Hpr, list_lookup_insert_ne; [done|].
      intros Heq. unfold proc_at in Hp. rewrite Heq in Hp. simplify_eq.
      unfold ready in Hrq. lia.
    + exists c. rewrite Hc'. split; [done|lia].
Qed.

(** A run in which slot [r] does not get the processor, with [n] scheduling
    decisions. *)
Inductive waits (r : nat) : Z → proctab → proctab → Prop :=
  | waits_now t : waits r 0 t t
  | waits_step e n t t1 t' : tab_step t e t1 → current t1 ≠ Some r → waits r n t1 t' →
      waits r (quanta e + n) t t'.

Lemma waits_turns r n t t' : waits r n t t' → ∀ c, tab_wf t → 0 < next_pid t →
  current t = Some c → ready_at t r → n < turns r c.
Proof.
  induction 1 as [t|e n t t1 t' Hst Hne Hw IH]; intros c Hwf Hpos Hc Hr.
  - destruct Hr as (q & Hq & Hrq). destruct (tw_current _ Hwf _ Hc) as (o & Ho & Hor).
    pose proof (lookup_lt_Some _ _ _ Hq) as H1. pose proof (lookup_lt_Some _ _ _ Ho) as H2.
    rewrite (tw_len _ Hwf) in *. assert (r ≠ c) by (intros ->; by simplify_eq).
    unfold turns. word_lia.
  - destruct (step_turns _ _ _ _ _ Hwf Hpos Hc Hr Hst Hne) as (Hr1 & c1 & Hc1 & Hle).
    destruct (tab_step_wf _ _ _ Hwf Hpos Hst) as [Hwf1 Hpos1].
    specialize (IH c1 Hwf1 Hpos1 Hc1 Hr1). lia.
Qed.

(** A sequence of events. *)
Inductive tab_run : proctab → list event → proctab → Prop :=
  | tab_run_nil t : tab_run t [] t
  | tab_run_cons t e t1 es t' : tab_step t e t1 → tab_run t1 es t' → tab_run t (e :: es) t'.

(** ** Properties *)

(** C18: from process_init on, whatever sequence of process creations, ticks,
    yields and exits follows, the table has at most one running process, the
    current one, and no two live processes have the same pid. *)
Theorem process_table_invariant t0 t es t' :
  length (procs t0) = 16%nat → (∀ p, p ∈ procs t0 → name_ok (p_name p)) → 0 < next_pid t0 →
  process_init t0 = Some t → tab_run t es t' →
  tab_wf t' ∧
  (∀ i j p q, procs t' !! i = Some p → procs t' !! j = Some q →
     state p = PROC_STATE_RUNNING → state q = PROC_STATE_RUNNING → i = j ∧ current t' = Some i).
Proof.
  intros Hl Hn Hpos Hi Hr. destruct (process_init_spec t0 Hl Hn) as (t1 & Heq & Hw & _ & Hnp & _).
  rewrite Heq in Hi. simplify_eq. rewrite <- Hnp in Hpos. clear Heq Hnp.
  assert (tab_wf t') as Hw'.
  { induction Hr as [|t e t1 es t' Hst _ IH]; [done|].
    destruct (tab_step_wf _ _ _ Hw Hpos Hst). by apply IH. }
  split; [done|]. intros i j p q Hp Hq Hrp Hrq.
  pose proof (tw_running _ Hw' _ _ Hp Hrp). pose proof (tw_running _ Hw' _ _ Hq Hrq).
  split; [congruence|done].
Qed.

(** C30: schedule picks the first READY process after the current one round
    the table: it becomes the running one, the old one becomes READY unless it
    has exited, its stack pointer is saved, and the TSS, the stack and the page
    directory handed over are the new process's; when no process is READY
    nothing changes. *)
Theorem schedule_round_robin saved t c : tab_wf t → current t = Some c →
  (∃ d i old new t', 1 <= d <= 15 ∧ Z.of_nat i = (Z.of_nat c + d) mod 16 ∧
     procs t !! c = Some old ∧ procs t !! i = Some new ∧ ready new ∧
     (∀ d' j, 1 <= d' < d → Z.of_nat j = (Z.of_nat c + d') mod 16 → ¬ ready_at t j) ∧
     schedule saved t =
       Some (t', Some (mkSwitch (kernel_stack_top new) c (esp new) (page_dir_phys new))) ∧
     current t' = Some i ∧ procs t' !! i = Some (set_state PROC_STATE_RUNNING new) ∧
     procs t' !! c = Some (set_esp saved (demote old)) ∧
     (∀ k, k ≠ c → k ≠ i → procs t' !! k = procs t !! k)) ∨
  (∀ i, ¬ ready_at t i) ∧ schedule saved t = Some (t, None).
Proof.
  intros Hw Hc. destruct (schedule_spec saved t c Hw Hc)
    as [(d & i & p & t' & Hn & Hp & Hs & Heq)|?]; [left|by right].
  destruct (tw_current _ Hw _ Hc) as (old & Hold & _).
  pose proof (next_not_current _ _ _ _ Hw Hc Hn). pose proof (na_dist _ _ _ _ Hn).
  pose proof (na_index _ _ _ _ Hn) as Hi. destruct (na_ready _ _ _ _ Hn) as (p' & Hp' & Hr).
  simplify_eq. exists d, i, old, p, t'.
  assert (d ≠ 16).
  { intros ->. apply lookup_lt_Some in Hold. rewrite (tw_len _ Hw) in Hold. word_lia. }
  split_and!; try done; try lia; try apply Hs; try done. by apply Hn.
Qed.

(** C17: a READY process gets the processor within 15 scheduling decisions,
    whatever processes are created, yield or exit meanwhile: a run in which it
    keeps waiting makes fewer decisions than its distance from the current
    process round the table. *)
Theorem scheduler_fairness r n t t' c : tab_wf t → 0 < next_pid t → current t = Some c →
  ready_at t r → waits r n t t' → n < turns r c ∧ n <= 14.
Proof.
  intros Hw Hpos Hc Hr Hwt. pose proof (waits_turns _ _ _ _ Hwt c Hw Hpos Hc Hr).
  split; [done|]. unfold turns in *. pose proof (Z.mod_pos_bound (Z.of_nat r - Z.of_nat c) 16). lia.
Qed.

(** Scheduler_start runs the first READY process of the table, with its
    kernel stack in the TSS, its saved stack pointer and its page directory,
    and keeps the invariant. *)
Theorem scheduler_start_correct t : tab_wf t → current t = None →
  (∃ i p t', procs t !! i = Some p ∧ ready p ∧ (∀ k, (k < i)%nat → ¬ ready_at t k) ∧
     scheduler_start t = Some (t', Some (kernel_stack_top p, esp p, page_dir_phys p)) ∧
     tab_wf t' ∧ current t' = Some i ∧ on_cpu t') ∨
  (∀ i, ¬ ready_at t i) ∧ scheduler_start t = Some (t, None).
Proof.
  intros Hw Hc. destruct (scheduler_start_spec t Hw Hc) as [(i & p & Hp & Hr & Hf & Heq)|?]; [left|by right].
  eexists i, p, _. split_and!; [done..|exact Heq| |done|].
  - by apply (start_wf _ _ _ Hw Hc Heq).
  - intros c q [= <-] Hq. simpl in Hq. pose proof (lookup_lt_Some _ _ _ Hp).
    rewrite list_lookup_insert_eq in Hq by done. by simplify_eq.
Qed.

(** process_get_info fills the caller's buffer with the pid, state and
    name of the first [max] live processes in the order of the table, returns
    how many, and writes nowhere else; process_is_alive answers 1 exactly for
    the pids of live processes. *)
Theorem process_queries_correct cr3 m t buf max phi :
  let size := 40 * Z.of_nat (length (take (Z.to_nat max) (live (procs t)))) in
  tab_wf t → vmapped cr3 (within buf size) phi m → 0 <= buf → buf + size <= 4294967296 →
  (∃ m', process_get_info cr3 m t buf max =
           Some (Z.of_nat (length (take (Z.to_nat max) (live (procs t)))), m') ∧
     bytes_at cr3 m' buf (take (Z.to_nat max) (live (procs t)) ≫= info_bytes) ∧
     changes_only (image (within buf size) phi) m m') ∧
  (∀ n, process_is_alive t n = Some 1 ↔ ∃ p, p ∈ live (procs t) ∧ pid p = n).
Proof.
  intros size Hw Hv Hb Hf. split; [by apply process_get_info_spec|]. intros n.
  rewrite (process_is_alive_spec t n Hw). unfold live. setoid_rewrite list_elem_of_filter.
  destruct (bool_decide_reflect (Exists (λ p, pid p = n ∧ state p ≠ 0) (procs t))) as [He|He].
  - rewrite Exists_exists in He. naive_solver.
  - rewrite Exists_exists in He. split; [done|]. naive_solver.
Qed.

(** ** Witnesses *)

(** The table at boot: zeros. *)
Definition boot_tab : proctab :=
  mkTab (replicate 16 (mkProc 0 0 0 0 0 0 (replicate 32 0))) None 1.

Lemma boot_tab_ok : length (procs boot_tab) = 16%nat ∧ (∀ p, p ∈ procs boot_tab → name_ok (p_name p)).
Proof.
  split; [done|]. intros p Hp. apply elem_of_replicate_inv in Hp as ->. split; [done|].
  by apply Forall_replicate.
Qed.

(** Two processes created and the first one started. *)
Definition init_tab : proctab := default boot_tab (process_init boot_tab).
Definition one_tab : proctab :=
  default boot_tab (proc_install 0 0x1FD4 0x2000 0x1000 0x2000 [115; 104] init_tab).
Definition two_tab : proctab :=
  default boot_tab (proc_install 1 0x9FD4 0xA000 0x9000 0xA000 [116] one_tab).
Definition example_tab : proctab := default boot_tab (fst <$> scheduler_start two_tab).

Lemma two_run : process_init boot_tab = Some init_tab ∧ tab_run init_tab [Spawn; Spawn] two_tab.
Proof.
  split; [vm_compute; reflexivity|].
  apply (tab_run_cons _ _ one_tab); [|apply (tab_run_cons _ _ two_tab); [|apply tab_run_nil]].
  - eapply (step_spawn 0 0x1FD4 0x2000 0x1000 0x2000 [115; 104]);
      [intros c p Hc; vm_compute in Hc; discriminate Hc|vm_compute; reflexivity|lia|vm_compute; reflexivity|
       simpl; lia|repeat constructor; lia|vm_compute; reflexivity|vm_compute; reflexivity].
  - eapply (step_spawn 1 0x9FD4 0xA000 0x9000 0xA000 [116]);
      [intros c p Hc; vm_compute in Hc; discriminate Hc|vm_compute; reflexivity|lia|vm_compute; reflexivity|
       simpl; lia|repeat constructor; lia|vm_compute; reflexivity|vm_compute; reflexivity].
Qed.

Lemma tab_run_snoc t es t1 e t' : tab_run t es t1 → tab_step t1 e t' → tab_run t (es ++ [e]) t'.
Proof.
  induction 1 as [t|t e1 t1 es t2 Hst _ IH]; intros He; cbn [app]; eapply tab_run_cons;
    [exact He|apply tab_run_nil|exact Hst|exact (IH He)].
Qed.

Lemma example_start : current two_tab = None ∧ scheduler_start two_tab = Some (example_tab, Some (0x2000, 0x1FD4, 0x2000)).
Proof. split; vm_compute; reflexivity. Qed.

Lemma example_run : process_init boot_tab = Some init_tab ∧
  tab_run init_tab [Spawn; Spawn; Start] example_tab.
Proof.
  destruct two_run as [Hi Hr]. destruct example_start as [Hc Hs]. split; [exact Hi|].
  exact (tab_run_snoc _ _ _ _ _ Hr (step_start _ _ _ Hc Hs)).
Qed.

Lemma tab_run_wf t es t' : tab_run t es t' → tab_wf t → 0 < next_pid t → tab_wf t' ∧ 0 < next_pid t'.
Proof.
  induction 1 as [|t e t1 es t' Hst _ IH]; intros Hw Hpos; [done|].
  destruct (tab_step_wf _ _ _ Hw Hpos Hst). by apply IH.
Qed.

Lemma init_tab_wf : tab_wf init_tab ∧ 0 < next_pid init_tab.
Proof.
  destruct two_run as (Hi & _). destruct boot_tab_ok as [Hl Hn].
  destruct (process_init_spec boot_tab Hl Hn) as (t1 & Heq & Hw & _ & Hnp & _).
  assert (t1 = init_tab) as -> by congruence. split; [exact Hw|]. rewrite Hnp. vm_compute. reflexivity.
Qed.

Lemma two_tab_wf : tab_wf two_tab ∧ 0 < next_pid two_tab.
Proof. destruct init_tab_wf as [Hw Hp]. exact (tab_run_wf _ _ _ (proj2 two_run) Hw Hp). Qed.

Lemma example_tab_wf : tab_wf example_tab.
Proof. destruct init_tab_wf as [Hw Hp]. exact (proj1 (tab_run_wf _ _ _ (proj2 example_run) Hw Hp)). Qed.

Lemma process_table_invariant_witness : tab_wf example_tab ∧ current example_tab = Some 0%nat.
Proof.
  split; [|vm_compute; reflexivity]. destruct example_run as (Hi & Hr). destruct boot_tab_ok as [Hl Hn].
  apply (process_table_invariant boot_tab init_tab [Spawn; Spawn; Start] example_tab Hl Hn);
    [reflexivity|exact Hi|exact Hr].
Defined.

Lemma example_switch : ∃ t' sw, schedule 0x1F00 example_tab = Some (t', Some sw) ∧
  current t' = Some 1%nat ∧ sw_cr3 sw = 0xA000.
Proof. do 2 eexists. split; [vm_compute; reflexivity|split; reflexivity]. Qed.

Lemma schedule_round_robin_witness :
  ∃ t' sw, schedule 0x1F00 example_tab = Some (t', Some sw) ∧ current t' = Some 1%nat ∧ sw_cr3 sw = 0xA000.
Proof.
  destruct (schedule_round_robin 0x1F00 example_tab 0 example_tab_wf ltac:(vm_compute; reflexivity))
    as [(d & i & old & new & t' & _ & _ & _ & _ & _ & _ & H & Hc & _)|[Hno _]].
  - destruct example_switch as (t1 & sw & Hv & Hrest). exists t'. eexists. split; [exact H|].
    rewrite H in Hv. injection Hv as Ht Hsw. rewrite Ht, Hsw. exact Hrest.
  - destruct (Hno 1%nat). eexists. split; vm_compute; reflexivity.
Defined.

(** Slot 1 waits while slot 0 creates a process. *)
Lemma scheduler_fairness_witness : ∃ t', waits 1 0 example_tab t' ∧ 0 < turns 1 0.
Proof.
  assert (waits 1 0 example_tab (default boot_tab (proc_install 2 0 0 0 0 [] example_tab))) as Hw.
  { apply (waits_step 1 Spawn 0 _ (default boot_tab (proc_install 2 0 0 0 0 [] example_tab)) _);
      [|vm_compute; discriminate|apply waits_now].
    eapply (step_spawn 2 0 0 0 0 []); [|vm_compute; reflexivity|lia|vm_compute; reflexivity|simpl; lia|
      constructor|vm_compute; reflexivity|vm_compute; reflexivity].
    intros c p Hc Hp. vm_compute in Hc. injection Hc as <-. vm_compute in Hp. by injection Hp as <-. }
  eexists. split; [exact Hw|].
  apply (scheduler_fairness 1 0 example_tab _ 0 example_tab_wf) in Hw as [Hlt _];
    [exact Hlt|vm_compute; reflexivity..|].
  eexists. split; vm_compute; reflexivity.
Defined.

Lemma scheduler_start_correct_witness : ∃ t t' o, scheduler_start t = Some (t', o) ∧ tab_wf t.
Proof.
  destruct boot_tab_ok as [Hl Hn]. destruct (process_init_spec boot_tab Hl Hn) as (t & _ & Hw & Hc & _).
  destruct (scheduler_start_correct t Hw Hc) as [(i & p & t' & _ & _ & _ & H & _)|[_ H]];
    exists t; do 2 eexists; (split; [exact H|exact Hw]).
Defined.

Lemma example_live : take (Z.to_nat 1) (live (procs example_tab)) =
  [mkProc 1 2 0x1FD4 0x2000 0x1000 0x2000 ([115; 104] ++ replicate 30 0)].
Proof. vm_compute. reflexivity. Qed.

Lemma example_alive : [mkProc 2 1 0x9FD4 0xA000 0x9000 0xA000 (116 :: replicate 31 0)] =
  drop 1 (live (procs example_tab)).
Proof. vm_compute. reflexivity. Qed.

(** A table with both processes live and room for one of them in the buffer. *)
Lemma process_queries_correct_witness : ∃ m m' : mem,
  process_get_info 0x8000 m example_tab 0x300000 1 = Some (1, m') ∧
  bytes_at 0x8000 m' 0x300000 (le_bytes 1 ++ le_bytes 2 ++ [115; 104] ++ replicate 30 0) ∧
  process_is_alive example_tab 2 = Some 1.
Proof.
  destruct (identity_dir_exists 0x8000 ∅) as [m Hm]; [split; [lia|done]|].
  assert (kmapped 0x8000 (λ a, ¬ within 0x8000 4096 a) m) as Hk by (apply identity_kmapped; auto).
  destruct (process_queries_correct 0x8000 m example_tab 0x300000 1 (λ a, a) example_tab_wf)
    as [(m' & H1 & H2 & _) Halive]; [|lia|rewrite example_live; cbn [length]; lia|].
  - rewrite example_live. cbn [length]. unfold within. split; [|intros; split; lia|intros; lia]. intros m' Hc va Hva.
    apply Hk; [|lia|unfold within; lia]. eapply changes_only_mono; [|exact Hc].
    unfold within. intros a (va' & ? & <-). lia.
  - rewrite example_live in H1, H2. exists m, m'. split; [exact H1|]. split; [exact H2|].
    apply Halive. exists (mkProc 2 1 0x9FD4 0xA000 0x9000 0xA000 (116 :: replicate 31 0)).
    split; [|reflexivity]. eapply (list_elem_of_lookup_2 _ 1).
    rewrite <- (lookup_drop _ 1 0), <- example_alive. reflexivity.
Defined.
