(* ===== verification/ProcessCreate.v ===== *)
(** * process.c: process_create, the program loader

    process_create takes frames of the allocator for a kernel stack, a page
    directory, the pages of the program and a user stack, copies the program
    from the SOFS image, maps it at address 0, and builds on the kernel stack
    the frame from which switch_context and iret enter the program.

    It runs under the page tables of the process that made the call ([cr3]) and
    writes only frames that were free ([free_bytes]); the proofs follow the
    memory it owns with [loading]. *)

From stdpp Require Import prelude gmap.
From Stdlib Require Import ZArith Lia.
From S2P Require Import Prelude Memory Kutil FrameAlloc Pfa Paging Fs Process.

Abbreviation USER_CODE_VIRT := 0.
Abbreviation USER_STACK_VIRT := 0xBFFFF000.
Abbreviation USER_STACK_TOP := 0xC0000000.
Abbreviation USER_PAGE := (Z.lor (Z.lor PTE_PRESENT PTE_RW) PTE_USER).

(** ** The code *)

(** The first loop: a DEAD slot, or MAX_PROCESSES. *)
Definition find_slot (t : proctab) : option Z :=
  o ← loop_range 0 MAX_PROCESSES (λ i _,
        p ← proc_at t i;
        Some (if state p =? PROC_STATE_DEAD then inr i else inl ())) ();
  Some (match o with inr i => i | inl _ => MAX_PROCESSES end).

(** `*(--sp) = v` *)
Definition push (cr3 : Z) (s : Z * mem) (v : Z) : option (Z * mem) :=
  let '(sp, m) := s in
  let sp := sp -ᵤ 4 in
  m ← kst32 cr3 m sp v; Some (sp, m).
Fixpoint push_all (cr3 : Z) (vs : list Z) (s : Z * mem) : option (Z * mem) :=
  match vs with
  | [] => Some s
  | v :: vs' => s ← push cr3 s v; push_all cr3 vs' s
  end.

(** `memcpy(procs[slot].name, name, nlen)`: the bytes read. *)
Definition read_name (cr3 : Z) (m : mem) (name nlen : Z) : option (list Z) :=
  for_range 0 nlen (λ i acc, b ← kld8 cr3 m (name +ᵤ i); Some (acc ++ [b])) [].

(** The copy of page [i] of the program into its frame, padded with zeros. *)
Definition copy_page (cr3 : Z) (m : mem) (code_frame prog_data prog_size i : Z) : option mem :=
  let offset := i *ᵤ PAGE_SIZE in
  let copy_len := prog_size -ᵤ offset in
  let copy_len := if PAGE_SIZE <? copy_len then PAGE_SIZE else copy_len in
  '(_, m) ← memcpy cr3 m code_frame (prog_data +ᵤ offset) copy_len;
  if copy_len <? PAGE_SIZE
  then '(_, m) ← memset cr3 m (code_frame +ᵤ copy_len) 0 (PAGE_SIZE -ᵤ copy_len); Some m
  else Some m.

Section code.
Context {A : Type} `{FrameAlloc A}.

(** One turn of the loop over the pages of the program; [inr] is `return -1`. *)
Definition load_page (cr3 : Z) (user_dir prog_data prog_size : Z) (i : Z) (s : mem * A)
    : option ((mem * A) + (mem * A)) :=
  let '(m, fa) := s in
  '(code_frame, fa) ← fa_alloc fa;
  if code_frame =? 0 then Some (inr (m, fa)) else
  m ← copy_page cr3 m code_frame prog_data prog_size i;
  '(m, fa) ← paging_map_4k cr3 m fa user_dir (USER_CODE_VIRT +ᵤ (i *ᵤ PAGE_SIZE)) code_frame USER_PAGE;
  Some (inl (m, fa)).

(** The end of process_create, from the user stack on.  [trampoline] is the
    address of process_start_trampoline. *)
Definition finish_process (cr3 trampoline name slot user_dir kstack_base : Z)
    (m : mem) (fa : A) (t : proctab) : option (Z * (mem * A * proctab)) :=
  let kstack_top := kstack_base +ᵤ PAGE_SIZE in
  '(stack_frame, fa) ← fa_alloc fa;
  if stack_frame =? 0 then Some (-1, (m, fa, t)) else
  '(_, m) ← memset cr3 m stack_frame 0 PAGE_SIZE;
  '(m, fa) ← paging_map_4k cr3 m fa user_dir USER_STACK_VIRT stack_frame USER_PAGE;
  '(sp, m) ← push_all cr3
    [0x23; USER_STACK_TOP; 0x0202; 0x1B; USER_CODE_VIRT; trampoline; 0; 0; 0; 0; 0x0002]
    (kstack_top, m);
  nlen ← strlen cr3 m name;
  let nlen := if (PROC_NAME_MAX - 1) <? nlen then PROC_NAME_MAX - 1 else nlen in
  nm ← read_name cr3 m name nlen;
  let n := next_pid t in
  t ← proc_install slot sp user_dir kstack_base kstack_top nm t;
  Some (s32 n, (m, fa, t)).

(** The kernel stack, the directory and the pages of the program. *)
Definition build_process (cr3 trampoline name slot prog_data prog_size : Z)
    (m : mem) (fa : A) (t : proctab) : option (Z * (mem * A * proctab)) :=
  let code_pages := ((prog_size +ᵤ PAGE_SIZE) -ᵤ 1) / PAGE_SIZE in
  '(kstack_base, fa) ← fa_alloc fa;
  if kstack_base =? 0 then Some (-1, (m, fa, t)) else
  '(_, m) ← memset cr3 m kstack_base 0 PAGE_SIZE;
  '(user_dir, m, fa) ← paging_create_kernel_dir cr3 m fa;
  if user_dir =? 0 then Some (-1, (m, fa, t)) else
  o ← loop_range 0 code_pages (load_page cr3 user_dir prog_data prog_size) (m, fa);
  match o with
  | inr (m, fa) => Some (-1, (m, fa, t))
  | inl (m, fa) => finish_process cr3 trampoline name slot user_dir kstack_base m fa t
  end.

Definition process_create (cr3 trampoline : Z) (fs : fs_instance) (name : Z)
    (m : mem) (fa : A) (t : proctab) : option (Z * (mem * A * proctab)) :=
  slot ← find_slot t;
  if slot =? MAX_PROCESSES then Some (-1, (m, fa, t)) else
  fs_idx ← fs_find cr3 m fs name;
  if fs_idx <? 0 then Some (-1, (m, fa, t)) else
  prog_data ← fs_file_data cr3 m fs fs_idx;
  prog_size ← fs_file_size cr3 m fs fs_idx;
  build_process cr3 trampoline name slot prog_data prog_size m fa t.
End code.

(** The first DEAD slot of the table. *)
Definition first_dead (t : proctab) (i : nat) : Prop :=
  (∃ p, procs t !! i = Some p ∧ state p = PROC_STATE_DEAD) ∧
  ∀ k q, (k < i)%nat → procs t !! k = Some q → state q ≠ PROC_STATE_DEAD.

Lemma find_slot_spec t : tab_wf t →
  (∃ i, find_slot t = Some (Z.of_nat i) ∧ (i < 16)%nat ∧ first_dead t i) ∨
  find_slot t = Some 16 ∧ ∀ i p, procs t !! i = Some p → state p ≠ PROC_STATE_DEAD.
Proof.
  intros Hw. unfold find_slot.
  destruct (search_spec t 0 16 (λ i, i) (λ p, state p =? PROC_STATE_DEAD) (λ i, i) Hw)
    as (o & -> & Ho); [lia|lia|]. rewrite bind_Some. destruct o as [[]|r].
  - right. split; [done|]. intros i p Hp. pose proof (lookup_lt_Some _ _ _ Hp) as Hi.
    rewrite (tw_len _ Hw) in Hi. specialize (Ho (Z.of_nat i) p ltac:(lia)). rewrite Nat2Z.id in Ho.
    apply Z.eqb_neq. by apply Ho.
  - left. destruct Ho as (i & p & Hi & -> & Hp & Ht & Hfirst). apply Z.eqb_eq in Ht.
    exists (Z.to_nat i). rewrite Z2Nat.id by lia. split; [done|]. split; [lia|]. split; [by exists p|].
    intros k q Hk Hq. apply Z.eqb_neq. apply (Hfirst (Z.of_nat k)); [lia|]. by rewrite Nat2Z.id.
Qed.

Lemma stack_page va : within USER_STACK_VIRT 4096 va ↔ va / 4096 = 0xBFFFF.
Proof. unfold within. split; intros; word_lia. Qed.

Lemma page_byte p k : page_addr p → 0 <= k < 4096 → (p + k) / 4096 = p / 4096.
Proof. intros [? ?] ?. word_lia. Qed.

(** ** Pushing words *)

Lemma push_all_spec cr3 R vs m top : kmapped cr3 R m → 4 * Z.of_nat (length vs) <= top <= 4294967296 →
  (∀ x, within (top - 4 * Z.of_nat (length vs)) (4 * Z.of_nat (length vs)) x → R x) →
  Forall (λ v, is_u32 v) vs →
  ∃ m', push_all cr3 vs (u32 top, m) = Some (u32 (top - 4 * Z.of_nat (length vs)), m') ∧
    changes_only (within (top - 4 * Z.of_nat (length vs)) (4 * Z.of_nat (length vs))) m m' ∧
    ∀ i w, vs !! i = Some w → ld32 m' (top - 4 * (Z.of_nat i + 1)) = w.
Proof.
  revert m top. induction vs as [|v vs IH]; intros m top Hk Htop HR HF.
  { exists m. cbn [push_all length]. rewrite Z.mul_0_r, Z.sub_0_r. done. }
  apply Forall_cons in HF as [Hv HF]. cbn [push_all length] in *.
  assert (u32 top -ᵤ 4 = top - 4) as Hsp by (clear - Htop; word_lia). unfold push. rewrite Hsp.
  destruct (kst32_kmapped cr3 R m (top - 4) v Hk) as [-> HcR];
    [lia|intros x Hx; apply HR; unfold within in *; lia|].
  rewrite !bind_Some.
  destruct (IH (st32 m (top - 4) v) (top - 4)) as (m' & Hp & Hc & Hw);
    [by eapply kmapped_changes|lia|intros x Hx; apply HR; unfold within in *; lia|exact HF|].
  rewrite (u32_small (top - 4)) in Hp by lia. rewrite Hp.
  exists m'. split; [do 3 f_equal; lia|]. split.
  - eapply (changes_only_trans _ _ (st32 m (top - 4) v)).
    + intros x Hx Hn. apply ld8_st32; [lia|exact Hx|]. unfold within in *. lia.
    + eapply changes_only_mono; [|exact Hc]. unfold within. lia.
  - intros [|i] w Hi; simpl in Hi.
    + simplify_eq. replace (top - 4 * (Z.of_nat 0 + 1)) with (top - 4) by lia.
      rewrite <- (ld32_st32_eq m (top - 4) w) by lia. apply ld32_ext; [lia|].
      intros x Hx. apply Hc; unfold within in *; lia.
    + rewrite <- (Hw _ _ Hi). f_equal. lia.
Qed.

(** ** What the loader may touch *)

Section loader.
Context {A : Type} `{FrameAllocLaws A}.

(** The bytes of the frames that are free. *)
Definition free_bytes (fa : A) (x : Z) : Prop :=
  ∃ g, 0 <= g < MAX_FRAMES ∧ fa_free fa g = true ∧ within (g * 4096) 4096 x.

Lemma page_frame a : page_addr a → 0 <= a / 4096 < MAX_FRAMES.
Proof. intros [? ?]. word_lia. Qed.

(** The number of free frames. *)
Definition nfree (fa : A) : Z := count_upto (fa_free fa) all_frames.

Lemma nfree_none fa : (∀ g, 0 <= g < MAX_FRAMES → fa_free fa g = false) → nfree fa = 0.
Proof.
  intros Hf. unfold nfree. pose proof (count_upto_negb (fa_free fa) all_frames) as Hn.
  rewrite count_upto_true in Hn; [lia|]. intros i Hi. rewrite Hf; [reflexivity|]. rewrite <- all_frames_Z. exact Hi.
Qed.

Lemma nfree_taken fa a fa' : frame_taken fa a fa' → a ≠ 0 → nfree fa' = nfree fa - 1.
Proof.
  intros [|a' fa1 [Ha Hal] Hne Hfree Hrest] Hn; [by destruct Hn|]. unfold nfree.
  apply (count_upto_clear _ _ (a' / 4096)); rewrite ?all_frames_Z; [apply page_frame; by split|exact Hfree|exact Hrest].
Qed.

Lemma taken_zero fa fa' : frame_taken fa 0 fa' → nfree fa = 0.
Proof. inversion 1 as [Hno|? ? _ Hne]; subst; [exact (nfree_none _ Hno)|by destruct Hne]. Qed.

Lemma taken_page fa a fa' : frame_taken fa a fa' → a ≠ 0 → page_addr a.
Proof. intros [|a' fa1 Ha _ _ _] Hne; [by destruct Hne|exact Ha]. Qed.

#[local] Opaque nfree.

Context (cr3 : Z) (m0 : mem) (fa0 : A).
Abbreviation F := (free_bytes fa0).

(** A page the loader has taken: free at first, not free any more, and not
    part of the new directory. *)
Record owned (fa : A) (dir : Z) (sp : space) (p : Z) : Prop := {
  ow_page : page_addr p;
  ow_was : fa_free fa0 (p / 4096) = true;
  ow_now : fa_free fa (p / 4096) = false;
  ow_data : ∀ x, within p 4096 x → ¬ footprint dir sp x
}.

(** The state of the loader: the directory [dir] holds the space [sp], [ks]
    is the kernel stack, and [pages] are the pages filled so far with what is
    in them. *)
Record loading (m : mem) (fa : A) (dir : Z) (sp : space) (ks : Z) (pages : list (Z * (Z → Z))) : Prop := {
  ld_dir : dir_owned cr3 F m fa dir sp;
  ld_sub : ∀ g, 0 <= g < MAX_FRAMES → fa_free fa g = true → fa_free fa0 g = true;
  ld_mem : changes_only F m0 m;
  ld_ks : owned fa dir sp ks;
  ld_pages : ∀ p f, (p, f) ∈ pages → owned fa dir sp p ∧ p ≠ ks ∧
               ∀ k, 0 <= k < 4096 → ld8 m (p + k) = f k
}.

(** What the loader leaves of the free frames. *)
Definition shrunk (fa : A) : Prop := fa_ok fa ∧ ∀ g, 0 <= g < MAX_FRAMES → fa_free fa g = true → fa_free fa0 g = true.

Lemma loading_shrunk m fa dir sp ks pages : loading m fa dir sp ks pages → shrunk fa.
Proof. intros Hld. split; [apply (ld_dir _ _ _ _ _ _ Hld)|apply Hld]. Qed.

Lemma taken_shrunk fa a : fa_ok fa → frame_taken fa0 a fa → shrunk fa.
Proof.
  intros Ho Ht. split; [exact Ho|]. destruct Ht as [_|a fa _ _ _ Hfa]; [done|]. intros g Hg Hgf. rewrite Hfa in Hgf by exact Hg.
  by apply andb_prop in Hgf as [_ Hgf].
Qed.

Lemma owned_F fa dir sp p x : owned fa dir sp p → within p 4096 x → F x.
Proof.
  intros [Hp Hw _ _] Hx. exists (p / 4096). split; [exact (page_frame _ Hp)|]. split; [done|].
  by apply (page_index p).
Qed.

(** Taking one more frame. *)
Lemma ld_alloc m fa dir sp ks pages : loading m fa dir sp ks pages →
  ∃ a fa', fa_alloc fa = Some (a, fa') ∧
    (a = 0 ∧ fa' = fa ∧ nfree fa = 0 ∨
     a ≠ 0 ∧ nfree fa' = nfree fa - 1 ∧ loading m fa' dir sp ks pages ∧ owned fa' dir sp a ∧
     a ≠ ks ∧ ∀ p f, (p, f) ∈ pages → p ≠ a).
Proof.
  intros [Hd Hsub Hm Hks Hpg]. pose proof Hd as [Hke Hsp HR Htk].
  destruct (kenv_alloc cr3 F m fa Hke) as (a & fa' & -> & Hke' & Ht & _).
  exists a, fa'. split; [done|]. pose proof (nfree_taken _ _ _ Ht) as Hnf.
  destruct Ht as [Hno|a fa' Ha Hne Hfree Hfa'].
  { left. split; [done|]. split; [done|]. exact (nfree_none _ Hno). }
  right. split; [done|]. split; [exact (Hnf Hne)|].
  pose proof (page_frame _ Ha) as Hr.
  assert (∀ p, owned fa dir sp p → owned fa' dir sp p) as Hkeep.
  { intros p [Hp Hwas Hnow Hdt]. split; [exact Hp|exact Hwas| |exact Hdt].
    rewrite Hfa', Hnow by apply (page_frame _ Hp). apply andb_false_r. }
  assert (∀ p, owned fa dir sp p → p ≠ a) as Hfresh by (intros p [_ _ Hn _] ->; congruence).
  split; [|split; [|split]].
  - split; [split; [exact Hke'|exact Hsp|exact HR|]| |exact Hm| |].
    + intros g x Hg Hgf. rewrite Hfa' in Hgf by done. apply andb_prop in Hgf as [_ Hgf]. by apply Htk.
    + intros g Hg Hgf. rewrite Hfa' in Hgf by done. apply andb_prop in Hgf as [_ Hgf]. by apply Hsub.
    + by apply Hkeep.
    + intros p f Hp. destruct (Hpg _ _ Hp) as (Ho & Hrest). split; [exact (Hkeep _ Ho)|exact Hrest].
  - split; [exact Ha|exact (Hsub _ Hr Hfree)| |].
    + rewrite Hfa' by exact Hr. rewrite Z.eqb_refl. reflexivity.
    + intros x Hx. apply (Htk _ _ Hr Hfree). by apply (page_index a).
  - intros Heq. exact (Hfresh ks Hks (eq_sym Heq)).
  - intros p f Hp. apply Hfresh, (Hpg _ _ Hp).
Qed.

(** Filling a page that was just taken. *)
Lemma ld_fill m m' fa dir sp ks pages a f : loading m fa dir sp ks pages → owned fa dir sp a →
  a ≠ ks → (∀ p g, (p, g) ∈ pages → p ≠ a) →
  changes_only (within a 4096) m m' → (∀ k, 0 <= k < 4096 → ld8 m' (a + k) = f k) →
  loading m' fa dir sp ks ((a, f) :: pages).
Proof.
  intros [Hd Hsub Hm Hks Hpg] Ha Hne Hfresh Hc Hf.
  assert (changes_only F m m') as HcF by (eapply changes_only_mono; [|exact Hc]; intros; by eapply owned_F).
  destruct Hd as [Hke Hsp HR Htk]. split; try done.
  - split; try done; [by eapply kenv_changes|]. eapply space_at_changes; [done|].
    eapply changes_only_mono; [|exact Hc]. by apply Ha.
  - by eapply changes_only_trans.
  - intros p g Hp. apply elem_of_cons in Hp as [[= -> ->]|Hp]; [done|].
    destruct (Hpg _ _ Hp) as (Ho & ? & Hpk). split; [done|]. split; [done|]. intros k Hk.
    rewrite <- Hpk by done. apply Hc.
    + eapply within_page; [by apply Ho|]. unfold within. lia.
    + eapply (pages_disjoint p a); [apply Ho|apply Ha|by eapply Hfresh|unfold within; lia].
Qed.

(** A new mapping adds at most its new table to the directory. *)
Lemma footprint_map dir sp v pt w user x : 0 <= v < 1048576 →
  footprint dir (sp_map sp v pt w user) x →
  footprint dir sp x ∨ (∀ p u, sp_pde sp (v / 1024) ≠ Table p u) ∧ within pt 4096 x.
Proof.
  intros Hv [Hd|(i & p & u & Hi & Hp & Hx)]; [by left; left|]. rewrite sp_map_pde in Hp.
  destruct (Z.eqb_spec i (v / 1024)) as [->|]; [|left; right; by exists i, p, u].
  destruct (sp_pde sp (v / 1024)) as [| |p0 u0] eqn:Hpde; simplify_eq.
  - by right.
  - by right.
  - left. right. by exists (v / 1024), p, u0.
Qed.

(** The frame a mapping takes for its table, none if there is one. *)
Definition table_cost (sp : space) (virt : Z) : Z :=
  match sp_pde sp (virt / 4194304) with Table _ _ => 0 | _ => 1 end.

Lemma page_of virt : is_u32 virt → 0 <= virt / 4096 < 1048576.
Proof. intros. word_lia. Qed.

Lemma ld_map m fa dir sp ks pages virt phys : loading m fa dir sp ks pages →
  is_u32 virt → is_u32 phys →
  ∃ m' fa', paging_map_4k cr3 m fa dir virt phys USER_PAGE = Some (m', fa') ∧
    (m' = m ∧ fa' = fa ∧ table_cost sp virt = 1 ∧ nfree fa = 0 ∨
     ∃ pt, loading m' fa' dir (sp_map sp (virt / 4096) pt (phys / 4096 * 4096 + 7) true) ks pages ∧
       nfree fa' = nfree fa - table_cost sp virt).
Proof.
  intros [Hd Hsub Hm Hks Hpg] Hv Hp. change USER_PAGE with 7.
  destruct (paging_map_4k_spec cr3 F m fa dir sp virt phys 7 Hd Hv Hp ltac:(lia))
    as (m' & fa' & -> & Hout). change (Z.testbit 7 2) with true in Hout.
  exists m', fa'. split; [reflexivity|]. unfold table_cost.
  destruct Hout as [(-> & -> & Hnt & Hno)|(pt & Hd' & Hc & Hfa)]; [left|right].
  { split; [done|]. split; [done|]. split; [|exact (nfree_none _ Hno)].
    destruct (sp_pde sp (virt / 4194304)) as [| |p u] eqn:Hpde; [done|done|]. by destruct (Hnt p u). }
  exists pt. rewrite pde_of_page in Hfa.
  pose proof (do_R _ _ _ _ _ _ Hd') as HR'. pose proof (page_of _ Hv) as Hpv.
  assert (∀ g, 0 <= g < MAX_FRAMES → fa_free fa' g = true → fa_free fa g = true) as Hsub'.
  { destruct Hfa as [[_ ->]|(_ & Hpt & [|a fa1 _ _ _ Hfa1])]; [done|done|].
    intros g Hg Hgf. rewrite Hfa1 in Hgf by exact Hg. by apply andb_prop in Hgf as [_ Hgf]. }
  assert (∀ p, owned fa dir sp p → owned fa' dir (sp_map sp (virt / 4096) pt (phys / 4096 * 4096 + 7) true) p)
    as Hkeep.
  { intros p [Hpa Hwas Hnow Hdt]. split; [exact Hpa|exact Hwas| |].
    - apply not_true_is_false. intros Hf. rewrite (Hsub' _ (page_frame _ Hpa) Hf) in Hnow. discriminate Hnow.
    - intros x Hx Hfp. apply footprint_map in Hfp as [Hfp|[Hnt Hpt]]; [exact (Hdt _ Hx Hfp)| |exact Hpv].
      rewrite pde_of_page in Hnt. destruct Hfa as [[[u Hu] _]|(_ & Hpt0 & Ht)]; [exact (Hnt _ _ Hu)|].
      destruct Ht as [|a fa1 Ha _ Hfree _]; [done|].
      destruct (decide (a = p)) as [->|Hne]; [congruence|]. exact (pages_disjoint _ _ _ Ha Hpa Hne Hpt Hx). }
  split.
  - split; [exact Hd'| | |exact (Hkeep _ Hks)|].
    + intros g Hg Hgf. exact (Hsub _ Hg (Hsub' _ Hg Hgf)).
    + eapply changes_only_trans; [exact Hm|]. eapply changes_only_mono; [exact HR'|exact Hc].
    + intros p f Hpf. destruct (Hpg _ _ Hpf) as (Ho & Hne & Hk). split; [exact (Hkeep _ Ho)|]. split; [exact Hne|].
      intros k Hk0. rewrite <- Hk by exact Hk0. apply Hc.
      * apply (within_page p); [apply Ho|unfold within; lia].
      * apply (ow_data _ _ _ _ (Hkeep _ Ho)). unfold within. lia.
  - destruct Hfa as [[[u ->] ->]|(Hnt & Hpt & Ht)]; [by rewrite Z.sub_0_r|].
    rewrite (nfree_taken _ _ _ Ht Hpt).
    destruct (sp_pde sp (virt / 4194304)) as [| |p u] eqn:Hpde; [reflexivity|reflexivity|]. by destruct (Hnt p u).
Qed.

(** ** The program *)

Context (data : list Z) (pd : Z).
Context (Hdata : ∀ i b, data !! i = Some b → is_u8 b ∧ kreads cr3 F m0 (pd + Z.of_nat i) b).
Context (Hpd : 0 <= pd) (Hpd_fits : pd + Z.of_nat (length data) <= 4294967296).
Context (Hsize : Z.of_nat (length data) <= 0xBFC00000).

Abbreviation size := (Z.of_nat (length data)).
Definition page_count : Z := (size + 4095) / 4096.

(** Byte [k] of page [i] of the program: zero past its end. *)
Definition content (i k : Z) : Z := nth (Z.to_nat (i * 4096 + k)) data 0.

Lemma content_read i k : 0 <= i → 0 <= k → i * 4096 + k < size →
  is_u8 (content i k) ∧ kreads cr3 F m0 (pd + (i * 4096 + k)) (content i k).
Proof.
  intros Hi Hk Hlt. destruct (lookup_lt_is_Some_2 data (Z.to_nat (i * 4096 + k))) as [b Hb]; [lia|].
  unfold content. rewrite (nth_lookup_Some _ _ _ _ Hb). destruct (Hdata _ _ Hb) as [Hu Hr].
  rewrite Z2Nat.id in Hr by lia. done.
Qed.

Lemma content_end i k : 0 <= i → 0 <= k → size <= i * 4096 + k → content i k = 0.
Proof. intros. unfold content. apply nth_overflow. lia. Qed.

Lemma copy_page_spec m a i :
  changes_only F m0 m → kmapped cr3 F m → page_addr a → (∀ x, within a 4096 x → F x) →
  0 <= i → i * 4096 < size →
  ∃ m', copy_page cr3 m a pd size i = Some m' ∧ changes_only (within a 4096) m m' ∧
        ∀ k, 0 <= k < 4096 → ld8 m' (a + k) = content i k.
Proof.
  intros Hm Hk [Ha _] HF Hi Hlt. unfold copy_page.
  rewrite (u32_small (i * PAGE_SIZE)), (u32_small (size - _)), (u32_small (pd + _)) by lia.
  set (n := if PAGE_SIZE <? size - i * PAGE_SIZE then PAGE_SIZE else size - i * PAGE_SIZE).
  assert (n = Z.min 4096 (size - i * 4096)) as Hn by (subst n; destruct (Z.ltb_spec 4096 (size - i * 4096)); lia).
  clearbody n.
  destruct (memcpy_spec cr3 F m a (pd + i * 4096) n (content i)) as (m1 & -> & Hm1); try lia; [exact Hk| | |].
  { intros x Hx. apply HF. unfold within in *. lia. }
  { intros k Hk0 m2 Hc2. rewrite <- Z.add_assoc. apply content_read; [lia|lia|lia|].
    eapply changes_only_trans; [exact Hm|]. eapply changes_only_mono; [|exact Hc2].
    intros x Hx. apply HF. unfold within in *. lia. }
  rewrite bind_Some.
  assert (changes_only (within a 4096) m m1) as Hc1.
  { intros x Hx Hnx. rewrite Hm1 by exact Hx. rewrite decide_False; [done|]. unfold within in *. lia. }
  assert (∀ k, 0 <= k < n → ld8 m1 (a + k) = content i k) as Hcopied.
  { intros k Hk0. rewrite Hm1 by lia. unfold within. rewrite decide_True by lia.
    replace (a + k - a) with k by lia. apply u8_small, content_read; lia. }
  destruct (Z.ltb_spec n PAGE_SIZE) as [Hpad|Hfull].
  - rewrite (u32_small (a + n)), (u32_small (PAGE_SIZE - n)) by lia.
    destruct (memset_spec cr3 F m1 (a + n) 0 (4096 - n)) as (m2 & -> & Hm2); try lia.
    { eapply kmapped_changes; [exact Hk|]. by eapply changes_only_mono. }
    { intros x Hx. apply HF. unfold within in *. lia. }
    exists m2. split; [done|]. split.
    + eapply changes_only_trans; [exact Hc1|]. intros x Hx Hnx. rewrite Hm2 by exact Hx.
      rewrite decide_False; [done|]. unfold within in *. lia.
    + intros k Hk0. rewrite Hm2 by lia. unfold within. case_decide.
      * rewrite content_end by lia. done.
      * apply Hcopied. lia.
  - exists m1. split; [done|]. split; [exact Hc1|]. intros k Hk0. apply Hcopied. lia.
Qed.

(** The page [v] of [sp] is the frame [p], for the kernel and for ring 3. *)
Definition maps_to (sp : space) (v p : Z) : Prop :=
  ∀ va, is_u32 va → va / 4096 = v →
    sp_walk sp va = Some (p + va mod 4096) ∧ sp_user_walk sp va = Some (p + va mod 4096).

(** The first [i] pages of the program are mapped, and nothing else. *)
Record code_mapped (i : Z) (sp : space) (pages : list (Z * (Z → Z))) : Prop := {
  cm_pages : ∀ j, 0 <= j < i → ∃ p, (p, content j) ∈ pages ∧ maps_to sp j p;
  cm_rest : ∀ va, is_u32 va → i <= va / 4096 → sp_walk sp va = Some va ∧ sp_user_walk sp va = None;
  cm_cons : sp_consistent sp;
  cm_large : ∀ k, 0 <= k < 1024 → i <= 1024 * k → sp_pde sp k = Large;
  cm_table : ∀ k, 0 <= k < 1024 → 1024 * k < i → ∃ pt u, sp_pde sp k = Table pt u;
  cm_inj : ∀ j j' p, 0 <= j < i → 0 <= j' < i → maps_to sp j p → maps_to sp j' p → j = j'
}.

Lemma maps_to_unique sp v p p' : 0 <= v < 1048576 → maps_to sp v p → maps_to sp v p' → p = p'.
Proof.
  intros Hv H1 H2. assert (is_u32 (v * 4096)) as Hu by lia. assert (v * 4096 / 4096 = v) as Hd by (by apply Z.div_mul).
  destruct (H1 _ Hu Hd) as [E1 _]. destruct (H2 _ Hu Hd) as [E2 _]. rewrite E1 in E2. injection E2. lia.
Qed.

Lemma map_user_page sp v pt a : page_addr a → maps_to (sp_map sp v pt (a / 4096 * 4096 + 7) true) v a.
Proof.
  intros [Ha Hal] va Hva Hv. pose proof (sp_map_here sp v pt a 7 va Hv ltac:(lia) eq_refl) as Hh.
  change (Z.testbit 7 2) with true in Hh. cbv zeta in Hh.
  replace (a / 4096 * 4096) with a in * by word_lia. exact Hh.
Qed.

Lemma map_other_page sp v v' pt w p : sp_consistent sp → 0 <= v < 1048576 → v' ≠ v →
  maps_to sp v' p → maps_to (sp_map sp v pt w true) v' p.
Proof.
  intros Hc Hv Hne Hm va Hva Hvv. destruct (sp_map_elsewhere sp v pt w true va Hc Hv Hva) as [-> ->]; [lia|].
  by apply Hm.
Qed.

Lemma map_user_consistent sp v pt a : sp_consistent sp →
  sp_consistent (sp_map sp v pt (a / 4096 * 4096 + 7) true).
Proof. intros Hc. apply sp_map_consistent; [exact Hc|]. unfold pg_user. by rewrite entry_bits by lia. Qed.

Lemma map_code_page i sp pages pt a : code_mapped i sp pages → 0 <= i < 1048576 → page_addr a →
  (∀ p f, (p, f) ∈ pages → p ≠ a) →
  code_mapped (i + 1) (sp_map sp i pt (a / 4096 * 4096 + 7) true) ((a, content i) :: pages).
Proof.
  intros [Hpg Hrest Hcons Hl Ht Hinj] Hi Ha Hfr. set (sp' := sp_map _ _ _ _ _).
  assert (maps_to sp' i a) as Hia by (by apply map_user_page).
  assert (∀ j, 0 <= j < i + 1 → ∀ p, maps_to sp' j p → j = i ∧ p = a ∨ 0 <= j < i ∧ p ≠ a ∧ maps_to sp j p) as Hold.
  { intros j Hj p Hm. assert (0 <= j < 1048576) as Hj' by lia. destruct (Z.eq_dec j i) as [->|Hne].
    - left. split; [reflexivity|]. exact (maps_to_unique _ _ _ _ Hj' Hm Hia).
    - right. destruct (Hpg j) as (q & Hq & Hqm); [lia|].
      assert (maps_to sp' j q) as Hqm' by (by apply map_other_page). rewrite (maps_to_unique _ _ _ _ Hj' Hm Hqm').
      split; [lia|]. split; [exact (Hfr _ _ Hq)|exact Hqm]. }
  split.
  - intros j Hj. destruct (Z.eq_dec j i) as [->|Hne].
    + exists a. split; [apply list_elem_of_here|exact Hia].
    + destruct (Hpg j) as (p & Hp & Hm); [lia|]. exists p. split; [by apply list_elem_of_further|].
      by apply map_other_page.
  - intros va Hva Hge. unfold sp'. destruct (sp_map_elsewhere sp i pt (a / 4096 * 4096 + 7) true va Hcons Hi Hva)
      as [-> ->]; [lia|]. apply Hrest; [exact Hva|lia].
  - by apply map_user_consistent.
  - intros k Hk Hge. unfold sp'. rewrite sp_map_pde.
    destruct (Z.eqb_spec k (i / 1024)) as [->|]; [exfalso; clear - Hge; word_lia|]. apply Hl; lia.
  - intros k Hk Hlt. unfold sp'. rewrite sp_map_pde. destruct (Z.eqb_spec k (i / 1024)) as [->|Hne].
    + destruct (sp_pde sp (i / 1024)); by eauto.
    + apply Ht; [exact Hk|]. assert (1024 * k ≠ i) by (clear - Hne; word_lia). lia.
  - intros j j' p Hj Hj' H1 H2. destruct (Hold j Hj p H1) as [[-> ->]|(Hj1 & Hn & M1)], (Hold j' Hj' _ H2) as [[-> Ea]|(Hj2 & Hn' & M2)];
      [done|done|done|by apply (Hinj j j' p)].
Qed.

Lemma code_table_cost i sp pages : code_mapped i sp pages → 0 <= i < 1048576 →
  table_cost sp (i * 4096) = (i + 1 + 1023) / 1024 - (i + 1023) / 1024.
Proof.
  intros Hc Hi. unfold table_cost. replace (i * 4096 / 4194304) with (i / 1024) by (clear - Hi; word_lia).
  assert (0 <= i / 1024 < 1024) as Hk by (clear - Hi; word_lia).
  destruct (Z.eq_dec (1024 * (i / 1024)) i) as [Heq|Hne].
  - rewrite (cm_large _ _ _ Hc (i / 1024) Hk) by lia. clear - Heq. word_lia.
  - destruct (cm_table _ _ _ Hc (i / 1024) Hk) as (pt & u & ->); [clear - Hne; word_lia|].
    clear - Hne. word_lia.
Qed.

(** Frames taken after [i] pages: the pages and their tables. *)
Definition frames_for (i : Z) : Z := i + (i + 1023) / 1024.

(** The loop's invariant; what is mapped is known as long as there were frames
    for it. *)
Definition load_inv (dir ks budget i : Z) (s : mem * A) : Prop :=
  ∃ sp pages, loading s.1 s.2 dir sp ks pages ∧
    (frames_for i <= budget → code_mapped i sp pages ∧ nfree s.2 = budget - frames_for i).

Lemma page_u32 a : page_addr a → is_u32 a.
Proof. intros [? _]. lia. Qed.

Lemma frames_for_step i : 0 <= i → frames_for i + 1 <= frames_for (i + 1).
Proof. intros. unfold frames_for. word_lia. Qed.

Lemma load_page_spec dir ks budget i s : 0 <= i → i * 4096 < size → load_inv dir ks budget i s →
  ∃ o, load_page cr3 dir pd size i s = Some o ∧
    match o with
    | inl s' => load_inv dir ks budget (i + 1) s'
    | inr s' => changes_only F m0 s'.1 ∧ shrunk s'.2 ∧ budget < frames_for (i + 1)
    end.
Proof.
  intros Hi Hlt (sp & pages & Hld & Hmap). destruct s as [m fa]. cbn [fst snd] in *.
  assert (0 <= i < 1048576) as Hi' by lia. unfold load_page.
  destruct (ld_alloc _ _ _ _ _ _ Hld) as (a & fa1 & -> & Hal). rewrite bind_Some.
  pose proof (frames_for_step i Hi) as Hstep.
  destruct Hal as [(-> & -> & Hno)|(Hne & Hnf & Hld1 & Hown & Hak & Hfr)].
  { eexists. split; [reflexivity|]. split; [apply Hld|]. split; [exact (loading_shrunk _ _ _ _ _ _ Hld)|].
    destruct (Z_lt_le_dec budget (frames_for i)) as [|Hle]; [lia|]. destruct (Hmap Hle) as [_ Hn]. lia. }
  rewrite (proj2 (Z.eqb_neq a 0)) by exact Hne. pose proof (ow_page _ _ _ _ Hown) as Hpa.
  destruct (copy_page_spec m a i) as (m1 & -> & Hc1 & Hk1);
    [apply Hld|apply (ld_dir _ _ _ _ _ _ Hld)|exact Hpa|intros; by eapply owned_F|exact Hi|exact Hlt|].
  rewrite bind_Some.
  pose proof (ld_fill _ _ _ _ _ _ _ _ _ Hld1 Hown Hak Hfr Hc1 Hk1) as Hld2.
  rewrite (u32_small (i * PAGE_SIZE)), Z.add_0_l, (u32_small (i * PAGE_SIZE)) by lia.
  destruct (ld_map _ _ _ _ _ _ (i * PAGE_SIZE) a Hld2) as (m2 & fa2 & -> & Hout);
    [lia|by apply page_u32|].
  rewrite bind_Some. eexists. split; [reflexivity|].
  destruct Hout as [(-> & -> & Hcost & Hno)|(pt & Hld3 & Hnf2)].
  - exists sp, ((a, content i) :: pages). split; [exact Hld2|]. intros Hle.
    destruct Hmap as [Hcm Hn]; [lia|]. rewrite (code_table_cost i sp pages Hcm Hi') in Hcost.
    unfold frames_for in *. lia.
  - rewrite Z.div_mul in Hld3 by lia. do 2 eexists. split; [exact Hld3|]. intros Hle.
    destruct Hmap as [Hcm Hn]; [lia|]. split; [by apply map_code_page|].
    cbn [snd]. rewrite Hnf2, Hnf, Hn, (code_table_cost i sp pages Hcm Hi'). unfold frames_for. lia.
Qed.

Lemma ld_stack m m' fa dir sp ks pages : loading m fa dir sp ks pages →
  changes_only (within ks 4096) m m' → loading m' fa dir sp ks pages.
Proof.
  intros [Hd Hsub Hm Hks Hpg] Hc.
  assert (changes_only F m m') as HcF
    by (eapply changes_only_mono; [|exact Hc]; intros x Hx; exact (owned_F _ _ _ _ _ Hks Hx)).
  destruct Hd as [Hke Hsp HR Htk]. split; [split| | | |].
  - by eapply kenv_changes.
  - eapply space_at_changes; [exact Hsp|]. eapply changes_only_mono; [|exact Hc]. apply Hks.
  - exact HR.
  - exact Htk.
  - exact Hsub.
  - by eapply changes_only_trans.
  - exact Hks.
  - intros p f Hp. destruct (Hpg _ _ Hp) as (Ho & Hne & Hk). split; [exact Ho|]. split; [exact Hne|].
    intros k Hk0. rewrite <- Hk by exact Hk0. pose proof (ow_page _ _ _ _ Ho) as Hpa. apply Hc.
    + apply (within_page p); [exact Hpa|]. unfold within. lia.
    + eapply (pages_disjoint p ks); [exact Hpa|apply Hks|exact Hne|unfold within; lia].
Qed.

Lemma read_name_spec m name s n : cstring_at cr3 m name s → 0 <= n <= Z.of_nat (length s) →
  read_name cr3 m name n = Some (take (Z.to_nat n) s).
Proof.
  intros [Ha Hfit Hb _] Hn. unfold read_name.
  destruct (for_range_ind (λ i acc, acc = take (Z.to_nat i) s)
    (λ i acc, b ← kld8 cr3 m (name +ᵤ i); Some (acc ++ [b])) 0 n []) as (acc & -> & ->); [lia|done| |done].
  intros j acc Hj ->. rewrite u32_small by lia.
  destruct (lookup_lt_is_Some_2 s (Z.to_nat j)) as [b Hlk]; [lia|].
  destruct (Hb _ _ Hlk) as [Hl _]. rewrite Z2Nat.id in Hl by lia. rewrite Hl, bind_Some.
  eexists. split; [done|]. replace (Z.to_nat (j + 1)) with (S (Z.to_nat j)) by lia.
  by rewrite (take_S_r _ _ _ Hlk).
Qed.

(** ** The finished process *)

(** The words from which switch_context restores the registers, returns to the
    trampoline, and iret enters ring 3, upwards from the saved stack pointer. *)
Definition entry_words (trampoline : Z) : list Z :=
  [0x0002; 0; 0; 0; 0; trampoline; USER_CODE_VIRT; 0x1B; 0x0202; USER_STACK_TOP; 0x23].

Definition entry_frame (m : mem) (trampoline ks : Z) : Prop :=
  ∀ i w, entry_words trampoline !! i = Some w → ld32 m (ks + 4052 + 4 * Z.of_nat i) = w.

(** The address space of the new process: the program at 0, padded with zeros;
    a zeroed stack page; everything else the kernel's identity mapping, closed
    to ring 3; and no page of ring 3 in a frame that was in use before or can
    be handed out again, in one of the directory, or in one of another page. *)
Record loaded (m : mem) (fa : A) (dir : Z) : Prop := {
  lo_code : ∀ va, 0 <= va < 4096 * page_count → ∃ pa,
    user_walk m dir va = Some pa ∧ walk m dir va = Some pa ∧ ld8 m pa = nth (Z.to_nat va) data 0;
  lo_stack : ∀ va, within USER_STACK_VIRT 4096 va → ∃ pa,
    user_walk m dir va = Some pa ∧ walk m dir va = Some pa ∧ ld8 m pa = 0;
  lo_rest : ∀ va, is_u32 va → 4096 * page_count <= va → ¬ within USER_STACK_VIRT 4096 va →
    walk m dir va = Some va ∧ user_walk m dir va = None;
  lo_private : ∀ va pa, is_u32 va → user_walk m dir va = Some pa →
    is_u32 pa ∧ fa_free fa0 (pa / 4096) = true ∧ fa_free fa (pa / 4096) = false;
  lo_inj : ∀ va va' pa, is_u32 va → is_u32 va' → user_walk m dir va = Some pa → user_walk m dir va' = Some pa → va = va';
  lo_dir : ∃ sp, space_at m dir sp ∧ (∀ x, free_bytes fa x → ¬ footprint dir sp x) ∧
    (∀ x, footprint dir sp x → free_bytes fa0 x) ∧
    ∀ va pa, is_u32 va → user_walk m dir va = Some pa → ¬ footprint dir sp pa;
  lo_ok : fa_ok fa;
  lo_sub : ∀ g, 0 <= g < MAX_FRAMES → fa_free fa g = true → fa_free fa0 g = true;
  lo_left : nfree fa = nfree fa0 - (frames_for page_count + 4)
}.

Lemma page_count_bound : 0 <= page_count <= 785408.
Proof. unfold page_count. clear - Hsize. word_lia. Qed.

(** What a page that [maps_to] a filled frame reads. *)
Lemma mapped_byte m fa dir sp ks pages v p f va : loading m fa dir sp ks pages →
  maps_to sp v p → (p, f) ∈ pages → is_u32 va → va / 4096 = v →
  ∃ pa, user_walk m dir va = Some pa ∧ walk m dir va = Some pa ∧ ld8 m pa = f (va mod 4096) ∧
        is_u32 pa ∧ fa_free fa0 (pa / 4096) = true ∧ fa_free fa (pa / 4096) = false.
Proof.
  intros Hld Hm Hp Hva Hv. destruct (ld_pages _ _ _ _ _ _ Hld _ _ Hp) as (Ho & _ & Hk).
  destruct (walk_space m dir sp (do_space _ _ _ _ _ _ (ld_dir _ _ _ _ _ _ Hld)) va Hva) as [-> ->].
  destruct (Hm va Hva Hv) as [-> ->]. pose proof (Z.mod_pos_bound va 4096 ltac:(lia)) as Hmod.
  exists (p + va mod 4096). split; [done|]. split; [done|]. split; [by apply Hk|].
  rewrite page_byte by (apply Ho || exact Hmod).
  split; [destruct (ow_page _ _ _ _ Ho) as [? _]; lia|]. split; apply Ho.
Qed.

(** Mapping the stack page completes the process. *)
Section code_loaded.
Context (m : mem) (fa : A) (dir : Z) (sp : space) (ks : Z) (pages : list (Z * (Z → Z))) (a pt : Z).
Context (Hcm : code_mapped page_count sp pages) (Ha : page_addr a) (Hfr : ∀ p f, (p, f) ∈ pages → p ≠ a).
Abbreviation sp' := (sp_map sp 0xBFFFF pt (a / 4096 * 4096 + 7) true).
Context (Hld : loading m fa dir sp' ks ((a, λ _, 0) :: pages)).

Lemma stack_maps : maps_to sp' 0xBFFFF a.
Proof. by apply map_user_page. Qed.

Lemma code_maps j : 0 <= j < page_count → ∃ p, (p, content j) ∈ pages ∧ maps_to sp j p ∧ maps_to sp' j p.
Proof.
  pose proof page_count_bound as Hpc. intros Hj. destruct (cm_pages _ _ _ Hcm j Hj) as (p & Hp & Hm). exists p.
  split; [exact Hp|]. split; [exact Hm|]. apply map_other_page; [apply Hcm|lia|lia|exact Hm].
Qed.

Lemma rest_unmapped va : is_u32 va → page_count <= va / 4096 → va / 4096 ≠ 0xBFFFF →
  walk m dir va = Some va ∧ user_walk m dir va = None.
Proof.
  intros Hva Hge Hne. destruct (walk_space m dir sp' (do_space _ _ _ _ _ _ (ld_dir _ _ _ _ _ _ Hld)) va Hva) as [-> ->].
  destruct (sp_map_elsewhere sp 0xBFFFF pt (a / 4096 * 4096 + 7) true va (cm_cons _ _ _ Hcm) ltac:(lia) Hva Hne)
    as [-> ->]. by apply (cm_rest _ _ _ Hcm).
Qed.

(** A byte that ring 3 reaches is in one of the pages. *)
Lemma user_page va pa : is_u32 va → user_walk m dir va = Some pa → ∃ p f, (p, f) ∈ (a, λ _, 0) :: pages ∧ maps_to sp' (va / 4096) p ∧
  pa = p + va mod 4096 ∧ (va / 4096 = 0xBFFFF ∧ p = a ∨ 0 <= va / 4096 < page_count ∧ p ≠ a ∧ maps_to sp (va / 4096) p).
Proof.
  intros Hva Hw. assert (∀ p, maps_to sp' (va / 4096) p → pa = p + va mod 4096) as Hpa.
  { intros p Hm. destruct (Hm va Hva eq_refl) as [_ E].
    destruct (walk_space m dir sp' (do_space _ _ _ _ _ _ (ld_dir _ _ _ _ _ _ Hld)) va Hva) as [_ Ew]. congruence. }
  destruct (Z_lt_le_dec (va / 4096) page_count) as [Hlt|Hge].
  - assert (0 <= va / 4096 < page_count) as Hin by (split; [clear - Hva; word_lia|exact Hlt]).
    destruct (code_maps (va / 4096) Hin) as (p & Hp & Hm & Hm'). exists p, (content (va / 4096)).
    split; [apply list_elem_of_further; exact Hp|]. split; [exact Hm'|]. split; [exact (Hpa _ Hm')|]. right. split; [exact Hin|]. split; [exact (Hfr _ _ Hp)|exact Hm].
  - destruct (Z.eq_dec (va / 4096) 0xBFFFF) as [Heq|Hne]; [|destruct (rest_unmapped va Hva Hge Hne) as [_ Hn]; congruence].
    exists a, (λ _, 0). rewrite Heq in Hpa |- *. split; [apply list_elem_of_here|]. split; [exact stack_maps|]. split; [exact (Hpa _ stack_maps)|].
    left. split; reflexivity.
Qed.

Lemma user_page_inj va va' pa : is_u32 va → is_u32 va' → user_walk m dir va = Some pa → user_walk m dir va' = Some pa → va = va'.
Proof.
  intros Hva Hva' Hw Hw'.
  destruct (user_page va pa Hva Hw) as (p & f & Hp & _ & -> & Hc). destruct (user_page va' _ Hva' Hw') as (p' & f' & Hp' & _ & E & Hc').
  destruct (ow_page _ _ _ _ (proj1 (ld_pages _ _ _ _ _ _ Hld _ _ Hp))) as [_ Hal].
  destruct (ow_page _ _ _ _ (proj1 (ld_pages _ _ _ _ _ _ Hld _ _ Hp'))) as [_ Hal'].
  assert (p = p' ∧ va mod 4096 = va' mod 4096) as [-> Hmod] by (clear - E Hal Hal'; word_lia).
  assert (va / 4096 = va' / 4096) as Hdiv; [|clear - Hmod Hdiv; word_lia].
  destruct Hc as [[-> Ea]|(Hr & Hne & Hm)], Hc' as [[-> Ea']|(Hr' & Hne' & Hm')];
    [reflexivity|destruct (Hne' Ea)|destruct (Hne Ea')|].
  exact (cm_inj _ _ _ Hcm _ _ _ Hr Hr' Hm Hm').
Qed.

(** The pages, the page tables and the kernel stack do not overlap. *)
Lemma user_page_apart va pa : is_u32 va → user_walk m dir va = Some pa → ¬ footprint dir sp' pa ∧ ¬ within ks 4096 pa.
Proof.
  intros Hva Hw. destruct (user_page va pa Hva Hw) as (p & f & Hp & _ & -> & _).
  destruct (ld_pages _ _ _ _ _ _ Hld _ _ Hp) as (Ho & Hne & _). assert (within p 4096 (p + va mod 4096)) as Hin by (unfold within; clear; word_lia).
  split; [by apply (ow_data _ _ _ _ Ho)|]. eapply pages_disjoint; [apply Ho|apply Hld|exact Hne|exact Hin].
Qed.

Lemma code_loaded : nfree fa = nfree fa0 - (frames_for page_count + 4) → loaded m fa dir.
Proof.
  intros Hleft. pose proof page_count_bound as Hpc. split.
  - intros va Hva. assert (is_u32 va) as Hu by lia.
    destruct (code_maps (va / 4096)) as (p & Hp & _ & Hm); [clear - Hva; word_lia|].
    apply (list_elem_of_further _ (a, λ _, 0)) in Hp.
    destruct (mapped_byte _ _ _ _ _ _ _ _ _ va Hld Hm Hp Hu eq_refl) as (pa & H1 & H2 & H3 & _).
    exists pa. split; [exact H1|]. split; [exact H2|]. rewrite H3. unfold content.
    do 2 f_equal. clear. word_lia.
  - intros va Hva%stack_page.
    destruct (mapped_byte _ _ _ _ _ _ _ _ _ va Hld stack_maps (list_elem_of_here _ _)) as (pa & H1 & H2 & H3 & _);
      [clear - Hva; word_lia|exact Hva|].
    exists pa. split; [exact H1|]. split; [exact H2|exact H3].
  - intros va Hva Hge Hns. rewrite stack_page in Hns. apply rest_unmapped; [exact Hva| |exact Hns].
    clear - Hge. word_lia.
  - intros va pa Hva Hw. destruct (user_page va pa Hva Hw) as (p & f & Hp & Hm & _).
    destruct (mapped_byte _ _ _ _ _ _ _ _ _ va Hld Hm Hp Hva eq_refl) as (pa' & H1 & _ & _ & H4).
    assert (pa' = pa) as -> by congruence. exact H4.
  - exact user_page_inj.
  - exists sp'. destruct (ld_dir _ _ _ _ _ _ Hld) as [_ Hsp HR Htk]. split; [exact Hsp|].
    split; [intros x (g & Hg & Hgf & Hx); exact (Htk g x Hg Hgf Hx)|]. split; [exact HR|]. intros va pa Hva Hw. by apply (user_page_apart va).
  - apply (ld_dir _ _ _ _ _ _ Hld).
  - apply Hld.
  - exact Hleft.
Qed.
End code_loaded.

(** The kernel stack at [ks] is apart from all the process has. *)
Definition stack_apart (m : mem) (fa : A) (dir ks : Z) : Prop :=
  ∃ sp, space_at m dir sp ∧ (∀ x, within ks 4096 x → ¬ footprint dir sp x ∧ ¬ free_bytes fa x) ∧
    (∀ x, free_bytes fa x → ¬ footprint dir sp x) ∧ (∀ x, footprint dir sp x → free_bytes fa0 x) ∧
    ∀ va pa, is_u32 va → user_walk m dir va = Some pa → ¬ footprint dir sp pa ∧ ¬ within ks 4096 pa.

Lemma loading_apart m fa dir sp ks pages : loading m fa dir sp ks pages →
  (∀ va pa, is_u32 va → user_walk m dir va = Some pa → ¬ footprint dir sp pa ∧ ¬ within ks 4096 pa) → stack_apart m fa dir ks.
Proof.
  intros Hld Hup. exists sp. destruct (ld_dir _ _ _ _ _ _ Hld) as [_ Hsp HR Htk], (ld_ks _ _ _ _ _ _ Hld) as [[Hk Hal] _ Hnow Hdat].
  split; [exact Hsp|]. split; [|split; [|split; [exact HR|exact Hup]]].
  - intros x Hx. split; [by apply Hdat|]. intros (g & Hg & Hgf & Hin).
    assert (ks / 4096 = g) as E by (unfold within in *; clear - Hx Hin Hal; word_lia). congruence.
  - intros x (g & Hg & Hgf & Hx). exact (Htk g x Hg Hgf Hx).
Qed.

(** ** From the first frame to the table *)

Context (trampoline : Z) (Htramp : is_u32 trampoline).
Context (name : Z) (nm : list Z).
Context (Hname : ∀ m', changes_only F m0 m' → cstring_at cr3 m' name nm).
Context (t : proctab) (Ht : tab_wf t).

(** What process_create returns: -1 with the table as it was, or the pid of
    the process it entered in the slot; [enough] says whether the frames
    sufficed. *)
Definition created (slot : nat) (enough : Prop) (r : Z) (m : mem) (fa : A) (t' : proctab) : Prop :=
  changes_only F m0 m ∧ shrunk fa ∧
  (r = -1 ∧ t' = t ∧ ¬ enough ∨
   ∃ p dir ks, procs t !! slot = Some p ∧ r = s32 (next_pid t) ∧
     t' = mkTab (<[slot := mkProc (next_pid t) PROC_STATE_READY (ks + 4052) dir ks (ks +ᵤ 4096)
                              (take 31 nm ++ 0 :: drop (S (length (take 31 nm))) (p_name p))]> (procs t))
            (current t) (next_pid t +ᵤ 1) ∧
     entry_frame m trampoline ks ∧ page_addr ks ∧
     fa_free fa0 (ks / 4096) = true ∧ fa_free fa (ks / 4096) = false ∧
     (enough → loaded m fa dir ∧ stack_apart m fa dir ks)).

Lemma entry_frame_push m ks :
  (∀ i w, [0x23; USER_STACK_TOP; 0x0202; 0x1B; USER_CODE_VIRT; trampoline; 0; 0; 0; 0; 0x0002] !! i = Some w →
     ld32 m (ks + 4096 - 4 * (Z.of_nat i + 1)) = w) → entry_frame m trampoline ks.
Proof.
  intros Hw i w Hi. pose proof (lookup_lt_Some _ _ _ Hi) as Hlt. change (length (entry_words trampoline)) with 11%nat in Hlt.
  replace (ks + 4052 + 4 * Z.of_nat i) with (ks + 4096 - 4 * (Z.of_nat (10 - i) + 1)) by lia. apply Hw.
  do 11 (destruct i as [|i]; [exact Hi|]). lia.
Qed.

Lemma name_read m : changes_only F m0 m →
  strlen cr3 m name = Some (Z.of_nat (length nm)) ∧
  read_name cr3 m name (if (PROC_NAME_MAX - 1) <? Z.of_nat (length nm) then PROC_NAME_MAX - 1
                        else Z.of_nat (length nm)) = Some (take 31 nm).
Proof.
  intros Hm. pose proof (Hname m Hm) as Hc. split; [by apply strlen_spec|].
  destruct (Z.ltb_spec (PROC_NAME_MAX - 1) (Z.of_nat (length nm))) as [Hlt|Hge].
  - rewrite (read_name_spec m name nm (PROC_NAME_MAX - 1) Hc) by lia. done.
  - rewrite (read_name_spec m name nm _ Hc) by lia. rewrite Nat2Z.id, !take_ge by lia. done.
Qed.

Lemma install_at slot p sp dir kb kt l : procs t !! slot = Some p →
  proc_install (Z.of_nat slot) sp dir kb kt l t =
    Some (mkTab (<[slot := mkProc (next_pid t) PROC_STATE_READY sp dir kb kt
                             (l ++ 0 :: drop (S (length l)) (p_name p))]> (procs t))
            (current t) (next_pid t +ᵤ 1)).
Proof. intros Hp. unfold proc_install. by rewrite (proc_set_at _ _ _ p). Qed.

Lemma finish_process_spec slot dir ks s (enough : Prop) p :
  load_inv dir ks (nfree fa0 - 2) page_count s → procs t !! slot = Some p →
  (enough → frames_for page_count + 4 <= nfree fa0) →
  ∃ r m fa t', finish_process cr3 trampoline name (Z.of_nat slot) dir ks s.1 s.2 t = Some (r, (m, fa, t')) ∧
    created slot enough r m fa t'.
Proof.
  intros (sp & pages & Hld & Hmap) Hp Hen1. destruct s as [m fa]. cbn [fst snd] in *.
  unfold finish_process.
  destruct (ld_alloc _ _ _ _ _ _ Hld) as (a & fa1 & -> & Hal). rewrite bind_Some.
  destruct Hal as [(-> & -> & Hno)|(Hne & Hnf & Hld1 & Hown & Hak & Hfr)].
  { do 4 eexists. split; [reflexivity|]. split; [apply Hld|]. split; [exact (loading_shrunk _ _ _ _ _ _ Hld)|].
    left. split; [reflexivity|]. split; [reflexivity|].
    intros He. destruct Hmap as [_ Hn]; [specialize (Hen1 He); lia|]. specialize (Hen1 He). lia. }
  rewrite (proj2 (Z.eqb_neq a 0)) by exact Hne. pose proof (ow_page _ _ _ _ Hown) as Hpa.
  pose proof Hpa as [Har _].
  destruct (memset_spec cr3 F m a 0 4096) as (m1 & -> & Hm1); try lia;
    [apply (ld_dir _ _ _ _ _ _ Hld)|intros x Hx; exact (owned_F _ _ _ _ _ Hown Hx)|]. rewrite bind_Some.
  assert (loading m1 fa1 dir sp ks ((a, λ _, 0) :: pages)) as Hld2.
  { eapply ld_fill; [exact Hld1|exact Hown|exact Hak|exact Hfr| |].
    - intros x Hx Hn. rewrite Hm1 by exact Hx. rewrite decide_False by exact Hn. reflexivity.
    - intros k Hk. rewrite Hm1 by lia. rewrite decide_True by (unfold within; lia). reflexivity. }
  destruct (ld_map _ _ _ _ _ _ USER_STACK_VIRT a Hld2) as (m2 & fa2 & -> & Hout); [lia|lia|].
  rewrite bind_Some. change (USER_STACK_VIRT / 4096) with 0xBFFFF in Hout.
  assert (∃ sp' pages', loading m2 fa2 dir sp' ks pages' ∧
    (enough → loading m2 fa2 dir sp' ks pages' ∧
       nfree fa2 = nfree fa0 - (frames_for page_count + 4) ∧
       ∃ pt pages0, code_mapped page_count sp pages0 ∧ (∀ p f, (p, f) ∈ pages0 → p ≠ a) ∧ sp' = sp_map sp 0xBFFFF pt (a / 4096 * 4096 + 7) true ∧
          pages' = (a, λ _, 0) :: pages0)) as (sp' & pages' & Hld3 & Hdone).
  { destruct Hout as [(-> & -> & Hcost & Hno)|(pt & Hld3 & Hnf2)].
    - do 2 eexists. split; [exact Hld2|]. intros He. specialize (Hen1 He).
      destruct Hmap as [_ Hn]; [lia|]. lia.
    - do 2 eexists. split; [exact Hld3|]. intros He. split; [exact Hld3|].
      specialize (Hen1 He). destruct Hmap as [Hcm Hn]; [lia|]. split.
      + rewrite Hnf2, Hnf, Hn. unfold table_cost.
        rewrite (cm_large _ _ _ Hcm) by (pose proof page_count_bound; change (USER_STACK_VIRT / 4194304) with 767; lia).
        lia.
      + exists pt, pages. split; [exact Hcm|]. split; [exact Hfr|]. split; reflexivity. }
  pose proof (ld_ks _ _ _ _ _ _ Hld3) as Hks. pose proof (ow_page _ _ _ _ Hks) as [Hksr _].
  destruct (push_all_spec cr3 F [0x23; USER_STACK_TOP; 0x0202; 0x1B; USER_CODE_VIRT; trampoline; 0; 0; 0; 0; 0x0002]
    m2 (ks + 4096)) as (m3 & -> & Hc3 & Hw3).
  { apply (ld_dir _ _ _ _ _ _ Hld3). } { cbn [length]; lia. }
  { intros x Hx. apply (owned_F _ _ _ _ _ Hks). unfold within in *. cbn [length] in Hx. lia. }
  { repeat (constructor; [lia|]). constructor. }
  rewrite bind_Some.
  assert (loading m3 fa2 dir sp' ks pages') as Hld4.
  { eapply ld_stack; [exact Hld3|]. eapply changes_only_mono; [|exact Hc3]. unfold within. cbn [length]. lia. }
  destruct (name_read m3 (ld_mem _ _ _ _ _ _ Hld4)) as [-> Hrn]. rewrite bind_Some. cbv zeta.
  rewrite Hrn, bind_Some, (install_at _ _ _ _ _ _ _ Hp), bind_Some.
  do 4 eexists. split; [reflexivity|]. split; [apply Hld4|]. split; [exact (loading_shrunk _ _ _ _ _ _ Hld4)|]. right. exists p, dir, ks.
  split; [exact Hp|]. split; [reflexivity|]. split.
  { cbn [length]. replace (u32 (ks + 4096 - 4 * Z.of_nat 11)) with (ks + 4052)
      by (symmetry; rewrite u32_small by lia; lia). reflexivity. }
  split; [exact (entry_frame_push _ _ Hw3)|]. split; [apply Hks|]. split; [apply Hks|]. split; [apply Hks|].
  intros He. destruct (Hdone He) as (_ & Hleft & pt & pages0 & Hcm & Hfr0 & -> & ->).
  split; [exact (code_loaded _ _ _ _ _ _ _ _ Hcm Hpa Hfr0 Hld4 Hleft)|].
  eapply loading_apart; [exact Hld4|]. exact (user_page_apart _ _ _ _ _ _ _ _ Hcm Hpa Hfr0 Hld4).
Qed.

Context (Henv : kenv cr3 F m0 fa0).

(** The frames process_create needs. *)
Definition frames_needed : Z := frames_for page_count + 4.

Lemma identity_mapped : code_mapped 0 identity_space [].
Proof.
  split.
  - intros j Hj. lia.
  - intros va Hva _. split; reflexivity.
  - exact identity_consistent.
  - intros k _ _. reflexivity.
  - intros k Hk Hlt. lia.
  - intros j j' p Hj. lia.
Qed.

(** Kernel stack and directory in place, nothing mapped. *)
Lemma start_loading m1 m2 fa1 fa2 ks dir :
  frame_taken fa0 ks fa1 → ks ≠ 0 → changes_only (within ks 4096) m0 m1 →
  frame_taken fa1 dir fa2 → dir ≠ 0 → dir_owned cr3 F m2 fa2 dir identity_space →
  changes_only (within dir 4096) m1 m2 →
  loading m2 fa2 dir identity_space ks [].
Proof.
  intros Ht1 Hks Hc1 Ht2 Hdir Hd Hc2.
  destruct Ht1 as [|ks fa1 Hkp _ Hkf Hfa1]; [by destruct Hks|].
  destruct Ht2 as [|dir fa2 Hdp _ Hdf Hfa2]; [by destruct Hdir|].
  assert (∀ g, 0 <= g < MAX_FRAMES → fa_free fa1 g = true → fa_free fa0 g = true) as Hsub.
  { intros g Hg Hgf. rewrite Hfa1 in Hgf by exact Hg. by apply andb_prop in Hgf as [_ Hgf]. }
  assert (fa_free fa1 (ks / 4096) = false) as Hk1
    by (rewrite Hfa1, Z.eqb_refl by exact (page_frame _ Hkp); reflexivity).
  split.
  - exact Hd.
  - intros g Hg Hgf. rewrite Hfa2 in Hgf by exact Hg. apply andb_prop in Hgf as [_ Hgf]. by apply Hsub.
  - eapply (changes_only_trans _ _ m1).
    + eapply changes_only_mono; [|exact Hc1]. intros x Hx. exists (ks / 4096).
      split; [exact (page_frame _ Hkp)|]. split; [exact Hkf|]. by apply (page_index ks).
    + eapply changes_only_mono; [|exact Hc2]. intros x Hx. apply (do_R _ _ _ _ _ _ Hd). by left.
  - split; [exact Hkp|exact Hkf| |].
    + rewrite Hfa2, Hk1 by exact (page_frame _ Hkp). apply andb_false_r.
    + intros x Hx [Hin|(i & pt & u & _ & Hbad & _)]; [|discriminate Hbad].
      assert (ks ≠ dir) as Hne by congruence. exact (pages_disjoint _ _ _ Hkp Hdp Hne Hx Hin).
  - intros p f Hp. by apply elem_of_nil in Hp.
Qed.

Lemma build_process_spec slot p : procs t !! slot = Some p →
  ∃ r m fa t', build_process cr3 trampoline name (Z.of_nat slot) pd size m0 fa0 t = Some (r, (m, fa, t')) ∧
    created slot (frames_needed <= nfree fa0) r m fa t'.
Proof.
  intros Hp. unfold build_process. pose proof page_count_bound as Hpc.
  replace ((size +ᵤ PAGE_SIZE -ᵤ 1) / PAGE_SIZE) with page_count
    by (unfold page_count; rewrite (u32_small (size + _)), u32_small by lia; do 2 f_equal; lia).
  destruct (kenv_alloc cr3 F m0 fa0 Henv) as (ks & fa1 & -> & Hke1 & Ht1 & HR1). rewrite bind_Some.
  assert (0 <= frames_for page_count) as Hff by (unfold frames_for; clear - Hpc; word_lia).
  destruct (Z.eqb_spec ks 0) as [->|Hks].
  { do 4 eexists. split; [reflexivity|]. split; [exact (changes_only_refl _ _)|].
    split; [exact (taken_shrunk _ _ (ke_ok _ _ _ _ Hke1) Ht1)|]. left. split; [reflexivity|]. split; [reflexivity|].
    pose proof (taken_zero _ _ Ht1). unfold frames_needed. lia. }
  pose proof (taken_page _ _ _ Ht1 Hks) as Hkp. pose proof Hkp as [Hkr _].
  destruct (memset_spec cr3 F m0 ks 0 4096) as (m1 & -> & Hm1); try lia; [apply Henv|by apply HR1|].
  rewrite bind_Some.
  assert (changes_only (within ks 4096) m0 m1) as Hc1.
  { intros x Hx Hn. rewrite Hm1 by exact Hx. rewrite decide_False by exact Hn. reflexivity. }
  assert (kenv cr3 F m1 fa1) as Hke1'.
  { eapply kenv_changes; [exact Hke1|]. eapply changes_only_mono; [|exact Hc1]. by apply HR1. }
  destruct (paging_create_kernel_dir_spec cr3 F m1 fa1 Hke1') as (dir & m2 & fa2 & -> & Ht2 & Hd).
  rewrite bind_Some. pose proof (nfree_taken _ _ _ Ht1 Hks) as Hn1.
  destruct (Z.eqb_spec dir 0) as [->|Hdir].
  { do 4 eexists. split; [reflexivity|]. destruct Hd as [[_ ->]|[Hbad _]]; [|by destruct Hbad].
    split; [eapply changes_only_mono; [|exact Hc1]; by apply HR1|].
    split; [inversion Ht2 as [Hno|? ? _ Hbad]; subst; [exact (taken_shrunk _ _ (ke_ok _ _ _ _ Hke1) Ht1)|by destruct Hbad]|]. left. split; [reflexivity|]. split; [reflexivity|].
    pose proof (taken_zero _ _ Ht2). unfold frames_needed. lia. }
  destruct Hd as [[Hbad _]|(_ & Hd & Hc2)]; [by destruct Hdir|].
  pose proof (start_loading _ _ _ _ _ _ Ht1 Hks Hc1 Ht2 Hdir Hd Hc2) as Hld.
  pose proof (nfree_taken _ _ _ Ht2 Hdir) as Hn2.
  destruct (loop_range_ind (λ i s, load_inv dir ks (nfree fa0 - 2) i s)
    (λ s, changes_only F m0 s.1 ∧ shrunk s.2 ∧ nfree fa0 - 2 < frames_for page_count)
    (load_page cr3 dir pd size) 0 page_count (m2, fa2)) as (o & -> & Ho); [lia| | |].
  - exists identity_space, []. split; [exact Hld|]. intros _. split; [exact identity_mapped|].
    cbn [snd]. unfold frames_for. change ((0 + 1023) / 1024) with 0. lia.
  - intros j s Hj HI. destruct (load_page_spec dir ks (nfree fa0 - 2) j s) as (o & -> & Ho);
      [lia|unfold page_count in Hj; clear - Hj; word_lia|exact HI|].
    exists o. split; [reflexivity|]. destruct o as [s'|s']; [exact Ho|]. destruct Ho as (Hc & Hsh & Hlt).
    split; [exact Hc|]. split; [exact Hsh|]. assert (frames_for (j + 1) <= frames_for page_count); [|lia].
    unfold frames_for. pose proof (Z.div_le_mono (j + 1 + 1023) (page_count + 1023) 1024). lia.
  - rewrite bind_Some. destruct o as [[m3 fa3]|[m3 fa3]].
    + apply (finish_process_spec slot dir ks (m3, fa3) _ p Ho Hp). unfold frames_needed. lia.
    + do 4 eexists. split; [reflexivity|]. destruct Ho as (Hc & Hsh & Hlt). split; [exact Hc|]. split; [exact Hsh|]. left.
      split; [reflexivity|]. split; [reflexivity|]. unfold frames_needed. lia.
Qed.
End loader.

Arguments loaded {A _} _ _ _ _ _.
Arguments page_count _ : clear implicits.

(** ** The call *)

(** The conditions of a call: the free frames are identity-mapped, the image
    and the name lie outside them, and the name is that of a file whose bytes
    are [data]. *)
Record loadable {A} `{FrameAllocLaws A} (cr3 : Z) (m : mem) (fa : A) (t : proctab)
    (base : Z) (files : list file) (name : Z) (nm data : list Z) : Prop := {
  la_env : kenv cr3 (free_bytes fa) m fa;
  la_tab : tab_wf t;
  la_fs : sofs_stable cr3 (free_bytes fa) m base files;
  la_name : ∀ m', changes_only (free_bytes fa) m m' → cstring_at cr3 m' name nm;
  la_file : ∃ i f, list_find (λ f, f_name f = nm) files = Some (i, f) ∧
    f_size f = Z.of_nat (length data) ∧ (base +ᵤ f_offset f) + Z.of_nat (length data) <= 4294967296 ∧
    ∀ k b, data !! k = Some b → is_u8 b ∧
      kreads cr3 (free_bytes fa) m ((base +ᵤ f_offset f) + Z.of_nat k) b;
  la_size : Z.of_nat (length data) <= 0xBFC00000
}.

Lemma process_create_spec {A} `{FrameAllocLaws A} cr3 tr m (fa : A) t base files name nm data :
  loadable cr3 m fa t base files name nm data → is_u32 tr →
  (∃ slot r m' fa' t', first_dead t slot ∧
     process_create cr3 tr (mounted base) name m fa t = Some (r, (m', fa', t')) ∧
     created m fa data tr nm t slot (frames_needed data <= nfree fa) r m' fa' t') ∨
  (∀ i p, procs t !! i = Some p → state p ≠ PROC_STATE_DEAD) ∧
  process_create cr3 tr (mounted base) name m fa t = Some (-1, (m, fa, t)).
Proof.
  intros [Henv Ht Hfs Hnm (i & f & Hfind & Hsz & Hfit & Hdata) Hsize] Htr. unfold process_create.
  destruct (find_slot_spec t Ht) as [(slot & -> & Hs16 & Hdead)|[-> Hno]]; [left|right; by split].
  rewrite bind_Some, (proj2 (Z.eqb_neq (Z.of_nat slot) 16)) by lia.
  pose proof (Hfs m (changes_only_refl _ _)) as Hso.
  rewrite (fs_find_spec _ _ _ _ Hso _ _ (Hnm m (changes_only_refl _ _))), Hfind, !bind_Some.
  rewrite (proj2 (Z.ltb_ge (Z.of_nat i) 0)) by lia. apply list_find_Some in Hfind as (Hi & _ & _).
  destruct (fs_file_spec _ _ _ _ Hso _ _ Hi) as (-> & -> & _). rewrite !bind_Some, Hsz.
  destruct Hdead as [(p & Hp & Hpd) Hfirst].
  edestruct (build_process_spec cr3 m fa data (base +ᵤ f_offset f) Hdata (proj1 (u32_range _)) Hfit Hsize
    tr Htr name nm Hnm t Henv slot p Hp) as (r & m' & fa' & t' & Heq & Hcr).
  exists slot, r, m', fa', t'. split; [split; [by exists p|exact Hfirst]|]. split; [exact Heq|exact Hcr].
Qed.

(** The table with the new process. *)
Definition with_process (t : proctab) (slot : nat) (p : process) (dir ks : Z) (nm : list Z) : proctab :=
  mkTab (<[slot := mkProc (next_pid t) PROC_STATE_READY (ks + 4052) dir ks (ks +ᵤ 4096)
                     (take 31 nm ++ 0 :: drop (S (length (take 31 nm))) (p_name p))]> (procs t))
        (current t) (next_pid t +ᵤ 1).

Lemma create_enough {A} `{FrameAllocLaws A} cr3 tr m (fa : A) t base files name nm data slot :
  loadable cr3 m fa t base files name nm data → is_u32 tr → first_dead t slot →
  frames_needed data <= nfree fa →
  ∃ m' fa' p dir ks, procs t !! slot = Some p ∧
    process_create cr3 tr (mounted base) name m fa t =
      Some (s32 (next_pid t), (m', fa', with_process t slot p dir ks nm)) ∧
    changes_only (free_bytes fa) m m' ∧ entry_frame m' tr ks ∧ (page_addr ks ∧ fa_free fa (ks / 4096) = true) ∧
    loaded fa data m' fa' dir ∧ stack_apart fa m' fa' dir ks.
Proof.
  intros Hla Htr Hdead Hen.
  destruct (process_create_spec cr3 tr m fa t base files name nm data Hla Htr)
    as [(s & r & m' & fa' & t' & Hs & -> & Hc & _ & Hout)|[Hno _]].
  - assert (s = slot) as ->.
    { destruct Hs as [(p & Hp & Hd) Hf], Hdead as [(q & Hq & He) Hg].
      destruct (lt_eq_lt_dec s slot) as [[Hlt| ->]|Hlt]; [|done|].
      - by destruct (Hg _ _ Hlt Hp).
      - by destruct (Hf _ _ Hlt Hq). }
    destruct Hout as [(_ & _ & Hne)|(p & dir & ks & Hp & -> & -> & Hef & Hkp & Hkf & _ & Hl)]; [by destruct (Hne Hen)|].
    exists m', fa', p, dir, ks. split; [exact Hp|]. split; [reflexivity|]. split; [exact Hc|].
    split; [exact Hef|]. split; [exact (conj Hkp Hkf)|exact (Hl Hen)].
  - destruct Hdead as [(p & Hp & Hd) _]. by destruct (Hno _ _ Hp).
Qed.

Lemma with_process_wf t slot p dir ks nm : tab_wf t → on_cpu t → procs t !! slot = Some p →
  state p = PROC_STATE_DEAD → Forall (λ b, is_u8 b) nm → 0 < next_pid t < 4294967295 →
  tab_wf (with_process t slot p dir ks nm).
Proof.
  intros Ht Hon Hp Hd Hnm Hpid.
  destruct (install_spec (Z.of_nat slot) (ks + 4052) dir ks (ks +ᵤ 4096) (take 31 nm) t
    (with_process t slot p dir ks nm) p) as [Hw _]; try done; try lia.
  - unfold proc_at. by rewrite Nat2Z.id.
  - rewrite length_take. lia.
  - by apply Forall_take.
  - unfold proc_install. by rewrite (proc_set_at _ _ _ p).
Qed.

Lemma cstring_u8 cr3 m a bs : cstring_at cr3 m a bs → Forall (λ b, is_u8 b) bs.
Proof. intros Hc. apply Forall_lookup. intros i b Hb. apply (cs_bytes _ _ _ _ Hc) in Hb as [_ ?]. lia. Qed.

(** What the next call finds: the same conditions, with fewer free frames. *)
Lemma loadable_next {A} `{FrameAllocLaws A} cr3 m m1 (fa fa1 : A) t t1 base files name nm data :
  loadable cr3 m fa t base files name nm data → changes_only (free_bytes fa) m m1 → fa_ok fa1 →
  (∀ g, 0 <= g < MAX_FRAMES → fa_free fa1 g = true → fa_free fa g = true) → tab_wf t1 →
  loadable cr3 m1 fa1 t1 base files name nm data.
Proof.
  intros [Henv Ht Hfs Hnm (i & f & Hfind & Hsz & Hfit & Hdata) Hsize] Hc Hok Hsub Ht1.
  assert (∀ x, free_bytes fa1 x → free_bytes fa x) as Hfb
    by (intros x (g & Hg & Hgf & Hx); exists g; split; [exact Hg|]; split; [exact (Hsub g Hg Hgf)|exact Hx]).
  assert (∀ m', changes_only (free_bytes fa1) m1 m' → changes_only (free_bytes fa) m m') as Hcc
    by (intros m' Hm'; eapply changes_only_trans; [exact Hc|]; exact (changes_only_mono _ _ _ _ Hfb Hm')).
  split.
  - split; [|exact Hok|].
    + eapply kmapped_mono; [exact Hfb|]. eapply kmapped_changes; [apply Henv|exact Hc].
    + intros g a Hg Hgf Ha. exists g. split; [exact Hg|]. split; [exact Hgf|exact Ha].
  - exact Ht1.
  - intros m' Hm'. exact (Hfs m' (Hcc m' Hm')).
  - intros m' Hm'. exact (Hnm m' (Hcc m' Hm')).
  - exists i, f. split; [exact Hfind|]. split; [exact Hsz|]. split; [exact Hfit|]. intros k b Hb.
    destruct (Hdata k b Hb) as [Hu Hr]. split; [exact Hu|]. intros m' Hm'. exact (Hr m' (Hcc m' Hm')).
  - exact Hsize.
Qed.

(** Memory written in frames that were free does not change a process loaded
    before. *)
Lemma loaded_stable {A} `{FrameAllocLaws A} (fa fa1 : A) data m1 m2 dir :
  loaded fa data m1 fa1 dir → changes_only (free_bytes fa1) m1 m2 →
  (∀ va, is_u32 va → user_walk m2 dir va = user_walk m1 dir va) ∧
  (∀ va pa, is_u32 va → user_walk m1 dir va = Some pa → ld8 m2 pa = ld8 m1 pa).
Proof.
  intros Hl Hc. destruct (lo_dir _ _ _ _ _ Hl) as (sp & Hsp & Hfp & _). split.
  - intros va Hva. assert (space_at m2 dir sp) as Hsp2.
    { eapply space_at_changes; [exact Hsp|]. exact (changes_only_mono _ _ _ _ Hfp Hc). }
    destruct (walk_space m1 dir sp Hsp va Hva) as [_ ->]. destruct (walk_space m2 dir sp Hsp2 va Hva) as [_ ->].
    reflexivity.
  - intros va pa Hva Hw. destruct (lo_private _ _ _ _ _ Hl va pa Hva Hw) as (Hpa & _ & Hnow).
    apply Hc; [exact Hpa|]. intros (g & Hg & Hgf & Hx).
    assert (pa / 4096 = g) as Heq by (unfold within in Hx; clear - Hx; word_lia). congruence.
Qed.

(** Nor does memory written outside the frames that were free at first. *)
Lemma loaded_outside {A} `{FrameAllocLaws A} (fa fa1 : A) data m1 m2 dir :
  loaded fa data m1 fa1 dir → Z.of_nat (length data) <= 0xBFC00000 → changes_only (λ x, ¬ free_bytes fa x) m1 m2 →
  loaded fa data m2 fa1 dir.
Proof.
  intros Hl Hsz Hc. destruct (lo_dir _ _ _ _ _ Hl) as (sp & Hsp & Hfp & Hfr & Hap).
  assert (space_at m2 dir sp) as Hsp2.
  { eapply space_at_changes; [exact Hsp|]. eapply changes_only_mono; [|exact Hc]. intros x Hx Hf. exact (Hx (Hfr x Hf)). }
  assert (∀ va, is_u32 va → walk m2 dir va = walk m1 dir va ∧ user_walk m2 dir va = user_walk m1 dir va) as Hw.
  { intros va Hva. destruct (walk_space m1 dir sp Hsp va Hva) as [-> ->].
    destruct (walk_space m2 dir sp Hsp2 va Hva) as [-> ->]. by split. }
  assert (∀ va pa, is_u32 va → user_walk m1 dir va = Some pa → ld8 m2 pa = ld8 m1 pa) as Hb.
  { intros va pa Hva Hp. destruct (lo_private _ _ _ _ _ Hl va pa Hva Hp) as (Hpa & Hf & _). apply Hc; [exact Hpa|].
    intros Hn. apply Hn. exists (pa / 4096). split; [clear - Hpa; word_lia|]. split; [exact Hf|]. unfold within. clear. word_lia. }
  pose proof (page_count_bound data Hsz) as Hpc. destruct Hl as [H1 H2 H3 H4 Hinj H5 H6 H7 H8]. split; [..|exact H6|exact H7|exact H8].
  - intros va Hva. assert (is_u32 va) as Hu by lia. destruct (H1 va Hva) as (pa & E1 & E2 & E3).
    exists pa. destruct (Hw va Hu) as [-> ->]. rewrite (Hb va pa Hu E1). split; [exact E1|]. split; [exact E2|exact E3].
  - intros va Hva. assert (is_u32 va) as Hu by (unfold within in Hva; lia). destruct (H2 va Hva) as (pa & E1 & E2 & E3).
    exists pa. destruct (Hw va Hu) as [-> ->]. rewrite (Hb va pa Hu E1). split; [exact E1|]. split; [exact E2|exact E3].
  - intros va Hva Hge Hst. destruct (Hw va Hva) as [-> ->]. exact (H3 va Hva Hge Hst).
  - intros va pa Hva. destruct (Hw va Hva) as [_ ->]. exact (H4 va pa Hva).
  - intros va va' pa Hva Hva'. destruct (Hw va Hva) as [_ ->]. destruct (Hw va' Hva') as [_ ->]. by apply Hinj.
  - exists sp. split; [exact Hsp2|]. split; [exact Hfp|]. split; [exact Hfr|].
    intros va pa Hva. destruct (Hw va Hva) as [_ ->]. by apply Hap.
Qed.

Lemma stack_apart_outside {A} `{FrameAllocLaws A} (fa fa1 : A) m1 m2 dir ks :
  stack_apart fa m1 fa1 dir ks → changes_only (λ x, ¬ free_bytes fa x) m1 m2 → stack_apart fa m2 fa1 dir ks.
Proof.
  intros (sp & Hsp & Hst & Hff & Hf0 & Hup) Hc.
  assert (space_at m2 dir sp) as Hsp2.
  { eapply space_at_changes; [exact Hsp|]. eapply changes_only_mono; [|exact Hc]. intros x Hx Hf. exact (Hx (Hf0 x Hf)). }
  exists sp. split; [exact Hsp2|]. split; [exact Hst|]. split; [exact Hff|]. split; [exact Hf0|].
  intros va pa Hva Hw. apply (Hup va pa Hva). destruct (walk_space m1 dir sp Hsp va Hva) as [_ ->].
  by destruct (walk_space m2 dir sp Hsp2 va Hva) as [_ <-].
Qed.

(** The entry frame, read through the process's own directory. *)
Lemma entry_frame_reads {A} `{FrameAllocLaws A} (fa fa' : A) data m dir tr ks :
  loaded fa data m fa' dir → entry_frame m tr ks → page_addr ks → 4096 * page_count data <= ks → ks ≠ USER_STACK_VIRT →
  ∀ k w, entry_words tr !! k = Some w → kld32 dir m (ks + 4052 + 4 * Z.of_nat k) = Some w.
Proof.
  intros Hl Hef [Hkr Hka] Hlow Hns k w Hk. rewrite <- (Hef k w Hk). pose proof (lookup_lt_Some _ _ _ Hk) as Hk11.
  change (length (entry_words tr)) with 11%nat in Hk11.
  assert (∀ x, 0 <= x < 4096 → kld8 dir m (ks + x) = Some (ld8 m (ks + x))) as Hrd.
  { intros x Hx. unfold kld8. destruct (lo_rest _ _ _ _ _ Hl (ks + x)) as [-> _]; [lia|lia| |reflexivity].
    rewrite stack_page. intros Hst. apply Hns. clear - Hst Hx Hka. word_lia. }
  unfold kld32, ld32. rewrite <- !Z.add_assoc. rewrite !Hrd by lia. reflexivity.
Qed.

(** ** What process_create does to the table, whatever its arguments *)

Lemma read_name_bytes cr3 m name n nm : read_name cr3 m name n = Some nm →
  length nm = Z.to_nat n ∧ Forall (λ b, is_u8 b) nm.
Proof.
  unfold read_name, for_range. rewrite Z.sub_0_r. generalize (Z.to_nat n) as k.
  assert (∀ k i acc, for_up k i (λ i acc, b ← kld8 cr3 m (name +ᵤ i); Some (acc ++ [b])) acc = Some nm →
    Forall (λ b, is_u8 b) acc → length nm = (length acc + k)%nat ∧ Forall (λ b, is_u8 b) nm) as Hup.
  { induction k as [|k IH]; intros i acc Hr HF; cbn [for_up] in Hr; [simplify_eq; split; [lia|done]|].
    destruct (kld8 cr3 m (name +ᵤ i)) as [b|] eqn:Hb; [|done]. rewrite !bind_Some in Hr.
    apply IH in Hr as [Hl Hf].
    - rewrite length_app in Hl. simpl in Hl. split; [lia|done].
    - apply Forall_app_2; [done|]. apply Forall_singleton. by eapply kld8_u8. }
  intros k Hr. by apply Hup in Hr.
Qed.

Lemma process_create_table {A} `{FrameAlloc A} cr3 tr fs name m (fa : A) t r m' fa' t' :
  tab_wf t → process_create cr3 tr fs name m fa t = Some (r, (m', fa', t')) →
  t' = t ∨ ∃ slot p sp dir kb kt nm, proc_at t slot = Some p ∧ 0 <= slot ∧ state p = PROC_STATE_DEAD ∧
    (length nm <= 31)%nat ∧ Forall (λ b, is_u8 b) nm ∧ proc_install slot sp dir kb kt nm t = Some t'.
Proof.
  intros Hw Hc. unfold process_create in Hc.
  destruct (find_slot_spec t Hw) as [(slot & Hf & Hs16 & [(p & Hp & Hd) _])|[Hf _]];
    rewrite Hf, bind_Some in Hc; [|left; simpl in Hc; by simplify_eq].
  rewrite (proj2 (Z.eqb_neq (Z.of_nat slot) 16)) in Hc by lia.
  repeat match type of Hc with
  | (_ ≫= _) = Some _ => apply option.bind_Some in Hc as (? & ?Hstep & Hc)
  | (if ?b then _ else _) = Some _ => destruct b; [left; by simplify_eq|]
  | build_process _ _ _ _ _ _ _ _ _ = _ => unfold build_process in Hc
  | (let '(_, _) := ?x in _) = _ => destruct x
  | match ?o with inl _ => _ | inr _ => _ end = _ => destruct o
  | finish_process _ _ _ _ _ _ _ _ _ = _ => unfold finish_process in Hc
  end; [right|left; by simplify_eq].
  simplify_eq.
  match goal with Hn : read_name _ _ _ _ = Some ?nm, Hi : proc_install _ _ _ _ _ ?nm _ = _ |- _ =>
    apply read_name_bytes in Hn as [Hl HF]; exists (Z.of_nat slot), p; do 4 eexists; exists nm;
    split; [unfold proc_at; by rewrite Nat2Z.id|]; split; [lia|]; split; [exact Hd|]; split; [|split; [exact HF|exact Hi]] end.
  rewrite Hl. clear. zcases.
Qed.

(** ** Properties *)

(** C2: process_create of an existing program, with a free slot and enough
    frames, returns the next pid, enters a READY process in the first DEAD
    slot, and its page directory shows ring 3 exactly the program at address 0
    (padded with zeros to whole pages) and one zeroed stack page; everything
    else is the kernel's identity mapping, closed to ring 3.  The kernel stack
    holds the words from which switch_context and iret enter the program.  Only
    frames that were free are written. *)
Theorem process_create_loads {A} `{FrameAllocLaws A} cr3 tr m (fa : A) t base files name nm data slot :
  loadable cr3 m fa t base files name nm data → is_u32 tr → first_dead t slot →
  frames_needed data <= nfree fa →
  ∃ m' fa' t' dir ks p, process_create cr3 tr (mounted base) name m fa t = Some (s32 (next_pid t), (m', fa', t')) ∧
    changes_only (free_bytes fa) m m' ∧ procs t !! slot = Some p ∧
    procs t' = <[slot := mkProc (next_pid t) PROC_STATE_READY (ks + 4052) dir ks (ks +ᵤ 4096)
                           (take 31 nm ++ 0 :: drop (S (length (take 31 nm))) (p_name p))]> (procs t) ∧
    next_pid t' = next_pid t +ᵤ 1 ∧ current t' = current t ∧
    entry_frame m' tr ks ∧ loaded fa data m' fa' dir.
Proof.
  intros Hla Htr Hdead Hen.
  destruct (create_enough cr3 tr m fa t base files name nm data slot Hla Htr Hdead Hen)
    as (m' & fa' & p & dir & ks & Hp & -> & Hc & Hef & Hkp & Hl & _).
  exists m', fa'. eexists. exists dir, ks, p. split; [reflexivity|]. split; [exact Hc|]. split; [exact Hp|].
  split; [reflexivity|]. split; [reflexivity|]. split; [reflexivity|]. split; [exact Hef|exact Hl].
Qed.

(** C39: whatever the number of free frames, process_create returns, writes
    nothing but frames that were free, and either returns -1 with the table as
    it was or adds one READY process; without a free slot it changes nothing. *)
Theorem process_create_total {A} `{FrameAllocLaws A} cr3 tr m (fa : A) t base files name nm data :
  loadable cr3 m fa t base files name nm data → is_u32 tr →
  ∃ r m' fa' t', process_create cr3 tr (mounted base) name m fa t = Some (r, (m', fa', t')) ∧
    changes_only (free_bytes fa) m m' ∧
    (r = -1 ∧ t' = t ∨
     r = s32 (next_pid t) ∧ ∃ slot p q, first_dead t slot ∧ procs t' = <[slot := q]> (procs t) ∧
       procs t !! slot = Some p ∧ pid q = next_pid t ∧ ready q ∧ current t' = current t) ∧
    ((∀ i p, procs t !! i = Some p → state p ≠ PROC_STATE_DEAD) → r = -1 ∧ m' = m ∧ fa' = fa).
Proof.
  intros Hla Htr. destruct (process_create_spec cr3 tr m fa t base files name nm data Hla Htr)
    as [(s & r & m' & fa' & t' & Hs & -> & Hc & _ & Hout)|[Hno ->]].
  - exists r, m', fa', t'. split; [reflexivity|]. split; [exact Hc|]. split.
    + destruct Hout as [(-> & -> & _)|(p & dir & ks & Hp & -> & -> & _)]; [by left|right].
      split; [reflexivity|]. exists s, p. eexists. split; [exact Hs|]. split; [reflexivity|]. by split_and!.
    + intros Hno. destruct Hs as [(p & Hp & Hd) _]. by destruct (Hno _ _ Hp).
  - exists (-1), m, fa, t. split; [reflexivity|]. split; [exact (changes_only_refl _ _)|]. split; [by left|done].
Qed.

(** A name no file of the image has gives -1 and nothing changes. *)
Theorem process_create_not_found {A} `{FrameAlloc A} cr3 tr m (fa : A) t base files name nm :
  tab_wf t → sofs_at cr3 m base files → cstring_at cr3 m name nm → (∀ f, f ∈ files → f_name f ≠ nm) →
  process_create cr3 tr (mounted base) name m fa t = Some (-1, (m, fa, t)).
Proof.
  intros Ht Hs Hn Hno. unfold process_create.
  destruct (find_slot_spec t Ht) as [(slot & -> & Hs16 & _)|[-> _]]; [|reflexivity].
  rewrite bind_Some, (proj2 (Z.eqb_neq (Z.of_nat slot) 16)) by lia.
  rewrite (fs_find_spec _ _ _ _ Hs _ _ Hn), (proj2 (list_find_None _ _)); [reflexivity|].
  by apply Forall_forall.
Qed.

Lemma two_dead t i j p q : i ≠ j → procs t !! i = Some p → procs t !! j = Some q →
  state p = PROC_STATE_DEAD → state q = PROC_STATE_DEAD → tab_wf t →
  ∃ s, first_dead t s ∧ ∀ x, ready x → ∃ s', first_dead (mkTab (<[s := x]> (procs t)) (current t) (next_pid t +ᵤ 1)) s'.
Proof.
  intros Hij Hp Hq Hpd Hqd Ht.
  assert (∀ ps k r, ps !! k = Some r → state r = PROC_STATE_DEAD →
    ∃ s, ∀ c n, first_dead (mkTab ps c n) s) as Hex.
  { intros ps. induction ps as [|r ps IH]; intros k r' Hk Hd; [done|].
    destruct (decide (state r = PROC_STATE_DEAD)) as [Hr|Hr].
    - exists O. intros c n. split; [by exists r|]. intros k' ? ?. lia.
    - destruct k as [|k]; simpl in Hk; [by simplify_eq|]. destruct (IH _ _ Hk Hd) as [s Hs].
      exists (S s). intros c n. destruct (Hs c n) as [(r0 & Hr0 & Hd0) Hf]. split; [by exists r0|].
      intros [|k'] r1 Hlt Hr1; simpl in *; [by simplify_eq|]. eapply (Hf k'); [lia|done]. }
  destruct (Hex _ _ _ Hp Hpd) as [s Hs]. exists s. specialize (Hs (current t) (next_pid t)).
  split; [by destruct t|]. intros x Hx.
  destruct (decide (s = i)) as [->|Hne].
  - destruct (Hex (<[i := x]> (procs t)) j q) as [s' Hs']; [by rewrite list_lookup_insert_ne|done|]. by exists s'.
  - destruct (Hex (<[s := x]> (procs t)) i p) as [s' Hs']; [by rewrite list_lookup_insert_ne|done|]. by exists s'.
Qed.

(** C3: two processes created one after the other are isolated: the second
    call changes neither the first one's mappings nor a byte it can see, its
    stack page included, each still reads its own program, and no frame is
    visible to both. *)
Theorem process_isolation {A} `{FrameAllocLaws A} cr3 tr m (fa : A) t base files
    name1 nm1 data1 name2 nm2 data2 i j p q :
  loadable cr3 m fa t base files name1 nm1 data1 → loadable cr3 m fa t base files name2 nm2 data2 →
  is_u32 tr → on_cpu t → 0 < next_pid t < 4294967295 →
  i ≠ j → procs t !! i = Some p → procs t !! j = Some q →
  state p = PROC_STATE_DEAD → state q = PROC_STATE_DEAD →
  frames_needed data1 + frames_needed data2 <= nfree fa →
  ∃ r1 m1 fa1 t1 dir1 r2 m2 fa2 t2 dir2,
    process_create cr3 tr (mounted base) name1 m fa t = Some (r1, (m1, fa1, t1)) ∧
    process_create cr3 tr (mounted base) name2 m1 fa1 t1 = Some (r2, (m2, fa2, t2)) ∧
    (∃ s P, procs t1 !! s = Some P ∧ ready P ∧ page_dir_phys P = dir1) ∧
    (∃ s P, procs t2 !! s = Some P ∧ ready P ∧ page_dir_phys P = dir2) ∧
    (∀ va, is_u32 va → user_walk m2 dir1 va = user_walk m1 dir1 va) ∧
    (∀ va pa, is_u32 va → user_walk m1 dir1 va = Some pa → ld8 m2 pa = ld8 m1 pa) ∧
    (∀ va, 0 <= va < 4096 * page_count data1 → ∃ pa,
       user_walk m2 dir1 va = Some pa ∧ ld8 m2 pa = nth (Z.to_nat va) data1 0) ∧
    (∀ va, within USER_STACK_VIRT 4096 va → ∃ pa, user_walk m2 dir1 va = Some pa ∧ ld8 m2 pa = 0) ∧
    (∀ va, 0 <= va < 4096 * page_count data2 → ∃ pa,
       user_walk m2 dir2 va = Some pa ∧ ld8 m2 pa = nth (Z.to_nat va) data2 0) ∧
    (∀ va1 va2 pa1 pa2, is_u32 va1 → is_u32 va2 → user_walk m2 dir1 va1 = Some pa1 →
       user_walk m2 dir2 va2 = Some pa2 → pa1 / 4096 ≠ pa2 / 4096).
Proof.
  intros Hl1 Hl2 Htr Hon Hpid Hij Hp Hq Hpd Hqd Hen.
  assert (∀ d, 0 <= frames_needed d) as Hpos.
  { intros d. unfold frames_needed, frames_for, page_count. clear. word_lia. }
  pose proof (Hpos data1) as Hpos1. pose proof (Hpos data2) as Hpos2.
  pose proof (la_size _ _ _ _ _ _ _ _ _ Hl1) as Hsz1.
  destruct (two_dead t i j p q Hij Hp Hq Hpd Hqd (la_tab _ _ _ _ _ _ _ _ _ Hl1)) as (s1 & Hd1 & Hnext).
  destruct (create_enough cr3 tr m fa t base files name1 nm1 data1 s1 Hl1 Htr Hd1)
    as (m1 & fa1 & p1 & dir1 & ks1 & Hp1 & Heq1 & Hc1 & _ & _ & Hlo1 & _); [lia|].
  destruct (Hnext _ (eq_refl : ready (mkProc (next_pid t) PROC_STATE_READY (ks1 + 4052) dir1 ks1 (ks1 +ᵤ 4096)
    (take 31 nm1 ++ 0 :: drop (S (length (take 31 nm1))) (p_name p1))))) as (s2 & Hd2).
  assert (state p1 = PROC_STATE_DEAD) as Hp1d by (destruct Hd1 as [(p' & Hp' & Hd') _]; congruence).
  pose proof (cstring_u8 _ _ _ _ (la_name _ _ _ _ _ _ _ _ _ Hl1 m (changes_only_refl _ _))) as Hu8.
  pose proof (with_process_wf t s1 p1 dir1 ks1 nm1 (la_tab _ _ _ _ _ _ _ _ _ Hl1) Hon Hp1 Hp1d Hu8 Hpid) as Hwf1.
  pose proof (loadable_next cr3 m m1 fa fa1 t _ base files name2 nm2 data2 Hl2 Hc1
    (lo_ok _ _ _ _ _ Hlo1) (lo_sub _ _ _ _ _ Hlo1) Hwf1) as Hl2'.
  destruct (create_enough cr3 tr m1 fa1 _ base files name2 nm2 data2 s2 Hl2' Htr Hd2)
    as (m2 & fa2 & p2 & dir2 & ks2 & Hp2 & Heq2 & Hc2 & _ & _ & Hlo2 & _).
  { rewrite (lo_left _ _ _ _ _ Hlo1). unfold frames_needed in *. lia. }
  destruct (loaded_stable fa fa1 data1 m1 m2 dir1 Hlo1 Hc2) as [Hsame Hbytes].
  exists (s32 (next_pid t)), m1, fa1. eexists. exists dir1. do 4 eexists. exists dir2.
  split; [exact Heq1|]. split; [exact Heq2|]. split; [|split; [|split; [exact Hsame|split; [|split; [|split; [|split]]]]]].
  - exists s1. eexists. split; [apply list_lookup_insert_eq; by eapply lookup_lt_Some|]. done.
  - exists s2. eexists. split; [apply list_lookup_insert_eq; by eapply lookup_lt_Some|]. done.
  - intros va pa Hva Hw. exact (Hbytes va pa Hva Hw).
  - intros va Hva. destruct (lo_code _ _ _ _ _ Hlo1 va Hva) as (pa & Hw & _ & Hb).
    assert (is_u32 va) as Hu by (unfold page_count in Hva; clear - Hva Hsz1; word_lia).
    exists pa. rewrite Hsame by exact Hu. split; [exact Hw|]. rewrite (Hbytes va pa Hu Hw). exact Hb.
  - intros va Hva. destruct (lo_stack _ _ _ _ _ Hlo1 va Hva) as (pa & Hw & _ & Hb).
    assert (is_u32 va) as Hu by (unfold within in Hva; clear - Hva; word_lia).
    exists pa. rewrite Hsame by exact Hu. split; [exact Hw|]. rewrite (Hbytes va pa Hu Hw). exact Hb.
  - intros va Hva. destruct (lo_code _ _ _ _ _ Hlo2 va Hva) as (pa & Hw & _ & Hb). by exists pa.
  - intros va1 va2 pa1 pa2 Hu1 Hu2 Hw1 Hw2 Heq. rewrite Hsame in Hw1 by exact Hu1.
    destruct (lo_private _ _ _ _ _ Hlo1 va1 pa1 Hu1 Hw1) as (_ & _ & Hnot).
    destruct (lo_private _ _ _ _ _ Hlo2 va2 pa2 Hu2 Hw2) as (_ & Hfree & _). congruence.
Qed.

(** The kernel reads the entry frame of the new process through the
    process's own directory, as switch_context must, when the program does not
    reach the kernel stack's frame; when it does (a program longer than the
    physical address of the frame pfa_alloc gave), the directory shows the
    program's bytes in place of the kernel stack. *)
Theorem process_kernel_stack {A} `{FrameAllocLaws A} cr3 tr m (fa : A) t base files name nm data slot :
  loadable cr3 m fa t base files name nm data → is_u32 tr → first_dead t slot →
  frames_needed data <= nfree fa →
  ∃ m' fa' t' P, process_create cr3 tr (mounted base) name m fa t = Some (s32 (next_pid t), (m', fa', t')) ∧
    procs t' !! slot = Some P ∧ esp P = kernel_stack P + 4052 ∧
    (4096 * page_count data <= kernel_stack P → kernel_stack P ≠ USER_STACK_VIRT →
     ∀ k w, entry_words tr !! k = Some w →
       kld32 (page_dir_phys P) m' (esp P + 4 * Z.of_nat k) = Some w) ∧
    (∀ a, 0 <= a < 4096 * page_count data →
       kld8 (page_dir_phys P) m' a = Some (nth (Z.to_nat a) data 0)).
Proof.
  intros Hla Htr Hdead Hen.
  destruct (create_enough cr3 tr m fa t base files name nm data slot Hla Htr Hdead Hen)
    as (m' & fa' & p & dir & ks & Hp & -> & Hc & Hef & [Hkp _] & Hl & _).
  exists m', fa'. do 2 eexists. split; [reflexivity|].
  split; [apply list_lookup_insert_eq; by eapply lookup_lt_Some|]. cbn [esp kernel_stack page_dir_phys].
  split; [reflexivity|]. split.
  - intros Hlow Hns. exact (entry_frame_reads _ _ _ _ _ _ _ Hl Hef Hkp Hlow Hns).
  - intros a Ha. destruct (lo_code _ _ _ _ _ Hl a Ha) as (pa & _ & Hw & Hb).
    unfold kld8. rewrite Hw, bind_Some, Hb. reflexivity.
Qed.

(** ** Witnesses *)

Lemma example_find :
  list_find (λ f, f_name f = [104; 105]) (image_files example_files) = Some (1%nat, mkFile [104; 105] 156 3).
Proof.
  apply list_find_Some. split; [vm_compute; reflexivity|]. split; [reflexivity|].
  intros [|k] g Hg Hlt; [|lia]. vm_compute in Hg. by injection Hg as <-.
Qed.

(** A kernel with frames 16 to 31 free, the image of [example_files] at 1 MiB
    and one process running. *)
Lemma example_kernel_memory : ∃ (m : mem) (st : pfa),
  loadable 0x8000 m st example_tab 0x100000 (image_files example_files) (0x100000 + 160) [104; 105] [1; 2; 3] ∧
  16 <= nfree st ∧ (∀ g, 0 <= g < MAX_FRAMES → fa_free st g = (16 <=? g) && (g <? 32)) ∧
  kmapped 0x8000 (λ a, ¬ within 0x8000 4096 a) m ∧
  ∀ W m', changes_only W m m' → (∀ x, W x → 0x10000 <= x < 0x100000) → sofs_at 0x8000 m' 0x100000 (image_files example_files).
Proof.
  destruct example_mounted as (m & Hk & Hb).
  destruct (frames_free 16 32) as (st & Hwf & Hst); [lia|lia|].
  assert (∀ g, 0 <= g < MAX_FRAMES → fa_free st g = (16 <=? g) && (g <? 32)) as Hfree
    by (intros g Hg; simpl; by rewrite Hst, negb_involutive).
  assert (∀ x, free_bytes st x → within 0x10000 0x10000 x) as Hfb.
  { intros x (g & Hg & Hgf & Hx). rewrite Hfree in Hgf by exact Hg.
    apply andb_prop in Hgf as [H1%Z.leb_le H2%Z.ltb_lt]. unfold within in *. lia. }
  assert (∀ m', changes_only (free_bytes st) m m' → bytes_at 0x8000 m' 0x100000 example_bytes) as Hb'.
  { intros m' Hc. apply (Hb _ m' Hc). intros x Hx%Hfb. unfold within in *. lia. }
  exists m, st. split; [|split; [|split; [exact Hfree|split; [exact Hk|]]]].
  - split.
    + split; [| |intros g a Hg Hgf Ha; by exists g].
      * eapply kmapped_mono; [|exact Hk]. intros x Hx%Hfb. unfold within in *. lia.
      * split; [exact Hwf|]. by rewrite Hst by lia.
    + exact example_tab_wf.
    + intros m' Hc. by apply example_sofs, Hb'.
    + intros m' Hc. by apply example_string, Hb'.
    + exists 1%nat, (mkFile [104; 105] 156 3). split; [exact example_find|]. split; [reflexivity|].
      split; [vm_compute; discriminate|]. intros k b Hkb.
      assert (0 <= b < 256 ∧ example_bytes !! (156 + k)%nat = Some b) as [Hu Hl].
      { destruct k as [|[|[|k]]]; simpl in Hkb; simplify_eq; (split; [lia|vm_compute; reflexivity]). }
      split; [exact Hu|]. intros m' Hc. rewrite <- (Hb' m' Hc _ _ Hl). f_equal.
      change (0x100000 +ᵤ f_offset (mkFile [104; 105] 156 3)) with (0x100000 + 156). lia.
    + vm_compute. discriminate.
  - assert (32 - 16 <= nfree st) as Hc; [|lia]. unfold nfree. apply count_upto_at_least; [lia|rewrite all_frames_Z; lia|].
    intros g Hg. rewrite Hfree by lia. repeat ztest. reflexivity.
  - intros W m' Hc HW. apply example_sofs, (Hb W m' Hc). intros x Hx%HW. unfold within. lia.
Qed.

Lemma example_loadable : ∃ (m : mem) (st : pfa),
  loadable 0x8000 m st example_tab 0x100000 (image_files example_files) (0x100000 + 160) [104; 105] [1; 2; 3] ∧
  16 <= nfree st.
Proof. destruct example_kernel_memory as (m & st & Hla & Hn & _). exists m, st. split; [exact Hla|exact Hn]. Qed.

Lemma example_first_dead : first_dead example_tab 2.
Proof.
  split; [eexists; split; vm_compute; reflexivity|]. intros k q Hk Hq.
  destruct k as [|[|k]]; [| |lia]; vm_compute in Hq; by simplify_eq.
Qed.

Lemma process_create_loads_witness : ∃ (m : mem) (st : pfa) m' st' t',
  process_create 0x8000 0x123456 (mounted 0x100000) (0x100000 + 160) m st example_tab = Some (3, (m', st', t')) ∧
  ∃ P pa, procs t' !! 2%nat = Some P ∧ user_walk m' (page_dir_phys P) 1 = Some pa ∧ ld8 m' pa = 2.
Proof.
  destruct example_loadable as (m & st & Hla & Hn). exists m, st.
  destruct (process_create_loads 0x8000 0x123456 m st _ _ _ _ _ _ 2 Hla) as
    (m' & st' & t' & dir & ks & p & Heq & _ & Hp & Ht & _ & _ & _ & Hl);
    [lia|exact example_first_dead|exact (Z.le_trans 6 16 _ ltac:(lia) Hn)|].
  exists m', st', t'. split; [exact Heq|]. destruct (lo_code _ _ _ _ _ Hl 1) as (pa & Hw & _ & Hb);
    [vm_compute; split; [discriminate|reflexivity]|].
  eexists. exists pa. split; [rewrite Ht; apply list_lookup_insert_eq; by eapply lookup_lt_Some|].
  split; [exact Hw|exact Hb].
Defined.

Lemma process_create_total_witness : ∃ (m : mem) (st : pfa) r m' st' t',
  process_create 0x8000 0x123456 (mounted 0x100000) (0x100000 + 160) m st example_tab = Some (r, (m', st', t')).
Proof.
  destruct example_loadable as (m & st & Hla & Hn). exists m, st.
  destruct (process_create_total 0x8000 0x123456 m st _ _ _ _ _ _ Hla) as (r & m' & st' & t' & Heq & _); [lia|].
  exists r, m', st', t'. exact Heq.
Defined.

Lemma process_create_not_found_witness : ∃ (m : mem) (st : pfa),
  process_create 0x8000 0x123456 (mounted 0x100000) (0x100000 + 161) m st example_tab = Some (-1, (m, st, example_tab)).
Proof.
  destruct example_loadable as (m & st & [_ _ Hfs Hnm _ _] & _). exists m, st.
  apply (process_create_not_found _ _ _ _ _ _ (image_files example_files) _ [105]).
  - exact example_tab_wf.
  - apply Hfs, changes_only_refl.
  - replace (0x100000 + 161) with (0x100000 + 160 + 1) by lia.
    eapply cstring_drop. apply Hnm, changes_only_refl.
  - apply Forall_forall. change (image_files example_files) with [mkFile [97] 152 1; mkFile [104; 105] 156 3].
    repeat constructor; discriminate.
Defined.

Lemma process_isolation_witness : ∃ (m : mem) (st : pfa) r1 m1 st1 t1 r2 m2 st2 t2,
  process_create 0x8000 0x123456 (mounted 0x100000) (0x100000 + 160) m st example_tab = Some (r1, (m1, st1, t1)) ∧
  process_create 0x8000 0x123456 (mounted 0x100000) (0x100000 + 160) m1 st1 t1 = Some (r2, (m2, st2, t2)).
Proof.
  destruct example_loadable as (m & st & Hla & Hn). exists m, st.
  destruct (process_isolation 0x8000 0x123456 m st example_tab _ _ _ _ _ _ _ _ 2 3
    (mkProc 0 0 0 0 0 0 (replicate 32 0)) (mkProc 0 0 0 0 0 0 (replicate 32 0)) Hla Hla)
    as (r1 & m1 & st1 & t1 & dir1 & r2 & m2 & st2 & t2 & dir2 & H1 & H2 & _);
    [lia| |vm_compute; split; reflexivity|lia|vm_compute; reflexivity|vm_compute; reflexivity|reflexivity|reflexivity|
     exact (Z.le_trans 12 16 _ ltac:(lia) Hn)|].
  - intros c p Hc Hp. vm_compute in Hc. injection Hc as <-. vm_compute in Hp. by injection Hp as <-.
  - exists r1, m1, st1, t1, r2, m2, st2, t2. split; [exact H1|exact H2].
Defined.

Lemma process_kernel_stack_witness : ∃ (m : mem) (st : pfa) m' st' t' P,
  process_create 0x8000 0x123456 (mounted 0x100000) (0x100000 + 160) m st example_tab = Some (3, (m', st', t')) ∧
  procs t' !! 2%nat = Some P ∧ kld8 (page_dir_phys P) m' 2 = Some 3.
Proof.
  destruct example_loadable as (m & st & Hla & Hn). exists m, st.
  destruct (process_kernel_stack 0x8000 0x123456 m st _ _ _ _ _ _ 2 Hla) as
    (m' & st' & t' & P & Heq & HP & _ & _ & Hprog);
    [lia|exact example_first_dead|exact (Z.le_trans 6 16 _ ltac:(lia) Hn)|].
  exists m', st', t', P. split; [exact Heq|]. split; [exact HP|].
  apply (Hprog 2). vm_compute. split; [discriminate|reflexivity].
Defined.
