(* ===== verification/Fb.v ===== *)
(** * drivers/fb.c: the VGA text console

    The driver writes character cells of two bytes at 0xB8000, keeps a cursor
    of its own, and tells the VGA's cursor through two I/O ports.  The
    functions run on raw memory through the page tables ([cr3]), as the rest of
    the kernel; the ports are a trace of what was written to them.

    The specification is a terminal: a list of 2000 cells and a cursor, with
    [term_put] for one character.  fb_write is proved to be its iteration. *)

From stdpp Require Import prelude gmap.
From Stdlib Require Import ZArith Lia.
From S2P Require Import Prelude Ports Memory FrameAlloc Paging.

(** ** The code *)

Abbreviation FB_COLS := 80.
Abbreviation FB_ROWS := 25.
Abbreviation FB_SIZE := 2000.
Abbreviation FB_COMMAND_PORT := 0x3D4.
Abbreviation FB_DATA_PORT := 0x3D5.
Abbreviation FB_HIGH_BYTE_COMMAND := 14.
Abbreviation FB_LOW_BYTE_COMMAND := 15.
Abbreviation FB_BLACK := 0.
Abbreviation FB_WHITE := 15.
Abbreviation fb := 0xB8000.

Record console := mkCon {
  c_mem : mem;
  fb_cursor : Z;
  c_ports : list io
}.

Definition set_cursor (c : console) (pos : Z) : console := mkCon (c_mem c) (u16 pos) (c_ports c).

(** `fb[i] = v` *)
Definition fb_store (cr3 : Z) (i v : Z) (c : console) : option console :=
  m ← kst8 cr3 (c_mem c) (fb +ᵤ i) v; Some (mkCon m (fb_cursor c) (c_ports c)).

Definition fb_attr (fg bg : Z) : Z := Z.lor (Z.shiftl (Z.land fg 0x0F) 4) (Z.land bg 0x0F).

Definition fb_write_cell (cr3 : Z) (i ch fg bg : Z) (c : console) : option console :=
  let offset := i *ᵤ 2 in
  c ← fb_store cr3 offset ch c;
  fb_store cr3 (offset +ᵤ 1) (fb_attr fg bg) c.

Definition fb_move_cursor (pos : Z) (c : console) : console :=
  mkCon (c_mem c) (fb_cursor c)
    (outb FB_DATA_PORT (Z.land pos 0x00FF)
      (outb FB_COMMAND_PORT FB_LOW_BYTE_COMMAND
        (outb FB_DATA_PORT (Z.land (Z.shiftr pos 8) 0x00FF)
          (outb FB_COMMAND_PORT FB_HIGH_BYTE_COMMAND (c_ports c))))).

(** The second loop steps by two bytes from 3840 on. *)
Definition fb_scroll (cr3 : Z) (c : console) : option console :=
  c ← for_range 0 ((FB_SIZE - FB_COLS) * 2) (λ i c,
        b ← kld8 cr3 (c_mem c) (fb +ᵤ (i +ᵤ FB_COLS * 2)); fb_store cr3 i b c) c;
  c ← for_range 0 FB_COLS (λ k c,
        let i := (FB_SIZE - FB_COLS) * 2 + 2 * k in
        c ← fb_store cr3 i 32 c;
        fb_store cr3 (i +ᵤ 1) (fb_attr FB_WHITE FB_BLACK) c) c;
  Some (set_cursor c (FB_SIZE - FB_COLS)).

Definition fb_clear (cr3 : Z) (c : console) : option console :=
  c ← for_range 0 FB_SIZE (λ i c, fb_write_cell cr3 i 32 FB_WHITE FB_BLACK c) c;
  let c := set_cursor c 0 in
  Some (fb_move_cursor (fb_cursor c) c).

(** The body of the loop of fb_write. *)
Definition fb_putc (cr3 : Z) (ch : Z) (c : console) : option console :=
  c ← (if ch =? 8 then
         if 0 <? fb_cursor c then
           let c := set_cursor c (fb_cursor c - 1) in
           fb_write_cell cr3 (fb_cursor c) 32 FB_WHITE FB_BLACK c
         else Some c
       else if ch =? 10 then
         Some (set_cursor c (fb_cursor c + (FB_COLS - fb_cursor c mod FB_COLS)))
       else
         c ← fb_write_cell cr3 (fb_cursor c) ch FB_WHITE FB_BLACK c;
         Some (set_cursor c (fb_cursor c + 1)));
  if FB_SIZE <=? fb_cursor c then fb_scroll cr3 c else Some c.

(** fb_write, with [get] for the reading of its buffer: `buf[i]`. *)
Definition fb_write_from (cr3 : Z) (get : Z → console → option Z) (len : Z) (c : console) : option (Z * console) :=
  c ← for_range 0 len (λ i c, b ← get i c; fb_putc cr3 b c) c;
  Some (s32 len, fb_move_cursor (fb_cursor c) c).

(** The buffer is in memory, read through the page tables. *)
Definition fb_write (cr3 : Z) (buf len : Z) (c : console) : option (Z * console) :=
  fb_write_from cr3 (λ i c, kld8 cr3 (c_mem c) (buf +ᵤ i)) len c.

(** The buffer is a local variable or a literal of the keyboard driver, which
    the model has as its bytes: the same loop reads them. *)
Definition fb_write_local (cr3 : Z) (bs : list Z) (c : console) : option (Z * console) :=
  fb_write_from cr3 (λ i _, bs !! Z.to_nat i) (Z.of_nat (length bs)) c.

(** ** The terminal *)

Record term := mkTerm {
  cells : list (Z * Z);
  t_cursor : Z
}.

Definition default_attr : Z := 0xF0.
Definition blank : Z * Z := (32, default_attr).

(** Past the last cell everything moves up one row. *)
Definition term_scroll (t : term) : term :=
  if FB_SIZE <=? t_cursor t
  then mkTerm (drop 80 (cells t) ++ replicate 80 blank) (FB_SIZE - FB_COLS)
  else t.

Definition term_put (t : term) (ch : Z) : term :=
  term_scroll
    (if ch =? 8 then
       if 0 <? t_cursor t
       then mkTerm (<[Z.to_nat (t_cursor t - 1) := blank]> (cells t)) (t_cursor t - 1)
       else t
     else if ch =? 10 then mkTerm (cells t) ((t_cursor t / 80 + 1) * 80)
     else mkTerm (<[Z.to_nat (t_cursor t) := (ch, default_attr)]> (cells t)) (t_cursor t + 1)).

Definition term_write (t : term) (bs : list Z) : term := foldl term_put t bs.

Definition term_wf (t : term) : Prop := length (cells t) = 2000%nat ∧ 0 <= t_cursor t < FB_SIZE.

(** The bytes of the frame buffer. *)
Definition fb_bytes (a : Z) : Prop := within fb 4000 a.

(** Memory holds the cells [cs]. *)
Record cells_at (m : mem) (cs : list (Z * Z)) : Prop := {
  ca_length : length cs = 2000%nat;
  ca_cell : ∀ i ch at_, cs !! i = Some (ch, at_) →
    ld8 m (fb + 2 * Z.of_nat i) = ch ∧ ld8 m (fb + 2 * Z.of_nat i + 1) = at_
}.

(** The console shows the terminal. *)
Definition shows (c : console) (t : term) : Prop :=
  cells_at (c_mem c) (cells t) ∧ fb_cursor c = t_cursor t.

(** Where the hardware cursor is: the last value the VGA was given. *)
Definition cursor_events (pos : Z) : list io :=
  [Out FB_COMMAND_PORT FB_HIGH_BYTE_COMMAND; Out FB_DATA_PORT (pos / 256);
   Out FB_COMMAND_PORT FB_LOW_BYTE_COMMAND; Out FB_DATA_PORT (pos mod 256)].

(** ** The terminal's invariant *)

Lemma term_scroll_wf t : length (cells t) = 2000%nat → 0 <= t_cursor t → term_wf (term_scroll t).
Proof.
  intros Hl Hc. unfold term_scroll. destruct (Z.leb_spec FB_SIZE (t_cursor t)); split; cbn [cells t_cursor]; try lia.
  rewrite length_app, length_drop, length_replicate. lia.
Qed.

Lemma term_put_wf t ch : term_wf t → term_wf (term_put t ch).
Proof.
  intros [Hl Hc]. pose proof (Z.div_pos (t_cursor t) 80). unfold term_put. apply term_scroll_wf;
    destruct (ch =? 8), (Z.ltb_spec 0 (t_cursor t)), (ch =? 10); cbn [cells t_cursor];
    rewrite ?length_insert; lia.
Qed.

Lemma term_write_wf t bs : term_wf t → term_wf (term_write t bs).
Proof. revert t. induction bs as [|b bs IH]; intros t Ht; [done|]. apply IH. by apply term_put_wf. Qed.

(** ** Cells *)

Lemma fb_attr_default : fb_attr FB_WHITE FB_BLACK = default_attr.
Proof. reflexivity. Qed.

Section driver.
Context (cr3 : Z).

(** The frame buffer is identity-mapped and writes to it keep it so. *)
Definition fb_mapped (m : mem) : Prop := kmapped cr3 fb_bytes m.

Lemma fb_store_spec i v c : fb_mapped (c_mem c) → 0 <= i < 4000 →
  fb_store cr3 i v c = Some (mkCon (st8 (c_mem c) (fb + i) v) (fb_cursor c) (c_ports c)) ∧
  changes_only fb_bytes (c_mem c) (st8 (c_mem c) (fb + i) v) ∧
  fb_mapped (st8 (c_mem c) (fb + i) v).
Proof.
  intros Hk Hi. unfold fb_store. rewrite u32_small by lia.
  destruct (kst8_kmapped cr3 fb_bytes (c_mem c) Hk (fb + i) v) as [-> Hk'];
    [lia|unfold fb_bytes, within; lia|].
  split; [done|]. split; [|exact Hk']. apply changes_only_st8; [lia|unfold fb_bytes, within; lia].
Qed.

Lemma fb_write_cell_spec i ch fg bg c cs : fb_mapped (c_mem c) → cells_at (c_mem c) cs →
  0 <= i < 2000 → is_u8 ch →
  ∃ m', fb_write_cell cr3 i ch fg bg c = Some (mkCon m' (fb_cursor c) (c_ports c)) ∧
    changes_only fb_bytes (c_mem c) m' ∧ cells_at m' (<[Z.to_nat i := (ch, u8 (fb_attr fg bg))]> cs).
Proof.
  intros Hk [Hl Hc] Hi Hch. unfold fb_write_cell.
  rewrite (u32_small (i * 2)), (u32_small (i * 2 + 1)) by lia.
  destruct (fb_store_spec (i * 2) ch c Hk) as (-> & Hc1 & Hk1); [lia|]. rewrite bind_Some.
  destruct (fb_store_spec (i * 2 + 1) (fb_attr fg bg)
    (mkCon (st8 (c_mem c) (fb + i * 2) ch) (fb_cursor c) (c_ports c)) Hk1) as (-> & Hc2 & _); [lia|].
  cbn [c_mem fb_cursor c_ports] in *. eexists. split; [reflexivity|]. split; [by eapply changes_only_trans|].
  split; [by rewrite length_insert|]. intros k ch' at_ Hk'.
  rewrite !ld8_st8 by (apply lookup_lt_Some in Hk'; rewrite length_insert in Hk'; lia).
  apply list_lookup_insert_Some in Hk' as [(Hki & Heq & _)|[Hne Hk']].
  - injection Heq as <- <-. repeat (case_decide; [try lia|try lia]); split; try done. by apply u8_small.
  - repeat (case_decide; [lia|]). by apply Hc.
Qed.

(** ** Scrolling *)

Lemma scroll_copy c : fb_mapped (c_mem c) →
  ∃ m', for_range 0 ((FB_SIZE - FB_COLS) * 2) (λ i c,
          b ← kld8 cr3 (c_mem c) (fb +ᵤ (i +ᵤ FB_COLS * 2)); fb_store cr3 i b c) c =
        Some (mkCon m' (fb_cursor c) (c_ports c)) ∧
    changes_only fb_bytes (c_mem c) m' ∧
    ∀ k, 0 <= k < 4000 → ld8 m' (fb + k) = ld8 (c_mem c) (fb + (if k <? 3840 then k + 160 else k)).
Proof.
  intros Hk. change ((FB_SIZE - FB_COLS) * 2) with 3840. change (FB_COLS * 2) with 160.
  destruct (for_range_ind (λ i c', changes_only fb_bytes (c_mem c) (c_mem c') ∧
      c' = mkCon (c_mem c') (fb_cursor c) (c_ports c) ∧
      ∀ k, 0 <= k < 4000 → ld8 (c_mem c') (fb + k) = ld8 (c_mem c) (fb + (if k <? i then k + 160 else k)))
    (λ i c, b ← kld8 cr3 (c_mem c) (fb +ᵤ (i +ᵤ 160)); fb_store cr3 i b c) 0 3840 c)
    as (c' & -> & Hc & -> & Hb); [lia| | |].
  - split; [done|]. split; [by destruct c|]. intros k Hk'. by ztest.
  - intros j c' Hj (Hc & Heq & Hb). rewrite (u32_small (j + 160)), (u32_small (fb + _)) by lia.
    assert (fb_mapped (c_mem c')) as Hk' by (by eapply kmapped_changes).
    rewrite (kld8_kmapped _ _ _ Hk'), bind_Some by (lia || unfold fb_bytes, within; lia).
    destruct (fb_store_spec j (ld8 (c_mem c') (fb + (j + 160))) c' Hk') as (-> & Hc' & _); [lia|].
    eexists. split; [reflexivity|]. cbn [c_mem fb_cursor c_ports]. split; [by eapply changes_only_trans|].
    split; [by rewrite Heq|]. intros k Hkr. rewrite ld8_st8 by lia. case_decide as Hd.
    + assert (k = j) as -> by lia. rewrite u8_small by apply ld8_range. rewrite Hb by lia. by repeat ztest.
    + rewrite Hb by lia. destruct (Z.ltb_spec k j), (Z.ltb_spec k (j + 1)); try done; lia.
  - cbn [c_mem]. eexists. split; [reflexivity|]. split; [exact Hc|exact Hb].
Qed.

Lemma scroll_clear c : fb_mapped (c_mem c) →
  ∃ m', for_range 0 FB_COLS (λ k c,
          c ← fb_store cr3 ((FB_SIZE - FB_COLS) * 2 + 2 * k) 32 c;
          fb_store cr3 ((FB_SIZE - FB_COLS) * 2 + 2 * k +ᵤ 1) (fb_attr FB_WHITE FB_BLACK) c) c =
        Some (mkCon m' (fb_cursor c) (c_ports c)) ∧
    changes_only fb_bytes (c_mem c) m' ∧
    (∀ k, 0 <= k < 3840 → ld8 m' (fb + k) = ld8 (c_mem c) (fb + k)) ∧
    ∀ k, 0 <= k < 80 → ld8 m' (fb + 3840 + 2 * k) = 32 ∧ ld8 m' (fb + 3840 + 2 * k + 1) = default_attr.
Proof.
  intros Hk. rewrite fb_attr_default. change ((FB_SIZE - FB_COLS) * 2) with 3840. cbv zeta.
  destruct (for_range_ind (λ i c', changes_only fb_bytes (c_mem c) (c_mem c') ∧
      c' = mkCon (c_mem c') (fb_cursor c) (c_ports c) ∧
      (∀ k, 0 <= k < 3840 → ld8 (c_mem c') (fb + k) = ld8 (c_mem c) (fb + k)) ∧
      ∀ k, 0 <= k < i → ld8 (c_mem c') (fb + 3840 + 2 * k) = 32 ∧ ld8 (c_mem c') (fb + 3840 + 2 * k + 1) = default_attr)
    (λ k c, c ← fb_store cr3 (3840 + 2 * k) 32 c; fb_store cr3 (3840 + 2 * k +ᵤ 1) default_attr c) 0 80 c)
    as (c' & -> & Hc & -> & Hlow & Hb); [lia| | |].
  - split; [done|]. split; [by destruct c|]. split; [done|lia].
  - intros j c' Hj (Hc & Heq & Hlow & Hb). rewrite u32_small by lia.
    assert (fb_mapped (c_mem c')) as Hk' by (by eapply kmapped_changes).
    destruct (fb_store_spec (3840 + 2 * j) 32 c' Hk') as (-> & Hc1 & Hk1); [lia|]. rewrite bind_Some.
    destruct (fb_store_spec (3840 + 2 * j + 1) default_attr
      (mkCon (st8 (c_mem c') (fb + (3840 + 2 * j)) 32) (fb_cursor c') (c_ports c')) Hk1) as (-> & Hc2 & _); [lia|].
    cbn [c_mem fb_cursor c_ports] in *. eexists. split; [reflexivity|]. cbn [c_mem fb_cursor c_ports].
    split; [eapply changes_only_trans; [exact Hc|]; by eapply changes_only_trans|].
    split; [by rewrite Heq|]. split.
    + intros k Hkr. rewrite !ld8_st8 by lia. repeat (case_decide; [lia|]). by apply Hlow.
    + intros k Hkr. rewrite !ld8_st8 by lia. destruct (Z.eq_dec k j) as [->|].
      * repeat (case_decide; [try lia|try lia]). split; reflexivity.
      * repeat (case_decide; [lia|]). apply Hb. lia.
  - cbn [c_mem] in *. eexists. split; [reflexivity|]. by split.
Qed.

Lemma fb_scroll_spec c cs : fb_mapped (c_mem c) → cells_at (c_mem c) cs →
  ∃ m', fb_scroll cr3 c = Some (mkCon m' (FB_SIZE - FB_COLS) (c_ports c)) ∧
    changes_only fb_bytes (c_mem c) m' ∧ cells_at m' (drop 80 cs ++ replicate 80 blank).
Proof.
  intros Hk [Hl Hcs]. unfold fb_scroll.
  destruct (scroll_copy c Hk) as (m1 & -> & Hc1 & Hb1). rewrite bind_Some. cbv beta zeta.
  destruct (scroll_clear (mkCon m1 (fb_cursor c) (c_ports c))) as (m2 & -> & Hc2 & Hlow & Hrow);
    [by eapply kmapped_changes|]. rewrite bind_Some. cbn [c_mem fb_cursor c_ports] in *.
  exists m2. split; [reflexivity|]. split; [by eapply changes_only_trans|]. split.
  - rewrite length_app, length_drop, length_replicate. lia.
  - intros i ch at_ Hi. apply lookup_app_Some in Hi as [Hi|[Hge Hi]].
    + rewrite lookup_drop in Hi. pose proof (lookup_lt_Some _ _ _ Hi).
      destruct (Hcs _ _ _ Hi) as [H1 H2]. rewrite <- !Z.add_assoc.
      rewrite !Hlow, !Hb1 by lia. repeat ztest. split; [rewrite <- H1|rewrite <- H2]; f_equal; lia.
    + rewrite length_drop in *. apply lookup_replicate in Hi as [[= -> ->] Hlt].
      replace (fb + 2 * Z.of_nat i) with (fb + 3840 + 2 * (Z.of_nat i - 1920)) by lia. apply Hrow. lia.
Qed.

(** ** Characters and strings *)

(** A step of the driver that shows the next terminal: only the frame buffer
    changes, and the ports are left alone. *)
Record step_shows (c : console) (t' : term) (c' : console) : Prop := {
  ss_mem : changes_only fb_bytes (c_mem c) (c_mem c');
  ss_ports : c_ports c' = c_ports c;
  ss_shows : shows c' t'
}.

Lemma u16_small x : 0 <= x < 65536 → u16 x = x.
Proof. intros. unfold u16. by apply Z.mod_small. Qed.

(** The check at the end of the loop's body. *)
Lemma maybe_scroll c t : fb_mapped (c_mem c) → shows c t →
  ∃ c', (if FB_SIZE <=? fb_cursor c then fb_scroll cr3 c else Some c) = Some c' ∧
        step_shows c (term_scroll t) c'.
Proof.
  intros Hk [Hcs Hcur]. unfold term_scroll. rewrite Hcur. destruct (FB_SIZE <=? t_cursor t).
  - destruct (fb_scroll_spec c _ Hk Hcs) as (m' & -> & Hc & Hcs'). eexists. split; [reflexivity|].
    split; [exact Hc|reflexivity|]. by split.
  - exists c. split; [reflexivity|]. by split.
Qed.

Lemma fb_putc_spec ch c t : fb_mapped (c_mem c) → shows c t → term_wf t → is_u8 ch →
  ∃ c', fb_putc cr3 ch c = Some c' ∧ step_shows c (term_put t ch) c'.
Proof.
  intros Hk [Hcs Hcur] [Hl Ht] Hch. unfold fb_putc, term_put.
  assert (∀ c1 t1, changes_only fb_bytes (c_mem c) (c_mem c1) → c_ports c1 = c_ports c → shows c1 t1 →
    ∃ c', (if FB_SIZE <=? fb_cursor c1 then fb_scroll cr3 c1 else Some c1) = Some c' ∧
          step_shows c (term_scroll t1) c') as Hfin.
  { intros c1 t1 Hc1 Hp1 Hs1.
    destruct (maybe_scroll c1 t1) as (c' & -> & [Hc' Hp' Hs']); [by eapply kmapped_changes|exact Hs1|].
    exists c'. split; [reflexivity|]. split; [by eapply changes_only_trans|congruence|exact Hs']. }
  rewrite Hcur. destruct (ch =? 8).
  - destruct (Z.ltb_spec 0 (t_cursor t)) as [Hpos|Hz].
    + unfold set_cursor; cbn [fb_cursor]. rewrite u16_small by lia.
      destruct (fb_write_cell_spec (t_cursor t - 1) 32 FB_WHITE FB_BLACK
        (mkCon (c_mem c) (t_cursor t - 1) (c_ports c)) _ Hk Hcs) as (m' & -> & Hc' & Hcs'); [lia|lia|].
      rewrite bind_Some. apply Hfin; [exact Hc'|reflexivity|]. by split.
    + rewrite bind_Some. apply Hfin; [done|done|]. by split.
  - destruct (ch =? 10).
    + rewrite bind_Some. unfold set_cursor. rewrite u16_small by word_lia. apply Hfin; [done|done|].
      split; [exact Hcs|]. cbn [fb_cursor t_cursor]. word_lia.
    + destruct (fb_write_cell_spec (t_cursor t) ch FB_WHITE FB_BLACK c _ Hk Hcs) as (m' & -> & Hc' & Hcs'); [lia|exact Hch|].
      rewrite !bind_Some. unfold set_cursor. cbn [c_mem fb_cursor c_ports]. rewrite Hcur, u16_small by lia.
      apply (Hfin (mkCon m' (t_cursor t + 1) (c_ports c))); [exact Hc'|reflexivity|]. by split.
Qed.

Lemma move_cursor_events pos c : 0 <= pos < 65536 →
  fb_move_cursor pos c = mkCon (c_mem c) (fb_cursor c) (c_ports c ++ cursor_events pos).
Proof.
  intros Hp. unfold fb_move_cursor, outb, cursor_events. rewrite <- !app_assoc. simpl app.
  change 255 with (Z.ones 8). rewrite !Z.land_ones, Z.shiftr_div_pow2 by lia. change (2 ^ 8) with 256.
  unfold u8. rewrite !Z.mod_mod by lia. rewrite (Z.mod_small (pos / 256)) by word_lia. reflexivity.
Qed.

(** What a write leaves: the terminal after the bytes, the hardware cursor
    where the terminal's is. *)
Record wrote (c : console) (t' : term) (c' : console) : Prop := {
  wr_mem : changes_only fb_bytes (c_mem c) (c_mem c');
  wr_ports : c_ports c' = c_ports c ++ cursor_events (t_cursor t');
  wr_shows : shows c' t'
}.

Lemma wrote_cursor c t' c1 : step_shows c t' c1 → term_wf t' → wrote c t' (fb_move_cursor (fb_cursor c1) c1).
Proof.
  intros [Hc Hp [Hcs Hcur]] [_ Ht]. rewrite Hcur, move_cursor_events by lia.
  split; cbn [c_mem c_ports]; [exact Hc|by rewrite Hp|]. by split.
Qed.

(** fb_write wherever its buffer is, as long as writing the screen does not
    change it. *)
Lemma fb_write_from_spec get bs c t : fb_mapped (c_mem c) → shows c t → term_wf t →
  Z.of_nat (length bs) < 2147483648 →
  (∀ i b c', bs !! i = Some b → changes_only fb_bytes (c_mem c) (c_mem c') → is_u8 b ∧ get (Z.of_nat i) c' = Some b) →
  ∃ c', fb_write_from cr3 get (Z.of_nat (length bs)) c = Some (Z.of_nat (length bs), c') ∧
        wrote c (term_write t bs) c'.
Proof.
  intros Hk Hs Ht Hlen Hbs. unfold fb_write_from.
  destruct (for_range_ind (λ i c', step_shows c (term_write t (take (Z.to_nat i) bs)) c')
    (λ i c, b ← get i c; fb_putc cr3 b c) 0 (Z.of_nat (length bs)) c)
    as (c1 & -> & Hc1); [lia|by split| |].
  - intros j c1 Hj [Hc Hp Hs1].
    destruct (lookup_lt_is_Some_2 bs (Z.to_nat j)) as [b Hlk]; [lia|].
    destruct (Hbs _ _ c1 Hlk Hc) as [Hb Hr]. rewrite Z2Nat.id in Hr by lia. rewrite Hr, bind_Some.
    destruct (fb_putc_spec b c1 (term_write t (take (Z.to_nat j) bs))) as (c2 & -> & [Hc2 Hp2 Hs2]);
      [by eapply kmapped_changes|exact Hs1|by apply term_write_wf|exact Hb|].
    exists c2. split; [reflexivity|]. replace (Z.to_nat (j + 1)) with (S (Z.to_nat j)) by lia.
    rewrite (take_S_r _ _ _ Hlk). unfold term_write. rewrite foldl_app.
    split; [by eapply changes_only_trans|congruence|exact Hs2].
  - rewrite Nat2Z.id, take_ge in Hc1 by lia. rewrite bind_Some. eexists. split.
    + unfold s32. rewrite u32_small by lia. ztest. reflexivity.
    + apply wrote_cursor; [exact Hc1|by apply term_write_wf].
Qed.

Lemma fb_write_local_spec bs c t : fb_mapped (c_mem c) → shows c t → term_wf t →
  Z.of_nat (length bs) < 2147483648 → Forall (λ b, is_u8 b) bs →
  ∃ c', fb_write_local cr3 bs c = Some (Z.of_nat (length bs), c') ∧ wrote c (term_write t bs) c'.
Proof.
  intros Hk Hs Ht Hlen HF. apply fb_write_from_spec; try done. intros i b c' Hi _.
  rewrite Nat2Z.id. split; [exact (proj1 (Forall_lookup _ _) HF _ _ Hi)|exact Hi].
Qed.

(** fb_write of a buffer that the screen does not overlap. *)
Lemma fb_write_spec buf bs c t : fb_mapped (c_mem c) → shows c t → term_wf t →
  0 <= buf → buf + Z.of_nat (length bs) <= 4294967296 → Z.of_nat (length bs) < 2147483648 →
  (∀ i b, bs !! i = Some b → is_u8 b ∧ kreads cr3 fb_bytes (c_mem c) (buf + Z.of_nat i) b) →
  ∃ c', fb_write cr3 buf (Z.of_nat (length bs)) c = Some (Z.of_nat (length bs), c') ∧
        wrote c (term_write t bs) c'.
Proof.
  intros Hk Hs Ht Hb0 Hfit Hlen Hbs. apply fb_write_from_spec; try done. intros i b c' Hi Hc.
  destruct (Hbs _ _ Hi) as [Hb Hr]. split; [exact Hb|]. pose proof (lookup_lt_Some _ _ _ Hi).
  rewrite u32_small by lia. exact (Hr _ Hc).
Qed.

(** fb_clear from any contents. *)
Lemma fb_clear_spec c : fb_mapped (c_mem c) →
  ∃ c', fb_clear cr3 c = Some c' ∧ wrote c (mkTerm (replicate 2000 blank) 0) c'.
Proof.
  intros Hk. unfold fb_clear.
  set (old := map (λ i, (ld8 (c_mem c) (fb + 2 * Z.of_nat i), ld8 (c_mem c) (fb + 2 * Z.of_nat i + 1))) (seq 0 2000)).
  assert (length old = 2000%nat) as Hlen by (unfold old; rewrite length_map; apply length_seq).
  assert (cells_at (c_mem c) old) as Hold.
  { split; [exact Hlen|]. intros i ch at_ Hi. unfold old in Hi. rewrite list_lookup_fmap in Hi.
    destruct (seq 0 2000 !! i) as [k|] eqn:Hseq; [|done]. apply lookup_seq in Hseq as [-> _].
    simpl in Hi. by simplify_eq. }
  clearbody old.
  destruct (for_range_ind (λ i c', changes_only fb_bytes (c_mem c) (c_mem c') ∧ c_ports c' = c_ports c ∧
      cells_at (c_mem c') (replicate (Z.to_nat i) blank ++ drop (Z.to_nat i) old))
    (λ i c, fb_write_cell cr3 i 32 FB_WHITE FB_BLACK c) 0 FB_SIZE c) as (c1 & -> & Hc & Hp & Hcs); [lia| | |].
  - split; [done|]. by split.
  - intros j c1 Hj (Hc & Hp & Hcs).
    destruct (fb_write_cell_spec j 32 FB_WHITE FB_BLACK c1 _ ltac:(by eapply kmapped_changes) Hcs)
      as (m' & -> & Hc' & Hcs'); [lia|lia|].
    eexists. split; [reflexivity|]. split; [by eapply changes_only_trans|]. split; [exact Hp|]. cbn [c_mem].
    destruct (lookup_lt_is_Some_2 old (Z.to_nat j)) as [x Hx]; [lia|].
    rewrite (drop_S _ _ _ Hx) in Hcs'.
    replace (Z.to_nat (j + 1)) with (S (Z.to_nat j)) by lia. rewrite replicate_S_end, <- app_assoc. simpl app.
    rewrite insert_app_r_alt, length_replicate, Nat.sub_diag in Hcs' by (rewrite length_replicate; lia). exact Hcs'.
  - rewrite bind_Some. unfold set_cursor. cbn [fb_cursor]. change (u16 0) with 0.
    eexists. split; [reflexivity|]. rewrite move_cursor_events by lia.
    split; cbn [c_mem c_ports]; [exact Hc|by rewrite Hp|]. split; [|reflexivity]. cbn [c_mem cells].
    change (Z.to_nat FB_SIZE) with 2000%nat in Hcs. rewrite drop_ge, app_nil_r in Hcs by lia. exact Hcs.
Qed.
End driver.

(** ** The terminal as a window

    Text without backspaces on an unbounded page of rows of 80 cells; the
    screen shows the last 25 rows up to the cursor's. *)
Record page := mkPage {
  p_cells : Z → Z * Z;
  p_cursor : Z
}.

Definition page_put (p : page) (ch : Z) : page :=
  if ch =? 10 then mkPage (p_cells p) ((p_cursor p / 80 + 1) * 80)
  else mkPage (λ i, if i =? p_cursor p then (ch, default_attr) else p_cells p i) (p_cursor p + 1).

Definition page_write (p : page) (bs : list Z) : page := foldl page_put p bs.
Definition empty_page : page := mkPage (λ _, blank) 0.

(** The rows that have scrolled off the top. *)
Definition scrolled (p : page) : Z := Z.max 0 (p_cursor p / 80 - 24).

Definition window (p : page) : term :=
  mkTerm (map (λ i, p_cells p (80 * scrolled p + Z.of_nat i)) (seq 0 2000)) (p_cursor p - 80 * scrolled p).

(** Nothing is written past the cursor. *)
Definition page_wf (p : page) : Prop :=
  0 <= p_cursor p ∧ ∀ i, p_cursor p <= i → p_cells p i = blank.

Lemma window_lookup p i : (i < 2000)%nat →
  cells (window p) !! i = Some (p_cells p (80 * scrolled p + Z.of_nat i)).
Proof.
  intros Hi. unfold window; cbn [cells]. rewrite list_lookup_fmap.
  by rewrite (proj2 (lookup_seq 0 2000 i i)) by lia.
Qed.

Lemma window_length p : length (cells (window p)) = 2000%nat.
Proof. unfold window; cbn [cells]. rewrite length_map. apply length_seq. Qed.

Lemma scrolled_room p : 0 <= p_cursor p → 0 <= p_cursor p - 80 * scrolled p < 2000.
Proof. intros. unfold scrolled. word_lia. Qed.

Lemma page_put_wf p ch : page_wf p → page_wf (page_put p ch).
Proof.
  intros [Hc Hb]. unfold page_put. destruct (ch =? 10); split; cbn [p_cursor p_cells].
  - word_lia.
  - intros i Hi. apply Hb. word_lia.
  - lia.
  - intros i Hi. ztest. apply Hb. lia.
Qed.

(** Two terminals of 2000 cells are equal when their cells are. *)
Lemma term_eq t1 t2 : length (cells t1) = 2000%nat → length (cells t2) = 2000%nat →
  t_cursor t1 = t_cursor t2 → (∀ i, (i < 2000)%nat → cells t1 !! i = cells t2 !! i) → t1 = t2.
Proof.
  intros H1 H2 Hc Hi. destruct t1 as [c1 k1], t2 as [c2 k2]; cbn [cells t_cursor] in *. f_equal; [|done].
  apply list_eq. intros i. destruct (decide (i < 2000)%nat); [by apply Hi|].
  by rewrite !lookup_ge_None_2 by lia.
Qed.

(** Scrolling the old window by the rows the cursor has passed gives the new
    window, when the page differs from the old one only in cells of [cs]. *)
Lemma window_scroll p p' cs : page_wf p' → length cs = 2000%nat →
  p_cursor p <= p_cursor p' <= 80 * scrolled p + 2000 → 0 <= p_cursor p →
  (∀ i, (i < 2000)%nat → cs !! i = Some (p_cells p' (80 * scrolled p + Z.of_nat i))) →
  term_scroll (mkTerm cs (p_cursor p' - 80 * scrolled p)) = window p'.
Proof.
  intros [Hc' Hb'] Hlen Hcur Hp Hcs. unfold term_scroll; cbn [t_cursor cells].
  destruct (Z.leb_spec FB_SIZE (p_cursor p' - 80 * scrolled p)) as [Hge|Hlt].
  - assert (scrolled p' = scrolled p + 1) as Hs by (unfold scrolled in *; word_lia).
    apply term_eq; cbn [cells t_cursor].
    + rewrite length_app, length_drop, length_replicate. lia.
    + apply window_length.
    + unfold window; cbn [t_cursor]. lia.
    + intros i Hi. rewrite window_lookup, Hs by done. destruct (decide (i < 1920)%nat) as [Hlo|Hhi].
      * rewrite lookup_app_l by (rewrite length_drop; lia). rewrite lookup_drop, Hcs by lia. do 2 f_equal. lia.
      * rewrite lookup_app_r by (rewrite length_drop; lia).
        rewrite lookup_replicate_2 by (rewrite length_drop; lia). rewrite Hb' by lia. done.
  - assert (scrolled p' = scrolled p) as Hs by (unfold scrolled in *; word_lia).
    apply term_eq; cbn [cells t_cursor]; [done|apply window_length|unfold window; cbn [t_cursor]; lia|].
    intros i Hi. rewrite window_lookup, Hs, Hcs by done. done.
Qed.

Lemma term_put_window p ch : page_wf p → ch ≠ 8 → term_put (window p) ch = window (page_put p ch).
Proof.
  intros Hwf Hch. pose proof (page_put_wf p ch Hwf) as Hwf'. destruct Hwf as [Hc Hb].
  pose proof (scrolled_room p Hc) as Hr. unfold term_put. rewrite (proj2 (Z.eqb_neq ch 8)) by done.
  unfold page_put in *. destruct (ch =? 10).
  - replace ((t_cursor (window p) / 80 + 1) * 80) with ((p_cursor p / 80 + 1) * 80 - 80 * scrolled p)
      by (unfold window; cbn [t_cursor]; word_lia).
    apply (window_scroll p (mkPage (p_cells p) ((p_cursor p / 80 + 1) * 80)));
      [done|apply window_length|cbn [p_cursor]; unfold scrolled in *; word_lia|done|].
    intros i Hi. exact (window_lookup p i Hi).
  - replace (t_cursor (window p) + 1) with (p_cursor p + 1 - 80 * scrolled p)
      by (unfold window; cbn [t_cursor]; lia).
    apply (window_scroll p (mkPage (λ i, if i =? p_cursor p then (ch, default_attr) else p_cells p i) (p_cursor p + 1)));
      [done|rewrite length_insert; apply window_length|cbn [p_cursor]; lia|done|].
    intros i Hi. cbn [p_cells]. unfold window at 1; cbn [t_cursor].
    destruct (decide (Z.of_nat i = p_cursor p - 80 * scrolled p)) as [Heq|Hne].
    + replace (Z.to_nat (p_cursor p - 80 * scrolled p)) with i by lia.
      rewrite list_lookup_insert_eq by (rewrite window_length; lia). by ztest.
    + rewrite list_lookup_insert_ne, window_lookup by lia. by ztest.
Qed.

Lemma term_write_window p bs : page_wf p → Forall (λ b, b ≠ 8) bs →
  term_write (window p) bs = window (page_write p bs).
Proof.
  intros Hp HF. revert p Hp. induction HF as [|b bs Hb _ IH]; intros p Hp; [done|].
  unfold term_write, page_write in *. simpl. rewrite term_put_window by done. apply IH. by apply page_put_wf.
Qed.

Lemma window_empty : window empty_page = mkTerm (replicate 2000 blank) 0.
Proof.
  apply term_eq; [apply window_length|apply length_replicate|done|].
  intros i Hi. rewrite window_lookup by done. cbn [cells]. by rewrite lookup_replicate_2.
Qed.

(** ** Properties *)

(** C29: fb_write of a buffer refines the terminal: the screen and the cursor
    are those of the terminal after the bytes, the hardware cursor is moved
    there by its four port writes, the cursor stays on the screen, the length
    is returned, and only the frame buffer is written. *)
Theorem fb_write_refines cr3 buf bs c t :
  fb_mapped cr3 (c_mem c) → shows c t → term_wf t →
  0 <= buf → buf + Z.of_nat (length bs) <= 4294967296 → Z.of_nat (length bs) < 2147483648 →
  (∀ i b, bs !! i = Some b → is_u8 b ∧ kreads cr3 fb_bytes (c_mem c) (buf + Z.of_nat i) b) →
  ∃ c', fb_write cr3 buf (Z.of_nat (length bs)) c = Some (Z.of_nat (length bs), c') ∧
    shows c' (term_write t bs) ∧ term_wf (term_write t bs) ∧
    c_ports c' = c_ports c ++ cursor_events (t_cursor (term_write t bs)) ∧
    changes_only fb_bytes (c_mem c) (c_mem c').
Proof.
  intros Hk Hs Ht Hb Hf Hl Hbs. destruct (fb_write_spec cr3 buf bs c t Hk Hs Ht Hb Hf Hl Hbs) as (c' & -> & [Hm Hp Hsh]).
  exists c'. split; [reflexivity|]. split; [exact Hsh|]. split; [by apply term_write_wf|]. by split.
Qed.

(** C34: fb_write, after fb_clear, of a buffer in memory that the screen does
    not overlap and that holds text without backspaces: the screen shows exactly
    the last 25 rows of the unbounded page that the text fills. *)
Theorem fb_shows_last_rows cr3 buf bs c :
  fb_mapped cr3 (c_mem c) → 0 <= buf → buf + Z.of_nat (length bs) <= 4294967296 → Z.of_nat (length bs) < 2147483648 →
  (∀ i b, bs !! i = Some b → is_u8 b ∧ b ≠ 8 ∧ kreads cr3 fb_bytes (c_mem c) (buf + Z.of_nat i) b) →
  ∃ c1 c2, fb_clear cr3 c = Some c1 ∧ fb_write cr3 buf (Z.of_nat (length bs)) c1 = Some (Z.of_nat (length bs), c2) ∧
    shows c1 (window empty_page) ∧ shows c2 (window (page_write empty_page bs)).
Proof.
  intros Hk Hb Hf Hl Hbs. destruct (fb_clear_spec cr3 c Hk) as (c1 & -> & [Hm1 _ Hs1]).
  assert (term_wf (mkTerm (replicate 2000 blank) 0)) as Hwf by (split; [apply length_replicate|done]).
  destruct (fb_write_spec cr3 buf bs c1 _ ltac:(by eapply kmapped_changes) Hs1 Hwf Hb Hf Hl) as (c2 & Hw & [_ _ Hs2]).
  { intros i b Hi. destruct (Hbs _ _ Hi) as (H8 & _ & Hr). split; [exact H8|]. intros m' Hm'.
    apply Hr. by eapply changes_only_trans. }
  exists c1, c2. split; [reflexivity|]. split; [exact Hw|]. rewrite <- window_empty in *. split; [exact Hs1|].
  rewrite term_write_window in Hs2; [exact Hs2| |].
  - split; [done|]. intros i _. reflexivity.
  - apply Forall_lookup. intros i b Hi. apply (Hbs _ _ Hi).
Qed.

(** How the VGA reads an attribute byte: foreground in the low nibble,
    background above it. *)
Definition vga_fg (attr : Z) : Z := attr mod 16.
Definition vga_bg (attr : Z) : Z := attr / 16.

(** Fb_write_cell puts its foreground argument where the VGA has the
    background and the other way round, so that the default "white on black"
    is shown as black on white. *)
Theorem fb_cell_colours cr3 i ch fg bg c cs : fb_mapped cr3 (c_mem c) → cells_at (c_mem c) cs →
  0 <= i < 2000 → is_u8 ch → 0 <= fg < 16 → 0 <= bg < 16 →
  ∃ c', fb_write_cell cr3 i ch fg bg c = Some c' ∧
    ld8 (c_mem c') (fb + 2 * i) = ch ∧
    vga_fg (ld8 (c_mem c') (fb + 2 * i + 1)) = bg ∧ vga_bg (ld8 (c_mem c') (fb + 2 * i + 1)) = fg.
Proof.
  intros Hk Hcs Hi Hch Hfg Hbg.
  destruct (fb_write_cell_spec cr3 i ch fg bg c cs Hk Hcs Hi Hch) as (m' & -> & _ & [_ Hc']).
  eexists. split; [reflexivity|]. cbn [c_mem]. pose proof (ca_length _ _ Hcs) as Hl.
  destruct (Hc' (Z.to_nat i) ch (u8 (fb_attr fg bg))) as [H1 H2];
    [apply list_lookup_insert_eq; lia|]. rewrite Z2Nat.id in H1, H2 by lia. rewrite H1, H2.
  assert (fb_attr fg bg = fg * 16 + bg) as ->.
  { unfold fb_attr. change 15 with (Z.ones 4). rewrite !Z.land_ones by lia. change (2 ^ 4) with 16. rewrite !Z.mod_small by lia.
    rewrite Z.shiftl_mul_pow2 by lia. apply (lor_low 4); lia. }
  unfold vga_fg, vga_bg, u8. split; [done|]. clear - Hfg Hbg. split; word_lia.
Qed.

(** ** Witnesses *)

(** Identity paging and "A\n" in a buffer at 3 MiB. *)
Lemma example_console : ∃ c : console, fb_mapped 0x8000 (c_mem c) ∧
  kmapped 0x8000 (λ a, ¬ within 0x8000 4096 a) (c_mem c) ∧ bytes_at 0x8000 (c_mem c) 0x300000 [65; 10].
Proof.
  destruct (identity_dir_exists 0x8000 ∅) as [m0 Hm0]; [split; [lia|done]|].
  assert (kmapped 0x8000 (λ a, ¬ within 0x8000 4096 a) (put_bytes m0 0x300000 [65; 10])) as Hk.
  { eapply kmapped_changes; [apply identity_kmapped; [exact Hm0|auto]|].
    eapply changes_only_mono; [|apply put_bytes_changes; simpl; lia]. unfold within; simpl. lia. }
  exists (mkCon (put_bytes m0 0x300000 [65; 10]) 0 []). cbn [c_mem]. split; [|split].
  - eapply kmapped_mono; [|exact Hk]. unfold fb_bytes, within. lia.
  - exact Hk.
  - eapply bytes_at_put; [exact Hk|lia|simpl; lia|unfold within; simpl; lia|].
    repeat constructor; lia.
Qed.

Lemma fb_write_refines_witness : ∃ c c' : console, fb_write 0x8000 0x300000 2 c = Some (2, c') ∧
  fb_cursor c' = 80 ∧ ld8 (c_mem c') fb = 65.
Proof.
  destruct example_console as (c0 & Hk & Hk0 & Hb).
  destruct (fb_clear_spec 0x8000 c0 Hk) as (c & _ & [Hm _ Hs]).
  assert (term_wf (mkTerm (replicate 2000 blank) 0)) as Hwf by (split; [apply length_replicate|done]).
  destruct (fb_write_refines 0x8000 0x300000 [65; 10] c _ ltac:(by eapply kmapped_changes) Hs Hwf)
    as (c' & Hw & [[_ Hc] Hcur] & _); [lia|simpl; lia|simpl; lia| |].
  - intros i b Hi. split; [destruct i as [|[|]]; simpl in Hi; simplify_eq; lia|]. intros m' Hm'.
    eapply (bytes_at_changes _ _ fb_bytes); [exact Hk0|exact Hb|by eapply changes_only_trans| | | | |exact Hi];
      unfold fb_bytes, within; simpl; lia.
  - exists c, c'. split; [exact Hw|]. split; [rewrite Hcur; reflexivity|].
    apply (Hc O 65 default_attr). vm_compute. reflexivity.
Defined.

(** "A" and a newline: the first row starts with it. *)
Lemma fb_shows_last_rows_witness : ∃ c c1 c2 : console, fb_clear 0x8000 c = Some c1 ∧
  fb_write 0x8000 0x300000 2 c1 = Some (2, c2) ∧ ld8 (c_mem c2) fb = 65 ∧ fb_cursor c2 = 80.
Proof.
  destruct example_console as (c & Hk & Hk0 & Hb).
  destruct (fb_shows_last_rows 0x8000 0x300000 [65; 10] c Hk) as (c1 & c2 & H1 & H2 & _ & [[_ Hc] Hcur]);
    [lia|simpl; lia|simpl; lia| |].
  - intros i b Hi. split; [destruct i as [|[|]]; simpl in Hi; simplify_eq; lia|].
    split; [destruct i as [|[|]]; simpl in Hi; simplify_eq; lia|]. intros m' Hm'.
    eapply (bytes_at_changes _ _ fb_bytes); [exact Hk0|exact Hb|exact Hm'| | | | |exact Hi];
      unfold fb_bytes, within; simpl; lia.
  - exists c, c1, c2. split; [exact H1|]. split; [exact H2|]. split; [|rewrite Hcur; reflexivity].
    apply (Hc O 65 default_attr). rewrite window_lookup by lia. vm_compute. reflexivity.
Defined.

Lemma fb_cell_colours_witness : ∃ c c' : console, fb_write_cell 0x8000 0 65 FB_WHITE FB_BLACK c = Some c' ∧
  vga_bg (ld8 (c_mem c') (fb + 1)) = FB_WHITE.
Proof.
  destruct example_console as (c0 & Hk & _). destruct (fb_clear_spec 0x8000 c0 Hk) as (c & _ & [Hm _ [Hs _]]).
  destruct (fb_cell_colours 0x8000 0 65 FB_WHITE FB_BLACK c _ ltac:(by eapply kmapped_changes) Hs)
    as (c' & H1 & _ & _ & H2); [lia|lia|lia|lia|]. by exists c, c'.
Defined.
