(* ===== verification/Keyboard.v ===== *)
(** * drivers/keyboard.c: the keyboard driver and its line buffer

    An interrupt reads one scan code from port 0x60; the driver edits a line of
    at most 127 characters, echoes to the console, and stops at Enter until the
    line is read.  The specification is a line editor on lists: [edit] and
    [echo] for one character. *)

From stdpp Require Import prelude gmap.
From Stdlib Require Import ZArith Lia.
From S2P Require Import Prelude Ports Memory FrameAlloc Paging Fb.

Abbreviation KBD_DATA_PORT := 0x60.
Abbreviation KB_LINE_MAX := 128.

(** ** The code *)

Definition scancode_to_ascii : list Z := [
    0;  27;  49;  50;  51;  52;  53;  54;
   55;  56;  57;  48;  45;  61;   8;   9;
  113; 119; 101; 114; 116; 121; 117; 105;
  111; 112;  91;  93;  10;   0;  97; 115;
  100; 102; 103; 104; 106; 107; 108;  59;
   39;  96;   0;  92; 122; 120;  99; 118;
   98; 110; 109;  44;  46;  47;   0;  42;
    0;  32;   0;   0;   0;   0;   0;   0]
  ++ replicate 64 0.

Record kbd := mkKbd {
  kb_line_buf : list Z;
  kb_line_len : Z;
  kb_line_complete : Z
}.

Definition read_scan_code (dev : device) (c : console) : Z * console :=
  let '(v, tr) := inb dev KBD_DATA_PORT (c_ports c) in (v, mkCon (c_mem c) (fb_cursor c) tr).

(** `kb_line_buf[i] = ch`; [None] outside the array. *)
Definition kb_store (i ch : Z) (k : kbd) : option (list Z) :=
  _ ← kb_line_buf k !! Z.to_nat i; Some (<[Z.to_nat i := ch]> (kb_line_buf k)).

Definition keyboard_handler (cr3 : Z) (dev : device) (s : kbd * console)
    : option (kbd * console) :=
  let '(k, c) := s in
  let '(scan_code, c) := read_scan_code dev c in
  if negb (Z.land scan_code 0x80 =? 0) then Some (k, c) else
  ch ← scancode_to_ascii !! Z.to_nat scan_code;
  if ch =? 0 then Some (k, c) else
  if negb (kb_line_complete k =? 0) then Some (k, c) else
  if ch =? 10 then
    '(_, c) ← fb_write_local cr3 [10] c;
    Some (mkKbd (kb_line_buf k) (kb_line_len k) 1, c)
  else if ch =? 8 then
    if 0 <? kb_line_len k then
      '(_, c) ← fb_write_local cr3 [8] c;
      Some (mkKbd (kb_line_buf k) (kb_line_len k -ᵤ 1) (kb_line_complete k), c)
    else Some (k, c)
  else
    if kb_line_len k <? KB_LINE_MAX - 1 then
      buf ← kb_store (kb_line_len k) ch k;
      '(_, c) ← fb_write_local cr3 [ch] c;
      Some (mkKbd buf (kb_line_len k +ᵤ 1) (kb_line_complete k), c)
    else Some (k, c).

Definition keyboard_has_line (k : kbd) : Z := kb_line_complete k.

Definition keyboard_read_line (cr3 : Z) (buf max : Z) (k : kbd) (m : mem)
    : option (Z * kbd * mem) :=
  let len := kb_line_len k in
  let len := if max <? len then max else len in
  m ← for_range 0 len (λ i m,
        b ← kb_line_buf k !! Z.to_nat i; kst8 cr3 m (buf +ᵤ i) b) m;
  Some (len, mkKbd (kb_line_buf k) 0 0, m).

(** ** The line editor *)

Record line := mkLine {
  text : list Z;
  entered : bool
}.

(** The character of a scan code, if it is a key press that has one. *)
Definition key (scan : Z) : option Z :=
  if 128 <=? scan then None
  else match scancode_to_ascii !! Z.to_nat scan with
       | Some ch => if ch =? 0 then None else Some ch
       | None => None
       end.

Definition edit (l : line) (ch : Z) : line :=
  if entered l then l
  else if ch =? 10 then mkLine (text l) true
  else if ch =? 8 then mkLine (removelast (text l)) false
  else if (length (text l) <? 127)%nat then mkLine (text l ++ [ch]) false
  else l.

Definition echo (l : line) (ch : Z) : list Z :=
  if entered l then []
  else if ch =? 10 then [10]
  else if ch =? 8 then match text l with [] => [] | _ => [8] end
  else if (length (text l) <? 127)%nat then [ch] else [].

Definition press (l : line) (scan : Z) : line :=
  match key scan with Some ch => edit l ch | None => l end.
Definition press_echo (l : line) (scan : Z) : list Z :=
  match key scan with Some ch => echo l ch | None => [] end.

(** The buffer holds the line. *)
Record holds (k : kbd) (l : line) : Prop := {
  ho_array : length (kb_line_buf k) = 128%nat;
  ho_len : kb_line_len k = Z.of_nat (length (text l));
  ho_bound : (length (text l) <= 127)%nat;
  ho_text : take (length (text l)) (kb_line_buf k) = text l;
  ho_done : kb_line_complete k = Z.b2z (entered l)
}.

(** ** One interrupt *)

Lemma scancode_u8 : Forall (λ b, is_u8 b) scancode_to_ascii.
Proof. apply (bool_decide_unpack _). vm_compute. done. Qed.

Lemma key_spec scan : 0 <= scan < 128 →
  ∃ ch, scancode_to_ascii !! Z.to_nat scan = Some ch ∧ is_u8 ch ∧
        key scan = if ch =? 0 then None else Some ch.
Proof.
  intros Hs. destruct (lookup_lt_is_Some_2 scancode_to_ascii (Z.to_nat scan)) as [ch Hch].
  { change (length scancode_to_ascii) with 128%nat. lia. }
  exists ch. split; [exact Hch|]. split; [exact (proj1 (Forall_lookup _ _) scancode_u8 _ _ Hch)|].
  unfold key. rewrite Hch. by ztest.
Qed.

(** The handler returned [(k', c')] having echoed [e]. *)
Record handled (c : console) (t : term) (scan : Z) (e : list Z) (c' : console) : Prop := {
  ha_mem : changes_only fb_bytes (c_mem c) (c_mem c');
  ha_ports : c_ports c' = c_ports c ++ In KBD_DATA_PORT scan ::
    match e with [] => [] | _ => cursor_events (t_cursor (term_write t e)) end;
  ha_shows : shows c' (term_write t e)
}.

Lemma handled_nothing c t scan : shows c t →
  handled c t scan [] (mkCon (c_mem c) (fb_cursor c) (c_ports c ++ [In KBD_DATA_PORT scan])).
Proof. intros Hs. by split. Qed.

Lemma handled_echo cr3 c t scan b : fb_mapped cr3 (c_mem c) → shows c t → term_wf t → is_u8 b →
  ∃ c', fb_write_local cr3 [b] (mkCon (c_mem c) (fb_cursor c) (c_ports c ++ [In KBD_DATA_PORT scan])) = Some (1, c') ∧
        handled c t scan [b] c'.
Proof.
  intros Hk Hs Ht Hb.
  destruct (fb_write_local_spec cr3 [b] (mkCon (c_mem c) (fb_cursor c) (c_ports c ++ [In KBD_DATA_PORT scan])) t Hk Hs Ht)
    as (c' & -> & [Hm Hp Hsh]); [simpl; lia|apply Forall_cons; by split|].
  exists c'. split; [reflexivity|]. split; [exact Hm| |exact Hsh]. rewrite Hp. cbn [c_ports]. by rewrite <- app_assoc.
Qed.

(** The line after a character is added or taken away. *)
Lemma holds_append k l ch : holds k l → (length (text l) < 127)%nat → entered l = false →
  holds (mkKbd (<[length (text l) := ch]> (kb_line_buf k)) (kb_line_len k + 1) (kb_line_complete k))
        (mkLine (text l ++ [ch]) false).
Proof.
  intros [Ha Hl Hb Ht Hd] Hlt He. split; cbn [kb_line_buf kb_line_len kb_line_complete text entered];
    rewrite ?length_insert, ?length_app; simpl; try lia.
  - rewrite Nat.add_1_r. rewrite (take_S_r _ _ ch) by (apply list_lookup_insert_eq; lia).
    by rewrite take_insert_ge, Ht by lia.
  - by rewrite Hd, He.
Qed.

Lemma holds_erase k l : holds k l → text l ≠ [] → entered l = false →
  holds (mkKbd (kb_line_buf k) (kb_line_len k - 1) (kb_line_complete k)) (mkLine (removelast (text l)) false).
Proof.
  intros [Ha Hl Hb Ht Hd] Hne He. destruct (exists_last Hne) as (pre & x & Heq). rewrite Heq in *.
  rewrite removelast_last. rewrite length_app in *. simpl in *.
  split; cbn [kb_line_buf kb_line_len kb_line_complete text entered]; try lia.
  - apply (f_equal (take (length pre))) in Ht. rewrite take_take, Nat.min_l, take_app_length in Ht by lia. exact Ht.
  - by rewrite Hd, He.
Qed.

Lemma release_bit scan : is_u8 scan → (Z.land scan 0x80 =? 0) = (scan <? 128).
Proof.
  intros Hs. pose proof (land_bit_zero scan 7 ltac:(lia)) as Hb. change (Z.shiftl 1 7) with 0x80 in Hb. rewrite Hb.
  rewrite Z.testbit_eqb by lia. change (2 ^ 7) with 128.
  destruct (Z.ltb_spec scan 128).
  - by rewrite Z.div_small by lia.
  - replace (scan / 128) with 1 by word_lia. done.
Qed.

Lemma keyboard_handler_spec cr3 dev k c l t : fb_mapped cr3 (c_mem c) → shows c t → term_wf t → holds k l →
  let scan := u8 (dev (c_ports c) KBD_DATA_PORT) in
  ∃ k' c', keyboard_handler cr3 dev (k, c) = Some (k', c') ∧
    holds k' (press l scan) ∧ handled c t scan (press_echo l scan) c'.
Proof.
  intros Hk Hs Ht Hh. cbv zeta. unfold keyboard_handler, read_scan_code, inb.
  change (u16 KBD_DATA_PORT) with KBD_DATA_PORT.
  set (scan := u8 (dev (c_ports c) KBD_DATA_PORT)).
  assert (is_u8 scan) as Hsc by apply u8_range. clearbody scan.
  rewrite release_bit by done. unfold press, press_echo.
  destruct (Z.ltb_spec scan 128) as [Hlt|Hge]; cbn [negb].
  2:{ unfold key. ztest. do 2 eexists. split; [reflexivity|]. split; [exact Hh|]. by apply handled_nothing. }
  destruct (key_spec scan) as (ch & -> & Hch & ->); [lia|]. rewrite bind_Some.
  destruct (ch =? 0).
  { do 2 eexists. split; [reflexivity|]. split; [exact Hh|]. by apply handled_nothing. }
  pose proof Hh as [Ha Hl Hb Htx Hd]. rewrite Hd. unfold edit, echo.
  destruct (entered l) eqn:He; cbn [Z.b2z].
  { do 2 eexists. split; [reflexivity|]. split; [exact Hh|]. by apply handled_nothing. }
  change (negb (0 =? 0)) with false. cbn iota.
  destruct (Z.eqb_spec ch 10) as [->|Hn10].
  { destruct (handled_echo cr3 c t scan 10 Hk Hs Ht) as (c' & -> & Hc'); [lia|]. rewrite bind_Some.
    do 2 eexists. split; [reflexivity|]. split; [|exact Hc']. by split. }
  destruct (Z.eqb_spec ch 8) as [->|Hn8].
  { destruct (Z.ltb_spec 0 (kb_line_len k)) as [Hpos|Hz].
    - assert (text l ≠ []) as Hne by (intros Hnil; rewrite Hnil in Hl; simpl in Hl; lia).
      destruct (handled_echo cr3 c t scan 8 Hk Hs Ht) as (c' & -> & Hc'); [lia|]. rewrite bind_Some.
      do 2 eexists. split; [reflexivity|]. rewrite u32_small by lia.
      assert (match text l with [] => [] | _ :: _ => [8] end = [8]) as -> by (by destruct (text l)).
      split; [|exact Hc']. replace 0 with (kb_line_complete k) by (by rewrite Hd). by apply holds_erase.
    - assert (text l = []) as Hnil by (destruct (text l); [done|simpl in Hl; lia]). rewrite Hnil.
      do 2 eexists. split; [reflexivity|]. split; [|by apply handled_nothing].
      assert (mkLine (removelast []) false = l) as -> by (destruct l; cbn [text entered] in *; by subst). exact Hh. }
  destruct (Z.ltb_spec (kb_line_len k) (KB_LINE_MAX - 1)) as [Hroom|Hfull].
  - rewrite (proj2 (Nat.ltb_lt (length (text l)) 127)) by lia. unfold kb_store.
    rewrite Hl, Nat2Z.id. destruct (lookup_lt_is_Some_2 (kb_line_buf k) (length (text l))) as [o Ho]; [lia|].
    rewrite Ho, !bind_Some. destruct (handled_echo cr3 c t scan ch Hk Hs Ht Hch) as (c' & -> & Hc').
    rewrite bind_Some. do 2 eexists. split; [reflexivity|]. split; [|exact Hc']. rewrite u32_small by lia.
    rewrite <- Hl. replace 0 with (kb_line_complete k) by (by rewrite Hd). apply holds_append; [done|lia|done].
  - rewrite (proj2 (Nat.ltb_ge (length (text l)) 127)) by lia.
    do 2 eexists. split; [reflexivity|]. split; [exact Hh|]. by apply handled_nothing.
Qed.

(** ** Sequences of interrupts *)

(** One call of the handler for each scan code. *)
Fixpoint keyboard_irqs (cr3 : Z) (scans : list Z) (s : kbd * console) : option (kbd * console) :=
  match scans with
  | [] => Some s
  | scan :: scans' => s ← keyboard_handler cr3 (λ _ _, scan) s; keyboard_irqs cr3 scans' s
  end.

Fixpoint echoes (l : line) (scans : list Z) : list Z :=
  match scans with
  | [] => []
  | scan :: scans' => press_echo l scan ++ echoes (press l scan) scans'
  end.

Lemma key_u8 scan ch : key scan = Some ch → is_u8 ch.
Proof.
  unfold key. destruct (128 <=? scan); [done|].
  destruct (scancode_to_ascii !! Z.to_nat scan) as [x|] eqn:Hx; [|done].
  destruct (x =? 0); [done|]. intros [= <-]. exact (proj1 (Forall_lookup _ _) scancode_u8 _ _ Hx).
Qed.

Lemma keyboard_irqs_spec cr3 scans k c l t : fb_mapped cr3 (c_mem c) → shows c t → term_wf t → holds k l →
  Forall (λ s, is_u8 s) scans →
  ∃ k' c', keyboard_irqs cr3 scans (k, c) = Some (k', c') ∧ holds k' (foldl press l scans) ∧
    shows c' (term_write t (echoes l scans)) ∧ changes_only fb_bytes (c_mem c) (c_mem c').
Proof.
  revert k c l t. induction scans as [|s scans IH]; intros k c l t Hk Hs Ht Hh HF; cbn [keyboard_irqs echoes].
  { exists k, c. by split_and!. }
  apply Forall_cons in HF as [Hsu HF].
  destruct (keyboard_handler_spec cr3 (λ _ _, s) k c l t Hk Hs Ht Hh) as (k1 & c1 & -> & Hh1 & [Hm1 _ Hs1]).
  rewrite (u8_small s) in Hh1, Hs1 by done. rewrite bind_Some.
  destruct (IH k1 c1 (press l s) (term_write t (press_echo l s))) as (k2 & c2 & -> & Hh2 & Hs2 & Hm2);
    [by eapply kmapped_changes|exact Hs1|by apply term_write_wf|exact Hh1|exact HF|].
  exists k2, c2. split; [reflexivity|]. split; [exact Hh2|]. split; [|by eapply changes_only_trans].
  unfold term_write in *. rewrite foldl_app. exact Hs2.
Qed.

(** The buffer holds some line after any interrupt that is handled, whatever
    the state of the console. *)
Lemma keyboard_handler_holds cr3 dev k c l k' c' : holds k l →
  keyboard_handler cr3 dev (k, c) = Some (k', c') → ∃ l', holds k' l'.
Proof.
  intros Hh Hr. unfold keyboard_handler in Hr. destruct (read_scan_code dev c) as [sc c1].
  destruct (negb (Z.land sc 0x80 =? 0)); [simplify_eq; by exists l|].
  destruct (scancode_to_ascii !! Z.to_nat sc) as [ch|]; [rewrite bind_Some in Hr|done].
  destruct (ch =? 0); [simplify_eq; by exists l|].
  destruct (negb (kb_line_complete k =? 0)) eqn:Hd; [simplify_eq; by exists l|].
  assert (entered l = false) as He.
  { destruct Hh as [_ _ _ _ E]. rewrite E in Hd. by destruct (entered l). }
  destruct (ch =? 10).
  { apply option.bind_Some in Hr as ([n c2] & _ & Hr). simplify_eq. exists (mkLine (text l) true).
    destruct Hh as [H1 H2 H3 H4 _]. by split. }
  destruct (ch =? 8).
  { destruct (Z.ltb_spec 0 (kb_line_len k)) as [Hpos|]; [|simplify_eq; by exists l].
    apply option.bind_Some in Hr as ([n c2] & _ & Hr). simplify_eq. eexists.
    rewrite u32_small by (destruct Hh; lia). apply holds_erase; [exact Hh| |exact He].
    intros Hnil. destruct Hh as [_ E _ _ _]. rewrite Hnil in E. simpl in E. lia. }
  destruct (Z.ltb_spec (kb_line_len k) (KB_LINE_MAX - 1)) as [Hlt|]; [|simplify_eq; by exists l].
  unfold kb_store in Hr. destruct (kb_line_buf k !! Z.to_nat (kb_line_len k)) as [x|] eqn:Hx; [rewrite !bind_Some in Hr|done].
  apply option.bind_Some in Hr as ([n c2] & _ & Hr). simplify_eq. eexists.
  destruct Hh as [H1 H2 H3 H4 H5] eqn:E. rewrite H2, Nat2Z.id, u32_small by lia. rewrite <- H2.
  apply holds_append; [exact Hh|lia|exact He].
Qed.

(** ** Reading the line *)

Lemma keyboard_read_line_spec cr3 buf max k l m phi : holds k l → 0 <= max → 0 <= buf → buf + max <= 4294967296 →
  vmapped cr3 (within buf max) phi m → Forall (λ b, is_u8 b) (text l) →
  let out := take (Z.to_nat max) (text l) in
  ∃ k' m', keyboard_read_line cr3 buf max k m = Some (Z.of_nat (length out), k', m') ∧
    holds k' (mkLine [] false) ∧ bytes_at cr3 m' buf out ∧ changes_only (image (within buf max) phi) m m'.
Proof.
  intros [Ha Hl Hb Ht Hd] Hmax Hbuf Hfit Hv Hu. cbv zeta. unfold keyboard_read_line.
  set (len := if max <? kb_line_len k then max else kb_line_len k).
  assert (len = Z.of_nat (length (take (Z.to_nat max) (text l)))) as Hlen.
  { subst len. rewrite length_take. destruct (Z.ltb_spec max (kb_line_len k)); lia. }
  assert (0 <= len <= Z.of_nat (length (text l)) ∧ len <= max) as [Hlr Hlm]
    by (rewrite Hlen, length_take; lia).
  rewrite (kwrite_for cr3 m (λ i, buf +ᵤ i) buf) by (lia || (intros; apply u32_small; lia)).
  assert (take (Z.to_nat len) (kb_line_buf k) = take (Z.to_nat max) (text l)) as ->.
  { assert (take (length (text l)) (kb_line_buf k) = text l) as Ht2 by exact Ht.
    rewrite Hlen, Nat2Z.id, length_take. rewrite <- Ht2 at 2. rewrite take_take. reflexivity. }
  destruct (kwrite_vmapped cr3 (within buf max) phi m buf (take (Z.to_nat max) (text l)) Hv)
    as (m' & -> & Hc & Hby & _); [unfold within; lia|by apply Forall_take|].
  rewrite bind_Some. do 2 eexists. split; [by rewrite Hlen|]. split; [|by split]. split; cbn; solve [done|lia].
Qed.

Lemma edit_letters scs cs l : Forall2 (λ s ch, key s = Some ch ∧ ch ≠ 8 ∧ ch ≠ 10) scs cs →
  entered l = false → (length (text l) + length cs <= 127)%nat →
  foldl press l scs = mkLine (text l ++ cs) false ∧ echoes l scs = cs.
Proof.
  intros HF. revert l. induction HF as [|s ch scs cs (Hk & H8 & H10) _ IH]; intros l He Hlen; simpl.
  { rewrite app_nil_r. destruct l; simpl in *. by subst. }
  simpl in Hlen.
  assert (press l s = mkLine (text l ++ [ch]) false ∧ press_echo l s = [ch]) as [-> ->].
  { unfold press, press_echo. rewrite Hk. unfold edit, echo. rewrite He.
    rewrite (proj2 (Z.eqb_neq ch 10)), (proj2 (Z.eqb_neq ch 8)) by done.
    by rewrite (proj2 (Nat.ltb_lt (length (text l)) 127)) by lia. }
  destruct (IH (mkLine (text l ++ [ch]) false)) as [-> ->]; cbn [text entered]; [done|rewrite length_app; simpl; lia|].
  by rewrite <- app_assoc.
Qed.

(** ** Properties *)

(** C33: handling any sequence of scan codes leaves in the buffer the line the
    editor makes of them, of at most 127 characters, and on the screen the
    editor's echo; only the frame buffer is written. *)
Theorem keyboard_refines cr3 scans k c l t :
  fb_mapped cr3 (c_mem c) → shows c t → term_wf t → holds k l → Forall (λ s, is_u8 s) scans →
  ∃ k' c', keyboard_irqs cr3 scans (k, c) = Some (k', c') ∧
    holds k' (foldl press l scans) ∧ (length (text (foldl press l scans)) <= 127)%nat ∧
    keyboard_has_line k' = Z.b2z (entered (foldl press l scans)) ∧
    shows c' (term_write t (echoes l scans)) ∧ changes_only fb_bytes (c_mem c) (c_mem c').
Proof.
  intros Hk Hs Ht Hh HF.
  destruct (keyboard_irqs_spec cr3 scans k c l t Hk Hs Ht Hh HF) as (k' & c' & -> & Hh' & Hs' & Hm').
  exists k', c'. split; [reflexivity|]. split; [exact Hh'|]. split; [apply Hh'|]. split; [apply Hh'|]. by split.
Qed.

(** C28: a line of up to 127 characters typed on the keyboard and ended with
    Enter is echoed to the screen, is what keyboard_read_line copies to the
    reader's buffer, and leaves the keyboard ready for the next line. *)
Theorem typed_line_roundtrip cr3 scs cs k c t buf max phi :
  fb_mapped cr3 (c_mem c) → shows c t → term_wf t → holds k (mkLine [] false) →
  Forall (λ s, is_u8 s) scs → Forall2 (λ s ch, key s = Some ch ∧ ch ≠ 8 ∧ ch ≠ 10) scs cs →
  (length cs <= 127)%nat → Z.of_nat (length cs) <= max → 0 <= buf → buf + max <= 4294967296 →
  (∀ m', changes_only fb_bytes (c_mem c) m' → vmapped cr3 (within buf max) phi m') →
  ∃ k1 c1 k2 m2, keyboard_irqs cr3 (scs ++ [28]) (k, c) = Some (k1, c1) ∧
    keyboard_has_line k1 = 1 ∧ shows c1 (term_write t (cs ++ [10])) ∧
    keyboard_read_line cr3 buf max k1 (c_mem c1) = Some (Z.of_nat (length cs), k2, m2) ∧
    bytes_at cr3 m2 buf cs ∧ holds k2 (mkLine [] false).
Proof.
  intros Hk Hs Ht Hh HF H2 Hlen Hmax Hbuf Hfit Hv.
  destruct (keyboard_irqs_spec cr3 (scs ++ [28]) k c (mkLine [] false) t Hk Hs Ht Hh)
    as (k1 & c1 & Heq & Hh1 & Hs1 & Hm1); [apply Forall_app; split; [done|]; apply Forall_cons; split; [lia|done]|].
  destruct (edit_letters scs cs (mkLine [] false) H2 eq_refl Hlen) as [Hpress Hecho]. simpl in Hpress.
  assert (echoes (mkLine [] false) (scs ++ [28]) = cs ++ [10]) as He.
  { assert (∀ l, echoes l (scs ++ [28]) = echoes l scs ++ echoes (foldl press l scs) [28]) as Happ.
    { clear. induction scs as [|s scs IH]; intros l; simpl; [done|]. by rewrite IH, <- app_assoc. }
    rewrite Happ, Hpress, Hecho. done. }
  rewrite foldl_app, Hpress in Hh1. rewrite He in Hs1. change (foldl press (mkLine cs false) [28]) with (mkLine cs true) in Hh1.
  assert (Forall (λ b, is_u8 b) cs) as Hu.
  { apply Forall_lookup. intros i ch Hi. destruct (Forall2_lookup_r _ _ _ _ _ H2 Hi) as (s & _ & Hs' & _). by eapply key_u8. }
  destruct (keyboard_read_line_spec cr3 buf max k1 (mkLine cs true) (c_mem c1) phi) as (k2 & m2 & Hr & Hh2 & Hb & _);
    [exact Hh1|lia|done|done|by apply Hv|exact Hu|].
  cbn [text] in *. rewrite take_ge in Hr, Hb by lia.
  exists k1, c1, k2, m2. split; [exact Heq|]. split; [apply Hh1|]. split; [exact Hs1|]. split; [exact Hr|]. by split.
Qed.

(** ** Witnesses *)

Definition empty_kbd : kbd := mkKbd (replicate 128 0) 0 0.
Lemma empty_kbd_holds : holds empty_kbd (mkLine [] false).
Proof. split; cbn [empty_kbd kb_line_buf kb_line_len kb_line_complete text entered length]; solve [reflexivity|apply length_replicate|lia]. Qed.

(** 'l', 's', a backspace, 's' and Enter. *)
Lemma keyboard_refines_witness : ∃ c k' c', keyboard_irqs 0x8000 [38; 31; 14; 31; 28] (empty_kbd, c) = Some (k', c') ∧
  holds k' (mkLine [108; 115] true).
Proof.
  destruct example_console as (c0 & Hk & _). destruct (fb_clear_spec 0x8000 c0 Hk) as (c & _ & [Hm _ Hs]).
  destruct (keyboard_refines 0x8000 [38; 31; 14; 31; 28] empty_kbd c (mkLine [] false) (mkTerm (replicate 2000 blank) 0))
    as (k' & c' & H1 & H2 & _); [by eapply kmapped_changes|exact Hs|split; [apply length_replicate|done]|
      exact empty_kbd_holds|repeat (apply Forall_cons; split; [lia|]); done|].
  by exists c, k', c'.
Defined.

Lemma typed_line_roundtrip_witness : ∃ c k1 c1 k2 m2,
  keyboard_irqs 0x8000 [38; 31; 28] (empty_kbd, c) = Some (k1, c1) ∧
  keyboard_read_line 0x8000 0x300000 127 k1 (c_mem c1) = Some (2, k2, m2) ∧
  bytes_at 0x8000 m2 0x300000 [108; 115].
Proof.
  destruct example_console as (c0 & Hk & Hk0 & _). destruct (fb_clear_spec 0x8000 c0 Hk) as (c & _ & [Hm _ Hs]).
  destruct (typed_line_roundtrip 0x8000 [38; 31] [108; 115] empty_kbd c (mkTerm (replicate 2000 blank) 0) 0x300000 127 (λ a, a))
    as (k1 & c1 & k2 & m2 & H1 & _ & _ & H2 & H3 & _); [by eapply kmapped_changes|exact Hs|split; [apply length_replicate|done]|
      exact empty_kbd_holds|repeat (apply Forall_cons; split; [lia|]); done|
      repeat constructor; discriminate|simpl; lia|simpl; lia|lia|lia| |].
  - intros m' Hc. unfold within. split; [|intros; split; lia|intros; lia]. intros m2 Hc2 va Hva.
    apply Hk0; [|lia|unfold within; lia].
    eapply changes_only_trans; [eapply changes_only_mono; [|exact Hm]; unfold fb_bytes, within; lia|].
    eapply changes_only_trans; [eapply changes_only_mono; [|exact Hc]; unfold fb_bytes, within; lia|].
    eapply changes_only_mono; [|exact Hc2]. unfold within. intros a (va' & ? & <-). lia.
  - exists c, k1, c1, k2, m2. split; [exact H1|]. split; [exact H2|exact H3].
Defined.
