(* ===== verification/Pic.v ===== *)
(** * drivers/pic.c and pit.c: the interrupt controllers and the timer

    pic_remap, pic_acknowledge and pit_init as the accesses they make to the
    I/O ports.  What the accesses do is said by two machines that read the
    trace: [pics], the pair of 8259A controllers, and [timer], channel 0 of the
    8253.  They cover the commands the kernel sends (initialisation, masks,
    non-specific end of interrupt, square-wave mode), as the data sheets give
    them. *)

From stdpp Require Import prelude.
From Stdlib Require Import ZArith Lia.
From S2P Require Import Prelude Ports.

(** ** The code *)

Abbreviation PIC1_PORT_A := 0x20.
Abbreviation PIC1_PORT_B := 0x21.
Abbreviation PIC2_PORT_A := 0xA0.
Abbreviation PIC2_PORT_B := 0xA1.
Abbreviation PIC1_START_INTERRUPT := 0x20.
Abbreviation PIC2_START_INTERRUPT := 0x28.
Abbreviation PIC2_END_INTERRUPT := (PIC2_START_INTERRUPT + 7).
Abbreviation PIC_ICW1_INIT := 0x11.
Abbreviation PIC_ICW4_8086 := 0x01.
Abbreviation PIC_ACK := 0x20.

Definition pic_remap (tr : list io) : list io :=
  let tr := outb PIC1_PORT_A PIC_ICW1_INIT tr in
  let tr := outb PIC2_PORT_A PIC_ICW1_INIT tr in
  let tr := outb PIC1_PORT_B PIC1_START_INTERRUPT tr in
  let tr := outb PIC2_PORT_B PIC2_START_INTERRUPT tr in
  let tr := outb PIC1_PORT_B 0x04 tr in
  let tr := outb PIC2_PORT_B 0x02 tr in
  let tr := outb PIC1_PORT_B PIC_ICW4_8086 tr in
  let tr := outb PIC2_PORT_B PIC_ICW4_8086 tr in
  let tr := outb PIC1_PORT_B 0xFD tr in
  outb PIC2_PORT_B 0xFF tr.

Definition pic_acknowledge (interrupt : Z) (tr : list io) : list io :=
  if (interrupt <? PIC1_START_INTERRUPT) || (PIC2_END_INTERRUPT <? interrupt) then tr
  else
    let tr := if PIC2_START_INTERRUPT <=? interrupt then outb PIC2_PORT_A PIC_ACK tr else tr in
    outb PIC1_PORT_A PIC_ACK tr.

Abbreviation PIT_COMMAND_PORT := 0x43.
Abbreviation PIT_CHANNEL0_PORT := 0x40.
Abbreviation PIT_BASE_FREQ := 1193182.
Abbreviation PIC1_DATA_PORT := 0x21.

(** The divisor pit_init programs. *)
Definition pit_divisor (freq_hz : Z) : Z :=
  let freq_hz := if freq_hz =? 0 then 1 else freq_hz in
  let divisor := PIT_BASE_FREQ / freq_hz in
  let divisor := if 0xFFFF <? divisor then 0xFFFF else divisor in
  if divisor =? 0 then 1 else divisor.

Definition pit_init (dev : device) (freq_hz : Z) (tr : list io) : list io :=
  let divisor := pit_divisor freq_hz in
  let tr := outb PIT_COMMAND_PORT 0x36 tr in
  let tr := outb PIT_CHANNEL0_PORT (u8 (Z.land divisor 0xFF)) tr in
  let tr := outb PIT_CHANNEL0_PORT (u8 (Z.land (Z.shiftr divisor 8) 0xFF)) tr in
  let '(mask, tr) := inb dev PIC1_DATA_PORT tr in
  let mask := u8 (Z.land mask (u32 (Z.lnot 0x01))) in
  outb PIC1_DATA_PORT mask tr.

(** ** The 8259A

    [icw] is the initialisation word expected next, 0 when there is none. *)

Record pic := mkPic {
  icw : Z;
  icw1 : Z;
  vector_base : Z;
  imr : Z;
  in_service : Z
}.

(** A byte to the command port: ICW1, or a non-specific end of interrupt,
    which clears the lowest bit in service. *)
Definition pic_command (v : Z) (p : pic) : pic :=
  if Z.testbit v 4 then mkPic 2 v (vector_base p) 0 0
  else if v =? 0x20 then
    mkPic (icw p) (icw1 p) (vector_base p) (imr p) (Z.land (in_service p) (in_service p - 1))
  else p.

(** The word after ICW2 or ICW3: a controller that is not alone has ICW3, and
    ICW1 says whether ICW4 follows. *)
Definition after_icw3 (icw1 : Z) : Z := if Z.testbit icw1 0 then 4 else 0.
Definition after_icw2 (icw1 : Z) : Z := if Z.testbit icw1 1 then after_icw3 icw1 else 3.

Definition pic_data (v : Z) (p : pic) : pic :=
  if icw p =? 2 then mkPic (after_icw2 (icw1 p)) (icw1 p) (Z.land v 0xF8) (imr p) (in_service p)
  else if icw p =? 3 then mkPic (after_icw3 (icw1 p)) (icw1 p) (vector_base p) (imr p) (in_service p)
  else if icw p =? 4 then mkPic 0 (icw1 p) (vector_base p) (imr p) (in_service p)
  else mkPic 0 (icw1 p) (vector_base p) v (in_service p).

(** The two controllers, the second behind line 2 of the first. *)
Definition pics : Type := pic * pic.

Definition pics_step (s : pics) (e : io) : pics :=
  match e with
  | Out 0x20 v => (pic_command v s.1, s.2)
  | Out 0x21 v => (pic_data v s.1, s.2)
  | Out 0xA0 v => (s.1, pic_command v s.2)
  | Out 0xA1 v => (s.1, pic_data v s.2)
  | _ => s
  end.

(** The vector of an interrupt line, whether it is let through, and what
    delivering it does to the controllers. *)
Definition vector (s : pics) (irq : Z) : Z :=
  if irq <? 8 then vector_base s.1 + irq else vector_base s.2 + (irq - 8).

Definition unmasked (s : pics) (irq : Z) : bool :=
  if irq <? 8 then negb (Z.testbit (imr s.1) irq)
  else negb (Z.testbit (imr s.2) (irq - 8)) && negb (Z.testbit (imr s.1) 2).

Definition serve (n : Z) (p : pic) : pic :=
  mkPic (icw p) (icw1 p) (vector_base p) (imr p) (Z.lor (in_service p) (Z.shiftl 1 n)).
Definition deliver (irq : Z) (s : pics) : pics :=
  if irq <? 8 then (serve irq s.1, s.2) else (serve 2 s.1, serve (irq - 8) s.2).

Definition idle (s : pics) : Prop := in_service s.1 = 0 ∧ in_service s.2 = 0.

(** Initialised for the vectors from 32 on, with these masks. *)
Definition remapped (m1 m2 : Z) (s : pics) : Prop :=
  icw s.1 = 0 ∧ icw s.2 = 0 ∧ vector_base s.1 = 32 ∧ vector_base s.2 = 40 ∧ imr s.1 = m1 ∧ imr s.2 = m2.

(** ** The timer: channel 0 of the 8253 *)

Record timer := mkTimer {
  t_mode : Z;
  t_next_high : bool;
  t_reload : Z
}.

(** A control word for channel 0 that asks for both bytes of the counter, low
    byte first; then the counter. *)
Definition timer_step (s : timer) (e : io) : timer :=
  match e with
  | Out 0x43 v =>
      if Z.land v 0xF0 =? 0x30 then mkTimer (Z.land (Z.shiftr v 1) 7) false (t_reload s) else s
  | Out 0x40 v =>
      if t_next_high s then mkTimer (t_mode s) false (t_reload s mod 256 + 256 * v)
      else mkTimer (t_mode s) true v
  | _ => s
  end.

(** ** The controllers *)

Lemma pic_remap_spec s tr : ∃ s', observe pics_step s (pic_remap tr) = s' ∧ remapped 0xFD 0xFF s' ∧ idle s'.
Proof.
  unfold pic_remap. cbv zeta. autorewrite with ports.
  destruct (observe pics_step s tr) as [[] []]. eexists. split; [reflexivity|]. vm_compute. done.
Qed.

Lemma remapped_vector m1 m2 s irq : remapped m1 m2 s → 0 <= irq < 16 → vector s irq = 32 + irq.
Proof. intros (_ & _ & H1 & H2 & _) Hi. unfold vector. rewrite H1, H2. zcases. Qed.

(** The sixteen lines, one by one. *)
Lemma irq_cases (P : Z → Prop) : (∀ n, (n < 16)%nat → P (Z.of_nat n)) → ∀ irq, 0 <= irq < 16 → P irq.
Proof. intros H irq Hi. rewrite <- (Z2Nat.id irq) by lia. apply H. lia. Qed.

Lemma deliver_acknowledge s irq tr s0 : 0 <= irq < 16 →
  observe pics_step s0 tr = deliver irq s → idle s →
  observe pics_step s0 (pic_acknowledge (32 + irq) tr) = s.
Proof.
  intros Hi Ho [H1 H2]. destruct s as [[i1 c1 b1 m1 z1] [i2 c2 b2 m2 z2]]. simpl in H1, H2. subst z1 z2.
  revert irq Hi Ho. apply (irq_cases (λ irq, observe pics_step s0 tr = _ → _)). intros n Hn Ho.
  do 16 (destruct n as [|n]; [unfold pic_acknowledge; simpl; autorewrite with ports; rewrite Ho; reflexivity|]). lia.
Qed.

(** ** The divisor *)

Lemma pit_divisor_spec freq : is_u32 freq →
  1 <= pit_divisor freq <= 0xFFFF ∧
  (freq < 19 → pit_divisor freq = 0xFFFF) ∧ (PIT_BASE_FREQ < freq → pit_divisor freq = 1) ∧
  (19 <= freq <= PIT_BASE_FREQ → freq * pit_divisor freq <= PIT_BASE_FREQ < freq * (pit_divisor freq + 1)).
Proof.
  intros Hf. unfold pit_divisor. destruct (Z.eqb_spec freq 0) as [->|Hne]; [vm_compute; intuition (discriminate || lia)|].
  assert (freq * (PIT_BASE_FREQ / freq) <= PIT_BASE_FREQ < freq * (PIT_BASE_FREQ / freq + 1)) as Hd
    by (Z.to_euclidean_division_equations; nia).
  revert Hd. generalize (PIT_BASE_FREQ / freq). intros d Hd. zcases; intuition nia.
Qed.

Lemma divisor_bytes d : 0 <= d <= 0xFFFF →
  u8 (u8 (Z.land d 0xFF)) mod 256 + 256 * u8 (u8 (Z.land (Z.shiftr d 8) 0xFF)) = d.
Proof.
  intros Hd. change 0xFF with (Z.ones 8). rewrite !Z.land_ones, Z.shiftr_div_pow2 by lia.
  change (2 ^ 8) with 256. word_lia.
Qed.

(** Clearing bit 0 of a mask. *)
Lemma clear_irq0 v : is_u8 v →
  let m := u8 (Z.land v (u32 (Z.lnot 0x01))) in
  is_u8 m ∧ Z.testbit m 0 = false ∧ ∀ i, 1 <= i < 8 → Z.testbit m i = Z.testbit v i.
Proof.
  intros Hv. cbv zeta. split; [apply u8_range|]. unfold u8. change 256 with (2 ^ 8).
  change (u32 (Z.lnot 1)) with (Z.shiftl (Z.ones 31) 1).
  assert (∀ i, 0 <= i < 8 → Z.testbit (Z.land v (Z.shiftl (Z.ones 31) 1) mod 2 ^ 8) i = Z.testbit v i && (1 <=? i)) as Hb.
  { intros i Hi. rewrite Z.mod_pow2_bits_low, Z.land_spec, Z.shiftl_spec by lia.
    destruct (Z.leb_spec 1 i) as [H|H].
    - by rewrite Z.ones_spec_low by lia.
    - by rewrite (Z.testbit_neg_r _ (i - 1)) by lia. }
  split; [rewrite Hb by lia; apply andb_false_r|]. intros i Hi. rewrite Hb, (proj2 (Z.leb_le 1 i)) by lia. apply andb_true_r.
Qed.

(** What pit_init does to the timer and to the controllers, whatever was done
    to the ports before.  The controllers are past their initialisation and
    answer a read of the first data port with their mask. *)
Lemma pit_init_spec dev s t freq tr m1 m2 : is_u32 freq → is_u8 m1 →
  (∀ tr', imr (observe pics_step s tr').1 = m1 → dev tr' PIC1_DATA_PORT = m1) →
  remapped m1 m2 (observe pics_step s tr) → t_next_high (observe timer_step t tr) = false →
  ∃ m1', remapped m1' m2 (observe pics_step s (pit_init dev freq tr)) ∧
    is_u8 m1' ∧ Z.testbit m1' 0 = false ∧ (∀ i, 1 <= i < 8 → Z.testbit m1' i = Z.testbit m1 i) ∧
    t_mode (observe timer_step t (pit_init dev freq tr)) = 3 ∧
    t_next_high (observe timer_step t (pit_init dev freq tr)) = false ∧
    t_reload (observe timer_step t (pit_init dev freq tr)) = pit_divisor freq.
Proof.
  intros Hf Hm1 Hdev Hr Ht. unfold pit_init.
  set (tr3 := outb _ _ (outb _ _ (outb _ _ tr))).
  assert (observe pics_step s tr3 = observe pics_step s tr) as Hs3 by (subst tr3; by autorewrite with ports).
  assert (dev tr3 (u16 PIC1_DATA_PORT) = m1) as Hd by (apply Hdev; rewrite Hs3; apply Hr).
  destruct (clear_irq0 m1 Hm1) as (Hu & H0 & Hi). cbv zeta.
  exists (u8 (Z.land m1 (u32 (Z.lnot 0x01)))). cbv [inb]. rewrite Hd, (u8_small m1 Hm1).
  set (mask := u8 (Z.land m1 (u32 (Z.lnot 1)))) in *. rewrite !observe_outb, !observe_snoc.
  rewrite Hs3. destruct (observe pics_step s tr) as [[i1 c1 b1 x1 z1] p2]. destruct Hr as (E1 & E2 & E3 & E4 & E5 & E6).
  cbn [fst snd icw imr vector_base] in *. subst i1 x1.
  change (u16 33) with 33. rewrite (u8_small mask Hu). split; [by repeat split|]. split; [exact Hu|]. split; [exact H0|]. split; [exact Hi|].
  subst tr3. rewrite !observe_outb. destruct (observe timer_step t tr) as [md nh rl]. cbn in Ht. subst nh.
  change (u16 PIT_COMMAND_PORT) with 0x43. change (u16 PIT_CHANNEL0_PORT) with 0x40. change (u8 0x36) with 0x36.
  cbn [foldl timer_step]. change (Z.land 54 240 =? 48) with true. cbn iota. cbn [t_next_high t_mode t_reload].
  split; [reflexivity|]. split; [reflexivity|]. apply divisor_bytes. pose proof (pit_divisor_spec freq Hf). lia.
Qed.

(** The lines let through when only bits 0 and 1 of the first mask are clear. *)
Lemma two_lines m1 s irq : remapped m1 0xFF s → Z.testbit m1 0 = false →
  (∀ i, 1 <= i < 8 → Z.testbit m1 i = Z.testbit 0xFD i) → 0 <= irq < 16 → unmasked s irq = (irq <? 2).
Proof.
  intros (_ & _ & _ & _ & E1 & E2) H0 Hi Hq. unfold unmasked. rewrite E1, E2. destruct (Z.ltb_spec irq 8).
  - destruct (Z.eq_dec irq 0) as [->|]; [by rewrite H0|]. rewrite Hi by lia.
    assert (irq = 1 ∨ irq = 2 ∨ irq = 3 ∨ irq = 4 ∨ irq = 5 ∨ irq = 6 ∨ irq = 7) as Hc by lia.
    repeat (destruct Hc as [->|Hc]; [reflexivity|]). by subst.
  - rewrite (Hi 2) by lia. rewrite andb_false_r. symmetry. apply Z.ltb_ge. lia.
Qed.

(** ** Properties *)

(** Whatever the controllers did before, after pic_remap they are past
    their initialisation with nothing in service, line n interrupts with vector
    32 + n, away from the processor's exceptions, and the keyboard's line is
    the only one let through. *)
Theorem pic_remap_correct s tr :
  let s' := observe pics_step s (pic_remap tr) in
  idle s' ∧ icw s'.1 = 0 ∧ icw s'.2 = 0 ∧
  ∀ irq, 0 <= irq < 16 → vector s' irq = 32 + irq ∧ unmasked s' irq = (irq =? 1).
Proof.
  cbv zeta. destruct (pic_remap_spec s tr) as (s' & -> & Hr & Hi). split; [exact Hi|].
  split; [apply Hr|]. split; [apply Hr|]. intros irq Hq. split; [by eapply remapped_vector|].
  unfold unmasked. destruct Hr as (_ & _ & _ & _ & -> & ->). revert irq Hq. apply irq_cases. intros n Hn.
  do 16 (destruct n as [|n]; [reflexivity|]). lia.
Qed.

(** C37: after pic_remap and pit_init exactly the timer's and the keyboard's
    lines are let through, and the timer is a square wave whose divisor is at
    least 1 and fits its 16 bits: the largest one that is not slower than the
    frequency asked for, when the timer can go that slow and that fast. *)
Theorem pit_init_correct dev s t freq tr :
  is_u32 freq → t_next_high (observe timer_step t (pic_remap tr)) = false →
  (∀ tr', dev tr' PIC1_DATA_PORT = imr (observe pics_step s tr').1) →
  let tr' := pit_init dev freq (pic_remap tr) in
  let d := t_reload (observe timer_step t tr') in
  (∀ irq, 0 <= irq < 16 → unmasked (observe pics_step s tr') irq = (irq <? 2)) ∧
  (∀ irq, 0 <= irq < 16 → vector (observe pics_step s tr') irq = 32 + irq) ∧
  t_mode (observe timer_step t tr') = 3 ∧ 1 <= d <= 0xFFFF ∧
  (freq < 19 → d = 0xFFFF) ∧ (PIT_BASE_FREQ < freq → d = 1) ∧
  (19 <= freq <= PIT_BASE_FREQ → freq * d <= PIT_BASE_FREQ < freq * (d + 1)).
Proof.
  intros Hf Ht Hdev. cbv zeta. destruct (pic_remap_spec s tr) as (s' & Hs' & Hr & _).
  destruct (pit_init_spec dev s t freq (pic_remap tr) 0xFD 0xFF) as (m1 & Hr' & Hu & H0 & Hi & Hmode & _ & ->);
    [exact Hf|lia|intros tr' <-; apply Hdev|by rewrite Hs'|exact Ht|].
  split; [|split; [intros; by eapply remapped_vector|split; [exact Hmode|by apply pit_divisor_spec]]].
  intros irq Hq. by apply (two_lines m1).
Qed.

(** ** Witnesses *)

(** Controllers and timer as they may be when the kernel starts, and 50 Hz. *)
Definition reset_pic : pic := mkPic 0 0 0 0 0.

Lemma pit_init_correct_witness :
  let dev := λ tr' _, imr (observe pics_step (reset_pic, reset_pic) tr').1 in
  let tr' := pit_init dev 50 (pic_remap []) in
  unmasked (observe pics_step (reset_pic, reset_pic) tr') 0 = true ∧
  t_reload (observe timer_step (mkTimer 0 false 0) tr') = 23863 ∧
  50 * 23863 <= PIT_BASE_FREQ < 50 * (23863 + 1).
Proof.
  destruct (pit_init_correct (λ tr' _, imr (observe pics_step (reset_pic, reset_pic) tr').1)
    (reset_pic, reset_pic) (mkTimer 0 false 0) 50 []) as (H1 & _ & _ & _ & _ & _ & H2);
    [lia|reflexivity|reflexivity|].
  cbv zeta. split; [by rewrite H1|]. split; [vm_compute; reflexivity|lia].
Defined.
