(* ===== verification/Serial.v ===== *)
(** * drivers/serial.c: the serial port

    Every function, as the accesses it makes to the I/O ports.  The driver
    spins on the line status register; that it comes to an end is a promise of
    the device, [responsive].  [uart] is the part of a 16550 the driver
    programs, as a machine that reads the trace. *)

From stdpp Require Import prelude gmap.
From Stdlib Require Import ZArith Lia.
From S2P Require Import Prelude Ports Memory Fb.

(** ** The code *)

Definition SERIAL_DATA_PORT (base : Z) : Z := base.
Definition SERIAL_FIFO_COMMAND_PORT (base : Z) : Z := base + 2.
Definition SERIAL_LINE_COMMAND_PORT (base : Z) : Z := base + 3.
Definition SERIAL_MODEM_COMMAND_PORT (base : Z) : Z := base + 4.
Definition SERIAL_LINE_STATUS_PORT (base : Z) : Z := base + 5.
Abbreviation SERIAL_LINE_ENABLE_DLAB := 0x80.

Definition serial_configure_baud_rate (com divisor : Z) (tr : list io) : list io :=
  let tr := outb (SERIAL_LINE_COMMAND_PORT com) SERIAL_LINE_ENABLE_DLAB tr in
  let tr := outb (SERIAL_DATA_PORT com) (Z.land (Z.shiftr divisor 8) 0x00FF) tr in
  outb (SERIAL_DATA_PORT com) (Z.land divisor 0x00FF) tr.

Definition serial_configure_line (com : Z) (tr : list io) : list io :=
  outb (SERIAL_LINE_COMMAND_PORT com) 0x03 tr.

Definition serial_configure_buffers (com : Z) (tr : list io) : list io :=
  outb (SERIAL_FIFO_COMMAND_PORT com) 0xC7 tr.

Definition serial_configure_modem (com : Z) (tr : list io) : list io :=
  outb (SERIAL_MODEM_COMMAND_PORT com) 0x03 tr.

Definition serial_init (com : Z) (tr : list io) : list io :=
  let tr := serial_configure_baud_rate com 2 tr in
  let tr := serial_configure_line com tr in
  let tr := serial_configure_buffers com tr in
  serial_configure_modem com tr.

Definition serial_is_transmit_fifo_empty (dev : device) (com : Z) (tr : list io) : Z * list io :=
  let '(v, tr) := inb dev (SERIAL_LINE_STATUS_PORT com) tr in (Z.land v 0x20, tr).

(** The spin loop and the byte after it. *)
Definition serial_write_char (dev : device) (com c : Z) (tr : list io) : option (list io) :=
  tr ← while (λ tr, let '(v, tr) := serial_is_transmit_fifo_empty dev com tr in
               Some (if v =? 0 then inl tr else inr tr)) tr;
  Some (outb (SERIAL_DATA_PORT com) c tr).

Definition serial_write (cr3 : Z) (m : mem) (dev : device) (com buf len : Z) (tr : list io)
    : option (Z * list io) :=
  tr ← for_range 0 len (λ i tr, b ← kld8 cr3 m (buf +ᵤ i); serial_write_char dev com b tr) tr;
  Some (s32 len, tr).

(** ** The 16550 *)

Record uart := mkUart {
  lcr : Z;
  fcr : Z;
  mcr : Z;
  divisor_low : Z;
  divisor_high : Z;
  transmitted : list Z
}.

(** The first two registers are the divisor latch while bit 7 of the line
    control register is set. *)
Definition uart_step (com : Z) (u : uart) (e : io) : uart :=
  match e with
  | Out p v =>
      if p =? com then
        if Z.testbit (lcr u) 7 then mkUart (lcr u) (fcr u) (mcr u) v (divisor_high u) (transmitted u)
        else mkUart (lcr u) (fcr u) (mcr u) (divisor_low u) (divisor_high u) (transmitted u ++ [v])
      else if p =? com + 1 then
        if Z.testbit (lcr u) 7 then mkUart (lcr u) (fcr u) (mcr u) (divisor_low u) v (transmitted u) else u
      else if p =? com + 2 then mkUart (lcr u) v (mcr u) (divisor_low u) (divisor_high u) (transmitted u)
      else if p =? com + 3 then mkUart v (fcr u) (mcr u) (divisor_low u) (divisor_high u) (transmitted u)
      else if p =? com + 4 then mkUart (lcr u) (fcr u) v (divisor_low u) (divisor_high u) (transmitted u)
      else u
  | In _ _ => u
  end.

Definition uart_divisor (u : uart) : Z := divisor_low u + 256 * divisor_high u.

(** ** The transmitter

    [polled com bs tr]: the bytes go out in order, each after status reads of
    which the last and only the last says that the transmitter is empty. *)
Inductive polled (com : Z) : list Z → list io → Prop :=
  | polled_nil : polled com [] []
  | polled_cons b bs ws v tr :
      Forall (λ w, Z.land w 0x20 = 0) ws → Z.land v 0x20 ≠ 0 → polled com bs tr →
      polled com (b :: bs) ((In (com + 5) <$> ws) ++ In (com + 5) v :: Out com b :: tr).

(** The device becomes ready: [busy] bounds the status reads until then. *)
Record responsive (dev : device) (com : Z) (busy : list io → Z) : Prop := {
  re_bound : ∀ tr, 0 <= busy tr < 8589934592;
  re_poll : ∀ tr, let v := u8 (dev tr (com + 5)) in
    Z.land v 0x20 = 0 → busy (tr ++ [In (com + 5) v]) < busy tr
}.

Section serial.
Context (com : Z).
Hypothesis Hcom : 0 <= com ∧ com + 5 < 65536.

Lemma port_u16 k : 0 <= k <= 5 → u16 (com + k) = com + k.
Proof. intros. unfold u16. apply Z.mod_small. lia. Qed.

Lemma uart_line u v : uart_step com u (Out (com + 3) v) =
  mkUart v (fcr u) (mcr u) (divisor_low u) (divisor_high u) (transmitted u).
Proof. unfold uart_step. repeat ztest. done. Qed.
Lemma uart_fifo u v : uart_step com u (Out (com + 2) v) =
  mkUart (lcr u) v (mcr u) (divisor_low u) (divisor_high u) (transmitted u).
Proof. unfold uart_step. repeat ztest. done. Qed.
Lemma uart_modem u v : uart_step com u (Out (com + 4) v) =
  mkUart (lcr u) (fcr u) v (divisor_low u) (divisor_high u) (transmitted u).
Proof. unfold uart_step. repeat ztest. done. Qed.
Lemma uart_latch u v : Z.testbit (lcr u) 7 = true → uart_step com u (Out com v) =
  mkUart (lcr u) (fcr u) (mcr u) v (divisor_high u) (transmitted u).
Proof. intros H. unfold uart_step. by rewrite Z.eqb_refl, H. Qed.

Lemma uart_baud d u tr :
  observe (uart_step com) u (serial_configure_baud_rate com d tr) =
  let u' := observe (uart_step com) u tr in
  mkUart 0x80 (fcr u') (mcr u') (Z.land d 0xFF) (divisor_high u') (transmitted u').
Proof.
  assert (is_u8 (Z.land d 0xFF)) as Hd by (change 0xFF with (Z.ones 8); rewrite Z.land_ones by lia; by apply Z.mod_pos_bound).
  unfold serial_configure_baud_rate, SERIAL_LINE_COMMAND_PORT, SERIAL_DATA_PORT. cbv zeta.
  rewrite !observe_outb, port_u16 by lia. replace (u16 com) with com by (unfold u16; rewrite Z.mod_small; lia).
  rewrite uart_line, (uart_latch (mkUart (u8 128) _ _ _ _ _)), uart_latch by reflexivity. cbn [lcr fcr mcr divisor_low divisor_high transmitted]. by rewrite (u8_small _ Hd).
Qed.

Lemma polled_char dev busy c tr : is_u8 c → responsive dev com busy →
  ∃ ws v, serial_write_char dev com c tr = Some (tr ++ (In (com + 5) <$> ws) ++ [In (com + 5) v; Out com c]) ∧
    Forall (λ w, Z.land w 0x20 = 0) ws ∧ Z.land v 0x20 ≠ 0.
Proof.
  intros Hc Hr. unfold serial_write_char, SERIAL_DATA_PORT.
  destruct (while_ind
    (λ tr', ∃ ws, tr' = tr ++ (In (com + 5) <$> ws) ∧ Forall (λ w, Z.land w 0x20 = 0) ws)
    (λ tr', ∃ ws v, tr' = tr ++ (In (com + 5) <$> ws) ++ [In (com + 5) v] ∧
       Forall (λ w, Z.land w 0x20 = 0) ws ∧ Z.land v 0x20 ≠ 0)
    busy (λ tr, let '(v, tr) := serial_is_transmit_fifo_empty dev com tr in
               Some (if v =? 0 then inl tr else inr tr)) tr) as (tr' & -> & ws & v & -> & HF & Hv).
  - exists []. by rewrite fmap_nil, app_nil_r.
  - apply Hr.
  - intros tr' (ws & -> & HF). unfold serial_is_transmit_fifo_empty, SERIAL_LINE_STATUS_PORT, inb.
    rewrite port_u16 by lia. set (tr1 := tr ++ _). set (v := u8 (dev tr1 (com + 5))).
    eexists. split; [reflexivity|]. destruct (Z.eqb_spec (Z.land v 0x20) 0) as [E|E].
    + split; [|split; [apply Hr|by apply (re_poll _ _ _ Hr tr1)]]. exists (ws ++ [v]).
      subst tr1. rewrite fmap_app, app_assoc. split; [done|]. by apply Forall_app_2; [|apply Forall_singleton].
    + exists ws, v. subst tr1. by rewrite <- app_assoc.
  - exists ws, v. split; [|by split]. rewrite bind_Some. unfold outb. rewrite (u8_small _ Hc).
    replace (u16 com) with com by (unfold u16; rewrite Z.mod_small; lia). by rewrite <- !app_assoc.
Qed.

Lemma polled_app bs1 bs2 tr1 tr2 : polled com bs1 tr1 → polled com bs2 tr2 → polled com (bs1 ++ bs2) (tr1 ++ tr2).
Proof. induction 1 as [|b bs ws v tr]; intros H2; [done|]. cbn [app]. rewrite <- app_assoc. cbn [app]. constructor; auto. Qed.

Lemma polled_sent bs tr u : polled com bs tr → Z.testbit (lcr u) 7 = false →
  observe (uart_step com) u tr = mkUart (lcr u) (fcr u) (mcr u) (divisor_low u) (divisor_high u) (transmitted u ++ bs).
Proof.
  intros Hp. revert u. induction Hp as [|b bs ws v tr _ _ _ IH]; intros u Hl.
  { rewrite app_nil_r. by destruct u. }
  unfold observe in *. rewrite foldl_app. cbn [foldl].
  assert (foldl (uart_step com) u (In (com + 5) <$> ws) = u) as -> by (clear; induction ws; done).
  unfold uart_step at 2. unfold uart_step at 2. rewrite Z.eqb_refl, Hl. rewrite IH by done. cbn. by rewrite <- app_assoc.
Qed.

Lemma serial_write_spec cr3 m dev busy buf bs tr : responsive dev com busy →
  bytes_at cr3 m buf bs → Forall (λ b, is_u8 b) bs → 0 <= buf → buf + Z.of_nat (length bs) <= 4294967296 →
  ∃ tr', serial_write cr3 m dev com buf (Z.of_nat (length bs)) tr =
           Some (s32 (Z.of_nat (length bs)), tr ++ tr') ∧ polled com bs tr'.
Proof.
  intros Hr Hb HF Hbuf Hfit. unfold serial_write.
  destruct (for_range_ind (λ i t, ∃ tr', t = tr ++ tr' ∧ polled com (take (Z.to_nat i) bs) tr')
    (λ i t, b ← kld8 cr3 m (buf +ᵤ i); serial_write_char dev com b t) 0 (Z.of_nat (length bs)) tr)
    as (t & -> & tr' & -> & Hp); [lia|exists []; rewrite app_nil_r; split; [done|constructor]| |].
  - intros i t Hi (tr' & -> & Hp). destruct (lookup_lt_is_Some_2 bs (Z.to_nat i)) as [b Hbi]; [lia|].
    pose proof (Hb _ _ Hbi) as Hk. rewrite Z2Nat.id in Hk by lia. rewrite u32_small, Hk, bind_Some by lia.
    destruct (polled_char dev busy b (tr ++ tr')) as (ws & v & -> & Hws & Hv); [by eapply (Forall_lookup_1 _ _ _ _ HF)|done|].
    eexists. split; [reflexivity|]. eexists. split; [by rewrite <- app_assoc|].
    replace (Z.to_nat (i + 1)) with (S (Z.to_nat i)) by lia. rewrite (take_S_r _ _ _ Hbi). apply polled_app; [done|].
    constructor; [done|done|constructor].
  - exists tr'. split; [done|]. rewrite Nat2Z.id, take_ge in Hp by lia. exact Hp.
Qed.
End serial.

(** ** Properties *)

(** Serial_init sets 8 data bits, no parity, one stop bit, the queues and
    the modem lines, sends nothing, and sets the low half of the divisor to 2.
    No divisor given to serial_configure_baud_rate reaches the high half, which
    keeps the value it had, so the rate is 57600 baud if it was 0. *)
Theorem serial_init_correct com u tr : 0 <= com → com + 5 < 65536 →
  let u0 := observe (uart_step com) u tr in
  let u' := observe (uart_step com) u (serial_init com tr) in
  (lcr u' = 0x03 ∧ fcr u' = 0xC7 ∧ mcr u' = 0x03 ∧ transmitted u' = transmitted u0 ∧
  uart_divisor u' = 2 + 256 * divisor_high u0) ∧
  ∀ d, uart_divisor (observe (uart_step com) u (serial_configure_baud_rate com d tr)) =
       Z.land d 0xFF + 256 * divisor_high u0.
Proof.
  intros H0 H5. cbv zeta. unfold serial_init. cbv zeta.
  unfold serial_configure_modem, serial_configure_buffers, serial_configure_line,
    SERIAL_MODEM_COMMAND_PORT, SERIAL_FIFO_COMMAND_PORT, SERIAL_LINE_COMMAND_PORT.
  rewrite !observe_outb, uart_baud, !port_u16 by lia.
  split; [|intros d; rewrite uart_baud by lia; done].
  rewrite uart_modem, uart_fifo, uart_line. cbn [lcr fcr mcr transmitted divisor_high divisor_low].
  unfold uart_divisor. cbn [divisor_high divisor_low]. split_and!; done.
Qed.

(** to a device that becomes ready, serial_write sends the bytes of the
    buffer and nothing else, in order, each one as soon as a status read says
    that the transmitter is empty and not before; it returns their number. *)
Theorem serial_write_correct cr3 m dev com busy buf bs tr u :
  0 <= com → com + 5 < 65536 → responsive dev com busy →
  bytes_at cr3 m buf bs → Forall (λ b, is_u8 b) bs → 0 <= buf → buf + Z.of_nat (length bs) <= 2147483647 →
  Z.testbit (lcr (observe (uart_step com) u tr)) 7 = false →
  ∃ tr', serial_write cr3 m dev com buf (Z.of_nat (length bs)) tr = Some (Z.of_nat (length bs), tr ++ tr') ∧
    polled com bs tr' ∧
    transmitted (observe (uart_step com) u (tr ++ tr')) = transmitted (observe (uart_step com) u tr) ++ bs.
Proof.
  intros H0 H5 Hr Hb HF Hbuf Hfit Hl.
  destruct (serial_write_spec com (conj H0 H5) cr3 m dev busy buf bs tr Hr Hb HF Hbuf) as (tr' & -> & Hp); [lia|].
  exists tr'. split.
  { do 2 f_equal. unfold s32. cbv zeta. rewrite u32_small by lia. ztest. done. }
  split; [exact Hp|]. unfold observe in *. rewrite foldl_app.
  change (foldl (uart_step com) ?x tr') with (observe (uart_step com) x tr'). by rewrite (polled_sent com bs tr' _ Hp Hl).
Qed.

(** ** Witnesses *)

Definition reset_uart : uart := mkUart 0 0 0 0 0 [].

(** The first serial port at its reset values. *)
Lemma serial_init_correct_witness : uart_divisor (observe (uart_step 0x3F8) reset_uart (serial_init 0x3F8 [])) = 2 + 256 * 0.
Proof.
  destruct (serial_init_correct 0x3F8 reset_uart []) as [(_ & _ & _ & _ & H) _]; [lia|lia|]. exact H.
Defined.

(** A device that is ready at every other status read, and two bytes in
    memory. *)
Definition slow_uart : device := λ tr _, if Nat.even (length tr) then 0 else 0x60.

Lemma slow_uart_responsive : responsive slow_uart 0x3F8 (λ tr, if Nat.even (length tr) then 1 else 0).
Proof.
  split; intros tr; [by destruct (Nat.even (length tr))|]. cbv zeta. unfold slow_uart. rewrite length_app, Nat.add_1_r.
  rewrite Nat.even_succ, <- Nat.negb_even. destruct (Nat.even (length tr)); [done|]. by vm_compute.
Qed.

Lemma serial_write_correct_witness : ∃ (m : mem) tr',
  serial_write 0x8000 m slow_uart 0x3F8 0x300000 2 [] = Some (2, tr') ∧
  transmitted (observe (uart_step 0x3F8) reset_uart tr') = [65; 10].
Proof.
  destruct example_console as (c & _ & _ & Hb). exists (c_mem c).
  destruct (serial_write_correct 0x8000 (c_mem c) slow_uart 0x3F8 _ 0x300000 [65; 10] [] reset_uart ltac:(lia) ltac:(lia)
    slow_uart_responsive Hb) as (tr' & H1 & _ & H2); [repeat constructor; lia|lia|simpl; lia|reflexivity|].
  by exists tr'.
Defined.
