(* ===== verification/Tables.v ===== *)
(** * gdt.c, tss.c and the tables of idt.c

    The descriptor tables the processor reads: the segments of the GDT, the
    task state segment, and the interrupt gates of the IDT.  The tables are the
    arrays of packed structures of the code; [*_bytes] is their layout in
    memory, and the functions of section "The processor" are how the 80386
    reads eight bytes of a table.

    The addresses of the assembly entry points (interrupt_handlers.s,
    syscall_handler.s) and of the tables themselves are the linker's: they are
    arguments. *)

From stdpp Require Import prelude.
From Stdlib Require Import ZArith Lia.
From S2P Require Import Prelude Ports Pic.

(** ** gdt.c *)

Record gdt_entry := mkGdt {
  limit_low : Z;
  base_low : Z;
  base_middle : Z;
  access : Z;
  granularity : Z;
  base_high : Z
}.

(** What lgdt and lidt are given. *)
Record table_ptr := mkPtr {
  ptr_limit : Z;
  ptr_base : Z
}.

(** `gdt[idx]` takes the five values; [None] outside the array. *)
Definition gdt_set_gate (idx : Z) (base limit access gran : Z) (gdt : list gdt_entry)
    : option (list gdt_entry) :=
  _ ← gdt !! Z.to_nat idx;
  let g := u8 (Z.land (Z.shiftr limit 16) 0x0F) in
  let g := u8 (Z.lor g (u8 (Z.land gran 0xF0))) in
  Some (<[Z.to_nat idx :=
    mkGdt (u16 (Z.land limit 0xFFFF)) (u16 (Z.land base 0xFFFF))
          (u8 (Z.land (Z.shiftr base 16) 0xFF)) access g
          (u8 (Z.land (Z.shiftr base 24) 0xFF))]> gdt).

(** *** tss.c *)

Record tss_entry := mkTss {
  prev_tss : Z; esp0 : Z; ss0 : Z; esp1 : Z; ss1 : Z; esp2 : Z; ss2 : Z;
  tss_cr3 : Z; tss_eip : Z; tss_eflags : Z;
  tss_eax : Z; tss_ecx : Z; tss_edx : Z; tss_ebx : Z;
  tss_esp : Z; tss_ebp : Z; tss_esi : Z; tss_edi : Z;
  tss_es : Z; tss_cs : Z; tss_ss : Z; tss_ds : Z; tss_fs : Z; tss_gs : Z;
  ldt : Z; trap : Z; iomap_base : Z
}.

(** `sizeof(struct tss_entry)`: 25 words of 32 bits and two of 16. *)
Abbreviation sizeof_tss := 104.

(** The memset of tss_init and the three assignments after it. *)
Definition tss_zero : tss_entry := mkTss 0 0 0 0 0 0 0 0 0 0 0 0 0 0 0 0 0 0 0 0 0 0 0 0 0 0 0.
Definition tss_init (kernel_stack_top kernel_data_segment : Z) (_ : tss_entry) : tss_entry :=
  let t := tss_zero in
  mkTss (prev_tss t) kernel_stack_top kernel_data_segment (esp1 t) (ss1 t) (esp2 t) (ss2 t)
    (tss_cr3 t) (tss_eip t) (tss_eflags t) (tss_eax t) (tss_ecx t) (tss_edx t) (tss_ebx t)
    (tss_esp t) (tss_ebp t) (tss_esi t) (tss_edi t) (tss_es t) (tss_cs t) (tss_ss t) (tss_ds t)
    (tss_fs t) (tss_gs t) (ldt t) (trap t) (u16 sizeof_tss).

(** The selector tss_load puts into the task register. *)
Definition tss_load : Z := 0x28.

Definition tss_set_kernel_stack (stack_top : Z) (t : tss_entry) : tss_entry :=
  mkTss (prev_tss t) stack_top (ss0 t) (esp1 t) (ss1 t) (esp2 t) (ss2 t)
    (tss_cr3 t) (tss_eip t) (tss_eflags t) (tss_eax t) (tss_ecx t) (tss_edx t) (tss_ebx t)
    (tss_esp t) (tss_ebp t) (tss_esi t) (tss_edi t) (tss_es t) (tss_cs t) (tss_ss t) (tss_ds t)
    (tss_fs t) (tss_gs t) (ldt t) (trap t) (iomap_base t).

Definition tss_get_base (tss_addr : Z) : Z := tss_addr.
Definition tss_get_limit : Z := sizeof_tss - 1.

(** *** gdt_init: the table, and what gdt_load is called with *)

Definition gdt_init (tss_addr gdt_addr : Z) (gdt : list gdt_entry)
    : option (list gdt_entry * table_ptr) :=
  let gp := mkPtr (u16 (8 * 6 - 1)) gdt_addr in
  gdt ← gdt_set_gate 0 0 0 0 0 gdt;
  gdt ← gdt_set_gate 1 0 0xFFFFFFFF 0x9A 0xCF gdt;
  gdt ← gdt_set_gate 2 0 0xFFFFFFFF 0x92 0xCF gdt;
  gdt ← gdt_set_gate 3 0 0xFFFFFFFF 0xFA 0xCF gdt;
  gdt ← gdt_set_gate 4 0 0xFFFFFFFF 0xF2 0xCF gdt;
  gdt ← gdt_set_gate 5 (tss_get_base tss_addr) tss_get_limit 0x89 0x00 gdt;
  Some (gdt, gp).

(** ** idt.c: the gates *)

Abbreviation IDT_NUM_ENTRIES := 256.
Abbreviation KERNEL_CODE_SEGMENT := 0x08.

Record idt_entry := mkIdt {
  offset_low : Z;
  segment_sel : Z;
  reserved : Z;
  type_attr : Z;
  offset_high : Z
}.

Definition idt_set_entry (index handler sel attr : Z) (idt : list idt_entry) : option (list idt_entry) :=
  _ ← idt !! Z.to_nat index;
  Some (<[Z.to_nat index :=
    mkIdt (u16 (Z.land handler 0xFFFF)) sel 0 attr (u16 (Z.land (Z.shiftr handler 16) 0xFFFF))]> idt).

Section handlers.
Context (interrupt_handler_n : Z → Z) (syscall_handler_128 : Z).

Definition idt_install_handlers (t : list idt_entry) : option (list idt_entry) :=
  let attr := 0x8E in
  t ← idt_set_entry 0 (interrupt_handler_n 0) KERNEL_CODE_SEGMENT attr t;
  t ← idt_set_entry 1 (interrupt_handler_n 1) KERNEL_CODE_SEGMENT attr t;
  t ← idt_set_entry 2 (interrupt_handler_n 2) KERNEL_CODE_SEGMENT attr t;
  t ← idt_set_entry 3 (interrupt_handler_n 3) KERNEL_CODE_SEGMENT attr t;
  t ← idt_set_entry 4 (interrupt_handler_n 4) KERNEL_CODE_SEGMENT attr t;
  t ← idt_set_entry 5 (interrupt_handler_n 5) KERNEL_CODE_SEGMENT attr t;
  t ← idt_set_entry 6 (interrupt_handler_n 6) KERNEL_CODE_SEGMENT attr t;
  t ← idt_set_entry 7 (interrupt_handler_n 7) KERNEL_CODE_SEGMENT attr t;
  t ← idt_set_entry 8 (interrupt_handler_n 8) KERNEL_CODE_SEGMENT attr t;
  t ← idt_set_entry 9 (interrupt_handler_n 9) KERNEL_CODE_SEGMENT attr t;
  t ← idt_set_entry 10 (interrupt_handler_n 10) KERNEL_CODE_SEGMENT attr t;
  t ← idt_set_entry 11 (interrupt_handler_n 11) KERNEL_CODE_SEGMENT attr t;
  t ← idt_set_entry 12 (interrupt_handler_n 12) KERNEL_CODE_SEGMENT attr t;
  t ← idt_set_entry 13 (interrupt_handler_n 13) KERNEL_CODE_SEGMENT attr t;
  t ← idt_set_entry 14 (interrupt_handler_n 14) KERNEL_CODE_SEGMENT attr t;
  t ← idt_set_entry 15 (interrupt_handler_n 15) KERNEL_CODE_SEGMENT attr t;
  t ← idt_set_entry 16 (interrupt_handler_n 16) KERNEL_CODE_SEGMENT attr t;
  t ← idt_set_entry 17 (interrupt_handler_n 17) KERNEL_CODE_SEGMENT attr t;
  t ← idt_set_entry 18 (interrupt_handler_n 18) KERNEL_CODE_SEGMENT attr t;
  t ← idt_set_entry 19 (interrupt_handler_n 19) KERNEL_CODE_SEGMENT attr t;
  t ← idt_set_entry 20 (interrupt_handler_n 20) KERNEL_CODE_SEGMENT attr t;
  t ← idt_set_entry 21 (interrupt_handler_n 21) KERNEL_CODE_SEGMENT attr t;
  t ← idt_set_entry 22 (interrupt_handler_n 22) KERNEL_CODE_SEGMENT attr t;
  t ← idt_set_entry 23 (interrupt_handler_n 23) KERNEL_CODE_SEGMENT attr t;
  t ← idt_set_entry 24 (interrupt_handler_n 24) KERNEL_CODE_SEGMENT attr t;
  t ← idt_set_entry 25 (interrupt_handler_n 25) KERNEL_CODE_SEGMENT attr t;
  t ← idt_set_entry 26 (interrupt_handler_n 26) KERNEL_CODE_SEGMENT attr t;
  t ← idt_set_entry 27 (interrupt_handler_n 27) KERNEL_CODE_SEGMENT attr t;
  t ← idt_set_entry 28 (interrupt_handler_n 28) KERNEL_CODE_SEGMENT attr t;
  t ← idt_set_entry 29 (interrupt_handler_n 29) KERNEL_CODE_SEGMENT attr t;
  t ← idt_set_entry 30 (interrupt_handler_n 30) KERNEL_CODE_SEGMENT attr t;
  t ← idt_set_entry 31 (interrupt_handler_n 31) KERNEL_CODE_SEGMENT attr t;
  t ← idt_set_entry 32 (interrupt_handler_n 32) KERNEL_CODE_SEGMENT attr t;
  t ← idt_set_entry 33 (interrupt_handler_n 33) KERNEL_CODE_SEGMENT attr t;
  t ← idt_set_entry 34 (interrupt_handler_n 34) KERNEL_CODE_SEGMENT attr t;
  t ← idt_set_entry 35 (interrupt_handler_n 35) KERNEL_CODE_SEGMENT attr t;
  t ← idt_set_entry 36 (interrupt_handler_n 36) KERNEL_CODE_SEGMENT attr t;
  t ← idt_set_entry 37 (interrupt_handler_n 37) KERNEL_CODE_SEGMENT attr t;
  t ← idt_set_entry 38 (interrupt_handler_n 38) KERNEL_CODE_SEGMENT attr t;
  t ← idt_set_entry 39 (interrupt_handler_n 39) KERNEL_CODE_SEGMENT attr t;
  t ← idt_set_entry 40 (interrupt_handler_n 40) KERNEL_CODE_SEGMENT attr t;
  t ← idt_set_entry 41 (interrupt_handler_n 41) KERNEL_CODE_SEGMENT attr t;
  t ← idt_set_entry 42 (interrupt_handler_n 42) KERNEL_CODE_SEGMENT attr t;
  t ← idt_set_entry 43 (interrupt_handler_n 43) KERNEL_CODE_SEGMENT attr t;
  t ← idt_set_entry 44 (interrupt_handler_n 44) KERNEL_CODE_SEGMENT attr t;
  t ← idt_set_entry 45 (interrupt_handler_n 45) KERNEL_CODE_SEGMENT attr t;
  t ← idt_set_entry 46 (interrupt_handler_n 46) KERNEL_CODE_SEGMENT attr t;
  t ← idt_set_entry 47 (interrupt_handler_n 47) KERNEL_CODE_SEGMENT attr t;
  idt_set_entry 0x80 syscall_handler_128 KERNEL_CODE_SEGMENT 0xEE t.

(** What idt_init leaves behind: the table, the accesses to the ports, the
    pointer load_idt is called with, and the interrupt flag after sti. *)
Record idt_state := mkIdtState {
  idt_table : list idt_entry;
  idt_ports : list io;
  idtr : table_ptr;
  interrupts_on : bool
}.

Definition idt_init (idt_addr : Z) (idt : list idt_entry) (tr : list io) : option idt_state :=
  idt ← for_range 0 IDT_NUM_ENTRIES (λ i idt, idt_set_entry i 0 0 0 idt) idt;
  let tr := pic_remap tr in
  idt ← idt_install_handlers idt;
  Some (mkIdtState idt tr (mkPtr (u16 (8 * IDT_NUM_ENTRIES - 1)) idt_addr) true).
End handlers.

(** ** The layout in memory *)

Definition le16 (v : Z) : list Z := [u8 v; u8 (v / 256)].
Definition le32 (v : Z) : list Z := [u8 v; u8 (v / 256); u8 (v / 65536); u8 (v / 16777216)].

Definition gdt_bytes (e : gdt_entry) : list Z :=
  le16 (limit_low e) ++ le16 (base_low e) ++ [base_middle e; access e; granularity e; base_high e].
Definition idt_bytes (e : idt_entry) : list Z :=
  le16 (offset_low e) ++ le16 (segment_sel e) ++ [reserved e; type_attr e] ++ le16 (offset_high e).
Definition tss_bytes (t : tss_entry) : list Z :=
  ([prev_tss t; esp0 t; ss0 t; esp1 t; ss1 t; esp2 t; ss2 t; tss_cr3 t; tss_eip t; tss_eflags t;
    tss_eax t; tss_ecx t; tss_edx t; tss_ebx t; tss_esp t; tss_ebp t; tss_esi t; tss_edi t;
    tss_es t; tss_cs t; tss_ss t; tss_ds t; tss_fs t; tss_gs t; ldt t] ≫= le32)
  ++ le16 (trap t) ++ le16 (iomap_base t).

(** ** The processor *)

Inductive segment :=
  | Code (base size dpl : Z) (readable conforming : bool)
  | Data (base size dpl : Z) (writable down : bool)
  | Tss32 (base size dpl : Z).

(** A segment descriptor: bytes 5 and 6 hold the type, the privilege level and
    the flags; with the granularity bit the limit counts pages.  [size] is the
    limit and one more, which is the number of bytes, but for a data segment
    that expands [down] the first valid offset.  Bit 1 of the access byte makes
    code readable and data writable, bit 2 makes code conforming and data
    expand down; bit 0 is the processor's mark.  Segments of 16 bits are not
    followed. *)
Definition seg_base (b : list Z) : Z :=
  nth 2 b 0 + 256 * nth 3 b 0 + 65536 * nth 4 b 0 + 16777216 * nth 7 b 0.
Definition seg_size (b : list Z) : Z :=
  let limit := nth 0 b 0 + 256 * nth 1 b 0 + 65536 * (nth 6 b 0 mod 16) in
  if Z.testbit (nth 6 b 0) 7 then 4096 * (limit + 1) else limit + 1.
Definition seg_decode (b : list Z) : option segment :=
  let acc := nth 5 b 0 in
  let dpl := acc / 32 mod 4 in
  if negb (Z.testbit acc 7) then None
  else if Z.testbit acc 4 then
    if negb (Z.testbit (nth 6 b 0) 6) then None
    else Some ((if Z.testbit acc 3 then Code else Data) (seg_base b) (seg_size b) dpl (Z.testbit acc 1) (Z.testbit acc 2))
  else if acc mod 16 =? 9 then Some (Tss32 (seg_base b) (seg_size b) dpl) else None.

(** What a selector names: its index is above the two privilege bits and the
    table bit, and the table must reach that far. *)
Definition seg_lookup (gdt : list gdt_entry) (p : table_ptr) (sel : Z) : option segment :=
  if (sel / 8 =? 0) || (ptr_limit p <? sel / 8 * 8 + 7) then None
  else e ← gdt !! Z.to_nat (sel / 8); seg_decode (gdt_bytes e).

(** A 32-bit interrupt gate: where it leads, and the least privilege from
    which an `int` instruction may use it. *)
Record gate := mkGate {
  gate_sel : Z;
  gate_target : Z;
  gate_dpl : Z
}.
Definition gate_decode (b : list Z) : option gate :=
  let attr := nth 5 b 0 in
  if Z.testbit attr 7 && (attr mod 32 =? 14) then
    Some (mkGate (nth 2 b 0 + 256 * nth 3 b 0)
      (nth 0 b 0 + 256 * nth 1 b 0 + 65536 * nth 6 b 0 + 16777216 * nth 7 b 0) (attr / 32 mod 4))
  else None.
Definition gate_lookup (idt : list idt_entry) (p : table_ptr) (n : Z) : option gate :=
  if ptr_limit p <? 8 * n + 7 then None
  else e ← idt !! Z.to_nat n; gate_decode (idt_bytes e).

(** `int n` at privilege [cpl]: the gate, unless it is refused. *)
Definition soft_int (idt : list idt_entry) (p : table_ptr) (cpl n : Z) : option gate :=
  g ← gate_lookup idt p n; if cpl <=? gate_dpl g then Some g else None.

(** The stack an interrupt from ring 3 switches to, as the processor finds it
    in the task state segment. *)
Definition ring0_stack (b : list Z) : Z * Z :=
  (nth 8 b 0 + 256 * nth 9 b 0,
   nth 4 b 0 + 256 * nth 5 b 0 + 65536 * nth 6 b 0 + 16777216 * nth 7 b 0).

(** ** Encoding and decoding *)

Lemma le16_small a b : 0 <= a < 65536 → nth 0 (le16 a ++ b) 0 + 256 * nth 1 (le16 a ++ b) 0 = a.
Proof. intros. cbn. word_lia. Qed.

Lemma split16 v : u8 (u16 v) + 256 * u8 (u16 v / 256) = u16 v.
Proof. word_lia. Qed.

Lemma field16 v : u16 (Z.land v 0xFFFF) = v mod 65536.
Proof. change 0xFFFF with (Z.ones 16). rewrite Z.land_ones by lia. change (2 ^ 16) with 65536. word_lia. Qed.

Lemma field8 v k : 0 <= k → u8 (Z.land (Z.shiftr v k) 0xFF) = v / 2 ^ k mod 256.
Proof.
  intros Hk. change 0xFF with (Z.ones 8). rewrite Z.land_ones, Z.shiftr_div_pow2 by lia. change (2 ^ 8) with 256. word_lia.
Qed.

Lemma field_high16 v : u16 (Z.land (Z.shiftr v 16) 0xFFFF) = v / 65536 mod 65536.
Proof.
  change 0xFFFF with (Z.ones 16). rewrite Z.land_ones, Z.shiftr_div_pow2 by lia. change (2 ^ 16) with 65536. word_lia.
Qed.

(** The base survives the split into three fields. *)
Lemma seg_base_split base lo acc g : is_u32 base →
  seg_base (gdt_bytes (mkGdt lo (u16 (Z.land base 0xFFFF)) (u8 (Z.land (Z.shiftr base 16) 0xFF)) acc g
    (u8 (Z.land (Z.shiftr base 24) 0xFF)))) = base.
Proof.
  intros Hb. rewrite field16, !field8 by lia. unfold seg_base, gdt_bytes. cbn.
  change (Z.pow_pos 2 16) with 65536. change (Z.pow_pos 2 24) with 16777216. clear - Hb. word_lia.
Qed.

Lemma gate_target_split h sel attr : is_u32 h → is_u8 attr → 0 <= sel < 65536 →
  Z.testbit attr 7 && (attr mod 32 =? 14) = true →
  gate_decode (idt_bytes (mkIdt (u16 (Z.land h 0xFFFF)) sel 0 attr (u16 (Z.land (Z.shiftr h 16) 0xFFFF)))) =
  Some (mkGate sel h (attr / 32 mod 4)).
Proof.
  intros Hh Ha Hs Hattr. rewrite field16, field_high16. unfold gate_decode, idt_bytes, le16. cbn [nth app offset_low segment_sel type_attr offset_high]. cbv zeta. rewrite Hattr.
  do 2 f_equal; clear - Hh Hs; word_lia.
Qed.

Lemma ring0_stack_spec t : 0 <= ss0 t < 65536 → is_u32 (esp0 t) → ring0_stack (tss_bytes t) = (ss0 t, esp0 t).
Proof.
  intros Hs He. unfold ring0_stack, tss_bytes. cbn [mbind list_bind le32 app nth].
  f_equal; [clear - Hs|clear - He]; word_lia.
Qed.

Lemma gdt_set_gate_spec idx base limit acc gran gdt : (Z.to_nat idx < length gdt)%nat →
  ∃ e, gdt_set_gate idx base limit acc gran gdt = Some (<[Z.to_nat idx := e]> gdt) ∧
    e = mkGdt (u16 (Z.land limit 0xFFFF)) (u16 (Z.land base 0xFFFF)) (u8 (Z.land (Z.shiftr base 16) 0xFF)) acc
      (u8 (Z.lor (u8 (Z.land (Z.shiftr limit 16) 0x0F)) (u8 (Z.land gran 0xF0)))) (u8 (Z.land (Z.shiftr base 24) 0xFF)).
Proof.
  intros H. unfold gdt_set_gate. destruct (lookup_lt_is_Some_2 _ _ H) as [x ->]. by eexists.
Qed.

(** ** The gates *)

(** A table after [idt_set_entry] at one index. *)
Lemma idt_set_entry_spec i h sel attr idt : (Z.to_nat i < length idt)%nat →
  idt_set_entry i h sel attr idt = Some (<[Z.to_nat i :=
    mkIdt (u16 (Z.land h 0xFFFF)) sel 0 attr (u16 (Z.land (Z.shiftr h 16) 0xFFFF))]> idt).
Proof. intros H. unfold idt_set_entry. by destruct (lookup_lt_is_Some_2 _ _ H) as [x ->]. Qed.

Lemma idt_clear_spec idt : length idt = 256%nat →
  for_range 0 IDT_NUM_ENTRIES (λ i idt, idt_set_entry i 0 0 0 idt) idt = Some (replicate 256 (mkIdt 0 0 0 0 0)).
Proof.
  intros Hl.
  destruct (for_range_ind (λ i t, length t = 256%nat ∧ ∀ k, (k < Z.to_nat i)%nat → t !! k = Some (mkIdt 0 0 0 0 0))
    (λ i t, idt_set_entry i 0 0 0 t) 0 256 idt) as (t & -> & Ht & Hk); [lia|split; [done|lia]| |].
  - intros i t Hi [Ht Hk]. rewrite idt_set_entry_spec by lia. eexists. split; [reflexivity|]. rewrite length_insert. split; [done|].
    intros k Hlt. destruct (decide (k = Z.to_nat i)) as [->|]; [by rewrite list_lookup_insert_eq by lia|].
    rewrite list_lookup_insert_ne by done. apply Hk. lia.
  - f_equal. apply list_eq. intros k. destruct (decide (k < 256)%nat) as [Hlt|Hge].
    + rewrite Hk, lookup_replicate_2 by lia. done.
    + rewrite !lookup_ge_None_2; [done|by rewrite length_replicate; lia|lia].
Qed.

Definition gate_entry (h attr : Z) : idt_entry :=
  mkIdt (u16 (Z.land h 0xFFFF)) KERNEL_CODE_SEGMENT 0 attr (u16 (Z.land (Z.shiftr h 16) 0xFFFF)).

(** Entries 0 to [k - 1] filled in order. *)
Definition fill {A} (e : nat → A) (k : nat) (t : list A) : list A := foldl (λ t n, <[n := e n]> t) t (seq 0 k).

Lemma fill_S {A} (e : nat → A) k t : fill e (S k) t = <[k := e k]> (fill e k t).
Proof. unfold fill. by rewrite seq_S, foldl_app. Qed.

Lemma fill_length {A} (e : nat → A) k t : length (fill e k t) = length t.
Proof. induction k as [|k IH]; [done|]. by rewrite fill_S, length_insert. Qed.

Lemma fill_lookup {A} (e : nat → A) k t i : (k <= length t)%nat →
  fill e k t !! i = if (i <? k)%nat then Some (e i) else t !! i.
Proof.
  induction k as [|k IH]; intros Hk; [done|]. rewrite fill_S. destruct (decide (i = k)) as [->|Hne].
  - rewrite list_lookup_insert_eq by (rewrite fill_length; lia). by rewrite (proj2 (Nat.ltb_lt _ _)) by lia.
  - rewrite list_lookup_insert_ne, IH by lia. destruct (Nat.ltb_spec i k), (Nat.ltb_spec i (S k)); done || lia.
Qed.

Lemma idt_install_spec h sys t : length t = 256%nat →
  idt_install_handlers h sys t =
  Some (<[128%nat := gate_entry sys 0xEE]> (fill (λ n, gate_entry (h (Z.of_nat n)) 0x8E) 48 t)).
Proof.
  intros Hl. unfold idt_install_handlers.
  repeat (rewrite idt_set_entry_spec, bind_Some by (rewrite ?length_insert, Hl; apply Nat.ltb_lt; reflexivity)).
  rewrite idt_set_entry_spec by (rewrite ?length_insert, Hl; apply Nat.ltb_lt; reflexivity). reflexivity.
Qed.

(** The gate of every vector after idt_init. *)
Lemma idt_init_spec h sys addr idt tr : length idt = 256%nat →
  ∃ t, idt_init h sys addr idt tr = Some (mkIdtState t (pic_remap tr) (mkPtr 2047 addr) true) ∧
    length t = 256%nat ∧
    ∀ n, 0 <= n < 256 → t !! Z.to_nat n = Some (if n =? 128 then gate_entry sys 0xEE
      else if n <? 48 then gate_entry (h n) 0x8E else mkIdt 0 0 0 0 0).
Proof.
  intros Hl. unfold idt_init. rewrite idt_clear_spec, bind_Some by done. cbv zeta.
  rewrite idt_install_spec, bind_Some by apply length_replicate. eexists. split; [reflexivity|].
  rewrite length_insert, fill_length, length_replicate. split; [done|]. intros n Hn.
  destruct (Z.eqb_spec n 128) as [->|Hne].
  { by rewrite list_lookup_insert_eq by (rewrite fill_length, length_replicate; lia). }
  rewrite list_lookup_insert_ne, fill_lookup by (rewrite ?length_replicate; lia).
  destruct (Z.ltb_spec n 48).
  - rewrite (proj2 (Nat.ltb_lt _ _)) by lia. by rewrite Z2Nat.id by lia.
  - rewrite (proj2 (Nat.ltb_ge _ _)) by lia. by rewrite lookup_replicate_2 by lia.
Qed.

Lemma gate_entry_decode h attr : is_u32 h → attr = 0x8E ∨ attr = 0xEE →
  gate_decode (idt_bytes (gate_entry h attr)) = Some (mkGate 0x08 h (attr / 32 mod 4)).
Proof. intros Hh [-> | ->]; apply gate_target_split; done || lia. Qed.

(** The selectors after gdt_init. *)
Lemma gdt_init_spec tss_addr gdt_addr gdt : length gdt = 6%nat → is_u32 tss_addr →
  ∃ gdt' gp, gdt_init tss_addr gdt_addr gdt = Some (gdt', gp) ∧
    seg_lookup gdt' gp 0x08 = Some (Code 0 4294967296 0 true false) ∧
    seg_lookup gdt' gp 0x10 = Some (Data 0 4294967296 0 true false) ∧
    seg_lookup gdt' gp 0x1B = Some (Code 0 4294967296 3 true false) ∧
    seg_lookup gdt' gp 0x23 = Some (Data 0 4294967296 3 true false) ∧
    seg_lookup gdt' gp tss_load = Some (Tss32 tss_addr 104 0) ∧
    ∀ sel, 0 <= sel < 8 ∨ 48 <= sel → seg_lookup gdt' gp sel = None.
Proof.
  intros Hl Ht. do 6 (destruct gdt as [|? gdt]; [done|]). destruct gdt; [|done].
  pose proof (seg_base_split tss_addr 103 0x89 0 Ht) as Hb.
  unfold gdt_init, gdt_set_gate, tss_get_base, tss_get_limit. cbn [lookup list_lookup mbind option_bind].
  eexists _, _. split; [reflexivity|].
  do 4 (split; [vm_compute; reflexivity|]). split.
  - transitivity (Some (Tss32 (seg_base (gdt_bytes (mkGdt 103 (u16 (Z.land tss_addr 0xFFFF))
      (u8 (Z.land (Z.shiftr tss_addr 16) 0xFF)) 0x89 0 (u8 (Z.land (Z.shiftr tss_addr 24) 0xFF))))) 104 0));
      [reflexivity|by rewrite Hb].
  - intros sel Hs. unfold seg_lookup. cbn [ptr_limit]. change (u16 (8 * 6 - 1)) with 47. clear - Hs.
    destruct Hs as [Hs|Hs]; [rewrite Z.div_small by lia; done|].
    rewrite (proj2 (Z.ltb_lt 47 _)), orb_true_r by (Z.to_euclidean_division_equations; lia). done.
Qed.

(** The gates after idt_init. *)
Lemma idt_init_gates h sys addr idt tr :
  length idt = 256%nat → (∀ n, is_u32 (h n)) → is_u32 sys →
  ∃ s, idt_init h sys addr idt tr = Some s ∧ interrupts_on s = true ∧ idt_ports s = pic_remap tr ∧
    ptr_base (idtr s) = addr ∧
    (∀ n, 0 <= n < 48 → gate_lookup (idt_table s) (idtr s) n = Some (mkGate 0x08 (h n) 0)) ∧
    gate_lookup (idt_table s) (idtr s) 0x80 = Some (mkGate 0x08 sys 3) ∧
    (∀ n, 48 <= n → n ≠ 0x80 → gate_lookup (idt_table s) (idtr s) n = None) ∧
    (∀ n, 0 <= n → soft_int (idt_table s) (idtr s) 3 n = if n =? 0x80 then Some (mkGate 0x08 sys 3) else None).
Proof.
  intros Hl Hh Hsys. destruct (idt_init_spec h sys addr idt tr Hl) as (t & -> & Ht & Hlk).
  eexists. split; [reflexivity|]. cbn [interrupts_on idt_ports idtr ptr_base idt_table].
  assert (∀ n, 0 <= n → gate_lookup t (mkPtr 2047 addr) n =
    if n =? 128 then Some (mkGate 0x08 sys 3) else if n <? 48 then Some (mkGate 0x08 (h n) 0) else None) as Hg.
  { intros n Hn. unfold gate_lookup. cbn [ptr_limit]. destruct (Z.ltb_spec 2047 (8 * n + 7)).
    { by repeat ztest. }
    rewrite Hlk, bind_Some by lia. destruct (Z.eqb_spec n 128); [by rewrite gate_entry_decode by auto|].
    destruct (Z.ltb_spec n 48); [by rewrite gate_entry_decode by auto|]. done. }
  split_and!; try done.
  - intros n Hn. rewrite Hg by lia. by repeat ztest.
  - by rewrite (Hg 128) by lia.
  - intros n Hn Hne. rewrite Hg by lia. by repeat ztest.
  - intros n Hn. unfold soft_int. rewrite Hg by lia. destruct (n =? 128), (n <? 48); done.
Qed.

(** ** Properties *)

(** C36: after gdt_init the selectors the kernel uses name what they are meant
    to: 0x08 the kernel's flat code segment of 4 GiB, readable and not
    conforming, 0x10 its flat data segment, writable and expanding upwards, 0x1B
    and 0x23 the same for the user, the selector tss_load loads the task state segment of
    104 bytes; the null selector and those past the six entries are refused. *)
Theorem gdt_init_correct tss_addr gdt_addr gdt : length gdt = 6%nat → is_u32 tss_addr →
  ∃ gdt' gp, gdt_init tss_addr gdt_addr gdt = Some (gdt', gp) ∧
    seg_lookup gdt' gp 0x08 = Some (Code 0 4294967296 0 true false) ∧
    seg_lookup gdt' gp 0x10 = Some (Data 0 4294967296 0 true false) ∧
    seg_lookup gdt' gp 0x1B = Some (Code 0 4294967296 3 true false) ∧
    seg_lookup gdt' gp 0x23 = Some (Data 0 4294967296 3 true false) ∧
    seg_lookup gdt' gp tss_load = Some (Tss32 tss_addr 104 0) ∧
    ∀ sel, 0 <= sel < 8 ∨ 48 <= sel → seg_lookup gdt' gp sel = None.
Proof. apply gdt_init_spec. Qed.

(** C35: after idt_init interrupts are on, the controllers are remapped, and
    the processor finds, for each of the vectors 0 to 47 and for 0x80, an
    interrupt gate to that vector's entry point in the kernel's code segment,
    and nothing for any other vector.  From ring 3 the `int` instruction is
    refused for every vector but 0x80. *)
Theorem idt_init_correct h sys addr idt tr :
  length idt = 256%nat → (∀ n, is_u32 (h n)) → is_u32 sys →
  ∃ s, idt_init h sys addr idt tr = Some s ∧ interrupts_on s = true ∧ idt_ports s = pic_remap tr ∧
    ptr_base (idtr s) = addr ∧
    (∀ n, 0 <= n < 48 → gate_lookup (idt_table s) (idtr s) n = Some (mkGate 0x08 (h n) 0)) ∧
    gate_lookup (idt_table s) (idtr s) 0x80 = Some (mkGate 0x08 sys 3) ∧
    (∀ n, 48 <= n → n ≠ 0x80 → gate_lookup (idt_table s) (idtr s) n = None) ∧
    (∀ n, 0 <= n → soft_int (idt_table s) (idtr s) 3 n = if n =? 0x80 then Some (mkGate 0x08 sys 3) else None).
Proof. apply idt_init_gates. Qed.

(** The stack an interrupt from user mode switches to is the one last
    given to tss_set_kernel_stack (or to tss_init), in the segment given to
    tss_init, wherever the processor looks for it in the 104 bytes. *)
Theorem tss_stack_correct t top seg tops :
  is_u32 top → 0 <= seg < 65536 → Forall (λ x, is_u32 x) tops →
  let t' := foldl (λ t x, tss_set_kernel_stack x t) (tss_init top seg t) tops in
  length (tss_bytes t') = Z.to_nat (tss_get_limit + 1) ∧ ring0_stack (tss_bytes t') = (seg, List.last tops top).
Proof.
  intros Htop Hseg HF. cbv zeta.
  assert (∀ t0, ss0 t0 = seg → is_u32 (esp0 t0) →
    let t' := foldl (λ t x, tss_set_kernel_stack x t) t0 tops in
    ss0 t' = seg ∧ is_u32 (esp0 t') ∧ esp0 t' = List.last tops (esp0 t0)) as Hfold.
  { clear - HF. induction HF as [|x xs Hx HF IH]; intros t0 Hs He; [done|]. cbn [foldl].
    destruct (IH (tss_set_kernel_stack x t0) Hs Hx) as (H1 & H2 & H3). split; [exact H1|]. split; [exact H2|].
    rewrite H3. cbn [esp0 tss_set_kernel_stack]. destruct xs as [|y xs]; [done|]. cbn [List.last].
    clear. revert y. induction xs as [|z xs IH]; intros y; [done|]. cbn [List.last]. apply IH. }
  destruct (Hfold (tss_init top seg t)) as (H1 & H2 & H3); [done|exact Htop|].
  split; [reflexivity|]. rewrite ring0_stack_spec by (rewrite ?H1; done). by rewrite H1, H3.
Qed.

(** ** Witnesses *)

Lemma gdt_init_correct_witness : ∃ gdt gp,
  gdt_init 0x106000 0x105000 (replicate 6 (mkGdt 0 0 0 0 0 0)) = Some (gdt, gp) ∧
  seg_lookup gdt gp 0x28 = Some (Tss32 0x106000 104 0).
Proof.
  destruct (gdt_init_correct 0x106000 0x105000 (replicate 6 (mkGdt 0 0 0 0 0 0)))
    as (gdt & gp & H & _ & _ & _ & _ & Ht & _); [done|lia|]. exists gdt, gp. split; [exact H|exact Ht].
Defined.

Lemma idt_init_correct_witness : ∃ s,
  idt_init (λ n, if (0 <=? n) && (n <? 48) then 0x101000 + 16 * n else 0) 0x102000 0x107000
    (replicate 256 (mkIdt 0 0 0 0 0)) [] = Some s ∧
  gate_lookup (idt_table s) (idtr s) 14 = Some (mkGate 0x08 0x1010E0 0) ∧
  soft_int (idt_table s) (idtr s) 3 14 = None.
Proof.
  destruct (idt_init_correct (λ n, if (0 <=? n) && (n <? 48) then 0x101000 + 16 * n else 0) 0x102000 0x107000
    (replicate 256 (mkIdt 0 0 0 0 0)) []) as (s & H & _ & _ & _ & Hg & _ & _ & Hs);
    [apply length_replicate|intros n; destruct (Z.leb_spec 0 n), (Z.ltb_spec n 48); simpl; lia|lia|].
  exists s. split; [exact H|]. split; [apply (Hg 14); lia|apply (Hs 14); lia].
Defined.

Lemma tss_stack_correct_witness :
  ring0_stack (tss_bytes (tss_set_kernel_stack 0x202000 (tss_init 0x201000 0x10 tss_zero))) = (0x10, 0x202000).
Proof.
  destruct (tss_stack_correct tss_zero 0x201000 0x10 [0x202000]) as [_ H]; [lia|lia|repeat constructor; lia|]. exact H.
Defined.
