(* ===== verification/Kernel.v ===== *)
(** * syscall.c and interrupt_handler of idt.c: the kernel's two entry points

    The state of the whole kernel is the record [kernel]; a handler runs on it
    until it returns to user mode, gives the processor to another process in
    schedule, or waits in `hlt`.  What a process still has to do when it gets
    the processor back is its [kcont]: the places of syscall_dispatch (and of
    interrupt_handler) where schedule and `sti; hlt; cli` are called.

    The C variables are fields of the record, beside the memory that the system
    calls write.  In the C program they are in that memory, and SYS_READ,
    SYS_GETPROCS and SYS_LISTFILES write to any address they are given; the
    record says what a call does as long as its pointers stay away from the
    variables and the kernel stacks.  [does] says of a run that it does, for the
    handlers and what they are resumed with, and [sys_read_reaches_variables]
    shows a call that does not.

    The second half runs the handlers as a machine with many processes, and
    proves its invariant over every sequence of interrupts and of system calls
    that stay away. *)

From stdpp Require Import prelude gmap.
From Stdlib Require Import ZArith Lia.
From S2P Require Import Prelude Ports Memory Kutil FrameAlloc Pfa Paging Fs Process ProcessCreate Fb Keyboard Pic Tables.

Abbreviation SYS_WRITE := 1.
Abbreviation SYS_EXIT := 2.
Abbreviation SYS_YIELD := 3.
Abbreviation SYS_SPAWN := 4.
Abbreviation SYS_READ := 5.
Abbreviation SYS_WAIT := 6.
Abbreviation SYS_GETPROCS := 7.
Abbreviation SYS_LISTFILES := 8.
Abbreviation SYS_CLEAR := 9.

(** [struct syscall_regs]: what syscall_handler_128 pushes. *)
Record syscall_regs := mkRegs {
  r_ebp : Z; r_edi : Z; r_esi : Z; r_edx : Z; r_ecx : Z; r_ebx : Z; r_eax : Z
}.
Definition set_eax (v : Z) (r : syscall_regs) : syscall_regs :=
  mkRegs (r_ebp r) (r_edi r) (r_esi r) (r_edx r) (r_ecx r) (r_ebx r) v.

(** The variables of the kernel: `procs`, `current` and `next_pid` of process.c,
    the keyboard's line, the screen's cursor with the memory and the ports, the
    frame allocator's, and the TSS.  Memory is all of it but these: what a
    pointer to one of them reads or writes is not said here (see [does]). *)
Record kernel (A : Type) := mkKernel {
  k_tab : proctab;
  k_kbd : kbd;
  k_con : console;
  k_fa : A;
  k_tss : tss_entry
}.
Arguments mkKernel {A} _ _ _ _ _.
Arguments k_tab {A} _. Arguments k_kbd {A} _. Arguments k_con {A} _.
Arguments k_fa {A} _. Arguments k_tss {A} _.

(** Where a process is that does not run: interrupted in user mode (or new),
    in SYS_YIELD, after schedule or in hlt in the loops of SYS_READ and
    SYS_WAIT, or in the loop at the end of SYS_EXIT. *)
Inductive kcont :=
  | Preempted
  | Yielded (r : syscall_regs)
  | ReadSched (r : syscall_regs)
  | ReadHalt (r : syscall_regs)
  | WaitSched (r : syscall_regs)
  | WaitHalt (r : syscall_regs)
  | Exited.

(** How a handler ends: back to the interrupted program, back from a system
    call, in another process, in `hlt` with interrupts on, or in `hlt` for
    ever. *)
Inductive outcome (A : Type) :=
  | Back (s : kernel A)
  | Return (s : kernel A) (r : syscall_regs)
  | Switch (s : kernel A) (sw : switch) (k : kcont)
  | Halt (s : kernel A) (k : kcont)
  | Stop (s : kernel A).
Arguments Back {A} _. Arguments Return {A} _ _. Arguments Switch {A} _ _ _.
Arguments Halt {A} _ _. Arguments Stop {A} _.

Section code.
Context {A : Type} `{FrameAlloc A}.
Implicit Types (s : kernel A) (r : syscall_regs).

Definition set_tab (t : proctab) s : kernel A := mkKernel t (k_kbd s) (k_con s) (k_fa s) (k_tss s).
Definition set_con (c : console) s : kernel A := mkKernel (k_tab s) (k_kbd s) c (k_fa s) (k_tss s).
Definition set_kbd (k : kbd) s : kernel A := mkKernel (k_tab s) k (k_con s) (k_fa s) (k_tss s).
Definition set_mem (m : mem) s : kernel A :=
  set_con (mkCon m (fb_cursor (k_con s)) (c_ports (k_con s))) s.

(** [cr3] is the directory of the process that runs, [saved] its stack pointer
    inside switch_context. *)
Context (cr3 saved : Z).

(** A call of schedule: [k] is what is left to do after it, [go_on] does it at
    once when there is no other process. *)
Definition call_schedule (k : kcont) (go_on : kernel A → option (outcome A)) s : option (outcome A) :=
  '(t, sw) ← schedule saved (k_tab s);
  match sw with
  | None => go_on (set_tab t s)
  | Some sw =>
      Some (Switch (mkKernel t (k_kbd s) (k_con s) (k_fa s)
                     (tss_set_kernel_stack (sw_esp0 sw) (k_tss s))) sw k)
  end.

(** *** interrupt_handler *)

Definition interrupt_handler (dev : device) (int_no cs : Z) s : option (outcome A) :=
  s ← (if int_no =? 33 then
         '(k, c) ← keyboard_handler cr3 dev (k_kbd s, k_con s); Some (set_con c (set_kbd k s))
       else Some s);
  let s := if (32 <=? int_no) && (int_no <=? 47)
           then set_con (mkCon (c_mem (k_con s)) (fb_cursor (k_con s))
                           (pic_acknowledge int_no (c_ports (k_con s)))) s
           else s in
  if (int_no =? 32) && (Z.land cs 0x3 =? 3)
  then call_schedule Preempted (λ s, Some (Back s)) s
  else Some (Back s).

(** *** The loops of SYS_READ and SYS_WAIT

    [read_test] is the loop's condition, [read_rest] the rest of its body after
    schedule and the condition again. *)

Definition read_line_ret r s : option (outcome A) :=
  '(n, k, m) ← keyboard_read_line cr3 (r_ebx r) (r_ecx r) (k_kbd s) (c_mem (k_con s));
  Some (Return (set_mem m (set_kbd k s)) (set_eax n r)).

Definition read_rest r s : option (outcome A) :=
  if keyboard_has_line (k_kbd s) =? 0 then Some (Halt s (ReadHalt r)) else read_line_ret r s.

Definition read_test r s : option (outcome A) :=
  if keyboard_has_line (k_kbd s) =? 0 then call_schedule (ReadSched r) (read_rest r) s
  else read_line_ret r s.

Definition wait_rest r s : option (outcome A) :=
  alive ← process_is_alive (k_tab s) (r_ebx r);
  if alive =? 0 then Some (Return s (set_eax 0 r)) else Some (Halt s (WaitHalt r)).

Definition wait_test r s : option (outcome A) :=
  alive ← process_is_alive (k_tab s) (r_ebx r);
  if alive =? 0 then Some (Return s (set_eax 0 r))
  else call_schedule (WaitSched r) (wait_rest r) s.

(** A process that has the processor again. *)
Definition resume (k : kcont) s : option (outcome A) :=
  match k with
  | Preempted => Some (Back s)
  | Yielded r => Some (Return s r)
  | ReadSched r => read_rest r s
  | ReadHalt r => read_test r s
  | WaitSched r => wait_rest r s
  | WaitHalt r => wait_test r s
  | Exited => Some (Stop s)
  end.

(** *** syscall_dispatch

    The pointers in ebx are used as they are.  The answers are the C code's for
    pointers that stay away from the kernel's own memory ([does]). *)

Definition syscall_dispatch (rootfs : fs_instance) (trampoline : Z) r s : option (outcome A) :=
  let n := r_eax r in
  if n =? SYS_WRITE then
    '(v, c) ← fb_write cr3 (r_ebx r) (r_ecx r) (k_con s);
    Some (Return (set_con c s) (set_eax (u32 v) r))
  else if n =? SYS_EXIT then
    t ← exit_current (k_tab s);
    call_schedule Exited (λ s, Some (Stop s)) (set_tab t s)
  else if n =? SYS_YIELD then
    call_schedule (Yielded r) (λ s, Some (Return s r)) s
  else if n =? SYS_SPAWN then
    '(v, (m, fa, t)) ← process_create cr3 trampoline rootfs (r_ebx r) (c_mem (k_con s)) (k_fa s) (k_tab s);
    Some (Return (mkKernel t (k_kbd s) (mkCon m (fb_cursor (k_con s)) (c_ports (k_con s))) fa (k_tss s))
                 (set_eax (u32 v) r))
  else if n =? SYS_READ then read_test r s
  else if n =? SYS_WAIT then wait_test r s
  else if n =? SYS_GETPROCS then
    '(v, m) ← process_get_info cr3 (c_mem (k_con s)) (k_tab s) (r_ebx r) (s32 (r_ecx r));
    Some (Return (set_mem m s) (set_eax (u32 v) r))
  else if n =? SYS_LISTFILES then
    '(v, m) ← fs_list cr3 (c_mem (k_con s)) rootfs (r_ebx r) (r_ecx r);
    Some (Return (set_mem m s) (set_eax (u32 v) r))
  else if n =? SYS_CLEAR then
    c ← fb_clear cr3 (k_con s);
    Some (Return (set_con c s) (set_eax 0 r))
  else Some (Return s (set_eax 0xFFFFFFFF r)).
End code.

(** ** The machine

    The processor is in user mode, in the `sti; hlt; cli` of a waiting system
    call, or in the last `hlt` of SYS_EXIT with interrupts off. *)

Inductive cpu := UserMode | Idle (k : kcont) | Stopped.

Record machine (A : Type) := mkMachine {
  m_kernel : kernel A;
  m_conts : nat → kcont;
  m_cpu : cpu
}.
Arguments mkMachine {A} _ _ _.
Arguments m_kernel {A} _. Arguments m_conts {A} _ _. Arguments m_cpu {A} _.

Section machine.
Context {A : Type} `{FrameAlloc A}.
Implicit Types (s : kernel A) (M : machine A).

Definition landed (conts : nat → kcont) (o : outcome A) : option (machine A) :=
  match o with
  | Back s | Return s _ => Some (mkMachine s conts UserMode)
  | Halt s k => Some (mkMachine s conts (Idle k))
  | Stop s => Some (mkMachine s conts Stopped)
  | Switch _ _ _ => None
  end.

Definition put (c : nat) (k : kcont) (conts : nat → kcont) (i : nat) : kcont :=
  if decide (i = c) then k else conts i.

(** After a switch the old process keeps its place and the new one goes on
    from its own. *)
Definition settle (saved : Z) (conts : nat → kcont) (o : outcome A) : option (machine A) :=
  match o with
  | Switch s sw k =>
      let conts := put (sw_save sw) k conts in
      c ← current (k_tab s);
      o ← resume (sw_cr3 sw) saved (conts c) s;
      landed conts o
  | _ => landed conts o
  end.

(** A slot that was DEAD has no place to go on from: a process created in it
    starts in user mode. *)
Definition fresh (t : proctab) (conts : nat → kcont) (i : nat) : kcont :=
  match procs t !! i with
  | Some p => if state p =? PROC_STATE_DEAD then Preempted else conts i
  | None => conts i
  end.

(** The directory of the process that runs. *)
Definition cur_dir (t : proctab) : option Z :=
  c ← current t; p ← procs t !! c; Some (page_dir_phys p).

Definition user_cs : Z := 0x1B.
Definition kernel_cs : Z := 0x08.

(** The four things that happen to the machine: a system call, an interrupt in
    user mode and in `hlt`, and the end of `hlt`; each with the process it
    switches to, up to where that is back in user mode or in `hlt`. *)
Definition syscall_run cr3 saved (rootfs : fs_instance) trampoline r conts s : option (machine A) :=
  o ← syscall_dispatch cr3 saved rootfs trampoline r s; settle saved (fresh (k_tab s) conts) o.
Definition user_irq_run cr3 saved dev n conts s : option (machine A) :=
  o ← interrupt_handler cr3 saved dev n user_cs s; settle saved (fresh (k_tab s) conts) o.
Definition idle_irq_run cr3 saved dev n conts k s : option (machine A) :=
  o ← interrupt_handler cr3 saved dev n kernel_cs s;
  match o with Back s' => Some (mkMachine s' (fresh (k_tab s) conts) (Idle k)) | _ => None end.
Definition wake_run cr3 saved conts k s : option (machine A) :=
  o ← resume cr3 saved k s; settle saved (fresh (k_tab s) conts) o.

(** *** The kernel's own memory

    The C variables that [kernel] has as records, and the kernel stacks, are in
    memory too, and nothing in syscall.c keeps the pointer of a call away from
    them.  [kvars] is where the variables are; the processes that are alive have
    a kernel stack each.  The records say what a run does only when it neither
    reads nor writes these bytes through a pointer: when, whatever is in them,
    it does the same and leaves them as they are. *)
Definition machine_mem M : mem := c_mem (k_con (m_kernel M)).
Definition put_mem (m : mem) M : machine A := mkMachine (set_mem m (m_kernel M)) (m_conts M) (m_cpu M).

Definition owned (kvars : Z → Prop) (t : proctab) (a : Z) : Prop :=
  kvars a ∨ ∃ i p, procs t !! i = Some p ∧ alive p ∧ within (kernel_stack p) 4096 a.

Record does (own : Z → Prop) (run : kernel A → option (machine A)) s M' : Prop := {
  do_run : run s = Some M';
  do_apart : ∀ m, changes_only own (c_mem (k_con s)) m → ∃ m', run (set_mem m s) = Some (put_mem m' M') ∧
    changes_only own (machine_mem M') m' ∧ changes_only (λ a, ¬ own a) m m'
}.

(** System calls with any registers, interrupts of any number from any device
    in user mode and in `hlt`, and the end of `hlt`, as long as they keep away
    from the kernel's own memory.  (Fewer than 2^32 - 1 processes have been
    created.) *)
Inductive kstep (kvars : Z → Prop) (rootfs : fs_instance) (trampoline : Z) : machine A → machine A → Prop :=
  | step_syscall cr3 saved r s conts M' :
      cur_dir (k_tab s) = Some cr3 → next_pid (k_tab s) < 4294967295 →
      does (owned kvars (k_tab s)) (syscall_run cr3 saved rootfs trampoline r conts) s M' →
      kstep kvars rootfs trampoline (mkMachine s conts UserMode) M'
  | step_user_irq cr3 saved dev n s conts M' :
      cur_dir (k_tab s) = Some cr3 →
      does (owned kvars (k_tab s)) (user_irq_run cr3 saved dev n conts) s M' →
      kstep kvars rootfs trampoline (mkMachine s conts UserMode) M'
  | step_idle_irq cr3 saved dev n s conts k M' :
      cur_dir (k_tab s) = Some cr3 →
      does (owned kvars (k_tab s)) (idle_irq_run cr3 saved dev n conts k) s M' →
      kstep kvars rootfs trampoline (mkMachine s conts (Idle k)) M'
  | step_wake cr3 saved s conts k M' :
      cur_dir (k_tab s) = Some cr3 →
      does (owned kvars (k_tab s)) (wake_run cr3 saved conts k) s M' →
      kstep kvars rootfs trampoline (mkMachine s conts (Idle k)) M'.

(** A run that keeps away leaves the memory as it is there. *)
Lemma does_memory own run s M' : does own run s M' → changes_only (λ a, ¬ own a) (c_mem (k_con s)) (machine_mem M').
Proof.
  intros [Hrun Ha]. destruct (Ha _ (changes_only_refl _ _)) as (m' & E & _ & Hc).
  assert (set_mem (c_mem (k_con s)) s = s) as Hs by (by destruct s as [? ? [] ? ?]). rewrite Hs, Hrun in E.
  injection E as E. rewrite E. exact Hc.
Qed.

Lemma kstep_memory kvars rootfs tr M M' : kstep kvars rootfs tr M M' →
  changes_only (λ a, ¬ owned kvars (k_tab (m_kernel M)) a) (machine_mem M) (machine_mem M').
Proof. intros []; by eapply does_memory. Qed.

(** ** The invariant *)

(** Waiting without the processor, or in `hlt`. *)
Definition off_cpu (k : kcont) : Prop :=
  match k with Preempted | Yielded _ | ReadSched _ | WaitSched _ => True | _ => False end.
Definition in_hlt (k : kcont) : Prop :=
  match k with ReadHalt _ | WaitHalt _ => True | _ => False end.

(** The table is well-formed, the stack in the TSS is the current process's,
    the keyboard holds a line of at most 127 characters. *)
Record kinv s : Prop := {
  ki_tab : tab_wf (k_tab s);
  ki_pid : 0 < next_pid (k_tab s);
  ki_current : ∃ c p, current (k_tab s) = Some c ∧ procs (k_tab s) !! c = Some p ∧
    esp0 (k_tss s) = kernel_stack_top p;
  ki_kbd : ∃ l, holds (k_kbd s) l
}.

Record minv M : Prop := {
  mi_kernel : kinv (m_kernel M);
  mi_running : m_cpu M ≠ Stopped → on_cpu (k_tab (m_kernel M));
  mi_idle : ∀ k, m_cpu M = Idle k → in_hlt k;
  mi_conts : ∀ i, ready_at (k_tab (m_kernel M)) i → off_cpu (m_conts M i)
}.

Lemma kinv_same s s' : k_tab s' = k_tab s → k_tss s' = k_tss s → (∃ l, holds (k_kbd s') l) → kinv s → kinv s'.
Proof. intros Ht Hs Hk [H1 H2 H3 _]. split; rewrite ?Ht, ?Hs; done. Qed.

(** What a handler run by the current process leaves: the ways it can end, all
    with the invariant.  [t] is the table before and [c] its current process. *)
Definition ends_well (t : proctab) (c : nat) (o : outcome A) : Prop :=
  match o with
  | Back s | Return s _ => kinv s ∧ on_cpu (k_tab s) ∧ ∀ i, ready_at (k_tab s) i → ready_at t i ∨
      ∃ p, procs t !! i = Some p ∧ state p = PROC_STATE_DEAD
  | Halt s k => kinv s ∧ on_cpu (k_tab s) ∧ in_hlt k ∧ ∀ i, ready_at (k_tab s) i → ready_at t i
  | Stop s => kinv s ∧ ∀ i, ready_at (k_tab s) i → ready_at t i
  | Switch s sw k => kinv s ∧ on_cpu (k_tab s) ∧ sw_save sw = c ∧
      (∃ i, current (k_tab s) = Some i ∧ i ≠ c ∧ ready_at t i) ∧
      (∀ i, ready_at (k_tab s) i → i ≠ c ∧ ready_at t i ∨ i = c ∧ off_cpu k)
  end.

Lemma call_schedule_spec saved k go_on s c p : kinv s → current (k_tab s) = Some c →
  procs (k_tab s) !! c = Some p → (state p = PROC_STATE_RUNNING → off_cpu k) →
  (∃ s' sw, call_schedule saved k go_on s = Some (Switch s' sw k) ∧ ends_well (k_tab s) c (Switch s' sw k) ∧
     k_kbd s' = k_kbd s ∧ k_con s' = k_con s) ∨
  (∀ i, ¬ ready_at (k_tab s) i) ∧ call_schedule saved k go_on s = go_on s.
Proof.
  intros [Hw Hpos Hcur Hkb] Hc Hp Hk. unfold call_schedule.
  destruct (schedule_spec saved (k_tab s) c Hw Hc) as [(d & i & q & t' & Hn & Hq & Hsw & ->)|[Hno ->]].
  2:{ right. split; [exact Hno|]. by destruct s. }
  left. rewrite bind_Some. cbv beta iota. do 2 eexists. split; [reflexivity|]. split; [|done].
  pose proof (next_not_current _ _ _ _ Hw Hc Hn) as Hne. destruct (na_ready _ _ _ _ Hn) as (q' & Hq' & Hr). simplify_eq.
  cbn [ends_well k_tab sw_save]. split; [|split; [|split; [done|split]]].
  - split; cbn [k_tab k_tss k_kbd]; [by eapply switched_wf|by rewrite (sw_next _ _ _ _ _ Hsw)| |exact Hkb].
    exists i. eexists. split; [apply Hsw|]. split; [by apply (sw_new _ _ _ _ _ Hsw)|done].
  - intros c' p' Hc' Hp'. rewrite (sw_current _ _ _ _ _ Hsw) in Hc'. simplify_eq.
    rewrite (sw_new _ _ _ _ _ Hsw _ Hq) in Hp'. by simplify_eq.
  - exists i. split; [apply Hsw|]. split; [done|by exists q].
  - intros j (q' & Hj & Hjr). destruct (decide (j = c)) as [->|]; [right|left].
    + split; [done|]. apply Hk. rewrite (sw_old _ _ _ _ _ Hsw _ Hp) in Hj. simplify_eq.
      unfold ready, demote in Hjr. destruct (Z.eqb_spec (state p) PROC_STATE_RUNNING); [done|].
      simpl in Hjr. destruct (tw_current _ Hw _ Hc) as (o & Ho & Hor). simplify_eq.
    + split; [done|]. destruct (decide (j = i)) as [->|]; [by exists q|].
      exists q'. by rewrite <- (sw_rest _ _ _ _ _ Hsw j).
Qed.

(** *** Each handler *)

Section handler.
Context (cr3 saved : Z) (s : kernel A) (c : nat).
Hypothesis (Hk : kinv s) (Hon : on_cpu (k_tab s)) (Hc : current (k_tab s) = Some c).

(** A handler that leaves the table and the TSS alone and returns. *)
Lemma ends_plain s' : k_tab s' = k_tab s → k_tss s' = k_tss s → (∃ l, holds (k_kbd s') l) →
  kinv s' ∧ on_cpu (k_tab s') ∧ ∀ i, ready_at (k_tab s') i → ready_at (k_tab s) i.
Proof. intros Ht Hs Hh. split; [by eapply kinv_same|]. rewrite Ht. by split. Qed.

Lemma ends_back s' : kinv s' ∧ on_cpu (k_tab s') ∧ (∀ i, ready_at (k_tab s') i → ready_at (k_tab s) i) →
  ends_well (k_tab s) c (Back s') ∧ ∀ r, ends_well (k_tab s) c (Return s' r).
Proof. intros (H1 & H2 & H3). split; [|intros r]; cbn [ends_well]; split; [done|split; [done|]| done|split; [done|]]; eauto. Qed.

Lemma ends_schedule k go_on o : off_cpu k → call_schedule saved k go_on s = Some o →
  (go_on s = Some o → ends_well (k_tab s) c o) → ends_well (k_tab s) c o.
Proof.
  intros Hoff Ho Hgo. destruct (ki_current _ Hk) as (c' & p & Hc' & Hp & _). simplify_eq.
  destruct (call_schedule_spec saved k go_on s c p Hk Hc Hp (λ _, Hoff)) as [(s' & sw & E & He & _)|[_ E]];
    rewrite E in Ho; [by simplify_eq|auto].
Qed.

Lemma ends_halt k : in_hlt k → ends_well (k_tab s) c (Halt s k).
Proof. intros Hh. split; [exact Hk|]. split; [exact Hon|]. split; [exact Hh|]. auto. Qed.

Lemma read_line_ends r o : read_line_ret cr3 r s = Some o → ends_well (k_tab s) c o.
Proof.
  unfold read_line_ret, keyboard_read_line. intros Ho.
  destruct (for_range _ _ _ _) as [m|]; [rewrite bind_Some in Ho; simpl in Ho; simplify_eq|done].
  apply ends_back, ends_plain; [done..|]. exists (mkLine [] false). destruct (ki_kbd _ Hk) as (l & [H1 _ _ _ _]).
  split; cbn; done || lia.
Qed.

Lemma read_rest_ends r o : read_rest cr3 r s = Some o → ends_well (k_tab s) c o.
Proof.
  unfold read_rest. destruct (_ =? 0); [|apply read_line_ends]. intros [= <-]. apply ends_halt. exact I.
Qed.

Lemma read_test_ends r o : read_test cr3 saved r s = Some o → ends_well (k_tab s) c o.
Proof.
  unfold read_test. destruct (_ =? 0); [|apply read_line_ends]. intros Ho.
  eapply (ends_schedule (ReadSched r) _ _ I Ho). apply read_rest_ends.
Qed.

Lemma wait_rest_ends r o : wait_rest r s = Some o → ends_well (k_tab s) c o.
Proof.
  unfold wait_rest. destruct (process_is_alive _ _) as [a|]; [rewrite bind_Some|done]. destruct (a =? 0); intros [= <-].
  - apply ends_back, ends_plain; [done..|apply Hk].
  - apply ends_halt. exact I.
Qed.

Lemma wait_test_ends r o : wait_test saved r s = Some o → ends_well (k_tab s) c o.
Proof.
  unfold wait_test. destruct (process_is_alive _ _) as [a|]; [rewrite bind_Some|done]. destruct (a =? 0); intros Ho.
  - simplify_eq. apply ends_back, ends_plain; [done..|apply Hk].
  - eapply (ends_schedule (WaitSched r) _ _ I Ho). apply wait_rest_ends.
Qed.

End handler.

Lemma interrupt_ends cr3 saved s c dev n cs o : kinv s → on_cpu (k_tab s) → current (k_tab s) = Some c →
  interrupt_handler cr3 saved dev n cs s = Some o → ends_well (k_tab s) c o.
Proof.
  intros Hk Hon Hc Ho. unfold interrupt_handler in Ho. apply option.bind_Some in Ho as (s1 & H1 & Ho).
  set (s2 := if (32 <=? n) && (n <=? 47) then _ else s1) in Ho.
  assert (k_tab s2 = k_tab s ∧ k_tss s2 = k_tss s ∧ ∃ l, holds (k_kbd s2) l) as (E1 & E2 & E3).
  { destruct (ki_kbd _ Hk) as (l & Hl). assert (k_tab s1 = k_tab s ∧ k_tss s1 = k_tss s ∧ ∃ l, holds (k_kbd s1) l) as H1'.
    { destruct (n =? 33); [|simplify_eq; by eauto]. apply option.bind_Some in H1 as ([k c1] & H1 & E). simplify_eq.
      cbn. split; [done|]. split; [done|]. by eapply keyboard_handler_holds. }
    subst s2. by destruct ((32 <=? n) && (n <=? 47)). }
  clearbody s2. destruct (ends_plain s Hk Hon s2 E1 E2 E3) as (K & O & R). rewrite <- E1 in Hc |- *.
  assert (ends_well (k_tab s2) c (Back s2)) as Hb by exact (proj1 (ends_back s2 c s2 (conj K (conj O (λ _ H, H))))).
  destruct ((n =? 32) && (Z.land cs 3 =? 3)); [|by simplify_eq].
  eapply (ends_schedule saved s2 c K Hc Preempted _ _ I Ho). intros. by simplify_eq.
Qed.

Lemma exit_ends saved s c t o : kinv s → on_cpu (k_tab s) → current (k_tab s) = Some c →
  exit_current (k_tab s) = Some t →
  call_schedule saved Exited (λ s, Some (Stop s)) (set_tab t s) = Some o → ends_well (k_tab s) c o.
Proof.
  intros Hk Hon Hc He Ho. destruct (exit_wf _ _ (ki_tab _ Hk) He) as (Hw & Hcur & Hrest).
  destruct (ki_current _ Hk) as (c' & p & Hc' & Hp & Hesp). simplify_eq.
  unfold exit_current, process_current in He. rewrite Hc, bind_Some, (proc_set_at _ _ _ _ Hp) in He. simplify_eq.
  pose proof (lookup_lt_Some _ _ _ Hp) as Hlt. set (t := mkTab _ _ _) in *.
  assert (procs t !! c = Some (set_state PROC_STATE_DEAD p)) as Hp1 by (by apply list_lookup_insert_eq).
  assert (kinv (set_tab t s)) as Hk1.
  { split; [exact Hw|apply Hk| |apply Hk]. exists c. eexists. split; [exact Hc|]. split; [exact Hp1|exact Hesp]. }
  assert (∀ i, ready_at t i → ready_at (k_tab s) i) as Hsub.
  { intros i (q & Hq & Hr). destruct (decide (i = c)) as [->|]; [by simplify_eq|]. exists q.
    split; [|done]. rewrite <- Hq. symmetry. apply Hrest. congruence. }
  destruct (call_schedule_spec saved Exited (λ s, Some (Stop s)) (set_tab t s) c _ Hk1 Hc Hp1)
    as [(s' & sw & E & He & _)|[_ E]]; [done| |]; rewrite E in Ho; simplify_eq.
  - destruct He as (H1 & H2 & H3 & (i & H4 & H5 & H6) & H7). split; [exact H1|]. split; [exact H2|]. split; [exact H3|].
    split; [exists i; auto|]. intros j Hj. destruct (H7 j Hj) as [[? ?]|[_ []]]. auto.
  - split; [exact Hk1|exact Hsub].
Qed.

Lemma spawn_ends cr3 rootfs tr name s c r m fa t regs :
  kinv s → on_cpu (k_tab s) → current (k_tab s) = Some c → next_pid (k_tab s) < 4294967295 →
  process_create cr3 tr rootfs name (c_mem (k_con s)) (k_fa s) (k_tab s) = Some (r, (m, fa, t)) →
  ends_well (k_tab s) c (Return (mkKernel t (k_kbd s) (mkCon m (fb_cursor (k_con s)) (c_ports (k_con s))) fa (k_tss s)) regs).
Proof.
  intros Hk Hon Hc Hpid Hp.
  destruct (process_create_table _ _ _ _ _ _ _ _ _ _ _ (ki_tab _ Hk) Hp) as [->|(slot & q & sp & dir & kb & kt & nm & Hq & Hs0 & Hd & Hl & Hu & Hi)].
  { apply ends_back, ends_plain; [done..|apply Hk]. }
  destruct (install_spec _ _ _ _ _ _ _ _ _ (ki_tab _ Hk) Hon Hq Hs0 Hd Hl Hu Hpid (ki_pid _ Hk) Hi) as (Hw & Hcur & Hn & Hpr).
  destruct (ki_current _ Hk) as (c' & p & Hc' & Hcp & Hesp). simplify_eq. pose proof (Hon _ _ Hc Hcp) as Hrun.
  assert (Z.to_nat slot ≠ c) as Hne. { intros <-. unfold proc_at in Hq. simplify_eq. congruence. }
  assert (procs t !! c = Some p) as Hcp' by (rewrite Hpr; by rewrite list_lookup_insert_ne by done).
  split; [|split].
  - split; [exact Hw|cbn; pose proof (ki_pid _ Hk); lia| |apply Hk]. exists c, p. cbn. by rewrite Hcur.
  - intros c1 p1 H1 H2. cbn in H1, H2. rewrite Hcur in H1. by simplify_eq.
  - intros i (x & Hx & Hr). cbn in Hx. rewrite Hpr in Hx. destruct (decide (i = Z.to_nat slot)) as [->|].
    + right. by exists q.
    + left. exists x. by rewrite list_lookup_insert_ne in Hx by done.
Qed.

Lemma dispatch_ends cr3 saved rootfs tr r s c o :
  kinv s → on_cpu (k_tab s) → current (k_tab s) = Some c → next_pid (k_tab s) < 4294967295 →
  syscall_dispatch cr3 saved rootfs tr r s = Some o → ends_well (k_tab s) c o.
Proof.
  intros Hk Hon Hc Hpid Ho. unfold syscall_dispatch in Ho. cbv zeta in Ho.
  assert (∀ s' r', k_tab s' = k_tab s → k_tss s' = k_tss s → k_kbd s' = k_kbd s → ends_well (k_tab s) c (Return s' r')) as Hp.
  { intros s' r' H1 H2 H3. apply ends_back, ends_plain; try done. rewrite H3. apply Hk. }
  destruct (r_eax r =? 1). { apply option.bind_Some in Ho as ([v c1] & _ & Ho). simplify_eq. by apply Hp. }
  destruct (r_eax r =? 2). { apply option.bind_Some in Ho as (t & He & Ho). by eapply exit_ends. }
  destruct (r_eax r =? 3). { eapply (ends_schedule saved s c Hk Hc (Yielded r) _ _ I Ho). intros. simplify_eq. by apply Hp. }
  destruct (r_eax r =? 4). { apply option.bind_Some in Ho as ([v [[m fa] t]] & He & Ho). simplify_eq. by eapply spawn_ends. }
  destruct (r_eax r =? 5); [by eapply read_test_ends|].
  destruct (r_eax r =? 6); [by eapply wait_test_ends|].
  destruct (r_eax r =? 7). { apply option.bind_Some in Ho as ([v m] & _ & Ho). simplify_eq. by apply Hp. }
  destruct (r_eax r =? 8). { apply option.bind_Some in Ho as ([v m] & _ & Ho). simplify_eq. by apply Hp. }
  destruct (r_eax r =? 9). { apply option.bind_Some in Ho as (c1 & _ & Ho). simplify_eq. by apply Hp. }
  simplify_eq. by apply Hp.
Qed.

(** A process that gets the processor back goes on without another switch. *)
Lemma resume_off cr3 saved k s o : off_cpu k → (∃ l, holds (k_kbd s) l) → resume cr3 saved k s = Some o →
  ∃ s', k_tab s' = k_tab s ∧ k_tss s' = k_tss s ∧ (∃ l, holds (k_kbd s') l) ∧
    (o = Back s' ∨ (∃ r, o = Return s' r) ∨ ∃ k', o = Halt s' k' ∧ in_hlt k').
Proof.
  intros Hk Hh Ho. destruct k; try done; cbn [resume] in Ho.
  - simplify_eq. exists s. do 3 (split; [done|]). by left.
  - simplify_eq. exists s. do 3 (split; [done|]). right; left. by eexists.
  - unfold read_rest in Ho. destruct (_ =? 0); [simplify_eq; exists s; do 3 (split; [done|]); right; right; by eexists|].
    unfold read_line_ret, keyboard_read_line in Ho. destruct (for_range _ _ _ _) as [m|]; [rewrite bind_Some in Ho; simpl in Ho|done].
    simplify_eq. eexists. split; [|split; [|split; [|right; left; by eexists]]]; [done..|]. exists (mkLine [] false).
    destruct Hh as (l & [H1 _ _ _ _]). split; cbn; done || lia.
  - unfold wait_rest in Ho. destruct (process_is_alive _ _) as [a|]; [rewrite bind_Some in Ho|done].
    destruct (a =? 0); simplify_eq; exists s; do 3 (split; [done|]); right; [left|right]; by eexists.
Qed.

Lemma fresh_off t conts : (∀ i, ready_at t i → off_cpu (conts i)) →
  ∀ i, ready_at t i ∨ (∃ p, procs t !! i = Some p ∧ state p = PROC_STATE_DEAD) → off_cpu (fresh t conts i).
Proof.
  intros Hf i Hi. unfold fresh. destruct Hi as [Hi|(p & -> & ->)]; [|exact I].
  destruct (procs t !! i) as [p|]; [destruct (state p =? 0)|]; auto. exact I.
Qed.

Lemma settle_inv saved conts o t c M' : ends_well t c o →
  (∀ i, ready_at t i → off_cpu (conts i)) → settle saved (fresh t conts) o = Some M' → minv M'.
Proof.
  intros He Hf Hs.
  pose proof (fresh_off t conts Hf) as Hnew.
  destruct o as [s|s r|s sw k|s k|s]; cbn [settle landed ends_well] in *.
  - destruct He as (H1 & H2 & H3). simplify_eq. split; cbn; [done|done|done|]. auto.
  - destruct He as (H1 & H2 & H3). simplify_eq. split; cbn; [done|done|done|]. auto.
  - destruct He as (H1 & H2 & H3 & (i & Hi & Hic & Hir) & H5). rewrite Hi, bind_Some in Hs.
    assert (put (sw_save sw) k (fresh t conts) i = fresh t conts i) as Hput by (unfold put; by rewrite H3, decide_False by done).
    rewrite Hput, H3 in Hs.
    apply option.bind_Some in Hs as (o & Ho & Hl).
    destruct (resume_off _ _ _ _ _ (Hnew _ (or_introl Hir)) (ki_kbd _ H1) Ho) as (s' & E1 & E2 & E3 & Hend).
    assert (kinv s') as K by (by eapply kinv_same).
    assert (∀ j, ready_at (k_tab s') j → off_cpu (put c k (fresh t conts) j)) as Hc'.
    { intros j Hj. rewrite E1 in Hj. unfold put. destruct (decide (j = c)) as [->|Hne].
      - by destruct (H5 c Hj) as [[? _]|[_ ?]].
      - destruct (H5 j Hj) as [[_ Hr]|[? _]]; [auto|done]. }
    rewrite <- E1 in H2. destruct Hend as [->|[(r & ->)|(k' & -> & Hk')]]; cbn [landed] in Hl; simplify_eq;
      split; cbn; try done. intros k1 [= <-]. exact Hk'.
  - destruct He as (H1 & H2 & H3 & H4). simplify_eq. split; cbn; [done|done| |auto]. intros k1 [= <-]. exact H3.
  - destruct He as (H1 & H2). simplify_eq. split; cbn; [done|done|done|auto].
Qed.

Lemma minv_current M : minv M → ∃ c, current (k_tab (m_kernel M)) = Some c.
Proof. intros Hm. destruct (ki_current _ (mi_kernel _ Hm)) as (c & _ & Hc & _). by exists c. Qed.

Lemma kstep_inv kvars rootfs tr M M' : minv M → kstep kvars rootfs tr M M' → minv M'.
Proof.
  intros Hm Hst. pose proof Hm as [Hk Hr Hi Hc]. destruct (minv_current _ Hm) as [c Hcur].
  destruct Hst as [cr3 saved r s conts M' _ Hpid [Ho _]|cr3 saved dev n s conts M' _ [Ho _]|
    cr3 saved dev n s conts k M' _ [Ho _]|cr3 saved s conts k M' _ [Ho _]]; cbn in *; specialize (Hr ltac:(done));
    apply option.bind_Some in Ho as (o & Ho & Hs).
  - eapply settle_inv; [by eapply dispatch_ends|exact Hc|exact Hs].
  - eapply settle_inv; [by eapply interrupt_ends|exact Hc|exact Hs].
  - destruct o as [s'| | | |]; try done. injection Hs as <-.
    destruct (interrupt_ends _ _ _ _ _ _ _ _ Hk Hr Hcur Ho) as (H1 & H2 & H3). split; cbn; [done|done|done|].
    intros i Hri. by apply fresh_off; [|apply H3].
  - eapply settle_inv; [|exact Hc|exact Hs]. specialize (Hi k eq_refl).
    destruct k; try done; cbn [resume] in Ho; [by eapply read_test_ends|by eapply wait_test_ends].
Qed.
End machine.

(** ** The parts of a handler *)

Definition outcome_state {A} (o : outcome A) : kernel A :=
  match o with Back s | Return s _ | Switch s _ _ | Halt s _ | Stop s => s end.

(** The controllers do not see the keyboard's and the screen's ports. *)
Lemma pics_skip s0 tr evs : Forall (λ e, match e with
    | Out p _ => p = FB_COMMAND_PORT ∨ p = FB_DATA_PORT | In _ _ => True end) evs →
  observe pics_step s0 (tr ++ evs) = observe pics_step s0 tr.
Proof.
  intros HF. apply observe_skip. eapply Forall_impl; [exact HF|]. intros [p v|p v] He s; [|done]. by destruct He as [-> | ->].
Qed.

Section calls.
Context {A : Type} `{FrameAlloc A}.
Implicit Types (s : kernel A).

Definition any_ready s : Prop := ∃ i, ready_at (k_tab s) i.

(** A blocked call: to the next process that is READY, or into `hlt`. *)
Definition blocks s (c : nat) (ks kh : kcont) (o : outcome A) : Prop :=
  (∃ s' sw i, o = Switch s' sw ks ∧ sw_save sw = c ∧ current (k_tab s') = Some i ∧ ready_at (k_tab s) i ∧
     k_kbd s' = k_kbd s ∧ k_con s' = k_con s) ∨
  ¬ any_ready s ∧ o = Halt s kh.

Lemma call_schedule_blocks saved ks kh go_on s c : kinv s → on_cpu (k_tab s) → current (k_tab s) = Some c →
  off_cpu ks → go_on s = Some (Halt s kh) → ∃ o, call_schedule saved ks go_on s = Some o ∧ blocks s c ks kh o.
Proof.
  intros Hk Hon Hc Hoff Hgo. destruct (ki_current _ Hk) as (c' & p & Hc' & Hp & _). simplify_eq.
  destruct (call_schedule_spec saved ks go_on s c p Hk Hc Hp (λ _, Hoff)) as [(s' & sw & E & He & Hsame)|[Hno E]]; rewrite E.
  - eexists. split; [reflexivity|]. left. destruct He as (_ & _ & Hsv & (i & Hi & _ & Hr) & _).
    exists s', sw, i. split; [done|]. split; [exact Hsv|]. split; [exact Hi|]. split; [exact Hr|exact Hsame].
  - rewrite Hgo. eexists. split; [reflexivity|]. right. split; [|done]. intros [i Hi]. by apply (Hno i).
Qed.
End calls.

(** ** The machine and the table

    The table of the machine moves only by the events of Process.v. *)
Section table.
Context {A : Type} `{FrameAlloc A}.
Implicit Types (s : kernel A) (M : machine A).

Definition tab_moves (t t' : proctab) : Prop := t' = t ∨ ∃ e, tab_step t e t'.

Lemma call_schedule_table saved k go_on s o : on_cpu (k_tab s) →
  (∀ s1, k_tab s1 = k_tab s → go_on s1 = Some o → k_tab (outcome_state o) = k_tab s) →
  (∃ c, current (k_tab s) = Some c) → tab_wf (k_tab s) →
  call_schedule saved k go_on s = Some o → tab_moves (k_tab s) (k_tab (outcome_state o)).
Proof.
  intros Hon Hgo [c Hc] Hw Ho. unfold call_schedule in Ho. apply option.bind_Some in Ho as ([t sw] & Hs & Ho).
  destruct sw as [sw|]; simplify_eq.
  - right. exists Tick. by eapply step_tick.
  - left. eapply Hgo; [|exact Ho]. cbn [k_tab set_tab].
    destruct (schedule_spec saved (k_tab s) c Hw Hc) as [(d & i & q & t' & _ & _ & _ & E)|[_ E]]; rewrite E in Hs; by simplify_eq.
Qed.

Lemma read_line_table cr3 r s o : read_line_ret cr3 r s = Some o → k_tab (outcome_state o) = k_tab s.
Proof.
  unfold read_line_ret, keyboard_read_line. destruct (for_range _ _ _ _) as [m|]; [|done]. rewrite bind_Some. simpl. by intros [= <-].
Qed.

Lemma read_rest_table cr3 r s o : read_rest cr3 r s = Some o → k_tab (outcome_state o) = k_tab s.
Proof. unfold read_rest. destruct (_ =? 0); [by intros [= <-]|apply read_line_table]. Qed.

Lemma wait_rest_table r s o : wait_rest r s = Some o → k_tab (outcome_state o) = k_tab s.
Proof.
  unfold wait_rest. destruct (process_is_alive _ _) as [a|]; [rewrite bind_Some|done]. destruct (a =? 0); by intros [= <-].
Qed.

Section handlers.
Context (cr3 saved : Z) (s : kernel A).
Hypothesis (Hk : kinv s) (Hon : on_cpu (k_tab s)).

Let Hcur : ∃ c, current (k_tab s) = Some c.
Proof. destruct (ki_current _ Hk) as (c & _ & Hc & _). by exists c. Qed.

Lemma read_test_table r o : read_test cr3 saved r s = Some o → tab_moves (k_tab s) (k_tab (outcome_state o)).
Proof.
  unfold read_test. destruct (_ =? 0); [|left; by eapply read_line_table].
  apply call_schedule_table; [done| |done|apply Hk]. intros s1 <- Hr. by eapply read_rest_table.
Qed.

Lemma wait_test_table r o : wait_test saved r s = Some o → tab_moves (k_tab s) (k_tab (outcome_state o)).
Proof.
  unfold wait_test. destruct (process_is_alive _ _) as [a|]; [rewrite bind_Some|done].
  destruct (a =? 0); [intros [= <-]; by left|].
  apply call_schedule_table; [done| |done|apply Hk]. intros s1 <- Hr. by eapply wait_rest_table.
Qed.

Lemma interrupt_table dev n cs o : interrupt_handler cr3 saved dev n cs s = Some o →
  tab_moves (k_tab s) (k_tab (outcome_state o)).
Proof.
  intros Ho. unfold interrupt_handler in Ho. apply option.bind_Some in Ho as (s1 & H1 & Ho).
  assert (k_tab s1 = k_tab s) as E1.
  { destruct (n =? 33); [|by simplify_eq]. apply option.bind_Some in H1 as ([k c1] & _ & E). by simplify_eq. }
  set (s2 := if (32 <=? n) && (n <=? 47) then _ else s1) in Ho.
  assert (k_tab s2 = k_tab s) as E2 by (rewrite <- E1; subst s2; by destruct ((32 <=? n) && (n <=? 47))).
  clearbody s2. rewrite <- E2. destruct ((n =? 32) && (Z.land cs 3 =? 3)); [|simplify_eq; by left].
  eapply call_schedule_table; [by rewrite E2| |by rewrite E2|rewrite E2; apply Hk|exact Ho].
  intros s3 <- [= <-]. done.
Qed.

Lemma dispatch_table rootfs tr r o : next_pid (k_tab s) < 4294967295 →
  syscall_dispatch cr3 saved rootfs tr r s = Some o → tab_moves (k_tab s) (k_tab (outcome_state o)).
Proof.
  intros Hpid Ho. unfold syscall_dispatch in Ho. cbv zeta in Ho.
  destruct (r_eax r =? 1). { apply option.bind_Some in Ho as ([v c1] & _ & Ho). simplify_eq. by left. }
  destruct (r_eax r =? 2).
  { apply option.bind_Some in Ho as (t & He & Ho). right. exists Exit. destruct (exit_wf _ _ (ki_tab _ Hk) He) as (Hw & Hc & _).
    destruct Hcur as [c Hc0]. unfold call_schedule in Ho. apply option.bind_Some in Ho as ([t' sw] & Hs & Ho).
    cbn [k_tab set_tab] in Hs. destruct sw as [sw|]; simplify_eq; by eapply step_exit. }
  destruct (r_eax r =? 3).
  { eapply call_schedule_table; [done| |done|apply Hk|exact Ho]. by intros s1 <- [= <-]. }
  destruct (r_eax r =? 4).
  { apply option.bind_Some in Ho as ([v [[m fa] t]] & He & Ho). simplify_eq.
    destruct (process_create_table _ _ _ _ _ _ _ _ _ _ _ (ki_tab _ Hk) He) as [->|(slot & q & sp & dir & kb & kt & nm & Hq & Hs0 & Hd & Hl & Hu & Hi)].
    - by left.
    - right. exists Spawn. by eapply step_spawn. }
  destruct (r_eax r =? 5); [by eapply read_test_table|].
  destruct (r_eax r =? 6); [by eapply wait_test_table|].
  destruct (r_eax r =? 7). { apply option.bind_Some in Ho as ([v m] & _ & Ho). simplify_eq. by left. }
  destruct (r_eax r =? 8). { apply option.bind_Some in Ho as ([v m] & _ & Ho). simplify_eq. by left. }
  destruct (r_eax r =? 9). { apply option.bind_Some in Ho as (c1 & _ & Ho). simplify_eq. by left. }
  simplify_eq. by left.
Qed.
End handlers.

Lemma settle_table saved conts o t c M' : ends_well t c o → (∀ i, ready_at t i → off_cpu (conts i)) →
  settle saved conts o = Some M' → k_tab (m_kernel M') = k_tab (outcome_state o).
Proof.
  intros He Hf Hs. destruct o as [s|s r|s sw k|s k|s]; cbn [settle landed outcome_state ends_well] in *; simplify_eq; try done.
  destruct He as (H1 & _ & H3 & (i & Hi & Hic & Hir) & _). rewrite Hi, bind_Some in Hs.
  assert (put (sw_save sw) k conts i = conts i) as Hput by (unfold put; by rewrite H3, decide_False by done).
  rewrite Hput in Hs. apply option.bind_Some in Hs as (o & Ho & Hl).
  destruct (resume_off _ _ _ _ _ (Hf _ Hir) (ki_kbd _ H1) Ho) as (s' & E & _ & _ & Hend).
  destruct Hend as [->|[(r & ->)|(k' & -> & _)]]; cbn in Hl; by simplify_eq.
Qed.
End table.

(** ** Properties *)

Section properties.
Context {A : Type} `{FrameAlloc A}.
Implicit Types (s : kernel A) (M : machine A).

(** The state scheduler_start leaves at the end of kmain. *)
Definition booted (M : machine A) : Prop :=
  ∃ t t' top sp dir c fa tss, tab_wf t ∧ 0 < next_pid t ∧ current t = None ∧
    scheduler_start t = Some (t', Some (top, sp, dir)) ∧
    M = mkMachine (mkKernel t' (mkKbd (replicate 128 0) 0 0) c fa (tss_set_kernel_stack top tss)) (λ _, Preempted) UserMode.

Lemma booted_inv M : booted M → minv M.
Proof.
  intros (t & t' & top & sp & dir & c & fa & tss & Hw & Hpos & Hc & Hs & ->).
  destruct (start_wf _ _ _ Hw Hc Hs) as [Hw' Hn].
  destruct (scheduler_start_spec t Hw Hc) as [(i & p & Hp & Hr & _ & E)|[_ E]]; rewrite E in Hs; simplify_eq.
  pose proof (lookup_lt_Some _ _ _ Hp) as Hlt. split; cbn [m_kernel m_conts m_cpu k_tab]; [|intros _|done|done].
  - split; cbn [k_tab k_kbd k_tss]; [exact Hw'|done| |].
    + exists i. eexists. split; [done|]. split; [by apply list_lookup_insert_eq|done].
    + exists (mkLine [] false). split; cbn; done || lia.
  - intros c' q [= <-] Hq. cbn in Hq. rewrite list_lookup_insert_eq in Hq by done. by simplify_eq.
Qed.

Lemma reach_inv kvars rootfs trampoline M0 M : booted M0 → rtc (kstep kvars rootfs trampoline) M0 M →
  minv M ∧ changes_only (λ a, ¬ kvars a) (machine_mem M0) (machine_mem M).
Proof.
  intros Hb Hr. apply booted_inv in Hb. induction Hr as [M1|M1 M2 M3 Hst _ IH]; [by split|].
  destruct (IH (kstep_inv _ _ _ _ _ Hb Hst)) as [Hm Hc]. split; [exact Hm|]. eapply changes_only_trans; [|exact Hc].
  eapply changes_only_mono; [|exact (kstep_memory _ _ _ _ _ Hst)]. intros a Hn Hk. apply Hn. by left.
Qed.



(** The bytes keyboard_read_line writes. *)
Lemma read_line_writes cr3 buf max k l m phi : holds k l → Forall (λ b, is_u8 b) (text l) → 0 <= buf → 0 <= max →
  buf + max <= 4294967296 → vmapped cr3 (within buf max) phi m →
  let out := take (Z.to_nat max) (text l) in
  ∃ m', keyboard_read_line cr3 buf max k m = Some (Z.of_nat (length out), mkKbd (kb_line_buf k) 0 0, m') ∧
    changes_only (image (within buf (Z.of_nat (length out))) phi) m m' ∧
    ∀ i b, out !! i = Some b → ld8 m' (phi (buf + Z.of_nat i)) = b.
Proof.
  intros Hh Hu Hb Hm Hf Hv out. assert (Z.of_nat (length out) <= max) as Hlen by (unfold out; rewrite length_take; lia).
  assert (vmapped cr3 (within buf (Z.of_nat (length out))) phi m) as Hv'
    by (eapply vmapped_mono; [|exact Hv]; unfold within; lia).
  destruct (keyboard_read_line_spec cr3 buf (Z.of_nat (length out)) k l m phi Hh ltac:(lia) Hb ltac:(lia) Hv' Hu)
    as (k' & m' & E & _ & Hby & Hch).
  rewrite Nat2Z.id in *. assert (take (length out) (text l) = out) as Ho.
  { unfold out. rewrite length_take. destruct (Nat.le_ge_cases (Z.to_nat max) (length (text l))) as [Hle|Hge].
    - by rewrite Nat.min_l by lia.
    - rewrite Nat.min_r, !take_ge by lia. done. }
  rewrite Ho in *. exists m'. unfold keyboard_read_line in *. rewrite (ho_len _ _ Hh) in *.
  assert ((if max <? Z.of_nat (length (text l)) then max else Z.of_nat (length (text l))) = Z.of_nat (length out)) as ->.
  { unfold out. rewrite length_take. zcase; lia. }
  assert ((if Z.of_nat (length out) <? Z.of_nat (length (text l)) then Z.of_nat (length out) else Z.of_nat (length (text l))) =
    Z.of_nat (length out)) as Hmin by (unfold out in *; rewrite length_take in *; zcase; lia).
  rewrite Hmin in E. apply option.bind_Some in E as (m2 & -> & E). injection E as -> ->. split; [reflexivity|]. split; [exact Hch|].
  intros i b Hi. pose proof (Hby i b Hi) as Hk. pose proof (lookup_lt_Some _ _ _ Hi). unfold kld8 in Hk.
  rewrite (vm_walk _ _ _ _ Hv' m' Hch), bind_Some in Hk by (unfold within; lia). by injection Hk.
Qed.

(** SYS_READ into a buffer of the process's own is a step: with the buffer
    mapped to memory that is not the kernel's own, whatever that holds. *)
Lemma sys_read_keeps_away own conts cr3 saved rootfs tr r s l phi :
  holds (k_kbd s) l → entered l = true → Forall (λ b, is_u8 b) (text l) → r_eax r = SYS_READ →
  0 <= r_ebx r → 0 <= r_ecx r → r_ebx r + r_ecx r <= 4294967296 →
  (∀ va, within (r_ebx r) (r_ecx r) va → ¬ own (phi va)) →
  (∀ m, changes_only own (c_mem (k_con s)) m → vmapped cr3 (within (r_ebx r) (r_ecx r)) phi m) →
  ∃ M', does own (syscall_run cr3 saved rootfs tr r conts) s M'.
Proof.
  intros Hh He Hu Hr Hb Hm Hf Hown Hv. set (out := take (Z.to_nat (r_ecx r)) (text l)).
  assert (∀ m, changes_only own (c_mem (k_con s)) m → ∃ m', keyboard_read_line cr3 (r_ebx r) (r_ecx r) (k_kbd s) m =
      Some (Z.of_nat (length out), mkKbd (kb_line_buf (k_kbd s)) 0 0, m') ∧
      changes_only (image (within (r_ebx r) (Z.of_nat (length out))) phi) m m' ∧
      ∀ i b, out !! i = Some b → ld8 m' (phi (r_ebx r + Z.of_nat i)) = b) as Hread
    by (intros m Hc; exact (read_line_writes _ _ _ _ _ m phi Hh Hu Hb Hm Hf (Hv m Hc))).
  assert (∀ s1 m', k_kbd s1 = k_kbd s → keyboard_read_line cr3 (r_ebx r) (r_ecx r) (k_kbd s) (c_mem (k_con s1)) =
      Some (Z.of_nat (length out), mkKbd (kb_line_buf (k_kbd s)) 0 0, m') →
    syscall_run cr3 saved rootfs tr r conts s1 = Some (mkMachine (set_mem m' (set_kbd (mkKbd (kb_line_buf (k_kbd s)) 0 0) s1))
      (fresh (k_tab s1) conts) UserMode)) as Hrun.
  { intros s1 m' Hk E. unfold syscall_run, syscall_dispatch. rewrite Hr. cbn [Z.eqb Pos.eqb]. unfold read_test, keyboard_has_line.
    rewrite Hk, (ho_done _ _ Hh), He. cbn [Z.b2z Z.eqb]. unfold read_line_ret. rewrite Hk, E. reflexivity. }
  destruct (Hread _ (changes_only_refl _ _)) as (m0 & E0 & Hc0 & Hb0). eexists. split; [exact (Hrun s m0 eq_refl E0)|].
  intros m Hc. destruct (Hread m Hc) as (m1 & E1 & Hc1 & Hb1). exists m1. split; [exact (Hrun (set_mem m s) m1 eq_refl E1)|].
  split.
  - intros a Ha Hn. destruct (decide (Exists (λ i, phi (r_ebx r + Z.of_nat i) = a) (seq 0 (length out)))) as [Hin|Hout].
    + apply Exists_exists in Hin as (i & Hi & <-). apply elem_of_seq in Hi.
      destruct (lookup_lt_is_Some_2 out i) as [b Hbi]; [lia|]. unfold machine_mem. cbn. by rewrite (Hb1 i b Hbi), (Hb0 i b Hbi).
    + assert (¬ image (within (r_ebx r) (Z.of_nat (length out))) phi a) as Himg.
      { intros (va & Hva & <-). apply Hout, Exists_exists. exists (Z.to_nat (va - r_ebx r)). unfold within in Hva.
        split; [apply elem_of_seq; lia|]. f_equal. lia. }
      unfold machine_mem. cbn. rewrite (Hc1 a Ha Himg), (Hc0 a Ha Himg). by apply Hc.
  - eapply changes_only_mono; [|exact Hc1]. intros a (va & Hva & <-). apply Hown. unfold within, out in *.
    rewrite length_take in Hva. lia.
Qed.

(** SYS_READ with a pointer to the kernel's own memory writes the character
    typed there: the code does not check, and such a call is no step of the
    machine. *)
Theorem sys_read_reaches_variables own conts cr3 saved rootfs tr r s ch l pa :
  holds (k_kbd s) (mkLine (ch :: l) true) → is_u8 ch → r_eax r = SYS_READ → r_ecx r = 1 → is_u32 (r_ebx r) → is_u32 pa →
  walk (c_mem (k_con s)) cr3 (r_ebx r) = Some pa → own pa → ld8 (c_mem (k_con s)) pa ≠ ch →
  (∃ s', syscall_dispatch cr3 saved rootfs tr r s = Some (Return s' (set_eax 1 r)) ∧ ld8 (c_mem (k_con s')) pa = ch) ∧
  ∀ M', ¬ does own (syscall_run cr3 saved rootfs tr r conts) s M'.
Proof.
  intros [Ha Hl Hb Ht Hd] Hch Hr Hx Hbx Hpa Hw Hown Hne. cbn [text entered] in *.
  assert (syscall_dispatch cr3 saved rootfs tr r s = Some (Return
    (set_mem (st8 (c_mem (k_con s)) pa ch) (set_kbd (mkKbd (kb_line_buf (k_kbd s)) 0 0) s)) (set_eax 1 r))) as E.
  { unfold syscall_dispatch. rewrite Hr. cbn [Z.eqb Pos.eqb]. unfold read_test, keyboard_has_line. rewrite Hd. cbn [Z.b2z Z.eqb].
    unfold read_line_ret, keyboard_read_line. rewrite Hx, Hl. cbn [length] in *.
    assert ((if 1 <? Z.of_nat (S (length l)) then 1 else Z.of_nat (S (length l))) = 1) as -> by (destruct (Z.ltb_spec 1 (Z.of_nat (S (length l)))); lia).
    rewrite for_range_cons by lia. change (Z.to_nat 0) with O.
    assert (kb_line_buf (k_kbd s) !! O = Some ch) as ->.
    { rewrite <- (lookup_take_lt _ (S (length l))), Ht by lia. reflexivity. }
    rewrite bind_Some. unfold kst8. rewrite Z.add_0_r, u32_small, Hw by exact Hbx. rewrite !bind_Some, for_range_nil by lia. reflexivity. }
  split.
  - eexists. split; [exact E|]. cbn. rewrite ld8_st8, decide_True by done. by apply u8_small.
  - intros M' Hdo. pose proof (does_memory _ _ _ _ Hdo) as Hc. destruct Hdo as [Hrun _]. unfold syscall_run in Hrun.
    rewrite E, bind_Some in Hrun. cbn [settle landed] in Hrun. injection Hrun as <-. unfold machine_mem in Hc. cbn in Hc.
    apply Hne. rewrite <- (Hc pa Hpa); [|tauto]. rewrite ld8_st8, decide_True by done. by apply u8_small.
Qed.

(** C22: SYS_READ returns as soon as the process finds a line ended with
    Enter, whether on entry, after schedule or after hlt: the buffer holds the
    line cut to the size given, eax its length, the keyboard starts a new line.
    Without such a line it never returns: it goes to the next READY process or,
    when there is none, waits in hlt.  The buffer
    is in memory that is not the kernel's own: the variables and the kernel
    stacks are not in the memory of the model. *)
Theorem sys_read_correct cr3 saved rootfs tr r s c l phi :
  kinv s → on_cpu (k_tab s) → current (k_tab s) = Some c → holds (k_kbd s) l → Forall (λ b, is_u8 b) (text l) →
  0 <= r_ebx r → 0 <= r_ecx r → r_ebx r + r_ecx r <= 4294967296 →
  vmapped cr3 (within (r_ebx r) (r_ecx r)) phi (c_mem (k_con s)) → r_eax r = SYS_READ →
  let call := syscall_dispatch cr3 saved rootfs tr r s in
  let out := take (Z.to_nat (r_ecx r)) (text l) in
  (entered l = true → ∀ o, o = call ∨ o = resume cr3 saved (ReadSched r) s ∨ o = resume cr3 saved (ReadHalt r) s →
     ∃ s', o = Some (Return s' (set_eax (Z.of_nat (length out)) r)) ∧
       bytes_at cr3 (c_mem (k_con s')) (r_ebx r) out ∧ holds (k_kbd s') (mkLine [] false) ∧ k_tab s' = k_tab s ∧
       changes_only (image (within (r_ebx r) (r_ecx r)) phi) (c_mem (k_con s)) (c_mem (k_con s'))) ∧
  (entered l = false →
     (∃ o, call = Some o ∧ resume cr3 saved (ReadHalt r) s = Some o ∧ blocks s c (ReadSched r) (ReadHalt r) o) ∧
     resume cr3 saved (ReadSched r) s = Some (Halt s (ReadHalt r))).
Proof.
  intros Hk Hon Hc Hh Hu Hb Hm Hfit Hv Hr. cbv zeta.
  assert (syscall_dispatch cr3 saved rootfs tr r s = read_test cr3 saved r s) as -> by (unfold syscall_dispatch; by rewrite Hr).
  pose proof (ho_done _ _ Hh) as Hd. cbn [resume]. unfold read_test, read_rest, keyboard_has_line. rewrite Hd.
  split; intros He; rewrite He; cbn [Z.b2z Z.eqb].
  - destruct (keyboard_read_line_spec cr3 (r_ebx r) (r_ecx r) (k_kbd s) l (c_mem (k_con s)) phi Hh Hm Hb Hfit Hv Hu)
      as (k' & m' & Hread & Hh' & Hby & Hch).
    assert (read_line_ret cr3 r s = Some (Return (set_mem m' (set_kbd k' s))
      (set_eax (Z.of_nat (length (take (Z.to_nat (r_ecx r)) (text l)))) r))) as Hret
      by (unfold read_line_ret; by rewrite Hread).
    intros o Ho. exists (set_mem m' (set_kbd k' s)). rewrite Hret in Ho. split; [naive_solver|]. by split_and!.
  - split; [|done]. destruct (call_schedule_blocks saved (ReadSched r) (ReadHalt r) (read_rest cr3 r) s c Hk Hon Hc I)
      as (o & Ho & Hbl); [unfold read_rest, keyboard_has_line; by rewrite Hd, He|]. unfold read_rest, keyboard_has_line in Ho. by exists o.
Qed.

(** C23: SYS_WAIT returns 0 as soon as the process finds that no live process
    has the pid, whether on entry, after schedule or after hlt.  While one has
    it, it never returns: it goes to the next READY process or, when there is
    none, waits in hlt.  A process that waits for itself never returns. *)
Theorem sys_wait_correct cr3 saved rootfs tr r s c :
  kinv s → on_cpu (k_tab s) → current (k_tab s) = Some c → r_eax r = SYS_WAIT →
  let call := syscall_dispatch cr3 saved rootfs tr r s in
  let alive_pid := ∃ p, p ∈ live (procs (k_tab s)) ∧ pid p = r_ebx r in
  (¬ alive_pid → ∀ o, o = call ∨ o = resume cr3 saved (WaitSched r) s ∨ o = resume cr3 saved (WaitHalt r) s →
     o = Some (Return s (set_eax 0 r))) ∧
  (alive_pid →
     (∃ o, call = Some o ∧ resume cr3 saved (WaitHalt r) s = Some o ∧ blocks s c (WaitSched r) (WaitHalt r) o) ∧
     resume cr3 saved (WaitSched r) s = Some (Halt s (WaitHalt r))) ∧
  (∀ p, procs (k_tab s) !! c = Some p → pid p = r_ebx r → alive_pid).
Proof.
  intros Hk Hon Hc Hr. cbv zeta.
  assert (syscall_dispatch cr3 saved rootfs tr r s = wait_test saved r s) as -> by (unfold syscall_dispatch; by rewrite Hr).
  assert (bool_decide (Exists (λ p, pid p = r_ebx r ∧ state p ≠ PROC_STATE_DEAD) (procs (k_tab s))) = true ↔
    ∃ p, p ∈ live (procs (k_tab s)) ∧ pid p = r_ebx r) as Hal.
  { rewrite bool_decide_eq_true, Exists_exists. unfold live. setoid_rewrite list_elem_of_filter. naive_solver. }
  cbn [resume]. unfold wait_test, wait_rest. rewrite (process_is_alive_spec _ _ (ki_tab _ Hk)), !bind_Some.
  destruct (bool_decide _) eqn:Hb; cbn [Z.eqb].
  - split; [intros Hno; by destruct Hno; apply Hal|]. split; [intros _|intros; by apply Hal]. split; [|done].
    destruct (call_schedule_blocks saved (WaitSched r) (WaitHalt r) (wait_rest r) s c Hk Hon Hc I) as (o & Ho & Hbl);
      [unfold wait_rest; by rewrite (process_is_alive_spec _ _ (ki_tab _ Hk)), Hb|]. unfold wait_rest in Ho. by exists o.
  - split; [naive_solver|]. split; [intros Ha; by apply Hal in Ha|].
    intros p Hp Hpid. exists p. split; [|done]. apply list_elem_of_filter. split; [|by eapply list_elem_of_lookup_2].
    rewrite (Hon _ _ Hc Hp). done.
Qed.

(** C24: SYS_EXIT never returns: the process is DEAD, and the processor goes to
    the next READY process or, when there is none, stops. *)
Theorem sys_exit_correct cr3 saved rootfs tr r s c p :
  kinv s → on_cpu (k_tab s) → current (k_tab s) = Some c → procs (k_tab s) !! c = Some p → r_eax r = SYS_EXIT →
  ∃ o, syscall_dispatch cr3 saved rootfs tr r s = Some o ∧
    (∃ q, procs (k_tab (outcome_state o)) !! c = Some q ∧ state q = PROC_STATE_DEAD ∧ pid q = pid p) ∧
    ((∃ s' sw i, o = Switch s' sw Exited ∧ current (k_tab s') = Some i ∧ ready_at (k_tab s) i ∧ on_cpu (k_tab s')) ∨
     ¬ any_ready s ∧ ∃ s', o = Stop s').
Proof.
  intros Hk Hon Hc Hp Hr. unfold syscall_dispatch. rewrite Hr. cbn [Z.eqb Pos.eqb].
  assert (exit_current (k_tab s) = Some (mkTab (<[c := set_state PROC_STATE_DEAD p]> (procs (k_tab s))) (current (k_tab s)) (next_pid (k_tab s)))) as He
    by (unfold exit_current, process_current; by rewrite Hc, bind_Some, (proc_set_at _ _ _ _ Hp), Hc).
  rewrite He, bind_Some. destruct (exit_wf _ _ (ki_tab _ Hk) He) as (Hw & _ & Hrest). set (t := mkTab _ _ _) in *.
  assert (procs t !! c = Some (set_state PROC_STATE_DEAD p)) as Hp1 by (apply list_lookup_insert_eq; by eapply lookup_lt_Some).
  assert (∀ i, ready_at (k_tab s) i ↔ ready_at t i) as Hrd.
  { intros i. unfold ready_at. destruct (decide (i = c)) as [->|Hne].
    - rewrite Hp1, Hp. pose proof (Hon _ _ Hc Hp). unfold ready. split; intros (q & [= <-] & Hq); simpl in *; congruence.
    - by rewrite (Hrest i) by congruence. }
  unfold call_schedule. cbn [k_tab set_tab]. destruct (schedule_spec saved t c Hw Hc) as [(d & i & q & t' & Hn & Hq & Hsw & ->)|[Hno ->]];
    rewrite bind_Some; cbv beta iota; eexists; (split; [reflexivity|]); cbn [outcome_state k_tab set_tab].
  - split; [eexists; split; [by apply (sw_old _ _ _ _ _ Hsw)|done]|]. left. do 2 eexists. exists i. split; [reflexivity|].
    split; [apply Hsw|]. split; [apply Hrd, Hn|]. intros c' q' Hc' Hq'. cbn in Hc', Hq'. rewrite (sw_current _ _ _ _ _ Hsw) in Hc'.
    simplify_eq. rewrite (sw_new _ _ _ _ _ Hsw _ Hq) in Hq'. by simplify_eq.
  - split; [eexists; split; [exact Hp1|done]|]. right. split; [|by eexists]. intros [i Hi]. by apply (Hno i), Hrd.
Qed.

(** C21: an interrupt of line [irq] is acknowledged on every path, also when
    the handler switches to another process: the controllers are as before its
    delivery.  The keyboard's line edits the line and echoes; the timer's gives
    the processor to the next READY process if it interrupted user mode; apart
    from that the process table stays as it is.  Any other number, the
    processor's exceptions among them, changes nothing. *)
Theorem interrupt_handler_correct cr3 saved dev irq cs s c l t ps0 ps :
  kinv s → on_cpu (k_tab s) → current (k_tab s) = Some c → holds (k_kbd s) l →
  fb_mapped cr3 (c_mem (k_con s)) → shows (k_con s) t → term_wf t →
  0 <= irq < 16 → observe pics_step ps0 (c_ports (k_con s)) = deliver irq ps → idle ps →
  let scan := u8 (dev (c_ports (k_con s)) KBD_DATA_PORT) in
  (∃ o, interrupt_handler cr3 saved dev (32 + irq) cs s = Some o ∧
    observe pics_step ps0 (c_ports (k_con (outcome_state o))) = ps ∧
    (if irq =? 1 then ∃ s', o = Back s' ∧ k_tab s' = k_tab s ∧ holds (k_kbd s') (press l scan) ∧
       shows (k_con s') (term_write t (press_echo l scan))
     else k_kbd (outcome_state o) = k_kbd s ∧ c_mem (k_con (outcome_state o)) = c_mem (k_con s)) ∧
    (if (irq =? 0) && (Z.land cs 3 =? 3)
     then (∃ s' sw i, o = Switch s' sw Preempted ∧ sw_save sw = c ∧ current (k_tab s') = Some i ∧ ready_at (k_tab s) i) ∨
          ¬ any_ready s ∧ ∃ s', o = Back s' ∧ k_tab s' = k_tab s
     else ∃ s', o = Back s' ∧ k_tab s' = k_tab s)) ∧
  (∀ n, n < 32 ∨ 47 < n → interrupt_handler cr3 saved dev n cs s = Some (Back s)).
Proof.
  intros Hk Hon Hc Hh Hf Hs Ht Hi Hd Hid. cbv zeta. split.
  2:{ intros n Hn. unfold interrupt_handler. rewrite (proj2 (Z.eqb_neq n 33)), bind_Some, (proj2 (Z.eqb_neq n 32)) by lia.
      cbn [andb]. destruct (Z.leb_spec 32 n), (Z.leb_spec n 47); try lia; done. }
  unfold interrupt_handler. replace (32 + irq =? 33) with (irq =? 1) by zcases. replace (32 + irq =? 32) with (irq =? 0) by zcases.
  rewrite (proj2 (Z.leb_le 32 (32 + irq))), (proj2 (Z.leb_le (32 + irq) 47)) by lia. cbn [andb].
  destruct (Z.eqb_spec irq 1) as [->|Hne].
  - destruct (keyboard_handler_spec cr3 dev (k_kbd s) (k_con s) l t Hf Hs Ht Hh) as (k' & c' & -> & Hh' & [Hm Hp Hsh]).
    rewrite !bind_Some. cbn [andb Z.eqb]. eexists. split; [reflexivity|]. cbn [outcome_state k_con set_con c_ports].
    split; [|split; eexists; (split; [reflexivity|]); done].
    apply (deliver_acknowledge ps 1); [lia| |exact Hid]. rewrite Hp, pics_skip; [exact Hd|].
    constructor; [done|]. destruct (press_echo l _); [constructor|]. unfold cursor_events. repeat (apply Forall_cons; split; [auto|]). constructor.
  - rewrite bind_Some. pose proof (deliver_acknowledge ps irq _ _ Hi Hd Hid) as Hack.
    set (s1 := set_con _ s). assert (kinv s1) as Hk1 by (by eapply kinv_same; [..|apply Hk|exact Hk]).
    destruct ((irq =? 0) && (Z.land cs 3 =? 3)).
    + destruct (ki_current _ Hk) as (c' & p & Hc' & Hp & _). assert (c' = c) as -> by congruence.
      destruct (call_schedule_spec saved Preempted (λ s, Some (Back s)) s1 c p Hk1 Hc Hp (λ _, I))
        as [(s' & sw & -> & He & Ekb & Ecn)|[Hno ->]]; eexists; (split; [reflexivity|]); cbn [outcome_state].
      * rewrite Ekb, Ecn. split; [exact Hack|]. split; [done|]. left. destruct He as (_ & _ & Hsv & (i & Hcur & _ & Hr) & _).
        exists s', sw, i. by split_and!.
      * split; [exact Hack|]. split; [done|]. right. split; [intros [i Hri]; by apply (Hno i)|]. by exists s1.
    + eexists. split; [reflexivity|]. cbn [outcome_state]. split; [exact Hack|]. split; [done|]. by exists s1.
Qed.
End properties.

(** ** Witnesses *)

(** The example table, the console of the screen driver, any allocator. *)
Definition example_kernel (k : kbd) (c : console) (st : pfa) : kernel pfa :=
  mkKernel example_tab k c st (tss_set_kernel_stack 0x2000 tss_zero).

Lemma example_on_cpu : on_cpu example_tab.
Proof. intros c p Hc Hp. vm_compute in Hc. injection Hc as <-. vm_compute in Hp. by injection Hp as <-. Qed.

Lemma example_kinv k c st l : holds k l → kinv (example_kernel k c st).
Proof.
  intros Hl. split; [exact example_tab_wf|vm_compute; reflexivity| |by exists l].
  exists 0%nat. eexists. split; [vm_compute; reflexivity|]. split; vm_compute; reflexivity.
Qed.

(** After the start of slot 0, a yield brings slot 1 to the processor, wherever
    the kernel's variables are. *)
Lemma example_yield kvars : ∃ (M0 M : machine pfa), booted M0 ∧ kstep kvars (mounted 0x200000) 0 M0 M ∧
  current (k_tab (m_kernel M)) = Some 1%nat.
Proof.
  destruct example_kenv as (_ & st & _). destruct example_console as (c & _). destruct two_tab_wf as [Hw Hpos].
  destruct example_start as [Hc Hs]. destruct example_switch as (t' & sw & Hsw & Hcur & _).
  set (k0 := mkKbd (replicate 128 0) 0 0). set (regs := mkRegs 0 0 0 0 0 0 SYS_YIELD).
  set (M0 := mkMachine (mkKernel example_tab k0 c st (tss_set_kernel_stack 0x2000 tss_zero)) (λ _, Preempted) UserMode).
  assert (booted M0) as Hb by (exists two_tab, example_tab, 0x2000, 0x1FD4, 0x2000, c, st, tss_zero; by split_and!).
  assert (∀ c', syscall_run 0x2000 0x1F00 (mounted 0x200000) 0 regs (λ _, Preempted)
      (mkKernel example_tab k0 c' st (tss_set_kernel_stack 0x2000 tss_zero)) =
    Some (mkMachine (mkKernel t' k0 c' st (tss_set_kernel_stack (sw_esp0 sw) (tss_set_kernel_stack 0x2000 tss_zero)))
      (put (sw_save sw) (Yielded regs) (fresh example_tab (λ _, Preempted))) UserMode)) as Hrun.
  { intros c'. unfold syscall_run, syscall_dispatch, call_schedule. cbn [r_eax regs Z.eqb Pos.eqb k_tab]. rewrite Hsw.
    rewrite !bind_Some. cbn [settle k_tab]. rewrite Hcur, bind_Some.
    assert (put (sw_save sw) (Yielded regs) (fresh example_tab (λ _, Preempted)) 1 = Preempted) as Hp.
    { vm_compute in Hsw. injection Hsw as <- <-. reflexivity. }
    rewrite Hp. reflexivity. }
  eexists M0, _. split; [exact Hb|]. split.
  - eapply (step_syscall _ _ _ 0x2000 0x1F00 regs); [vm_compute; reflexivity|vm_compute; reflexivity|].
    split; [apply Hrun|]. intros m Hm. exists m. split; [apply Hrun|]. split; [exact Hm|apply changes_only_refl].
  - exact Hcur.
Qed.



(** A line typed before the call; no line: slot 0 blocks. *)
Definition typed : kbd := mkKbd ([108; 115] ++ replicate 126 0) 2 1.
Lemma typed_holds : holds typed (mkLine [108; 115] true).
Proof. split; cbn; done || lia. Qed.

Lemma sys_read_correct_witness : ∃ (s s' : kernel pfa),
  syscall_dispatch 0x8000 0 (mounted 0x100000) 0 (mkRegs 0 0 0 0 127 0x300000 SYS_READ) s =
    Some (Return s' (mkRegs 0 0 0 0 127 0x300000 2)) ∧
  bytes_at 0x8000 (c_mem (k_con s')) 0x300000 [108; 115].
Proof.
  destruct example_kenv as (_ & st & _). destruct example_console as (c & _ & Hk0 & _).
  assert (vmapped 0x8000 (within 0x300000 127) (λ a, a) (c_mem c)) as Hv.
  { unfold within. split; [|intros; split; lia|intros; lia]. intros m2 Hc2 va Hva.
    apply Hk0; [|lia|unfold within; lia]. eapply changes_only_mono; [|exact Hc2]. unfold within. intros a (va' & ? & <-). lia. }
  destruct (sys_read_correct 0x8000 0 (mounted 0x100000) 0 (mkRegs 0 0 0 0 127 0x300000 SYS_READ) (example_kernel typed c st) 0
    (mkLine [108; 115] true) (λ a, a)) as [Hret _];
    [by eapply example_kinv, typed_holds|exact example_on_cpu|vm_compute; reflexivity|exact typed_holds|
     repeat constructor; lia|cbn; lia..|exact Hv|reflexivity|].
  destruct (Hret eq_refl _ (or_introl eq_refl)) as (s' & H1 & H2 & _). by exists (example_kernel typed c st), s'.
Defined.

(** Slot 0 waits for pid 2, slot 1, which gets the processor; nobody has pid 7. *)
Lemma sys_wait_correct_witness : ∃ (s : kernel pfa),
  syscall_dispatch 0x8000 0 (mounted 0x100000) 0 (mkRegs 0 0 0 0 0 7 SYS_WAIT) s =
    Some (Return s (mkRegs 0 0 0 0 0 7 0)) ∧
  ∃ o, syscall_dispatch 0x8000 0 (mounted 0x100000) 0 (mkRegs 0 0 0 0 0 2 SYS_WAIT) s = Some o ∧
    blocks s 0 (WaitSched (mkRegs 0 0 0 0 0 2 SYS_WAIT)) (WaitHalt (mkRegs 0 0 0 0 0 2 SYS_WAIT)) o.
Proof.
  destruct example_kenv as (_ & st & _). destruct example_console as (c & _). set (s := example_kernel empty_kbd c st).
  assert (kinv s) as Hk by (eapply example_kinv, empty_kbd_holds). exists s. split.
  - destruct (sys_wait_correct 0x8000 0 (mounted 0x100000) 0 (mkRegs 0 0 0 0 0 7 SYS_WAIT) s 0 Hk example_on_cpu) as [Hret _];
      [vm_compute; reflexivity|reflexivity|]. apply Hret; [|by left].
    intros (p & Hp & Hpid). assert (Forall (λ q, pid q ≠ 7) (live (procs example_tab))) as HF
      by (vm_compute; repeat constructor; discriminate). rewrite Forall_forall in HF. by apply (HF p Hp).
  - destruct (sys_wait_correct 0x8000 0 (mounted 0x100000) 0 (mkRegs 0 0 0 0 0 2 SYS_WAIT) s 0 Hk example_on_cpu) as (_ & Hb & _);
      [vm_compute; reflexivity|reflexivity|]. destruct Hb as [(o & H1 & _ & H2) _]; [|exists o; split; [exact H1|exact H2]].
    eexists. split; [apply (list_elem_of_lookup_2 _ 1); vm_compute; reflexivity|reflexivity].
Defined.

Lemma sys_exit_correct_witness : ∃ (s : kernel pfa) o,
  syscall_dispatch 0x8000 0 (mounted 0x100000) 0 (mkRegs 0 0 0 0 0 0 SYS_EXIT) s = Some o ∧
  ∃ q, procs (k_tab (outcome_state o)) !! 0%nat = Some q ∧ state q = PROC_STATE_DEAD.
Proof.
  destruct example_kenv as (_ & st & _). destruct example_console as (c & _).
  assert (∃ p, procs example_tab !! 0%nat = Some p) as [p Hp] by (eexists; vm_compute; reflexivity).
  destruct (sys_exit_correct 0x8000 0 (mounted 0x100000) 0 (mkRegs 0 0 0 0 0 0 SYS_EXIT) (example_kernel empty_kbd c st) 0 p)
    as (o & Ho & (q & H1 & H2 & _) & _);
    [eapply example_kinv, empty_kbd_holds|exact example_on_cpu|vm_compute; reflexivity|exact Hp|reflexivity|].
  exists (example_kernel empty_kbd c st), o. split; [exact Ho|]. exists q. split; [exact H1|exact H2].
Defined.

(** A timer tick in user mode. *)
Lemma interrupt_handler_correct_witness : ∃ (s : kernel pfa) o,
  interrupt_handler 0x8000 0 (λ _ _, 0) 32 0x1B s = Some o ∧
  idle (observe pics_step (serve 0 reset_pic, reset_pic) (c_ports (k_con (outcome_state o)))).
Proof.
  destruct example_kenv as (_ & st & _). destruct example_console as (c0 & Hf & _).
  destruct (fb_clear_spec 0x8000 c0 Hf) as (c & _ & [Hm Hp Hs]).
  set (c' := mkCon (c_mem c) (fb_cursor c) []).
  destruct (interrupt_handler_correct 0x8000 0 (λ _ _, 0) 0 0x1B (example_kernel empty_kbd c' st) 0 (mkLine [] false)
    (mkTerm (replicate 2000 blank) 0) (serve 0 reset_pic, reset_pic) (reset_pic, reset_pic)) as [(o & H1 & H2 & _) _];
    [eapply example_kinv, empty_kbd_holds|exact example_on_cpu|vm_compute; reflexivity|exact empty_kbd_holds|
     by eapply kmapped_changes|exact Hs|split; [apply length_replicate|done]|lia|reflexivity|by split|].
  exists (example_kernel empty_kbd c' st), o. split; [exact H1|]. rewrite H2. by split.
Defined.
