(* ===== verification/Kheap.v ===== *)
(** * kheap.c: the kernel's heap

    The allocator keeps its free blocks in a circular list sorted by address,
    each block headed by two words (the next block and the size in units of 8
    bytes); [base] is a block of size 0 that is always on the list.  The model
    runs on raw memory through the page tables and on the bitmap allocator of
    Pfa.v.

    [chain] describes the list in memory, [freed] what kfree does to the list,
    and [heap_ok] the heap with the blocks handed out. *)

From stdpp Require Import prelude gmap sorting.
From Stdlib Require Import ZArith Lia.
From S2P Require Import Prelude Memory FrameAlloc Pfa Paging.

(** ** The code *)

(** The fields of a [Header]: [s.next] at its address, [s.units] 4 bytes on. *)
Abbreviation sizeof_Header := 8.

Record heap := mkHeap {
  h_mem : mem;
  freep : Z;
  h_pfa : pfa
}.

Section code.
Context (cr3 base : Z).

Definition get_next (m : mem) (p : Z) : option Z := kld32 cr3 m p.
Definition get_units (m : mem) (p : Z) : option Z := kld32 cr3 m (p +ᵤ 4).
Definition set_next (m : mem) (p v : Z) : option mem := kst32 cr3 m p v.
Definition set_units (m : mem) (p v : Z) : option mem := kst32 cr3 m (p +ᵤ 4) v.

(** `p + n` of a pointer to headers. *)
Definition ptr_add (p n : Z) : Z := p +ᵤ sizeof_Header * n.

Definition kheap_init (h : heap) : option heap :=
  m ← set_next (h_mem h) base base;
  m ← set_units m base 0;
  Some (mkHeap m base (h_pfa h)).

(** The loop of kfree_internal that looks for the place of the block. *)
Definition place_step (m : mem) (block curr : Z) : option (Z + Z) :=
  n ← get_next m curr;
  if (curr <? block) && (block <? n) then Some (inr curr)
  else if (n <=? curr) && ((curr <? block) || (block <? n)) then Some (inr curr)
  else Some (inl n).

(** The first `if` after the loop: the block takes over the one after it when
    they touch, and points on. *)
Definition link_next (m : mem) (block curr : Z) : option mem :=
  bu ← get_units m block;
  cn ← get_next m curr;
  if ptr_add block bu =? cn then
    nu ← get_units m cn;
    m ← set_units m block (bu +ᵤ nu);
    cn ← get_next m curr;
    nn ← get_next m cn;
    set_next m block nn
  else set_next m block cn.

(** The second one: the one before takes over the block when they touch, or
    points to it. *)
Definition link_prev (m : mem) (block curr : Z) : option mem :=
  cu ← get_units m curr;
  if ptr_add curr cu =? block then
    bu ← get_units m block;
    m ← set_units m curr (cu +ᵤ bu);
    bn ← get_next m block;
    set_next m curr bn
  else set_next m curr block.

Definition kfree_internal (ptr : Z) (h : heap) : option heap :=
  if ptr =? 0 then Some h else
  let block := ptr -ᵤ sizeof_Header in
  h ← (if freep h =? 0 then kheap_init h else Some h);
  curr ← while (place_step (h_mem h) block) (freep h);
  m ← link_next (h_mem h) block curr;
  m ← link_prev m block curr;
  Some (mkHeap m curr (h_pfa h)).

Definition kfree (ptr : Z) (h : heap) : option heap := kfree_internal ptr h.

Definition morecore (units : Z) (h : heap) : option (Z * heap) :=
  let bytes := units *ᵤ sizeof_Header in
  let pages := ((bytes +ᵤ PAGE_SIZE) -ᵤ 1) / PAGE_SIZE in
  '(addr, st) ← pfa_alloc_contiguous pages (h_pfa h);
  if addr =? 0 then Some (0, mkHeap (h_mem h) (freep h) st) else
  m ← set_units (h_mem h) addr ((pages *ᵤ PAGE_SIZE) / sizeof_Header);
  h ← kfree_internal (ptr_add addr 1) (mkHeap m (freep h) st);
  Some (freep h, h).

(** One turn of the loop of kmalloc. *)
Definition malloc_step (units : Z) (s : heap * Z * Z) : option ((heap * Z * Z) + (Z * heap)) :=
  let '(h, prev, curr) := s in
  let m := h_mem h in
  cu ← get_units m curr;
  if units <=? cu then
    if cu =? units then
      n ← get_next m curr;
      m ← set_next m prev n;
      Some (inr (ptr_add curr 1, mkHeap m prev (h_pfa h)))
    else
      m ← set_units m curr (cu -ᵤ units);
      cu ← get_units m curr;
      let curr := ptr_add curr cu in
      m ← set_units m curr units;
      Some (inr (ptr_add curr 1, mkHeap m prev (h_pfa h)))
  else if curr =? freep h then
    '(r, h) ← morecore units h;
    if r =? 0 then Some (inr (0, h)) else
    let prev := freep h in
    curr ← get_next (h_mem h) prev;
    Some (inl (h, prev, curr))
  else
    n ← get_next m curr;
    Some (inl (h, curr, n)).

Definition malloc_units (bytes : Z) : Z :=
  ((bytes +ᵤ sizeof_Header) -ᵤ 1) / sizeof_Header +ᵤ 1.

Definition kmalloc (bytes : Z) (h : heap) : option (Z * heap) :=
  if bytes =? 0 then Some (0, h) else
  let units := malloc_units bytes in
  h ← (if freep h =? 0 then kheap_init h else Some h);
  let prev := freep h in
  curr ← get_next (h_mem h) prev;
  while (malloc_step units) (h, prev, curr).
End code.

(** ** The list in memory *)

(** A block: its address and its size in units. *)
Abbreviation node := (Z * Z)%type.

Definition first (ns : list node) (z : Z) : Z := match ns with [] => z | (a, _) :: _ => a end.

(** The blocks [ns] linked in this order, the last one to [z]. *)
Fixpoint chain (m : mem) (ns : list node) (z : Z) : Prop :=
  match ns with
  | [] => True
  | (a, u) :: ns' => ld32 m a = first ns' z ∧ ld32 m (a + 4) = u ∧ chain m ns' z
  end.

(** The bytes of a block, its header included. *)
Definition header (n : node) (x : Z) : Prop := within n.1 8 x.
Definition span (n : node) (x : Z) : Prop := within n.1 (8 * n.2) x.

(** In order, with room for the header, and not adjacent. *)
Definition before (n n' : node) : Prop := n.1 + 8 <= n'.1 ∧ n.1 + 8 * n.2 < n'.1.

Record node_ok (n : node) : Prop := {
  no_addr : 0 < n.1;
  no_units : 0 <= n.2;
  no_fits : n.1 + 8 <= 4294967296 ∧ n.1 + 8 * n.2 <= 4294967296
}.

Lemma first_app L R z : first (L ++ R) z = first L (first R z).
Proof. by destruct L as [|[]]. Qed.

Lemma chain_app m L R z : chain m (L ++ R) z ↔ chain m L (first R z) ∧ chain m R z.
Proof.
  induction L as [|[a u] L IH]; cbn [app chain]; [tauto|]. rewrite first_app, IH. tauto.
Qed.

Lemma chain_changes W m m' ns z : changes_only W m m' → Forall node_ok ns →
  (∀ n x, n ∈ ns → header n x → ¬ W x) → chain m ns z → chain m' ns z.
Proof.
  intros Hc HF. induction HF as [|[a u] ns [H0 _ [H8 _]] _ IH]; intros HW Hch; [done|].
  destruct Hch as (H1 & H2 & H3). cbn in H0, H8.
  assert (∀ x, within a 8 x → ld8 m' x = ld8 m x) as Heq.
  { intros x Hx. apply Hc; [unfold within in Hx; lia|]. apply (HW (a, u)); [apply list_elem_of_here|exact Hx]. }
  split; [|split; [|apply IH; [|exact H3]]].
  - rewrite <- H1. apply ld32_ext; [lia|]. intros x Hx. apply Heq. unfold within in *. lia.
  - rewrite <- H2. apply ld32_ext; [lia|]. intros x Hx. apply Heq. unfold within in *. lia.
  - intros n x Hn. apply HW. by apply list_elem_of_further.
Qed.

Lemma chain_lookup m ns z i a u : chain m ns z → ns !! i = Some (a, u) →
  ld32 m a = match ns !! S i with Some n => n.1 | None => z end ∧ ld32 m (a + 4) = u.
Proof.
  revert i. induction ns as [|[b w] ns IH]; intros i Hc Hi; [done|]. destruct Hc as (H1 & H2 & H3).
  destruct i as [|i]; simpl in Hi; simplify_eq.
  - split; [|done]. rewrite H1. by destruct ns as [|[]].
  - by apply (IH i).
Qed.

Lemma sorted_lookup ns i j n n' : StronglySorted before ns → ns !! i = Some n → ns !! j = Some n' → (i < j)%nat → before n n'.
Proof.
  intros Hs Hi Hj Hlt. rewrite <- (take_drop j ns) in Hs. eapply StronglySorted_app_1_elem_of; [exact Hs| |].
  - apply (list_elem_of_lookup_2 _ i). rewrite lookup_take_lt by lia. exact Hi.
  - apply (list_elem_of_lookup_2 _ 0). rewrite lookup_drop, Nat.add_0_r. exact Hj.
Qed.

(** The free list: linked in a circle, in order, in mapped memory. *)
Record ring (K : Z → Prop) (m : mem) (ns : list node) : Prop := {
  rg_ne : ns ≠ [];
  rg_ok : Forall node_ok ns;
  rg_sorted : StronglySorted before ns;
  rg_chain : chain m ns (first ns 0);
  rg_mapped : ∀ n x, n ∈ ns → header n x → K x
}.

(** The free bytes of a list of blocks. *)
Definition spans (ns : list node) (x : Z) : Prop := ∃ n, n ∈ ns ∧ span n x.

Lemma spans_app L R x : spans (L ++ R) x ↔ spans L x ∨ spans R x.
Proof. unfold spans. setoid_rewrite elem_of_app. naive_solver. Qed.
Lemma spans_cons n ns x : spans (n :: ns) x ↔ span n x ∨ spans ns x.
Proof. unfold spans. setoid_rewrite elem_of_cons. naive_solver. Qed.
Lemma spans_nil x : spans [] x ↔ False.
Proof. unfold spans. setoid_rewrite elem_of_nil. naive_solver. Qed.

Section spec.
Context (cr3 base : Z) (K : Z → Prop).

(** A header that can be read and written. *)
Definition hdr (a : Z) : Prop := 0 <= a ∧ a + 8 <= 4294967296 ∧ ∀ x, within a 8 x → K x.

Lemma get_next_ok m a : kmapped cr3 K m → hdr a → get_next cr3 m a = Some (ld32 m a).
Proof. intros Hk (H0 & H8 & HK). unfold get_next. eapply kld32_kmapped; [exact Hk|lia|]. unfold within in *. intros; apply HK; lia. Qed.

Lemma get_units_ok m a : kmapped cr3 K m → hdr a → get_units cr3 m a = Some (ld32 m (a + 4)).
Proof.
  intros Hk (H0 & H8 & HK). unfold get_units. rewrite u32_small by lia.
  eapply kld32_kmapped; [exact Hk|lia|]. unfold within in *. intros; apply HK; lia.
Qed.

Lemma set_next_ok m a v : kmapped cr3 K m → hdr a → is_u32 v →
  set_next cr3 m a v = Some (st32 m a v) ∧ kmapped cr3 K (st32 m a v) ∧
  changes_only (within a 8) m (st32 m a v) ∧ ld32 (st32 m a v) a = v ∧ ld32 (st32 m a v) (a + 4) = ld32 m (a + 4).
Proof.
  intros Hk (H0 & H8 & HK) Hv. unfold set_next. destruct (kst32_kmapped cr3 K m a v Hk) as [-> Hc];
    [lia|unfold within in *; intros; apply HK; lia|]. split; [done|]. split; [by eapply kmapped_changes|]. split.
  - intros x Hx Hn. apply ld8_st32; [lia|done|]. unfold within in *. lia.
  - split; [by apply ld32_st32_eq; lia|]. apply ld32_st32_ne; lia.
Qed.

Lemma set_units_ok m a v : kmapped cr3 K m → hdr a → is_u32 v →
  set_units cr3 m a v = Some (st32 m (a + 4) v) ∧ kmapped cr3 K (st32 m (a + 4) v) ∧
  changes_only (within a 8) m (st32 m (a + 4) v) ∧ ld32 (st32 m (a + 4) v) (a + 4) = v ∧ ld32 (st32 m (a + 4) v) a = ld32 m a.
Proof.
  intros Hk (H0 & H8 & HK) Hv. unfold set_units. rewrite u32_small by lia.
  destruct (kst32_kmapped cr3 K m (a + 4) v Hk) as [-> Hc]; [lia|unfold within in *; intros; apply HK; lia|].
  split; [done|]. split; [by eapply kmapped_changes|]. split.
  - intros x Hx Hn. apply ld8_st32; [lia|done|]. unfold within in *. lia.
  - split; [by apply ld32_st32_eq; lia|]. apply ld32_st32_ne; lia.
Qed.

Lemma ring_hdr m ns i n : ring K m ns → ns !! i = Some n → hdr n.1.
Proof.
  intros Hr Hi. pose proof (list_elem_of_lookup_2 _ _ _ Hi) as He.
  pose proof (proj1 (Forall_forall _ _) (rg_ok _ _ _ Hr) _ He) as [H0 _ H8]. split; [lia|]. split; [lia|].
  intros x Hx. by eapply (rg_mapped _ _ _ Hr).
Qed.

(** ** The place of a block *)

(** The node a block goes after: the last one below it, or the last of all. *)
Definition place (L R : list node) (c : node) : Prop := last L = Some c ∨ L = [] ∧ last R = Some c.

Lemma place_step_spec m L R i n b : kmapped cr3 K m → ring K m (L ++ R) → (L ++ R) !! i = Some n →
  Forall (λ n, n.1 < b) L → Forall (λ n, b < n.1) R →
  (place_step cr3 m b n.1 = Some (inr n.1) ∧ place L R n) ∨
  (∃ n', place_step cr3 m b n.1 = Some (inl n'.1) ∧ (L ++ R) !! (S i mod length (L ++ R))%nat = Some n' ∧
    (Z.of_nat i + 1) mod Z.of_nat (length (L ++ R)) ≠ Z.of_nat (length L) mod Z.of_nat (length (L ++ R))).
Proof.
  intros Hk Hr Hi HL HR. set (ns := L ++ R) in *. pose proof (lookup_lt_Some _ _ _ Hi) as Hlt.
  destruct n as [a u]. destruct (chain_lookup m ns _ i a u (rg_chain _ _ _ Hr) Hi) as [Hnext _].
  unfold place_step. cbn [fst]. rewrite (get_next_ok m a Hk (ring_hdr _ _ _ _ Hr Hi)), bind_Some, Hnext.
  assert (∀ j q, ns !! j = Some q → (j < length L)%nat ∧ q.1 < b ∨ (length L <= j)%nat ∧ b < q.1) as Hside.
  { intros j q Hj. apply lookup_app_Some in Hj as [Hj|[Hge Hj]].
    - left. split; [by eapply lookup_lt_Some|]. by eapply (Forall_lookup_1 _ _ _ _ HL).
    - right. split; [exact Hge|]. by eapply (Forall_lookup_1 _ _ _ _ HR). }
  assert (∀ j q, ns !! j = Some q → (i < j)%nat → a < q.1) as Hup.
  { intros j q Hj Hij. destruct (sorted_lookup _ _ _ _ _ (rg_sorted _ _ _ Hr) Hi Hj Hij) as [? _]. cbn in *. lia. }
  destruct (lookup_lt_is_Some_2 ns 0) as [n0 H0]; [lia|].
  assert (first ns 0 = n0.1) as -> by (clear - H0; destruct ns as [|[]]; simpl in *; by simplify_eq).
  assert (n0.1 <= a) as H0a.
  { destruct i as [|i]; [by simplify_eq|]. destruct (sorted_lookup _ _ _ _ _ (rg_sorted _ _ _ Hr) H0 Hi) as [? _]; [lia|]. cbn in *. lia. }
  assert (length ns = (length L + length R)%nat) as Hlen by apply length_app.
  assert (∀ k, i = (k - 1)%nat → k = length L → (0 < k)%nat → last L = Some (a, u)) as HlastL.
  { intros k -> -> Hk0. rewrite last_lookup. rewrite <- (lookup_app_l L R) by lia. by rewrite <- Nat.sub_1_r. }
  destruct (ns !! S i) as [[a' u']|] eqn:Hsi; cbn [fst].
  - pose proof (Hup _ _ Hsi ltac:(lia)) as Haa. cbn in Haa. pose proof (lookup_lt_Some _ _ _ Hsi) as HSi.
    assert ((a' <=? a) = false) as -> by (apply Z.leb_gt; lia). cbn [andb].
    destruct (Hside _ _ Hi) as [[HiL Hab]|[HiL Hab]], (Hside _ _ Hsi) as [[HsL Hsb]|[HsL Hsb]]; cbn in Hab, Hsb; try lia;
      repeat ztest; cbn [andb].
    + right. exists (a', u'). rewrite Nat.mod_small by lia. split_and!; [done|done|].
      rewrite (Z.mod_small (_ + 1)) by lia. destruct (decide (length R = 0%nat)).
      * rewrite Hlen, e, Nat.add_0_r, Z_mod_same_full. lia.
      * rewrite Z.mod_small by lia. lia.
    + left. split; [done|]. left. apply (HlastL (S i)); lia.
    + right. exists (a', u'). rewrite Nat.mod_small by lia. split_and!; [done|done|]. rewrite !Z.mod_small by lia. lia.
  - apply lookup_ge_None in Hsi. assert (length ns = S i) as Hn by lia.
    rewrite (proj2 (Z.leb_le n0.1 a) H0a). cbn [andb].
    destruct (Hside _ _ Hi) as [[HiL Hab]|[HiL Hab]], (Hside _ _ H0) as [[HsL Hsb]|[HsL Hsb]]; cbn in Hab; try lia;
      repeat ztest; cbn [andb orb].
    + left. split; [done|]. left. apply (HlastL (S i)); lia.
    + right. exists n0. rewrite <- Hn, Nat.Div0.mod_same by lia. split_and!; [done|done|].
      replace (Z.of_nat i + 1) with (Z.of_nat (length ns)) by lia. rewrite Z_mod_same_full, Z.mod_small by lia. lia.
    + left. split; [done|]. right. assert (L = []) as -> by (destruct L; [done|simpl in *; lia]). split; [done|].
      rewrite last_lookup. subst ns. cbn [app] in *. by rewrite Hn.
Qed.

(** The search finds the place from any node of the list. *)
Lemma place_search m L R n b : kmapped cr3 K m → ring K m (L ++ R) → n ∈ L ++ R →
  Forall (λ n, n.1 < b) L → Forall (λ n, b < n.1) R → Z.of_nat (length (L ++ R)) < 8589934592 →
  ∃ c, while (place_step cr3 m b) n.1 = Some c.1 ∧ place L R c.
Proof.
  intros Hk Hr Hn HL HR Hlen. apply list_elem_of_lookup in Hn as [i0 Hi0]. set (ns := L ++ R) in *.
  set (len := Z.of_nat (length ns)).
  assert (0 < len) as Hpos by (subst len; pose proof (lookup_lt_Some _ _ _ Hi0); lia).
  set (rank := λ i : nat, (Z.of_nat (length L) - 1 - Z.of_nat i) mod len).
  destruct (while_rank (λ k x, ∃ i q, ns !! i = Some q ∧ x = q.1 ∧ k = rank i) (λ x, ∃ c, x = c.1 ∧ place L R c)
    (place_step cr3 m b) (rank i0) n.1) as (x & Hx & c & -> & Hc); [by exists i0, n| | |by exists c].
  { subst rank. cbn beta. pose proof (Z.mod_pos_bound (Z.of_nat (length L) - 1 - Z.of_nat i0) len Hpos). lia. }
  intros k x (i & q & Hi & -> & ->) _. pose proof (lookup_lt_Some _ _ _ Hi) as Hilt.
  destruct (place_step_spec m L R i q b Hk Hr Hi HL HR) as [[-> Hp]|(n' & -> & Hn' & Hne)];
    eexists; (split; [reflexivity|]).
  { by exists q. }
  fold ns in Hn', Hne. fold len in Hne.
  exists (rank (S i mod length ns)%nat). split; [by exists (S i mod length ns)%nat, n'|].
  subst rank. cbn beta. rewrite Nat2Z.inj_mod, Nat2Z.inj_succ. fold len.
  clear - Hpos Hne. set (l := Z.of_nat (length L)) in *. set (j := Z.of_nat i) in *.
  rewrite Zminus_mod_idemp_r.
  replace (l - 1 - Z.succ j) with ((l - 1 - j) - 1) by lia.
  assert ((l - 1 - j) mod len ≠ 0) as Hnz.
  { intros E. apply Hne. rewrite <- (Z.add_0_r (j + 1)), <- E, Zplus_mod_idemp_r. f_equal. lia. }
  rewrite (mod_pred _ _ Hpos Hnz). pose proof (Z.mod_pos_bound (l - 1 - j) len Hpos). lia.
Qed.

(** ** Linking a block in *)

(** The block joined with what follows, and with what comes before. *)
Definition join_right (n : node) (R : list node) : node * list node :=
  match R with
  | q :: R' => if n.1 + 8 * n.2 =? q.1 then ((n.1, n.2 + q.2), R') else (n, R)
  | [] => (n, [])
  end.
Definition join_left (c n : node) : list node :=
  if c.1 + 8 * c.2 =? n.1 then [(c.1, c.2 + n.2)] else [c; n].

(** [q] lies below, above the block [n]. *)
Definition below (n q : node) : Prop := q.1 + 8 <= n.1 ∧ q.1 + 8 * q.2 <= n.1.
Definition above (n q : node) : Prop := n.1 + 8 <= q.1 ∧ n.1 + 8 * n.2 <= q.1.

Lemma hdr_of_ok n : node_ok n → (∀ x, header n x → K x) → hdr n.1.
Proof. intros [H0 _ [H8 _]] HK. split; [lia|]. split; [lia|exact HK]. Qed.

Lemma hdr_same m m' a c : changes_only (within a 8) m m' → hdr c → (a + 8 <= c ∨ c + 8 <= a) →
  ld32 m' c = ld32 m c ∧ ld32 m' (c + 4) = ld32 m (c + 4).
Proof.
  intros Hc (H0 & H8 & _) Hd. split; apply ld32_ext; try lia; intros x Hx; apply Hc; unfold within in *; lia.
Qed.

Lemma link_next_spec m n c R z : kmapped cr3 K m → node_ok n → hdr n.1 → ld32 m (n.1 + 4) = n.2 →
  hdr c → n.1 + 8 <= c ∨ c + 8 <= n.1 → ld32 m c = first R z →
  chain m R z → Forall node_ok R → (∀ q, q ∈ R → hdr q.1 ∧ above n q) → is_u32 z →
  (R = [] → 0 < z ∧ z < n.1 + 8 * n.2) →
  ∃ m', link_next cr3 m n.1 c = Some m' ∧ kmapped cr3 K m' ∧ changes_only (within n.1 8) m m' ∧
    ld32 m' n.1 = first (join_right n R).2 z ∧ ld32 m' (n.1 + 4) = (join_right n R).1.2.
Proof.
  destruct n as [b u]. unfold above.
  intros Hk [Hb0 Hu0 [Hb8 Hbu]] Hhb Hbu4 Hhc Hbc Hcn Hch HF HR Hz Hnil. cbn [fst snd] in *.
  unfold link_next. rewrite (get_units_ok m b Hk Hhb), Hbu4, bind_Some, (get_next_ok m c Hk Hhc), Hcn, bind_Some.
  assert (is_u32 (first R z)) as Hcn32.
  { destruct R as [|[a w] R]; [exact Hz|]. destruct (HR (a, w)) as ((? & ? & _) & _); [apply list_elem_of_here|]. cbn in *. lia. }
  assert (ptr_add b u =? first R z = match R with q :: _ => b + 8 * u =? q.1 | [] => false end) as ->.
  { unfold ptr_add. destruct R as [|[a w] R]; cbn [first fst].
    - destruct (Hnil eq_refl). apply Z.eqb_neq. unfold u32. word_lia.
    - destruct (HR (a, w)) as (_ & _ & ?); [apply list_elem_of_here|]. cbn in *. rewrite u32_small by lia. done. }
  destruct R as [|[a w] R]; [|destruct (Z.eqb_spec (b + 8 * u) a) as [Hj|Hj]]; cbn [first join_right fst snd] in *.
  - destruct (set_next_ok m b z Hk Hhb Hz) as (-> & Hk' & Hc & H1 & H2). eexists. split; [reflexivity|]. rewrite H1, H2. auto.
  - destruct Hch as (Ha & Haw & Hch'). apply Forall_cons in HF as [[_ Hw0 [_ Haw8]] HF]. cbn in Hw0, Haw8.
    destruct (HR (a, w)) as (Hha & Hba & _); [apply list_elem_of_here|]. cbn in Hha, Hba.
    rewrite (proj2 (Z.eqb_eq _ _) Hj). cbn [fst snd].
    rewrite (get_units_ok m a Hk Hha), Haw, bind_Some, u32_small by lia.
    destruct (set_units_ok m b (u + w) Hk Hhb) as (-> & Hk1 & Hc1 & H1 & H2); [lia|]. rewrite bind_Some.
    destruct (hdr_same _ _ _ c Hc1 Hhc Hbc) as [Hcn1 _]. destruct (hdr_same _ _ _ a Hc1 Hha) as [Ha1 _]; [lia|].
    rewrite (get_next_ok _ c Hk1 Hhc), Hcn1, Hcn, bind_Some, (get_next_ok _ a Hk1 Hha), Ha1, Ha, bind_Some.
    destruct (set_next_ok (st32 m (b + 4) (u + w)) b (first R z) Hk1 Hhb) as (-> & Hk2 & Hc2 & H3 & H4).
    { destruct R as [|[a' w'] R]; [exact Hz|]. destruct (HR (a', w')) as ((? & ? & _) & _);
        [apply list_elem_of_further, list_elem_of_here|]. cbn in *. lia. }
    eexists. split; [reflexivity|]. split; [exact Hk2|]. split; [by eapply changes_only_trans|]. by rewrite H3, H4, H1.
  - destruct (set_next_ok m b a Hk Hhb) as (-> & Hk' & Hc & H1 & H2); [exact Hcn32|].
    rewrite (proj2 (Z.eqb_neq _ _) Hj). eexists. split; [reflexivity|]. cbn. rewrite H1, H2. auto.
Qed.

Lemma link_prev_spec m n q z : kmapped cr3 K m → node_ok n → hdr n.1 → ld32 m (n.1 + 4) = n.2 → ld32 m n.1 = z → is_u32 z →
  node_ok q → hdr q.1 → ld32 m (q.1 + 4) = q.2 → n.1 + 8 <= q.1 ∨ below n q →
  ∃ m', link_prev cr3 m n.1 q.1 = Some m' ∧ kmapped cr3 K m' ∧ changes_only (within q.1 8) m m' ∧
    if (q.1 <? n.1) && (q.1 + 8 * q.2 =? n.1) then ld32 m' q.1 = z ∧ ld32 m' (q.1 + 4) = q.2 + n.2
    else ld32 m' q.1 = n.1 ∧ ld32 m' (q.1 + 4) = q.2.
Proof.
  destruct n as [b u], q as [c w]. unfold below.
  intros Hk [Hb0 Hu0 [Hb8 Hbu]] Hhb Hbu4 Hbz Hz [Hc0 Hw0 [Hc8 Hcw]] Hhc Hcw4 Hd. cbn [fst snd] in *.
  unfold link_prev. rewrite (get_units_ok m c Hk Hhc), Hcw4, bind_Some.
  assert (ptr_add c w =? b = (c <? b) && (c + 8 * w =? b)) as ->.
  { unfold ptr_add. destruct Hd as [Hd|[Hd1 Hd2]].
    - rewrite (proj2 (Z.ltb_ge c b)) by lia. cbn. apply Z.eqb_neq. unfold u32. word_lia.
    - rewrite (proj2 (Z.ltb_lt c b)) by lia. cbn. by rewrite u32_small by lia. }
  destruct ((c <? b) && (c + 8 * w =? b)) eqn:Hj.
  - apply andb_prop in Hj as [_ Hj]. apply Z.eqb_eq in Hj.
    rewrite (get_units_ok m b Hk Hhb), Hbu4, bind_Some, u32_small by lia.
    destruct (set_units_ok m c (w + u) Hk Hhc) as (-> & Hk1 & Hc1 & H1 & H2); [lia|]. rewrite bind_Some.
    destruct (hdr_same _ _ _ b Hc1 Hhb) as [Hb1 _]; [lia|].
    rewrite (get_next_ok _ b Hk1 Hhb), Hb1, Hbz, bind_Some.
    destruct (set_next_ok _ c z Hk1 Hhc Hz) as (-> & Hk2 & Hc2 & H3 & H4).
    eexists. split; [reflexivity|]. split; [exact Hk2|]. split; [by eapply changes_only_trans|]. by rewrite H3, H4.
  - destruct (set_next_ok m c b Hk Hhc) as (-> & Hk1 & Hc1 & H1 & H2); [lia|].
    eexists. split; [reflexivity|]. split; [exact Hk1|]. split; [exact Hc1|]. by rewrite H1, H2.
Qed.

Record joined (n : node) (R : list node) (n' : node) (R' : list node) : Prop := {
  jo_ok : node_ok n';
  jo_addr : n'.1 = n.1;
  jo_grows : n.2 <= n'.2;
  jo_sorted : StronglySorted before R';
  jo_before : Forall (before n') R';
  jo_sub : R' ⊆ R;
  jo_rest : Forall node_ok R';
  jo_spans : ∀ x, span n' x ∨ spans R' x ↔ span n x ∨ spans R x;
  jo_zero : ∀ a, (a, 0) ∈ R → n.1 + 8 * n.2 ≠ a → (a, 0) ∈ R'
}.

Lemma join_right_spec n R : node_ok n → 0 < n.2 → StronglySorted before R → Forall node_ok R → Forall (above n) R →
  joined n R (join_right n R).1 (join_right n R).2.
Proof.
  intros [H0 Hu [H8 Hf]] Hpos Hs HF HA. destruct R as [|q R]; cbn [join_right fst snd].
  { split; try done; lia. }
  apply StronglySorted_cons in Hs as [Hq Hs]. apply Forall_cons in HF as [[Q0 Qu [Q8 Qf]] HF]. apply Forall_cons in HA as [[A1 A2] HA].
  assert (∀ r, r ∈ R → before q r) as Hqr by (by apply Forall_forall).
  destruct (Z.eqb_spec (n.1 + 8 * n.2) q.1) as [Hj|Hj]; cbn [fst snd].
  - split; cbn [fst snd]; try done; try lia.
    + split; cbn; lia.
    + apply Forall_forall. intros r Hr. destruct (Hqr r Hr). split; cbn; lia.
    + intros r Hr. by apply list_elem_of_further.
    + intros x. rewrite spans_cons. assert (span (n.1, n.2 + q.2) x ↔ span n x ∨ span q x) by (unfold span, within; cbn [fst snd]; lia). tauto.
    + intros a Ha Hne. apply elem_of_cons in Ha as [<-|Ha]; [done|exact Ha].
  - split; cbn [fst snd]; try done; try lia.
    + by apply StronglySorted_cons.
    + apply Forall_cons. split; [split; lia|]. apply Forall_forall. intros r Hr. destruct (Hqr r Hr). split; lia.
    + apply Forall_cons. split; [by split|done].
Qed.

Record left_joined (L : list node) (c n : node) (ns : list node) : Prop := {
  lj_ok : Forall node_ok ns;
  lj_sorted : StronglySorted before ns;
  lj_before : ∀ l r, l ∈ L → r ∈ ns → before l r;
  lj_after : ∀ q r, before n r → q ∈ ns → before q r;
  lj_spans : ∀ x, spans ns x ↔ span c x ∨ span n x;
  lj_zero : ∀ a, c = (a, 0) → (a, 0) ∈ ns;
  lj_head : ∃ w, head ns = Some (c.1, w)
}.

Lemma join_left_spec L c n : node_ok c → node_ok n → 0 < n.2 → below n c → (∀ l, l ∈ L → before l c) →
  left_joined L c n (join_left c n).
Proof.
  intros [C0 Cu [C8 Cf]] [N0 Nu [N8 Nf]] Hpos [B1 B2] HL. unfold join_left. destruct (Z.eqb_spec (c.1 + 8 * c.2) n.1) as [Hj|Hj].
  - split.
    + apply Forall_singleton. split; cbn; lia.
    + repeat constructor.
    + intros l r Hl ->%list_elem_of_singleton. destruct (HL l Hl). split; cbn; lia.
    + intros q r [? ?] ->%list_elem_of_singleton. split; cbn; lia.
    + intros x. rewrite spans_cons, spans_nil. unfold span, within. cbn [fst snd]. lia.
    + intros a ->. cbn in *. lia.
    + by eexists.
  - split.
    + repeat (apply Forall_cons; split; [by split|]). constructor.
    + apply StronglySorted_cons. split; [apply Forall_singleton; split; lia|]. repeat constructor.
    + intros l r Hl Hr. destruct (HL l Hl). apply elem_of_cons in Hr as [->|Hr]; [by split|].
      apply list_elem_of_singleton in Hr as ->. split; lia.
    + intros q r [? ?] Hq. apply elem_of_cons in Hq as [->|Hq]; [split; lia|]. apply list_elem_of_singleton in Hq as ->. by split.
    + intros x. rewrite !spans_cons, spans_nil. tauto.
    + intros a ->. apply list_elem_of_here.
    + exists c.2. by destruct c.
Qed.

(** The list with a block freed between [L] and [R]. *)
Definition freed (L : list node) (n : node) (R : list node) : list node :=
  match last L with
  | Some c => removelast L ++ join_left c (join_right n R).1 ++ (join_right n R).2
  | None => (join_right n R).1 :: (join_right n R).2
  end.

Lemma freed_nil n R : freed [] n R = (join_right n R).1 :: (join_right n R).2.
Proof. done. Qed.
Lemma freed_snoc L c n R : freed (L ++ [c]) n R = L ++ join_left c (join_right n R).1 ++ (join_right n R).2.
Proof. unfold freed. by rewrite last_snoc, removelast_last. Qed.

Lemma join_left_addr c n q : q ∈ join_left c n → q.1 = c.1 ∨ q.1 = n.1.
Proof.
  unfold join_left. destruct (_ =? _); [intros ->%list_elem_of_singleton; by left|].
  intros [->|Hq]%elem_of_cons; [by left|]. apply list_elem_of_singleton in Hq as ->. by right.
Qed.

Lemma join_left_size c n : 0 <= c.2 →
  (∀ q, q ∈ join_left c n → q = c ∨ n.2 <= q.2) ∧ ∃ q, q ∈ join_left c n ∧ n.2 <= q.2.
Proof.
  intros Hc. unfold join_left. destruct (_ =? _).
  - split; [intros q ->%list_elem_of_singleton; right; cbn; lia|]. eexists. split; [apply list_elem_of_here|cbn; lia].
  - split; [|exists n; split; [apply list_elem_of_further, list_elem_of_here|lia]].
    intros q [->|Hq]%elem_of_cons; [by left|]. apply list_elem_of_singleton in Hq as ->. right. lia.
Qed.

(** A block that can be freed into a list that contains [base]. *)
Record freeable (n : node) (L R : list node) : Prop := {
  fr_ok : node_ok n;
  fr_size : 2 <= n.2;
  fr_below : Forall (below n) L;
  fr_above : Forall (above n) R;
  fr_base : (base, 0) ∈ L ++ R;
  fr_apart : n.1 + 8 * n.2 ≠ base
}.

Record freed_list (n : node) (L R ns : list node) : Prop := {
  fl_ok : Forall node_ok ns;
  fl_sorted : StronglySorted before ns;
  fl_spans : ∀ x, spans ns x ↔ spans (L ++ R) x ∨ span n x;
  fl_base : (base, 0) ∈ ns;
  fl_addr : ∀ q, q ∈ ns → q.1 = n.1 ∨ ∃ q0, q0 ∈ L ++ R ∧ q.1 = q0.1;
  fl_size : ∀ q, q ∈ ns → q ∈ L ++ R ∨ n.2 <= q.2;
  fl_big : ∃ q, q ∈ ns ∧ n.2 <= q.2
}.

Lemma freed_spec n L R : freeable n L R → Forall node_ok (L ++ R) → StronglySorted before (L ++ R) →
  freed_list n L R (freed L n R).
Proof.
  intros [Hn H2 HB HA Hbase Hap] HF Hs. apply Forall_app in HF as [HFL HFR].
  apply StronglySorted_app in Hs as (HLR & HsL & HsR).
  destruct (join_right_spec n R Hn ltac:(lia) HsR HFR HA) as [J1 J2 J3 J4 J5 J6 J7 J8 J9].
  set (n' := (join_right n R).1) in *. set (R' := (join_right n R).2) in *.
  destruct L as [|c L _] using rev_ind.
  { rewrite freed_nil. fold n' R'. split.
    - by apply Forall_cons.
    - by apply StronglySorted_cons.
    - intros x. rewrite spans_cons, J8. cbn [app]. tauto.
    - apply list_elem_of_further, J9; [exact Hbase|exact Hap].
    - intros q [->|Hq]%elem_of_cons; [by left|right]. exists q. split; [by apply J6|done].
    - intros q [->|Hq]%elem_of_cons; [by right|left; by apply J6].
    - exists n'. split; [apply list_elem_of_here|exact J3]. }
  rewrite freed_snoc. fold n' R'. apply Forall_app in HFL as [HFL HFc]. rewrite Forall_singleton in HFc.
  apply Forall_app in HB as [HBL HBc]. rewrite Forall_singleton in HBc.
  apply StronglySorted_app in HsL as (HLc & HsL & _).
  destruct (join_left_spec L c n' HFc J1 ltac:(lia)) as [K1 K2 K3 K4 K5 K6 _].
  { destruct HBc. split; rewrite J2; lia. }
  { intros l Hl. apply HLc; [exact Hl|apply list_elem_of_here]. }
  assert (∀ r, r ∈ R' → before n' r) as Hnr by (by apply Forall_forall).
  split.
  - apply Forall_app. split; [exact HFL|]. by apply Forall_app.
  - apply StronglySorted_app. split_and!; [|exact HsL|apply StronglySorted_app; split_and!; [|exact K2|exact J4]].
    + intros l r Hl [Hr|Hr]%elem_of_app; [by apply K3|]. apply HLR; [by apply elem_of_app; left|by apply J6].
    + intros q r Hq Hr. apply K4; [by apply Hnr|exact Hq].
  - intros x. rewrite !spans_app, K5, spans_cons, spans_nil. pose proof (J8 x). tauto.
  - rewrite !elem_of_app. rewrite !elem_of_app in Hbase. destruct Hbase as [[Hb|Hb]|Hb]; [by left| |].
    + apply list_elem_of_singleton in Hb. right; left. by apply K6.
    + right; right. apply J9; [exact Hb|exact Hap].
  - intros q. rewrite !elem_of_app. intros [Hq|[Hq|Hq]].
    + right. exists q. split; [by rewrite !elem_of_app; left; left|done].
    + apply join_left_addr in Hq as [Hq|Hq]; [right|left; congruence]. exists c. split; [|done].
      rewrite !elem_of_app. left; right. apply list_elem_of_here.
    + right. exists q. split; [|done]. rewrite !elem_of_app. right. by apply J6.
  - intros q. rewrite !elem_of_app. destruct (join_left_size c n' (no_units _ HFc)) as [HS _].
    intros [Hq|[Hq|Hq]]; [by left; left; left| |left; right; by apply J6].
    destruct (HS q Hq) as [->|?]; [left; left; right; apply list_elem_of_here|right; lia].
  - destruct (join_left_size c n' (no_units _ HFc)) as [_ (q & Hq & ?)]. exists q. split; [|lia].
    rewrite !elem_of_app. by right; left.
Qed.

Lemma chain_join m n R z : chain m R z → chain m (join_right n R).2 z.
Proof. destruct R as [|q R]; [done|]. cbn [join_right]. destruct (_ =? _); [|done]. destruct q. by intros (_ & _ & ?). Qed.

(** Writes to the header of one block leave the others' links alone. *)
Lemma chain_other m m' a ns z : changes_only (within a 8) m m' → Forall node_ok ns →
  (∀ n, n ∈ ns → a + 8 <= n.1 ∨ n.1 + 8 <= a) → chain m ns z → chain m' ns z.
Proof.
  intros Hc HF Hd. apply (chain_changes (within a 8)); [exact Hc|exact HF|].
  intros n x Hn Hx Hw. pose proof (Hd n Hn). unfold header, within in *. lia.
Qed.

Lemma first_in ns y : ns ≠ [] → ∃ q, q ∈ ns ∧ first ns y = q.1.
Proof. destruct ns as [|q ns]; [done|]. exists q. split; [apply list_elem_of_here|by destruct q]. Qed.

Lemma sorted_length lo ns : StronglySorted before ns → Forall node_ok ns → (∀ q, q ∈ ns → lo <= q.1) → lo <= 4294967296 →
  lo + 8 * Z.of_nat (length ns) <= 4294967296.
Proof.
  revert lo. induction ns as [|q ns IH]; intros lo Hs HF Hlo Hle; [simpl; lia|].
  apply StronglySorted_cons in Hs as [Hq Hs]. apply Forall_cons in HF as [[_ _ [Q8 _]] HF]. rewrite Forall_forall in Hq.
  specialize (Hlo q (list_elem_of_here _ _)) as Hlq.
  assert (q.1 + 8 + 8 * Z.of_nat (length ns) <= 4294967296); [|cbn [length]; lia].
  apply IH; [done|done| |lia]. intros r Hr'. by destruct (Hq r Hr').
Qed.

Section one_free.
Context (m : mem) (n : node) (L R : list node).
Hypothesis (Hk : kmapped cr3 K m) (Hr : ring K m (L ++ R)) (Hf : freeable n L R).
Hypothesis (Hhn : hdr n.1) (Hnu : ld32 m (n.1 + 4) = n.2).

Let z := first (L ++ R) 0.
Let n' := (join_right n R).1.
Let R' := (join_right n R).2.

Lemma ring_elem q : q ∈ L ++ R → hdr q.1 ∧ node_ok q.
Proof.
  intros Hq. assert (node_ok q) as Ho by (by eapply (proj1 (Forall_forall _ _) (rg_ok _ _ _ Hr))).
  split; [|done]. apply hdr_of_ok; [done|]. intros x. by apply (rg_mapped _ _ _ Hr).
Qed.

Lemma z_u32 : is_u32 z.
Proof.
  subst z. pose proof ring_elem as He. pose proof (rg_ne _ _ _ Hr) as Hne. clear - He Hne.
  destruct (L ++ R) as [|[a u] ns]; [done|]. destruct (He (a, u)) as [_ [? _ [? _]]]; [apply list_elem_of_here|]. cbn in *. lia.
Qed.

Lemma free_joined : joined n R n' R'.
Proof.
  destruct Hr as [_ HF Hs _ _]. apply Forall_app in HF as [_ HFR]. apply StronglySorted_app in Hs as (_ & _ & HsR).
  apply join_right_spec; [apply Hf|pose proof (fr_size _ _ _ Hf); lia|done|done|apply Hf].
Qed.

Lemma above_apart q : q ∈ R → n.1 + 8 <= q.1 ∨ q.1 + 8 <= n.1.
Proof. intros Hq. left. by apply (proj1 (Forall_forall _ _) (fr_above _ _ _ Hf)). Qed.
Lemma below_apart q : q ∈ L → n.1 + 8 <= q.1 ∨ q.1 + 8 <= n.1.
Proof. intros Hq. right. by apply (proj1 (Forall_forall _ _) (fr_below _ _ _ Hf)). Qed.

(** The first link: what the block points to after it. *)
Lemma link_next_free c : c ∈ L ++ R → ld32 m c.1 = first R z → (R = [] → 0 < z < n.1) →
  ∃ m1, link_next cr3 m n.1 c.1 = Some m1 ∧ kmapped cr3 K m1 ∧ changes_only (within n.1 8) m m1 ∧
    chain m1 (n' :: R') z ∧ Forall (λ q, ld32 m1 q.1 = ld32 m q.1 ∧ ld32 m1 (q.1 + 4) = ld32 m (q.1 + 4)) (L ++ R) ∧
    ∀ L', L' ⊆ L → ∀ y, Forall node_ok L' → chain m L' y → chain m1 L' y.
Proof.
  intros Hc Hcn Hnil. pose proof free_joined as [J1 J2 J3 J4 J5 J6 J7 J8 J9]. destruct (ring_elem c Hc) as [Hhc _].
  pose proof (rg_chain _ _ _ Hr) as Hch. apply chain_app in Hch as [_ HchR]. fold z in HchR.
  pose proof (rg_ok _ _ _ Hr) as HF. apply Forall_app in HF as [HFL HFR].
  assert (∀ q, q ∈ L ++ R → n.1 + 8 <= q.1 ∨ q.1 + 8 <= n.1) as Hap.
  { intros q [Hq|Hq]%elem_of_app; [by apply below_apart|by apply above_apart]. }
  destruct (link_next_spec m n c.1 R z Hk (fr_ok _ _ _ Hf) Hhn Hnu Hhc) as (m1 & -> & Hk1 & Hc1 & H1 & H2);
    [by apply Hap|exact Hcn|exact HchR|exact HFR| |exact z_u32| |].
  { intros q Hq. split; [apply ring_elem, elem_of_app; by right|]. by apply (proj1 (Forall_forall _ _) (fr_above _ _ _ Hf)). }
  { intros E. destruct (Hnil E). pose proof (fr_size _ _ _ Hf). lia. }
  exists m1. split; [done|]. split; [done|]. split; [done|]. split; [|split].
  - rewrite (surjective_pairing n'). cbn [chain]. rewrite J2. split; [exact H1|]. split; [exact H2|].
    eapply chain_other; [exact Hc1|exact J7| |apply chain_join; exact HchR].
    intros q Hq. apply Hap, elem_of_app. right. by apply J6.
  - apply Forall_forall. intros q Hq. eapply hdr_same; [exact Hc1|by apply ring_elem|by apply Hap].
  - intros L' Hsub y HF' Hy. eapply chain_other; [exact Hc1|exact HF'| |exact Hy].
    intros q Hq. apply Hap, elem_of_app. left. by apply Hsub.
Qed.

(** The second link, after a node below the block. *)
Lemma link_prev_below m1 L0 c : L = L0 ++ [c] → kmapped cr3 K m1 → chain m1 (n' :: R') z →
  chain m1 L0 c.1 → ld32 m1 (c.1 + 4) = c.2 →
  ∃ m2, link_prev cr3 m1 n.1 c.1 = Some m2 ∧ changes_only (within c.1 8) m1 m2 ∧
    chain m2 (L0 ++ join_left c n' ++ R') z.
Proof.
  intros HL Hk1 Hch HchL Hcu. pose proof free_joined as [J1 J2 J3 J4 J5 J6 J7 J8 J9].
  assert (c ∈ L) as HcL by (rewrite HL; apply elem_of_app; right; apply list_elem_of_here).
  destruct (ring_elem c) as [Hhc Hoc]; [apply elem_of_app; by left|].
  pose proof (proj1 (Forall_forall _ _) (fr_below _ _ _ Hf) c HcL) as [B1 B2].
  assert (hdr n'.1) as Hhn' by (by rewrite J2). rewrite (surjective_pairing n') in Hch. destruct Hch as (Hn1 & Hn2 & HchR).
  assert (is_u32 (first R' z)) as Hu.
  { destruct R' as [|q R'']; [exact z_u32|]. destruct (ring_elem q) as [(? & ? & _) _];
      [apply elem_of_app; right; apply J6, list_elem_of_here|]. destruct q. cbn in *. lia. }
  rewrite <- J2. destruct (link_prev_spec m1 n' c (first R' z) Hk1 J1 Hhn' Hn2 Hn1 Hu Hoc Hhc Hcu) as (m2 & -> & Hk2 & Hc2 & Hif);
    [right; split; rewrite J2; lia|]. exists m2. split; [done|]. split; [done|].
  rewrite J2, (proj2 (Z.ltb_lt c.1 n.1)) in Hif by lia. cbn [andb] in Hif.
  pose proof (rg_sorted _ _ _ Hr) as Hs. rewrite HL in Hs. apply StronglySorted_app in Hs as (HLR & Hs & _).
  apply StronglySorted_app in Hs as (HLc & _ & _).
  pose proof (rg_ok _ _ _ Hr) as HF. rewrite HL in HF. apply Forall_app in HF as [HF HFR]. apply Forall_app in HF as [HFL _].
  assert (chain m2 L0 c.1) as HL2.
  { eapply chain_other; [exact Hc2|exact HFL| |exact HchL]. intros q Hq.
    destruct (HLc q c Hq (list_elem_of_here _ _)) as [? _]. lia. }
  assert (chain m2 R' z) as HR2.
  { eapply chain_other; [exact Hc2|exact J7| |exact HchR]. intros q Hq. left.
    destruct (HLR c q) as [? _]; [apply elem_of_app; right; apply list_elem_of_here|by apply J6|lia]. }
  destruct (hdr_same _ _ _ n'.1 Hc2 Hhn') as [E1 E2]; [rewrite J2; lia|].
  unfold join_left. rewrite J2. destruct (Z.eqb_spec (c.1 + 8 * c.2) n.1) as [Hj|Hj]; destruct Hif as [I1 I2].
  - apply chain_app. split; [exact HL2|]. cbn [app chain first]. by split.
  - apply chain_app. destruct c as [ca cw]. rewrite (surjective_pairing n'), J2. cbn [app chain first fst snd] in *.
    split; [exact HL2|]. split; [exact I1|]. split; [exact I2|]. rewrite J2 in E1, E2, Hn1, Hn2. split; [congruence|]. split; [congruence|exact HR2].
Qed.

(** The second link, when the block comes first: after the last node. *)
Lemma link_prev_first m1 R0 c : L = [] → R' = R0 ++ [c] → kmapped cr3 K m1 → chain m1 (n' :: R') z →
  ∃ m2, link_prev cr3 m1 n.1 c.1 = Some m2 ∧ changes_only (within c.1 8) m1 m2 ∧ chain m2 (n' :: R') n.1.
Proof.
  intros HL HR0 Hk1 Hch. pose proof free_joined as [J1 J2 J3 J4 J5 J6 J7 J8 J9].
  assert (c ∈ R') as HcR' by (rewrite HR0; apply elem_of_app; right; apply list_elem_of_here).
  destruct (ring_elem c) as [Hhc Hoc]; [apply elem_of_app; right; by apply J6|].
  pose proof (proj1 (Forall_forall _ _) J5 c HcR') as [B1 _].
  assert (hdr n'.1) as Hhn' by (by rewrite J2). rewrite (surjective_pairing n') in Hch. destruct Hch as (Hn1 & Hn2 & HchR).
  rewrite HR0 in HchR. apply chain_app in HchR as [HchR0 Hcc]. destruct c as [ca cw]. destruct Hcc as (_ & Hcu & _). cbn [first fst snd] in *.
  assert (is_u32 (first R' z)) as Hu.
  { destruct R' as [|q R'']; [exact z_u32|]. destruct (ring_elem q) as [(? & ? & _) _];
      [apply elem_of_app; right; apply J6, list_elem_of_here|]. destruct q. cbn in *. lia. }
  destruct (link_prev_spec m1 n' (ca, cw) (first R' z) Hk1 J1 Hhn' Hn2 Hn1 Hu Hoc Hhc Hcu) as (m2 & E & _ & Hc2 & Hif);
    [left; exact B1|]. cbn [fst snd] in *. rewrite J2 in E. rewrite E. exists m2. split; [done|]. split; [done|].
  rewrite (proj2 (Z.ltb_ge ca n'.1)) in Hif by lia. cbn [andb] in Hif. destruct Hif as [I1 I2].
  destruct (hdr_same _ _ _ n'.1 Hc2 Hhn') as [E1 E2]; [lia|].
  rewrite (surjective_pairing n'). cbn [chain]. rewrite E1, E2, Hn1. split; [|split; [exact Hn2|]].
  - rewrite HR0. by rewrite !first_app.
  - rewrite HR0. apply chain_app. cbn [chain first]. split; [|rewrite <- J2; by split].
    rewrite HR0 in J7, J4. apply Forall_app in J7 as [J7 _]. apply StronglySorted_app in J4 as (HRc & _ & _).
    eapply chain_other; [exact Hc2|exact J7| |exact HchR0]. intros q Hq. right.
    destruct (HRc q (ca, cw) Hq (list_elem_of_here _ _)) as [? _]. cbn in *. lia.
Qed.

(** The block first in the list, the last node stays last. *)
Lemma join_right_last R0 c : L = [] → R = R0 ++ [c] → ∃ R0', R' = R0' ++ [c].
Proof.
  intros HL HR. subst R'. rewrite HR. destruct R0 as [|q R0]; cbn [app join_right].
  - assert (c = (base, 0)) as ->.
    { pose proof (fr_base _ _ _ Hf) as Hb. rewrite HL, HR in Hb. cbn in Hb. by apply list_elem_of_singleton in Hb. }
    rewrite (proj2 (Z.eqb_neq _ _)) by (apply Hf). by exists [].
  - destruct (_ =? _); [by exists R0|by exists (q :: R0)].
Qed.

(** What the two writes of kfree_internal come to, once the place is known. *)
Definition linked (c : Z) : Prop :=
  ∃ m1 m2, link_next cr3 m n.1 c = Some m1 ∧ link_prev cr3 m1 n.1 c = Some m2 ∧ kmapped cr3 K m2 ∧
    chain m2 (freed L n R) (first (freed L n R) 0) ∧ (∃ q, q ∈ freed L n R ∧ c = q.1) ∧
    changes_only (λ x, within n.1 8 x ∨ ∃ q, q ∈ L ++ R ∧ header q x) m m2.

Lemma linked_below X c : L = X ++ [c] → linked c.1.
Proof.
  intros HX. pose proof (rg_chain _ _ _ Hr) as Hch. fold z in Hch. pose proof (rg_ok _ _ _ Hr) as HF.
  assert (c ∈ L ++ R) as HcLR by (rewrite HX; apply elem_of_app; left; apply elem_of_app; right; apply list_elem_of_here).
  rewrite HX, <- app_assoc in Hch. apply chain_app in Hch as [HchX Hch]. cbn [app] in Hch. destruct c as [ca cw] eqn:Ec.
  destruct Hch as (Hcn & Hcu & _).
  destruct (link_next_free (ca, cw) HcLR Hcn) as (m1 & E1 & Hk1 & Hc1 & Hch1 & Hsame & HL1).
  { intros HR. subst z. destruct (first_in (L ++ R) 0 (rg_ne _ _ _ Hr)) as (r & Hrn & ->). rewrite HR, app_nil_r in Hrn.
    destruct (ring_elem r) as [_ [? _ _]]; [apply elem_of_app; by left|].
    pose proof (proj1 (Forall_forall _ _) (fr_below _ _ _ Hf) r Hrn) as [? _]. lia. }
  rewrite HX in HF. apply Forall_app in HF as [HF _]. apply Forall_app in HF as [HFX _].
  destruct (link_prev_below m1 X (ca, cw) HX Hk1 Hch1) as (m2 & E2 & Hc2 & Hch2).
  { apply HL1; [|exact HFX|exact HchX]. rewrite HX. intros r Hr'. apply elem_of_app. by left. }
  { rewrite Forall_forall in Hsame. destruct (Hsame _ HcLR) as [_ ->]. exact Hcu. }
  assert (kmapped cr3 K m2) as Hk2.
  { eapply kmapped_changes; [exact Hk1|]. eapply changes_only_mono; [|exact Hc2]. apply (ring_elem _ HcLR). }
  exists m1, m2. split; [exact E1|]. split; [exact E2|]. split; [exact Hk2|].
  assert (freed L n R = X ++ join_left (ca, cw) n' ++ R') as HE by (rewrite HX; apply freed_snoc).
  split; [|split].
  - rewrite HE. replace (first _ 0) with z; [exact Hch2|]. subst z. rewrite HX, <- app_assoc, !first_app. f_equal.
    unfold join_left. by destruct (_ =? _).
  - rewrite HE. unfold join_left. destruct (_ =? _); eexists; (split; [apply elem_of_app; right; apply elem_of_app; left; apply list_elem_of_here|done]).
  - eapply changes_only_trans; (eapply changes_only_mono; [|eassumption]); [by left|]. intros x Hx. right. by exists (ca, cw).
Qed.

Lemma linked_first X c : L = [] → R = X ++ [c] → linked c.1.
Proof.
  intros HL HX. pose proof (rg_chain _ _ _ Hr) as Hch. fold z in Hch.
  assert (c ∈ L ++ R) as HcLR by (rewrite HX; apply elem_of_app; right; apply elem_of_app; right; apply list_elem_of_here).
  assert (ld32 m c.1 = first R z) as Hcn.
  { rewrite HL, HX in Hch. cbn [app] in Hch. apply chain_app in Hch as [_ Hch]. destruct c as [ca cw]. destruct Hch as [Hcn _].
    cbn [first fst] in *. rewrite Hcn. subst z. rewrite HL, HX. cbn [app]. by rewrite !first_app. }
  destruct (link_next_free c HcLR Hcn) as (m1 & E1 & Hk1 & Hc1 & Hch1 & _ & _).
  { intros HR. rewrite HR in HX. by destruct X. }
  destruct (join_right_last X c HL HX) as [X' HX'].
  destruct (link_prev_first m1 X' c HL HX' Hk1 Hch1) as (m2 & E2 & Hc2 & Hch2).
  assert (kmapped cr3 K m2) as Hk2.
  { eapply kmapped_changes; [exact Hk1|]. eapply changes_only_mono; [|exact Hc2]. apply (ring_elem _ HcLR). }
  exists m1, m2. split; [exact E1|]. split; [exact E2|]. split; [exact Hk2|].
  assert (freed L n R = n' :: R') as HE by (rewrite HL; apply freed_nil).
  split; [|split].
  - rewrite HE. rewrite (surjective_pairing n') at 2. cbn [first]. by rewrite (jo_addr _ _ _ _ free_joined).
  - rewrite HE. exists c. split; [|done]. apply list_elem_of_further. rewrite HX'. apply elem_of_app. right. apply list_elem_of_here.
  - eapply changes_only_trans; (eapply changes_only_mono; [|eassumption]); [by left|]. intros x Hx. right. by exists c.
Qed.

Lemma kfree_internal_spec fp st : (∃ q, q ∈ L ++ R ∧ fp = q.1) →
  ∃ m' c, kfree_internal cr3 base (n.1 + 8) (mkHeap m fp st) = Some (mkHeap m' c st) ∧ kmapped cr3 K m' ∧
    ring K m' (freed L n R) ∧ (∃ q, q ∈ freed L n R ∧ c = q.1) ∧
    changes_only (λ x, within n.1 8 x ∨ ∃ q, q ∈ L ++ R ∧ header q x) m m'.
Proof.
  intros (q & Hq & ->). pose proof (freed_spec n L R Hf (rg_ok _ _ _ Hr) (rg_sorted _ _ _ Hr)) as [F1 F2 F3 F4 F5 F6 F7].
  pose proof (fr_ok _ _ _ Hf) as [N0 _ [_ N8]]. pose proof (fr_size _ _ _ Hf) as N2.
  assert (ring K m (L ++ R) → ∀ m', kmapped cr3 K m' → chain m' (freed L n R) (first (freed L n R) 0) → ring K m' (freed L n R)) as Hring.
  { intros _ m' _ Hch. split; [intros E; rewrite E in F4; by apply elem_of_nil in F4|done|done|exact Hch|].
    intros r x Hr' Hx. destruct (F5 r Hr') as [E|(q0 & Hq0 & E)].
    - apply Hhn. unfold header in Hx. by rewrite E in Hx.
    - apply (rg_mapped _ _ _ Hr q0); [done|]. unfold header in *. by rewrite E in Hx. }
  unfold kfree_internal. rewrite (proj2 (Z.eqb_neq (n.1 + 8) 0)) by lia. replace (n.1 + 8 - 8) with n.1 by lia.
  rewrite (u32_small n.1) by lia. destruct (ring_elem q Hq) as [_ [Q0 _ _]]. cbn [freep h_mem h_pfa].
  rewrite (proj2 (Z.eqb_neq q.1 0)), bind_Some by lia. cbn [freep h_mem h_pfa].
  destruct (place_search m L R q n.1 Hk Hr Hq) as (c & -> & Hpl).
  { apply (Forall_impl _ _ _ (fr_below _ _ _ Hf)). intros r [? _]. lia. }
  { apply (Forall_impl _ _ _ (fr_above _ _ _ Hf)). intros r [? _]. lia. }
  { pose proof (sorted_length 0 (L ++ R) (rg_sorted _ _ _ Hr) (rg_ok _ _ _ Hr)) as Hl. specialize (Hl ltac:(intros r Hr'; destruct (ring_elem r Hr') as [_ [? _ _]]; lia) ltac:(lia)). lia. }
  rewrite bind_Some. assert (linked c.1) as (m1 & m2 & -> & E & Hk2 & Hch & Hc & Hm).
  { destruct Hpl as [Hlast|[HL Hlast]]; apply last_Some in Hlast as [X HX]; [by eapply linked_below|by eapply linked_first]. }
  rewrite bind_Some, E, bind_Some. exists m2, c.1. split; [reflexivity|]. split; [exact Hk2|]. split; [by apply Hring|by split].
Qed.
End one_free.

(** ** Taking a block out *)

Lemma ring_nodes m ns q : ring K m ns → q ∈ ns → hdr q.1 ∧ node_ok q.
Proof.
  intros Hr Hq. apply list_elem_of_lookup in Hq as [i Hi]. split; [by eapply ring_hdr|].
  by eapply (Forall_lookup_1 _ _ _ _ (rg_ok _ _ _ Hr)).
Qed.

(** Two nodes in a row. *)
Lemma unlink_middle m A p q B : kmapped cr3 K m → ring K m (A ++ p :: q :: B) →
  ∃ m', set_next cr3 m p.1 (ld32 m q.1) = Some m' ∧ kmapped cr3 K m' ∧ ring K m' (A ++ p :: B) ∧
    changes_only (within p.1 8) m m'.
Proof.
  intros Hk Hr. pose proof Hr as [_ HF Hs Hch HK]. pose proof (ring_nodes m _ p Hr) as Hp.
  destruct Hp as [Hhp Hop]; [apply elem_of_app; right; apply list_elem_of_here|].
  destruct (set_next_ok m p.1 (ld32 m q.1) Hk Hhp (ld32_range _ _)) as (-> & Hk' & Hc & H1 & H2).
  eexists. split; [reflexivity|]. split; [exact Hk'|]. split; [|exact Hc].
  rewrite first_app in Hch. apply chain_app in Hch as [HchA Hch]. destruct p as [pa pw], q as [qa qw].
  cbn [chain first fst snd] in *. destruct Hch as (Hpn & Hpu & Hqn & Hqu & HchB).
  apply Forall_app in HF as [HFA HF]. apply Forall_cons in HF as [_ HF]. apply Forall_cons in HF as [_ HFB].
  apply StronglySorted_app in Hs as (HAB & HsA & Hs). apply StronglySorted_cons in Hs as [Hpr Hs].
  apply Forall_cons in Hpr as [_ HprB]. rewrite Forall_forall in HprB. apply StronglySorted_cons in Hs as [_ HsB].
  split.
  - by destruct A.
  - apply Forall_app; split; [exact HFA|]. by apply Forall_cons.
  - apply StronglySorted_app. split_and!; [|exact HsA|apply StronglySorted_cons; split; [by apply Forall_forall|exact HsB]].
    intros x y Hx Hy. apply HAB; [exact Hx|]. apply elem_of_cons in Hy as [->|Hy]; [apply list_elem_of_here|].
    by apply list_elem_of_further, list_elem_of_further.
  - rewrite first_app. apply chain_app. cbn [chain first]. split; [|split; [|split]].
    + eapply chain_other; [exact Hc|exact HFA| |exact HchA]. intros x Hx.
      destruct (HAB x (pa, pw) Hx (list_elem_of_here _ _)) as [? _]. cbn in *. lia.
    + by rewrite H1, Hqn.
    + by rewrite H2.
    + eapply chain_other; [exact Hc|exact HFB| |exact HchB]. intros x Hx. destruct (HprB x Hx) as [? _]. cbn in *. lia.
  - intros x y Hx. apply HK. apply elem_of_app in Hx as [Hx|Hx]; [by apply elem_of_app; left|]. apply elem_of_app; right.
    apply elem_of_cons in Hx as [->|Hx]; [apply list_elem_of_here|]. by apply list_elem_of_further, list_elem_of_further.
Qed.

(** The first node, reached from the last one. *)
Lemma unlink_first m p q B : kmapped cr3 K m → ring K m (q :: B ++ [p]) →
  ∃ m', set_next cr3 m p.1 (ld32 m q.1) = Some m' ∧ kmapped cr3 K m' ∧ ring K m' (B ++ [p]) ∧
    changes_only (within p.1 8) m m'.
Proof.
  intros Hk Hr. pose proof Hr as [_ HF Hs Hch HK]. pose proof (ring_nodes m _ p Hr) as Hp.
  destruct Hp as [Hhp Hop]; [apply list_elem_of_further, elem_of_app; right; apply list_elem_of_here|].
  destruct (set_next_ok m p.1 (ld32 m q.1) Hk Hhp (ld32_range _ _)) as (-> & Hk' & Hc & H1 & H2).
  eexists. split; [reflexivity|]. split; [exact Hk'|]. split; [|exact Hc].
  destruct p as [pa pw], q as [qa qw]. cbn [chain first fst snd] in *. destruct Hch as (Hqn & _ & Hch).
  apply chain_app in Hch as [HchB Hcp]. cbn [chain first] in *. destruct Hcp as (_ & Hpu & _).
  apply Forall_cons in HF as [_ HF]. apply StronglySorted_cons in Hs as [_ Hs]. pose proof HF as HF'. apply Forall_app in HF' as [HFB _].
  pose proof Hs as Hs'. apply StronglySorted_app in Hs' as (HBp & _ & _).
  split.
  - by destruct B.
  - exact HF.
  - exact Hs.
  - rewrite first_app. apply chain_app. cbn [chain first]. split; [|split; [|split; [by rewrite H2|done]]].
    + eapply chain_other; [exact Hc|exact HFB| |exact HchB]. intros x Hx.
      destruct (HBp x (pa, pw) Hx (list_elem_of_here _ _)) as [? _]. cbn in *. lia.
    + rewrite H1, Hqn. by rewrite first_app.
  - intros x y Hx. apply HK. by apply list_elem_of_further.
Qed.

(** The tail of a block is cut off. *)
Lemma cut_spec m A q B k : kmapped cr3 K m → ring K m (A ++ q :: B) → (∀ x, span q x → K x) → 1 <= k < q.2 →
  ∃ m1 m', set_units cr3 m q.1 (q.2 - k) = Some m1 ∧ get_units cr3 m1 q.1 = Some (q.2 - k) ∧
    set_units cr3 m1 (q.1 + 8 * (q.2 - k)) k = Some m' ∧
    kmapped cr3 K m' ∧ ring K m' (A ++ (q.1, q.2 - k) :: B) ∧ ld32 m' (q.1 + 8 * (q.2 - k) + 4) = k ∧
    changes_only (span q) m m'.
Proof.
  intros Hk Hr HKq Hkq. pose proof Hr as [_ HF Hs Hch HK].
  assert (q ∈ A ++ q :: B) as HqE by (apply elem_of_app; right; apply list_elem_of_here).
  destruct (ring_nodes m _ q Hr HqE) as [Hhq [Q0 Qu [Q8 Qf]]].
  destruct (set_units_ok m q.1 (q.2 - k) Hk Hhq) as (-> & Hk1 & Hc1 & H1 & H2); [lia|].
  set (b := q.1 + 8 * (q.2 - k)). assert (hdr b) as Hhb.
  { subst b. split; [lia|]. split; [lia|]. intros x Hx. apply HKq. unfold span, within in *. lia. }
  destruct (set_units_ok (st32 m (q.1 + 4) (q.2 - k)) b k Hk1 Hhb) as (E & Hk2 & Hc2 & H3 & H4); [lia|].
  exists (st32 m (q.1 + 4) (q.2 - k)). eexists. split; [done|]. split; [rewrite (get_units_ok _ _ Hk1 Hhq); by rewrite H1|].
  split; [exact E|]. split; [exact Hk2|].
  assert (changes_only (span q) m (st32 (st32 m (q.1 + 4) (q.2 - k)) (b + 4) k)) as Hc.
  { eapply changes_only_trans; (eapply changes_only_mono; [|eassumption]); unfold span, within; subst b; lia. }
  split; [|split; [exact H3|exact Hc]].
  rewrite first_app in Hch. apply chain_app in Hch as [HchA Hch]. destruct q as [qa qw]. cbn [chain first fst snd] in *.
  destruct Hch as (Hqn & Hqu & HchB).
  apply Forall_app in HF as [HFA HF]. apply Forall_cons in HF as [_ HFB].
  apply StronglySorted_app in Hs as (HAB & HsA & Hs). apply StronglySorted_cons in Hs as [Hq HsB]. rewrite Forall_forall in Hq.
  destruct (hdr_same _ _ b qa Hc2 Hhq) as [E1 E2]; [subst b; lia|].
  split.
  - by destruct A.
  - apply Forall_app; split; [exact HFA|]. apply Forall_cons. split; [split; cbn; lia|exact HFB].
  - apply StronglySorted_app. split_and!; [|exact HsA|apply StronglySorted_cons; split; [|exact HsB]].
    + intros x y Hx Hy. apply elem_of_cons in Hy as [->|Hy].
      * destruct (HAB x (qa, qw) Hx (list_elem_of_here _ _)). by split.
      * apply HAB; [exact Hx|by apply list_elem_of_further].
    + apply Forall_forall. intros x Hx. destruct (Hq x Hx) as [? ?]. cbn in *. split; cbn; lia.
  - rewrite first_app. apply chain_app. cbn [chain first]. split; [|split; [|split]].
    + eapply (chain_changes (span (qa, qw))); [exact Hc|exact HFA| |exact HchA]. intros x y Hx Hy Hsp.
      destruct (HAB x (qa, qw) Hx (list_elem_of_here _ _)) as [? _]. unfold header, span, within in *. cbn in *. lia.
    + congruence.
    + by rewrite E2, H1.
    + eapply (chain_changes (span (qa, qw))); [exact Hc|exact HFB| |exact HchB]. intros x y Hx Hy Hsp.
      destruct (Hq x Hx) as [? ?]. unfold header, span, within in *. cbn in *. lia.
  - intros x y Hx Hy. apply elem_of_app in Hx as [Hx|Hx]; [by apply (HK x); [apply elem_of_app; left|]|].
    apply elem_of_cons in Hx as [->|Hx]; [by apply (HK (qa, qw))|].
    apply (HK x); [apply elem_of_app; right; by apply list_elem_of_further|exact Hy].
Qed.

(** ** The heap and the blocks handed out *)

(** No list node is empty but [base]. *)
Definition nonempty (ns : list node) : Prop := ∀ q, q ∈ ns → q = (base, 0) ∨ 0 < q.2.

(** The free list [ns] with [base] on it, and the blocks [live] of the callers
    with their headers intact.  All of them lie in frames the heap has from the
    frame allocator, and none reaches the byte before [base], which is the
    kernel's own; the frames that are free are mapped. *)
Record heap_ok (h : heap) (ns live : list node) : Prop := {
  hk_map : kmapped cr3 K (h_mem h);
  hk_ring : ring K (h_mem h) ns;
  hk_freep : ∃ q, q ∈ ns ∧ freep h = q.1;
  hk_base : (base, 0) ∈ ns;
  hk_nonempty : nonempty ns;
  hk_live : ∀ n, n ∈ live → node_ok n ∧ 2 <= n.2 ∧ ld32 (h_mem h) (n.1 + 4) = n.2;
  hk_apart : ∀ n q, n ∈ live → q ∈ ns → below n q ∨ above n q;
  hk_disjoint : ∀ i j n n', live !! i = Some n → live !! j = Some n' → i ≠ j →
    n.1 + 8 * n.2 <= n'.1 ∨ n'.1 + 8 * n'.2 <= n.1;
  hk_pfa : pfa_wf (h_pfa h);
  hk_zero : frame_used (h_pfa h) 0 = true;
  hk_pages : ∀ x, spans ns x ∨ spans live x →
    K x ∧ frame_used (h_pfa h) (x / 4096) = true ∧ x / 4096 ≠ (base - 1) / 4096;
  hk_base_pages : ∀ x, within (base - 1) 9 x → frame_used (h_pfa h) (x / 4096) = true;
  hk_free : ∀ g x, 0 <= g < MAX_FRAMES → frame_used (h_pfa h) g = false → within (g * 4096) 4096 x → K x
}.

Lemma apart_span n q x : node_ok n → node_ok q → below n q ∨ above n q → span n x → ¬ span q x ∧ ¬ header q x.
Proof. intros [] [] H1 Hx. unfold below, above, span, header, within in *. lia. Qed.

Lemma apart_from n q : 1 <= n.2 → (∀ x, span n x → ¬ span q x ∧ ¬ header q x) → below n q ∨ above n q.
Proof.
  intros Hn H. unfold span, header, below, above, within in *. destruct (Z.lt_ge_cases q.1 n.1).
  - left. pose proof (H n.1 ltac:(lia)). lia.
  - right. destruct (Z.lt_ge_cases q.1 (n.1 + 8 * n.2)); [|lia]. pose proof (H q.1 ltac:(lia)). lia.
Qed.

(** Where a block goes in the list. *)
Lemma split_list n ns : StronglySorted before ns → node_ok n → (∀ q, q ∈ ns → below n q ∨ above n q) →
  ∃ L R, ns = L ++ R ∧ Forall (below n) L ∧ Forall (above n) R.
Proof.
  intros Hs Hn. induction ns as [|q ns IH]; intros Hd; [by exists [], []|].
  apply StronglySorted_cons in Hs as [Hq Hs]. rewrite Forall_forall in Hq.
  destruct (Hd q (list_elem_of_here _ _)) as [Hb|Ha].
  - destruct IH as (L & R & -> & HL & HR); [done|intros r Hr; apply Hd; by apply list_elem_of_further|].
    exists (q :: L), R. split; [done|]. split; [by apply Forall_cons|done].
  - exists [], (q :: ns). split; [done|]. split; [constructor|]. apply Forall_cons. split; [done|].
    apply Forall_forall. intros r Hr. destruct (Hq r Hr), Ha. split; lia.
Qed.

Lemma live_kept (W : Z → Prop) m m' n : changes_only W m m' → node_ok n → 1 <= n.2 →
  (∀ x, span n x → ¬ W x) → ld32 m' (n.1 + 4) = ld32 m (n.1 + 4).
Proof.
  intros Hc [N0 _ [N8 _]] Hn HW. apply ld32_ext; [lia|]. intros x Hx. apply Hc; [unfold within in Hx; lia|].
  apply HW. unfold span, within in *. lia.
Qed.

(** Putting a block that is neither free nor handed out on the list. *)
Lemma free_block m fp st ns live n :
  heap_ok (mkHeap m fp st) ns live → node_ok n → 2 <= n.2 → ld32 m (n.1 + 4) = n.2 →
  (∀ q, q ∈ ns → below n q ∨ above n q) →
  (∀ n', n' ∈ live → n.1 + 8 * n.2 <= n'.1 ∨ n'.1 + 8 * n'.2 <= n.1) →
  (∀ x, span n x → K x ∧ frame_used st (x / 4096) = true ∧ x / 4096 ≠ (base - 1) / 4096) →
  ∃ h' ns', kfree_internal cr3 base (n.1 + 8) (mkHeap m fp st) = Some h' ∧ h_pfa h' = st ∧ heap_ok h' ns' live ∧
    (∀ x, spans ns' x ↔ spans ns x ∨ span n x) ∧ (∃ q, q ∈ ns' ∧ n.2 <= q.2) ∧
    changes_only (λ x, ¬ spans live x) m (h_mem h').
Proof.
  intros Hh Hn H2 Hnu Hap Hlv Hpg. pose proof Hh as [Hk Hr Hfp Hb Hne0 Hl Ha Hd Hp Hz Hpp Hbp Hfr]. cbn [h_mem h_pfa freep] in *.
  destruct (split_list n ns (rg_sorted _ _ _ Hr) Hn Hap) as (L & R & -> & HL & HR).
  assert (hdr n.1) as Hhn.
  { destruct Hn as [N0 _ [N8 _]]. split; [lia|]. split; [lia|]. intros x Hx. apply Hpg. unfold span, within in *. lia. }
  assert (n.1 + 8 * n.2 ≠ base) as Hne.
  { intros E. destruct (Hpg (base - 1)) as (_ & _ & Hx); [unfold span, within; lia|]. by apply Hx. }
  assert (freeable n L R) as Hf by (by split).
  destruct (kfree_internal_spec m n L R Hk Hr Hf Hhn Hnu fp st Hfp) as (m' & c & -> & Hk' & Hr' & Hc' & Hch).
  pose proof (freed_spec n L R Hf (rg_ok _ _ _ Hr) (rg_sorted _ _ _ Hr)) as [F1 F2 F3 F4 F5 F6 F7].
  assert (∀ n' x, n' ∈ live → span n' x → ¬ (within n.1 8 x ∨ ∃ q, q ∈ L ++ R ∧ header q x)) as Hkeep.
  { intros n' x Hn' Hx [Hw|(q & Hq & Hw)].
    - pose proof (Hlv n' Hn'). unfold span, within in *. lia.
    - destruct (apart_span n' q x) as [_ Hno]; [by apply Hl|by apply (ring_nodes m _ q Hr)|by apply Ha|exact Hx|by apply Hno]. }
  eexists _, (freed L n R). split; [reflexivity|]. split; [done|]. cbn [h_mem].
  split; [|split; [exact F3|split; [exact F7|eapply changes_only_mono; [|exact Hch]; intros x Hx (n' & Hn' & Hsp); exact (Hkeep n' x Hn' Hsp Hx)]]].
  split; cbn [h_mem h_pfa freep]; try done.
  - intros q Hq. destruct (F6 q Hq) as [Hq0|?]; [by apply Hne0|right; lia].
  - intros n' Hn'. destruct (Hl n' Hn') as (H1 & H3 & H4). split; [done|]. split; [done|]. rewrite <- H4.
    eapply live_kept; [exact Hch|done|lia|]. intros x Hx. exact (Hkeep n' x Hn' Hx).
  - intros n' q Hn' Hq. destruct (Hl n' Hn') as (H1 & H3 & _). apply apart_from; [lia|]. intros x Hx. split.
    + intros Hsq. destruct (proj1 (F3 x) (ex_intro _ q (conj Hq Hsq))) as [(q0 & Hq0 & Hs0)|Hs0].
      * destruct (apart_span n' q0 x) as [Hno _]; [done|by apply (ring_nodes m _ q0 Hr)|by apply Ha|exact Hx|by apply Hno].
      * pose proof (Hlv n' Hn'). unfold span, within in *. lia.
    + intros Hhq. apply (Hkeep n' x Hn' Hx). destruct (F5 q Hq) as [E|(q0 & Hq0 & E)].
      * left. unfold header in Hhq. by rewrite E in Hhq.
      * right. exists q0. split; [done|]. unfold header in *. by rewrite <- E.
  - intros x [Hx|Hx]; [|by apply Hpp; right]. apply F3 in Hx as [Hx|Hx]; [by apply Hpp; left|by apply Hpg].
Qed.

(** Every byte of the heap, headers included, is in a frame that is taken. *)
Lemma heap_used h ns live q x : heap_ok h ns live → q ∈ ns → span q x ∨ header q x →
  frame_used (h_pfa h) (x / 4096) = true.
Proof.
  intros Hh Hq Hx. destruct (hk_nonempty _ _ _ Hh q Hq) as [->|Hpos].
  - apply (hk_base_pages _ _ _ Hh). destruct Hx as [Hx|Hx]; unfold span, header, within in *; cbn in *; lia.
  - apply (hk_pages _ _ _ Hh). left. exists q. split; [done|]. unfold span, header, within in *. lia.
Qed.

Lemma heap_ok_grow m fp st st' ns live (p : Z → bool) : heap_ok (mkHeap m fp st) ns live → pfa_wf st' →
  (∀ g, 0 <= g < MAX_FRAMES → frame_used st' g = p g || frame_used st g) → heap_ok (mkHeap m fp st') ns live.
Proof.
  intros [H1 H2 H3 H4 H0 H5 H6 H7 H8 H9 H10 H11 H12] Hwf Hst. cbn [h_mem h_pfa freep] in *.
  assert (∀ g, 0 <= g < MAX_FRAMES → frame_used st g = true → frame_used st' g = true) as Hmono
    by (intros g Hg E; by rewrite Hst, E, orb_true_r).
  assert (∀ x, is_u32 x → 0 <= x / 4096 < MAX_FRAMES) as Hpage by (clear; intros; word_lia).
  assert (∀ l x, Forall node_ok l → spans l x → is_u32 x) as Hu.
  { intros l x HF (q & Hq & Hx). rewrite Forall_forall in HF. destruct (HF q Hq) as [? _ [_ ?]]. unfold span, within in Hx. lia. }
  split; cbn [h_mem h_pfa freep]; try done.
  - apply Hmono; [lia|done].
  - intros x Hx. destruct (H10 x Hx) as (? & ? & ?). split; [done|]. split; [|done]. apply Hmono; [apply Hpage|done].
    destruct Hx as [Hx|Hx]; (eapply Hu; [|exact Hx]); [apply H2|]. apply Forall_forall. intros n Hn. by apply H5.
  - intros x Hx. apply Hmono; [|by apply H11]. apply Hpage. destruct (ring_nodes m ns _ H2 H4) as [_ [? _ [? _]]].
    unfold within in Hx. cbn in *. lia.
  - intros g x Hg Hf Hx. eapply H12; [exact Hg| |exact Hx]. rewrite Hst in Hf by done. by destruct (p g), (frame_used st g).
Qed.

(** Writes that spare the headers do not disturb the heap. *)
Lemma heap_ok_spare m m' fp st ns live (W : Z → Prop) : heap_ok (mkHeap m fp st) ns live → changes_only W m m' →
  (∀ x, W x → K x) → (∀ q x, q ∈ ns ∨ q ∈ live → header q x → ¬ W x) → heap_ok (mkHeap m' fp st) ns live.
Proof.
  intros Hh Hc HK HW. pose proof Hh as [H1 H2 H3 H4 H0 H5 H6 H7 H8 H9 H10 H11 H12]. cbn [h_mem h_pfa freep] in *.
  split; cbn [h_mem h_pfa freep]; try done.
  - eapply kmapped_changes; [exact H1|]. by eapply changes_only_mono.
  - destruct H2 as [R1 R2 R3 R4 R5]. split; try done. eapply chain_changes; [exact Hc|exact R2| |exact R4]. eauto.
  - intros n Hn. destruct (H5 n Hn) as (Ho & Hs & Hu). split; [done|]. split; [done|]. rewrite <- Hu.
    destruct Ho as [N0 _ [N8 _]]. apply ld32_ext; [lia|]. intros x Hx. apply Hc; [unfold within in Hx; lia|].
    apply (HW n); [by right|]. unfold header, within in *. lia.
Qed.

Lemma heap_ok_write m m' fp st ns live (W : Z → Prop) : heap_ok (mkHeap m fp st) ns live →
  changes_only W m m' → (∀ x, W x → K x ∧ frame_used st (x / 4096) = false) → heap_ok (mkHeap m' fp st) ns live.
Proof.
  intros Hh Hc HW. eapply heap_ok_spare; [exact Hh|exact Hc|intros x Hx; by apply HW|].
  intros q x [Hq|Hq] Hx Hw; destruct (HW x Hw) as [_ E].
  - pose proof (heap_used _ _ _ q x Hh Hq (or_intror Hx)) as E'. cbn in E'. congruence.
  - destruct (hk_live _ _ _ Hh q Hq) as (_ & H2 & _). destruct (hk_pages _ _ _ Hh x) as (_ & E' & _); [|cbn in E'; congruence].
    right. exists q. split; [done|]. unfold span, header, within in *. lia.
Qed.

(** The allocator [st'] is [st] less a run of [n] free frames. *)
Definition frames_taken (st st' : pfa) (b n : Z) : Prop :=
  run_free st b n ∧ b + n <= MAX_FRAMES ∧
  ∀ g, 0 <= g < MAX_FRAMES → frame_used st' g = (b <=? g) && (g <? b + n) || frame_used st g.

Lemma morecore_spec units h ns live : heap_ok h ns live → 2 <= units → 8 * units < 4294963200 →
  let pages := (8 * units + 4095) / 4096 in
  ∃ r h', morecore cr3 base units h = Some (r, h') ∧
    ((r = 0 ∧ h' = h ∧ ∀ b, 0 <= b → b + pages <= MAX_FRAMES → ¬ run_free (h_pfa h) b pages) ∨
     (∃ b ns', r ≠ 0 ∧ r = freep h' ∧ heap_ok h' ns' live ∧ 0 < b ∧ frames_taken (h_pfa h) (h_pfa h') b pages ∧ (∃ q, q ∈ ns' ∧ units <= q.2) ∧
        (∀ x, spans ns' x ↔ spans ns x ∨ within (b * 4096) (pages * 4096) x) ∧
        changes_only (λ x, ¬ spans live x) (h_mem h) (h_mem h'))).
Proof.
  intros Hh Hu2 Hu8. destruct h as [m fp st]. cbv zeta. set (pages := (8 * units + 4095) / 4096). unfold morecore.
  assert (0 < pages < 1048576 ∧ 8 * units <= pages * 4096) as [Hpg Hfit] by (subst pages; clear - Hu2 Hu8; word_lia).
  assert (((units *ᵤ 8) +ᵤ 4096 -ᵤ 1) / 4096 = pages) as -> by (subst pages; clear - Hu2 Hu8; rewrite (u32_small (units * 8)), (u32_small (units * 8 + 4096)), u32_small by lia; f_equal; lia).
  cbn [h_pfa h_mem freep]. destruct (pfa_alloc_contiguous_spec st pages (hk_pfa _ _ _ Hh)) as (a & st' & -> & Hal); [lia|].
  rewrite bind_Some. cbv beta iota.
  destruct Hal as [(-> & -> & Hno)|(b & Ha & Hb0 & Hbn & Hrun & _ & Hwf & Hst)]; cbn [fst snd] in *.
  { exists 0. eexists. split; [reflexivity|]. left. by split. }
  assert (b ≠ 0) as Hbz. { intros ->. pose proof (hk_zero _ _ _ Hh) as E. cbn in E. rewrite Hrun in E by lia. done. }
  subst a. rewrite (proj2 (Z.eqb_neq (b * 4096) 0)) by lia.
  replace ((pages *ᵤ 4096) / 8) with (512 * pages) by (clear - Hpg; rewrite u32_small by lia; word_lia).
  set (n := (b * 4096, 512 * pages)).
  assert (∀ x, within (b * 4096) (pages * 4096) x → K x ∧ frame_used st (x / 4096) = false ∧ b <= x / 4096 < b + pages) as Hnew.
  { intros x Hx. assert (b <= x / 4096 < b + pages) as Hp by (clear - Hx; unfold within in Hx; word_lia).
    pose proof (Hrun (x / 4096) Hp) as Hfr. split; [|by split].
    apply (hk_free _ _ _ Hh (x / 4096)); [lia|exact Hfr|]. clear. unfold within. word_lia. }
  assert (hdr (b * 4096)) as Hhb. { split; [lia|]. split; [lia|]. intros x Hx. apply Hnew. unfold within in *. lia. }
  destruct (set_units_ok m (b * 4096) (512 * pages) (hk_map _ _ _ Hh) Hhb) as (-> & _ & Hc1 & Hn4 & _); [lia|]. rewrite bind_Some.
  set (m1 := st32 m _ _) in *.
  assert (heap_ok (mkHeap m1 fp st') ns live) as Hh1.
  { eapply heap_ok_grow; [|exact Hwf|exact Hst]. eapply heap_ok_write; [exact Hh|exact Hc1|].
    intros x Hx. destruct (Hnew x) as (? & ? & _); [unfold within in *; lia|]. by split. }
  assert (∀ x, span n x → within (b * 4096) (pages * 4096) x) as Hspan by (unfold span, within; cbn; lia).
  destruct (free_block m1 fp st' ns live n Hh1) as (h' & ns' & Hfree & Hp' & Hh' & Hsp & (qb & Hqb & Hbig) & Hch).
  { subst n. split; cbn; lia. }
  { subst n. cbn. lia. }
  { exact Hn4. }
  { intros q Hq. apply apart_from; [subst n; cbn; lia|]. intros x Hx.
    assert (¬ (span q x ∨ header q x)); [|tauto]. intros Hqx.
    pose proof (heap_used _ _ _ q x Hh Hq Hqx) as E. cbn in E. destruct (Hnew x (Hspan x Hx)) as (_ & E' & _). congruence. }
  { intros n' Hn'. destruct (hk_live _ _ _ Hh n' Hn') as (_ & Hn2 & _).
    assert (∀ x, span n' x → ¬ span n x) as Hno.
    { intros x Hx1 Hx2. destruct (hk_pages _ _ _ Hh x) as (_ & E & _); [right; by exists n'|]. cbn in E.
      destruct (Hnew x (Hspan x Hx2)) as (_ & E' & _). congruence. }
    assert (0 < n.2) by (subst n; cbn; lia). clear - Hno Hn2 H. unfold span, within in Hno. destruct (Z.lt_ge_cases n.1 n'.1).
    - pose proof (Hno n'.1). lia.
    - pose proof (Hno n.1). lia. }
  { intros x Hx. destruct (Hnew x (Hspan x Hx)) as (H1 & H2 & H3). split; [done|]. split.
    - rewrite Hst by lia. by rewrite (proj2 (Z.leb_le _ _)), (proj2 (Z.ltb_lt _ _)) by lia.
    - intros E. rewrite E in H2. pose proof (hk_base_pages _ _ _ Hh (base - 1)) as Hbp. cbn in Hbp.
      rewrite Hbp in H2; [done|unfold within; lia]. }
  assert (ptr_add (b * 4096) 1 = n.1 + 8) as -> by (unfold ptr_add; subst n; cbn; rewrite u32_small; lia).
  rewrite Hfree, bind_Some. exists (freep h'), h'. split; [done|]. right. exists b, ns'.
  split.
  { destruct (hk_freep _ _ _ Hh') as (q & Hq & ->). destruct (ring_nodes _ _ q (hk_ring _ _ _ Hh') Hq) as [_ [? _ _]]. lia. }
  split; [done|]. split; [exact Hh'|]. split; [lia|].
  split; [split; [exact Hrun|split; [lia|rewrite Hp'; exact Hst]]|]. split; [exists qb; split; [exact Hqb|subst n; cbn in Hbig; lia]|]. split.
  - intros x. rewrite Hsp. unfold span, within. subst n. cbn. replace (8 * (512 * pages)) with (pages * 4096) by lia. done.
  - cbn [h_mem]. eapply changes_only_trans; [|exact Hch]. eapply changes_only_mono; [|exact Hc1].
    intros x Hx (n' & Hn' & Hsx). destruct (hk_pages _ _ _ Hh x) as (_ & E & _); [right; by exists n'|]. cbn in E.
    destruct (Hnew x) as (_ & E' & _); [unfold within in *; lia|]. congruence.
Qed.

(** ** Handing a block out *)

Lemma take_block m m' fp fp' st ns ns' live n : heap_ok (mkHeap m fp st) ns live →
  kmapped cr3 K m' → ring K m' ns' → (∃ q, q ∈ ns' ∧ fp' = q.1) → (base, 0) ∈ ns' → nonempty ns' →
  node_ok n → 2 <= n.2 → ld32 m' (n.1 + 4) = n.2 → (∀ q, q ∈ ns' → below n q ∨ above n q) →
  (∀ x, spans ns x ↔ spans ns' x ∨ span n x) → (∀ q, q ∈ ns' → ∃ q0, q0 ∈ ns ∧ q.1 = q0.1 ∧ q.2 <= q0.2) →
  changes_only (λ x, ∃ q, q ∈ ns ∧ (span q x ∨ header q x)) m m' →
  heap_ok (mkHeap m' fp' st) ns' (n :: live) ∧ changes_only (λ x, ¬ spans live x) m m'.
Proof.
  intros Hh Hk' Hr' Hfp' Hb' Hne' Hn H2 Hn4 Hap Hsp Hsub Hc.
  pose proof Hh as [Hk Hr Hfp Hb Hne Hl Ha Hd Hp Hz Hpp Hbp Hfr]. cbn [h_mem h_pfa freep] in *.
  assert (∀ l q x, l ∈ live → q ∈ ns → span l x → ¬ (span q x ∨ header q x)) as Hkeep.
  { intros l q x Hl' Hq Hx. destruct (apart_span l q x) as [? ?]; [by apply Hl|by apply (ring_nodes m ns q Hr)|by apply Ha|done|tauto]. }
  assert (changes_only (λ x, ¬ spans live x) m m') as Hcl.
  { eapply changes_only_mono; [|exact Hc]. intros x (q & Hq & Hqx) (l & Hl' & Hlx). by apply (Hkeep l q x). }
  split; [|exact Hcl]. split; cbn [h_mem h_pfa freep]; try done.
  - intros l [->|Hl']%elem_of_cons; [done|]. destruct (Hl l Hl') as (H1 & H3 & H4). split; [done|]. split; [done|]. rewrite <- H4.
    eapply live_kept; [exact Hc|done|lia|]. intros x Hx (q & Hq & Hqx). by apply (Hkeep l q x).
  - intros l q [->|Hl']%elem_of_cons Hq; [by apply Hap|]. destruct (Hsub q Hq) as (q0 & Hq0 & E1 & E2).
    destruct (Ha l q0 Hl' Hq0) as [[? ?]|[? ?]]; [left|right]; split; lia.
  - assert (∀ l, l ∈ live → n.1 + 8 * n.2 <= l.1 ∨ l.1 + 8 * l.2 <= n.1) as Hnl.
    { intros l Hl'. destruct (Hl l Hl') as (_ & H3 & _).
      assert (∀ x, span l x → ¬ span n x) as Hno.
      { intros x Hx Hnx. destruct (proj2 (Hsp x) (or_intror Hnx)) as (q & Hq & Hqx). apply (Hkeep l q x Hl' Hq Hx). by left. }
      clear - Hno H2 H3. unfold span, within in Hno. destruct (Z.lt_ge_cases n.1 l.1); [pose proof (Hno l.1)|pose proof (Hno n.1)]; lia. }
    intros [|i] [|j] l l' Hi Hj Hij; simpl in Hi, Hj; simplify_eq.
    + apply Hnl. by eapply list_elem_of_lookup_2.
    + destruct (Hnl l); [by eapply list_elem_of_lookup_2|by right|by left].
    + apply (Hd i j); [done..|congruence].
  - intros x Hx. apply Hpp. destruct Hx as [Hx|(l & [->|Hl']%elem_of_cons & Hx)].
    + left. apply Hsp. by left.
    + left. apply Hsp. by right.
    + right. by exists l.
Qed.

(** How a found block is taken, whole or in part; [i] is the node before. *)
Definition taken (h : heap) (ns live : list node) (units : Z) (r : Z * heap) : Prop :=
  ∃ a ns', r.1 = a + 8 ∧ heap_ok r.2 ns' ((a, units) :: live) ∧ h_pfa r.2 = h_pfa h ∧
    (∀ x, spans ns x ↔ spans ns' x ∨ span (a, units) x) ∧
    changes_only (λ x, ¬ spans live x) (h_mem h) (h_mem r.2).

Lemma before_apart n q : before q n ∨ before n q → below n q ∨ above n q.
Proof. intros [[? ?]|[? ?]]; [left|right]; split; lia. Qed.

Lemma step_cut h ns live units j q p : heap_ok h ns live → ns !! j = Some q → p ∈ ns → 2 <= units < q.2 →
  ∃ r, malloc_step cr3 base units (h, p.1, q.1) = Some (inr r) ∧ taken h ns live units r.
Proof.
  intros Hh Hj Hp Hu. destruct h as [m fp st]. pose proof Hh as [Hk Hr Hfp Hb Hne Hl Ha Hd Hpf Hz Hpp Hbp Hfr]. cbn [h_mem h_pfa freep] in *.
  pose proof (list_elem_of_lookup_2 _ _ _ Hj) as Hq. destruct (ring_nodes m ns q Hr Hq) as [Hhq [Q0 Qu [Q8 Qf]]].
  destruct q as [a u] eqn:Eq. cbn [fst snd] in *. rewrite <- Eq in Hj, Hq.
  assert (ld32 m (a + 4) = u) as Hqu by (subst q; by apply (chain_lookup m ns _ j a u (rg_chain _ _ _ Hr))).
  unfold malloc_step. cbn [h_mem h_pfa freep]. rewrite (get_units_ok m a Hk Hhq), Hqu, bind_Some.
  rewrite (proj2 (Z.leb_le units u)), (proj2 (Z.eqb_neq u units)), (u32_small (u - units)) by lia.
  set (A := take j ns). set (B := drop (S j) ns).
  assert (ns = A ++ q :: B) as Hns by (symmetry; by apply take_drop_middle).
  assert (ring K m (A ++ q :: B)) as HrA by (by rewrite <- Hns).
  destruct (cut_spec m A q B units Hk HrA) as (m1 & m' & E1 & E2 & E3 & Hk' & Hr' & Hb4 & Hc);
    [intros x Hx; apply Hpp; left; exists q; by split|subst q; cbn; lia|]. subst q. cbn [fst snd] in *.
  rewrite E1, bind_Some, E2, bind_Some. cbv zeta. set (b := a + 8 * (u - units)) in *.
  assert (ptr_add a (u - units) = b) as -> by (unfold ptr_add; apply u32_small; lia).
  assert (ptr_add b 1 = b + 8) as -> by (unfold ptr_add; apply u32_small; lia).
  rewrite E3, bind_Some. eexists. split; [reflexivity|].
  destruct (take_block m m' fp p.1 st ns (A ++ (a, u - units) :: B) live (b, units) Hh Hk' Hr') as [Hh' Hcl].
  - rewrite Hns in Hp. apply elem_of_app in Hp as [Hp|[->|Hp]%elem_of_cons].
    + exists p. split; [by apply elem_of_app; left|done].
    + exists (a, u - units). split; [apply elem_of_app; right; apply list_elem_of_here|done].
    + exists p. split; [apply elem_of_app; right; by apply list_elem_of_further|done].
  - rewrite Hns in Hb. apply elem_of_app in Hb as [Hb|[E|Hb]%elem_of_cons]; [by apply elem_of_app; left|simplify_eq; lia|].
    apply elem_of_app; right. by apply list_elem_of_further.
  - intros q0 [Hq0|[->|Hq0]%elem_of_cons]%elem_of_app; [apply Hne|right; cbn; lia|apply Hne]; rewrite Hns.
    + by apply elem_of_app; left.
    + apply elem_of_app; right. by apply list_elem_of_further.
  - split; cbn; lia.
  - cbn. lia.
  - exact Hb4.
  - pose proof (rg_sorted _ _ _ HrA) as Hs. apply StronglySorted_app in Hs as (HAB & _ & Hs). apply StronglySorted_cons in Hs as [Hqb _].
    rewrite Forall_forall in Hqb. intros q0 [Hq0|[->|Hq0]%elem_of_cons]%elem_of_app.
    + left. destruct (HAB q0 (a, u) Hq0 (list_elem_of_here _ _)) as [? ?]. cbn in *. split; cbn; lia.
    + left. split; cbn; lia.
    + right. destruct (Hqb q0 Hq0) as [? ?]. cbn in *. split; cbn; lia.
  - intros x. rewrite Hns, !spans_app, !spans_cons.
    assert (span (a, u) x ↔ span (a, u - units) x ∨ span (b, units) x) by (unfold span, within; cbn; lia). tauto.
  - intros q0 [Hq0|[->|Hq0]%elem_of_cons]%elem_of_app; rewrite Hns.
    + exists q0. split; [by apply elem_of_app; left|]. split; [done|lia].
    + exists (a, u). split; [apply elem_of_app; right; apply list_elem_of_here|]. cbn. split; [done|lia].
    + exists q0. split; [apply elem_of_app; right; by apply list_elem_of_further|]. split; [done|lia].
  - eapply changes_only_mono; [|exact Hc]. intros x Hx. exists (a, u). split; [exact Hq|by left].
  - exists b, (A ++ (a, u - units) :: B). cbn [fst snd]. split; [done|]. split; [exact Hh'|]. split; [done|]. split; [|exact Hcl].
    intros x. rewrite Hns, !spans_app, !spans_cons.
    assert (span (a, u) x ↔ span (a, u - units) x ∨ span (b, units) x) by (unfold span, within; cbn; lia). tauto.
Qed.

(** The whole block. *)
Lemma step_exact h ns live units i j q p : heap_ok h ns live → ns !! j = Some q → ns !! i = Some p →
  j = (S i mod length ns)%nat → q.2 = units → 2 <= units →
  ∃ r, malloc_step cr3 base units (h, p.1, q.1) = Some (inr r) ∧ taken h ns live units r.
Proof.
  intros Hh Hj Hi Hij Hqu Hu. destruct h as [m fp st]. pose proof Hh as [Hk Hr Hfp Hb Hne Hl Ha Hd Hpf Hz Hpp Hbp Hfr]. cbn [h_mem h_pfa freep] in *.
  pose proof (list_elem_of_lookup_2 _ _ _ Hj) as Hq. destruct (ring_nodes m ns q Hr Hq) as [Hhq Hoq].
  assert (ld32 m (q.1 + 4) = units) as Hm4.
  { destruct q as [a u]. cbn [fst snd] in *. destruct (chain_lookup m ns _ j a u (rg_chain _ _ _ Hr) Hj) as [_ ->]. done. }
  unfold malloc_step. cbn [h_mem h_pfa freep]. rewrite (get_units_ok m q.1 Hk Hhq), Hm4, bind_Some.
  rewrite Z.leb_refl, Z.eqb_refl, (get_next_ok m q.1 Hk Hhq), bind_Some.
  assert (∃ m' ns' X Y, set_next cr3 m p.1 (ld32 m q.1) = Some m' ∧ kmapped cr3 K m' ∧ ring K m' ns' ∧ changes_only (within p.1 8) m m' ∧
    p ∈ ns' ∧ ns = X ++ q :: Y ∧ ns' = X ++ Y) as (m' & ns' & X & Y & E & Hk' & Hr' & Hc & Hpn & HX & Hn').
  { pose proof (lookup_lt_Some _ _ _ Hi) as Hil. destruct (decide (S i = length ns)) as [HS|HS].
    - rewrite HS, Nat.Div0.mod_same in Hij by lia. subst j. destruct ns as [|q' ns1]; [done|]. simpl in Hj. simplify_eq.
      destruct ns1 as [|p' B _] using rev_ind.
      { apply list_elem_of_singleton in Hb. subst q. cbn in Hu. lia. }
      assert (p' = p) as ->.
      { rewrite app_comm_cons in Hi. simpl length in HS. rewrite length_app in HS. simpl in HS.
        rewrite lookup_app_r in Hi by (simpl; lia). replace (i - length (q :: B))%nat with 0%nat in Hi by (simpl; lia). simpl in Hi. by simplify_eq. }
      destruct (unlink_first m p q B Hk Hr) as (m' & E & Hk' & Hr' & Hc). exists m', (B ++ [p]), [], (B ++ [p]).
      split_and!; try done. apply elem_of_app; right; apply list_elem_of_here.
    - rewrite Nat.mod_small in Hij by lia. subst j. assert (ns = take i ns ++ p :: q :: drop (S (S i)) ns) as Hns.
      { rewrite <- (take_drop_middle ns i p Hi) at 1. f_equal. f_equal. by apply drop_S. }
      rewrite Hns in Hr. destruct (unlink_middle m (take i ns) p q (drop (S (S i)) ns) Hk Hr) as (m' & E & Hk' & Hr' & Hc).
      exists m', (take i ns ++ p :: drop (S (S i)) ns), (take i ns ++ [p]), (drop (S (S i)) ns).
      split_and!; try done; [apply elem_of_app; right; apply list_elem_of_here| |]; by rewrite <- app_assoc. }
  rewrite E, bind_Some. eexists. split; [reflexivity|].
  pose proof (rg_sorted _ _ _ Hr) as Hs. rewrite HX in Hs. apply StronglySorted_app in Hs as (HAB & _ & Hs).
  apply StronglySorted_cons in Hs as [Hqb _]. rewrite Forall_forall in Hqb.
  assert (∀ r, r ∈ ns' → r ∈ ns) as Hsub.
  { intros r. rewrite Hn', HX, !elem_of_app, elem_of_cons. tauto. }
  assert (∀ r, r ∈ ns' → before r q ∨ before q r) as Hord.
  { intros r. rewrite Hn', elem_of_app. intros [Hrx|Hry]; [left; apply HAB; [done|apply list_elem_of_here]|right; by apply Hqb]. }
  assert (∀ x, spans ns x ↔ spans ns' x ∨ span q x) as Hsp.
  { intros x. rewrite Hn', HX, !spans_app, spans_cons. tauto. }
  destruct (take_block m m' fp p.1 st ns ns' live q Hh Hk' Hr') as [Hh' Hcl].
  - by exists p.
  - assert ((base, 0) ∈ X ++ q :: Y) as Hb2 by (by rewrite <- HX). rewrite Hn'. apply elem_of_app in Hb2 as [Hb2|[Eq|Hb2]%elem_of_cons].
    + by apply elem_of_app; left.
    + rewrite <- Eq in Hqu. cbn in Hqu. lia.
    + by apply elem_of_app; right.
  - intros r Hr0. by apply Hne, Hsub.
  - exact Hoq.
  - lia.
  - rewrite Hqu, <- Hm4. destruct (Hord p Hpn) as [[? _]|[? _]]; eapply hdr_same; try exact Hc; try exact Hhq; lia.
  - intros r Hr0. apply before_apart. by apply Hord.
  - exact Hsp.
  - intros r Hr0. exists r. split; [by apply Hsub|]. split; [done|lia].
  - eapply changes_only_mono; [|exact Hc]. intros x Hx. exists p. split; [by apply Hsub|by right].
  - exists q.1, ns'. cbn [fst snd]. rewrite <- Hqu, <- surjective_pairing. split_and!; [|exact Hh'|done|exact Hsp|exact Hcl].
    destruct Hoq as [? _ [_ ?]]. unfold ptr_add. apply u32_small. lia.
Qed.

Lemma step_take h ns live units i j q p : heap_ok h ns live → ns !! j = Some q → ns !! i = Some p →
  j = (S i mod length ns)%nat → 2 <= units <= q.2 →
  ∃ r, malloc_step cr3 base units (h, p.1, q.1) = Some (inr r) ∧ taken h ns live units r.
Proof.
  intros Hh Hj Hi Hij Hu. destruct (Z.eq_dec q.2 units).
  - eapply step_exact; [exact Hh|exact Hj|exact Hi|exact Hij|done|lia].
  - eapply step_cut; [exact Hh|exact Hj|by eapply list_elem_of_lookup_2|lia].
Qed.

(** ** The search of kmalloc *)

(** How many nodes are left to look at: the distance of node [j] from node [f],
    the one of freep, along the links. *)
Definition dist (len f j : nat) : Z := (Z.of_nat f - Z.of_nat j) mod Z.of_nat len.

Lemma dist_bounds len f j : (0 < len)%nat → 0 <= dist len f j < Z.of_nat len.
Proof. intros. apply Z.mod_pos_bound. lia. Qed.

Lemma dist_zero len f j : (f < len)%nat → (j < len)%nat → dist len f j = 0 ↔ j = f.
Proof.
  intros Hf Hj. unfold dist. split; [|intros ->; by rewrite Z.sub_diag, Z.mod_0_l by lia].
  intros H. apply Z.mod_divide in H as [k Hk]; [|lia]. assert (k = 0) by nia. lia.
Qed.

Lemma dist_inj len f i j : (i < len)%nat → (j < len)%nat → dist len f i = dist len f j → i = j.
Proof.
  intros Hi Hj E. unfold dist in E. apply (f_equal (λ x, (Z.of_nat f - x) mod Z.of_nat len)) in E.
  rewrite !Zminus_mod_idemp_r in E.
  replace (Z.of_nat f - (Z.of_nat f - Z.of_nat i)) with (Z.of_nat i) in E by lia.
  replace (Z.of_nat f - (Z.of_nat f - Z.of_nat j)) with (Z.of_nat j) in E by lia.
  rewrite !Z.mod_small in E by lia. lia.
Qed.

Lemma dist_step len f j : (0 < len)%nat → dist len f (S j mod len) = (Z.of_nat f - Z.of_nat j - 1) mod Z.of_nat len.
Proof. intros H. unfold dist. rewrite Nat2Z.inj_mod, Zminus_mod_idemp_r. f_equal. lia. Qed.

Lemma dist_next len f j : (f < len)%nat → (j < len)%nat → j ≠ f → dist len f (S j mod len) = dist len f j - 1.
Proof.
  intros Hf Hj Hne. rewrite dist_step by lia. apply mod_pred; [lia|]. intros E. by apply (dist_zero len f j) in E.
Qed.

Lemma dist_start len f : (0 < len)%nat → dist len f (S f mod len) = Z.of_nat len - 1.
Proof. intros H. rewrite dist_step by done. rewrite Z.sub_diag. symmetry. apply Z.mod_unique_pos with (-1); lia. Qed.

Lemma ring_next m ns j q : ring K m ns → ns !! j = Some q →
  ∃ q', ns !! (S j mod length ns)%nat = Some q' ∧ ld32 m q.1 = q'.1.
Proof.
  intros Hr Hj. destruct q as [a u]. destruct (chain_lookup m ns _ j a u (rg_chain _ _ _ Hr) Hj) as [Hn _].
  pose proof (lookup_lt_Some _ _ _ Hj) as Hlt. cbn [fst]. destruct (ns !! S j) as [n|] eqn:Hsj.
  - pose proof (lookup_lt_Some _ _ _ Hsj). rewrite Nat.mod_small by lia. by exists n.
  - apply lookup_ge_None in Hsj. replace (length ns) with (S j) by lia. rewrite Nat.Div0.mod_same.
    destruct ns as [|[b w] ns]; [done|]. exists (b, w). split; [done|exact Hn].
Qed.

Lemma ring_units m ns q : ring K m ns → q ∈ ns → ld32 m (q.1 + 4) = q.2.
Proof.
  intros Hr Hq. apply list_elem_of_lookup in Hq as [i Hi]. destruct q as [a u].
  by apply (chain_lookup m ns _ i a u (rg_chain _ _ _ Hr)).
Qed.

(** [prev] and [curr] are nodes in a row, the second the [j]-th. *)
Definition spot (ns : list node) (prev curr : Z) (j : nat) : Prop :=
  ∃ i p q, ns !! i = Some p ∧ ns !! j = Some q ∧ j = (S i mod length ns)%nat ∧ prev = p.1 ∧ curr = q.1.

Lemma step_next h ns live units f qf prev curr j q : heap_ok h ns live → ns !! f = Some qf → freep h = qf.1 →
  spot ns prev curr j → ns !! j = Some q → q.2 < units → j ≠ f →
  ∃ next, malloc_step cr3 base units (h, prev, curr) = Some (inl (h, curr, next)) ∧
    spot ns curr next (S j mod length ns).
Proof.
  intros Hh Hf Hfp (i & p & q' & Hi & Hj' & Hij & -> & ->) Hj Hu Hne. rewrite Hj in Hj'. simplify_eq.
  destruct (ring_nodes _ ns q' (hk_ring _ _ _ Hh)) as [Hhq _]; [by eapply list_elem_of_lookup_2|].
  assert (ld32 (h_mem h) (q'.1 + 4) = q'.2) as Hqu.
  { eapply ring_units; [apply Hh|by eapply list_elem_of_lookup_2]. }
  unfold malloc_step. rewrite (get_units_ok _ q'.1 (hk_map _ _ _ Hh) Hhq), Hqu, bind_Some, (proj2 (Z.leb_gt _ _) Hu), Hfp.
  assert (q'.1 ≠ qf.1) as Hneq.
  { intros E. set (j := (S i mod length ns)%nat) in *. destruct (lt_eq_lt_dec j f) as [[Hlt|Heq]|Hlt]; [|done|].
    - destruct (sorted_lookup _ _ _ _ _ (rg_sorted _ _ _ (hk_ring _ _ _ Hh)) Hj Hf Hlt) as [? _]. lia.
    - destruct (sorted_lookup _ _ _ _ _ (rg_sorted _ _ _ (hk_ring _ _ _ Hh)) Hf Hj Hlt) as [? _]. lia. }
  rewrite (proj2 (Z.eqb_neq _ _) Hneq), (get_next_ok _ q'.1 (hk_map _ _ _ Hh) Hhq), bind_Some.
  eexists. split; [reflexivity|]. destruct (ring_next _ ns _ q' (hk_ring _ _ _ Hh) Hj) as (q2 & Hq2 & ->).
  exists (S i mod length ns)%nat, q', q2. by split_and!.
Qed.

(** At the node of freep without a fit: more memory, or none. *)
Lemma step_more h ns live units f qf prev j : heap_ok h ns live → ns !! f = Some qf → freep h = qf.1 →
  spot ns prev qf.1 j → j = f → qf.2 < units → 2 <= units → 8 * units < 4294963200 →
  let pages := (8 * units + 4095) / 4096 in
  (malloc_step cr3 base units (h, prev, qf.1) = Some (inr (0, h)) ∧
     ∀ b, 0 <= b → b + pages <= MAX_FRAMES → ¬ run_free (h_pfa h) b pages) ∨
  (∃ h' b ns' f' qf' next, malloc_step cr3 base units (h, prev, qf.1) = Some (inl (h', qf'.1, next)) ∧
     heap_ok h' ns' live ∧ ns' !! f' = Some qf' ∧ freep h' = qf'.1 ∧ spot ns' qf'.1 next (S f' mod length ns') ∧
     0 < b ∧ frames_taken (h_pfa h) (h_pfa h') b pages ∧ (∃ q, q ∈ ns' ∧ units <= q.2) ∧
     (∀ x, spans ns' x ↔ spans ns x ∨ within (b * 4096) (pages * 4096) x) ∧
     changes_only (λ x, ¬ spans live x) (h_mem h) (h_mem h')).
Proof.
  intros Hh Hf Hfp _ _ Hu H2 H8. cbv zeta.
  destruct (ring_nodes _ ns qf (hk_ring _ _ _ Hh)) as [Hhq _]; [by eapply list_elem_of_lookup_2|].
  assert (ld32 (h_mem h) (qf.1 + 4) = qf.2) as Hqu.
  { eapply ring_units; [apply Hh|by eapply list_elem_of_lookup_2]. }
  unfold malloc_step. rewrite (get_units_ok _ qf.1 (hk_map _ _ _ Hh) Hhq), Hqu, bind_Some, (proj2 (Z.leb_gt _ _) Hu), Hfp, Z.eqb_refl.
  destruct (morecore_spec units h ns live Hh H2 H8) as (r & h' & -> & [(-> & -> & Hno)|(b & ns' & Hr0 & -> & Hh' & Hb & Hrun & Hbig & Hsp & Hc)]);
    rewrite bind_Some; cbv beta iota.
  - left. split; [done|exact Hno].
  - right. rewrite (proj2 (Z.eqb_neq _ _) Hr0). destruct (hk_freep _ _ _ Hh') as (qf' & Hqf' & Hfp').
    apply list_elem_of_lookup in Hqf' as [f' Hf'].
    destruct (ring_nodes _ ns' qf' (hk_ring _ _ _ Hh')) as [Hhq' _]; [by eapply list_elem_of_lookup_2|].
    rewrite Hfp', (get_next_ok _ qf'.1 (hk_map _ _ _ Hh') Hhq'), bind_Some.
    destruct (ring_next _ ns' _ qf' (hk_ring _ _ _ Hh') Hf') as (q2 & Hq2 & Hn2).
    exists h', b, ns', f', qf'. eexists. split; [reflexivity|]. split_and!; try done.
    exists f', qf', q2. by split_and!.
Qed.

(** What kmalloc returns: a block off the list; or, when none is large enough, a
    block off the list with new frames on it; or 0 when there are none. *)
Definition allocated (h : heap) (ns live : list node) (units : Z) (r : Z * heap) : Prop :=
  let pages := (8 * units + 4095) / 4096 in
  ((∃ q, q ∈ ns ∧ units <= q.2) ∧ taken h ns live units r) ∨
  ((∀ q, q ∈ ns → q.2 < units) ∧
   ((r = (0, h) ∧ ∀ b, 0 <= b → b + pages <= MAX_FRAMES → ¬ run_free (h_pfa h) b pages) ∨
    (∃ h1 ns1 b, heap_ok h1 ns1 live ∧ 0 < b ∧ frames_taken (h_pfa h) (h_pfa h1) b pages ∧
       (∀ x, spans ns1 x ↔ spans ns x ∨ within (b * 4096) (pages * 4096) x) ∧
       changes_only (λ x, ¬ spans live x) (h_mem h) (h_mem h1) ∧ taken h1 ns1 live units r))).

(** The states of the search: in the list as it was, with nothing large enough
    seen; or in the list with new frames, with a fit ahead. *)
Inductive searching (h0 : heap) (ns0 live : list node) (units : Z) : Z → heap * Z * Z → Prop :=
  | search_old f qf prev curr j : ns0 !! f = Some qf → freep h0 = qf.1 → spot ns0 prev curr j →
      (∀ t q, ns0 !! t = Some q → dist (length ns0) f j < dist (length ns0) f t → q.2 < units) →
      searching h0 ns0 live units (4294967296 + dist (length ns0) f j) (h0, prev, curr)
  | search_new h ns f qf prev curr j b : (∀ q, q ∈ ns0 → q.2 < units) → heap_ok h ns live →
      ns !! f = Some qf → freep h = qf.1 → spot ns prev curr j →
      (∃ t q, ns !! t = Some q ∧ dist (length ns) f t <= dist (length ns) f j ∧ units <= q.2) →
      0 < b → frames_taken (h_pfa h0) (h_pfa h) b ((8 * units + 4095) / 4096) →
      (∀ x, spans ns x ↔ spans ns0 x ∨ within (b * 4096) ((8 * units + 4095) / 4096 * 4096) x) →
      changes_only (λ x, ¬ spans live x) (h_mem h0) (h_mem h) →
      searching h0 ns0 live units (dist (length ns) f j) (h, prev, curr).

Lemma heap_length h ns live : heap_ok h ns live → Z.of_nat (length ns) <= 536870912.
Proof.
  intros Hh. pose proof (hk_ring _ _ _ Hh) as Hr.
  pose proof (sorted_length 0 ns (rg_sorted _ _ _ Hr) (rg_ok _ _ _ Hr)) as Hl.
  specialize (Hl ltac:(intros q Hq; destruct (ring_nodes _ ns q Hr Hq) as [_ [? _ _]]; lia) ltac:(lia)). lia.
Qed.

Lemma searching_step h ns live units k s : heap_ok h ns live → 2 <= units → 8 * units < 4294963200 →
  searching h ns live units k s → 0 <= k →
  ∃ o, malloc_step cr3 base units s = Some o ∧
    match o with inl s' => ∃ k', searching h ns live units k' s' ∧ 0 <= k' < k | inr r => allocated h ns live units r end.
Proof.
  intros Hh H2 H8 Hs Hk.
  destruct Hs as [f qf prev curr j Hf Hfp Hsp Hseen|h1 ns1 f qf prev curr j b Hnone Hh1 Hf Hfp Hsp Hahead Hb Hrun Hspan Hc];
    pose proof Hsp as (i & p & q & Hi & Hj & Hij & -> & ->); pose proof (lookup_lt_Some _ _ _ Hj) as Hjl; pose proof (lookup_lt_Some _ _ _ Hf) as Hfl.
  - pose proof (dist_bounds (length ns) f j ltac:(lia)) as Hdb. destruct (Z.le_gt_cases units q.2) as [Hfit|Hfit].
    + destruct (step_take h ns live units i j q p Hh Hj Hi Hij) as (r & -> & Hr); [lia|]. eexists. split; [done|].
      left. split; [|exact Hr]. exists q. split; [by eapply list_elem_of_lookup_2|done].
    + destruct (decide (j = f)) as [->|Hne].
      * rewrite Hf in Hj. simplify_eq. assert (∀ r, r ∈ ns → r.2 < units) as Hnone.
        { intros r Hr. apply list_elem_of_lookup in Hr as [t Ht]. pose proof (lookup_lt_Some _ _ _ Ht) as Htl.
          destruct (decide (t = (S i mod length ns)%nat)) as [->|Hte]; [by simplify_eq|]. eapply Hseen; [exact Ht|].
          rewrite (proj2 (dist_zero _ _ _ Hfl Hfl) eq_refl). pose proof (dist_bounds (length ns) (S i mod length ns) t ltac:(lia)).
          assert (dist (length ns) (S i mod length ns) t ≠ 0) by (intros E; by apply dist_zero in E). lia. }
        destruct (step_more h ns live units _ q p.1 _ Hh Hf Hfp Hsp eq_refl Hfit H2 H8)
          as [[-> Hno]|(h' & b & ns' & f' & qf' & next & -> & Hh' & Hf' & Hfp' & Hsp' & Hb & Hrun & (qb & Hqb & Hbig) & Hspan & Hc)];
          eexists; (split; [reflexivity|]).
        { right. split; [exact Hnone|]. left. by split. }
        apply list_elem_of_lookup in Hqb as [t Ht]. pose proof (lookup_lt_Some _ _ _ Ht). pose proof (heap_length _ _ _ Hh').
        pose proof (dist_start (length ns') f' ltac:(lia)) as Hds. pose proof (dist_bounds (length ns') f' t ltac:(lia)).
        eexists. split; [eapply (search_new _ _ _ _ h' ns' f' qf' qf'.1 next _ b); try done; exists t, qb; split_and!; [done|lia|done]|]. lia.
      * destruct (step_next h ns live units f qf p.1 q.1 j q Hh Hf Hfp Hsp Hj Hfit Hne) as (next & -> & Hsp').
        eexists. split; [reflexivity|]. pose proof (dist_next (length ns) f j Hfl Hjl Hne) as Hdn.
        pose proof (dist_bounds (length ns) f (S j mod length ns) ltac:(lia)).
        eexists. split; [eapply search_old; [exact Hf|exact Hfp|exact Hsp'|]|lia].
        intros t r Ht Hlt. destruct (decide (dist (length ns) f j < dist (length ns) f t)); [by eapply Hseen|].
        assert (dist (length ns) f t = dist (length ns) f j) as E by lia. pose proof (lookup_lt_Some _ _ _ Ht).
        assert (t = j) as -> by (by eapply (dist_inj (length ns) f)). by simplify_eq.
  - pose proof (dist_bounds (length ns1) f j ltac:(lia)) as Hdb. destruct (Z.le_gt_cases units q.2) as [Hfit|Hfit].
    + destruct (step_take h1 ns1 live units i j q p Hh1 Hj Hi Hij) as (r & -> & Hr); [lia|]. eexists. split; [done|].
      right. split; [exact Hnone|]. right. exists h1, ns1, b. by split_and!.
    + destruct Hahead as (t & r & Ht & Htd & Hr). pose proof (lookup_lt_Some _ _ _ Ht).
      assert (t ≠ j) as Htj by (intros ->; simplify_eq; lia).
      pose proof (dist_bounds (length ns1) f t ltac:(lia)).
      assert (dist (length ns1) f t ≠ dist (length ns1) f j) as Hdne.
      { intros E. apply Htj. by eapply (dist_inj (length ns1) f). }
      assert (j ≠ f) as Hne by (intros ->; rewrite (proj2 (dist_zero _ _ _ Hfl Hfl) eq_refl) in *; lia).
      destruct (step_next h1 ns1 live units f qf p.1 q.1 j q Hh1 Hf Hfp Hsp Hj Hfit Hne) as (next & -> & Hsp').
      eexists. split; [reflexivity|]. pose proof (dist_next (length ns1) f j Hfl Hjl Hne) as Hdn.
      eexists. split; [eapply (search_new _ _ _ _ h1 ns1 f qf q.1 next _ b); try done; exists t, r; split_and!; [done|lia|done]|]. lia.
Qed.

(** ** The three entry points *)

Lemma malloc_units_spec bytes : 0 < bytes <= 0xFFFFEFE0 →
  malloc_units bytes = (bytes + 7) / 8 + 1 ∧ 2 <= (bytes + 7) / 8 + 1 ∧ 8 * ((bytes + 7) / 8 + 1) < 4294963200 ∧
  bytes + 8 <= 8 * ((bytes + 7) / 8 + 1).
Proof.
  intros Hb. unfold malloc_units. rewrite (u32_small (bytes + 8)), (u32_small (bytes + 8 - 1)) by lia.
  replace (bytes + 8 - 1) with (bytes + 7) by lia. clear - Hb. split; [rewrite u32_small|]; word_lia.
Qed.

Lemma kmalloc_spec bytes h ns live : heap_ok h ns live → 0 < bytes <= 0xFFFFEFE0 →
  ∃ r, kmalloc cr3 base bytes h = Some r ∧ allocated h ns live ((bytes + 7) / 8 + 1) r.
Proof.
  intros Hh Hb. destruct (malloc_units_spec bytes Hb) as (Hu & H2 & H8 & _). unfold kmalloc.
  rewrite (proj2 (Z.eqb_neq bytes 0)), Hu by lia. cbv zeta. set (units := (bytes + 7) / 8 + 1) in *.
  destruct (hk_freep _ _ _ Hh) as (qf & Hqf & Hfp).
  destruct (ring_nodes _ ns qf (hk_ring _ _ _ Hh) Hqf) as [Hhq [Q0 _ _]].
  rewrite Hfp, (proj2 (Z.eqb_neq qf.1 0)), bind_Some, Hfp, (get_next_ok _ qf.1 (hk_map _ _ _ Hh) Hhq), bind_Some by lia.
  apply list_elem_of_lookup in Hqf as [f Hf]. pose proof (lookup_lt_Some _ _ _ Hf) as Hfl.
  destruct (ring_next _ ns f qf (hk_ring _ _ _ Hh) Hf) as (q & Hq & ->).
  pose proof (heap_length _ _ _ Hh). pose proof (dist_start (length ns) f ltac:(lia)) as Hds.
  apply (while_rank (searching h ns live units) (allocated h ns live units) _ (4294967296 + dist (length ns) f (S f mod length ns))).
  - eapply search_old; [exact Hf|exact Hfp|exists f, qf, q; by split_and!|].
    intros t r _ Hlt. pose proof (dist_bounds (length ns) f t ltac:(lia)). lia.
  - lia.
  - intros k s Hs Hk. by apply searching_step.
Qed.

Lemma heap_ok_drop h ns l1 n l2 : heap_ok h ns (l1 ++ n :: l2) → heap_ok h ns (l1 ++ l2).
Proof.
  intros [H1 H2 H3 H4 H5 H6 H7 H8 H9 H10 H11 H12 H13].
  assert (∀ x, x ∈ l1 ++ l2 → x ∈ l1 ++ n :: l2) as Hsub.
  { intros x. rewrite !elem_of_app, elem_of_cons. tauto. }
  split; try done; eauto.
  - intros i j a b Hi Hj Hij. set (up := λ k, if decide (k < length l1)%nat then k else S k).
    assert (∀ k x, (l1 ++ l2) !! k = Some x → (l1 ++ n :: l2) !! up k = Some x) as Hup.
    { intros k x Hk. subst up. cbn beta. destruct (decide (k < length l1)%nat).
      - by rewrite lookup_app_l in * by lia.
      - rewrite lookup_app_r in * by lia. by replace (S k - length l1)%nat with (S (k - length l1)) by lia. }
    apply (H8 (up i) (up j)); [by apply Hup..|]. subst up. cbn beta. repeat case_decide; lia.
  - intros x [Hx|(q & Hq & Hx)]; apply H11; [by left|]. right. exists q. by auto.
Qed.

Lemma kfree_spec h ns l1 n l2 : heap_ok h ns (l1 ++ n :: l2) →
  ∃ h' ns', kfree cr3 base (n.1 + 8) h = Some h' ∧ heap_ok h' ns' (l1 ++ l2) ∧ h_pfa h' = h_pfa h ∧
    (∀ x, spans ns' x ↔ spans ns x ∨ span n x) ∧ (∃ q, q ∈ ns' ∧ n.2 <= q.2) ∧
    changes_only (λ x, ¬ spans (l1 ++ l2) x) (h_mem h) (h_mem h').
Proof.
  intros Hh. destruct h as [m fp st]. assert (n ∈ l1 ++ n :: l2) as Hn by (apply elem_of_app; right; apply list_elem_of_here).
  destruct (hk_live _ _ _ Hh n Hn) as (Ho & H2 & Hu). cbn in Hu.
  destruct (free_block m fp st ns (l1 ++ l2) n) as (h' & ns' & E & Ep & Hh' & Hs & Hq & Hc).
  - by eapply heap_ok_drop.
  - exact Ho.
  - exact H2.
  - exact Hu.
  - intros q Hq. by apply (hk_apart _ _ _ Hh).
  - intros n' Hn'. apply list_elem_of_lookup in Hn' as [k Hk].
    destruct (decide (k < length l1)%nat).
    + rewrite lookup_app_l in Hk by lia. apply (hk_disjoint _ _ _ Hh (length l1) k); [by apply list_lookup_middle|by rewrite lookup_app_l by lia|lia].
    + rewrite lookup_app_r in Hk by lia. apply (hk_disjoint _ _ _ Hh (length l1) (S k)); [by apply list_lookup_middle| |lia].
      rewrite lookup_app_r by lia. by replace (S k - length l1)%nat with (S (k - length l1)) by lia.
  - intros x Hx. apply (hk_pages _ _ _ Hh). right. by exists n.
  - exists h', ns'. by split_and!.
Qed.

(** What kheap_init needs: [base] in mapped memory, the frames of [base] and of
    the byte before it taken like frame zero, and the free frames mapped. *)
Record init_ok (h : heap) : Prop := {
  io_map : kmapped cr3 K (h_mem h);
  io_base : hdr base ∧ 0 < base;
  io_pfa : pfa_wf (h_pfa h) ∧ frame_used (h_pfa h) 0 = true;
  io_base_pages : ∀ x, within (base - 1) 9 x → frame_used (h_pfa h) (x / 4096) = true;
  io_free : ∀ g x, 0 <= g < MAX_FRAMES → frame_used (h_pfa h) g = false → within (g * 4096) 4096 x → K x
}.

Lemma kheap_init_spec h : init_ok h →
  ∃ h', kheap_init cr3 base h = Some h' ∧ heap_ok h' [(base, 0)] [] ∧ h_pfa h' = h_pfa h.
Proof.
  intros [Hk [Hhb H0] [Hwf Hz] Hbp Hfr]. pose proof Hhb as (_ & H8 & HK). unfold kheap_init.
  destruct (set_next_ok (h_mem h) base base Hk Hhb) as (-> & Hk1 & _ & E1 & _); [lia|]. rewrite bind_Some.
  destruct (set_units_ok _ base 0 Hk1 Hhb) as (-> & Hk2 & _ & E2 & E3); [lia|]. rewrite bind_Some.
  eexists. split; [reflexivity|]. split; [|done].
  split; cbn [h_mem h_pfa freep]; try done.
  - split; [done| | | |].
    + apply Forall_singleton. split; cbn; lia.
    + repeat constructor.
    + cbn. split_and!; [congruence|done|done].
    + intros n x ->%list_elem_of_singleton Hx. by apply HK.
  - exists (base, 0). split; [apply list_elem_of_here|done].
  - apply list_elem_of_here.
  - intros q ->%list_elem_of_singleton. by left.
  - intros n Hn. by apply elem_of_nil in Hn.
  - intros n q Hn. by apply elem_of_nil in Hn.
  - intros x [(q & ->%list_elem_of_singleton & Hx)|(q & Hq & _)]; [unfold span, within in Hx; cbn in Hx; lia|by apply elem_of_nil in Hq].
Qed.
End spec.

(** ** The heap in use *)

Section client.
Context (cr3 base : Z) (K : Z → Prop).

Abbreviation ok := (heap_ok cr3 base K).

(** The bytes of a block its owner may use. *)
Definition payload (n : node) (x : Z) : Prop := within (n.1 + 8) (8 * n.2 - 8) x.

(** What the rest of the kernel may do with the heap: allocate, free a block it
    holds (or the null pointer), and write to the blocks it holds.  The list is
    that of the blocks held. *)
Inductive heap_call : heap * list node → heap * list node → Prop :=
  | call_kmalloc bytes h live p h' : 0 <= bytes <= 0xFFFFEFE0 → kmalloc cr3 base bytes h = Some (p, h') →
      heap_call (h, live) (h', if p =? 0 then live else (p - 8, malloc_units bytes) :: live)
  | call_kfree h l1 n l2 h' : kfree cr3 base (n.1 + 8) h = Some h' → heap_call (h, l1 ++ n :: l2) (h', l1 ++ l2)
  | call_kfree_null h live h' : kfree cr3 base 0 h = Some h' → heap_call (h, live) (h', live)
  | call_write h live n a v : n ∈ live → payload n a →
      heap_call (h, live) (mkHeap (st8 (h_mem h) a v) (freep h) (h_pfa h), live).

(** The blocks, free or held, are the bytes of the frames the heap has taken
    since the allocator was in the state [st0]. *)
Record whole (st0 : pfa) (h : heap) (ns live : list node) : Prop := {
  wh_blocks : ∀ x, is_u32 x → spans ns x ∨ spans live x ↔
    frame_used (h_pfa h) (x / 4096) = true ∧ frame_used st0 (x / 4096) = false;
  wh_kept : ∀ g, 0 <= g < MAX_FRAMES → frame_used st0 g = true → frame_used (h_pfa h) g = true
}.

Definition heap_inv (st0 : pfa) (s : heap * list node) : Prop :=
  ∃ ns, ok s.1 ns s.2 ∧ whole st0 s.1 ns s.2.

Lemma inv_taken st0 h ns live units r : whole st0 h ns live → taken cr3 base K h ns live units r →
  ∃ a, r.1 = a + 8 ∧ 0 < a ∧ heap_inv st0 (r.2, (a, units) :: live).
Proof.
  intros [Hw Hk] (a & ns' & E & Hok & Hp & Hsp & _). exists a. split; [done|]. split.
  - destruct (hk_live _ _ _ _ _ _ Hok (a, units) (list_elem_of_here _ _)) as ([H0 _ _] & _). exact H0.
  - exists ns'. split; [exact Hok|]. split; cbn [fst snd]; rewrite Hp; [|exact Hk].
    intros x Hx. rewrite <- (Hw x Hx), (Hsp x), spans_cons. tauto.
Qed.

(** The heap grows by whole frames that were free. *)
Lemma whole_grow st0 h ns h1 ns1 live b n : whole st0 h ns live → 0 < b → frames_taken (h_pfa h) (h_pfa h1) b n →
  (∀ x, spans ns1 x ↔ spans ns x ∨ within (b * 4096) (n * 4096) x) → whole st0 h1 ns1 live.
Proof.
  intros [Hw Hk] Hb (Hrun & Hn & Hst) Hsp. split.
  - intros x Hx. specialize (Hw x Hx). assert (0 <= x / 4096 < MAX_FRAMES) as Hg by word_lia. specialize (Hrun (x / 4096)).
    assert (within (b * 4096) (n * 4096) x ↔ b <= x / 4096 < b + n) as Hin by (unfold within; word_lia).
    rewrite Hsp, Hin, Hst by exact Hg. specialize (Hk (x / 4096) Hg). clear Hst Hsp.
    destruct (frame_used (h_pfa h) (x / 4096)), (frame_used st0 (x / 4096)), (Z.leb_spec b (x / 4096)), (Z.ltb_spec (x / 4096) (b + n)); cbn [andb orb]; intuition (try congruence; try lia).
  - intros g Hg H0. rewrite Hst by exact Hg. rewrite (Hk g Hg H0). apply orb_true_r.
Qed.

Lemma inv_kmalloc st0 bytes h live p h' : heap_inv st0 (h, live) → 0 < bytes <= 0xFFFFEFE0 →
  kmalloc cr3 base bytes h = Some (p, h') →
  heap_inv st0 (h', if p =? 0 then live else (p - 8, malloc_units bytes) :: live).
Proof.
  intros (ns & Hok & Hw) Hb E. cbn [fst snd] in *. destruct (kmalloc_spec cr3 base K bytes h ns live Hok Hb) as (r & E' & Ha).
  rewrite E in E'. injection E' as <-. destruct (malloc_units_spec bytes Hb) as [-> _].
  assert (∀ h1 ns1, whole st0 h1 ns1 live → taken cr3 base K h1 ns1 live ((bytes + 7) / 8 + 1) (p, h') →
    heap_inv st0 (h', if p =? 0 then live else (p - 8, (bytes + 7) / 8 + 1) :: live)) as Htaken.
  { intros h1 ns1 Hw1 Ht. destruct (inv_taken _ _ _ _ _ _ Hw1 Ht) as (a & Ea & H0 & Hi). cbn [fst snd] in *.
    rewrite (proj2 (Z.eqb_neq p 0)) by lia. by replace (p - 8) with a by lia. }
  destruct Ha as [[_ Ht]|[_ [[Er _]|(h1 & ns1 & b & _ & Hb0 & Hfr & Hsp & _ & Ht)]]].
  - by eapply Htaken.
  - injection Er as -> ->. by exists ns.
  - eapply Htaken; [|exact Ht]. by eapply whole_grow.
Qed.

Lemma inv_kfree st0 h l1 n l2 h' : heap_inv st0 (h, l1 ++ n :: l2) → kfree cr3 base (n.1 + 8) h = Some h' →
  heap_inv st0 (h', l1 ++ l2).
Proof.
  intros (ns & Hok & [Hw Hk]) E. destruct (kfree_spec cr3 base K h ns l1 n l2 Hok) as (h2 & ns' & E' & Hok' & Hp & Hsp & _).
  rewrite E in E'. injection E' as <-. exists ns'. split; [exact Hok'|]. split; cbn [fst snd] in *; rewrite Hp; [|exact Hk].
  intros x Hx. rewrite <- (Hw x Hx), Hsp, !spans_app, spans_cons. tauto.
Qed.

Lemma inv_write st0 h live n a v : heap_inv st0 (h, live) → n ∈ live → payload n a →
  heap_inv st0 (mkHeap (st8 (h_mem h) a v) (freep h) (h_pfa h), live).
Proof.
  intros (ns & Hok & Hw) Hn Ha. destruct h as [m fp st]. cbn [fst snd h_mem freep h_pfa] in *. exists ns. split; [|by destruct Hw].
  destruct (hk_live _ _ _ _ _ _ Hok n Hn) as ([N0 _ [_ N8]] & N2 & _).
  assert (span n a) as Hsa by (unfold payload, span, within in *; lia).
  apply (heap_ok_spare _ _ _ m _ fp st ns live (λ x, x = a) Hok).
  - apply changes_only_st8; [unfold span, within in Hsa; lia|done].
  - intros x ->. apply (hk_pages _ _ _ _ _ _ Hok). right. by exists n.
  - intros q x Hq Hx ->. destruct Hq as [Hq|Hq].
    + destruct (apart_span n q a) as [_ Hno]; [by apply (hk_live _ _ _ _ _ _ Hok)| |by apply (hk_apart _ _ _ _ _ _ Hok)|done|done].
      apply (ring_nodes K m ns q (hk_ring _ _ _ _ _ _ Hok) Hq).
    + destruct (hk_live _ _ _ _ _ _ Hok q Hq) as (_ & Q2 & _). apply list_elem_of_lookup in Hn as [i Hi]. apply list_elem_of_lookup in Hq as [j Hj].
      destruct (decide (i = j)) as [->|Hij]; [simplify_eq; unfold header, payload, within in *; lia|].
      pose proof (hk_disjoint _ _ _ _ _ _ Hok i j n q Hi Hj Hij). unfold header, payload, within in *. lia.
Qed.

Lemma inv_call st0 s s' : heap_inv st0 s → heap_call s s' → heap_inv st0 s'.
Proof.
  intros Hi Hc. destruct Hc as [bytes h live p h' Hb E|h l1 n l2 h' E|h live h' E|h live n a v Hn Ha].
  - destruct (Z.eq_dec bytes 0) as [->|Hne]; [|eapply inv_kmalloc; [exact Hi|lia|exact E]].
    unfold kmalloc in E. cbn in E. by injection E as <- <-.
  - by eapply inv_kfree.
  - unfold kfree, kfree_internal in E. cbn in E. by injection E as <-.
  - by eapply inv_write.
Qed.

Lemma inv_init h h' : init_ok cr3 base K h → kheap_init cr3 base h = Some h' → heap_inv (h_pfa h) (h', []).
Proof.
  intros Hi E. destruct (kheap_init_spec cr3 base K h Hi) as (h2 & E' & Hok & Hp). rewrite E in E'. injection E' as <-.
  exists [(base, 0)]. split; [exact Hok|]. split; cbn [fst snd]; rewrite Hp; [|done]. intros x Hx. split; [|intros [? ?]; congruence].
  intros [(q & ->%list_elem_of_singleton & Hq)|(q & Hq & _)]; [unfold span, within in Hq; cbn in Hq; lia|by apply elem_of_nil in Hq].
Qed.
End client.

(** ** Sizes *)

(** The units of a request cover it and the header, up to 0xFFFFFFF8 bytes; the
    largest requests wrap to one unit, which is the header alone. *)
Lemma malloc_units_range bytes : is_u32 bytes →
  (bytes <= 0xFFFFFFF8 → bytes + 8 <= 8 * malloc_units bytes < bytes + 16) ∧
  (0xFFFFFFF8 < bytes → malloc_units bytes = 1).
Proof.
  intros Hb. unfold malloc_units. split; intros H.
  - destruct (Z.lt_ge_cases (bytes + 8) 4294967296).
    + rewrite (u32_small (bytes + 8)) by lia. rewrite (u32_small (bytes + 8 - 1)) by lia. rewrite u32_small; word_lia.
    + assert (bytes = 0xFFFFFFF8) as -> by lia. vm_compute. by split.
  - word_lia.
Qed.

(** ** Properties *)

(** C26: kmalloc of 0 to 0xFFFFEFE0 bytes returns on every well-formed heap
    (the sizes up to that do not wrap around; [malloc_units_range] says what
    the code makes of larger ones).  It returns the null pointer, and changes
    nothing, for 0 bytes and when no free block is large enough and the frame
    allocator has no run of frames for the request; otherwise the pointer is to
    a new block with room for the bytes, apart from the blocks held before,
    whose bytes stay as they were, and the free bytes afterwards are those
    before, with the run of frames when nothing fitted, less the block. *)
Theorem kmalloc_correct cr3 base K bytes h ns live : heap_ok cr3 base K h ns live → 0 <= bytes <= 0xFFFFEFE0 →
  let units := (bytes + 7) / 8 + 1 in
  let pages := (8 * units + 4095) / 4096 in
  ∃ p h', kmalloc cr3 base bytes h = Some (p, h') ∧
    ((p = 0 ∧ h' = h ∧ (bytes = 0 ∨ (∀ q, q ∈ ns → q.2 < units) ∧
      ∀ b, 0 <= b → b + pages <= MAX_FRAMES → ¬ run_free (h_pfa h) b pages)) ∨
     (p ≠ 0 ∧ 0 < bytes ∧ (∀ x, within p bytes x → payload (p - 8, units) x) ∧
      ∃ ns', heap_ok cr3 base K h' ns' ((p - 8, units) :: live) ∧
        changes_only (λ x, ¬ spans live x) (h_mem h) (h_mem h') ∧
        (((∃ q, q ∈ ns ∧ units <= q.2) ∧ h_pfa h' = h_pfa h ∧
          (∀ x, spans ns x ↔ spans ns' x ∨ span (p - 8, units) x)) ∨
         ((∀ q, q ∈ ns → q.2 < units) ∧ ∃ b, frames_taken (h_pfa h) (h_pfa h') b pages ∧
          (∀ x, spans ns x ∨ within (b * 4096) (pages * 4096) x ↔ spans ns' x ∨ span (p - 8, units) x))))).
Proof.
  intros Hok Hb0 units pages. destruct (decide (bytes = 0)) as [Hz|Hz].
  { exists 0, h. unfold kmalloc. rewrite Hz. split; [reflexivity|]. left. split; [reflexivity|]. split; [reflexivity|by left]. }
  assert (0 < bytes <= 0xFFFFEFE0) as Hb by (clear - Hb0 Hz; lia).
  destruct (kmalloc_spec cr3 base K bytes h ns live Hok Hb) as ([p h'] & E & Ha).
  exists p, h'. split; [exact E|]. destruct (malloc_units_spec bytes Hb) as (_ & _ & _ & Hroom). fold units in Ha, Hroom.
  assert (∀ h1 ns1, taken cr3 base K h1 ns1 live units (p, h') →
    p ≠ 0 ∧ (∀ x, within p bytes x → payload (p - 8, units) x) ∧ ∃ ns', heap_ok cr3 base K h' ns' ((p - 8, units) :: live) ∧
      changes_only (λ x, ¬ spans live x) (h_mem h1) (h_mem h') ∧ h_pfa h' = h_pfa h1 ∧
      (∀ x, spans ns1 x ↔ spans ns' x ∨ span (p - 8, units) x)) as Htaken.
  { intros h1 ns1 (a & ns' & Ea & Hok' & Hp & Hsp & Hc). cbn [fst snd] in *. assert (p - 8 = a) as -> by lia.
    destruct (hk_live _ _ _ _ _ _ Hok' _ (list_elem_of_here _ _)) as ([H0 _ _] & _). cbn in H0. split; [lia|]. split.
    - intros x Hx. unfold payload, within in *. cbn. lia.
    - by exists ns'. }
  destruct Ha as [[Hfit Ht]|[Hno [[Er Hrun]|(h1 & ns1 & b & _ & _ & Hfr & Hsp & Hc1 & Ht)]]].
  - right. destruct (Htaken h ns Ht) as (H0 & Hr & ns' & H1 & H2 & H3 & H4). split; [exact H0|]. split; [apply Hb|]. split; [exact Hr|].
    exists ns'. split; [exact H1|]. split; [exact H2|]. by left.
  - left. injection Er as -> ->. split; [reflexivity|]. split; [reflexivity|right]. split; [exact Hno|exact Hrun].
  - right. destruct (Htaken h1 ns1 Ht) as (H0 & Hr & ns' & H1 & H2 & H3 & H4). split; [exact H0|]. split; [apply Hb|]. split; [exact Hr|].
    exists ns'. split; [exact H1|]. split; [by eapply changes_only_trans|]. right. split; [exact Hno|]. exists b. rewrite H3.
    split; [exact Hfr|]. intros x. specialize (Hsp x). specialize (H4 x). fold pages in Hsp. tauto.
Qed.

(** C27: kfree of a block that is held always returns; the block's bytes become
    free, the other blocks stay held with their bytes as they were, and a
    request that would fit into the block is then served without new frames. *)
Theorem kfree_correct cr3 base K h ns l1 n l2 : heap_ok cr3 base K h ns (l1 ++ n :: l2) →
  ∃ h' ns', kfree cr3 base (n.1 + 8) h = Some h' ∧ heap_ok cr3 base K h' ns' (l1 ++ l2) ∧ h_pfa h' = h_pfa h ∧
    (∀ x, spans ns' x ↔ spans ns x ∨ span n x) ∧
    changes_only (λ x, ¬ spans (l1 ++ l2) x) (h_mem h) (h_mem h') ∧
    ∀ bytes, 0 < bytes <= 0xFFFFEFE0 → bytes <= 8 * n.2 - 8 →
      ∃ p h2, kmalloc cr3 base bytes h' = Some (p, h2) ∧ p ≠ 0 ∧ h_pfa h2 = h_pfa h.
Proof.
  intros Hok. destruct (kfree_spec cr3 base K h ns l1 n l2 Hok) as (h' & ns' & E & Hok' & Hp & Hsp & (q & Hq & Hbig) & Hc).
  exists h', ns'. split; [exact E|]. split; [exact Hok'|]. split; [exact Hp|]. split; [exact Hsp|]. split; [exact Hc|].
  intros bytes Hb Hn. destruct (kmalloc_spec cr3 base K bytes h' ns' _ Hok' Hb) as ([p h2] & E2 & Ha). exists p, h2. split; [exact E2|].
  destruct Ha as [[_ (a & ns2 & Ea & Hok2 & Hp2 & _)]|[Hno _]].
  - cbn [fst snd] in *. destruct (hk_live _ _ _ _ _ _ Hok2 _ (list_elem_of_here _ _)) as ([H0 _ _] & _). cbn in H0.
    split; [lia|congruence].
  - specialize (Hno q Hq). clear - Hno Hbig Hn. word_lia.
Qed.

(** C25: after kheap_init, whatever the kernel allocates, frees and writes to
    its blocks, the free list stays well formed and apart from the blocks held,
    which are disjoint, and no byte is lost: the free and the held blocks are
    exactly the frames the heap has taken.  All further calls return. *)
Theorem heap_calls_invariant cr3 base K h0 : init_ok cr3 base K h0 →
  ∃ h, kheap_init cr3 base h0 = Some h ∧
    ∀ s, rtc (heap_call cr3 base) (h, []) s →
      heap_inv cr3 base K (h_pfa h0) s ∧
      (∀ bytes, 0 <= bytes <= 0xFFFFEFE0 → ∃ r, kmalloc cr3 base bytes s.1 = Some r) ∧
      (∀ n, n ∈ s.2 → ∃ h', kfree cr3 base (n.1 + 8) s.1 = Some h').
Proof.
  intros Hi. destruct (kheap_init_spec cr3 base K h0 Hi) as (h & E & _ & _). exists h. split; [exact E|]. intros s Hs.
  assert (heap_inv cr3 base K (h_pfa h0) s) as Hinv.
  { apply (rtc_ind_r (R := heap_call cr3 base) (heap_inv cr3 base K (h_pfa h0)) (h, [])); [by eapply inv_init| |exact Hs].
    intros s1 s2 _ Hc H1. by eapply inv_call. }
  split; [exact Hinv|]. destruct Hinv as (ns & Hok & _). destruct s as [h1 live]. cbn [fst snd] in *. split.
  - intros bytes Hb. destruct (Z.eq_dec bytes 0) as [->|Hne]; [by eexists|].
    destruct (kmalloc_spec cr3 base K bytes h1 ns live Hok) as (r & Er & _); [lia|]. by exists r.
  - intros n Hn. apply list_elem_of_split in Hn as (l1 & l2 & ->). destruct (kfree_spec cr3 base K h1 ns l1 n l2 Hok) as (h' & ns' & Ef & _).
    by exists h'.
Qed.

(** ** Witnesses *)

(** Identity-mapped memory with [base] in a reserved frame and the frames 16 to
    31 free. *)
Lemma example_heap : ∃ h, init_ok 0x8000 0x9004 (λ a, ¬ within 0x8000 4096 a) h ∧
  ∀ g, 0 <= g < MAX_FRAMES → frame_used (h_pfa h) g = negb ((16 <=? g) && (g <? 32)).
Proof.
  destruct (identity_dir_exists 0x8000 ∅) as [m Hm]; [split; [lia|done]|].
  destruct (frames_free 16 32) as (st & Hwf & Hst); [lia|lia|]. exists (mkHeap m 0 st). split; [|exact Hst]. split; cbn [h_mem h_pfa].
  - apply identity_kmapped; [exact Hm|auto].
  - split; [|lia]. split; [lia|]. split; [lia|]. intros x. unfold within. lia.
  - split; [exact Hwf|]. by rewrite Hst by lia.
  - intros x Hx. unfold within in Hx. assert (x / 4096 = 9) as -> by word_lia. by rewrite Hst by lia.
  - intros g x Hg Hf Hx. rewrite Hst in Hf by exact Hg. unfold within in *.
    destruct (Z.leb_spec 16 g), (Z.ltb_spec g 32); cbn in Hf; try done; lia.
Qed.

Lemma example_frames h : (∀ g, 0 <= g < MAX_FRAMES → frame_used (h_pfa h) g = negb ((16 <=? g) && (g <? 32))) → run_free (h_pfa h) 16 1.
Proof. intros Hf g Hg. assert (g = 16) as -> by lia. by rewrite Hf by lia. Qed.

Lemma kmalloc_correct_witness : ∃ h p h' ns',
  kmalloc 0x8000 0x9004 100 h = Some (p, h') ∧ p ≠ 0 ∧
  heap_ok 0x8000 0x9004 (λ a, ¬ within 0x8000 4096 a) h' ns' [(p - 8, 14)].
Proof.
  destruct example_heap as (h0 & Hi & Hf). destruct (kheap_init_spec _ _ _ h0 Hi) as (h & _ & Hok & Hp).
  destruct (kmalloc_correct _ _ _ 100 h _ _ Hok ltac:(lia)) as (p & h' & E & [(_ & _ & [Hz|[_ Hno]])|(H0 & _ & _ & ns' & Hok' & _)]).
  - done.
  - exfalso. apply (Hno 16); [lia|vm_compute; congruence|]. rewrite Hp. exact (example_frames h0 Hf).
  - exists h, p, h', ns'. split; [exact E|]. split; [exact H0|exact Hok'].
Defined.

(** A heap with one block of 100 bytes held. *)
Lemma example_held : ∃ h0 h h' a ns, init_ok 0x8000 0x9004 (λ a, ¬ within 0x8000 4096 a) h0 ∧
  kheap_init 0x8000 0x9004 h0 = Some h ∧ kmalloc 0x8000 0x9004 100 h = Some (a + 8, h') ∧ 0 < a ∧
  heap_ok 0x8000 0x9004 (λ a, ¬ within 0x8000 4096 a) h' ns [(a, 14)].
Proof.
  destruct example_heap as (h0 & Hi & Hf). destruct (kheap_init_spec _ _ _ h0 Hi) as (h & Eh & Hok & Hp).
  destruct (kmalloc_spec _ _ _ 100 h _ _ Hok ltac:(lia)) as ([p h'] & E & Ha).
  assert (∀ h1 ns1, taken 0x8000 0x9004 (λ a, ¬ within 0x8000 4096 a) h1 ns1 [] 14 (p, h') →
    ∃ a ns, p = a + 8 ∧ 0 < a ∧ heap_ok 0x8000 0x9004 (λ a, ¬ within 0x8000 4096 a) h' ns [(a, 14)]) as Ht.
  { intros h1 ns1 (a & ns & Ea & Hok' & _). exists a, ns. split; [exact Ea|]. split; [|exact Hok'].
    destruct (hk_live _ _ _ _ _ _ Hok' _ (list_elem_of_here _ _)) as ([H0 _ _] & _). exact H0. }
  assert (∃ a ns, p = a + 8 ∧ 0 < a ∧ heap_ok 0x8000 0x9004 (λ a, ¬ within 0x8000 4096 a) h' ns [(a, 14)]) as (a & ns & -> & H0 & Hok').
  { destruct Ha as [[_ H]|[_ [[_ Hno]|(h1 & ns1 & b & _ & _ & _ & _ & _ & H)]]]; [exact (Ht _ _ H)| |exact (Ht _ _ H)].
    exfalso. apply (Hno 16); [lia|vm_compute; congruence|]. rewrite Hp. exact (example_frames h0 Hf). }
  exists h0, h, h', a, ns. split; [exact Hi|]. split; [exact Eh|]. split; [exact E|]. split; [exact H0|exact Hok'].
Qed.

Lemma kfree_correct_witness : ∃ h a h' p h2,
  kfree 0x8000 0x9004 (a + 8) h = Some h' ∧ kmalloc 0x8000 0x9004 104 h' = Some (p, h2) ∧ p ≠ 0.
Proof.
  destruct example_held as (h0 & h1 & h & a & ns & _ & _ & _ & _ & Hok).
  destruct (kfree_correct _ _ _ h ns [] (a, 14) [] Hok) as (h' & ns' & E & _ & _ & _ & _ & Hre).
  destruct (Hre 104) as (p & h2 & E2 & H0 & _); [lia|cbn; lia|]. exists h, a, h', p, h2. split; [exact E|]. split; [exact E2|exact H0].
Defined.

Lemma heap_calls_invariant_witness : ∃ h0 h a h',
  kheap_init 0x8000 0x9004 h0 = Some h ∧ rtc (heap_call 0x8000 0x9004) (h, []) (h', [(a, 14)]) ∧
  heap_inv 0x8000 0x9004 (λ a, ¬ within 0x8000 4096 a) (h_pfa h0) (h', [(a, 14)]).
Proof.
  destruct example_held as (h0 & h & h1 & a & ns & Hi & Eh & E & H0 & _).
  destruct (heap_calls_invariant _ _ _ h0 Hi) as (h2 & Eh2 & Hall). assert (h2 = h) as -> by congruence. clear Eh2.
  set (h' := mkHeap (st8 (h_mem h1) (a + 8) 7) (freep h1) (h_pfa h1)).
  assert (rtc (heap_call 0x8000 0x9004) (h, []) (h', [(a, 14)])) as Hrun.
  { eapply rtc_l.
    - apply (call_kmalloc _ _ 100 _ _ _ _ ltac:(lia) E).
    - rewrite (proj2 (Z.eqb_neq (a + 8) 0)) by lia. replace (a + 8 - 8) with a by lia.
      apply rtc_once. apply (call_write _ _ h1 _ (a, 14)); [apply list_elem_of_here|]. unfold payload, within. cbn. lia. }
  exists h0, h, a, h'. split; [exact Eh|]. split; [exact Hrun|]. exact (proj1 (Hall _ Hrun)).
Defined.
