(* ===== verification/Kmain.v ===== *)
(** * kmain.c: booting

    kmain calls the initialisations in order, mounts the module GRUB loaded,
    creates the shell and starts the scheduler; on its error paths it prints a
    message and stops.  The model is the sequence of the models of what it calls,
    on one state, [kstate].

    paging_enable_identity is the point from which the page directory of paging.s
    ([cr3], identity 4 MiB pages) is in force; before it there is no translation,
    which is the same (Startup.v has the routine, and proves that).  Interrupts
    are on from idt_init on, when only the keyboard's can come; they are not
    interleaved here. *)

From stdpp Require Import prelude gmap strings.
From Stdlib Require Import ZArith Lia.
From S2P Require Import Prelude Ports Memory Kutil FrameAlloc Pfa Paging Mkfs Fs Process ProcessCreate Fb Keyboard Pic Serial Tables Kernel Kheap.

Abbreviation MULTIBOOT_BOOTLOADER_MAGIC := 0x2BADB002.
Abbreviation SERIAL_COM1_BASE := 0x3F8.
Abbreviation KERNEL_STACK_SIZE := 4096.

(** ** The code *)

(** The variables of the kernel: the memory, the frame buffer's cursor and the
    ports in the console, then the tables with the registers that point to them,
    the frame allocator, the heap's list, the root file system, the processes. *)
Record kstate := mkK {
  kb_con : console;
  kb_tss : tss_entry;
  kb_gdt : list gdt_entry; kb_gdtr : table_ptr; kb_tr : Z;
  kb_idt : list idt_entry; kb_idtr : table_ptr; kb_if : bool;
  kb_pfa : pfa;
  kb_freep : Z;
  kb_fs : fs_instance;
  kb_tab : proctab
}.

(** How kmain ends: spinning after a wrong magic number, in the loop of `hlt`, or
    in jump_to_process with a stack pointer and a directory. *)
Inductive boot_end :=
  | BadMagic (k : kstate)
  | Hung (k : kstate)
  | Jumped (k : kstate) (sp dir : Z).

Definition with_con (c : console) (k : kstate) : kstate :=
  mkK c (kb_tss k) (kb_gdt k) (kb_gdtr k) (kb_tr k) (kb_idt k) (kb_idtr k) (kb_if k) (kb_pfa k) (kb_freep k) (kb_fs k) (kb_tab k).
Definition with_ports (tr : list io) (k : kstate) : kstate :=
  with_con (mkCon (c_mem (kb_con k)) (fb_cursor (kb_con k)) tr) k.
Definition with_heap (h : heap) (k : kstate) : kstate :=
  mkK (mkCon (h_mem h) (fb_cursor (kb_con k)) (c_ports (kb_con k))) (kb_tss k) (kb_gdt k) (kb_gdtr k) (kb_tr k) (kb_idt k)
      (kb_idtr k) (kb_if k) (h_pfa h) (freep h) (kb_fs k) (kb_tab k).
Definition with_pfa (st : pfa) (k : kstate) : kstate :=
  mkK (kb_con k) (kb_tss k) (kb_gdt k) (kb_gdtr k) (kb_tr k) (kb_idt k) (kb_idtr k) (kb_if k) st (kb_freep k) (kb_fs k) (kb_tab k).
Definition with_fs (fs : fs_instance) (k : kstate) : kstate :=
  mkK (kb_con k) (kb_tss k) (kb_gdt k) (kb_gdtr k) (kb_tr k) (kb_idt k) (kb_idtr k) (kb_if k) (kb_pfa k) (kb_freep k) fs (kb_tab k).
Definition with_tab (t : proctab) (k : kstate) : kstate :=
  mkK (kb_con k) (kb_tss k) (kb_gdt k) (kb_gdtr k) (kb_tr k) (kb_idt k) (kb_idtr k) (kb_if k) (kb_pfa k) (kb_freep k) (kb_fs k) t.
Definition with_tss (t : tss_entry) (k : kstate) : kstate :=
  mkK (kb_con k) t (kb_gdt k) (kb_gdtr k) (kb_tr k) (kb_idt k) (kb_idtr k) (kb_if k) (kb_pfa k) (kb_freep k) (kb_fs k) (kb_tab k).

(** Where the linker put things, and the devices. *)
Record klayout := mkLayout {
  l_cr3 : Z;
  l_kernel_stack : Z;
  l_tss : Z; l_gdt : Z; l_idt : Z;
  l_base : Z;
  l_digit : Z;
  l_lit : list Z → Z;
  l_handler : Z → Z;
  l_syscall : Z;
  l_trampoline : Z;
  l_dev : device
}.

Section code.
Context (L : klayout).
Abbreviation cr3 := (l_cr3 L).

(** The first [multiboot_module_t]. *)
Definition mod_start (m : mem) (module : Z) : option Z := kld32 cr3 m module.
Definition mod_end (m : mem) (module : Z) : option Z := kld32 cr3 m (module + 4).

(** `fb_write` of a literal. *)
Definition say (str : list Z) (len : Z) (k : kstate) : option kstate :=
  '(_, c) ← fb_write cr3 (l_lit L str) len (kb_con k); Some (with_con c k).

(** The processor, the segments, paging and interrupts. *)
Definition init_cpu (k : kstate) : option kstate :=
  let tss := tss_init (l_kernel_stack L +ᵤ KERNEL_STACK_SIZE) 0x10 (kb_tss k) in
  '(gdt, gp) ← gdt_init (l_tss L) (l_gdt L) (kb_gdt k);
  let con := kb_con k in
  let con := mkCon (c_mem con) (fb_cursor con) (serial_init SERIAL_COM1_BASE (c_ports con)) in
  c ← fb_clear cr3 con;
  i ← idt_init (l_handler L) (l_syscall L) (l_idt L) (kb_idt k) (c_ports c);
  Some (mkK (mkCon (c_mem c) (fb_cursor c) (idt_ports i)) tss gdt gp tss_load (idt_table i) (idtr i) (interrupts_on i)
            (kb_pfa k) (kb_freep k) (kb_fs k) (kb_tab k)).

(** Physical memory and the heap. *)
Definition init_memory (mbi kstart kend : Z) (k : kstate) : option kstate :=
  st ← pfa_init cr3 (c_mem (kb_con k)) mbi kstart kend (kb_pfa k);
  h ← kheap_init cr3 (l_base L) (mkHeap (c_mem (kb_con k)) (kb_freep k) st);
  Some (with_heap h k).

(** The module: [inr] is `goto halt` with its message. *)
Definition mount_module (mbi : Z) (k : kstate) : option (kstate + kstate) :=
  let m := c_mem (kb_con k) in
  flags ← mbi_flags cr3 m mbi;
  none ← (if Z.land flags MULTIBOOT_INFO_MODS =? 0 then Some true
          else n ← mbi_mods_count cr3 m mbi; Some (n <? 1));
  if (none : bool) then k ← say (bytesln "ERROR: No module from GRUB.") 28 k; Some (inr k) else
  module ← mbi_mods_addr cr3 m mbi;
  s ← mod_start m module;
  e ← mod_end m module;
  st ← pfa_reserve s e (kb_pfa k);
  let k := with_pfa st k in
  '(r, fs) ← fs_init cr3 m s;
  let k := with_fs fs k in
  if negb (r =? 0) then k ← say (bytesln "ERROR: Invalid filesystem.") 27 k; Some (inr k) else
  Some (inl k).

(** The variable [digit] assigned and printed. *)
Definition show_digit (d : Z) (k : kstate) : option kstate :=
  m ← kst8 cr3 (c_mem (kb_con k)) (l_digit L) d;
  '(_, c) ← fb_write cr3 (l_digit L) 1 (mkCon m (fb_cursor (kb_con k)) (c_ports (kb_con k)));
  Some (with_con c k).

(** The boot message; the number of files is one character. *)
Definition boot_message (k : kstate) : option kstate :=
  k ← say (bytes "SOFS: ") 6 k;
  n ← fs_num_files cr3 (c_mem (kb_con k)) (kb_fs k);
  k ← show_digit (u8 (48 + u8 n)) k;
  say (bytesln " file(s) loaded.") 17 k.

(** The shell, the timer and the scheduler, whose return leads to `hlt`. *)
Definition start_shell (k : kstate) : option boot_end :=
  t ← process_init (kb_tab k);
  '(_, (m, st, t)) ← process_create cr3 (l_trampoline L) (kb_fs k) (l_lit L (bytes "shell"))
                       (c_mem (kb_con k)) (kb_pfa k) t;
  let k := with_tab t (with_pfa st (with_con (mkCon m (fb_cursor (kb_con k)) (c_ports (kb_con k))) k)) in
  let k := with_ports (pit_init (l_dev L) 50 (c_ports (kb_con k))) k in
  k ← say (bytesln "Starting shell...") 18 k;
  '(t, first) ← scheduler_start (kb_tab k);
  match first with
  | None => k ← say (bytesln "No processes to run.") 21 (with_tab t k); Some (Hung k)
  | Some (top, sp, dir) => Some (Jumped (with_tss (tss_set_kernel_stack top (kb_tss k)) (with_tab t k)) sp dir)
  end.

Definition kmain (multiboot_magic multiboot_info_addr kernel_physical_start kernel_physical_end : Z) (k : kstate)
    : option boot_end :=
  k ← init_cpu k;
  if negb (multiboot_magic =? MULTIBOOT_BOOTLOADER_MAGIC) then
    k ← say (bytesln "Invalid multiboot magic") 24 k;
    '(_, tr) ← serial_write cr3 (c_mem (kb_con k)) (l_dev L) SERIAL_COM1_BASE (l_lit L (bytesln "Invalid multiboot magic")) 24
                 (c_ports (kb_con k));
    Some (BadMagic (with_ports tr k))
  else
    k ← init_memory multiboot_info_addr kernel_physical_start kernel_physical_end k;
    o ← mount_module multiboot_info_addr k;
    match o with
    | inr k => Some (Hung k)
    | inl k => k ← boot_message k; start_shell k
    end.
End code.

(** ** The machine at boot *)

Definition kmain_literals : list (list Z) :=
  [bytesln "Invalid multiboot magic"; bytesln "ERROR: No module from GRUB."; bytesln "ERROR: Invalid filesystem.";
   bytes "SOFS: "; bytesln " file(s) loaded."; bytesln "Starting shell..."; bytesln "No processes to run."; bytes "shell"].

Ltac in_lits := unfold kmain_literals; repeat (apply list_elem_of_here || apply list_elem_of_further).

Definition blank_screen : term := mkTerm (replicate 2000 blank) 0.

Section boot.
Context (L : klayout).
Abbreviation cr3 := (l_cr3 L).

(** [W] is all that kmain may write.  The identity mapping of paging.s holds
    whatever is written there, and so do the literals; the frame buffer, the
    heap's [base] and the variable [digit] are in it, apart from each other. *)
Record boot_ok (W : Z → Prop) (m : mem) : Prop := {
  bo_map : kmapped cr3 W m;
  bo_fb : ∀ x, fb_bytes x → W x;
  bo_base : hdr W (l_base L) ∧ 0 < l_base L ∧ ∀ x, within (l_base L) 8 x → ¬ fb_bytes x;
  bo_digit : is_u32 (l_digit L) ∧ W (l_digit L) ∧ ¬ fb_bytes (l_digit L);
  bo_lits : ∀ str m', str ∈ kmain_literals → changes_only W m m' → cstring_at cr3 m' (l_lit L str) str
}.

(** The state of the kernel's variables before kmain: zeros, with [next_pid] 1. *)
Record fresh_state (k : kstate) : Prop := {
  fr_gdt : length (kb_gdt k) = 6%nat;
  fr_idt : length (kb_idt k) = 256%nat;
  fr_pfa : Z.of_nat (length (frame_bitmap (kb_pfa k))) = BITMAP_WORDS;
  fr_tab : length (procs (kb_tab k)) = 16%nat;
  fr_names : ∀ p, p ∈ procs (kb_tab k) → name_ok (p_name p);
  fr_pid : next_pid (kb_tab k) = 1
}.

Context (W : Z → Prop).

Lemma boot_ok_changes m m' : boot_ok W m → changes_only W m m' → boot_ok W m'.
Proof.
  intros [H1 H2 H3 H4 H5] Hc. split; [by eapply kmapped_changes|done|done|done|].
  intros str m2 Hs H2c. apply H5; [done|]. by eapply changes_only_trans.
Qed.

Lemma boot_fb m : boot_ok W m → fb_mapped cr3 m.
Proof. intros H. eapply kmapped_mono; [|apply (bo_map _ _ H)]. apply (bo_fb _ _ H). Qed.

Lemma shows_changes c t m' : shows c t → changes_only (λ x, ¬ fb_bytes x) (c_mem c) m' → shows (mkCon m' (fb_cursor c) (c_ports c)) t.
Proof.
  intros [[Hl Hc] Hcur] Hm. split; [|done]. split; [done|]. cbn [c_mem]. intros i ch at_ Hi. destruct (Hc i ch at_ Hi) as [<- <-].
  pose proof (lookup_lt_Some _ _ _ Hi) as Hlt. rewrite Hl in Hlt.
  split; (apply Hm; [lia|]); intros Hn; apply Hn; unfold fb_bytes, within; lia.
Qed.

(** The console of a state, with what it shows. *)
Record on_screen (k : kstate) (t : term) : Prop := {
  os_boot : boot_ok W (c_mem (kb_con k));
  os_shows : shows (kb_con k) t;
  os_wf : term_wf t
}.

Lemma write_spec buf bs k t : on_screen k t → bytes_at cr3 (c_mem (kb_con k)) buf bs →
  (∀ i b m', bs !! i = Some b → changes_only fb_bytes (c_mem (kb_con k)) m' → kld8 cr3 m' (buf + Z.of_nat i) = Some b) →
  Forall (λ b, is_u8 b) bs → 0 <= buf → buf + Z.of_nat (length bs) <= 4294967296 → Z.of_nat (length bs) < 2147483648 →
  ∃ c, fb_write cr3 buf (Z.of_nat (length bs)) (kb_con k) = Some (Z.of_nat (length bs), c) ∧
    on_screen (with_con c k) (term_write t bs) ∧ changes_only fb_bytes (c_mem (kb_con k)) (c_mem c) ∧
    c_ports c = c_ports (kb_con k) ++ cursor_events (t_cursor (term_write t bs)).
Proof.
  intros [Hb Hs Ht] Hby Hst HF H0 Hfit Hlen.
  destruct (fb_write_spec cr3 buf bs (kb_con k) t (boot_fb _ Hb) Hs Ht H0 Hfit Hlen) as (c & E & [Hc Hp Hsh]).
  { intros i b Hi. split; [by eapply (Forall_lookup_1 _ _ _ _ HF)|]. intros m' Hm'. by eapply Hst. }
  exists c. split; [done|]. split; [|by split]. split; cbn; [|done|by apply term_write_wf].
  eapply boot_ok_changes; [exact Hb|]. eapply changes_only_mono; [|exact Hc]. apply (bo_fb _ _ Hb).
Qed.

Lemma say_spec str len k t : on_screen k t → str ∈ kmain_literals → len = Z.of_nat (length str) →
  ∃ c, say L str len k = Some (with_con c k) ∧ on_screen (with_con c k) (term_write t str) ∧
    changes_only fb_bytes (c_mem (kb_con k)) (c_mem c) ∧
    c_ports c = c_ports (kb_con k) ++ cursor_events (t_cursor (term_write t str)).
Proof.
  intros Hos Hin ->. pose proof (os_boot _ _ Hos) as Hb.
  assert (∀ m', changes_only fb_bytes (c_mem (kb_con k)) m' → cstring_at cr3 m' (l_lit L str) str) as Hst.
  { intros m' Hc. apply (bo_lits _ _ Hb); [done|]. eapply changes_only_mono; [|exact Hc]. apply (bo_fb _ _ Hb). }
  pose proof (Hst _ (changes_only_refl _ _)) as [S0 S1 S2 _].
  destruct (write_spec (l_lit L str) str k t Hos) as (c & E & H).
  - intros i b Hi. by apply S2.
  - intros i b m' Hi Hc. by apply (cs_bytes _ _ _ _ (Hst m' Hc)).
  - apply Forall_lookup. intros i b Hi. destruct (S2 i b Hi) as [_ ?]. lia.
  - lia.
  - lia.
  - clear - Hin. revert str Hin. apply Forall_forall. repeat constructor.
  - exists c. split; [|done]. unfold say. by rewrite E.
Qed.

(** After init_cpu: the tables are those of gdt_init and idt_init, in the
    registers, interrupts are on, the screen is blank. *)
Record cpu_ready (k0 k : kstate) : Prop := {
  cr_gdt : gdt_init (l_tss L) (l_gdt L) (kb_gdt k0) = Some (kb_gdt k, kb_gdtr k) ∧ kb_tr k = tss_load;
  cr_idt : ∃ tr i, idt_init (l_handler L) (l_syscall L) (l_idt L) (kb_idt k0) tr = Some i ∧
    idt_table i = kb_idt k ∧ idtr i = kb_idtr k ∧ interrupts_on i = true;
  cr_if : kb_if k = true;
  cr_ss : ss0 (kb_tss k) = 0x10
}.

Lemma gdt_init_some a b g : length g = 6%nat → ∃ g' p, gdt_init a b g = Some (g', p).
Proof.
  intros Hl. do 6 (destruct g as [|? g]; [done|]). destruct g; [|done]. eexists _, _. reflexivity.
Qed.

Lemma init_cpu_spec k : fresh_state k → boot_ok W (c_mem (kb_con k)) →
  ∃ k1, init_cpu L k = Some k1 ∧ cpu_ready k k1 ∧ on_screen k1 blank_screen ∧
    changes_only fb_bytes (c_mem (kb_con k)) (c_mem (kb_con k1)) ∧
    c_ports (kb_con k1) = pic_remap (serial_init SERIAL_COM1_BASE (c_ports (kb_con k)) ++ cursor_events 0) ∧
    kb_pfa k1 = kb_pfa k ∧ kb_tab k1 = kb_tab k.
Proof.
  intros Hf Hb. unfold init_cpu.
  destruct (gdt_init_some (l_tss L) (l_gdt L) (kb_gdt k) (fr_gdt _ Hf)) as (g & gp & Eg). rewrite Eg, bind_Some.
  cbv zeta. set (con := mkCon _ _ _).
  destruct (fb_clear_spec cr3 con (boot_fb _ Hb)) as (c & -> & [Hc Hp Hs]). rewrite bind_Some.
  destruct (idt_init_spec (l_handler L) (l_syscall L) (l_idt L) (kb_idt k) (c_ports c) (fr_idt _ Hf)) as (t & Ei & _ & _).
  rewrite Ei, bind_Some. eexists. split; [reflexivity|]. split; [|split; [|split; [exact Hc|]]].
  - split; [by split| |reflexivity|reflexivity]. eexists _, _. split; [exact Ei|]. by split.
  - split; [|exact Hs|split; [apply length_replicate|cbn; lia]].
    eapply boot_ok_changes; [exact Hb|]. eapply changes_only_mono; [|exact Hc]. apply (bo_fb _ _ Hb).
  - cbn [kb_con c_ports idt_ports]. rewrite Hp. by split.
Qed.

(** ** Memory and the module *)

Context (mbi kstart kend : Z) (avail table : Z → bool).

(** What GRUB left in memory is not written to. *)
Record boot_info (m : mem) : Prop := {
  bi_range : is_u32 kstart ∧ 0 <= kend <= 0xFFFFF000 ∧ 0 <= mbi <= 0xFFFFEFCC;
  bi_map : ∀ m', changes_only W m m' → boot_map cr3 m' mbi avail table
}.

Lemma on_screen_mem k t m' : on_screen k t → changes_only (λ x, W x ∧ ¬ fb_bytes x) (c_mem (kb_con k)) m' →
  on_screen (with_con (mkCon m' (fb_cursor (kb_con k)) (c_ports (kb_con k))) k) t.
Proof.
  intros [Hb Hs Ht] Hc. split; cbn; [| |exact Ht].
  - eapply boot_ok_changes; [exact Hb|]. eapply changes_only_mono; [|exact Hc]. by intros x [? _].
  - apply shows_changes; [exact Hs|]. eapply changes_only_mono; [|exact Hc]. by intros x [_ ?].
Qed.

Lemma init_memory_spec k t : on_screen k t → boot_info (c_mem (kb_con k)) →
  Z.of_nat (length (frame_bitmap (kb_pfa k))) = BITMAP_WORDS →
  ∃ m' st, init_memory L mbi kstart kend k = Some (with_heap (mkHeap m' (l_base L) st) k) ∧
    on_screen (with_heap (mkHeap m' (l_base L) st) k) t ∧ changes_only W (c_mem (kb_con k)) m' ∧
    pfa_like st (λ g, boot_reserved kstart kend mbi table g || negb (avail g)).
Proof.
  intros Hos [(Hks & Hke & Hmb) Hmap] Hlen. pose proof (os_boot _ _ Hos) as Hb. unfold init_memory.
  destruct (pfa_init_spec cr3 (c_mem (kb_con k)) mbi kstart kend (kb_pfa k) avail table Hlen Hks Hke Hmb
    (Hmap _ (changes_only_refl _ _))) as (st & -> & Hst). rewrite bind_Some. unfold kheap_init. cbn [h_mem h_pfa].
  destruct (bo_base _ _ Hb) as (Hh & H0 & Hnf). pose proof Hh as (_ & H8 & HW).
  destruct (set_next_ok cr3 W _ (l_base L) (l_base L) (bo_map _ _ Hb) Hh) as (-> & Hk1 & Hc1 & _); [lia|]. rewrite bind_Some.
  destruct (set_units_ok cr3 W _ (l_base L) 0 Hk1 Hh) as (-> & _ & Hc2 & _); [lia|]. rewrite !bind_Some.
  pose proof (changes_only_trans _ _ _ _ Hc1 Hc2) as Hc. do 2 eexists. split; [reflexivity|]. split; [|split; [|exact Hst]].
  - assert (changes_only (λ x, W x ∧ ¬ fb_bytes x) (c_mem (kb_con k)) (st32 (st32 (c_mem (kb_con k)) (l_base L) (l_base L)) (l_base L + 4) 0)) as Hc'.
    { eapply changes_only_mono; [|exact Hc]. intros x Hx. split; [by apply HW|by apply Hnf]. }
    destruct (on_screen_mem k t _ Hos Hc') as [H1 H2 H3]. split; [exact H1|exact H2|exact H3].
  - eapply changes_only_mono; [|exact Hc]. exact HW.
Qed.

(** mount_module without a module. *)
Lemma no_module_spec k t flags : on_screen k t → mbi_flags cr3 (c_mem (kb_con k)) mbi = Some flags →
  (Z.land flags MULTIBOOT_INFO_MODS = 0 ∨ mbi_mods_count cr3 (c_mem (kb_con k)) mbi = Some 0) →
  ∃ c, mount_module L mbi k = Some (inr (with_con c k)) ∧
    on_screen (with_con c k) (term_write t (bytesln "ERROR: No module from GRUB.")).
Proof.
  intros Hos Hfl Hno. unfold mount_module. rewrite Hfl, bind_Some.
  destruct (say_spec (bytesln "ERROR: No module from GRUB.") 28 k t Hos) as (c & E & Hc & _); [in_lits|reflexivity|].
  exists c. split; [|exact Hc]. destruct (Z.eqb_spec (Z.land flags MULTIBOOT_INFO_MODS) 0).
  - rewrite bind_Some, E. reflexivity.
  - destruct Hno as [?| ->]; [done|]. rewrite !bind_Some, E. reflexivity.
Qed.

(** The module's descriptor, and its region reserved. *)
Record module_at (m : mem) (mstart mend : Z) : Prop := {
  ma_flags : ∃ flags, mbi_flags cr3 m mbi = Some flags ∧ Z.land flags MULTIBOOT_INFO_MODS ≠ 0;
  ma_count : ∃ n, mbi_mods_count cr3 m mbi = Some n ∧ 1 <= n;
  ma_mod : ∃ a, mbi_mods_addr cr3 m mbi = Some a ∧ mod_start L m a = Some mstart ∧ mod_end L m a = Some mend;
  ma_range : is_u32 mstart ∧ 0 <= mend <= 0xFFFFF000
}.

Lemma mount_module_spec k t mstart mend magic : on_screen k t → module_at (c_mem (kb_con k)) mstart mend →
  pfa_wf (kb_pfa k) → kld32 cr3 (c_mem (kb_con k)) mstart = Some magic →
  ∃ st fs, pfa_reserve mstart mend (kb_pfa k) = Some st ∧
    pfa_like st (λ g, frame_meets mstart mend g || frame_used (kb_pfa k) g) ∧
    if magic =? FS_MAGIC then
      fs = mkFs mstart mstart (mstart +ᵤ 8) ∧ mount_module L mbi k = Some (inl (with_fs fs (with_pfa st k)))
    else ∃ c, mount_module L mbi k = Some (inr (with_con c (with_fs fs (with_pfa st k)))) ∧
      on_screen (with_con c (with_fs fs (with_pfa st k))) (term_write t (bytesln "ERROR: Invalid filesystem.")).
Proof.
  intros Hos [(fl & Hfl & Hm) (n & Hn & Hn1) (a & Ha & Hms & Hme) (Hs & He)] Hwf Hmg. unfold mount_module.
  rewrite Hfl, bind_Some. rewrite (proj2 (Z.eqb_neq _ _) Hm), Hn, !bind_Some, (proj2 (Z.ltb_ge _ _) Hn1).
  rewrite Ha, bind_Some, Hms, bind_Some, Hme, bind_Some.
  destruct (mark_region_used_spec (kb_pfa k) mstart mend Hwf Hs He) as (st & Est & Hst).
  unfold pfa_reserve. rewrite Est. exists st. unfold fs_init, header_magic. rewrite Hmg, !bind_Some.
  destruct (Z.eqb_spec magic FS_MAGIC); cbn [negb].
  - eexists. split; [reflexivity|]. split; [exact Hst|]. split; reflexivity.
  - eexists. split; [reflexivity|]. split; [exact Hst|]. rewrite bind_Some.
    set (k2 := with_fs _ _). assert (on_screen k2 t) as Hos2 by (destruct Hos; by split).
    destruct (say_spec (bytesln "ERROR: Invalid filesystem.") 27 k2 t Hos2) as (c & E & Hc & _); [in_lits|reflexivity|].
    exists c. split; [|exact Hc]. change (negb (-1 =? 0)) with true. cbv iota. rewrite E. reflexivity.
Qed.

(** ** The messages *)

(** Accesses to the screen's ports only. *)
Definition screen_io (evs : list io) : Prop := Forall (λ e, ∃ v, e = Out FB_COMMAND_PORT v ∨ e = Out FB_DATA_PORT v) evs.

Lemma cursor_screen_io pos : screen_io (cursor_events pos).
Proof. unfold cursor_events. repeat (apply Forall_cons; split; [eexists; eauto|]). constructor. Qed.

(** The screen, the memory inside [W] and the screen's ports: what the messages
    change of a state. *)
Record said (k : kstate) (t' : term) (c : console) : Prop := {
  sa_screen : on_screen (with_con c k) t';
  sa_mem : changes_only (λ x, fb_bytes x ∨ x = l_digit L) (c_mem (kb_con k)) (c_mem c);
  sa_ports : ∃ evs, c_ports c = c_ports (kb_con k) ++ evs ∧ screen_io evs
}.

Lemma said_trans k t1 c1 t2 c2 : said k t1 c1 → said (with_con c1 k) t2 c2 → said k t2 c2.
Proof.
  intros [_ M1 (e1 & P1 & F1)] [S2 M2 (e2 & P2 & F2)]. split; [exact S2|exact (changes_only_trans _ _ _ _ M1 M2)|].
  exists (e1 ++ e2). split; [|by apply Forall_app_2]. rewrite P2. cbn [kb_con with_con]. by rewrite P1, app_assoc.
Qed.

Lemma say_said str len k t : on_screen k t → str ∈ kmain_literals → len = Z.of_nat (length str) →
  ∃ c, say L str len k = Some (with_con c k) ∧ said k (term_write t str) c.
Proof.
  intros Hos Hin Hl. destruct (say_spec str len k t Hos Hin Hl) as (c & E & Hc & Hm & Hp). exists c. split; [exact E|].
  split; [exact Hc|eapply changes_only_mono; [|exact Hm]; auto|]. eexists. split; [exact Hp|apply cursor_screen_io].
Qed.

Lemma show_digit_spec d k t : on_screen k t → is_u8 d →
  ∃ c, show_digit L d k = Some (with_con c k) ∧ said k (term_write t [d]) c.
Proof.
  intros Hos Hd. pose proof (os_boot _ _ Hos) as Hb. destruct (bo_digit _ _ Hb) as (Hu & HW & Hn). unfold show_digit.
  destruct (kst8_kmapped _ _ _ (bo_map _ _ Hb) (l_digit L) d Hu HW) as [-> _]. rewrite bind_Some.
  set (m1 := st8 _ _ _). assert (changes_only (λ x, x = l_digit L) (c_mem (kb_con k)) m1) as Hc1 by (by apply changes_only_st8).
  assert (on_screen (with_con (mkCon m1 (fb_cursor (kb_con k)) (c_ports (kb_con k))) k) t) as Hos1.
  { apply on_screen_mem; [exact Hos|]. eapply changes_only_mono; [|exact Hc1]. intros x ->. by split. }
  pose proof (os_boot _ _ Hos1) as Hb1. cbn in Hb1.
  assert (∀ m', changes_only fb_bytes m1 m' → kld8 cr3 m' (l_digit L) = Some d) as Hrd.
  { intros m' Hc. rewrite (kld8_kmapped cr3 W m'); [|eapply kmapped_changes; [apply (bo_map _ _ Hb1)|]|exact Hu|exact HW].
    - rewrite (Hc _ Hu Hn). unfold m1. rewrite ld8_st8 by done. rewrite decide_True by done. by rewrite u8_small.
    - eapply changes_only_mono; [|exact Hc]. apply (bo_fb _ _ Hb). }
  destruct (write_spec (l_digit L) [d] _ t Hos1) as (c & E & Hs & Hm & Hp).
  - intros i b Hi. destruct i as [|]; [|done]. cbn in Hi. simplify_eq. rewrite Z.add_0_r. apply Hrd. apply changes_only_refl.
  - intros i b m' Hi Hc. destruct i as [|]; [|done]. cbn in Hi. simplify_eq. rewrite Z.add_0_r. by apply Hrd.
  - by apply Forall_singleton.
  - lia.
  - cbn. lia.
  - cbn. lia.
  - exists c. split; [change 1 with (Z.of_nat (length [d])); cbn [kb_con with_con] in E; by rewrite E|].
    split; [by destruct Hs; split| |].
    + eapply changes_only_trans; [eapply changes_only_mono; [|exact Hc1]; auto|]. eapply changes_only_mono; [|exact Hm]; auto.
    + eexists. split; [exact Hp|apply cursor_screen_io].
Qed.

Lemma term_write_app t a b : term_write t (a ++ b) = term_write (term_write t a) b.
Proof. apply foldl_app. Qed.

(** What the boot message says of [n] files. *)
Definition loaded_text (n : Z) : list Z := bytes "SOFS: " ++ [u8 (48 + n)] ++ bytesln " file(s) loaded.".

Lemma boot_message_spec k t mstart files : on_screen k t → kb_fs k = mounted mstart →
  sofs_stable cr3 W (c_mem (kb_con k)) mstart files →
  ∃ c, boot_message L k = Some (with_con c k) ∧ said k (term_write t (loaded_text (Z.of_nat (length files)))) c.
Proof.
  intros Hos Hfs Hso. unfold boot_message, loaded_text. rewrite !term_write_app.
  destruct (say_said (bytes "SOFS: ") 6 k t Hos) as (c1 & -> & H1); [in_lits|reflexivity|]. rewrite bind_Some.
  pose proof (os_boot _ _ (sa_screen _ _ _ H1)) as Hb1. cbn in Hb1.
  cbn [kb_con with_con kb_fs]. rewrite Hfs, (fs_num_files_spec _ _ _ files), bind_Some.
  2: { apply Hso. eapply changes_only_mono; [|apply (sa_mem _ _ _ H1)]. cbn.
       intros x [Hx| ->]; [by apply (bo_fb _ _ Hb1)|apply (bo_digit _ _ Hb1)]. }
  replace (u8 (48 + u8 (Z.of_nat (length files)))) with (u8 (48 + Z.of_nat (length files))) by (unfold u8; clear; word_lia).
  destruct (show_digit_spec (u8 (48 + Z.of_nat (length files))) (with_con c1 k) _ (sa_screen _ _ _ H1)) as (c2 & E2 & H2); [apply u8_range|].
  rewrite E2, bind_Some.
  destruct (say_said (bytesln " file(s) loaded.") 17 (with_con c2 (with_con c1 k)) _ (sa_screen _ _ _ H2)) as (c3 & E3 & H3); [in_lits|reflexivity|].
  exists c3. split; [exact E3|]. eapply said_trans; [exact H1|]. eapply said_trans; [exact H2|exact H3].
Qed.

Lemma fb_in_W m m' m2 : boot_ok W m → changes_only fb_bytes m' m2 → changes_only W m' m2.
Proof. intros Hb. apply changes_only_mono. apply (bo_fb _ _ Hb). Qed.

(** ** The shell *)

(** The kernel at the end of kmain, as the machine of its handlers. *)
Definition machine_of (k : kstate) : machine pfa :=
  mkMachine (mkKernel (kb_tab k) (mkKbd (replicate 128 0) 0 0) (kb_con k) (kb_pfa k) (kb_tss k)) (λ _, Preempted) UserMode.

(** The image has the file "shell", whose bytes are [data]. *)
Definition shell_file (m : mem) (mstart : Z) (files : list file) (data : list Z) : Prop :=
  (∃ i f, list_find (λ f, f_name f = bytes "shell") files = Some (i, f) ∧
    f_size f = Z.of_nat (length data) ∧ (mstart +ᵤ f_offset f) + Z.of_nat (length data) <= 4294967296 ∧
    ∀ j b, data !! j = Some b → is_u8 b ∧ kreads cr3 W m ((mstart +ᵤ f_offset f) + Z.of_nat j) b) ∧
  Z.of_nat (length data) <= 0xBFC00000.

(** The state before the shell is created. *)
Record pre_shell (k : kstate) (t : term) (mstart : Z) (files : list file) : Prop := {
  ps_screen : on_screen k t;
  ps_fs : kb_fs k = mounted mstart;
  ps_image : sofs_stable cr3 W (c_mem (kb_con k)) mstart files;
  ps_pfa : pfa_wf (kb_pfa k) ∧ frame_used (kb_pfa k) 0 = true;
  ps_free : ∀ x, free_bytes (kb_pfa k) x → W x ∧ ¬ fb_bytes x;
  ps_tab : length (procs (kb_tab k)) = 16%nat ∧ (∀ p, p ∈ procs (kb_tab k) → name_ok (p_name p)) ∧ next_pid (kb_tab k) = 1
}.

Lemma shell_loadable k t mstart files data t0 : pre_shell k t mstart files →
  shell_file (c_mem (kb_con k)) mstart files data → tab_wf t0 →
  loadable cr3 (c_mem (kb_con k)) (kb_pfa k) t0 mstart files (l_lit L (bytes "shell")) (bytes "shell") data.
Proof.
  intros [[Hb _ _] _ Hso Hpf Hfr _] ((i & f & Hfind & Hsz & Hfit & Hdata) & Hsize) Ht0.
  assert (∀ m', changes_only (free_bytes (kb_pfa k)) (c_mem (kb_con k)) m' → changes_only W (c_mem (kb_con k)) m') as Hcc.
  { intros m'. apply changes_only_mono. intros x Hx. by apply Hfr. }
  split; [|exact Ht0|..|exact Hsize].
  - split; [|exact Hpf|].
    + eapply kmapped_mono; [|apply (bo_map _ _ Hb)]. intros x Hx. by apply Hfr.
    + intros g a Hg Hgf Ha. exists g. split; [exact Hg|]. split; [exact Hgf|exact Ha].
  - intros m' Hm'. exact (Hso m' (Hcc m' Hm')).
  - intros m' Hm'. apply (bo_lits _ _ Hb); [in_lits|exact (Hcc m' Hm')].
  - exists i, f. split; [exact Hfind|]. split; [exact Hsz|]. split; [exact Hfit|]. intros j b Hj.
    destruct (Hdata j b Hj) as [Hu Hr]. split; [exact Hu|]. intros m' Hm'. exact (Hr m' (Hcc m' Hm')).
Qed.

(** One READY process in a table of dead ones is the one that starts. *)
Lemma start_first t t' slot P : tab_wf t' → current t' = None → procs t' = <[slot := P]> (procs t) →
  (slot < length (procs t))%nat → (∀ i p, procs t !! i = Some p → state p = PROC_STATE_DEAD) → ready P →
  scheduler_start t' = Some (mkTab (<[slot := set_state PROC_STATE_RUNNING P]> (procs t)) (Some slot) (next_pid t'),
    Some (kernel_stack_top P, esp P, page_dir_phys P)).
Proof.
  intros Hw Hc Hp Hs Hd Hr. destruct (scheduler_start_spec t' Hw Hc) as [(i & q & Hq & Hqr & _ & ->)|[Hno _]].
  - rewrite Hp in Hq |- *. apply list_lookup_insert_Some in Hq as [(-> & <- & _)|[_ Hq]].
    + by rewrite list_insert_insert_eq.
    + apply Hd in Hq. unfold ready in Hqr. lia.
  - exfalso. apply (Hno slot). exists P. rewrite Hp. split; [by apply list_lookup_insert_eq|exact Hr].
Qed.

(** The shell is the current process: its kernel stack is the one the switch
    starts from, its directory shows the program, the timer runs. *)
Record shell_up (k : kstate) (t : term) (data : list Z) (k' : kstate) (sp dir : Z) : Prop := {
  su_booted : booted (machine_of k');
  su_proc : ∃ P, procs (kb_tab k') !! 0%nat = Some P ∧ current (kb_tab k') = Some 0%nat ∧ pid P = 1 ∧
    state P = PROC_STATE_RUNNING ∧ esp P = sp ∧ page_dir_phys P = dir ∧ take 6 (p_name P) = bytes "shell" ++ [0];
  su_frame : ∃ ks, sp = ks + 4052 ∧ page_addr ks ∧ fa_free (kb_pfa k) (ks / 4096) = true ∧ entry_frame (c_mem (kb_con k')) (l_trampoline L) ks;
  su_loaded : loaded (kb_pfa k) data (c_mem (kb_con k')) (kb_pfa k') dir;
  su_stack : stack_apart (kb_pfa k) (c_mem (kb_con k')) (kb_pfa k') dir (sp - 4052) ∧ esp0 (kb_tss k') = (sp - 4052) +ᵤ 4096;
  su_screen : shows (kb_con k') (term_write t (bytesln "Starting shell..."));
  su_ports : ∃ evs, c_ports (kb_con k') = pit_init (l_dev L) 50 (c_ports (kb_con k)) ++ evs ∧ screen_io evs;
  su_mem : changes_only W (c_mem (kb_con k)) (c_mem (kb_con k'));
  su_rest : kb_fs k' = kb_fs k ∧ ∀ k0, cpu_ready k0 k → cpu_ready k0 k'
}.

Lemma entry_frame_outside (fa : pfa) m m' tr ks : entry_frame m tr ks → page_addr ks → fa_free fa (ks / 4096) = true →
  changes_only (λ x, ¬ free_bytes fa x) m m' → entry_frame m' tr ks.
Proof.
  intros He [Hk Ha] Hf Hc i w Hi. rewrite <- (He i w Hi). pose proof (lookup_lt_Some _ _ _ Hi) as Hlt.
  change (length (entry_words tr)) with 11%nat in Hlt. apply ld32_ext; [lia|]. intros x Hx. apply Hc; [unfold within in Hx; lia|].
  intros Hn. apply Hn. exists (ks / 4096). split; [clear - Hk; word_lia|]. split; [exact Hf|].
  unfold within in *. clear - Hx Ha Hlt. word_lia.
Qed.

Lemma start_shell_spec k t mstart files data : pre_shell k t mstart files →
  shell_file (c_mem (kb_con k)) mstart files data → is_u32 (l_trampoline L) →
  frames_needed data <= nfree (kb_pfa k) →
  ∃ k' sp dir, start_shell L k = Some (Jumped k' sp dir) ∧ shell_up k t data k' sp dir.
Proof.
  intros Hps Hsh Htr Hen. pose proof Hps as [Hos Hfs _ _ Hfr (Hlen & Hnm & Hpid)]. unfold start_shell.
  destruct (process_init_spec (kb_tab k) Hlen Hnm) as (t0 & -> & Hw0 & Hc0 & Hn0 & Hd0). rewrite bind_Some.
  destruct (lookup_lt_is_Some_2 (procs t0) 0) as [p0 Hp0]; [rewrite (tw_len _ Hw0); lia|].
  assert (first_dead t0 0) as Hfd by (split; [exists p0; split; [exact Hp0|by eapply Hd0]|intros i q Hi; lia]).
  destruct (create_enough cr3 (l_trampoline L) _ (kb_pfa k) t0 mstart files _ _ data 0
    (shell_loadable k t mstart files data t0 Hps Hsh Hw0) Htr Hfd Hen)
    as (m1 & st1 & p & dir & ks & Hp & E & Hcm & Hef & [Hkp Hkf] & Hlo & Hsa).
  rewrite Hfs, E, bind_Some. cbv zeta. assert (p0 = p) as -> by congruence.
  set (t1 := with_process t0 0 p dir ks (bytes "shell")).
  set (k1 := with_ports _ _).
  assert (on_screen k1 t) as Hos1.
  { destruct (on_screen_mem k t m1 Hos) as [H1 H2 H3]; [|split; [exact H1|exact H2|exact H3]].
    eapply changes_only_mono; [|exact Hcm]. exact Hfr. }
  destruct (say_spec (bytesln "Starting shell...") 18 k1 t Hos1) as (c & -> & Hs & Hm & Hpo); [in_lits|reflexivity|]. rewrite bind_Some.
  assert (tab_wf t1) as Hw1.
  { apply with_process_wf; [exact Hw0| |exact Hp|by eapply Hd0| |lia].
    - intros c' q Hq. congruence.
    - apply (bool_decide_unpack _). vm_compute. exact I. }
  cbn [kb_tab with_con]. change (kb_tab k1) with t1.
  rewrite (start_first t0 t1 0 _ Hw1 Hc0 eq_refl (lookup_lt_Some _ _ _ Hp) (λ i q Hi, proj1 (Hd0 i q Hi)) eq_refl), bind_Some.
  eexists _, _, _. split; [reflexivity|].
  assert (changes_only (λ x, ¬ free_bytes (kb_pfa k) x) m1 (c_mem c)) as Hout.
  { eapply changes_only_mono; [|exact Hm]. intros x Hx Hf. by apply Hfr in Hf as [_ Hn]. }
  split; cbn [kb_con kb_tab kb_pfa with_tss with_tab with_con].
  - eexists t1, _, _, _, _, c, st1, _. split; [exact Hw1|]. split; [|split; [exact Hc0|]].
    + cbn. rewrite Hn0, Hpid. done.
    + split; [|reflexivity]. apply (start_first t0 t1 0 _ Hw1 Hc0 eq_refl (lookup_lt_Some _ _ _ Hp)); [|reflexivity].
      intros i q Hi. by eapply Hd0.
  - eexists. split; [apply list_lookup_insert_eq; by eapply lookup_lt_Some|]. cbn. rewrite Hn0, Hpid. done.
  - exists ks. split; [reflexivity|]. split; [exact Hkp|]. split; [exact Hkf|]. exact (entry_frame_outside _ _ _ _ _ Hef Hkp Hkf Hout).
  - apply (loaded_outside _ _ _ m1); [exact Hlo|apply Hsh|exact Hout].
  - assert (ks + 4052 - 4052 = ks) as Eks by lia. change (esp _) with (ks + 4052). rewrite Eks.
    split; [exact (stack_apart_outside _ _ _ _ _ _ Hsa Hout)|reflexivity].
  - apply Hs.
  - eexists. split; [exact Hpo|apply cursor_screen_io].
  - eapply changes_only_trans; [eapply changes_only_mono; [|exact Hcm]; intros x Hx; by apply Hfr|].
    eapply fb_in_W; [apply (os_boot _ _ Hos)|exact Hm].
  - split; [reflexivity|]. intros k0 [H1 H2 H3 H4]. by split.
Qed.

(** Without a shell. *)
Lemma no_shell_spec k t mstart files : pre_shell k t mstart files → (∀ f, f ∈ files → f_name f ≠ bytes "shell") →
  ∃ k', start_shell L k = Some (Hung k') ∧
    on_screen k' (term_write t (bytesln "Starting shell..." ++ bytesln "No processes to run.")).
Proof.
  intros [Hos Hfs Hso _ _ (Hlen & Hnm & _)] Hno. unfold start_shell.
  destruct (process_init_spec (kb_tab k) Hlen Hnm) as (t0 & -> & Hw0 & Hc0 & _ & Hd0). rewrite bind_Some.
  rewrite Hfs, (process_create_not_found cr3 _ _ (kb_pfa k) t0 mstart files _ (bytes "shell") Hw0), bind_Some;
    [|apply Hso, changes_only_refl|apply (bo_lits _ _ (os_boot _ _ Hos)); [in_lits|apply changes_only_refl]|exact Hno].
  cbv zeta. set (k1 := with_ports _ _).
  assert (on_screen k1 t) as Hos1 by (destruct Hos as [H1 [H2 H2'] H3]; split; [exact H1|split; [exact H2|exact H2']|exact H3]).
  destruct (say_spec (bytesln "Starting shell...") 18 k1 t Hos1) as (c & -> & Hs & _); [in_lits|reflexivity|]. rewrite bind_Some.
  cbn [kb_tab with_con]. change (kb_tab k1) with t0.
  destruct (scheduler_start_spec t0 Hw0 Hc0) as [(i & q & Hq & Hr & _)|[_ ->]].
  { apply Hd0 in Hq as [Hq _]. unfold ready in Hr. lia. }
  rewrite bind_Some. set (k2 := with_tab _ _).
  assert (on_screen k2 (term_write t (bytesln "Starting shell..."))) as Hos2 by (destruct Hs; by split).
  destruct (say_spec (bytesln "No processes to run.") 21 k2 _ Hos2) as (c2 & -> & Hs2 & _); [in_lits|reflexivity|]. rewrite bind_Some.
  eexists. split; [reflexivity|]. rewrite term_write_app. exact Hs2.
Qed.

(** ** From the entry to the shell *)

(** The module GRUB loaded holds an image, and neither is written to; frames
    that are free once it is reserved may be written, and are not the screen's. *)
Record image_info (m : mem) (mstart mend : Z) (files : list file) : Prop := {
  ii_module : ∀ m', changes_only W m m' → module_at m' mstart mend;
  ii_image : sofs_stable cr3 W m mstart files;
  ii_free : ∀ g x, 0 <= g < MAX_FRAMES → avail g = true → boot_reserved kstart kend mbi table g = false →
    frame_meets mstart mend g = false → within (g * 4096) 4096 x → W x ∧ ¬ fb_bytes x
}.

(** The frames in use after the boot. *)
Definition boot_used (mstart mend : Z) (g : Z) : bool :=
  frame_meets mstart mend g || (boot_reserved kstart kend mbi table g || negb (avail g)).

Lemma boot_info_changes m m' : boot_info m → changes_only W m m' → boot_info m'.
Proof. intros [Hr Hm] Hc. split; [exact Hr|]. intros m2 H2. apply Hm. by eapply changes_only_trans. Qed.

Lemma init_spec k : fresh_state k → boot_ok W (c_mem (kb_con k)) → boot_info (c_mem (kb_con k)) →
  ∃ k1 k2, init_cpu L k = Some k1 ∧ init_memory L mbi kstart kend k1 = Some k2 ∧ cpu_ready k k2 ∧ on_screen k2 blank_screen ∧
    changes_only W (c_mem (kb_con k)) (c_mem (kb_con k2)) ∧
    c_ports (kb_con k2) = pic_remap (serial_init SERIAL_COM1_BASE (c_ports (kb_con k)) ++ cursor_events 0) ∧
    pfa_like (kb_pfa k2) (λ g, boot_reserved kstart kend mbi table g || negb (avail g)) ∧ kb_tab k2 = kb_tab k.
Proof.
  intros Hf Hb Hi. destruct (init_cpu_spec k Hf Hb) as (k1 & E1 & Hcr & Hos & Hc1 & Hp & Hpf & Ht).
  apply (fb_in_W _ _ _ Hb) in Hc1.
  destruct (init_memory_spec k1 blank_screen Hos) as (m' & st & E2 & Hos2 & Hc2 & Hst).
  { by eapply boot_info_changes. }
  { rewrite Hpf. apply Hf. }
  eexists k1, _. split; [exact E1|]. split; [exact E2|]. split; [by destruct Hcr; split|].
  split; [exact Hos2|]. split; [exact (changes_only_trans _ _ _ _ Hc1 Hc2)|]. by split.
Qed.

Lemma said_W k t c : said k t c → changes_only W (c_mem (kb_con k)) (c_mem c).
Proof.
  intros [[Hb _ _] Hm _]. eapply changes_only_mono; [|exact Hm]. cbn in Hb.
  intros x [Hx| ->]; [by apply (bo_fb _ _ Hb)|apply (bo_digit _ _ Hb)].
Qed.

(** With a module that holds an image, kmain comes to the creation of the shell. *)
Lemma to_shell k mstart mend files : fresh_state k → boot_ok W (c_mem (kb_con k)) → boot_info (c_mem (kb_con k)) →
  image_info (c_mem (kb_con k)) mstart mend files →
  ∃ k', kmain L MULTIBOOT_BOOTLOADER_MAGIC mbi kstart kend k = start_shell L k' ∧
    pre_shell k' (term_write blank_screen (loaded_text (Z.of_nat (length files)))) mstart files ∧
    cpu_ready k k' ∧ changes_only W (c_mem (kb_con k)) (c_mem (kb_con k')) ∧
    pfa_like (kb_pfa k') (boot_used mstart mend) ∧
    ∃ evs, c_ports (kb_con k') = pic_remap (serial_init SERIAL_COM1_BASE (c_ports (kb_con k)) ++ cursor_events 0) ++ evs ∧ screen_io evs.
Proof.
  intros Hf Hb Hi [Hmod Him Hfr].
  destruct (init_spec k Hf Hb Hi) as (k1 & k2 & E1 & E2 & Hcr & Hos & Hc2 & Hp2 & [Hwf2 Hus2] & Ht2).
  unfold kmain. rewrite E1, bind_Some. change (negb (MULTIBOOT_BOOTLOADER_MAGIC =? _)) with false. cbv iota.
  rewrite E2, bind_Some. pose proof (Him _ Hc2) as Hso.
  destruct (mount_module_spec k2 blank_screen mstart mend FS_MAGIC Hos (Hmod _ Hc2) Hwf2 (so_magic _ _ _ _ Hso))
    as (st & fs & _ & [Hwf3 Hus3] & -> & E3). rewrite E3, bind_Some.
  set (k3 := with_fs _ _). assert (on_screen k3 blank_screen) as Hos3 by (destruct Hos; by split).
  assert (kb_fs k3 = mounted mstart) as Hfs3.
  { unfold k3. cbn [kb_fs with_fs]. pose proof (so_fits _ _ _ _ Hso). pose proof (so_addr _ _ _ _ Hso). by rewrite u32_small by lia. }
  destruct (boot_message_spec k3 blank_screen mstart files Hos3 Hfs3) as (c & -> & Hsa).
  { intros m' Hm'. apply Him. exact (changes_only_trans _ _ _ _ Hc2 Hm'). }
  rewrite bind_Some. eexists. split; [reflexivity|].
  pose proof (said_W _ _ _ Hsa) as Hc3. pose proof (changes_only_trans _ _ _ _ Hc2 Hc3) as Hc.
  assert (∀ g, 0 <= g < MAX_FRAMES → frame_used st g = boot_used mstart mend g) as Hus.
  { intros g Hg. rewrite Hus3 by exact Hg. unfold boot_used. by rewrite Hus2. }
  split; [|split; [by destruct Hcr; split|split; [exact Hc|split; [split; [exact Hwf3|exact Hus]|]]]].
  - split; [apply Hsa|exact Hfs3|intros m' Hm'; apply Him; exact (changes_only_trans _ _ _ _ Hc Hm')| | |].
    + split; [exact Hwf3|]. cbn [kb_pfa with_con with_fs with_pfa k3]. rewrite Hus by lia. unfold boot_used, boot_reserved. by rewrite orb_true_r.
    + intros x (g & Hg & Hgf & Hx). cbn in Hgf. rewrite Hus in Hgf by exact Hg. unfold boot_used in Hgf.
      apply negb_true_iff, orb_false_iff in Hgf as [Hm Hgf]. apply orb_false_iff in Hgf as [Hr Ha%negb_false_iff]. by apply (Hfr g).
    + cbn. rewrite Ht2. split; [apply Hf|]. split; [apply Hf|apply Hf].
  - destruct (sa_ports _ _ _ Hsa) as (evs & Hp & Hio). exists evs. split; [|exact Hio]. cbn [kb_con with_con]. by rewrite Hp, <- Hp2.
Qed.
End boot.

(** ** The devices after the boot *)

Lemma screen_skip {S} (step : S → io → S) s tr evs : screen_io evs →
  (∀ s v, step s (Out FB_COMMAND_PORT v) = s ∧ step s (Out FB_DATA_PORT v) = s) →
  observe step s (tr ++ evs) = observe step s tr.
Proof.
  intros Hio Hst. apply observe_skip. eapply Forall_impl; [exact Hio|].
  intros e (v & [-> | ->]) s'; destruct (Hst s' v) as [E1 E2]; done.
Qed.

Lemma pics_screen s v : pics_step s (Out FB_COMMAND_PORT v) = s ∧ pics_step s (Out FB_DATA_PORT v) = s.
Proof. by split. Qed.
Lemma timer_screen s v : timer_step s (Out FB_COMMAND_PORT v) = s ∧ timer_step s (Out FB_DATA_PORT v) = s.
Proof. by split. Qed.
Lemma uart_screen s v : uart_step SERIAL_COM1_BASE s (Out FB_COMMAND_PORT v) = s ∧ uart_step SERIAL_COM1_BASE s (Out FB_DATA_PORT v) = s.
Proof. by split. Qed.

(** All that passes through the ports until the controllers are initialised. *)
Definition boot_io : list io :=
  [Out 0x3FB 0x80; Out 0x3F8 0; Out 0x3F8 2; Out 0x3FB 3; Out 0x3FA 0xC7; Out 0x3FC 3] ++ cursor_events 0 ++
  [Out 0x20 0x11; Out 0xA0 0x11; Out 0x21 0x20; Out 0xA1 0x28; Out 0x21 4; Out 0xA1 2; Out 0x21 1; Out 0xA1 1; Out 0x21 0xFD; Out 0xA1 0xFF].

Lemma boot_ports tr : pic_remap (serial_init SERIAL_COM1_BASE tr ++ cursor_events 0) = tr ++ boot_io.
Proof.
  unfold pic_remap, serial_init, serial_configure_baud_rate, serial_configure_line, serial_configure_buffers, serial_configure_modem, outb.
  cbv zeta. unfold boot_io. rewrite <- !app_assoc. reflexivity.
Qed.

Lemma timer_init tm tr : observe timer_step tm (pic_remap (serial_init SERIAL_COM1_BASE tr ++ cursor_events 0)) = observe timer_step tm tr.
Proof.
  rewrite boot_ports. apply observe_skip. repeat (apply Forall_cons; split; [intros ?; reflexivity|]). constructor.
Qed.

(** pit_init on the ports as kmain leaves them. *)
Lemma boot_timer dev s tm tr evs evs' :
  (∀ tr', dev tr' PIC1_DATA_PORT = imr (observe pics_step s tr').1) → t_next_high (observe timer_step tm tr) = false →
  screen_io evs → screen_io evs' →
  let tr' := pit_init dev 50 (pic_remap (serial_init SERIAL_COM1_BASE tr ++ cursor_events 0) ++ evs) ++ evs' in
  (∀ irq, 0 <= irq < 16 → unmasked (observe pics_step s tr') irq = (irq <? 2) ∧ vector (observe pics_step s tr') irq = 32 + irq) ∧
  t_mode (observe timer_step tm tr') = 3 ∧ t_reload (observe timer_step tm tr') = 23863.
Proof.
  intros Hdev Ht Hio Hio'. cbv zeta. rewrite !(screen_skip _ _ _ evs' Hio') by (apply pics_screen || apply timer_screen).
  set (tr0 := pic_remap _). destruct (pic_remap_spec s (serial_init SERIAL_COM1_BASE tr ++ cursor_events 0)) as (s' & Hs' & Hr & _).
  destruct (pit_init_spec dev s tm 50 (tr0 ++ evs) 0xFD 0xFF) as (m1 & Hr' & Hu & H0 & Hi & Hmode & _ & Hrel);
    [lia|lia|intros tr' <-; apply Hdev| | |].
  - rewrite (screen_skip _ _ _ _ Hio pics_screen). unfold tr0. by rewrite Hs'.
  - rewrite (screen_skip _ _ _ _ Hio timer_screen). unfold tr0. by rewrite timer_init.
  - split; [|split; [exact Hmode|by rewrite Hrel]]. intros irq Hq.
    split; [by apply (two_lines m1)|by eapply remapped_vector].
Qed.

(** The whole boot. *)
Lemma kmain_spec L W mbi kstart kend avail table mstart mend files data k s tm :
  let m := c_mem (kb_con k) in
  boot_ok L W m → fresh_state k → boot_info L W mbi kstart kend avail table m →
  image_info L W mbi kstart kend avail table m mstart mend files → shell_file L W m mstart files data →
  is_u32 (l_trampoline L) →
  frames_needed data <= count_upto (λ g, negb (boot_used mbi kstart kend avail table mstart mend g)) all_frames →
  (∀ tr', l_dev L tr' PIC1_DATA_PORT = imr (observe pics_step s tr').1) →
  t_next_high (observe timer_step tm (c_ports (kb_con k))) = false →
  ∃ k' sp dir ks st P, kmain L MULTIBOOT_BOOTLOADER_MAGIC mbi kstart kend k = Some (Jumped k' sp dir) ∧
    changes_only W m (c_mem (kb_con k')) ∧ booted (machine_of k') ∧ cpu_ready L k k' ∧ kb_fs k' = mounted mstart ∧
    current (kb_tab k') = Some 0%nat ∧ procs (kb_tab k') !! 0%nat = Some P ∧ pid P = 1 ∧
    take 6 (p_name P) = bytes "shell" ++ [0] ∧ esp P = sp ∧ page_dir_phys P = dir ∧
    sp = ks + 4052 ∧ page_addr ks ∧ fa_free st (ks / 4096) = true ∧ entry_frame (c_mem (kb_con k')) (l_trampoline L) ks ∧
    pfa_like st (boot_used mbi kstart kend avail table mstart mend) ∧ loaded st data (c_mem (kb_con k')) (kb_pfa k') dir ∧
    stack_apart st (c_mem (kb_con k')) (kb_pfa k') dir ks ∧ esp0 (kb_tss k') = ks +ᵤ 4096 ∧
    shows (kb_con k') (term_write blank_screen (loaded_text (Z.of_nat (length files)) ++ bytesln "Starting shell...")) ∧
    (∀ irq, 0 <= irq < 16 → unmasked (observe pics_step s (c_ports (kb_con k'))) irq = (irq <? 2) ∧
                            vector (observe pics_step s (c_ports (kb_con k'))) irq = 32 + irq) ∧
    t_mode (observe timer_step tm (c_ports (kb_con k'))) = 3 ∧ t_reload (observe timer_step tm (c_ports (kb_con k'))) = 23863.
Proof.
  intros m Hb Hf Hi Him [(i & f & Hfind & Hsz & Hfit & Hdata) Hsize] Htr Hen Hdev Htm.
  destruct (to_shell L W mbi kstart kend avail table k mstart mend files Hf Hb Hi Him)
    as (k2 & -> & Hps & Hcr & Hc & Hpf & evs & Hp & Hio).
  destruct (start_shell_spec L W k2 _ mstart files data Hps) as (k' & sp & dir & -> & Hup); [|exact Htr| |].
  - split; [|exact Hsize]. exists i, f. split; [exact Hfind|]. split; [exact Hsz|]. split; [exact Hfit|]. intros j b Hj.
    destruct (Hdata j b Hj) as [Hu Hr]. split; [exact Hu|]. intros m' Hm'. apply Hr. exact (changes_only_trans _ _ _ _ Hc Hm').
  - etransitivity; [exact Hen|]. apply Z.eq_le_incl, count_upto_ext. intros g Hg. cbn [fa_free pfa_frame_alloc]. f_equal. symmetry. apply Hpf.
    rewrite <- all_frames_Z. exact Hg.
  - destruct Hup as [H1 (P & HP & Hcur & Hpid & Hst & Hesp & Hdir & Hname) (ks & -> & Hkp & Hkf & Hef) H4 [Hsa Htss] H5 (evs' & Hp' & Hio') Hmem [H7 H8]].
    destruct (boot_timer (l_dev L) s tm (c_ports (kb_con k)) evs evs' Hdev Htm Hio Hio') as (D1 & D2 & D3).
    rewrite <- Hp, <- Hp' in D1, D2, D3.
    eexists k', _, dir, ks, (kb_pfa k2), P. split; [reflexivity|].
    split; [exact (changes_only_trans _ _ _ _ Hc Hmem)|]. split; [exact H1|]. split; [by apply H8|].
    split; [rewrite H7; apply Hps|]. do 6 (split; [done|]). split; [done|]. split; [exact Hkp|]. split; [exact Hkf|]. split; [exact Hef|]. split; [exact Hpf|]. split; [exact H4|].
    rewrite Z.add_simpl_r in Hsa, Htss. split; [exact Hsa|]. split; [exact Htss|].
    split; [rewrite term_write_app; exact H5|]. split; [exact D1|by split].
Qed.

(** ** Properties *)

(** C5: started by GRUB with the module of an image that has a "shell" and
    with frames enough for it, kmain ends in the jump to the shell's kernel
    stack and page directory: the shell is the current process, pid 1, loaded
    and ready to enter ring 3, with a kernel stack of its own, to which the
    task state segment points; the machine is in the initial state of the
    kernel's invariant, with the segments, the gates and the interrupt
    controllers initialised, the timer at 50 Hz and only its line and the
    keyboard's let through; the frames of the kernel, of the boot information
    and of the module are not free; the screen shows the boot message; nothing
    is written outside [W], the memory the boot may use. *)
Theorem kmain_boots L W mbi kstart kend avail table mstart mend files data k s tm :
  let m := c_mem (kb_con k) in
  boot_ok L W m → fresh_state k → boot_info L W mbi kstart kend avail table m →
  image_info L W mbi kstart kend avail table m mstart mend files → shell_file L W m mstart files data →
  is_u32 (l_trampoline L) →
  frames_needed data <= count_upto (λ g, negb (boot_used mbi kstart kend avail table mstart mend g)) all_frames →
  (∀ tr', l_dev L tr' PIC1_DATA_PORT = imr (observe pics_step s tr').1) →
  t_next_high (observe timer_step tm (c_ports (kb_con k))) = false →
  ∃ k' sp dir ks st P, kmain L MULTIBOOT_BOOTLOADER_MAGIC mbi kstart kend k = Some (Jumped k' sp dir) ∧
    changes_only W m (c_mem (kb_con k')) ∧ booted (machine_of k') ∧ cpu_ready L k k' ∧ kb_fs k' = mounted mstart ∧
    current (kb_tab k') = Some 0%nat ∧ procs (kb_tab k') !! 0%nat = Some P ∧ pid P = 1 ∧
    take 6 (p_name P) = bytes "shell" ++ [0] ∧ esp P = sp ∧ page_dir_phys P = dir ∧
    sp = ks + 4052 ∧ page_addr ks ∧ fa_free st (ks / 4096) = true ∧ entry_frame (c_mem (kb_con k')) (l_trampoline L) ks ∧
    pfa_like st (boot_used mbi kstart kend avail table mstart mend) ∧ loaded st data (c_mem (kb_con k')) (kb_pfa k') dir ∧
    stack_apart st (c_mem (kb_con k')) (kb_pfa k') dir ks ∧ esp0 (kb_tss k') = ks +ᵤ 4096 ∧
    shows (kb_con k') (term_write blank_screen (loaded_text (Z.of_nat (length files)) ++ bytesln "Starting shell...")) ∧
    (∀ irq, 0 <= irq < 16 → unmasked (observe pics_step s (c_ports (kb_con k'))) irq = (irq <? 2) ∧
                            vector (observe pics_step s (c_ports (kb_con k'))) irq = 32 + irq) ∧
    t_mode (observe timer_step tm (c_ports (kb_con k'))) = 3 ∧ t_reload (observe timer_step tm (c_ports (kb_con k'))) = 23863.
Proof. apply kmain_spec. Qed.

(** What kmain reports: a loader that is not Multiboot, no module, a module
    that is no image, an image without a shell. *)
Inductive boot_fault (L : klayout) (W : Z → Prop) (mbi kstart kend : Z) (m : mem) (magic : Z) : list Z → Prop :=
  | wrong_magic : magic ≠ MULTIBOOT_BOOTLOADER_MAGIC → boot_fault L W mbi kstart kend m magic (bytesln "Invalid multiboot magic")
  | no_module avail table : magic = MULTIBOOT_BOOTLOADER_MAGIC → boot_info L W mbi kstart kend avail table m →
      (∀ m', changes_only W m m' → ∃ flags, mbi_flags (l_cr3 L) m' mbi = Some flags ∧
         (Z.land flags MULTIBOOT_INFO_MODS = 0 ∨ mbi_mods_count (l_cr3 L) m' mbi = Some 0)) →
      boot_fault L W mbi kstart kend m magic (bytesln "ERROR: No module from GRUB.")
  | bad_image avail table mstart mend v : magic = MULTIBOOT_BOOTLOADER_MAGIC → boot_info L W mbi kstart kend avail table m →
      (∀ m', changes_only W m m' → module_at L mbi m' mstart mend ∧ kld32 (l_cr3 L) m' mstart = Some v) → v ≠ FS_MAGIC →
      boot_fault L W mbi kstart kend m magic (bytesln "ERROR: Invalid filesystem.")
  | no_shell avail table mstart mend files : magic = MULTIBOOT_BOOTLOADER_MAGIC → boot_info L W mbi kstart kend avail table m →
      image_info L W mbi kstart kend avail table m mstart mend files → (∀ f, f ∈ files → f_name f ≠ bytes "shell") →
      boot_fault L W mbi kstart kend m magic
        (loaded_text (Z.of_nat (length files)) ++ bytesln "Starting shell..." ++ bytesln "No processes to run.").

Lemma uart_init u tr : let u' := observe (uart_step SERIAL_COM1_BASE) u (tr ++ boot_io) in
  transmitted u' = transmitted (observe (uart_step SERIAL_COM1_BASE) u tr) ∧ Z.testbit (lcr u') 7 = false.
Proof. cbv zeta. unfold observe. rewrite foldl_app. destruct (foldl _ u tr). by split. Qed.

(** The message on the serial line. *)
Lemma serial_message L W k t busy msg evs tr : on_screen L W k t → msg ∈ kmain_literals → responsive (l_dev L) SERIAL_COM1_BASE busy →
  c_ports (kb_con k) = tr ++ boot_io ++ evs → screen_io evs →
  ∃ tr', serial_write (l_cr3 L) (c_mem (kb_con k)) (l_dev L) SERIAL_COM1_BASE (l_lit L msg) (Z.of_nat (length msg)) (c_ports (kb_con k)) =
      Some (s32 (Z.of_nat (length msg)), tr') ∧
    ∀ u, transmitted (observe (uart_step SERIAL_COM1_BASE) u tr') = transmitted (observe (uart_step SERIAL_COM1_BASE) u tr) ++ msg.
Proof.
  intros [Hb _ _] Hin Hre Hp Hio.
  pose proof (bo_lits _ _ _ Hb msg _ Hin (changes_only_refl _ _)) as Hcs. destruct (Hcs) as [S0 S1 S2 _].
  destruct (serial_write_spec SERIAL_COM1_BASE ltac:(lia) (l_cr3 L) (c_mem (kb_con k)) (l_dev L) busy (l_lit L msg) msg
    (c_ports (kb_con k)) Hre) as (tr' & E & Hpo).
  - intros i b Hi. by apply S2.
  - by eapply cstring_u8.
  - lia.
  - lia.
  - rewrite E. eexists. split; [reflexivity|]. intros u. unfold observe. rewrite foldl_app.
    change (foldl (uart_step SERIAL_COM1_BASE) ?x tr') with (observe (uart_step SERIAL_COM1_BASE) x tr').
    change (foldl (uart_step SERIAL_COM1_BASE) u (c_ports (kb_con k))) with (observe (uart_step SERIAL_COM1_BASE) u (c_ports (kb_con k))).
    rewrite Hp, app_assoc, (screen_skip _ _ _ _ Hio uart_screen). destruct (uart_init u tr) as [Ht Hl].
    rewrite (polled_sent _ msg tr' _ Hpo Hl). cbn [transmitted]. by rewrite Ht.
Qed.

(** C8: when the boot cannot succeed kmain says so and stops: whatever was on
    the screen, it is cleared and shows the message of the fault, and no
    process is started.  A wrong magic number is reported on the serial line
    too, before anything of the boot information is read. *)
Theorem kmain_errors L W mbi kstart kend k magic msg busy :
  let m := c_mem (kb_con k) in
  boot_ok L W m → fresh_state k → responsive (l_dev L) SERIAL_COM1_BASE busy → boot_fault L W mbi kstart kend m magic msg →
  ∃ k', kmain L magic mbi kstart kend k =
      Some (if magic =? MULTIBOOT_BOOTLOADER_MAGIC then Hung k' else BadMagic k') ∧
    shows (kb_con k') (term_write blank_screen msg) ∧
    (magic ≠ MULTIBOOT_BOOTLOADER_MAGIC → ∀ u, transmitted (observe (uart_step SERIAL_COM1_BASE) u (c_ports (kb_con k'))) =
      transmitted (observe (uart_step SERIAL_COM1_BASE) u (c_ports (kb_con k))) ++ msg).
Proof.
  intros m Hb Hf Hre Hfault.
  destruct Hfault as [Hne|avail table -> Hi Hno|avail table mstart mend v -> Hi Hmod Hv|avail table mstart mend files -> Hi Him Hno];
    [| |..]; (rewrite Z.eqb_refl || rewrite (proj2 (Z.eqb_neq _ _) Hne)).
  - destruct (init_cpu_spec L W k Hf Hb) as (k1 & E1 & _ & Hos & _ & Hp & _). unfold kmain. rewrite E1, bind_Some.
    rewrite (proj2 (Z.eqb_neq _ _) Hne). cbn [negb].
    destruct (say_spec L W (bytesln "Invalid multiboot magic") 24 k1 blank_screen Hos) as (c & -> & Hs & _ & Hpc); [in_lits|reflexivity|].
    rewrite bind_Some. rewrite Hp, boot_ports, <- app_assoc in Hpc.
    destruct (serial_message L W _ _ busy (bytesln "Invalid multiboot magic") _ _ Hs ltac:(in_lits) Hre Hpc (cursor_screen_io _)) as (tr' & E & Ht).
    change (Z.of_nat (length (bytesln "Invalid multiboot magic"))) with 24 in E. rewrite E, bind_Some.
    eexists. split; [reflexivity|]. split; [apply Hs|]. intros _. exact Ht.
  - destruct (init_spec L W mbi kstart kend avail table k Hf Hb Hi) as (k1 & k2 & E1 & E2 & _ & Hos & Hc & _).
    destruct (Hno _ Hc) as (flags & Hfl & Hfn).
    destruct (no_module_spec L W mbi k2 blank_screen flags Hos Hfl Hfn) as (c & E3 & Hs).
    eexists. split; [|split; [apply Hs|done]]. unfold kmain. rewrite E1, bind_Some. cbn [negb Z.eqb Pos.eqb]. by rewrite E2, bind_Some, E3.
  - destruct (init_spec L W mbi kstart kend avail table k Hf Hb Hi) as (k1 & k2 & E1 & E2 & _ & Hos & Hc & _ & [Hwf _] & _).
    destruct (Hmod _ Hc) as [Hm Hmg].
    destruct (mount_module_spec L W mbi k2 blank_screen mstart mend v Hos Hm Hwf Hmg) as (st & fs & _ & _ & Hr).
    rewrite (proj2 (Z.eqb_neq _ _) Hv) in Hr. destruct Hr as (c & E3 & Hs).
    eexists. split; [|split; [apply Hs|done]]. unfold kmain. rewrite E1, bind_Some. cbn [negb Z.eqb Pos.eqb]. by rewrite E2, bind_Some, E3.
  - destruct (to_shell L W mbi kstart kend avail table k mstart mend files Hf Hb Hi Him) as (k2 & -> & Hps & _).
    destruct (no_shell_spec L W k2 _ mstart files Hps Hno) as (k' & -> & Hs). exists k'. split; [reflexivity|]. split; [|done].
    rewrite term_write_app. apply Hs.
Qed.

(** ** Witnesses *)

Lemma bytes_at_slice cr3 m a bs n x : bytes_at cr3 m a bs → take (length x) (drop n bs) = x → bytes_at cr3 m (a + Z.of_nat n) x.
Proof.
  intros Hb Hx i b Hi. rewrite <- Z.add_assoc, <- Nat2Z.inj_add. apply Hb. rewrite <- lookup_drop.
  rewrite <- Hx in Hi. by apply lookup_take_Some in Hi as [? _].
Qed.

(** What GRUB leaves: the kernel's literals, the information block with one
    available region, [0x100000, 0x200000), and one module, which holds [img].
    The page directory is at 0x8000, all this at 0x9000. *)
Definition boot_blob (img : list Z) : list Z :=
  (kmain_literals ≫= in_slot 32) ++
  in_slot 64 (le_bytes 0x48 ++ replicate 16 0 ++ le_bytes 1 ++ le_bytes 0x9140 ++ replicate 16 0 ++ le_bytes 24 ++ le_bytes 0x9150) ++
  (le_bytes 0x9180 ++ le_bytes (0x9180 + Z.of_nat (length img)) ++ replicate 8 0) ++
  in_slot 48 (le_bytes 20 ++ le_bytes 0x100000 ++ le_bytes 0 ++ le_bytes 0x100000 ++ le_bytes 0 ++ le_bytes 1) ++ img.

Definition boot_writes (x : Z) : Prop :=
  fb_bytes x ∨ within 0xA004 8 x ∨ x = 0xA010 ∨ within 0x100000 0x100000 x ∨ within 0x7000 4096 x ∨ within 0xA100 0x180 x.

Definition example_layout (dev : device) : klayout :=
  mkLayout 0x8000 0x7000 0xA100 0xA200 0xA300 0xA004 0xA010 (string_place 0x9000 32 kmain_literals) (λ n, 0xA800 + n mod 256) 0xA900 0xAA00 dev.

Definition example_kstate (m : mem) : kstate :=
  mkK (mkCon m 0 []) tss_zero (replicate 6 (mkGdt 0 0 0 0 0 0)) (mkPtr 0 0) 0 (replicate 256 (mkIdt 0 0 0 0 0)) (mkPtr 0 0) false
      (mkPfa (replicate (Z.to_nat 32768) 0) 0 0) 0 (mkFs 0 0 0) boot_tab.

Lemma example_fresh m : fresh_state (example_kstate m).
Proof.
  split; [done|apply length_replicate| |apply boot_tab_ok|apply boot_tab_ok|done].
  unfold example_kstate. cbn [kb_pfa frame_bitmap]. rewrite length_replicate. lia.
Qed.

Definition lit_offset (str : list Z) : nat := Z.to_nat (string_place 0 32 kmain_literals str).

Section example.
Context (img : list Z).
Context (dev : device).

Lemma blob_length : length (boot_blob img) = (384 + length img)%nat.
Proof. reflexivity. Qed.

Lemma blob_u8 : Forall (λ b, is_u8 b) img → Forall (λ b, is_u8 b) (boot_blob img).
Proof.
  intros Himg.   unfold boot_blob. repeat (apply Forall_app_2); try exact Himg; try apply le_bytes_u8; try (by apply Forall_replicate);
    apply (bool_decide_unpack _); vm_compute; exact I.
Qed.

Lemma example_boot : Forall (λ b, is_u8 b) img → (length img <= 1024)%nat → ∃ m : mem, kmapped 0x8000 boot_writes m ∧
  (∀ m', changes_only boot_writes m m' → bytes_at 0x8000 m' 0x9000 (boot_blob img)) ∧
  (∀ m' x, changes_only boot_writes m m' → within 0x9000 4096 x → walk m' 0x8000 x = Some x) ∧ space_at m 0x8000 identity_space.
Proof.
  intros Himg Hlen. destruct (identity_dir_exists 0x8000 ∅) as [m0 Hm0]; [split; [lia|done]|]. pose proof blob_length as Hl.
  assert (kmapped 0x8000 (λ a, ¬ within 0x8000 4096 a) (put_bytes m0 0x9000 (boot_blob img))) as Hk.
  { eapply kmapped_changes; [apply identity_kmapped; [exact Hm0|auto]|].
    eapply changes_only_mono; [|apply put_bytes_changes; lia]. unfold within. lia. }
  assert (∀ x, boot_writes x → ¬ within 0x8000 4096 x ∧ ¬ within 0x9000 4096 x) as HW.
  { unfold boot_writes, fb_bytes, within. lia. }
  eexists. split; [eapply kmapped_mono; [|exact Hk]; intros x Hx; by apply HW|]. split; [|split].
  3:{ eapply space_at_changes; [exact Hm0|]. eapply changes_only_mono; [|apply put_bytes_changes; lia].
      intros x Hx [Hd|(i & pt & u & _ & Hbad & _)]; [unfold within in *; lia|done]. }
  2:{ intros m' x Hc Hx. apply Hk; [|unfold within in Hx; lia|unfold within in *; lia]. eapply changes_only_mono; [|exact Hc]. intros y Hy. by apply HW. }
  intros m' Hc. eapply bytes_at_changes; [exact Hk| |exact Hc|intros x Hx; by apply HW|lia|lia|].
  - eapply bytes_at_put; [exact Hk|lia|lia|unfold within; lia|by apply blob_u8].
  - rewrite Hl. intros x Hx. split; [unfold within in *; lia|]. intros Hw. apply HW in Hw as [_ Hw]. apply Hw. unfold within in *. lia.
Qed.

Context (m : mem) (Hb : bytes_at 0x8000 m 0x9000 (boot_blob img)).

(** The literals, the words and the image in it. *)
Lemma blob_string str : str ∈ kmain_literals → cstring_at 0x8000 m (string_place 0x9000 32 kmain_literals str) str.
Proof.
  assert (Forall (λ str, string_place 0x9000 32 kmain_literals str = 0x9000 + Z.of_nat (lit_offset str) ∧
    take (length (str ++ [0])) (drop (lit_offset str) (kmain_literals ≫= in_slot 32)) = str ++ [0] ∧
    (lit_offset str + length str < 256)%nat ∧ Forall (λ b, 0 < b < 256) str) kmain_literals) as HF.
  { apply (bool_decide_unpack _). vm_compute. exact I. }
  intros Hin. rewrite Forall_forall in HF. destruct (HF _ Hin) as (-> & Ht & Hnl & Hpos).
  pose proof (bytes_at_slice _ _ _ _ (lit_offset str) (str ++ [0]) Hb) as Hstr.
  lapply Hstr; [clear Hstr; intros Hstr|].
  - apply bytes_at_app in Hstr as [H1 H2]. split; [lia|lia| |].
    + intros i b Hi. split; [by apply H1|]. by apply (Forall_lookup_1 _ _ _ _ Hpos Hi).
    + rewrite <- (H2 O 0 eq_refl). f_equal. lia.
  - unfold boot_blob. rewrite drop_app_le, take_app_le; [exact Ht|rewrite length_drop, length_app; cbn [length]|]; change (length (kmain_literals ≫= in_slot 32)) with 256%nat; lia.
Qed.

Lemma blob_word n v : is_u32 v → take 4 (drop n (boot_blob img)) = le_bytes v → kld32 0x8000 m (0x9000 + Z.of_nat n) = Some v.
Proof. intros Hv Ht. apply kld32_le_bytes; [exact Hv|]. by apply (bytes_at_slice _ _ _ (boot_blob img)). Qed.

Lemma blob_image : bytes_at 0x8000 m 0x9180 img.
Proof.
  apply (bytes_at_slice _ _ 0x9000 (boot_blob img) 384); [exact Hb|].
  unfold boot_blob. rewrite !app_assoc. rewrite drop_app_length' by reflexivity. by rewrite take_ge.
Qed.

Lemma blob_map : boot_regions 0x8000 m 0x9100 [(0x100000, 0x200000)] (frame_meets 0x9150 0x9168).
Proof.
  apply (boot_regions_mmap _ _ _ 0x48 0x9150 24 [mkEntry 20 0x100000 0x100000 1]); try lia.
  - exact (blob_word 256 0x48 ltac:(lia) eq_refl).
  - done.
  - exact (blob_word 304 0x9150 ltac:(lia) eq_refl).
  - exact (blob_word 300 24 ltac:(lia) eq_refl).
  - split; [lia|]. split; [|cbn; lia]. unfold read_mmap_entry, kld64.
    pose proof (blob_word 336 20 ltac:(lia) eq_refl) as W0. pose proof (blob_word 340 0x100000 ltac:(lia) eq_refl) as W1.
    pose proof (blob_word 344 0 ltac:(lia) eq_refl) as W2. pose proof (blob_word 348 0x100000 ltac:(lia) eq_refl) as W3.
    pose proof (blob_word 352 0 ltac:(lia) eq_refl) as W4. pose proof (blob_word 356 1 ltac:(lia) eq_refl) as W5.
    change (0x9150) with (0x9000 + Z.of_nat 336). rewrite W0, bind_Some.
    change (0x9000 + Z.of_nat 336 + 4) with (0x9000 + Z.of_nat 340). rewrite W1, bind_Some.
    change (0x9000 + Z.of_nat 340 + 4) with (0x9000 + Z.of_nat 344). rewrite W2, !bind_Some.
    change (0x9000 + Z.of_nat 336 + 12) with (0x9000 + Z.of_nat 348). rewrite W3, bind_Some.
    change (0x9000 + Z.of_nat 348 + 4) with (0x9000 + Z.of_nat 352). rewrite W4, !bind_Some.
    change (0x9000 + Z.of_nat 336 + 20) with (0x9000 + Z.of_nat 356). rewrite W5, bind_Some. reflexivity.
  - apply Forall_singleton. unfold entry_ok; cbn. lia.
Qed.

Lemma blob_module : (length img <= 1024)%nat → module_at (example_layout dev) 0x9100 m 0x9180 (0x9180 + Z.of_nat (length img)).
Proof.
  intros Hlen. split.
  - exists 0x48. split; [exact (blob_word 256 0x48 ltac:(lia) eq_refl)|done].
  - exists 1. split; [exact (blob_word 276 1 ltac:(lia) eq_refl)|lia].
  - exists 0x9140. split; [exact (blob_word 280 0x9140 ltac:(lia) eq_refl)|].
    split; [exact (blob_word 320 0x9180 ltac:(lia) eq_refl)|]. exact (blob_word 324 (0x9180 + Z.of_nat (length img)) ltac:(lia) eq_refl).
  - lia.
Qed.
End example.

Definition example_avail (g : Z) : bool := frame_available [(0x100000, 0x200000)] g.

Lemma example_boot_ok img dev (m : mem) : kmapped 0x8000 boot_writes m →
  (∀ m', changes_only boot_writes m m' → bytes_at 0x8000 m' 0x9000 (boot_blob img)) →
  boot_ok (example_layout dev) boot_writes m.
Proof.
  intros Hk Hb. split; [exact Hk|by left| | |].
  - split; [|split; [cbn; lia|cbn; unfold fb_bytes, within; lia]]. split; [cbn; lia|]. split; [cbn; lia|]. intros x Hx. right. by left.
  - split; [cbn; lia|]. split; [right; right; by left|cbn; unfold fb_bytes, within; lia].
  - intros str m' Hs Hc. exact (blob_string img m' (Hb m' Hc) str Hs).
Qed.

Lemma example_boot_info img dev (m : mem) :
  (∀ m', changes_only boot_writes m m' → bytes_at 0x8000 m' 0x9000 (boot_blob img)) →
  boot_info (example_layout dev) boot_writes 0x9100 0x8000 0xB000 example_avail (frame_meets 0x9150 0x9168) m.
Proof.
  intros Hb. split; [lia|]. intros m' Hc. eexists. split; [exact (blob_map img m' (Hb m' Hc))|].
  intros g Hg. symmetry. apply available_freed; [|exact Hg]. intros r ->%list_elem_of_singleton. left. reflexivity.
Qed.

(** An image with one file, "shell", of one byte. *)
Definition shell_image : list Z := default [] (build_fs [(bytes "shell", [0xF4])]).

Lemma example_free g : example_avail g = (256 <=? g) && (g <? 512).
Proof.
  unfold example_avail, frame_available, frame_inside. cbn. rewrite orb_false_r. zcases.
Qed.

Lemma example_image_info dev (m : mem) :
  (∀ m', changes_only boot_writes m m' → bytes_at 0x8000 m' 0x9000 (boot_blob shell_image)) →
  image_info (example_layout dev) boot_writes 0x9100 0x8000 0xB000 example_avail (frame_meets 0x9150 0x9168) m
    0x9180 (0x9180 + Z.of_nat (length shell_image)) (image_files [(bytes "shell", [0xF4])]).
Proof.
  intros Hb. split.
  - intros m' Hc. apply blob_module; [exact (Hb m' Hc)|vm_compute; lia].
  - intros m' Hc. apply (mkfs_sofs _ _ _ _ shell_image); [reflexivity|exact (blob_image _ _ (Hb m' Hc))|lia|reflexivity|].
    apply (bool_decide_unpack _). vm_compute. exact I.
  - intros g x _ Ha _ _ Hx. rewrite example_free in Ha. apply andb_prop in Ha as [H1%Z.leb_le H2%Z.ltb_lt].
    unfold boot_writes, fb_bytes, within in *. lia.
Qed.

Lemma example_shell_file dev (m : mem) :
  (∀ m', changes_only boot_writes m m' → bytes_at 0x8000 m' 0x9000 (boot_blob shell_image)) →
  shell_file (example_layout dev) boot_writes m 0x9180 (image_files [(bytes "shell", [0xF4])]) [0xF4].
Proof.
  intros Hb. split; [|vm_compute; discriminate]. exists 0%nat, (mkFile (bytes "shell") 80 1).
  split; [reflexivity|]. split; [reflexivity|]. split; [vm_compute; discriminate|]. intros [|j] b Hj; [|done]. injection Hj as <-.
  split; [lia|]. intros m' Hc. exact (blob_image _ _ (Hb m' Hc) 80%nat 0xF4 eq_refl).
Qed.

Lemma example_enough : frames_needed [0xF4] <= count_upto (λ g, negb (boot_used 0x9100 0x8000 0xB000 example_avail
  (frame_meets 0x9150 0x9168) 0x9180 (0x9180 + Z.of_nat (length shell_image)) g)) all_frames.
Proof.
  transitivity (512 - 256); [vm_compute; discriminate|]. apply count_upto_at_least; [lia|rewrite all_frames_Z; lia|].
  intros g Hg. unfold boot_used, boot_reserved. rewrite example_free. change (Z.of_nat (length shell_image)) with 84.
  unfold frame_meets. zcases.
Qed.

Definition example_dev : device := λ tr _, imr (observe pics_step (reset_pic, reset_pic) tr).1.

Lemma kmain_boots_witness : ∃ (m : mem) k' sp dir pa,
  kmain (example_layout example_dev) MULTIBOOT_BOOTLOADER_MAGIC 0x9100 0x8000 0xB000 (example_kstate m) = Some (Jumped k' sp dir) ∧
  booted (machine_of k') ∧ user_walk (c_mem (kb_con k')) dir 0 = Some pa ∧ ld8 (c_mem (kb_con k')) pa = 0xF4.
Proof.
  destruct (example_boot shell_image) as (m & Hk & Hb & _); [apply (bool_decide_unpack _); vm_compute; exact I|vm_compute; lia|].
  destruct (kmain_boots (example_layout example_dev) boot_writes 0x9100 0x8000 0xB000 example_avail (frame_meets 0x9150 0x9168)
    0x9180 (0x9180 + Z.of_nat (length shell_image)) (image_files [(bytes "shell", [0xF4])]) [0xF4] (example_kstate m)
    (reset_pic, reset_pic) (mkTimer 0 false 0) (example_boot_ok _ _ _ Hk Hb) (example_fresh m) (example_boot_info _ _ _ Hb)
    (example_image_info _ _ Hb) (example_shell_file _ _ Hb) ltac:(cbn; lia) example_enough (λ tr, eq_refl) eq_refl)
    as (k' & sp & dir & ks & st & P & E & _ & Hbt & _ & _ & _ & _ & _ & _ & _ & _ & _ & _ & _ & _ & _ & Hlo & _).
  destruct (lo_code _ _ _ _ _ Hlo 0) as (pa & Hw & _ & Hpa); [vm_compute; split; [discriminate|reflexivity]|].
  exists m, k', sp, dir, pa. split; [exact E|]. split; [exact Hbt|]. split; [exact Hw|exact Hpa].
Defined.

(** A module that is four zero bytes. *)
Lemma kmain_errors_witness : ∃ (m : mem) k',
  kmain (example_layout slow_uart) MULTIBOOT_BOOTLOADER_MAGIC 0x9100 0x8000 0xB000 (example_kstate m) = Some (Hung k') ∧
  shows (kb_con k') (term_write blank_screen (bytesln "ERROR: Invalid filesystem.")).
Proof.
  destruct (example_boot [0; 0; 0; 0]) as (m & Hk & Hb & _); [by repeat constructor|cbn; lia|].
  destruct (kmain_errors (example_layout slow_uart) boot_writes 0x9100 0x8000 0xB000 (example_kstate m) MULTIBOOT_BOOTLOADER_MAGIC
    (bytesln "ERROR: Invalid filesystem.") _ (example_boot_ok _ _ _ Hk Hb) (example_fresh m) slow_uart_responsive) as (k' & E & Hs & _).
  - apply (bad_image _ _ _ _ _ _ _ example_avail (frame_meets 0x9150 0x9168) 0x9180 0x9184 0); [reflexivity|exact (example_boot_info _ _ _ Hb)| |done].
    intros m' Hc. split; [apply (blob_module [0; 0; 0; 0]); [exact (Hb m' Hc)|cbn; lia]|].
    apply kld32_le_bytes; [lia|]. exact (blob_image _ _ (Hb m' Hc)).
  - by exists m, k'.
Defined.
