(* ===== verification/Cpu.v ===== *)
(** * The assembly around the C code

    context_switch.s, syscall_handler.s, interrupt_handlers.s and usermode.s as
    lists of instructions, run on the registers and the memory the page tables show; and
    what the processor does by itself: the interrupt, with its change of stack,
    and `iret`.  The segments are flat ([gdt_init_correct] says so), so that
    offsets are linear addresses.  A refused selector or gate is [None], like a
    page fault.

    The instruction pointer is followed where it matters: it is set by `ret`,
    `iret`, `call` and the interrupt. *)

From stdpp Require Import prelude gmap strings.
From Stdlib Require Import ZArith Lia.
From S2P Require Import Prelude Ports Memory FrameAlloc Pfa Paging Fs Process ProcessCreate Fb Pic Serial Tables Kernel Kmain.

(** ** The processor *)

Inductive reg := EAX | EBX | ECX | EDX | ESI | EDI | EBP | ESP.
Inductive sreg := DS | ES | FS | GS.
#[export] Instance reg_eq_dec : EqDecision reg.
Proof. solve_decision. Defined.

Definition reg_eqb (a b : reg) : bool :=
  match a, b with
  | EAX, EAX | EBX, EBX | ECX, ECX | EDX, EDX | ESI, ESI | EDI, EDI | EBP, EBP | ESP, ESP => true
  | _, _ => false
  end.
Definition sreg_eqb (a b : sreg) : bool :=
  match a, b with DS, DS | ES, ES | FS, FS | GS, GS => true | _, _ => false end.

Lemma reg_eqb_refl r : reg_eqb r r = true.
Proof. by destruct r. Qed.
Lemma reg_eqb_ne a b : a ≠ b → reg_eqb a b = false.
Proof. by destruct a, b. Qed.

Record core := mkCore {
  x_reg : reg → Z;
  x_eip : Z;
  x_eflags : Z;
  x_cr3 : Z;
  x_cs : Z;
  x_ss : Z;
  x_seg : sreg → Z
}.

Definition set_reg (r : reg) (v : Z) (c : core) : core :=
  mkCore (λ r', if reg_eqb r' r then v else x_reg c r') (x_eip c) (x_eflags c) (x_cr3 c) (x_cs c) (x_ss c) (x_seg c).
Definition set_eip (v : Z) (c : core) : core := mkCore (x_reg c) v (x_eflags c) (x_cr3 c) (x_cs c) (x_ss c) (x_seg c).
Definition set_eflags (v : Z) (c : core) : core := mkCore (x_reg c) (x_eip c) v (x_cr3 c) (x_cs c) (x_ss c) (x_seg c).
Definition set_cr3 (v : Z) (c : core) : core := mkCore (x_reg c) (x_eip c) (x_eflags c) v (x_cs c) (x_ss c) (x_seg c).
Definition set_code (cs ss : Z) (c : core) : core := mkCore (x_reg c) (x_eip c) (x_eflags c) (x_cr3 c) cs ss (x_seg c).
Definition set_segs (f : sreg → Z) (c : core) : core := mkCore (x_reg c) (x_eip c) (x_eflags c) (x_cr3 c) (x_cs c) (x_ss c) f.

Definition cpl (c : core) : Z := x_cs c mod 4.

(** The flags software can set: the status flags, TF, IF, DF, IOPL, NT, AC and
    ID; bit 1 is always set. *)
Definition flags_in (v : Z) : Z := Z.lor (Z.land v 0x247FD5) 2.
Definition IF : Z := 9.

Inductive instr :=
  | PUSH (r : reg)
  | PUSHI (v : Z)
  | PUSHFD
  | POP (r : reg)
  | POPFD
  | LOAD (d b : reg) (off : Z)
  | STORE (b s : reg)
  | MOV (d s : reg)
  | MOVAX (v : Z)
  | MOVCR3 (s : reg)
  | MOVSEG (g : sreg)
  | ADD (d : reg) (v : Z)
  | CALL (ret target : Z)
  | RET
  | IRET.

Section processor.
Context (gdt : list gdt_entry) (gdtr : table_ptr).
Implicit Types (c : core) (m : mem).

Definition seg (sel : Z) : option segment := seg_lookup gdt gdtr sel.

(** The push and the pop of a word. *)
Definition do_push (v : Z) (s : core * mem) : option (core * mem) :=
  let '(c, m) := s in
  '(sp, m) ← push (x_cr3 c) (x_reg c ESP, m) v; Some (set_reg ESP sp c, m).
Definition do_pop (s : core * mem) : option (Z * (core * mem)) :=
  let '(c, m) := s in
  v ← kld32 (x_cr3 c) m (x_reg c ESP); Some (v, (set_reg ESP (x_reg c ESP +ᵤ 4) c, m)).

(** `mov sreg, ax`: a data segment, open to the current privilege. *)
Definition load_seg (g : sreg) (c : core) : option core :=
  let sel := x_reg c EAX mod 65536 in
  match seg sel with
  | Some (Data _ _ dpl _ _) =>
      if (cpl c <=? dpl) && (sel mod 4 <=? dpl)
      then Some (set_segs (λ g', if sreg_eqb g' g then sel else x_seg c g') c) else None
  | _ => None
  end.

(** A return to less privilege takes away the segments that are closed to it:
    data, and code that is not conforming. *)
Definition keep_seg (rpl sel : Z) : Z :=
  match seg sel with
  | Some (Code _ _ dpl _ false) | Some (Data _ _ dpl _ _) => if dpl <? rpl then 0 else sel
  | _ => sel
  end.

(** `iret` from ring 0, to the same or to less privilege; returns to nested tasks
    (NT) and to virtual-8086 mode (bit 17) are not followed. *)
Definition iret (s : core * mem) : option (core * mem) :=
  let '(c, m) := s in
  '(eip, s) ← do_pop s;
  '(cs, s) ← do_pop s;
  '(fl, s) ← do_pop s;
  let cs := cs mod 65536 in
  let rpl := cs mod 4 in
  if Z.testbit (x_eflags c) 14 || Z.testbit fl 17 || (rpl <? cpl c) then None else
  match seg cs with
  | Some (Code _ _ dpl _ conforming) =>
      if negb (if conforming then dpl <=? rpl else dpl =? rpl) then None
      else if rpl =? cpl c then
        let '(c, m) := s in Some (set_code cs (x_ss c) (set_eflags (flags_in fl) (set_eip eip c)), m)
      else
        '(esp, s) ← do_pop s;
        '(ss, s) ← do_pop s;
        let ss := ss mod 65536 in
        match seg ss with
        | Some (Data _ _ d writable _) =>
            if negb writable || negb (d =? rpl) || negb (ss mod 4 =? rpl) then None else
            let '(c, m) := s in
            Some (set_segs (λ g, keep_seg rpl (x_seg c g))
                    (set_code cs ss (set_eflags (flags_in fl) (set_eip eip (set_reg ESP esp c)))), m)
        | _ => None
        end
  | _ => None
  end.

Definition exec (i : instr) (s : core * mem) : option (core * mem) :=
  let '(c, m) := s in
  match i with
  | PUSH r => do_push (x_reg c r) s
  | PUSHI v => do_push v s
  | PUSHFD => do_push (x_eflags c) s
  | POP r => '(v, (c, m)) ← do_pop s; Some (set_reg r v c, m)
  | POPFD => '(v, (c, m)) ← do_pop s; Some (set_eflags (flags_in v) c, m)
  | LOAD d b off => v ← kld32 (x_cr3 c) m (x_reg c b +ᵤ off); Some (set_reg d v c, m)
  | STORE b r => m ← kst32 (x_cr3 c) m (x_reg c b) (x_reg c r); Some (c, m)
  | MOV d r => Some (set_reg d (x_reg c r) c, m)
  | MOVAX v => Some (set_reg EAX (x_reg c EAX / 65536 * 65536 + v) c, m)
  | MOVCR3 r => Some (set_cr3 (x_reg c r) c, m)
  | MOVSEG g => c ← load_seg g c; Some (c, m)
  | ADD d v => Some (set_reg d (x_reg c d +ᵤ v) c, m)
  | CALL ret target => '(c, m) ← do_push ret s; Some (set_eip target c, m)
  | RET => '(v, (c, m)) ← do_pop s; Some (set_eip v c, m)
  | IRET => iret s
  end.

Fixpoint exec_all (prog : list instr) (s : core * mem) : option (core * mem) :=
  match prog with
  | [] => Some s
  | i :: prog' => s ← exec i s; exec_all prog' s
  end.

(** The interrupt through a gate: from ring 3 the stack is the one in the task
    state segment, with the old one on it; then the flags, the address, and the
    error code if there is one.  Conforming code would run with the privilege of
    the interrupted program.  The gates are interrupt gates: IF goes off,
    with TF, NT, RF and VM. *)
Definition enter (tss : tss_entry) (g : gate) (err : option Z) (s : core * mem) : option (core * mem) :=
  let '(c, m) := s in
  match seg (gate_sel g) with
  | Some (Code _ _ dpl _ conforming) =>
      let level := if conforming then cpl c else dpl in
      let frame := [x_eflags c; x_cs c; x_eip c] ++ match err with Some e => [e] | None => [] end in
      let go ss '(sp, m) :=
        (set_code (gate_sel g - gate_sel g mod 4 + level) ss
           (set_eflags (Z.ldiff (x_eflags c) 0x34300) (set_eip (gate_target g) (set_reg ESP sp c))), m) in
      if cpl c <? dpl then None
      else if level =? cpl c then go (x_ss c) <$> push_all (x_cr3 c) frame (x_reg c ESP, m)
      else
        let '(ss0, esp0) := ring0_stack (tss_bytes tss) in
        go ss0 <$> push_all (x_cr3 c) ([x_ss c; x_reg c ESP] ++ frame) (esp0, m)
  | _ => None
  end.
End processor.

(** ** The routines *)

(** context_switch.s *)
Definition resume_code : list instr := [POPFD; POP EDI; POP ESI; POP EBX; POP EBP; RET].

Definition switch_context_code : list instr :=
  [PUSH EBP; PUSH EBX; PUSH ESI; PUSH EDI; PUSHFD;
   LOAD EAX ESP 24; LOAD ECX ESP 28; LOAD EDX ESP 32;
   STORE EAX ESP; MOVCR3 EDX; MOV ESP ECX] ++ resume_code.

Definition jump_to_process_code : list instr :=
  [LOAD ECX ESP 4; LOAD EDX ESP 8; MOVCR3 EDX; MOV ESP ECX] ++ resume_code.

Definition trampoline_code : list instr := [MOVAX 0x23; MOVSEG DS; MOVSEG ES; MOVSEG FS; MOVSEG GS; IRET].

(** usermode.s *)
Definition enter_usermode_code : list instr :=
  [LOAD EAX ESP 12; MOVCR3 EAX; MOVAX 0x23; MOVSEG DS; MOVSEG ES; MOVSEG FS; MOVSEG GS; LOAD EAX ESP 4; LOAD EBX ESP 8;
   PUSHI 0x23; PUSH EBX; PUSHI 0x0202; PUSHI 0x1B; PUSH EAX; IRET].

(** paging_switch of paging4k.c, with its argument in [r]. *)
Definition paging_switch_code (r : reg) : list instr := [MOVCR3 r].

(** syscall_handler.s: up to the call, and after it. *)
Definition save_regs : list instr := [PUSH EAX; PUSH EBX; PUSH ECX; PUSH EDX; PUSH ESI; PUSH EDI; PUSH EBP].
Definition restore_regs : list instr := [POP EBP; POP EDI; POP ESI; POP EDX; POP ECX; POP EBX; POP EAX].

Definition syscall_entry (ret dispatch : Z) : list instr := save_regs ++ [PUSH ESP; CALL ret dispatch].
Definition syscall_exit : list instr := ADD ESP 4 :: restore_regs ++ [IRET].

(** interrupt_handlers.s: the two macros, the stubs the file makes with them, in
    its order, and the common handler around the call. *)
Inductive stub_macro := no_error_code_interrupt_handler | error_code_interrupt_handler.

Definition expand_stub (r : stub_macro * Z) : list instr :=
  match r.1 with
  | no_error_code_interrupt_handler => [PUSHI 0; PUSHI r.2]
  | error_code_interrupt_handler => [PUSHI r.2]
  end.

Definition interrupt_stubs : list (stub_macro * Z) :=
  [(no_error_code_interrupt_handler, 0); (no_error_code_interrupt_handler, 1);
   (no_error_code_interrupt_handler, 2); (no_error_code_interrupt_handler, 3);
   (no_error_code_interrupt_handler, 4); (no_error_code_interrupt_handler, 5);
   (no_error_code_interrupt_handler, 6); (no_error_code_interrupt_handler, 7);
   (error_code_interrupt_handler, 8); (no_error_code_interrupt_handler, 9);
   (error_code_interrupt_handler, 10); (error_code_interrupt_handler, 11);
   (error_code_interrupt_handler, 12); (error_code_interrupt_handler, 13);
   (error_code_interrupt_handler, 14); (no_error_code_interrupt_handler, 15);
   (no_error_code_interrupt_handler, 16); (error_code_interrupt_handler, 17);
   (no_error_code_interrupt_handler, 18); (no_error_code_interrupt_handler, 19);
   (no_error_code_interrupt_handler, 20); (no_error_code_interrupt_handler, 21);
   (no_error_code_interrupt_handler, 22); (no_error_code_interrupt_handler, 23);
   (no_error_code_interrupt_handler, 24); (no_error_code_interrupt_handler, 25);
   (no_error_code_interrupt_handler, 26); (no_error_code_interrupt_handler, 27);
   (no_error_code_interrupt_handler, 28); (no_error_code_interrupt_handler, 29);
   (no_error_code_interrupt_handler, 30); (no_error_code_interrupt_handler, 31);
   (no_error_code_interrupt_handler, 32); (no_error_code_interrupt_handler, 33);
   (no_error_code_interrupt_handler, 34); (no_error_code_interrupt_handler, 35);
   (no_error_code_interrupt_handler, 36); (no_error_code_interrupt_handler, 37);
   (no_error_code_interrupt_handler, 38); (no_error_code_interrupt_handler, 39);
   (no_error_code_interrupt_handler, 40); (no_error_code_interrupt_handler, 41);
   (no_error_code_interrupt_handler, 42); (no_error_code_interrupt_handler, 43);
   (no_error_code_interrupt_handler, 44); (no_error_code_interrupt_handler, 45);
   (no_error_code_interrupt_handler, 46); (no_error_code_interrupt_handler, 47)].

(** The code at the label `interrupt_handler_n`, up to the jump; none for a
    number without a stub. *)
Definition interrupt_stub (n : Z) : list instr :=
  from_option expand_stub [] (List.find (λ r, r.2 =? n) interrupt_stubs).
Definition interrupt_entry (n ret handler : Z) : list instr := interrupt_stub n ++ save_regs ++ [CALL ret handler].
Definition interrupt_exit : list instr := restore_regs ++ [ADD ESP 8; IRET].

(** The vectors for which the processor itself pushes an error code (#DF, #TS,
    #NP, #SS, #GP, #PF and #AC; Intel's list for a processor without
    control-flow enforcement): what the macros have to match. *)
Definition pushes_error_code (n : Z) : bool := bool_decide (n ∈ [8; 10; 11; 12; 13; 14; 17]).

(** ** The stack *)

(** The words [ws] are on the stack, the top one first. *)
Record on_stack (c : core) (m : mem) (sp : Z) (ws : list Z) : Prop := {
  st_esp : x_reg c ESP = u32 sp;
  st_range : 0 <= sp ∧ sp + 4 * Z.of_nat (length ws) <= 4294967296;
  st_words : ∀ i w, ws !! i = Some w → kld32 (x_cr3 c) m (sp + 4 * Z.of_nat i) = Some w
}.

Lemma on_stack_same c c' m sp ws : x_reg c' ESP = x_reg c ESP → x_cr3 c' = x_cr3 c → on_stack c m sp ws → on_stack c' m sp ws.
Proof. intros H1 H2 [E R Hw]. split; [congruence|exact R|]. by rewrite H2. Qed.

Lemma do_pop_spec c m sp w ws : on_stack c m sp (w :: ws) →
  ∃ c', do_pop (c, m) = Some (w, (c', m)) ∧ c' = set_reg ESP (u32 (sp + 4)) c ∧ on_stack c' m (sp + 4) ws.
Proof.
  intros [E [R0 R] Hw]. cbn [length] in R. unfold do_pop. pose proof (Hw O w eq_refl) as H0. rewrite Z.add_0_r in H0.
  rewrite E, (u32_small sp), H0 by lia. eexists. split; [reflexivity|]. split; [reflexivity|].
  split; [reflexivity|lia|]. intros i v Hi. rewrite <- (Hw (S i) v Hi). cbn [x_cr3 set_reg]. f_equal. lia.
Qed.

Section instructions.
Context (gdt : list gdt_entry) (gdtr : table_ptr).
Abbreviation exec_all := (exec_all gdt gdtr).
Abbreviation exec := (exec gdt gdtr).

Lemma exec_all_app p q s : exec_all (p ++ q) s = exec_all p s ≫= exec_all q.
Proof. revert s. induction p as [|i p IH]; intros s; [done|]. cbn. destruct (exec i s); cbn; [apply IH|done]. Qed.

(** Every access after paging_switch goes through the new directory. *)
Lemma paging_switch_spec r c m prog : exec_all (paging_switch_code r ++ prog) (c, m) = exec_all prog (set_cr3 (x_reg c r) c, m).
Proof. reflexivity. Qed.

Lemma exec_pop r c m sp w ws : r ≠ ESP → on_stack c m sp (w :: ws) →
  ∃ c', exec (POP r) (c, m) = Some (c', m) ∧ c' = set_reg r w (set_reg ESP (u32 (sp + 4)) c) ∧ on_stack c' m (sp + 4) ws.
Proof.
  intros Hr Hs. destruct (do_pop_spec c m sp w ws Hs) as (c1 & E & -> & H1). cbn [exec]. rewrite E, bind_Some.
  eexists. split; [reflexivity|]. split; [reflexivity|]. eapply on_stack_same; [| |exact H1]; [|reflexivity].
  cbn. destruct r; done.
Qed.

(** All but the general registers. *)
Record same_state (c c' : core) : Prop := {
  ss_eip : x_eip c' = x_eip c;
  ss_eflags : x_eflags c' = x_eflags c;
  ss_cr3 : x_cr3 c' = x_cr3 c;
  ss_code : x_cs c' = x_cs c ∧ x_ss c' = x_ss c;
  ss_seg : x_seg c' = x_seg c
}.

Lemma exec_pops rs vs c m sp ws : NoDup rs → ESP ∉ rs → length vs = length rs → on_stack c m sp (vs ++ ws) →
  ∃ c', exec_all (POP <$> rs) (c, m) = Some (c', m) ∧ on_stack c' m (sp + 4 * Z.of_nat (length rs)) ws ∧ same_state c c' ∧
    (∀ i r, rs !! i = Some r → vs !! i = Some (x_reg c' r)) ∧ (∀ r, r ∉ rs → r ≠ ESP → x_reg c' r = x_reg c r).
Proof.
  revert vs c sp. induction rs as [|r rs IH]; intros [|v vs] c sp Hnd He Hl Hs; try done.
  { exists c. cbn [length]. rewrite Z.add_0_r. by split_and!. }
  apply NoDup_cons in Hnd as [Hr Hnd]. apply not_elem_of_cons in He as [Her He].
  destruct (exec_pop r c m sp v (vs ++ ws)) as (c1 & E1 & Hc1 & H1); [done|exact Hs|].
  destruct (IH vs c1 (sp + 4) Hnd He) as (c' & E & Hs' & [S1 S2 S3 S4 S5] & Hin & Hout); [by injection Hl|exact H1|].
  exists c'. rewrite fmap_cons. cbn [exec_all length]. rewrite E1, bind_Some. split; [exact E|].
  subst c1. split; [|split; [by split|split]].
  - replace (sp + 4 * Z.of_nat (S (length rs))) with (sp + 4 + 4 * Z.of_nat (length rs)) by lia. exact Hs'.
  - intros [|i] r' Hi; cbn in Hi |- *; [|by apply Hin]. injection Hi as <-. rewrite Hout by done. cbn. by rewrite reg_eqb_refl.
  - intros r' Hr' Hn. apply not_elem_of_cons in Hr' as [? ?]. rewrite Hout by done. cbn. by rewrite !reg_eqb_ne by done.
Qed.

(** What resume_code restores. *)
Record resumed (c' : core) (fl di si bx bp ra : Z) : Prop := {
  rs_eflags : x_eflags c' = flags_in fl;
  rs_edi : x_reg c' EDI = di; rs_esi : x_reg c' ESI = si; rs_ebx : x_reg c' EBX = bx; rs_ebp : x_reg c' EBP = bp;
  rs_eip : x_eip c' = ra
}.

Lemma resume_spec c m sp fl di si bx bp ra ws : on_stack c m sp (fl :: di :: si :: bx :: bp :: ra :: ws) →
  ∃ c', exec_all resume_code (c, m) = Some (c', m) ∧ resumed c' fl di si bx bp ra ∧ on_stack c' m (sp + 24) ws ∧
    x_cr3 c' = x_cr3 c ∧ x_cs c' = x_cs c ∧ x_ss c' = x_ss c ∧ x_seg c' = x_seg c.
Proof.
  intros Hs. destruct (do_pop_spec _ _ _ _ _ Hs) as (c1 & E1 & Hc1 & H1).
  change resume_code with (POPFD :: (POP <$> [EDI; ESI; EBX; EBP]) ++ [RET]). cbn [exec_all]. cbn [exec]. rewrite E1, !bind_Some.
  assert (on_stack (set_eflags (flags_in fl) c1) m (sp + 4) ([di; si; bx; bp] ++ ra :: ws)) as H1' by (by eapply on_stack_same; [| |exact H1]).
  destruct (exec_pops [EDI; ESI; EBX; EBP] [di; si; bx; bp] _ m _ _ ltac:(by apply (bool_decide_unpack _); vm_compute)
    ltac:(by apply (bool_decide_unpack _); vm_compute) eq_refl H1') as (c2 & E2 & H2 & [S1 S2 S3 [S4 S4'] S5] & Hin & _).
  rewrite exec_all_app, E2, bind_Some. destruct (do_pop_spec _ _ _ _ _ H2) as (c3 & E3 & Hc3 & H3).
  cbn [exec_all]. cbn [exec]. rewrite E3, !bind_Some. subst c1 c3. cbn in *. eexists. split; [reflexivity|].
  specialize (Hin O EDI eq_refl) as R0. specialize (Hin 1%nat ESI eq_refl) as R1.
  specialize (Hin 2%nat EBX eq_refl) as R2. specialize (Hin 3%nat EBP eq_refl) as R3. cbn in R0, R1, R2, R3. simplify_eq.
  split; [split; cbn; congruence|]. split; [|split_and!; cbn; congruence].
  replace (sp + 24) with (sp + 4 + 4 * Z.of_nat 4 + 4) by lia. by eapply on_stack_same; [| |exact H3].
Qed.

(** The instructions that push, and what. *)
Definition push_value (c : core) (i : instr) : option Z :=
  match i with
  | PUSH r => if reg_eqb r ESP then None else Some (x_reg c r)
  | PUSHI v => Some v
  | PUSHFD => Some (x_eflags c)
  | _ => None
  end.

(** A state but for the stack pointer. *)
Definition moved (c c' : core) (sp : Z) : Prop :=
  same_state c c' ∧ x_reg c' ESP = sp ∧ ∀ r, r ≠ ESP → x_reg c' r = x_reg c r.

Lemma exec_pushes prog vs c m sp' m' : Forall2 (λ i v, push_value c i = Some v) prog vs →
  push_all (x_cr3 c) vs (x_reg c ESP, m) = Some (sp', m') →
  ∃ c', exec_all prog (c, m) = Some (c', m') ∧ moved c c' sp'.
Proof.
  intros HF. revert vs c m HF. induction prog as [|i prog IH]; intros vs c m HF Hp.
  { apply Forall2_nil_inv_l in HF as ->. injection Hp as <- <-. exists c. split; [reflexivity|]. split; [by split|]. by split. }
  apply Forall2_cons_inv_l in HF as (v & vs' & Hv & HF' & ->). cbn [push_all] in Hp.
  destruct (push (x_cr3 c) (x_reg c ESP, m) v) as [[sp1 m1]|] eqn:E; [|done]. cbn [mbind option_bind] in Hp.
  assert (exec i (c, m) = Some (set_reg ESP sp1 c, m1)) as Ei.
  { destruct i as [r|w| | | | | | | | | | | | |]; try done; cbn in Hv; [destruct (reg_eqb r ESP); [done|]|..];
      injection Hv as <-; cbn [exec]; unfold do_push; by rewrite E. }
  destruct (IH vs' (set_reg ESP sp1 c) m1) as (c' & Ec & [S1 S2 S3 S4 S5] & Hsp & Hr).
  - eapply Forall2_impl; [exact HF'|]. intros j w Hj. destruct j as [r|u| | | | | | | | | | | | |]; try done. cbn in *. by destruct (reg_eqb r ESP).
  - exact Hp.
  - exists c'. cbn [exec_all]. rewrite Ei, bind_Some. split; [exact Ec|]. split; [by split|]. split; [exact Hsp|].
    intros r Hne. rewrite Hr by done. cbn. by rewrite reg_eqb_ne.
Qed.

(** Pushing on a mapped stack. *)
Lemma push_words prog vs c m K sp : kmapped (x_cr3 c) K m → Forall2 (λ i v, push_value c i = Some v) prog vs → Forall (λ v, is_u32 v) vs →
  x_reg c ESP = u32 sp → 4 * Z.of_nat (length vs) <= sp <= 4294967296 →
  (∀ x, within (sp - 4 * Z.of_nat (length vs)) (4 * Z.of_nat (length vs)) x → K x) →
  ∃ c' m', exec_all prog (c, m) = Some (c', m') ∧ moved c c' (u32 (sp - 4 * Z.of_nat (length vs))) ∧
    changes_only (within (sp - 4 * Z.of_nat (length vs)) (4 * Z.of_nat (length vs))) m m' ∧
    ∀ i w, vs !! i = Some w → ld32 m' (sp - 4 * (Z.of_nat i + 1)) = w.
Proof.
  intros Hk HF Hu He Hr HK. destruct (push_all_spec (x_cr3 c) K vs m sp Hk Hr HK Hu) as (m' & E & Hc & Hw).
  rewrite <- He in E. destruct (exec_pushes prog vs c m _ m' HF E) as (c' & Ec & Hm). by exists c', m'.
Qed.

(** ** switch_context *)

(** The call switch_context(p, nsp, ncr3), to return to [ra]: the stack and the
    place for the stack pointer are mapped and apart. *)
Record switch_call (K : Z → Prop) (c : core) (m : mem) (p nsp ncr3 ra : Z) : Prop := {
  sc_map : kmapped (x_cr3 c) K m;
  sc_regs : (∀ r, is_u32 (x_reg c r)) ∧ is_u32 (x_eflags c);
  sc_sp : 20 <= x_reg c ESP ∧ x_reg c ESP + 16 <= 4294967296;
  sc_K : ∀ x, within (x_reg c ESP - 20) 36 x ∨ within p 4 x → K x;
  sc_args : ld32 m (x_reg c ESP) = ra ∧ ld32 m (x_reg c ESP + 4) = p ∧
    ld32 m (x_reg c ESP + 8) = nsp ∧ ld32 m (x_reg c ESP + 12) = ncr3;
  sc_p : 0 <= p <= 4294967292 ∧ (p + 4 <= x_reg c ESP - 20 ∨ x_reg c ESP + 16 <= p)
}.

(** What it writes: its frame, and the stack pointer. *)
Definition saves (c : core) (p x : Z) : Prop := within (x_reg c ESP - 20) 20 x ∨ within p 4 x.
Definition saved_words (c : core) (ra : Z) : list Z := [x_eflags c; x_reg c EDI; x_reg c ESI; x_reg c EBX; x_reg c EBP; ra].

Lemma kld32_unchanged cr3 K (W : Z → Prop) m m' a : kmapped cr3 K m → changes_only W m m' → (∀ x, W x → K x) →
  0 <= a <= 4294967292 → (∀ x, within a 4 x → K x ∧ ¬ W x) → kld32 cr3 m' a = Some (ld32 m a).
Proof.
  intros Hk Hc HW Ha HK. rewrite (kld32_kmapped cr3 K m'); [| |exact Ha|intros; by apply HK].
  - f_equal. apply ld32_ext; [exact Ha|]. intros x Hx. apply Hc; [unfold within in Hx; lia|by apply HK].
  - eapply kmapped_changes; [exact Hk|]. by eapply changes_only_mono.
Qed.

Lemma exec_load d b off c m v : kld32 (x_cr3 c) m (x_reg c b +ᵤ off) = Some v → exec (LOAD d b off) (c, m) = Some (set_reg d v c, m).
Proof. intros E. cbn [exec]. by rewrite E. Qed.

Lemma switch_context_spec K c m p nsp ncr3 ra fl di si bx bp ra' ws : switch_call K c m p nsp ncr3 ra →
  let words := fl :: di :: si :: bx :: bp :: ra' :: ws in
  0 <= nsp → nsp + 4 * Z.of_nat (length words) <= 4294967296 →
  (∀ m', changes_only (saves c p) m m' → ∀ i w, words !! i = Some w → kld32 ncr3 m' (nsp + 4 * Z.of_nat i) = Some w) →
  ∃ c' m', exec_all switch_context_code (c, m) = Some (c', m') ∧ changes_only (saves c p) m m' ∧
    ld32 m' p = x_reg c ESP - 20 ∧ (∀ i w, saved_words c ra !! i = Some w → ld32 m' (x_reg c ESP - 20 + 4 * Z.of_nat i) = w) ∧
    resumed c' fl di si bx bp ra' ∧ on_stack c' m' (nsp + 24) ws ∧ x_cr3 c' = ncr3 ∧
    x_cs c' = x_cs c ∧ x_ss c' = x_ss c ∧ x_seg c' = x_seg c.
Proof.
  intros [Hk [Hr Hf] Hsp HK (A0 & A1 & A2 & A3) [Hp Hpd]] words H0 Hfit Hw. pose proof (Hr ESP) as Hrs.
  remember (x_reg c ESP) as sp eqn:Esp.
  unfold switch_context_code.
  change (exec_all _ (c, m)) with (exec_all ([PUSH EBP; PUSH EBX; PUSH ESI; PUSH EDI; PUSHFD] ++
    LOAD EAX ESP 24 :: LOAD ECX ESP 28 :: LOAD EDX ESP 32 :: STORE EAX ESP :: MOVCR3 EDX :: MOV ESP ECX :: resume_code) (c, m)).
  rewrite exec_all_app.
  destruct (push_words [PUSH EBP; PUSH EBX; PUSH ESI; PUSH EDI; PUSHFD]
    [x_reg c EBP; x_reg c EBX; x_reg c ESI; x_reg c EDI; x_eflags c] c m K sp Hk) as (c1 & m1 & -> & Hmv & Hc1 & Hld).
  { repeat constructor. }
  { repeat (apply Forall_cons; split; [by auto|]). constructor. }
  { by rewrite u32_small, Esp by lia. }
  { cbn; lia. }
  { cbn [length]. unfold within in *. intros x Hx. apply HK. left. lia. }
  rewrite bind_Some. cbn [length] in *. change (4 * Z.of_nat 5) with 20 in *. destruct Hmv as ([E1 E2 E3 [E4 E4'] E5] & Esp1 & Er).
  rewrite (u32_small (sp - 20)) in Esp1 by lia.
  assert (∀ k, 4 <= k <= 12 → kld32 (x_cr3 c1) m1 (sp + k) = Some (ld32 m (sp + k))) as Hargs.
  { intros k Hk'. rewrite E3. apply (kld32_unchanged (x_cr3 c) K (within (sp - 20) 20) m m1); [exact Hk|exact Hc1| |lia|].
    - unfold within in *. intros x Hx. apply HK. left. lia.
    - unfold within in *. intros x Hx. split; [apply HK; left; lia|lia]. }
  cbn [exec_all]. erewrite exec_load; [|rewrite Esp1, u32_small by lia; replace (sp - 20 + 24) with (sp + 4) by lia; apply Hargs; lia].
  rewrite bind_Some.
  erewrite exec_load; [|cbn; rewrite Esp1, u32_small by lia; replace (sp - 20 + 28) with (sp + 8) by lia; apply Hargs; lia].
  rewrite bind_Some.
  erewrite exec_load; [|cbn; rewrite Esp1, u32_small by lia; replace (sp - 20 + 32) with (sp + 12) by lia; apply Hargs; lia].
  rewrite bind_Some, A1, A2, A3. cbn [exec]. cbn [x_reg set_reg reg_eqb x_cr3]. rewrite Esp1, E3.
  destruct (kst32_kmapped (x_cr3 c) K m1 p (sp - 20)) as [-> _]; [|exact Hp|unfold within in *; intros; apply HK; right; lia|].
  { eapply kmapped_changes; [exact Hk|]. eapply changes_only_mono; [|exact Hc1]. unfold within in *. intros x Hx. apply HK. left. lia. }
  rewrite !bind_Some. set (m2 := st32 m1 p (sp - 20)). cbn [exec mbind option_bind x_reg set_reg reg_eqb set_cr3]. set (c2 := set_reg ESP nsp _).
  assert (changes_only (saves c p) m m2) as Hc2.
  { eapply changes_only_trans; [eapply changes_only_mono; [|exact Hc1]; unfold saves; rewrite <- Esp; auto|].
    intros x Hx Hn. apply ld8_st32; [lia|exact Hx|]. intros Hw'. apply Hn. by right. }
  destruct (resume_spec c2 m2 nsp fl di si bx bp ra' ws) as (c' & -> & Hres & Hst & Hcr & Hcs & Hss & Hsg).
  { split; [cbn; rewrite u32_small; [done|]|by split|].
    - unfold words in Hfit. cbn [length] in Hfit. lia.
    - intros i w Hi. cbn. by apply Hw. }
  exists c', m2. split; [reflexivity|]. split; [exact Hc2|]. split; [apply ld32_st32_eq; lia|]. split; [|split; [exact Hres|]].
  - assert (∀ k, 0 <= k <= 20 → ld32 m2 (sp - 20 + k) = ld32 m1 (sp - 20 + k)) as Hfr by (intros k Hk'; apply ld32_st32_ne; lia).
    assert (ld32 m1 sp = ra) as Hra.
    { rewrite <- A0. apply ld32_ext; [lia|]. intros x Hx. apply Hc1; unfold within in *; lia. }
    intros i w Hi. destruct i as [|[|[|[|[|[|i]]]]]]; cbn in Hi; try done; injection Hi as <-; rewrite Hfr by lia.
    + rewrite <- (Hld 4%nat _ eq_refl). f_equal. lia.
    + rewrite <- (Hld 3%nat _ eq_refl). f_equal. lia.
    + rewrite <- (Hld 2%nat _ eq_refl). f_equal. lia.
    + rewrite <- (Hld 1%nat _ eq_refl). f_equal. lia.
    + rewrite <- (Hld 0%nat _ eq_refl). f_equal. lia.
    + rewrite <- Hra. f_equal. lia.
  - split; [exact Hst|]. cbn in Hcr, Hcs, Hss, Hsg. split; [exact Hcr|]. split_and!; congruence.
Qed.

(** Words in memory. *)
Definition words_at (m : mem) (a : Z) (ws : list Z) : Prop := ∀ i w, ws !! i = Some w → ld32 m (a + 4 * Z.of_nat i) = w.

Lemma words_on_stack c K m a ws : kmapped (x_cr3 c) K m → words_at m a ws → x_reg c ESP = u32 a → 0 <= a →
  a + 4 * Z.of_nat (length ws) <= 4294967296 → (∀ x, within a (4 * Z.of_nat (length ws)) x → K x) → on_stack c m a ws.
Proof.
  intros Hk Hw He Ha Hl HK. split; [exact He|lia|]. intros i w Hi. pose proof (lookup_lt_Some _ _ _ Hi).
  rewrite (kld32_kmapped _ _ _ Hk); [by rewrite (Hw i w Hi)|lia|]. intros x Hx. apply HK. unfold within in *. lia.
Qed.

Lemma words_rev m top ws : (∀ i w, ws !! i = Some w → ld32 m (top - 4 * (Z.of_nat i + 1)) = w) →
  words_at m (top - 4 * Z.of_nat (length ws)) (rev ws).
Proof.
  intros H i w Hi. pose proof (lookup_lt_Some _ _ _ Hi) as Hl. rewrite length_rev in Hl.
  rewrite rev_alt in Hi. change (rev_append ws []) with (reverse ws) in Hi. rewrite reverse_lookup in Hi by done.
  rewrite <- (H _ _ Hi). f_equal. lia.
Qed.

Lemma words_changes m m' a ws W : words_at m a ws → changes_only W m m' → 0 <= a → a + 4 * Z.of_nat (length ws) <= 4294967296 →
  (∀ x, within a (4 * Z.of_nat (length ws)) x → ¬ W x) → words_at m' a ws.
Proof.
  intros Hw Hc Ha Hl Hd i w Hi. pose proof (lookup_lt_Some _ _ _ Hi). rewrite <- (Hw i w Hi). apply ld32_ext; [lia|].
  intros x Hx. unfold within in *. apply Hc; [lia|]. apply Hd. lia.
Qed.

(** ** iret and the trampoline *)

(** The segments gdt_init makes. *)
Record flat : Prop := {
  fl_kcode : seg gdt gdtr 0x08 = Some (Code 0 4294967296 0 true false);
  fl_kdata : seg gdt gdtr 0x10 = Some (Data 0 4294967296 0 true false);
  fl_ucode : seg gdt gdtr 0x1B = Some (Code 0 4294967296 3 true false);
  fl_udata : seg gdt gdtr 0x23 = Some (Data 0 4294967296 3 true false)
}.
Context (Hflat : flat).

Lemma iret_user c m sp eip fl esp : x_cs c mod 4 = 0 → Z.testbit (x_eflags c) 14 = false → Z.testbit fl 17 = false →
  on_stack c m sp [eip; 0x1B; fl; esp; 0x23] →
  ∃ c', exec IRET (c, m) = Some (c', m) ∧ x_eip c' = eip ∧ x_cs c' = 0x1B ∧ x_ss c' = 0x23 ∧ x_eflags c' = flags_in fl ∧
    x_cr3 c' = x_cr3 c ∧ x_reg c' ESP = esp ∧ (∀ r, r ≠ ESP → x_reg c' r = x_reg c r) ∧
    ∀ g, x_seg c' g = keep_seg gdt gdtr 3 (x_seg c g).
Proof.
  intros Hcpl Hnt Hvm Hs. cbn [exec]. unfold iret.
  destruct (do_pop_spec _ _ _ _ _ Hs) as (c1 & -> & Hc1 & H1). rewrite bind_Some.
  destruct (do_pop_spec _ _ _ _ _ H1) as (c2 & -> & Hc2 & H2). rewrite bind_Some.
  destruct (do_pop_spec _ _ _ _ _ H2) as (c3 & -> & Hc3 & H3). rewrite bind_Some.
  rewrite Hnt, Hvm. unfold cpl. rewrite Hcpl. change (0x1B mod 65536) with 0x1B. change (0x1B mod 4) with 3.
  cbn [orb]. rewrite (proj2 (Z.ltb_ge 3 0)) by lia. rewrite (fl_ucode Hflat). cbn [negb Z.eqb Pos.eqb].
  destruct (do_pop_spec _ _ _ _ _ H3) as (c4 & -> & Hc4 & H4). rewrite bind_Some.
  destruct (do_pop_spec _ _ _ _ _ H4) as (c5 & -> & Hc5 & H5). rewrite bind_Some.
  change (0x23 mod 65536) with 0x23. rewrite (fl_udata Hflat). change (0x23 mod 4) with 3. cbn [negb orb Z.eqb Pos.eqb].
  eexists. split; [reflexivity|]. subst. cbn. split_and!; try reflexivity. intros r Hr. by rewrite !(reg_eqb_ne r ESP).
Qed.

Lemma iret_same c m sp eip cs fl ws : x_cs c = 0x08 → cs = 0x08 → Z.testbit (x_eflags c) 14 = false → Z.testbit fl 17 = false →
  on_stack c m sp (eip :: cs :: fl :: ws) →
  ∃ c', exec IRET (c, m) = Some (c', m) ∧ x_eip c' = eip ∧ x_cs c' = 0x08 ∧ x_ss c' = x_ss c ∧ x_eflags c' = flags_in fl ∧
    x_cr3 c' = x_cr3 c ∧ x_reg c' ESP = u32 (sp + 12) ∧ (∀ r, r ≠ ESP → x_reg c' r = x_reg c r) ∧ x_seg c' = x_seg c.
Proof.
  intros Hcs -> Hnt Hvm Hs. cbn [exec]. unfold iret.
  destruct (do_pop_spec _ _ _ _ _ Hs) as (c1 & -> & Hc1 & H1). rewrite bind_Some.
  destruct (do_pop_spec _ _ _ _ _ H1) as (c2 & -> & Hc2 & H2). rewrite bind_Some.
  destruct (do_pop_spec _ _ _ _ _ H2) as (c3 & -> & Hc3 & H3). rewrite bind_Some.
  rewrite Hnt, Hvm. unfold cpl. rewrite Hcs. change (0x08 mod 65536) with 0x08. change (0x08 mod 4) with 0.
  cbn [orb]. change (0 <? 0) with false. cbv iota. rewrite (fl_kcode Hflat). cbn [negb Z.eqb].
  eexists. split; [reflexivity|]. subst. cbn. split_and!; try reflexivity; [f_equal; lia|].
  intros r Hr. by rewrite !(reg_eqb_ne r ESP).
Qed.

(** The state in which a program starts: ring 3, address 0, an empty stack,
    interrupts on. *)
Record user_start (c : core) (dir : Z) : Prop := {
  us_ring : x_cs c = 0x1B ∧ cpl c = 3 ∧ x_ss c = 0x23;
  us_eip : x_eip c = USER_CODE_VIRT;
  us_esp : x_reg c ESP = USER_STACK_TOP;
  us_if : Z.testbit (x_eflags c) IF = true;
  us_cr3 : x_cr3 c = dir;
  us_segs : ∀ g, x_seg c g = 0x23
}.

Lemma keep_user_data : keep_seg gdt gdtr 3 0x23 = 0x23.
Proof. unfold keep_seg. by rewrite (fl_udata Hflat). Qed.

Lemma exec_movseg g c m : x_cs c mod 4 = 0 → x_reg c EAX mod 65536 = 0x23 →
  exec (MOVSEG g) (c, m) = Some (set_segs (λ g', if sreg_eqb g' g then 0x23 else x_seg c g') c, m).
Proof.
  intros Hc He. cbn [exec]. unfold load_seg, cpl. rewrite Hc, He, (fl_udata Hflat). reflexivity.
Qed.

Lemma trampoline_spec c m sp dir : x_cs c mod 4 = 0 → x_eflags c = 2 → x_cr3 c = dir →
  on_stack c m sp [USER_CODE_VIRT; 0x1B; 0x0202; USER_STACK_TOP; 0x23] →
  ∃ c', exec_all trampoline_code (c, m) = Some (c', m) ∧ user_start c' dir.
Proof.
  intros Hcpl Hfl Hcr Hs. unfold trampoline_code. cbn [exec_all].
  assert ((x_reg c EAX / 65536 * 65536 + 0x23) mod 65536 = 0x23) as Hax by (rewrite Z.add_comm, Z_mod_plus_full; done).
  change (exec (MOVAX 0x23) (c, m)) with (Some (set_reg EAX (x_reg c EAX / 65536 * 65536 + 0x23) c, m)). rewrite bind_Some.
  do 4 (rewrite exec_movseg, bind_Some by done).
  match goal with |- context [exec IRET (?c1, m)] =>
    destruct (iret_user c1 m sp USER_CODE_VIRT 0x0202 USER_STACK_TOP) as (c' & -> & Hc'); [| | | |rewrite bind_Some] end.
  - exact Hcpl.
  - cbn. by rewrite Hfl.
  - reflexivity.
  - eapply on_stack_same; [| |exact Hs]; reflexivity.
  - destruct Hc' as (H1 & H2 & H3 & H4 & H5 & H6 & _ & H8). exists c'. split; [reflexivity|].
    split; [unfold cpl; by rewrite H2|exact H1|exact H6|by rewrite H4|by rewrite H5|].
    intros g. rewrite H8. cbn. destruct g; cbn; apply keep_user_data.
Qed.

(** ** The first run of a process *)

(** The call jump_to_process(sp, dir). *)
Definition jump_call (c : core) (m : mem) (sp dir : Z) : Prop :=
  x_cs c mod 4 = 0 ∧ kld32 (x_cr3 c) m (x_reg c ESP +ᵤ 4) = Some sp ∧ kld32 (x_cr3 c) m (x_reg c ESP +ᵤ 8) = Some dir.

Lemma entry_start c m ks tr dir : x_cs c mod 4 = 0 → x_cr3 c = dir → page_addr ks →
  on_stack c m (ks + 4052) (entry_words tr) →
  ∃ c1 c2, exec_all resume_code (c, m) = Some (c1, m) ∧ x_eip c1 = tr ∧ exec_all trampoline_code (c1, m) = Some (c2, m) ∧
    user_start c2 dir.
Proof.
  intros Hcs Hcr Hk Hs. destruct (resume_spec c m _ _ _ _ _ _ _ _ Hs) as (c1 & E1 & Hres & Hs1 & Hcr1 & Hcs1 & _).
  destruct (trampoline_spec c1 m (ks + 4052 + 24) dir) as (c2 & E2 & Hu); [by rewrite Hcs1|by rewrite (rs_eflags _ _ _ _ _ _ _ Hres)|congruence|exact Hs1|].
  exists c1, c2. split; [exact E1|]. split; [apply Hres|]. by split.
Qed.

Lemma jump_starts c m ks tr dir : page_addr ks → jump_call c m (ks + 4052) dir →
  (∀ k w, entry_words tr !! k = Some w → kld32 dir m (ks + 4052 + 4 * Z.of_nat k) = Some w) →
  ∃ c1 c2, exec_all jump_to_process_code (c, m) = Some (c1, m) ∧ x_eip c1 = tr ∧
    exec_all trampoline_code (c1, m) = Some (c2, m) ∧ user_start c2 dir.
Proof.
  intros Hk (Hcs & A1 & A2) Hw. unfold jump_to_process_code.
  change (exec_all _ (c, m)) with (exec_all (LOAD ECX ESP 4 :: LOAD EDX ESP 8 :: MOVCR3 EDX :: MOV ESP ECX :: resume_code) (c, m)).
  cbn [exec_all]. rewrite (exec_load _ _ _ _ _ _ A1), bind_Some. erewrite exec_load, bind_Some by exact A2.
  cbn [exec mbind option_bind x_reg set_reg reg_eqb set_cr3].
  apply (entry_start _ m ks); [exact Hcs|reflexivity|exact Hk|]. destruct Hk as [Hk _].
  split; [cbn; rewrite u32_small; [done|lia]|cbn [length entry_words]; lia|exact Hw].
Qed.

(** The same through switch_context, for the processes after the first. *)
Lemma switch_starts K c m p ks tr dir ra : page_addr ks → x_cs c mod 4 = 0 → switch_call K c m p (ks + 4052) dir ra →
  (∀ m', changes_only (saves c p) m m' → ∀ k w, entry_words tr !! k = Some w → kld32 dir m' (ks + 4052 + 4 * Z.of_nat k) = Some w) →
  ∃ c1 c2 m', exec_all switch_context_code (c, m) = Some (c1, m') ∧ x_eip c1 = tr ∧
    exec_all trampoline_code (c1, m') = Some (c2, m') ∧ user_start c2 dir.
Proof.
  intros Hk Hcs Hca Hw. destruct Hk as [Hk _].
  destruct (switch_context_spec K c m p (ks + 4052) dir ra 0x0002 0 0 0 0 tr [USER_CODE_VIRT; 0x1B; 0x0202; USER_STACK_TOP; 0x23]
    Hca ltac:(lia) ltac:(cbn [length]; lia) Hw)
    as (c1 & m' & E & _ & _ & _ & Hres & Hs & Hcr & Hcs1 & _).
  destruct (trampoline_spec c1 m' (ks + 4052 + 24) dir) as (c2 & E2 & Hu); [by rewrite Hcs1|by rewrite (rs_eflags _ _ _ _ _ _ _ Hres)|exact Hcr|exact Hs|].
  exists c1, c2, m'. split; [exact E|]. split; [apply Hres|]. by split.
Qed.

(** enter_usermode(eip, esp, dir): the same without a saved frame.  The stack
    it is called on has the same place in [dir]. *)
Lemma enter_usermode_spec K c m eip esp dir : x_cs c mod 4 = 0 → Z.testbit (x_eflags c) 14 = false →
  kmapped dir K m → 20 <= x_reg c ESP → x_reg c ESP + 16 <= 4294967296 → (∀ x, within (x_reg c ESP - 20) 36 x → K x) →
  ld32 m (x_reg c ESP + 4) = eip → ld32 m (x_reg c ESP + 8) = esp →
  kld32 (x_cr3 c) m (x_reg c ESP + 12) = Some dir →
  ∃ c' m', exec_all enter_usermode_code (c, m) = Some (c', m') ∧ changes_only (within (x_reg c ESP - 20) 20) m m' ∧
    x_cs c' = 0x1B ∧ x_ss c' = 0x23 ∧ x_eip c' = eip ∧ x_reg c' ESP = esp ∧ x_eflags c' = 0x0202 ∧ x_cr3 c' = dir ∧
    ∀ g, x_seg c' g = 0x23.
Proof.
  intros Hcs Hnt Hk H20 Hlim HK A1 A2 A3. remember (x_reg c ESP) as sp eqn:Esp.
  assert (∀ a v, ld32 m a = v → sp <= a <= sp + 12 → kld32 dir m a = Some v) as Hld.
  { intros a v <- Ha. apply (kld32_kmapped dir K m Hk); [lia|]. intros x Hx. apply HK. unfold within in *. lia. }
  pose proof (ld32_range m (sp + 4)) as He. rewrite A1 in He. pose proof (ld32_range m (sp + 8)) as Hes. rewrite A2 in Hes.
  set (load := [LOAD EAX ESP 12; MOVCR3 EAX; MOVAX 0x23; MOVSEG DS; MOVSEG ES; MOVSEG FS; MOVSEG GS; LOAD EAX ESP 4; LOAD EBX ESP 8]).
  assert (∃ c3, exec_all load (c, m) = Some (c3, m) ∧ x_reg c3 EAX = eip ∧ x_reg c3 EBX = esp ∧ x_reg c3 ESP = sp ∧
    x_cr3 c3 = dir ∧ x_cs c3 mod 4 = 0 ∧ Z.testbit (x_eflags c3) 14 = false ∧ ∀ g, x_seg c3 g = 0x23) as (c3 & E & Ha & Hb & Hs & Hcr & Hcs3 & Hnt3 & Hsg).
  { unfold load. cbn [exec_all]. rewrite (exec_load _ _ _ _ _ dir), bind_Some by (by rewrite <- Esp, u32_small by lia).
    change (exec (MOVCR3 EAX) ?s) with (Some (set_cr3 (x_reg s.1 EAX) s.1, s.2)). cbn [fst snd]. rewrite bind_Some.
    match goal with |- context [exec (MOVAX 0x23) (?c1, m)] => set (c2 := c1) end.
    change (exec (MOVAX 0x23) (c2, m)) with (Some (set_reg EAX (x_reg c2 EAX / 65536 * 65536 + 0x23) c2, m)). rewrite bind_Some.
    assert ((x_reg c2 EAX / 65536 * 65536 + 0x23) mod 65536 = 0x23) as Hax by (rewrite Z.add_comm, Z_mod_plus_full; done).
    do 4 (rewrite exec_movseg, bind_Some by done).
    erewrite exec_load, bind_Some by (cbn; rewrite <- Esp, u32_small by lia; apply Hld; [exact A1|lia]).
    erewrite exec_load, bind_Some by (cbn; rewrite <- Esp, u32_small by lia; apply Hld; [exact A2|lia]).
    eexists. split; [reflexivity|]. cbn. split_and!; try done. by intros []. }
  change enter_usermode_code with (load ++ [PUSHI 0x23; PUSH EBX; PUSHI 0x0202; PUSHI 0x1B; PUSH EAX] ++ [IRET]).
  rewrite exec_all_app, E, bind_Some, exec_all_app. rewrite <- Hcr in Hk.
  destruct (push_words [PUSHI 0x23; PUSH EBX; PUSHI 0x0202; PUSHI 0x1B; PUSH EAX] [0x23; esp; 0x0202; 0x1B; eip] c3 m K sp Hk)
    as (c4 & m' & -> & [[S1 S2 S3 [S4 S4'] S5] [Hsp Hr]] & Hc & Hw).
  - repeat constructor; cbn; by rewrite ?Ha, ?Hb.
  - repeat constructor; lia.
  - by rewrite Hs, u32_small by lia.
  - cbn. lia.
  - intros x Hx. apply HK. unfold within in *. cbn in Hx. lia.
  - change (4 * Z.of_nat (length [0x23; esp; 0x0202; 0x1B; eip])) with 20 in *. apply words_rev in Hw.
    rewrite bind_Some. cbn [exec_all]. destruct (iret_user c4 m' (sp - 20) eip 0x0202 esp) as (c5 & -> & H1 & H2 & H3 & H4 & H5 & H6 & _ & H8).
    + by rewrite S4.
    + by rewrite S2.
    + done.
    + apply (words_on_stack _ K); try done; cbn; try lia.
      * rewrite S3. eapply kmapped_changes; [exact Hk|]. eapply changes_only_mono; [|exact Hc]. unfold within in *. intros x Hx. apply HK. lia.
      * unfold within in *. intros x Hx. apply HK. lia.
    + rewrite bind_Some. exists c5, m'. split; [reflexivity|]. split; [exact Hc|]. split_and!; try done; [congruence|].
      intros g. rewrite H8, S5, Hsg. exact keep_user_data.
Qed.

(** ** Entering the kernel *)

Lemma push_all_app cr3 vs vs' s : push_all cr3 (vs ++ vs') s = push_all cr3 vs s ≫= push_all cr3 vs'.
Proof. revert s. induction vs as [|v vs IH]; intros s; [done|]. cbn. destruct (push cr3 s v); cbn; [apply IH|done]. Qed.

(** What the processor pushes, and where. *)
Definition hw_frame (c : core) (err : option Z) : list Z :=
  (if cpl c =? 3 then [x_ss c; x_reg c ESP] else []) ++ [x_eflags c; x_cs c; x_eip c] ++ match err with Some e => [e] | None => [] end.
Definition entry_sp (tss : tss_entry) (c : core) : Z := if cpl c =? 3 then (ring0_stack (tss_bytes tss)).2 else x_reg c ESP.

(** In the kernel, with interrupts off: the registers but the stack pointer are
    those of the interrupted program. *)
Record in_kernel (tss : tss_entry) (c c' : core) : Prop := {
  ik_cs : x_cs c' = 0x08;
  ik_ss : x_ss c' = if cpl c =? 3 then (ring0_stack (tss_bytes tss)).1 else x_ss c;
  ik_flags : x_eflags c' = Z.ldiff (x_eflags c) 0x34300;
  ik_cr3 : x_cr3 c' = x_cr3 c;
  ik_seg : x_seg c' = x_seg c;
  ik_regs : ∀ r, r ≠ ESP → x_reg c' r = x_reg c r
}.

Lemma in_kernel_if tss c c' : in_kernel tss c c' → Z.testbit (x_eflags c') IF = false ∧ Z.testbit (x_eflags c') 14 = false.
Proof. intros H. rewrite (ik_flags _ _ _ H), !Z.ldiff_spec. unfold IF. by rewrite !andb_false_r. Qed.

Lemma enter_spec tss h dpl err c m sp m0 : cpl c = 3 ∨ cpl c = 0 →
  push_all (x_cr3 c) (hw_frame c err) (entry_sp tss c, m) = Some (sp, m0) →
  ∃ c0, enter gdt gdtr tss (mkGate 0x08 h dpl) err (c, m) = Some (c0, m0) ∧ in_kernel tss c c0 ∧ x_reg c0 ESP = sp ∧ x_eip c0 = h.
Proof.
  intros Hcpl Hp. unfold enter, hw_frame, entry_sp in *. cbn [gate_sel gate_target]. rewrite (fl_kcode Hflat).
  assert (∀ r v, r ≠ ESP → (if reg_eqb r ESP then v else x_reg c r) = x_reg c r) as Hne by (intros r v Hr; by rewrite reg_eqb_ne).
  destruct Hcpl as [Hc|Hc]; rewrite Hc in *; cbn [Z.eqb Z.ltb Z.compare Pos.eqb] in *.
  - destruct (ring0_stack (tss_bytes tss)) as [ss0 esp0] eqn:Er. cbn [fst snd] in *. rewrite Hp. eexists. split; [reflexivity|].
    split; [|by split]. split; try reflexivity; [rewrite Hc, Er; reflexivity|]. intros r Hr. by apply Hne.
  - cbn [app] in *. rewrite Hp. eexists. split; [reflexivity|]. split; [|by split]. split; try reflexivity; [by rewrite Hc|]. intros r Hr. by apply Hne.
Qed.

Lemma do_push_spec c m K sp v : kmapped (x_cr3 c) K m → x_reg c ESP = sp → 4 <= sp < 4294967296 → (∀ x, within (sp - 4) 4 x → K x) →
  do_push v (c, m) = Some (set_reg ESP (sp - 4) c, st32 m (sp - 4) v) ∧ changes_only (within (sp - 4) 4) m (st32 m (sp - 4) v).
Proof.
  intros Hk He Hr HK. unfold do_push, push. rewrite He, u32_small by lia.
  destruct (kst32_kmapped (x_cr3 c) K m (sp - 4) v Hk) as [-> _]; [lia|exact HK|]. split; [done|].
  intros x Hx Hn. apply ld8_st32; [lia|exact Hx|exact Hn].
Qed.

(** The interrupt and the pushes of the stub, in one go. *)
Lemma entry_spec tss h dpl err c m K top prog vs : cpl c = 3 ∨ cpl c = 0 → kmapped (x_cr3 c) K m →
  Forall2 (λ i v, push_value c i = Some v) prog vs → PUSHFD ∉ prog →
  let ws := hw_frame c err ++ vs in let n := 4 * Z.of_nat (length ws) in
  Forall (λ v, is_u32 v) ws → entry_sp tss c = u32 top → n <= top <= 4294967296 → (∀ x, within (top - n) n x → K x) →
  ∃ c0 m0 c1 m1, enter gdt gdtr tss (mkGate 0x08 h dpl) err (c, m) = Some (c0, m0) ∧ x_eip c0 = h ∧
    exec_all prog (c0, m0) = Some (c1, m1) ∧ in_kernel tss c c1 ∧ x_reg c1 ESP = u32 (top - n) ∧
    changes_only (within (top - n) n) m m1 ∧ ∀ i w, ws !! i = Some w → ld32 m1 (top - 4 * (Z.of_nat i + 1)) = w.
Proof.
  intros Hcpl Hk HF Hnf ws n Hu Hsp Hr HK.
  destruct (push_all_spec (x_cr3 c) K ws m top Hk Hr HK Hu) as (m1 & E & Hc & Hw). rewrite <- Hsp in E. unfold ws in E.
  rewrite push_all_app in E. apply option.bind_Some in E as ([sp0 m0] & E0 & E1).
  destruct (enter_spec tss h dpl err c m sp0 m0 Hcpl E0) as (c0 & Ee & Hik & Hs0 & Heip).
  destruct (exec_pushes prog vs c0 m0 (u32 (top - n)) m1) as (c1 & Ep & [S1 S2 S3 [S4 S4'] S5] & Hs1 & Hr1).
  - clear - HF Hnf Hik. induction HF as [|i v prog vs Hv HF IH]; [constructor|]. apply not_elem_of_cons in Hnf as [Hi Hnf].
    constructor; [|by apply IH]. destruct i as [r|u| | | | | | | | | | | | |]; try done. cbn in *.
    destruct (reg_eqb r ESP) eqn:Er; [done|]. rewrite (ik_regs _ _ _ Hik); [done|]. intros ->. done.
  - rewrite (ik_cr3 _ _ _ Hik), Hs0. exact E1.
  - exists c0, m0, c1, m1. split; [exact Ee|]. split; [exact Heip|]. split; [exact Ep|]. split; [|split; [exact Hs1|by split]].
    destruct Hik as [K1 K2 K3 K4 K5 K6]. split; try congruence. intros r Hne. by rewrite Hr1, K6.
Qed.

(** ** Leaving the kernel *)

(** The registers as syscall_handler_128 and the common interrupt handler push
    them, which is [struct syscall_regs] and [struct cpu_state]. *)
Definition regs_of (c : core) : syscall_regs :=
  mkRegs (x_reg c EBP) (x_reg c EDI) (x_reg c ESI) (x_reg c EDX) (x_reg c ECX) (x_reg c EBX) (x_reg c EAX).
Definition regs_words (r : syscall_regs) : list Z := [r_ebp r; r_edi r; r_esi r; r_edx r; r_ecx r; r_ebx r; r_eax r].

Lemma restore_spec c m sp r ws : on_stack c m sp (regs_words r ++ ws) →
  ∃ c', exec_all restore_regs (c, m) = Some (c', m) ∧ on_stack c' m (sp + 28) ws ∧ same_state c c' ∧ regs_of c' = r.
Proof.
  intros Hs. destruct (exec_pops [EBP; EDI; ESI; EDX; ECX; EBX; EAX] (regs_words r) c m sp ws ltac:(by apply (bool_decide_unpack _); vm_compute)
    ltac:(by apply (bool_decide_unpack _); vm_compute) eq_refl Hs) as (c' & E & Hs' & Hss & Hin & _).
  exists c'. split; [exact E|]. split; [exact Hs'|]. split; [exact Hss|]. destruct r. unfold regs_of, regs_words in *. cbn in Hin.
  f_equal; [pose proof (Hin 0%nat EBP eq_refl)|pose proof (Hin 1%nat EDI eq_refl)|pose proof (Hin 2%nat ESI eq_refl)|
    pose proof (Hin 3%nat EDX eq_refl)|pose proof (Hin 4%nat ECX eq_refl)|pose proof (Hin 5%nat EBX eq_refl)|pose proof (Hin 6%nat EAX eq_refl)];
    cbn in *; congruence.
Qed.

Lemma flags_in_vm v : flags_in v = v → Z.testbit v 17 = false.
Proof. intros <-. unfold flags_in. rewrite Z.lor_spec, Z.land_spec. by rewrite andb_false_r. Qed.

(** Programs in ring 3 and the kernel in `hlt`: what an interrupt finds. *)
Record running (c : core) : Prop := {
  rn_regs : (∀ r, is_u32 (x_reg c r)) ∧ is_u32 (x_eip c);
  rn_flags : is_u32 (x_eflags c) ∧ flags_in (x_eflags c) = x_eflags c;
  rn_mode : x_cs c = 0x1B ∧ x_ss c = 0x23 ∨ x_cs c = 0x08 ∧ is_u32 (x_ss c);
  rn_segs : cpl c = 3 → ∀ g, x_seg c g = 0x23
}.

(** Everything as before, but the register eax. *)
Record back_to (c c' : core) (eax : Z) : Prop := {
  bt_eax : x_reg c' EAX = eax;
  bt_regs : ∀ r, r ≠ EAX → x_reg c' r = x_reg c r;
  bt_eip : x_eip c' = x_eip c;
  bt_flags : x_eflags c' = x_eflags c;
  bt_cr3 : x_cr3 c' = x_cr3 c;
  bt_code : x_cs c' = x_cs c ∧ x_ss c' = x_ss c;
  bt_segs : ∀ g, x_seg c' g = x_seg c g
}.

(** What the C code leaves: the kernel's code segment, this process's
    directory, its segments. *)
Record returned (c c' : core) : Prop := {
  rt_cs : x_cs c' = 0x08;
  rt_ss : cpl c = 0 → x_ss c' = x_ss c;
  rt_nt : Z.testbit (x_eflags c') 14 = false;
  rt_cr3 : x_cr3 c' = x_cr3 c;
  rt_segs : x_seg c' = x_seg c
}.

(** iret, from below the saved registers. *)
Lemma iret_back c c2 m sp v : running c → returned c c2 → regs_of c2 = set_eax v (regs_of c) →
  on_stack c2 m sp ([x_eip c; x_cs c; x_eflags c] ++ if cpl c =? 3 then [x_reg c ESP; x_ss c] else []) →
  (cpl c = 0 → u32 (sp + 12) = x_reg c ESP) →
  ∃ c', exec IRET (c2, m) = Some (c', m) ∧ back_to c c' v.
Proof.
  intros [[Hr He] [Hf Hfv] Hmode Hsg] [Rc Rs Rn Rcr Rsg] Hregs Hs Hsp. pose proof (flags_in_vm _ Hfv) as Hvm.
  unfold regs_of, set_eax in Hregs. cbn in Hregs. injection Hregs as R1 R2 R3 R4 R5 R6 R7.
  assert (∀ c', (∀ r, r ≠ ESP → x_reg c' r = x_reg c2 r) → x_reg c' ESP = x_reg c ESP →
    x_reg c' EAX = v ∧ ∀ r, r ≠ EAX → x_reg c' r = x_reg c r) as Hreg.
  { intros c' Hne He'. split; [by rewrite Hne|]. intros r Hr'. destruct r; try done; rewrite Hne by done; done. }
  unfold cpl in *. destruct Hmode as [[Hcs Hss]|[Hcs Hss]]; rewrite Hcs in *.
  - change (0x1B mod 4 =? 3) with true in Hs. cbn [app] in Hs. rewrite Hss in Hs.
    destruct (iret_user c2 m sp _ _ _ ltac:(by rewrite Rc) Rn Hvm Hs) as (c' & E & H1 & H2 & H3 & H4 & H5 & H6 & H7 & H8).
    exists c'. split; [exact E|]. destruct (Hreg c' H7 H6) as [? ?]. split; try done; [congruence|congruence|by rewrite Hcs, Hss|].
    intros g. rewrite H8, Rsg, Hsg by done. exact keep_user_data.
  - change (0x08 mod 4 =? 3) with false in Hs. cbn [app] in Hs.
    destruct (iret_same c2 m sp _ _ _ [] Rc eq_refl Rn Hvm Hs) as (c' & E & H1 & H2 & H3 & H4 & H5 & H6 & H7 & H8).
    exists c'. split; [exact E|]. destruct (Hreg c' H7 ltac:(by rewrite H6, Hsp)) as [? ?].
    split; try done; [congruence|congruence|rewrite Hcs; split; [done|by rewrite H3, Rs]|]. intros g. by rewrite H8, Rsg.
Qed.

(** ** System calls *)

Lemma save_values c : Forall2 (λ i v, push_value c i = Some v) save_regs (rev (regs_words (regs_of c))).
Proof. repeat constructor. Qed.

Lemma no_pushfd : PUSHFD ∉ save_regs.
Proof. unfold save_regs. intros H. by repeat (apply elem_of_cons in H as [H|H]; [done|]); apply elem_of_nil in H. Qed.

Lemma save_values_u32 c : running c → Forall (λ v, is_u32 v) (rev (regs_words (regs_of c))).
Proof. intros [[Hr _] _ _ _]. repeat (apply Forall_cons; split; [by apply Hr|]). constructor. Qed.

Lemma hw_frame_u32 c err : running c → (∀ e, err = Some e → is_u32 e) → Forall (λ v, is_u32 v) (hw_frame c err).
Proof.
  intros [[Hr He] [Hf _] Hm _] Herr. unfold hw_frame. apply Forall_app_2; [|apply Forall_app_2].
  - destruct (Z.eqb_spec (cpl c) 3) as [E|]; [|constructor]. repeat (apply Forall_cons; split); [|apply Hr|constructor].
    destruct Hm as [[_ ->]|[_ ?]]; lia.
  - repeat (apply Forall_cons; split); [exact Hf| |exact He|constructor]. destruct Hm as [[-> _]|[-> _]]; lia.
  - destruct err; [apply Forall_singleton; by apply Herr|constructor].
Qed.

(** The frame below [top] while the C code runs: upwards, the registers and what
    the processor pushed. *)
Definition syscall_frame (c : core) : list Z := regs_words (regs_of c) ++ [x_eip c; x_cs c; x_eflags c; x_reg c ESP; x_ss c].

Lemma syscall_entry_spec tss h c m K top ret disp : running c → cpl c = 3 → ring0_stack (tss_bytes tss) = (0x10, top) →
  kmapped (x_cr3 c) K m → 56 <= top < 4294967296 → (∀ x, within (top - 56) 56 x → K x) → is_u32 ret →
  ∃ c0 m0 c1 m1, enter gdt gdtr tss (mkGate 0x08 h 3) None (c, m) = Some (c0, m0) ∧ x_eip c0 = h ∧
    exec_all (syscall_entry ret disp) (c0, m0) = Some (c1, m1) ∧ in_kernel tss c c1 ∧ x_eip c1 = disp ∧ x_reg c1 ESP = top - 56 ∧
    changes_only (within (top - 56) 56) m m1 ∧ ld32 m1 (top - 56) = ret ∧ ld32 m1 (top - 52) = top - 48 ∧
    words_at m1 (top - 48) (syscall_frame c).
Proof.
  intros Hrun Hcpl Htss Hk Htop HK Hret.
  assert (hw_frame c None ++ rev (regs_words (regs_of c)) = rev (syscall_frame c)) as Hfr by (unfold hw_frame; by rewrite Hcpl).
  destruct (entry_spec tss h 3 None c m K top save_regs (rev (regs_words (regs_of c))) ltac:(by left) Hk (save_values c))
    as (c0 & m0 & c1 & m1 & E0 & Hh & E1 & Hik & Hsp & Hc1 & Hw).
  - exact no_pushfd.
  - apply Forall_app_2; [by apply hw_frame_u32|by apply save_values_u32].
  - unfold entry_sp. rewrite Hcpl, Htss. cbn. by rewrite u32_small by lia.
  - rewrite Hfr. cbn. lia.
  - rewrite Hfr. cbn [length rev app syscall_frame regs_words]. unfold within in *. intros x Hx. apply HK. cbn in Hx. lia.
  - rewrite Hfr in Hsp, Hc1, Hw. apply words_rev in Hw. rewrite rev_involutive in Hw.
    change (4 * Z.of_nat (length (rev (syscall_frame c)))) with 48 in *. rewrite u32_small in Hsp by lia.
    assert (kmapped (x_cr3 c1) K m1) as Hk1.
    { rewrite (ik_cr3 _ _ _ Hik). eapply kmapped_changes; [exact Hk|]. eapply changes_only_mono; [|exact Hc1].
      unfold within in *. intros x Hx. apply HK. lia. }
    destruct (do_push_spec c1 m1 K (top - 48) (x_reg c1 ESP) Hk1 Hsp ltac:(lia)) as [E2 Hc2].
    { unfold within in *. intros x Hx. apply HK. lia. }
    replace (top - 48 - 4) with (top - 52) in * by lia. set (m2 := st32 m1 (top - 52) (x_reg c1 ESP)) in *.
    destruct (do_push_spec (set_reg ESP (top - 52) c1) m2 K (top - 52) ret) as [E3 Hc3]; [| |lia| |].
    { eapply kmapped_changes; [exact Hk1|]. eapply changes_only_mono; [|exact Hc2]. unfold within in *. intros x Hx. apply HK. lia. }
    { reflexivity. }
    { unfold within in *. intros x Hx. apply HK. lia. }
    replace (top - 52 - 4) with (top - 56) in * by lia. set (m3 := st32 m2 (top - 56) ret) in *.
    eexists c0, m0, _, m3. split; [exact E0|]. split; [exact Hh|]. split.
    { unfold syscall_entry. rewrite exec_all_app, E1, bind_Some. cbn [exec_all]. cbn [exec]. rewrite E2, bind_Some.
      cbn [exec]. rewrite E3, !bind_Some. reflexivity. }
    split; [|split; [reflexivity|split; [reflexivity|split; [|split; [apply ld32_st32_eq; lia|split]]]]].
    + destruct Hik as [K1 K2 K3 K4 K5 K6]. split; try done. intros r Hr. cbn. by rewrite !reg_eqb_ne, K6 by done.
    + eapply changes_only_trans; [|eapply changes_only_trans]; (eapply changes_only_mono; [|eassumption]); unfold within; lia.
    + unfold m3. rewrite ld32_st32_ne by lia. unfold m2. rewrite ld32_st32_eq by lia. exact Hsp.
    + eapply words_changes; [eapply words_changes; [exact Hw|exact Hc2| | |]|exact Hc3| | |]; cbn [length syscall_frame regs_words app]; unfold within; lia.
Qed.

(** From the registers on the stack back to the interrupted program. *)
Lemma restore_back c c2 K m sp r v skip ws : running c → returned c c2 → kmapped (x_cr3 c) K m → r = set_eax v (regs_of c) →
  ws = [x_eip c; x_cs c; x_eflags c] ++ (if cpl c =? 3 then [x_reg c ESP; x_ss c] else []) →
  words_at m sp (regs_words r ++ skip ++ ws) → x_reg c2 ESP = u32 sp → 0 <= sp →
  sp + 4 * Z.of_nat (length (regs_words r ++ skip ++ ws)) <= 4294967296 →
  (∀ x, within sp (4 * Z.of_nat (length (regs_words r ++ skip ++ ws))) x → K x) →
  (cpl c = 0 → u32 (sp + 28 + 4 * Z.of_nat (length skip) + 12) = x_reg c ESP) →
  ∃ c3, exec_all (restore_regs ++ (if decide (skip = []) then [] else [ADD ESP (4 * Z.of_nat (length skip))]) ++ [IRET]) (c2, m) = Some (c3, m) ∧
    back_to c c3 v.
Proof.
  intros Hrun Hret Hk -> -> Hw He H0 Hl HK Hsp. set (ws := [_; _; _] ++ _) in *.
  rewrite <- (rt_cr3 _ _ Hret) in Hk. pose proof (words_on_stack c2 K m sp _ Hk Hw He H0 Hl HK) as Hs.
  destruct (restore_spec c2 m sp _ _ Hs) as (c3 & E3 & Hs3 & [S1 S2 S3 [S4 S4'] S5] & Hr3).
  rewrite exec_all_app, E3, bind_Some, exec_all_app.
  assert (∃ c4, exec_all (if decide (skip = []) then [] else [ADD ESP (4 * Z.of_nat (length skip))]) (c3, m) = Some (c4, m) ∧
    on_stack c4 m (sp + 28 + 4 * Z.of_nat (length skip)) ws ∧ same_state c3 c4 ∧ regs_of c4 = regs_of c3) as (c4 & -> & Hs4 & [T1 T2 T3 [T4 T4'] T5] & Hr4).
  { destruct Hs3 as [Es Rs Ws]. rewrite length_app in Rs. destruct (decide (skip = [])) as [->|Hne].
    - exists c3. split; [done|]. cbn [length]. rewrite Z.add_0_r. by split_and!.
    - eexists. split; [cbn; reflexivity|]. split; [|by split]. split.
      + cbn. rewrite Es. unfold u32. by rewrite Zplus_mod_idemp_l.
      + lia.
      + intros i w Hi. cbn. rewrite <- (Ws (length skip + i)%nat w); [f_equal; lia|]. by rewrite lookup_app_r, Nat.add_comm, Nat.add_sub by lia. }
  rewrite bind_Some. cbn [exec_all].
  destruct (iret_back c c4 m (sp + 28 + 4 * Z.of_nat (length skip)) v Hrun) as (c5 & -> & Hb).
  - destruct Hret. split; [congruence|intros; rewrite T4', S4'; auto|congruence|congruence|congruence].
  - congruence.
  - exact Hs4.
  - exact Hsp.
  - exists c5. rewrite bind_Some. by split.
Qed.

Lemma syscall_exit_spec c c2 K m top v : running c → cpl c = 3 → returned c c2 → kmapped (x_cr3 c) K m →
  56 <= top < 4294967296 → (∀ x, within (top - 56) 56 x → K x) → x_reg c2 ESP = top - 52 →
  words_at m (top - 48) (regs_words (set_eax v (regs_of c)) ++ [x_eip c; x_cs c; x_eflags c; x_reg c ESP; x_ss c]) →
  ∃ c3, exec_all syscall_exit (c2, m) = Some (c3, m) ∧ back_to c c3 v.
Proof.
  intros Hrun Hcpl Hret Hk Htop HK Hsp Hw. unfold syscall_exit. cbn [exec_all].
  change (exec (ADD ESP 4) (c2, m)) with (Some (set_reg ESP (x_reg c2 ESP +ᵤ 4) c2, m)). rewrite bind_Some.
  apply (restore_back c _ K m (top - 48) (set_eax v (regs_of c)) v [] [x_eip c; x_cs c; x_eflags c; x_reg c ESP; x_ss c]); try done.
  - destruct Hret. by split.
  - by rewrite Hcpl.
  - cbn. rewrite Hsp. f_equal. lia.
  - lia.
  - cbn. lia.
  - cbn [length regs_words app]. unfold within in *. intros x Hx. apply HK. lia.
  - lia.
Qed.

(** ** Interrupts *)

(** The error code the handler finds, the processor's or the stub's 0, and the
    frame below [top], upwards: [struct cpu_state], the number, [struct
    stack_state], and for a program the stack. *)
Definition irq_frame (c : core) (n e : Z) : list Z :=
  regs_words (regs_of c) ++ [n; e] ++ [x_eip c; x_cs c; x_eflags c] ++ if cpl c =? 3 then [x_reg c ESP; x_ss c] else [].

Lemma running_cpl c : running c → cpl c = 3 ∨ cpl c = 0.
Proof. intros [_ _ [[H _]|[H _]] _]; unfold cpl; rewrite H; [by left|by right]. Qed.

Lemma irq_frame_rev c n e err : running c → err = (if pushes_error_code n then Some e else None) → (pushes_error_code n = false → e = 0) →
  hw_frame c err ++ (if pushes_error_code n then [n] else [0; n]) ++ rev (regs_words (regs_of c)) = rev (irq_frame c n e).
Proof.
  intros Hrun -> He. unfold hw_frame, irq_frame. destruct (running_cpl c Hrun) as [-> | ->]; destruct (pushes_error_code n); cbn; try rewrite He by done; done.
Qed.

(** Every stub leaves the number and one error code, the processor's or 0. *)
Lemma interrupt_stub_spec n : 0 <= n < 48 → interrupt_stub n = if pushes_error_code n then [PUSHI n] else [PUSHI 0; PUSHI n].
Proof.
  intros Hn. rewrite <- (Z2Nat.id n) by lia. assert (Z.to_nat n < 48)%nat as Hk by lia. revert Hk.
  generalize (Z.to_nat n). clear n Hn. intros k Hk. do 48 (destruct k as [|k]; [reflexivity|]). lia.
Qed.

Lemma irq_entry_spec tss h dpl n e c m K top ret handler : let err := if pushes_error_code n then Some e else None in
  let size := 4 * Z.of_nat (length (irq_frame c n e)) in
  running c → 0 <= n < 48 → is_u32 e → (pushes_error_code n = false → e = 0) → entry_sp tss c = u32 top →
  kmapped (x_cr3 c) K m → size + 4 <= top <= 4294967296 → (∀ x, within (top - size - 4) (size + 4) x → K x) → is_u32 ret →
  ∃ c0 m0 c1 m1, enter gdt gdtr tss (mkGate 0x08 h dpl) err (c, m) = Some (c0, m0) ∧ x_eip c0 = h ∧
    exec_all (interrupt_entry n ret handler) (c0, m0) = Some (c1, m1) ∧ in_kernel tss c c1 ∧ x_eip c1 = handler ∧
    x_reg c1 ESP = top - size - 4 ∧ changes_only (within (top - size - 4) (size + 4)) m m1 ∧ ld32 m1 (top - size - 4) = ret ∧
    words_at m1 (top - size) (irq_frame c n e).
Proof.
  intros err size Hrun Hn He He0 Hsp Hk Htop HK Hret. pose proof (irq_frame_rev c n e err Hrun eq_refl He0) as Hfr.
  assert (length (rev (irq_frame c n e)) = length (irq_frame c n e)) as Hlr by apply length_rev.
  assert (size = 48 ∨ size = 56) as Hsz by (unfold size, irq_frame; destruct (cpl c =? 3); [right|left]; done).
  destruct (entry_spec tss h dpl err c m K top (interrupt_stub n ++ save_regs) ((if pushes_error_code n then [n] else [0; n]) ++ rev (regs_words (regs_of c)))
    (running_cpl c Hrun) Hk) as (c0 & m0 & c1 & m1 & E0 & Hh & E1 & Hik & Hs1 & Hc1 & Hw).
  - apply Forall2_app; [|apply save_values]. rewrite interrupt_stub_spec by exact Hn. destruct (pushes_error_code n); repeat constructor.
  - intros [Hi|Hi]%elem_of_app; [|by apply no_pushfd]. rewrite interrupt_stub_spec in Hi by exact Hn.
    destruct (pushes_error_code n); repeat (apply elem_of_cons in Hi as [Hi|Hi]; [done|]); by apply elem_of_nil in Hi.
  - apply Forall_app_2; [apply hw_frame_u32; [exact Hrun|]|apply Forall_app_2; [|by apply save_values_u32]].
    + unfold err. destruct (pushes_error_code n); intros ? [= <-]; exact He.
    + destruct (pushes_error_code n); repeat (apply Forall_cons; split; [lia|]); constructor.
  - exact Hsp.
  - rewrite Hfr, Hlr. fold size. lia.
  - rewrite Hfr, Hlr. fold size. unfold within in *. intros x Hx. apply HK. lia.
  - rewrite Hfr, Hlr in *. fold size in Hs1, Hc1. apply words_rev in Hw. rewrite rev_involutive, Hlr in Hw. fold size in Hw.
    rewrite u32_small in Hs1 by lia.
    destruct (do_push_spec c1 m1 K (top - size) ret) as [E2 Hc2]; [|exact Hs1|lia|unfold within in *; intros x Hx; apply HK; lia|].
    { rewrite (ik_cr3 _ _ _ Hik). eapply kmapped_changes; [exact Hk|]. eapply changes_only_mono; [|exact Hc1].
      unfold within in *. intros x Hx. apply HK. lia. }
    eexists c0, m0, _, _. split; [exact E0|]. split; [exact Hh|]. split.
    { unfold interrupt_entry. rewrite app_assoc, exec_all_app, E1, bind_Some. cbn [exec_all]. cbn [exec]. rewrite E2, !bind_Some. reflexivity. }
    split; [|split; [reflexivity|split; [reflexivity|split; [|split; [apply ld32_st32_eq; lia|]]]]].
    + destruct Hik as [K1 K2 K3 K4 K5 K6]. split; try done. intros r Hr. cbn. by rewrite !reg_eqb_ne, K6 by done.
    + eapply changes_only_trans; (eapply changes_only_mono; [|eassumption]); unfold within; lia.
    + eapply words_changes; [exact Hw|exact Hc2|lia|fold size; lia|]. fold size. unfold within. lia.
Qed.

Lemma irq_exit_spec c c2 K m top n e : running c → returned c c2 → kmapped (x_cr3 c) K m →
  let size := 4 * Z.of_nat (length (irq_frame c n e)) in
  size <= top <= 4294967296 → (∀ x, within (top - size) size x → K x) → x_reg c2 ESP = top - size →
  (cpl c = 0 → x_reg c ESP = u32 top) → words_at m (top - size) (irq_frame c n e) →
  ∃ c3, exec_all interrupt_exit (c2, m) = Some (c3, m) ∧ back_to c c3 (x_reg c EAX).
Proof.
  intros Hrun Hret Hk size Htop HK Hsp Hesp Hw.
  assert (size = 48 ∧ cpl c = 0 ∨ size = 56) as Hsz
    by (unfold size, irq_frame; destruct (running_cpl c Hrun) as [-> | ->]; [right|left]; done).
  eapply (restore_back c c2 K m (top - size) (regs_of c) (x_reg c EAX) [n; e] _ Hrun Hret Hk eq_refl eq_refl Hw).
  - rewrite u32_small by lia. exact Hsp.
  - lia.
  - change (regs_words (regs_of c) ++ _) with (irq_frame c n e). fold size. lia.
  - change (regs_words (regs_of c) ++ _) with (irq_frame c n e). fold size. replace (top - size) with (top - size) by lia. exact HK.
  - intros H0. rewrite Hesp by exact H0. cbn [length]. f_equal. destruct Hsz as [[-> _]|Hsz]; [lia|].
    exfalso. unfold size, irq_frame in Hsz. rewrite H0 in Hsz. done.
Qed.
End instructions.

Lemma gdt_flat a b g gdt gdtr : length g = 6%nat → is_u32 a → gdt_init a b g = Some (gdt, gdtr) → flat gdt gdtr.
Proof.
  intros Hl Ha E. destruct (gdt_init_spec a b g Hl Ha) as (gdt' & gp & E' & H1 & H2 & H3 & H4 & _).
  rewrite E in E'. injection E' as <- <-. by split.
Qed.

(** ** Properties *)

(** C12: a process that gave up the processor in switch_context gets it back as
    it was.  The first call saves it and goes on with the other process; a later
    call from anywhere, with the stack pointer the first one stored and the
    process's own directory, returns to the first one's caller with the stack,
    the directory, the flags and the registers of the calling convention as at
    the call, if its stack was left alone. *)
Theorem switch_roundtrip gdt gdtr K K' c m p nsp ncr3 ra fl di si bx bp ra' :
  switch_call K c m p nsp ncr3 ra → flags_in (x_eflags c) = x_eflags c → 0 <= nsp → nsp + 24 <= 4294967296 →
  (∀ m', changes_only (saves c p) m m' →
     ∀ i w, [fl; di; si; bx; bp; ra'] !! i = Some w → kld32 ncr3 m' (nsp + 4 * Z.of_nat i) = Some w) →
  ∃ c' m', exec_all gdt gdtr switch_context_code (c, m) = Some (c', m') ∧
    changes_only (saves c p) m m' ∧ resumed c' fl di si bx bp ra' ∧ x_cr3 c' = ncr3 ∧ x_reg c' ESP = u32 (nsp + 24) ∧
    ∀ q m2 p2 ra2, switch_call K' q m2 p2 (ld32 m' p) (x_cr3 c) ra2 →
      (∀ x, within (x_reg c ESP - 20) 24 x → ld8 m2 x = ld8 m' x ∧ ¬ saves q p2 x) →
      kmapped (x_cr3 c) (λ x, within (x_reg c ESP - 20) 24 x ∨ saves q p2 x) m2 →
      ∃ c2 m3, exec_all gdt gdtr switch_context_code (q, m2) = Some (c2, m3) ∧
        x_eip c2 = ra ∧ x_reg c2 ESP = x_reg c ESP + 4 ∧ x_eflags c2 = x_eflags c ∧ x_cr3 c2 = x_cr3 c ∧
        ∀ r, r ∈ [EBX; ESI; EDI; EBP] → x_reg c2 r = x_reg c r.
Proof.
  intros Hca Hfl H0 Hn Hw. destruct (switch_context_spec gdt gdtr K c m p nsp ncr3 ra fl di si bx bp ra' [] Hca H0 Hn Hw)
    as (c' & m' & E & Hc & Hp & Hsv & Hres & Hs & Hcr & _). pose proof (sc_sp _ _ _ _ _ _ _ Hca) as Hsp.
  exists c', m'. split; [exact E|]. split; [exact Hc|]. split; [exact Hres|]. split; [exact Hcr|]. split; [apply Hs|].
  intros q m2 p2 ra2 Hq Hst Hk. rewrite Hp in Hq.
  destruct (switch_context_spec gdt gdtr K' q m2 p2 _ _ ra2 (x_eflags c) (x_reg c EDI) (x_reg c ESI) (x_reg c EBX) (x_reg c EBP) ra [] Hq)
    as (c2 & m3 & E2 & _ & _ & _ & [R1 R2 R3 R4 R5 R6] & Hs2 & Hcr2 & _); [lia|cbn; lia| |].
  - intros m3 Hc3 i w Hi. pose proof (lookup_lt_Some _ _ _ Hi) as Hlt. cbn in Hlt. rewrite <- (Hsv i w Hi).
    rewrite (kld32_unchanged _ _ (saves q p2) m2 m3 _ Hk Hc3); [|by right|lia|].
    + f_equal. apply ld32_ext; [lia|]. intros x Hx. apply Hst. unfold within in *. lia.
    + intros x Hx. assert (within (x_reg c ESP - 20) 24 x) as Hin by (unfold within in *; lia). split; [by left|by apply Hst].
  - exists c2, m3. split; [exact E2|]. split; [exact R6|]. split; [rewrite (st_esp _ _ _ _ Hs2), u32_small; lia|].
    split; [congruence|]. split; [exact Hcr2|]. intros r Hr.
    repeat (apply elem_of_cons in Hr as [->|Hr]; [done|]). by apply elem_of_nil in Hr.
Qed.

(** `int 0x80` from a program enters syscall_dispatch in ring 0 with
    interrupts off, on the kernel stack of the task state segment, with the
    address of the program's registers as [struct syscall_regs] has them; and
    whatever else the call did, when it leaves that frame with the result in eax
    the program goes on after the `int` with eax the result and everything else
    as it was. *)
Theorem syscall_roundtrip tss_addr gdt_addr gdt0 gdt gdtr h sys idt_addr idt0 tr s tss c m K top ret dispatch :
  length gdt0 = 6%nat → is_u32 tss_addr → gdt_init tss_addr gdt_addr gdt0 = Some (gdt, gdtr) →
  length idt0 = 256%nat → (∀ n, is_u32 (h n)) → is_u32 sys → idt_init h sys idt_addr idt0 tr = Some s →
  running c → cpl c = 3 → ss0 tss = 0x10 → esp0 tss = top → 56 <= top < 4294967296 →
  kmapped (x_cr3 c) K m → (∀ x, within (top - 56) 56 x → K x) → is_u32 ret →
  ∃ g c0 m0 c1 m1, soft_int (idt_table s) (idtr s) (cpl c) 0x80 = Some g ∧
    enter gdt gdtr tss g None (c, m) = Some (c0, m0) ∧ x_eip c0 = sys ∧
    exec_all gdt gdtr (syscall_entry ret dispatch) (c0, m0) = Some (c1, m1) ∧
    x_eip c1 = dispatch ∧ cpl c1 = 0 ∧ Z.testbit (x_eflags c1) IF = false ∧ x_cr3 c1 = x_cr3 c ∧
    changes_only (within (top - 56) 56) m m1 ∧
    x_reg c1 ESP = top - 56 ∧ ld32 m1 (top - 56) = ret ∧ ld32 m1 (top - 52) = top - 48 ∧ words_at m1 (top - 48) (regs_words (regs_of c)) ∧
    ∀ c2 m2 v, returned c c2 → x_reg c2 ESP = top - 52 → kmapped (x_cr3 c) K m2 →
      (∀ x, within (top - 48) 48 x → ¬ within (top - 24) 4 x → ld8 m2 x = ld8 m1 x) → ld32 m2 (top - 24) = v →
      ∃ c3, exec_all gdt gdtr syscall_exit (c2, m2) = Some (c3, m2) ∧ back_to c c3 v.
Proof.
  intros Hgl Hta Eg Hil Hh Hsys Ei Hrun Hcpl Hss Hesp Htop Hk HK Hret. pose proof (gdt_flat _ _ _ _ _ Hgl Hta Eg) as Hflat.
  destruct (idt_init_gates h sys idt_addr idt0 tr Hil Hh Hsys) as (s' & Ei' & _ & _ & _ & _ & _ & _ & Hsoft).
  rewrite Ei in Ei'. injection Ei' as <-.
  destruct (syscall_entry_spec gdt gdtr Hflat tss sys c m K top ret dispatch Hrun Hcpl) as
    (c0 & m0 & c1 & m1 & E0 & Hh0 & E1 & Hik & Heip & Hsp & Hc & Hr & Ha & Hw); try done.
  { rewrite ring0_stack_spec by lia. by rewrite Hss, Hesp. }
  exists (mkGate 0x08 sys 3), c0, m0, c1, m1. split; [by rewrite Hcpl, Hsoft by lia|]. split; [exact E0|]. split; [exact Hh0|].
  split; [exact E1|]. split; [exact Heip|]. split; [unfold cpl; by rewrite (ik_cs _ _ _ Hik)|]. split; [by apply (in_kernel_if tss c)|].
  split; [apply Hik|]. split; [exact Hc|]. split; [exact Hsp|]. split; [exact Hr|]. split; [exact Ha|]. split.
  - intros i w Hi. apply Hw. by apply lookup_app_l_Some.
  - intros c2 m2 v Hret2 Hsp2 Hk2 Hsame Hv. apply (syscall_exit_spec gdt gdtr Hflat c c2 K m2 top v); try done.
    intros i w Hi. pose proof (lookup_lt_Some _ _ _ Hi) as Hlt. cbn in Hlt. destruct (decide (i = 6%nat)) as [->|Hne].
    + cbn in Hi. injection Hi as <-. rewrite <- Hv. f_equal. lia.
    + rewrite <- (Hw i w).
      * apply ld32_ext; [lia|]. intros x Hx. apply Hsame; unfold within in *; lia.
      * rewrite <- Hi. by do 12 (destruct i as [|i]; [done|]).
Qed.

(** C14: an interrupt of any of the vectors 0 to 47, in a program or in the
    kernel's `hlt`, enters interrupt_handler in ring 0 with interrupts off and
    with the interrupted registers, the number, the error code (0 where the
    processor has none) and the address and flags where its parameters are; when
    it leaves them alone the interrupted code goes on as if nothing had
    happened. *)
Theorem interrupt_roundtrip tss_addr gdt_addr gdt0 gdt gdtr h sys idt_addr idt0 tr s tss c m K top n e ret handler :
  length gdt0 = 6%nat → is_u32 tss_addr → gdt_init tss_addr gdt_addr gdt0 = Some (gdt, gdtr) →
  length idt0 = 256%nat → (∀ n, is_u32 (h n)) → is_u32 sys → idt_init h sys idt_addr idt0 tr = Some s →
  running c → 0 <= n < 48 → is_u32 e → (pushes_error_code n = false → e = 0) →
  ss0 tss = 0x10 → is_u32 (esp0 tss) → (if cpl c =? 3 then esp0 tss else x_reg c ESP) = top → 60 <= top < 4294967296 →
  kmapped (x_cr3 c) K m → (∀ x, within (top - 60) 60 x → K x) → is_u32 ret →
  let a := top - 4 * Z.of_nat (length (irq_frame c n e)) in
  ∃ g c0 m0 c1 m1, gate_lookup (idt_table s) (idtr s) n = Some g ∧
    enter gdt gdtr tss g (if pushes_error_code n then Some e else None) (c, m) = Some (c0, m0) ∧ x_eip c0 = h n ∧
    exec_all gdt gdtr (interrupt_entry n ret handler) (c0, m0) = Some (c1, m1) ∧
    x_eip c1 = handler ∧ cpl c1 = 0 ∧ Z.testbit (x_eflags c1) IF = false ∧ x_cr3 c1 = x_cr3 c ∧
    changes_only (within (top - 60) 60) m m1 ∧ x_reg c1 ESP = a - 4 ∧ ld32 m1 (a - 4) = ret ∧ words_at m1 a (irq_frame c n e) ∧
    ∀ c2 m2, returned c c2 → x_reg c2 ESP = a → kmapped (x_cr3 c) K m2 → (∀ x, a <= x < top → ld8 m2 x = ld8 m1 x) →
      ∃ c3, exec_all gdt gdtr interrupt_exit (c2, m2) = Some (c3, m2) ∧ back_to c c3 (x_reg c EAX).
Proof.
  intros Hgl Hta Eg Hil Hh Hsys Ei Hrun Hn He He0 Hss Hesp Hsp Htop Hk HK Hret a. pose proof (gdt_flat _ _ _ _ _ Hgl Hta Eg) as Hflat.
  destruct (idt_init_gates h sys idt_addr idt0 tr Hil Hh Hsys) as (s' & Ei' & _ & _ & _ & Hg & _).
  rewrite Ei in Ei'. injection Ei' as <-.
  set (size := 4 * Z.of_nat (length (irq_frame c n e))).
  assert (size = 48 ∨ size = 56) as Hsz by (unfold size, irq_frame; destruct (cpl c =? 3); [right|left]; done).
  destruct (irq_entry_spec gdt gdtr Hflat tss (h n) 0 n e c m K top ret handler Hrun) as
    (c0 & m0 & c1 & m1 & E0 & Hh0 & E1 & Hik & Heip & Hs1 & Hc & Hr & Hw); try done; try (fold size; lia).
  { unfold entry_sp. rewrite ring0_stack_spec by lia. cbn [snd]. rewrite Hsp, u32_small by lia. done. }
  { fold size. unfold within in *. intros x Hx. apply HK. lia. }
  fold size in Hs1, Hc, Hr, Hw.
  exists (mkGate 0x08 (h n) 0), c0, m0, c1, m1. split; [by apply Hg|]. split; [exact E0|]. split; [exact Hh0|].
  split; [exact E1|]. split; [exact Heip|]. split; [unfold cpl; by rewrite (ik_cs _ _ _ Hik)|]. split; [by apply (in_kernel_if tss c)|].
  split; [apply Hik|]. split; [eapply changes_only_mono; [|exact Hc]; unfold within; lia|]. fold size in a. split; [lia|]. split; [exact Hr|]. split; [exact Hw|].
  intros c2 m2 Hret2 Hsp2 Hk2 Hsame. apply (irq_exit_spec gdt gdtr Hflat c c2 K m2 top n e); try done; try (fold size; lia).
  - fold size. unfold within in *. intros x Hx. apply HK. lia.
  - intros Hz. rewrite Hz in Hsp. cbn in Hsp. by rewrite Hsp, u32_small by lia.
  - fold size. intros i w Hi. pose proof (lookup_lt_Some _ _ _ Hi) as Hlt. rewrite <- (Hw i w Hi). apply ld32_ext; [lia|].
    intros x Hx. apply Hsame. unfold within in *. lia.
Qed.

(** C11: the boot ends in the shell: jump_to_process with what kmain hands it,
    then the trampoline, leave the processor in ring 3 at the first byte of the
    program with an empty stack, interrupts on, in the shell's page directory,
    which shows the program to the instruction fetch.  What was written
    meanwhile to the memory that was never free (the kernel's data and its boot
    stack) makes no difference.  The program ends below the address of every
    free frame, so that it does not cover its own kernel stack. *)
Theorem boot_enters_shell L W mbi kstart kend avail table mstart mend files data k s tm :
  let m := c_mem (kb_con k) in
  let used := boot_used mbi kstart kend avail table mstart mend in
  boot_ok L W m → fresh_state k → boot_info L W mbi kstart kend avail table m →
  image_info L W mbi kstart kend avail table m mstart mend files → shell_file L W m mstart files data →
  is_u32 (l_trampoline L) → is_u32 (l_tss L) →
  frames_needed data <= count_upto (λ g, negb (used g)) all_frames →
  (∀ g, 0 <= g < MAX_FRAMES → used g = false → page_count data <= g ∧ g ≠ 0xBFFFF) →
  (∀ tr', l_dev L tr' PIC1_DATA_PORT = imr (observe pics_step s tr').1) →
  t_next_high (observe timer_step tm (c_ports (kb_con k))) = false →
  ∃ k' sp dir, kmain L MULTIBOOT_BOOTLOADER_MAGIC mbi kstart kend k = Some (Jumped k' sp dir) ∧
    changes_only W m (c_mem (kb_con k')) ∧ is_u32 sp ∧ is_u32 dir ∧
    ∀ m' c, changes_only (λ x, used (x / 4096) = true) (c_mem (kb_con k')) m' → jump_call c m' sp dir → ∃ c1 c2,
      exec_all (kb_gdt k') (kb_gdtr k') jump_to_process_code (c, m') = Some (c1, m') ∧ x_eip c1 = l_trampoline L ∧
      exec_all (kb_gdt k') (kb_gdtr k') trampoline_code (c1, m') = Some (c2, m') ∧ user_start c2 dir ∧
      ∀ i b, data !! i = Some b → ∃ pa, user_walk m' (x_cr3 c2) (x_eip c2 + Z.of_nat i) = Some pa ∧ ld8 m' pa = b.
Proof.
  intros m used Hb Hf Hi Him Hsh Htr Hta Hen Hlow Hdev Htm. pose proof (proj2 Hsh) as Hsz.
  destruct (kmain_spec L W mbi kstart kend avail table mstart mend files data k s tm Hb Hf Hi Him Hsh Htr Hen Hdev Htm)
    as (k' & sp & dir & ks & st & P & E & HW & _ & Hcr & _ & _ & _ & _ & _ & _ & _ & -> & Hkp & Hkf & Hef & [_ Hst] & Hlo & _).
  exists k', (ks + 4052), dir. split; [exact E|]. split; [exact HW|].
  split; [destruct Hkp; lia|]. split; [destruct (lo_dir _ _ _ _ _ Hlo) as (sp & Hsp & _); destruct (sa_dir _ _ _ Hsp); lia|]. intros m' c Hm Hj.
  pose proof (gdt_flat _ _ _ _ _ (fr_gdt _ Hf) Hta (proj1 (cr_gdt _ _ _ Hcr))) as Hflat.
  pose proof (page_frame _ Hkp) as Hg. destruct (Hlow (ks / 4096) Hg) as [Hpc Hns].
  { unfold used. rewrite <- Hst by exact Hg. by apply negb_true_iff. }
  assert (changes_only (λ x, ¬ free_bytes st x) (c_mem (kb_con k')) m') as Hm'.
  { eapply changes_only_mono; [|exact Hm]. intros x Hx (g & Hg' & Hgf & Hin). cbn in Hx.
    assert (x / 4096 = g) as Hxg by (clear - Hin; unfold within in Hin; word_lia). rewrite Hxg in Hx. unfold used in Hx.
    rewrite <- Hst in Hx by exact Hg'. cbn [fa_free pfa_frame_alloc] in Hgf. by rewrite Hx in Hgf. }
  apply (entry_frame_outside _ _ _ _ _ Hef Hkp Hkf) in Hm' as Hef'. apply (loaded_outside _ _ _ _ _ _ Hlo Hsz) in Hm' as Hlo'.
  destruct (jump_starts _ _ Hflat c m' ks (l_trampoline L) dir Hkp Hj) as (c1 & c2 & E1 & Hip & E2 & Hu).
  { apply (entry_frame_reads st (kb_pfa k') data m'); [exact Hlo'|exact Hef'|exact Hkp| |].
    - destruct Hkp as [_ Ha]. clear - Hpc Ha. word_lia.
    - intros Hk. apply Hns. by rewrite Hk. }
  exists c1, c2. split; [exact E1|]. split; [exact Hip|]. split; [exact E2|]. split; [exact Hu|].
  intros i b Hib. pose proof (lookup_lt_Some _ _ _ Hib) as Hil. rewrite (us_eip _ _ Hu), (us_cr3 _ _ Hu), Z.add_0_l.
  destruct (lo_code _ _ _ _ _ Hlo' (Z.of_nat i)) as (pa & Hw & _ & Hbyte); [unfold page_count; clear - Hil; word_lia|].
  exists pa. split; [exact Hw|]. rewrite Hbyte, Nat2Z.id. by apply nth_lookup_Some.
Qed.

(** ** Witnesses *)

Fixpoint put_words (m : mem) (a : Z) (ws : list Z) : mem :=
  match ws with
  | [] => m
  | w :: ws' => st32 (put_words m (a + 4) ws') a w
  end.

Lemma put_words_changes m a ws : 0 <= a → a + 4 * Z.of_nat (length ws) <= 4294967296 →
  changes_only (within a (4 * Z.of_nat (length ws))) m (put_words m a ws).
Proof.
  revert a. induction ws as [|w ws IH]; intros a Ha Hl; [apply changes_only_refl|]. cbn [put_words length] in *.
  eapply changes_only_trans; [eapply changes_only_mono; [|apply (IH (a + 4)); lia]; unfold within; lia|].
  intros x Hx Hn. apply ld8_st32; [lia|exact Hx|unfold within in *; lia].
Qed.

Lemma put_words_at m a ws : 0 <= a → a + 4 * Z.of_nat (length ws) <= 4294967296 → Forall (λ w, is_u32 w) ws →
  words_at (put_words m a ws) a ws.
Proof.
  revert a. induction ws as [|w ws IH]; intros a Ha Hl HF; [by intros i ? ?|]. apply Forall_cons in HF as [Hw HF].
  cbn [put_words length] in *. intros [|i] v Hi.
  - injection Hi as <-. rewrite Z.add_0_r. apply ld32_st32_eq; lia.
  - cbn [lookup list_lookup] in Hi. pose proof (lookup_lt_Some _ _ _ Hi). rewrite ld32_st32_ne by (cbn [length] in Hl; lia). rewrite <- (IH (a + 4) ltac:(lia) ltac:(lia) HF i v Hi).
    f_equal. lia.
Qed.

Definition outside_dir (x : Z) : Prop := ¬ within 0x8000 4096 x.

Lemma example_space : ∃ m : mem, kmapped 0x8000 outside_dir m.
Proof.
  destruct (identity_dir_exists 0x8000 ∅) as [m Hm]; [split; [lia|done]|]. exists m. apply identity_kmapped; [exact Hm|auto].
Qed.

Lemma kmapped_put m a ws : kmapped 0x8000 outside_dir m → 0x9000 <= a → a + 4 * Z.of_nat (length ws) <= 4294967296 →
  kmapped 0x8000 outside_dir (put_words m a ws).
Proof.
  intros Hk Ha Hl. eapply kmapped_changes; [exact Hk|]. eapply changes_only_mono; [|apply put_words_changes; lia].
  unfold outside_dir, within. lia.
Qed.

(** A core whose registers all hold [v], in the directory 0x8000. *)
Definition core_at (v cs ss g : Z) : core := mkCore (λ _, v) 0x1234 0x202 0x8000 cs ss (λ _, g).

Lemma example_call m sp p nsp ra : kmapped 0x8000 outside_dir m → 0xA000 <= sp <= 0x60000 → is_u32 ra → is_u32 nsp →
  0x9000 <= p <= 0x60000 → p + 4 <= sp - 20 ∨ sp + 16 <= p →
  switch_call outside_dir (core_at sp 0x08 0x10 0x10) (put_words m sp [ra; p; nsp; 0x8000]) p nsp 0x8000 ra.
Proof.
  intros Hk Hsp Hra Hn Hp Hd.
  assert (words_at (put_words m sp [ra; p; nsp; 0x8000]) sp [ra; p; nsp; 0x8000]) as Hw
    by (apply put_words_at; [lia|cbn [length]; lia|]; repeat constructor; lia).
  split; cbn [core_at x_reg x_eflags x_cr3].
  - apply kmapped_put; [exact Hk|lia|cbn [length]; lia].
  - split; [intros _; lia|lia].
  - lia.
  - unfold outside_dir, within. lia.
  - rewrite <- (Z.add_0_r sp) at 2. split; [exact (Hw 0%nat _ eq_refl)|]. split; [exact (Hw 1%nat _ eq_refl)|].
    split; [exact (Hw 2%nat _ eq_refl)|exact (Hw 3%nat _ eq_refl)].
  - lia.
Qed.

Lemma switch_roundtrip_witness : ∃ c m c' m' q m2 c2 m3,
  exec_all [] (mkPtr 0 0) switch_context_code (c, m) = Some (c', m') ∧ x_eip c' = 0x200 ∧
  exec_all [] (mkPtr 0 0) switch_context_code (q, m2) = Some (c2, m3) ∧ x_eip c2 = 0x100 ∧ x_reg c2 ESP = 0x20004.
Proof.
  destruct example_space as [m0 Hk0]. set (m1 := put_words m0 0x40000 [2; 0; 0; 0; 0; 0x200]).
  assert (kmapped 0x8000 outside_dir m1) as Hk1 by (apply kmapped_put; [exact Hk0|lia|cbn; lia]).
  pose proof (example_call m1 0x20000 0x30000 0x40000 0x100 Hk1 ltac:(lia) ltac:(lia) ltac:(lia) ltac:(lia) ltac:(lia)) as Hc.
  set (c := core_at 0x20000 0x08 0x10 0x10) in *. set (m := put_words m1 _ _) in *.
  assert (words_at m 0x40000 [2; 0; 0; 0; 0; 0x200]) as Hw.
  { eapply words_changes; [apply put_words_at|apply put_words_changes|..]; cbn [length]; try lia; [repeat constructor; lia|unfold within; lia]. }
  destruct (switch_roundtrip [] (mkPtr 0 0) outside_dir outside_dir c m 0x30000 0x40000 0x8000 0x100 2 0 0 0 0 0x200 Hc eq_refl
    ltac:(lia) ltac:(lia)) as (c' & m' & E & Hcm & Hres & _ & _ & Hback).
  - intros m' Hm' i w Hi. pose proof (lookup_lt_Some _ _ _ Hi) as Hlt. cbn in Hlt. rewrite <- (Hw i w Hi).
    apply (kld32_unchanged 0x8000 outside_dir (saves c 0x30000)); [exact (sc_map _ _ _ _ _ _ _ Hc)|exact Hm'|..]; try lia;
      unfold saves, c, core_at, outside_dir, within; cbn [x_reg]; lia.
  - assert (kmapped 0x8000 outside_dir m') as Hk'.
    { eapply kmapped_changes; [exact (sc_map _ _ _ _ _ _ _ Hc)|]. eapply changes_only_mono; [|exact Hcm].
      unfold saves, c, core_at, outside_dir, within; cbn [x_reg]; lia. }
    pose proof (example_call m' 0x50000 0x30004 (ld32 m' 0x30000) 0x300 Hk' ltac:(lia) ltac:(lia) (ld32_range m' 0x30000) ltac:(lia) ltac:(lia)) as Hq.
    destruct (Hback _ _ _ _ Hq) as (c2 & m3 & E2 & Hip & Hsp & _).
    + intros x Hx. unfold c, core_at, within in Hx. cbn [x_reg] in Hx.
      split; [apply put_words_changes; cbn [length]; unfold within; lia|]. unfold saves, core_at, within; cbn [x_reg]. lia.
    + eapply kmapped_mono; [|exact (sc_map _ _ _ _ _ _ _ Hq)]. unfold saves, c, core_at, outside_dir, within; cbn [x_reg]; lia.
    + exists c, m, c', m', (core_at 0x50000 0x08 0x10 0x10), (put_words m' 0x50000 [0x300; 0x30004; ld32 m' 0x30000; 0x8000]), c2, m3.
      split; [exact E|]. split; [apply Hres|]. split; [exact E2|]. split; [exact Hip|exact Hsp].
Defined.

Lemma example_running v : is_u32 v → running (core_at v 0x1B 0x23 0x23).
Proof. intros Hv. split; cbn; [split; [intros _; exact Hv|lia]|split; [lia|done]|by left|done]. Qed.

Lemma example_returned v w : returned (core_at v 0x1B 0x23 0x23) (core_at w 0x08 0x10 0x23).
Proof. by split. Qed.

Definition example_gdt : list gdt_entry := replicate 6 (mkGdt 0 0 0 0 0 0).
Definition example_idt : list idt_entry := replicate 256 (mkIdt 0 0 0 0 0).
Definition example_tss : tss_entry := tss_init 0x60000 0x10 tss_zero.

Lemma example_tables : ∃ gdt gdtr s, gdt_init 0xA100 0xA200 example_gdt = Some (gdt, gdtr) ∧
  idt_init (λ n, 0xA800 + n mod 256) 0xA900 0xA300 example_idt [] = Some s.
Proof.
  destruct (gdt_init_some 0xA100 0xA200 example_gdt eq_refl) as (gdt & gdtr & E).
  destruct (idt_init_gates (λ n, 0xA800 + n mod 256) 0xA900 0xA300 example_idt []) as (s & Es & _); [apply length_replicate|intros n; word_lia|lia|].
  exists gdt, gdtr, s. split; [exact E|exact Es].
Qed.

Lemma syscall_roundtrip_witness : ∃ gdt gdtr c m c1 m1 c2 m2 c3,
  exec_all gdt gdtr (syscall_entry 0xA910 0xB000) (c, m) = Some (c1, m1) ∧ x_eip c1 = 0xB000 ∧ cpl c1 = 0 ∧
  exec_all gdt gdtr syscall_exit (c2, m2) = Some (c3, m2) ∧ back_to (core_at 0x70000 0x1B 0x23 0x23) c3 7.
Proof.
  destruct example_space as [m Hk]. destruct example_tables as (gdt & gdtr & s & Eg & Ei).
  destruct (syscall_roundtrip 0xA100 0xA200 example_gdt gdt gdtr (λ n, 0xA800 + n mod 256) 0xA900 0xA300 example_idt [] s example_tss
    (core_at 0x70000 0x1B 0x23 0x23) m outside_dir 0x60000 0xA910 0xB000 eq_refl ltac:(lia) Eg (length_replicate _ _)
    ltac:(intros n; word_lia) ltac:(lia) Ei (example_running 0x70000 ltac:(lia)) eq_refl eq_refl eq_refl ltac:(lia) Hk
    ltac:(unfold outside_dir, within; lia) ltac:(lia))
    as (g & c0 & m0 & c1 & m1 & _ & _ & _ & E1 & Hip & Hcpl & _ & _ & Hc & _ & _ & _ & _ & Hback).
  destruct (Hback (core_at (0x60000 - 52) 0x08 0x10 0x23) (st32 m1 (0x60000 - 24) 7) 7 (example_returned _ _) eq_refl) as (c3 & E3 & Hb).
  - eapply kmapped_changes; [eapply kmapped_changes; [exact Hk|]|].
    + eapply changes_only_mono; [|exact Hc]. unfold outside_dir, within. lia.
    + intros x Hx Hn. apply ld8_st32; [lia|exact Hx|]. unfold outside_dir, within in *. lia.
  - intros x Hx Hn. apply ld8_st32; [lia|unfold within in Hx; lia|exact Hn].
  - apply ld32_st32_eq; lia.
  - eexists gdt, gdtr, c0, m0, c1, m1, _, _, c3. split; [exact E1|]. split; [exact Hip|]. split; [exact Hcpl|]. split; [exact E3|exact Hb].
Defined.

(** A page fault, with its error code. *)
Lemma interrupt_roundtrip_witness : ∃ gdt gdtr c m c1 m1 c2 c3,
  exec_all gdt gdtr (interrupt_entry 14 0xA910 0xB000) (c, m) = Some (c1, m1) ∧ x_eip c1 = 0xB000 ∧ cpl c1 = 0 ∧
  exec_all gdt gdtr interrupt_exit (c2, m1) = Some (c3, m1) ∧ back_to (core_at 0x70000 0x1B 0x23 0x23) c3 0x70000.
Proof.
  destruct example_space as [m Hk]. destruct example_tables as (gdt & gdtr & s & Eg & Ei).
  destruct (interrupt_roundtrip 0xA100 0xA200 example_gdt gdt gdtr (λ n, 0xA800 + n mod 256) 0xA900 0xA300 example_idt [] s example_tss
    (core_at 0x70000 0x1B 0x23 0x23) m outside_dir 0x60000 14 6 0xA910 0xB000 eq_refl ltac:(lia) Eg (length_replicate _ _)
    ltac:(intros n; word_lia) ltac:(lia) Ei (example_running 0x70000 ltac:(lia)) ltac:(lia) ltac:(lia) ltac:(done) eq_refl ltac:(cbn; lia) eq_refl ltac:(lia) Hk
    ltac:(unfold outside_dir, within; lia) ltac:(lia))
    as (g & c0 & m0 & c1 & m1 & _ & _ & _ & E1 & Hip & Hcpl & _ & _ & Hc & _ & _ & _ & Hback).
  destruct (Hback (core_at (0x60000 - 56) 0x08 0x10 0x23) m1 (example_returned _ _) eq_refl) as (c3 & E3 & Hb).
  - eapply kmapped_changes; [exact Hk|]. eapply changes_only_mono; [|exact Hc]. unfold outside_dir, within. lia.
  - done.
  - eexists gdt, gdtr, c0, m0, c1, m1, _, c3. split; [exact E1|]. split; [exact Hip|]. split; [exact Hcpl|]. split; [exact E3|exact Hb].
Defined.

(** The boot of the example image, with jump_to_process called from the top of
    the kernel's boot stack. *)
Lemma boot_enters_shell_witness : ∃ (m : mem) k' sp dir c m' c1 c2 pa,
  kmain (example_layout example_dev) MULTIBOOT_BOOTLOADER_MAGIC 0x9100 0x8000 0xB000 (example_kstate m) = Some (Jumped k' sp dir) ∧
  exec_all (kb_gdt k') (kb_gdtr k') jump_to_process_code (c, m') = Some (c1, m') ∧
  exec_all (kb_gdt k') (kb_gdtr k') trampoline_code (c1, m') = Some (c2, m') ∧ user_start c2 dir ∧
  user_walk m' dir 0 = Some pa ∧ ld8 m' pa = 0xF4.
Proof.
  destruct (example_boot shell_image) as (m & Hk & Hb & _); [apply (bool_decide_unpack _); vm_compute; exact I|vm_compute; lia|].
  destruct (boot_enters_shell (example_layout example_dev) boot_writes 0x9100 0x8000 0xB000 example_avail (frame_meets 0x9150 0x9168)
    0x9180 (0x9180 + Z.of_nat (length shell_image)) (image_files [(bytes "shell", [0xF4])]) [0xF4] (example_kstate m)
    (reset_pic, reset_pic) (mkTimer 0 false 0) (example_boot_ok _ _ _ Hk Hb) (example_fresh m) (example_boot_info _ _ _ Hb)
    (example_image_info _ _ Hb) (example_shell_file _ _ Hb) ltac:(cbn; lia) ltac:(cbn; lia) example_enough)
    as (k' & sp & dir & E & HW & Hsp & Hdir & Hj); [|exact (λ tr, eq_refl)|exact eq_refl|].
  { intros g _ Hg. change (page_count [0xF4]) with 1. unfold boot_used in Hg. apply orb_false_iff in Hg as [_ [_ Hg]%orb_false_iff].
    apply negb_false_iff in Hg. rewrite example_free in Hg. apply andb_prop in Hg as [H1%Z.leb_le H2%Z.ltb_lt]. lia. }
  set (m1 := c_mem (kb_con k')) in *. set (m2 := put_words m1 0x7E00 [0; sp; dir]).
  assert (changes_only (within 0x7E00 12) m1 m2) as Hc by (apply (put_words_changes m1 0x7E00 [0; sp; dir]); cbn [length]; lia).
  assert (kmapped 0x8000 boot_writes m2) as Hk2.
  { eapply kmapped_changes; [eapply kmapped_changes; [exact Hk|exact HW]|]. eapply changes_only_mono; [|exact Hc].
    unfold boot_writes, within. lia. }
  assert (words_at m2 0x7E00 [0; sp; dir]) as Hw by (apply put_words_at; [lia|cbn [length]; lia|]; repeat constructor; lia).
  assert (∀ a, 0x7E00 <= a <= 0x7E08 → kld32 0x8000 m2 a = Some (ld32 m2 a)) as Hr.
  { intros a Ha. apply (kld32_kmapped 0x8000 boot_writes m2 Hk2); [lia|]. unfold boot_writes, within. lia. }
  destruct (Hj m2 (core_at 0x7E00 0x08 0x10 0x10)) as (c1 & c2 & E1 & _ & E2 & Hu & Hd).
  - eapply changes_only_mono; [|exact Hc]. intros x Hx. cbn beta. unfold boot_used. rewrite example_free.
    assert (x / 4096 = 7) as -> by (clear - Hx; unfold within in Hx; word_lia). cbn. by rewrite !orb_true_r.
  - split; [reflexivity|]. cbn [core_at x_reg x_cr3]. rewrite !u32_small by lia. rewrite !Hr by lia.
    split; f_equal; [exact (Hw 1%nat _ eq_refl)|exact (Hw 2%nat _ eq_refl)].
  - destruct (Hd 0%nat 0xF4 eq_refl) as (pa & Hpa & Hbyte). rewrite (us_eip _ _ Hu), (us_cr3 _ _ Hu) in Hpa.
    exists m, k', sp, dir, (core_at 0x7E00 0x08 0x10 0x10), m2, c1, c2, pa.
    split; [exact E|]. split; [exact E1|]. split; [exact E2|]. split; [exact Hu|]. split; [exact Hpa|exact Hbyte].
Defined.
