(* ===== verification/Startup.v ===== *)
(** * The start-up assembly

    loader.s, gdt.s, gdt_flush.s, paging.s and idt.s, and tss_load of tss.c, as
    lists of instructions.  Cpu.v has the processor as it is afterwards; here it
    has what these routines set up: the control registers, the table registers,
    and the descriptor each segment register holds since it was loaded.  The
    descriptors are read from memory, through the table lgdt was given, and
    addresses go through the segment, the translation buffer and the page tables,
    or are physical while paging is off.  A refused selector, an offset beyond
    its segment and a page fault are [None]. *)

From stdpp Require Import prelude gmap strings.
From Stdlib Require Import ZArith Lia.
From S2P Require Import Prelude Ports Memory Kutil FrameAlloc Pfa Paging Mkfs Fs Process ProcessCreate Fb Pic Serial Tables Kernel Kheap Kmain Cpu.

(** ** The processor *)

(** [y_core] has the general registers, the selectors and cr3; [y_tlb] the
    translations the processor remembers, page by page. *)
Record system := mkSys {
  y_core : core;
  y_cr0 : Z; y_cr4 : Z;
  y_gdtr : table_ptr; y_idtr : table_ptr;
  y_code : segment; y_stack : segment; y_data : sreg → segment;
  y_tr : Z; y_task : option segment;
  y_tlb : gmap Z Z
}.

Definition with_core (c : core) (y : system) : system :=
  mkSys c (y_cr0 y) (y_cr4 y) (y_gdtr y) (y_idtr y) (y_code y) (y_stack y) (y_data y) (y_tr y) (y_task y) (y_tlb y).
Definition with_cr0 (v : Z) (y : system) : system :=
  mkSys (y_core y) v (y_cr4 y) (y_gdtr y) (y_idtr y) (y_code y) (y_stack y) (y_data y) (y_tr y) (y_task y) (y_tlb y).
Definition with_cr4 (v : Z) (y : system) : system :=
  mkSys (y_core y) (y_cr0 y) v (y_gdtr y) (y_idtr y) (y_code y) (y_stack y) (y_data y) (y_tr y) (y_task y) (y_tlb y).
Definition with_gdtr (p : table_ptr) (y : system) : system :=
  mkSys (y_core y) (y_cr0 y) (y_cr4 y) p (y_idtr y) (y_code y) (y_stack y) (y_data y) (y_tr y) (y_task y) (y_tlb y).
Definition with_idtr (p : table_ptr) (y : system) : system :=
  mkSys (y_core y) (y_cr0 y) (y_cr4 y) (y_gdtr y) p (y_code y) (y_stack y) (y_data y) (y_tr y) (y_task y) (y_tlb y).
Definition with_code (d : segment) (y : system) : system :=
  mkSys (y_core y) (y_cr0 y) (y_cr4 y) (y_gdtr y) (y_idtr y) d (y_stack y) (y_data y) (y_tr y) (y_task y) (y_tlb y).
Definition with_stack (d : segment) (y : system) : system :=
  mkSys (y_core y) (y_cr0 y) (y_cr4 y) (y_gdtr y) (y_idtr y) (y_code y) d (y_data y) (y_tr y) (y_task y) (y_tlb y).
Definition with_data (g : sreg) (d : segment) (y : system) : system :=
  mkSys (y_core y) (y_cr0 y) (y_cr4 y) (y_gdtr y) (y_idtr y) (y_code y) (y_stack y)
    (λ g', if sreg_eqb g' g then d else y_data y g') (y_tr y) (y_task y) (y_tlb y).
Definition with_task (sel : Z) (d : segment) (y : system) : system :=
  mkSys (y_core y) (y_cr0 y) (y_cr4 y) (y_gdtr y) (y_idtr y) (y_code y) (y_stack y) (y_data y) sel (Some d) (y_tlb y).
Definition with_tlb (t : gmap Z Z) (y : system) : system :=
  mkSys (y_core y) (y_cr0 y) (y_cr4 y) (y_gdtr y) (y_idtr y) (y_code y) (y_stack y) (y_data y) (y_tr y) (y_task y) t.

Definition PE : Z := 0.
Definition PG : Z := 31.
Definition PSE : Z := 4.

(** *** Addresses *)

(** The offset [off] of [n] bytes in a segment: below its size, or above it
    when the segment expands down. *)
Definition seg_bounds (d : segment) : Z * (Z * Z) :=
  match d with
  | Data b n _ _ true => (b, (n, 4294967296))
  | Code b n _ _ _ | Data b n _ _ false | Tss32 b n _ => (b, (0, n))
  end.
Definition linear (d : segment) (off n : Z) : option Z :=
  let '(base, (lo, hi)) := seg_bounds d in
  if (lo <=? off) && (off + n <=? hi) then Some (base +ᵤ off) else None.

(** Without PSE every entry of the directory names a table. *)
Definition walk_4k (m : mem) (cr3 va : Z) : option Z :=
  let va := u32 va in
  let pde := ld32 m (pde_addr cr3 va) in
  if negb (pg_present pde) then None else
  let pte := ld32 m (pte_addr pde va) in
  if negb (pg_present pte) then None else Some (Z.lor (Z.land pte 0xFFFFF000) (Z.land va 0xFFF)).

Definition tables (y : system) (m : mem) (la : Z) : option Z :=
  if Z.testbit (y_cr4 y) PSE then walk m (x_cr3 (y_core y)) la else walk_4k m (x_cr3 (y_core y)) la.

Definition translate (y : system) (m : mem) (la : Z) : option Z :=
  if negb (Z.testbit (y_cr0 y) PG) then Some (u32 la) else
  match y_tlb y !! (u32 la / 4096) with
  | Some page => Some (page * 4096 + u32 la mod 4096)
  | None => tables y m la
  end.

Definition rd8 (y : system) (m : mem) (la : Z) : option Z := pa ← translate y m la; Some (ld8 m pa).
Definition wr8 (y : system) (m : mem) (la v : Z) : option mem := pa ← translate y m la; Some (st8 m pa v).

Fixpoint rd_bytes (y : system) (m : mem) (la : Z) (n : nat) : option (list Z) :=
  match n with
  | O => Some []
  | S n => b ← rd8 y m la; bs ← rd_bytes y m (la + 1) n; Some (b :: bs)
  end.
Fixpoint wr_bytes (y : system) (m : mem) (la : Z) (bs : list Z) : option mem :=
  match bs with
  | [] => Some m
  | b :: bs => m ← wr8 y m la b; wr_bytes y m (la + 1) bs
  end.

Definition le_word (bs : list Z) : Z := word_of (nth 0 bs 0) (nth 1 bs 0) (nth 2 bs 0) (nth 3 bs 0).
Definition rd32 (y : system) (m : mem) (la : Z) : option Z := bs ← rd_bytes y m la 4; Some (le_word bs).
Definition wr32 (y : system) (m : mem) (la v : Z) : option mem := wr_bytes y m la (le_bytes v).

(** *** Instructions *)

Inductive sinstr :=
  | MovI (r : reg) (v : Z)
  | MovAX (v : Z)
  | Or (r : reg) (v : Z)
  | Add (r : reg) (v : Z)
  | Push (r : reg)
  | PushI (v : Z)
  | Arg (r : reg) (off : Z)
  | Call (ret target : Z)
  | Ret
  | Jmp (target : Z)
  | Lgdt (r : reg)
  | Lidt (r : reg)
  | MovSeg (g : sreg)
  | MovSS
  | JmpFar (sel target : Z)
  | Ltr
  | MovCR3 (r : reg)
  | RdCR4 (r : reg)
  | WrCR4 (r : reg)
  | RdCR0 (r : reg)
  | WrCR0 (r : reg)
  | Invlpg (r : reg).

Definition ring (y : system) : Z := cpl (y_core y).
Definition getr (y : system) (r : reg) : Z := x_reg (y_core y) r.
Definition setr (r : reg) (v : Z) (y : system) : system := with_core (set_reg r v (y_core y)) y.
Definition ax (y : system) : Z := getr y EAX mod 65536.

Definition sys_push (v : Z) (s : system * mem) : option (system * mem) :=
  let '(y, m) := s in
  let sp := getr y ESP -ᵤ 4 in
  la ← linear (y_stack y) sp 4;
  m ← wr32 y m la v;
  Some (setr ESP sp y, m).
Definition sys_pop (s : system * mem) : option (Z * (system * mem)) :=
  let '(y, m) := s in
  la ← linear (y_stack y) (getr y ESP) 4;
  v ← rd32 y m la;
  Some (v, (setr ESP (getr y ESP +ᵤ 4) y, m)).

(** The operand of lgdt and lidt: a limit of 16 bits and a base of 32. *)
Definition table_operand (r : reg) (s : system * mem) : option table_ptr :=
  let '(y, m) := s in
  la ← linear (y_data y DS) (getr y r) 6;
  bs ← rd_bytes y m la 6;
  Some (mkPtr (nth 0 bs 0 + 256 * nth 1 bs 0) (le_word (drop 2 bs))).

(** The descriptor a selector names, with its address; there is no local
    table. *)
Definition descriptor (y : system) (m : mem) (sel : Z) : option (Z * list Z) :=
  if (sel / 8 =? 0) || Z.testbit sel 2 || (ptr_limit (y_gdtr y) <? sel / 8 * 8 + 7) then None
  else let la := ptr_base (y_gdtr y) +ᵤ sel / 8 * 8 in bs ← rd_bytes y m la 8; Some (la, bs).

(** The processor marks a segment it loads as accessed, and a task it loads as
    busy, in the table. *)
Definition mark (bit : Z) (y : system) (m : mem) (la : Z) (bs : list Z) : option mem :=
  wr8 y m (la +ᵤ 5) (Z.lor (nth 5 bs 0) bit).

Definition load_data (g : sreg) (s : system * mem) : option (system * mem) :=
  let '(y, m) := s in
  '(la, bs) ← descriptor y m (ax y);
  match seg_decode bs with
  | Some (Data base size dpl writable down) =>
      if (ring y <=? dpl) && (ax y mod 4 <=? dpl) then
        m ← mark 1 y m la bs;
        Some (with_data g (Data base size dpl writable down)
               (with_core (set_segs (λ g', if sreg_eqb g' g then ax y else x_seg (y_core y) g') (y_core y)) y), m)
      else None
  | _ => None
  end.

(** The stack's segment is writable and has exactly the current privilege. *)
Definition load_stack (s : system * mem) : option (system * mem) :=
  let '(y, m) := s in
  '(la, bs) ← descriptor y m (ax y);
  match seg_decode bs with
  | Some (Data base size dpl writable down) =>
      if writable && (dpl =? ring y) && (ax y mod 4 =? ring y) then
        m ← mark 1 y m la bs;
        Some (with_stack (Data base size dpl writable down) (with_core (set_code (x_cs (y_core y)) (ax y) (y_core y)) y), m)
      else None
  | _ => None
  end.

(** A far jump keeps the privilege: to a segment of the same level, or to a
    conforming one of the same level or an inner one. *)
Definition jump_far (sel target : Z) (s : system * mem) : option (system * mem) :=
  let '(y, m) := s in
  '(la, bs) ← descriptor y m sel;
  match seg_decode bs with
  | Some (Code base size dpl readable conforming) =>
      if (if conforming then dpl <=? ring y else (dpl =? ring y) && (sel mod 4 <=? ring y)) && (target <? size) then
        m ← mark 1 y m la bs;
        Some (with_code (Code base size dpl readable conforming)
               (with_core (set_eip target (set_code (sel - sel mod 4 + ring y) (x_ss (y_core y)) (y_core y))) y), m)
      else None
  | _ => None
  end.

Definition load_task (s : system * mem) : option (system * mem) :=
  let '(y, m) := s in
  '(la, bs) ← descriptor y m (ax y);
  match seg_decode bs with
  | Some (Tss32 base size dpl) => m ← mark 2 y m la bs; Some (with_task (ax y) (Tss32 base size dpl) y, m)
  | _ => None
  end.

(** These are for ring 0 only. *)
Definition privileged (i : sinstr) : bool :=
  match i with
  | Lgdt _ | Lidt _ | Ltr | MovCR3 _ | RdCR4 _ | WrCR4 _ | RdCR0 _ | WrCR0 _ | Invlpg _ => true
  | _ => false
  end.

(** Writing cr3 empties the translation buffer, and so do the writes of cr0 and
    cr4 that change how the tables are read. *)
Definition flush_if (b : bool) (y : system) : system := if b then with_tlb ∅ y else y.
Definition flips (bit old new : Z) : bool := negb (Bool.eqb (Z.testbit old bit) (Z.testbit new bit)).

Definition sys_exec (i : sinstr) (s : system * mem) : option (system * mem) :=
  let '(y, m) := s in
  if privileged i && negb (ring y =? 0) then None else
  match i with
  | MovI r v => Some (setr r v y, m)
  | MovAX v => Some (setr EAX (getr y EAX / 65536 * 65536 + v) y, m)
  | Or r v => Some (setr r (Z.lor (getr y r) v) y, m)
  | Add r v => Some (setr r (getr y r +ᵤ v) y, m)
  | Push r => sys_push (getr y r) s
  | PushI v => sys_push v s
  | Arg r off => la ← linear (y_stack y) (getr y ESP +ᵤ off) 4; v ← rd32 y m la; Some (setr r v y, m)
  | Call ret target => '(y, m) ← sys_push ret s; Some (with_core (set_eip target (y_core y)) y, m)
  | Ret => '(v, (y, m)) ← sys_pop s; Some (with_core (set_eip v (y_core y)) y, m)
  | Jmp target => Some (with_core (set_eip target (y_core y)) y, m)
  | Lgdt r => p ← table_operand r s; Some (with_gdtr p y, m)
  | Lidt r => p ← table_operand r s; Some (with_idtr p y, m)
  | MovSeg g => load_data g s
  | MovSS => load_stack s
  | JmpFar sel target => jump_far sel target s
  | Ltr => load_task s
  | MovCR3 r => Some (with_tlb ∅ (with_core (set_cr3 (getr y r) (y_core y)) y), m)
  | RdCR4 r => Some (setr r (y_cr4 y) y, m)
  | WrCR4 r => Some (flush_if (flips PSE (y_cr4 y) (getr y r)) (with_cr4 (getr y r) y), m)
  | RdCR0 r => Some (setr r (y_cr0 y) y, m)
  | WrCR0 r =>
      if Z.testbit (getr y r) PG && negb (Z.testbit (getr y r) PE) then None
      else Some (flush_if (flips PG (y_cr0 y) (getr y r)) (with_cr0 (getr y r) y), m)
  | Invlpg r =>
      la ← linear (y_data y DS) (getr y r) 1;
      Some (with_tlb (delete (la / 4096) (y_tlb y)) y, m)
  end.

Fixpoint sys_run (prog : list sinstr) (s : system * mem) : option (system * mem) :=
  match prog with
  | [] => Some s
  | i :: prog => s ← sys_exec i s; sys_run prog s
  end.

(** ** The routines *)

(** loader.s: the three words of the Multiboot header, and the entry. *)
Definition MAGIC_NUMBER : Z := 0x1BADB002.
Definition FLAGS : Z := 0x3.
Definition CHECKSUM : Z := u32 (- (MAGIC_NUMBER + FLAGS)).
Definition multiboot_header : list Z := [MAGIC_NUMBER; FLAGS; CHECKSUM].

Definition loader_code (kernel_stack kernel_physical_start kernel_physical_end loop kmain : Z) : list sinstr :=
  [MovI ESP (kernel_stack + 4096); PushI kernel_physical_end; PushI kernel_physical_start; Push EBX; Push EAX; Call loop kmain].
Definition loader_loop (loop : Z) : list sinstr := [Jmp loop].

(** gdt.s, and gdt_flush.s with another order of the registers. *)
Definition gdt_load_code (flush_cs : Z) : list sinstr :=
  [Arg EAX 4; Lgdt EAX; MovAX 0x10; MovSeg DS; MovSS; MovSeg ES; MovSeg FS; MovSeg GS; JmpFar 0x08 flush_cs; Ret].
Definition gdt_flush_code (reload_cs : Z) : list sinstr :=
  [Arg EAX 4; Lgdt EAX; MovAX 0x10; MovSeg DS; MovSeg ES; MovSeg FS; MovSeg GS; MovSS; JmpFar 0x08 reload_cs; Ret].

(** tss_load of tss.c. *)
Definition tss_load_code : list sinstr := [MovAX 0x28; Ltr].

(** paging.s: the directory, and the two routines. *)
Definition page_directory : list Z := (λ i, Z.lor (Z.shiftl i 22) 0x00000083) <$> seqZ 0 1024.
Definition paging_enable_identity_code (page_directory : Z) : list sinstr :=
  [MovI EAX page_directory; MovCR3 EAX; RdCR4 EAX; Or EAX 0x00000010; WrCR4 EAX; RdCR0 EAX; Or EAX 0x80000000; WrCR0 EAX; Ret].
Definition paging_invalidate_code : list sinstr := [Arg EAX 4; Invlpg EAX; Ret].

(** idt.s *)
Definition load_idt_code : list sinstr := [Arg EAX 4; Lidt EAX; Ret].

(** The header is one a Multiboot loader accepts: its words add up to 0. *)
Lemma header_sum : u32 (foldr Z.add 0 multiboot_header) = 0.
Proof. reflexivity. Qed.

(** If kmain returned, nothing would happen any more. *)
Lemma loader_loops loop y m n : x_eip (y_core y) = loop → sys_run (concat (replicate n (loader_loop loop))) (y, m) = Some (y, m).
Proof. intros <-. induction n as [|n IH]; [done|]. cbn. destruct y as [[? ? ? ? ? ? ?] ? ? ? ? ? ? ? ? ? ?]. exact IH. Qed.

(** ** Accesses *)

(** On [K] addresses are physical ones, whatever is written there. *)
Definition ymapped (y : system) (K : Z → Prop) (m : mem) : Prop :=
  ∀ m', changes_only K m m' → ∀ a, is_u32 a → K a → translate y m' a = Some a.

(** The segments GRUB and gdt_init provide. *)
Abbreviation GiB4 := 4294967296.
Record flat_sys (y : system) : Prop := {
  fy_code : y_code y = Code 0 GiB4 0 true false;
  fy_stack : y_stack y = Data 0 GiB4 0 true false;
  fy_data : ∀ g, y_data y g = Data 0 GiB4 0 true false
}.

Definition mem_bytes (m : mem) (a : Z) (n : nat) : list Z := (λ i, ld8 m (a + Z.of_nat i)) <$> seq 0 n.

Lemma mem_bytes_S m a n : mem_bytes m a (S n) = ld8 m a :: mem_bytes m (a + 1) n.
Proof.
  unfold mem_bytes. cbn [seq fmap list_fmap]. f_equal; [f_equal; lia|]. rewrite <- fmap_S_seq, <- list_fmap_compose.
  apply list_fmap_ext. intros i x _. cbn. f_equal. lia.
Qed.

Lemma ymapped_changes y K m m' : ymapped y K m → changes_only K m m' → ymapped y K m'.
Proof. intros Hy Hc m2 H2. apply Hy. by eapply changes_only_trans. Qed.

Lemma ymapped_mono y (K K' : Z → Prop) m : (∀ a, K' a → K a) → ymapped y K m → ymapped y K' m.
Proof. intros HK Hy m' Hc a Ha Ha'. apply Hy; [|exact Ha|by apply HK]. by eapply changes_only_mono. Qed.

(** Before paging is on every address is physical; after it, as the tables
    say. *)
Lemma ymapped_off y K m : Z.testbit (y_cr0 y) PG = false → ymapped y K m.
Proof. intros Hp m' _ a Ha _. unfold translate. rewrite Hp. cbn [negb]. by rewrite u32_small. Qed.

Lemma ymapped_on y K m : Z.testbit (y_cr4 y) PSE = true → y_tlb y = ∅ → kmapped (x_cr3 (y_core y)) K m → ymapped y K m.
Proof.
  intros Hs Ht Hk m' Hc a Ha HK. unfold translate, tables. rewrite Ht, lookup_empty, Hs. destruct (negb _).
  - by rewrite u32_small.
  - by apply Hk.
Qed.

(** A linear address in a flat segment. *)
Lemma linear_flat k d off n : d = Data 0 GiB4 k true false → 0 <= off → 0 < n → off + n <= GiB4 → linear d off n = Some off.
Proof.
  intros -> H0 Hn Hl. unfold linear. cbn [seg_bounds]. rewrite (proj2 (Z.leb_le 0 off)), (proj2 (Z.leb_le (off + n) _)) by assumption. cbn [andb]. f_equal.
  rewrite Z.add_0_l. apply u32_small. lia.
Qed.

Section accesses.
Context (y : system) (K : Z → Prop).

Lemma rd8_mapped m a : ymapped y K m → is_u32 a → K a → rd8 y m a = Some (ld8 m a).
Proof. intros Hy Ha HK. unfold rd8. by rewrite (Hy m (changes_only_refl _ _) a Ha HK). Qed.

Lemma rd_bytes_mapped m a n : ymapped y K m → 0 <= a → a + Z.of_nat n <= GiB4 → (∀ x, within a (Z.of_nat n) x → K x) →
  rd_bytes y m a n = Some (mem_bytes m a n).
Proof.
  revert a. induction n as [|n IH]; intros a Hy Ha Hl HK; [done|]. unfold within in HK. cbn [rd_bytes].
  rewrite rd8_mapped, bind_Some by (exact Hy || lia || apply HK; lia). rewrite IH, bind_Some, <- mem_bytes_S; [done|exact Hy|lia|lia|].
  intros x Hx. apply HK. unfold within in Hx. lia.
Qed.

Lemma rd32_mapped m a : ymapped y K m → 0 <= a <= 4294967292 → (∀ x, within a 4 x → K x) → rd32 y m a = Some (ld32 m a).
Proof.
  intros Hy Ha HK. unfold rd32. rewrite rd_bytes_mapped, bind_Some; [|exact Hy|lia|lia|exact HK]. cbn. unfold ld32, le_word. cbn.
  by rewrite Z.add_0_r.
Qed.

Lemma wr8_mapped m a v : ymapped y K m → is_u32 a → K a → wr8 y m a v = Some (st8 m a v).
Proof. intros Hy Ha HK. unfold wr8. by rewrite (Hy m (changes_only_refl _ _) a Ha HK). Qed.

Lemma st8_u8 m a v : st8 m a (v mod 256) = st8 m a v.
Proof. unfold st8. f_equal. apply (u8_small (u8 v)), u8_range. Qed.

Lemma wr32_mapped m a v : ymapped y K m → 0 <= a <= 4294967292 → (∀ x, within a 4 x → K x) → wr32 y m a v = Some (st32 m a v).
Proof.
  unfold within. intros Hy Ha HK. unfold wr32, le_bytes, st32. cbn [wr_bytes].
  replace (a + 1 + 1 + 1) with (a + 3) by lia. replace (a + 1 + 1) with (a + 2) by lia.
  rewrite wr8_mapped, bind_Some, st8_u8 by (exact Hy || lia || apply HK; lia).
  assert (∀ m' b w, ymapped y K m' → a <= b < a + 4 → ymapped y K (st8 m' b w)) as Hst.
  { intros m' b w Hm' Hb. eapply ymapped_changes; [exact Hm'|]. apply changes_only_st8; [lia|by apply HK]. }
  rewrite wr8_mapped, bind_Some, st8_u8 by (lia || (apply HK; lia) || (repeat apply Hst; first [exact Hy|lia])).
  rewrite wr8_mapped, bind_Some, st8_u8 by (lia || (apply HK; lia) || (repeat apply Hst; first [exact Hy|lia])).
  by rewrite wr8_mapped, bind_Some, st8_u8 by (lia || (apply HK; lia) || (repeat apply Hst; first [exact Hy|lia])).
Qed.
End accesses.

(** ** Calls *)

(** A routine about to run in ring 0 with [ws] on the stack: its return address
    and its arguments. *)
Record called (y : system) (K : Z → Prop) (m : mem) (sp : Z) (ws : list Z) : Prop := {
  ca_flat : flat_sys y;
  ca_ring : ring y = 0;
  ca_map : ymapped y K m;
  ca_esp : getr y ESP = sp;
  ca_range : 0 <= sp ∧ sp + 4 * Z.of_nat (length ws) <= GiB4;
  ca_words : words_at m sp ws;
  ca_in : ∀ x, within sp (4 * Z.of_nat (length ws)) x → K x
}.

Section calls.
Context (K : Z → Prop).

Lemma sys_run_app p q s : sys_run (p ++ q) s = sys_run p s ≫= sys_run q.
Proof. revert s. induction p as [|i p IH]; intros s; [done|]. cbn. destruct (sys_exec i s); cbn; [apply IH|done]. Qed.

Lemma getr_setr r v y : getr (setr r v y) r = v.
Proof. unfold getr. cbn. by rewrite reg_eqb_refl. Qed.

Lemma arg_spec y m sp ret p ws r : called y K m sp (ret :: p :: ws) → sys_exec (Arg r 4) (y, m) = Some (setr r p y, m).
Proof.
  intros [Hf _ Hy He [H0 Hl] Hw HK]. cbn [length] in *. cbn [sys_exec privileged andb]. rewrite He, (u32_small (sp + 4)) by lia.
  rewrite (linear_flat 0 _ _ _ (fy_stack _ Hf)), bind_Some by lia. rewrite (rd32_mapped y K m), bind_Some; [|exact Hy|lia|].
  - pose proof (Hw 1%nat p eq_refl) as E. change (4 * Z.of_nat 1) with 4 in E. by rewrite E.
  - intros x Hx. apply HK. unfold within in *. lia.
Qed.

Lemma ret_spec y m sp w ws : called y K m sp (w :: ws) →
  sys_exec Ret (y, m) = Some (with_core (set_eip w (set_reg ESP (u32 (sp + 4)) (y_core y))) y, m).
Proof.
  intros [Hf _ Hy He [H0 Hl] Hw HK]. cbn [length] in *. cbn [sys_exec privileged andb]. unfold sys_pop. rewrite He.
  rewrite (linear_flat 0 _ _ _ (fy_stack _ Hf)), bind_Some by lia. rewrite (rd32_mapped y K m), bind_Some; [|exact Hy|lia|].
  - pose proof (Hw O w eq_refl) as E. rewrite Z.add_0_r in E. by rewrite E.
  - intros x Hx. apply HK. unfold within in *. lia.
Qed.

(** A push below the words pushed before. *)
Lemma push_spec y m a v ws : flat_sys y → ymapped y K (put_words m (a + 4) ws) → getr y ESP = a + 4 →
  0 <= a → a + 4 < GiB4 → (∀ x, within a 4 x → K x) →
  sys_push v (y, put_words m (a + 4) ws) = Some (setr ESP a y, put_words m a (v :: ws)).
Proof.
  intros Hf Hy He H0 Hl HK. unfold sys_push. rewrite He. replace (a + 4 -ᵤ 4) with a by word_lia.
  rewrite (linear_flat 0 _ _ _ (fy_stack _ Hf)), bind_Some by lia. by rewrite (wr32_mapped y K), bind_Some by (exact Hy || lia || exact HK).
Qed.
End calls.

(** Get the state of the next push into the form of [push_spec]. *)
Ltac push_word :=
  rewrite ?bind_Some; cbn [sys_exec privileged andb];
  match goal with |- context [put_words ?m ?b ?ws] =>
    replace (put_words m b ws) with (put_words m (b - 4 + 4) ws) by (f_equal; lia) end.

(** ** loader.s *)

(** What the Multiboot specification says of the machine at the kernel's entry:
    protected mode without paging, ring 0, flat segments of 4 GiB. *)
Record multiboot_entry (y : system) : Prop := {
  me_pe : Z.testbit (y_cr0 y) PE = true;
  me_pg : Z.testbit (y_cr0 y) PG = false;
  me_ring : ring y = 0;
  me_flat : flat_sys y
}.

(** The stack as kmain finds it: its return address and its parameters. *)
Definition kmain_frame (y : system) (kstart kend loop : Z) : list Z := [loop; getr y EAX; getr y EBX; kstart; kend].

Lemma loader_spec y m kernel_stack kstart kend loop kmain : multiboot_entry y →
  0 <= kernel_stack → kernel_stack + 4096 < GiB4 →
  ∃ y', sys_run (loader_code kernel_stack kstart kend loop kmain) (y, m) =
      Some (y', put_words m (kernel_stack + 4076) (kmain_frame y kstart kend loop)) ∧
    multiboot_entry y' ∧ x_eip (y_core y') = kmain ∧ getr y' ESP = kernel_stack + 4076 ∧
    ∀ r, r ≠ ESP → getr y' r = getr y r.
Proof.
  intros [H1 H2 H3 H4] H0 Hl. set (top := kernel_stack + 4096) in *. assert (4096 <= top) as Ht by (unfold top; lia).
  assert (∀ y' m', y_cr0 y' = y_cr0 y → ymapped y' (λ _, True) m') as Hmap.
  { intros y' m' E. apply ymapped_off. by rewrite E. }
  assert (∀ r v y', flat_sys y' → flat_sys (setr r v y')) as Hflat by (intros r v y' [F1 F2 F3]; by split).
  assert (∀ y' a v ws, flat_sys y' → y_cr0 y' = y_cr0 y → getr y' ESP = a + 4 → 0 <= a → a + 4 < GiB4 →
    sys_push v (y', put_words m (a + 4) ws) = Some (setr ESP a y', put_words m a (v :: ws))) as Hpush.
  { intros y' a v ws Hf E He Ha Hb. apply (push_spec (λ _, True)); try done. by apply Hmap. }
  unfold loader_code. cbn [sys_run]. cbn [sys_exec privileged andb]. rewrite bind_Some. fold top.
  change m with (put_words m top []) at 1.
  do 5 (push_word; rewrite Hpush by (done || (by repeat apply Hflat) || (rewrite ?getr_setr; lia))).
  rewrite !bind_Some.
  replace (top - 4 - 4 - 4 - 4 - 4) with (kernel_stack + 4076) by (unfold top; lia). eexists. split; [reflexivity|].
  split; [destruct H4; by repeat split|]. split; [reflexivity|]. split; [reflexivity|]. intros r Hr. unfold getr. cbn. by rewrite !(reg_eqb_ne r ESP).
Qed.

(** ** paging.s *)

Lemma page_directory_lookup i : 0 <= i < 1024 → page_directory !! Z.to_nat i = Some (i * 4194304 + 131).
Proof.
  intros Hi. unfold page_directory. rewrite list_lookup_fmap, lookup_seqZ_lt by lia. cbn [fmap option_fmap option_map].
  rewrite Z.add_0_l, Z2Nat.id, Z.shiftl_mul_pow2 by lia. f_equal. by apply (lor_low 22).
Qed.

(** The table of paging.s is the identity. *)
Lemma directory_space m pd : page_addr pd → words_at m pd page_directory → space_at m pd identity_space.
Proof.
  intros Hp Hw. split; [exact Hp| |done|done]. intros i Hi. change (pde_word i _) with (i * 4194304 + 131).
  rewrite <- (Hw _ _ (page_directory_lookup i Hi)), Z2Nat.id by lia. done.
Qed.

Lemma directory_walk m pd la : page_addr pd → words_at m pd page_directory → is_u32 la → walk m pd la = Some la.
Proof. intros Hp Hw Hla. by rewrite (proj1 (walk_space m pd _ (directory_space m pd Hp Hw) la Hla)). Qed.

(** The registers and the segments that a routine leaves alone. *)
Record same_segments (y y' : system) : Prop := {
  sg_desc : y_code y' = y_code y ∧ y_stack y' = y_stack y ∧ y_data y' = y_data y;
  sg_sel : x_cs (y_core y') = x_cs (y_core y) ∧ x_ss (y_core y') = x_ss (y_core y) ∧ x_seg (y_core y') = x_seg (y_core y);
  sg_tables : y_gdtr y' = y_gdtr y ∧ y_tr y' = y_tr y ∧ y_task y' = y_task y
}.
Definition same_regs (y y' : system) : Prop := ∀ r, r ≠ EAX → r ≠ ESP → getr y' r = getr y r.

Record returns (y y' : system) (ret sp : Z) : Prop := {
  re_eip : x_eip (y_core y') = ret;
  re_esp : getr y' ESP = u32 (sp + 4);
  re_regs : same_regs y y';
  re_flags : x_eflags (y_core y') = x_eflags (y_core y)
}.

(** Paging is on, with pages of 4 MiB and nothing cached. *)
Record paging_on (y : system) (pd : Z) : Prop := {
  po_cr3 : x_cr3 (y_core y) = pd;
  po_pg : Z.testbit (y_cr0 y) PG = true;
  po_pse : Z.testbit (y_cr4 y) PSE = true;
  po_tlb : y_tlb y = ∅
}.

Lemma called_ext y y' K m sp ws : called y K m sp ws → flat_sys y' → ring y' = 0 → ymapped y' K m → getr y' ESP = getr y ESP →
  called y' K m sp ws.
Proof. intros [_ _ _ He Hr Hw HK] Hf Hri Hy E. split; try done. congruence. Qed.

Lemma flush_id b y : y_tlb y = ∅ → flush_if b y = y.
Proof. destruct y, b; cbn; intros ->; done. Qed.

(** One instruction in ring 0, where [y] is a state with the same privilege. *)
Local Ltac ring0 y Hr :=
  cbn [sys_exec privileged andb];
  try (match goal with |- context [negb (ring ?z =? 0)] => change (ring z) with (ring y) end; rewrite Hr; cbn [negb Z.eqb]);
  rewrite ?bind_Some.

Lemma paging_enable_spec y K m sp ret ws pd : called y K m sp (ret :: ws) → Z.testbit (y_cr0 y) PE = true →
  page_addr pd → words_at m pd page_directory → (∀ x, K x → ¬ within pd 4096 x) →
  ∃ y', sys_run (paging_enable_identity_code pd) (y, m) = Some (y', m) ∧ paging_on y' pd ∧ returns y y' ret sp ∧
    same_segments y y' ∧ y_idtr y' = y_idtr y.
Proof.
  intros Hca Hpe Hpd Hw HK. destruct (Hca) as [Hf Hr _ _ _ _ _]. unfold paging_enable_identity_code. cbn [sys_run].
  do 5 ring0 y Hr. rewrite flush_id by done. do 3 ring0 y Hr.
  match goal with |- context [getr (setr EAX ?v ?z) EAX] => set (y1 := setr EAX v z) end.
  assert (getr y1 EAX = Z.lor (y_cr0 y) 0x80000000) as E1 by reflexivity.
  assert (Z.testbit (getr y1 EAX) PE = true) as E2 by (rewrite E1, Z.lor_spec, Hpe; done).
  rewrite E2, andb_false_r, bind_Some, flush_id by done. set (y2 := with_cr0 (getr y1 EAX) y1).
  assert (Z.testbit (y_cr0 y2) PG = true) as Hpg by (change (y_cr0 y2) with (getr y1 EAX); rewrite E1, Z.lor_spec; apply orb_true_r).
  assert (Z.testbit (y_cr4 y2) PSE = true) as Hpse.
  { change (y_cr4 y2) with (Z.lor (y_cr4 y) 0x10). rewrite Z.lor_spec. apply orb_true_r. }
  assert (called y2 K m sp (ret :: ws)) as Hc2.
  { eapply called_ext; [exact Hca|by destruct Hf|exact Hr| |reflexivity]. apply ymapped_on; [exact Hpse|reflexivity|].
    apply identity_kmapped; [by apply directory_space|exact HK]. }
  rewrite (ret_spec K y2 m sp ret ws Hc2), bind_Some. eexists. split; [reflexivity|]. split; [by split|].
  split; [|by repeat split]. split; [reflexivity|reflexivity| |reflexivity].
  intros r Ha He. unfold getr. cbn. by rewrite !(reg_eqb_ne r ESP), !(reg_eqb_ne r EAX).
Qed.

(** *** The translation buffer *)

(** The processor may at any time remember a translation it finds in the
    tables. *)
Definition remembers (y : system) (m : mem) (y' : system) : Prop :=
  ∃ la pa, is_u32 la ∧ tables y m la = Some pa ∧ y' = with_tlb (<[la / 4096 := pa / 4096]> (y_tlb y)) y.

(** Remembering makes no difference where the kernel is mapped: no stale entry
    can arise from what it writes there. *)
Lemma remembers_mapped y K m m' y' : kmapped (x_cr3 (y_core y)) K m → changes_only K m m' →
  (∀ x, K x → ∀ z, is_u32 z → z / 4096 = x / 4096 → K z) → Z.testbit (y_cr4 y) PSE = true →
  ymapped y K m → remembers y m' y' → ymapped y' K m.
Proof.
  intros Hk Hc HK Hpse Hy (la & pa & Hla & Ht & ->) m2 H2 a Ha HKa. pose proof (Hy m2 H2 a Ha HKa) as E. unfold translate in *.
  cbn [with_tlb y_cr0 y_tlb y_cr4] in *. destruct (negb (Z.testbit (y_cr0 y) PG)); [exact E|]. rewrite (u32_small a) in * by exact Ha.
  destruct (decide (la / 4096 = a / 4096)) as [Heq|Hne]; [|by rewrite lookup_insert_ne by exact Hne].
  rewrite Heq, lookup_insert_eq. unfold tables in Ht. rewrite Hpse, (Hk m' Hc la Hla) in Ht by (by apply (HK a)).
  injection Ht as <-. rewrite Heq. f_equal. word_lia.
Qed.

Lemma forget_mapped y K m p : kmapped (x_cr3 (y_core y)) K m → Z.testbit (y_cr4 y) PSE = true → ymapped y K m →
  ymapped (with_tlb (delete p (y_tlb y)) y) K m.
Proof.
  intros Hk Hpse Hy m2 H2 a Ha HKa. pose proof (Hy m2 H2 a Ha HKa) as E. unfold translate in *. cbn [with_tlb y_cr0 y_tlb] in *.
  destruct (negb (Z.testbit (y_cr0 y) PG)); [exact E|]. rewrite (u32_small a) in * by exact Ha.
  destruct (decide (p = a / 4096)) as [->|Hne]; [|by rewrite lookup_delete_ne by exact Hne].
  rewrite lookup_delete_eq. unfold tables. cbn [with_tlb y_cr4]. rewrite Hpse. by apply Hk.
Qed.

(** After paging_invalidate the tables decide about the page, not what was
    remembered of them. *)
Lemma paging_invalidate_spec y K m sp ret va ws : called y K m sp (ret :: va :: ws) → is_u32 va →
  kmapped (x_cr3 (y_core y)) K m → Z.testbit (y_cr4 y) PSE = true → Z.testbit (y_cr0 y) PG = true →
  ∃ y', sys_run paging_invalidate_code (y, m) = Some (y', m) ∧ returns y y' ret sp ∧ same_segments y y' ∧
    (∀ m' z, is_u32 z → z / 4096 = va / 4096 → translate y' m' z = tables y' m' z) ∧
    ∀ m' z, is_u32 z → z / 4096 ≠ va / 4096 → translate y' m' z = translate y m' z.
Proof.
  intros Hca Hva Hk Hpse Hpg. destruct (Hca) as [Hf Hr Hy _ _ _ _]. unfold paging_invalidate_code. cbn [sys_run].
  rewrite (arg_spec K y m sp ret va ws EAX Hca), bind_Some. ring0 y Hr. rewrite getr_setr.
  rewrite (linear_flat 0 _ _ _ (fy_data _ Hf DS)), !bind_Some by lia. set (y1 := with_tlb _ _).
  assert (called y1 K m sp (ret :: va :: ws)) as Hc1.
  { eapply called_ext; [exact Hca|by destruct Hf|exact Hr| |reflexivity]. by apply (forget_mapped y). }
  rewrite (ret_spec K y1 m sp ret _ Hc1), bind_Some. eexists. split; [reflexivity|]. split.
  { split; [reflexivity|reflexivity| |reflexivity]. intros r Ha He. unfold getr. cbn. by rewrite !(reg_eqb_ne r ESP), !(reg_eqb_ne r EAX). }
  split; [by repeat split|]. split; intros m' z Hz Hp; unfold translate; cbn [with_core with_tlb y_cr0 y_tlb y1 setr];
    rewrite Hpg, (u32_small z) by exact Hz; cbn [negb].
  - by rewrite Hp, lookup_delete_eq.
  - by rewrite lookup_delete_ne by done.
Qed.

(** ** The descriptor table in memory *)

Definition set_access (a : Z) (e : gdt_entry) : gdt_entry :=
  mkGdt (limit_low e) (base_low e) (base_middle e) a (granularity e) (base_high e).

(** The table [gdt] is at [base], but for the processor's marks. *)
Definition marked (e : gdt_entry) (a : Z) : Prop :=
  a = access e ∨ (a = Z.lor (access e) 1 ∧ Z.testbit (access e) 4 = true).
Definition gdt_at (m : mem) (base : Z) (gdt : list gdt_entry) : Prop :=
  ∀ i e, gdt !! i = Some e → ∃ a, marked e a ∧ mem_bytes m (base + 8 * Z.of_nat i) 8 = gdt_bytes (set_access a e).

Lemma seg_decode_marked e a : marked e a → seg_decode (gdt_bytes (set_access a e)) = seg_decode (gdt_bytes e).
Proof.
  intros [->|[-> H4]]; [by destruct e|].
  assert (∀ i, i ≠ 0 → Z.testbit (Z.lor (access e) 1) i = Z.testbit (access e) i) as Hb.
  { intros i Hi. rewrite Z.lor_spec. change 1 with (2 ^ 0). rewrite Z.pow2_bits_false by lia. apply orb_false_r. }
  unfold seg_decode. change (nth 5 (gdt_bytes (set_access ?a e)) 0) with a. change (nth 5 (gdt_bytes e) 0) with (access e).
  rewrite !Hb, H4 by lia. change (nth 6 (gdt_bytes (set_access ?a e)) 0) with (granularity e). change (nth 6 (gdt_bytes e) 0) with (granularity e).
  assert (Z.lor (access e) 1 / 32 = access e / 32) as ->.
  { change 32 with (2 ^ 5). rewrite <- !Z.shiftr_div_pow2, Z.shiftr_lor by lia. apply Z.lor_0_r. }
  reflexivity.
Qed.

Lemma mem_bytes_ext m m' a n : 0 <= a → a + Z.of_nat n <= GiB4 → (∀ x, within a (Z.of_nat n) x → ld8 m' x = ld8 m x) →
  mem_bytes m' a n = mem_bytes m a n.
Proof.
  intros Ha Hl H. apply list_fmap_ext. intros i x Hi. apply lookup_seq in Hi as [-> Hi]. apply H. unfold within. lia.
Qed.

Lemma gdt_at_ext m m' base gdt : 0 <= base → base + 8 * Z.of_nat (length gdt) <= GiB4 → gdt_at m base gdt →
  (∀ x, within base (8 * Z.of_nat (length gdt)) x → ld8 m' x = ld8 m x) → gdt_at m' base gdt.
Proof.
  intros Hb Hl Hat H i e Hi. pose proof (lookup_lt_Some _ _ _ Hi). destruct (Hat i e Hi) as (a & Ha & E). exists a. split; [exact Ha|].
  rewrite <- E. apply mem_bytes_ext; [lia|lia|]. intros x Hx. apply H. unfold within in *. lia.
Qed.

(** Writing the access byte of an entry. *)
Lemma entry_set m b e a a' : 0 <= b → b + 8 <= GiB4 → is_u8 a → mem_bytes m b 8 = gdt_bytes (set_access a' e) →
  mem_bytes (st8 m (b + 5) a) b 8 = gdt_bytes (set_access a e).
Proof.
  intros Hb0 Hb8 Ha E. unfold mem_bytes in *. cbn [seq fmap list_fmap] in *. rewrite !ld8_st8 by lia. repeat (case_decide; try lia).
  unfold gdt_bytes, le16, set_access in *. cbn [app limit_low base_low base_middle access granularity base_high] in *.
  injection E as E0 E1 E2 E3 E4 E5 E6 E7. rewrite E0, E1, E2, E3, E4, E6, E7. by rewrite (u8_small a) by exact Ha.
Qed.

Lemma gdt_at_update m base gdt i e e' a : 0 <= base → base + 8 * Z.of_nat (length gdt) <= GiB4 → gdt_at m base gdt →
  gdt !! i = Some e → set_access a e' = set_access a e → marked e' a → is_u8 a →
  gdt_at (st8 m (base + 8 * Z.of_nat i + 5) a) base (<[i := e']> gdt).
Proof.
  intros Hb Hl Hat Hi He Hm Ha j ej Hj. pose proof (lookup_lt_Some _ _ _ Hi). pose proof (lookup_lt_Some _ _ _ Hj) as Hlt. rewrite length_insert in Hlt.
  destruct (decide (j = i)) as [->|Hne].
  - rewrite list_lookup_insert_eq in Hj by done. injection Hj as <-. destruct (Hat i e Hi) as (a' & Hm' & E).
    exists a. split; [exact Hm|]. rewrite He. by apply (entry_set m _ e a a'); [lia|lia| |].
  - rewrite list_lookup_insert_ne in Hj by done. destruct (Hat j ej Hj) as (a' & Hm' & E).
    exists a'. split; [exact Hm'|]. rewrite <- E. apply mem_bytes_ext; [lia|lia|]. intros x Hx. unfold within in Hx.
    rewrite ld8_st8 by lia. case_decide; [lia|done].
Qed.

(** What gdt_init writes, as the processor needs it. *)
Lemma gdt_init_entries tss_addr base gdt0 gdt gp : length gdt0 = 6%nat → gdt_init tss_addr base gdt0 = Some (gdt, gp) →
  gp = mkPtr 47 base ∧ length gdt = 6%nat ∧ ∃ e1 e2 e5, gdt !! 1%nat = Some e1 ∧ access e1 = 0x9A ∧ gdt !! 2%nat = Some e2 ∧
    access e2 = 0x92 ∧ gdt !! 5%nat = Some e5 ∧ access e5 = 0x89.
Proof.
  intros Hl. do 6 (destruct gdt0 as [|? gdt0]; [done|]). destruct gdt0; [|done]. intros E. unfold gdt_init, gdt_set_gate in E.
  cbn [lookup list_lookup mbind option_bind] in E. injection E as <- <-. split; [reflexivity|]. split; [reflexivity|].
  eexists _, _, _. by split_and!.
Qed.

(** The processor with a table in memory. *)
Record gdt_env (y : system) (K : Z → Prop) (m : mem) (gdt : list gdt_entry) (base : Z) : Prop := {
  ge_map : ymapped y K m;
  ge_ring : ring y = 0;
  ge_gdtr : y_gdtr y = mkPtr 47 base;
  ge_at : gdt_at m base gdt;
  ge_len : length gdt = 6%nat;
  ge_range : 0 <= base ∧ base + 48 <= GiB4;
  ge_in : ∀ x, within base 48 x → K x
}.

Section segments.
Context (K : Z → Prop) (gdt : list gdt_entry) (base : Z).

Lemma descriptor_spec y m sel i e : gdt_env y K m gdt base → gdt !! i = Some e → i ≠ O → sel / 8 = Z.of_nat i →
  Z.testbit sel 2 = false →
  ∃ a, marked e a ∧ descriptor y m sel = Some (base + 8 * Z.of_nat i, gdt_bytes (set_access a e)).
Proof.
  intros [Hy _ Hg Hat Hlen [H0 Hl] HK] Hi Hn Hs Ht. pose proof (lookup_lt_Some _ _ _ Hi) as Hlt. rewrite Hlen in Hlt.
  destruct (Hat i e Hi) as (a & Hm & E). exists a. split; [exact Hm|]. unfold descriptor. rewrite Hg, Hs, Ht. cbn [ptr_limit ptr_base].
  rewrite (proj2 (Z.eqb_neq _ 0)), (proj2 (Z.ltb_ge 47 _)) by lia. cbn [orb]. rewrite u32_small by lia.
  replace (base + Z.of_nat i * 8) with (base + 8 * Z.of_nat i) by lia.
  rewrite (rd_bytes_mapped y K), bind_Some, E; [done|exact Hy|lia|lia|]. intros x Hx. apply HK. unfold within in *. lia.
Qed.

Lemma mark_spec y m i e a bit : gdt_env y K m gdt base → gdt !! i = Some e → 0 <= bit →
  mark bit y m (base + 8 * Z.of_nat i) (gdt_bytes (set_access a e)) = Some (st8 m (base + 8 * Z.of_nat i + 5) (Z.lor a bit)) ∧
  changes_only (within base 48) m (st8 m (base + 8 * Z.of_nat i + 5) (Z.lor a bit)).
Proof.
  intros [Hy _ Hg Hat Hlen [H0 Hl] HK] Hi Hbit. pose proof (lookup_lt_Some _ _ _ Hi) as Hlt. rewrite Hlen in Hlt. unfold mark.
  change (nth 5 (gdt_bytes (set_access a e)) 0) with a. rewrite u32_small by lia. split.
  - rewrite (wr8_mapped y K); [done|exact Hy|lia|]. apply HK. unfold within. lia.
  - apply changes_only_st8; [lia|]. unfold within. lia.
Qed.

(** The environment after the mark of a segment that was loaded. *)
Lemma gdt_env_marked y m i e : gdt_env y K m gdt base → gdt !! i = Some e → Z.testbit (access e) 4 = true → is_u8 (access e) →
  gdt_env y K (st8 m (base + 8 * Z.of_nat i + 5) (Z.lor (access e) 1)) gdt base.
Proof.
  intros Hge Hi H4 Hu. destruct (mark_spec y m i e (access e) 1 Hge Hi ltac:(lia)) as [_ Hc].
  destruct Hge as [Hy Hr Hg Hat Hlen [H0 Hl] HK]. split; try done.
  - eapply ymapped_changes; [exact Hy|]. eapply changes_only_mono; [|exact Hc]. exact HK.
  - rewrite <- (list_insert_id gdt i e Hi) at 1. apply (gdt_at_update m base gdt i e); try done; [rewrite Hlen; lia|by right|].
    split; [apply Z.lor_nonneg; lia|]. destruct (Z.eq_dec (Z.lor (access e) 1) 0) as [->|Hz]; [lia|].
    apply (Z.log2_lt_pow2 _ 8); [pose proof (proj2 (Z.lor_nonneg (access e) 1)); lia|].
    rewrite Z.log2_lor by lia. apply Z.max_lub_lt; [|done]. destruct (Z.eq_dec (access e) 0) as [->|]; [done|].
    apply Z.log2_lt_pow2; lia.
Qed.
End segments.

(** *** Loading the kernel's segments *)

Definition data_set (g : sreg) (y : system) : system :=
  with_data g (Data 0 GiB4 0 true false) (with_core (set_segs (λ g', if sreg_eqb g' g then 0x10 else x_seg (y_core y) g') (y_core y)) y).
Definition stack_set (y : system) : system :=
  with_stack (Data 0 GiB4 0 true false) (with_core (set_code (x_cs (y_core y)) 0x10 (y_core y)) y).
Definition code_set (target : Z) (y : system) : system :=
  with_code (Code 0 GiB4 0 true false) (with_core (set_eip target (set_code 0x08 (x_ss (y_core y)) (y_core y))) y).

(** The table of gdt_init: its entries 1, 2 and 5. *)
Record kernel_gdt (gdt : list gdt_entry) (tss_addr : Z) (e1 e2 e5 : gdt_entry) : Prop := {
  kg_code : gdt !! 1%nat = Some e1 ∧ access e1 = 0x9A ∧ seg_decode (gdt_bytes e1) = Some (Code 0 GiB4 0 true false);
  kg_data : gdt !! 2%nat = Some e2 ∧ access e2 = 0x92 ∧ seg_decode (gdt_bytes e2) = Some (Data 0 GiB4 0 true false);
  kg_task : gdt !! 5%nat = Some e5 ∧ access e5 = 0x89 ∧ seg_decode (gdt_bytes e5) = Some (Tss32 tss_addr 104 0)
}.

Lemma gdt_init_kernel tss_addr base gdt0 gdt gp : length gdt0 = 6%nat → is_u32 tss_addr → gdt_init tss_addr base gdt0 = Some (gdt, gp) →
  gp = mkPtr 47 base ∧ length gdt = 6%nat ∧ ∃ e1 e2 e5, kernel_gdt gdt tss_addr e1 e2 e5.
Proof.
  intros Hl Ht E. destruct (gdt_init_entries _ _ _ _ _ Hl E) as (Hgp & Hlen & e1 & e2 & e5 & H1 & A1 & H2 & A2 & H5 & A5).
  destruct (gdt_init_spec tss_addr base gdt0 Hl Ht) as (gdt' & gp' & E' & L1 & L2 & _ & _ & L5 & _). rewrite E in E'.
  injection E' as <- <-. subst gp. split; [reflexivity|]. split; [exact Hlen|]. exists e1, e2, e5.
  change ((e ← gdt !! 1%nat; seg_decode (gdt_bytes e)) = Some (Code 0 GiB4 0 true false)) in L1.
  change ((e ← gdt !! 2%nat; seg_decode (gdt_bytes e)) = Some (Data 0 GiB4 0 true false)) in L2.
  change ((e ← gdt !! 5%nat; seg_decode (gdt_bytes e)) = Some (Tss32 tss_addr 104 0)) in L5.
  rewrite H1 in L1. rewrite H2 in L2. rewrite H5 in L5. by split.
Qed.

Lemma mark_value a v : a = v ∨ (a = Z.lor v 1 ∧ Z.testbit v 4 = true) → Z.lor a 1 = Z.lor v 1.
Proof. intros [->|[-> _]]; [done|]. by rewrite <- Z.lor_assoc. Qed.

Section kernel_segments.
Context (K : Z → Prop) (gdt : list gdt_entry) (base tss_addr : Z) (e1 e2 e5 : gdt_entry).
Context (Hkg : kernel_gdt gdt tss_addr e1 e2 e5).

(** The descriptor of a selector of ring 0, and its mark. *)
Lemma load_segment y m i e v : gdt_env y K m gdt base → gdt !! i = Some e → i ≠ O → access e = v → is_u8 v → Z.testbit v 4 = true →
  let m' := st8 m (base + 8 * Z.of_nat i + 5) (Z.lor v 1) in
  ∃ a, marked e a ∧ descriptor y m (8 * Z.of_nat i) = Some (base + 8 * Z.of_nat i, gdt_bytes (set_access a e)) ∧
    mark 1 y m (base + 8 * Z.of_nat i) (gdt_bytes (set_access a e)) = Some m' ∧ gdt_env y K m' gdt base.
Proof.
  intros Hge Hi Hn Hv Hu H4 m'. destruct (descriptor_spec K gdt base y m (8 * Z.of_nat i) i e Hge Hi Hn) as (a & Hm & E).
  { rewrite Z.mul_comm. by apply Z.div_mul. }
  { change 8 with (2 ^ 3). rewrite Z.mul_comm. by apply Z.mul_pow2_bits_low. }
  exists a. split; [exact Hm|]. split; [exact E|]. destruct (mark_spec K gdt base y m i e a 1 Hge Hi ltac:(lia)) as [Em _].
  split; [rewrite Em, (mark_value a _ Hm), Hv; done|]. unfold m'. rewrite <- Hv. apply gdt_env_marked; try done; by rewrite Hv.
Qed.

Lemma step_data y m g : gdt_env y K m gdt base → ax y = 0x10 →
  sys_exec (MovSeg g) (y, m) = Some (data_set g y, st8 m (base + 16 + 5) 0x93) ∧ gdt_env (data_set g y) K (st8 m (base + 16 + 5) 0x93) gdt base.
Proof.
  intros Hge Hax. destruct (kg_data _ _ _ _ _ Hkg) as (H2 & A2 & D2). pose proof (ge_ring _ _ _ _ _ Hge) as Hr.
  destruct (load_segment y m 2 e2 0x92 Hge H2) as (a & Hm & E & Em & [G1 G2 G3 G4 G5 G6 G7]); [done|done|lia|reflexivity|].
  split; [|by split]. cbn [sys_exec privileged andb]. unfold load_data. change (8 * Z.of_nat 2) with 16 in *.
  rewrite Hax, E, bind_Some, (seg_decode_marked e2 a Hm), D2, Hr. change ((0 <=? 0) && (16 mod 4 <=? 0)) with true. cbv iota.
  by rewrite Em, bind_Some.
Qed.

Lemma step_stack y m : gdt_env y K m gdt base → ax y = 0x10 →
  sys_exec MovSS (y, m) = Some (stack_set y, st8 m (base + 16 + 5) 0x93) ∧ gdt_env (stack_set y) K (st8 m (base + 16 + 5) 0x93) gdt base.
Proof.
  intros Hge Hax. destruct (kg_data _ _ _ _ _ Hkg) as (H2 & A2 & D2). pose proof (ge_ring _ _ _ _ _ Hge) as Hr.
  destruct (load_segment y m 2 e2 0x92 Hge H2) as (a & Hm & E & Em & [G1 G2 G3 G4 G5 G6 G7]); [done|done|lia|reflexivity|].
  split; [|by split]. cbn [sys_exec privileged andb]. unfold load_stack. change (8 * Z.of_nat 2) with 16 in *.
  rewrite Hax, E, bind_Some, (seg_decode_marked e2 a Hm), D2, Hr.
  change (16 mod 4 =? 0) with true. cbn [andb Z.eqb]. by rewrite Em, bind_Some.
Qed.

Lemma step_far y m target : gdt_env y K m gdt base → is_u32 target →
  sys_exec (JmpFar 0x08 target) (y, m) = Some (code_set target y, st8 m (base + 8 + 5) 0x9B) ∧
  gdt_env (code_set target y) K (st8 m (base + 8 + 5) 0x9B) gdt base.
Proof.
  intros Hge Ht. destruct (kg_code _ _ _ _ _ Hkg) as (H1 & A1 & D1). pose proof (ge_ring _ _ _ _ _ Hge) as Hr.
  destruct (load_segment y m 1 e1 0x9A Hge H1) as (a & Hm & E & Em & [G1 G2 G3 G4 G5 G6 G7]); [done|done|lia|reflexivity|].
  split; [|by split]. cbn [sys_exec privileged andb]. unfold jump_far. change (8 * Z.of_nat 1) with 8 in *.
  rewrite E, bind_Some, (seg_decode_marked e1 a Hm), D1, Hr.
  rewrite (proj2 (Z.ltb_lt target _)) by lia. change (8 mod 4) with 0. cbn [Z.eqb Z.leb Z.compare andb]. by rewrite Em, bind_Some.
Qed.

(** The task register; its descriptor is marked busy. *)
Definition busy_gdt : list gdt_entry := <[5%nat := set_access 0x8B e5]> gdt.

Lemma step_task y m : gdt_env y K m gdt base → ax y = 0x28 →
  let m' := st8 m (base + 40 + 5) 0x8B in
  sys_exec Ltr (y, m) = Some (with_task 0x28 (Tss32 tss_addr 104 0) y, m') ∧
  gdt_env (with_task 0x28 (Tss32 tss_addr 104 0) y) K m' busy_gdt base.
Proof.
  intros Hge Hax m'. destruct (kg_task _ _ _ _ _ Hkg) as (H5 & A5 & D5). pose proof (ge_ring _ _ _ _ _ Hge) as Hr.
  destruct (descriptor_spec K gdt base y m 0x28 5 e5 Hge H5) as (a & Hm & E); [done|reflexivity|reflexivity|].
  destruct (mark_spec K gdt base y m 5 e5 a 2 Hge H5 ltac:(lia)) as [Em Hc].
  assert (a = 0x89) as -> by (destruct Hm as [->|[_ Hb]]; [exact A5|by rewrite A5 in Hb]).
  change (8 * Z.of_nat 5) with 40 in *. change (Z.lor 0x89 2) with 0x8B in *. fold m' in Em, Hc. split.
  - cbn [sys_exec privileged andb]. rewrite Hr. cbn [negb Z.eqb]. unfold load_task. by rewrite Hax, E, bind_Some, (seg_decode_marked e5 _ Hm), D5, Em, bind_Some.
  - destruct Hge as [G1 G2 G3 G4 G5 G6 G7]. split; try done.
    + eapply ymapped_changes; [exact G1|]. eapply changes_only_mono; [|exact Hc]. exact G7.
    + unfold busy_gdt. replace m' with (st8 m (base + 8 * Z.of_nat 5 + 5) 0x8B) by (unfold m'; f_equal; lia).
      apply (gdt_at_update m base gdt 5 e5); try done; [lia|rewrite G5; lia|by left].
    + unfold busy_gdt. by rewrite length_insert.
Qed.
End kernel_segments.

(** *** gdt.s *)

(** The processor finds in memory what [seg_lookup] says. *)
Definition reads_as (y : system) (m : mem) (gdt : list gdt_entry) : Prop :=
  ∀ sel, 0 <= sel < 65536 → Z.testbit sel 2 = false →
    ('(_, bs) ← descriptor y m sel; seg_decode bs) = seg_lookup gdt (y_gdtr y) sel.

Lemma gdt_env_reads y K m gdt base : gdt_env y K m gdt base → reads_as y m gdt.
Proof.
  intros Hge sel Hs Ht. destruct (Hge) as [_ _ Hg _ Hlen _ _]. unfold seg_lookup. rewrite Hg. cbn [ptr_limit].
  destruct ((sel / 8 =? 0) || (47 <? sel / 8 * 8 + 7)) eqn:Hb.
  - unfold descriptor. rewrite Ht, Hg. cbn [ptr_limit]. rewrite orb_false_r, Hb. done.
  - apply orb_false_iff in Hb as [H0 H1]. apply Z.eqb_neq in H0. apply Z.ltb_ge in H1. pose proof (Z.div_pos sel 8 ltac:(lia) ltac:(lia)).
    destruct (lookup_lt_is_Some_2 gdt (Z.to_nat (sel / 8))) as [e He]; [lia|].
    destruct (descriptor_spec K gdt base y m sel _ e Hge He) as (a & Hm & ->); [lia|lia|exact Ht|].
    rewrite He, !bind_Some. by apply seg_decode_marked.
Qed.

(** A pointer as lgdt and lidt take it. *)
Definition ptr_at (m : mem) (a : Z) (p : table_ptr) : Prop := mem_bytes m a 6 = le16 (ptr_limit p) ++ le32 (ptr_base p).

Lemma table_operand_spec y K m r a p : flat_sys y → ymapped y K m → getr y r = a → ptr_at m a p →
  0 <= ptr_limit p < 65536 → is_u32 (ptr_base p) → 0 <= a → a + 6 <= GiB4 → (∀ x, within a 6 x → K x) →
  table_operand r (y, m) = Some p.
Proof.
  intros Hf Hy Hr Hp Hl Hb Ha Ha6 HK. unfold table_operand. rewrite Hr, (linear_flat 0 _ _ _ (fy_data _ Hf DS)), bind_Some by lia.
  rewrite (rd_bytes_mapped y K), bind_Some; [|exact Hy|exact Ha|exact Ha6|exact HK]. rewrite Hp. destruct p as [l b]. cbn in *.
  f_equal. f_equal; [word_lia|]. unfold le_word, word_of. cbn. word_lia.
Qed.

(** The call gdt_load(&gp) after gdt_init. *)
Record gdt_call (y : system) (K : Z → Prop) (m : mem) (sp ret p : Z) (ws : list Z) (gdt : list gdt_entry) (base : Z) : Prop := {
  gc_called : called y K m sp (ret :: p :: ws);
  gc_ptr : ptr_at m p (mkPtr 47 base);
  gc_ptr_in : 0 <= p ∧ p + 6 <= GiB4 ∧ ∀ x, within p 6 x → K x;
  gc_at : gdt_at m base gdt;
  gc_len : length gdt = 6%nat;
  gc_base : 0 <= base ∧ base + 48 <= GiB4 ∧ ∀ x, within base 48 x → K x;
  gc_apart : ∀ x, within sp (8 + 4 * Z.of_nat (length ws)) x → ¬ within base 48 x
}.

(** Which bytes of the table the processor marks. *)
Definition marks (base x : Z) : Prop := x = base + 13 ∨ x = base + 21.

Record segments_loaded (y : system) : Prop := {
  sl_cs : x_cs (y_core y) = 0x08;
  sl_ss : x_ss (y_core y) = 0x10;
  sl_seg : ∀ g, x_seg (y_core y) g = 0x10;
  sl_flat : flat_sys y
}.

(** The general registers and the instruction pointer do not matter to the
    segments, the tables and the translation. *)
Lemma after_ret y ret sp : let y' := with_core (set_eip ret (set_reg ESP sp (y_core y))) y in
  (∀ K m gdt base, gdt_env y K m gdt base → gdt_env y' K m gdt base) ∧ (flat_sys y → flat_sys y') ∧ ring y' = ring y ∧
  (∀ K m, ymapped y K m → ymapped y' K m).
Proof.
  cbv zeta. split; [intros K m gdt base []; by split|]. split; [intros []; by split|]. by split.
Qed.

Lemma called_after_ret y K m sp w w' ws : called y K m sp (w :: w' :: ws) →
  called (with_core (set_eip w (set_reg ESP (u32 (sp + 4)) (y_core y))) y) K m (sp + 4) (w' :: ws).
Proof.
  intros [C1 C2 C3 C4 [C5 C6] C7 C8]. cbn [length] in *. destruct (after_ret y w (u32 (sp + 4))) as (_ & A1 & A2 & A3).
  split; [by apply A1|by rewrite A2|by apply A3| | | |].
  - change (u32 (sp + 4) = sp + 4). apply u32_small. lia.
  - cbn [length]. lia.
  - intros i v Hi. rewrite <- (C7 (S i) v Hi). f_equal. lia.
  - intros x Hx. apply C8. unfold within in *. cbn [length] in Hx. lia.
Qed.

Section gdt_load.
Context (K : Z → Prop) (gdt : list gdt_entry) (base tss_addr : Z) (e1 e2 e5 : gdt_entry).
Context (Hkg : kernel_gdt gdt tss_addr e1 e2 e5).

(** The state after the reload of all the registers. *)
Definition reloaded (target : Z) (y : system) : system :=
  code_set target (data_set GS (data_set FS (data_set ES (data_set DS (stack_set y))))).
Definition marked_mem (m : mem) : mem :=
  let d m := st8 m (base + 16 + 5) 0x93 in st8 (d (d (d (d (d m))))) (base + 8 + 5) 0x9B.

Lemma ax_low y v : 0 <= v < 65536 → ax (setr EAX (getr y EAX / 65536 * 65536 + v) y) = v.
Proof. intros Hv. unfold ax. rewrite getr_setr, Z.add_comm, Z_mod_plus_full. by apply Z.mod_small. Qed.

(** The reload, in both orders. *)
Lemma reload_spec y m target : gdt_env y K m gdt base → ax y = 0x10 → is_u32 target →
  sys_run [MovSeg DS; MovSS; MovSeg ES; MovSeg FS; MovSeg GS; JmpFar 0x08 target] (y, m) = Some (reloaded target y, marked_mem m) ∧
  sys_run [MovSeg DS; MovSeg ES; MovSeg FS; MovSeg GS; MovSS; JmpFar 0x08 target] (y, m) = Some (reloaded target y, marked_mem m) ∧
  gdt_env (reloaded target y) K (marked_mem m) gdt base.
Proof.
  intros Hge Hax Ht. cbn [sys_run]. pose proof (step_data K gdt base tss_addr e1 e2 e5 Hkg) as SD.
  pose proof (step_stack K gdt base tss_addr e1 e2 e5 Hkg) as SS. pose proof (step_far K gdt base tss_addr e1 e2 e5 Hkg) as SF.
  destruct (SD y m DS Hge Hax) as [-> G1]. rewrite !bind_Some. split; [|split].
  - destruct (SS _ _ G1 Hax) as [-> G2]. rewrite bind_Some. destruct (SD _ _ ES G2 Hax) as [-> G3]. rewrite bind_Some.
    destruct (SD _ _ FS G3 Hax) as [-> G4]. rewrite bind_Some. destruct (SD _ _ GS G4 Hax) as [-> G5]. rewrite bind_Some.
    by destruct (SF _ _ target G5 Ht) as [-> _].
  - destruct (SD _ _ ES G1 Hax) as [-> G2]. rewrite bind_Some. destruct (SD _ _ FS G2 Hax) as [-> G3]. rewrite bind_Some.
    destruct (SD _ _ GS G3 Hax) as [-> G4]. rewrite bind_Some. destruct (SS _ _ G4 Hax) as [-> G5]. rewrite bind_Some.
    by destruct (SF _ _ target G5 Ht) as [-> _].
  - destruct (SS _ _ Hge Hax) as [_ G2]. destruct (SD _ _ DS G2 Hax) as [_ G3]. destruct (SD _ _ ES G3 Hax) as [_ G4].
    destruct (SD _ _ FS G4 Hax) as [_ G5]. destruct (SD _ _ GS G5 Hax) as [_ G6]. by destruct (SF _ _ target G6 Ht) as [_ G7].
Qed.

Lemma marked_mem_changes m : 0 <= base → base + 48 <= GiB4 → changes_only (marks base) m (marked_mem m).
Proof.
  intros H0 Hl x Hx Hn. unfold marks in Hn. unfold marked_mem. rewrite !ld8_st8 by lia. by repeat (case_decide; [lia|]).
Qed.

Lemma gdt_load_spec y m sp ret p ws target : gdt_call y K m sp ret p ws gdt base → is_u32 target →
  ∃ y', sys_run (gdt_load_code target) (y, m) = Some (y', marked_mem m) ∧
    sys_run (gdt_flush_code target) (y, m) = Some (y', marked_mem m) ∧
    returns y y' ret sp ∧ segments_loaded y' ∧ gdt_env y' K (marked_mem m) gdt base ∧ called y' K (marked_mem m) (sp + 4) (p :: ws) ∧
    y_cr0 y' = y_cr0 y ∧ y_idtr y' = y_idtr y.
Proof.
  intros [Hca Hptr (Hp0 & Hp6 & HpK) Hat Hlen (Hb0 & Hb48 & HbK) Hap] Ht. pose proof (ca_ring _ _ _ _ _ Hca) as Hr. pose proof (ca_flat _ _ _ _ _ Hca) as Hf.
  set (y1 := with_gdtr (mkPtr 47 base) (setr EAX p y)). set (y2 := setr EAX (getr y1 EAX / 65536 * 65536 + 0x10) y1).
  assert (sys_run [Arg EAX 4; Lgdt EAX; MovAX 0x10] (y, m) = Some (y2, m)) as E1.
  { cbn [sys_run]. rewrite (arg_spec K y m sp ret p ws EAX Hca), !bind_Some. ring0 y Hr.
    rewrite (table_operand_spec _ K m EAX p (mkPtr 47 base)), !bind_Some;
      [done|by destruct Hf|apply Hca|reflexivity|exact Hptr|cbn [ptr_limit]; lia|cbn [ptr_base]; lia|exact Hp0|exact Hp6|exact HpK]. }
  assert (ax y2 = 0x10) as Hax by (apply ax_low; lia).
  assert (gdt_env y2 K m gdt base) as Hge by (split; try done; apply Hca).
  destruct (reload_spec y2 m target Hge Hax Ht) as (R1 & R2 & G). set (y3 := reloaded target y2) in *.
  assert (called y3 K (marked_mem m) sp (ret :: p :: ws)) as Hc3.
  { destruct Hca as [_ _ Hy He Hrg Hw HK]. split; try done; [by split; [..|intros []]|apply G|].
    eapply words_changes; [exact Hw|by apply marked_mem_changes|lia|apply Hrg|]. intros x Hx Hm. cbn [length] in Hx.
    apply (Hap x); unfold marks, within in *; lia. }
  exists (with_core (set_eip ret (set_reg ESP (u32 (sp + 4)) (y_core y3))) y3).
  assert (sys_run [Ret] (y3, marked_mem m) = Some (with_core (set_eip ret (set_reg ESP (u32 (sp + 4)) (y_core y3))) y3, marked_mem m)) as E3.
  { clearbody y3. cbn [sys_run]. rewrite (ret_spec K y3 _ sp ret _ Hc3), bind_Some. reflexivity. }
  split; [|split].
  { change (gdt_load_code target) with ([Arg EAX 4; Lgdt EAX; MovAX 0x10] ++ [MovSeg DS; MovSS; MovSeg ES; MovSeg FS; MovSeg GS; JmpFar 0x08 target] ++ [Ret]).
    rewrite sys_run_app, E1, bind_Some, sys_run_app, R1, bind_Some. exact E3. }
  { change (gdt_flush_code target) with ([Arg EAX 4; Lgdt EAX; MovAX 0x10] ++ [MovSeg DS; MovSeg ES; MovSeg FS; MovSeg GS; MovSS; JmpFar 0x08 target] ++ [Ret]).
    rewrite sys_run_app, E1, bind_Some, sys_run_app, R2, bind_Some. exact E3. }
  split; [|split; [|split; [|split; [|split; reflexivity]]]].
  - split; [reflexivity|reflexivity| |reflexivity]. intros r Ha He. unfold getr. cbn. by rewrite !(reg_eqb_ne r ESP), !(reg_eqb_ne r EAX).
  - split; [reflexivity|reflexivity|by intros []|]. split; [reflexivity|reflexivity|by intros []].
  - by apply after_ret.
  - by apply called_after_ret.
Qed.
End gdt_load.

(** ** idt.s and tss.c *)

Lemma load_idt_spec y K m sp ret p ptr ws : called y K m sp (ret :: p :: ws) → ptr_at m p ptr → 0 <= ptr_limit ptr < 65536 →
  is_u32 (ptr_base ptr) → 0 <= p → p + 6 <= GiB4 → (∀ x, within p 6 x → K x) →
  ∃ y', sys_run load_idt_code (y, m) = Some (y', m) ∧ y_idtr y' = ptr ∧ returns y y' ret sp ∧ same_segments y y'.
Proof.
  intros Hca Hptr Hl Hb Hp0 Hp6 HpK. pose proof (ca_ring _ _ _ _ _ Hca) as Hr. pose proof (ca_flat _ _ _ _ _ Hca) as Hf.
  unfold load_idt_code. cbn [sys_run]. rewrite (arg_spec K y m sp ret p ws EAX Hca), !bind_Some. ring0 y Hr.
  rewrite (table_operand_spec _ K m EAX p ptr), !bind_Some; [|by destruct Hf|apply Hca|reflexivity|done..].
  set (y1 := with_idtr ptr (setr EAX p y)).
  assert (called y1 K m sp (ret :: p :: ws)) as Hc1 by (eapply called_ext; [exact Hca|by destruct Hf|exact Hr|apply Hca|reflexivity]).
  rewrite (ret_spec K y1 m sp ret _ Hc1), bind_Some. eexists. split; [reflexivity|]. split; [reflexivity|]. split; [|by repeat split].
  split; [reflexivity|reflexivity| |reflexivity]. intros r Ha He. unfold getr. cbn. by rewrite !(reg_eqb_ne r ESP), !(reg_eqb_ne r EAX).
Qed.

(** ** From GRUB to paging *)

(** What the linker and the compiler fix: the kernel's bounds, the addresses of
    the code and of [gp], and the size of kmain's frame. *)
Record linked := mkLinked {
  k_start : Z; k_end : Z;
  k_loop : Z; k_kmain : Z;
  k_gp : Z;
  k_gdt_load : Z; k_flush_cs : Z; k_ret_gdt : Z;
  k_paging : Z; k_ret_paging : Z;
  k_frame : Z
}.

Section bringup.
Context (L : klayout) (X : linked).

(** loader.s and then the beginning of kmain: tss_init, gdt_init with its call
    of gdt_load, tss_load; and paging_enable_identity. *)
Definition init_segments (tss0 : tss_entry) (gdt0 : list gdt_entry) (s : system * mem) : option (system * mem) :=
  s ← sys_run (loader_code (l_kernel_stack L) (k_start X) (k_end X) (k_loop X) (k_kmain X)) s;
  '(y, m) ← sys_run [Add ESP (- k_frame X)] s;
  let tss := tss_init (l_kernel_stack L +ᵤ 4096) 0x10 tss0 in
  m ← wr_bytes y m (l_tss L) (tss_bytes tss);
  '(gdt, gp) ← gdt_init (l_tss L) (l_gdt L) gdt0;
  m ← wr_bytes y m (k_gp X) (le16 (ptr_limit gp) ++ le32 (ptr_base gp));
  m ← wr_bytes y m (l_gdt L) (gdt ≫= gdt_bytes);
  s ← sys_run ([PushI (k_gp X); Call (k_ret_gdt X) (k_gdt_load X)] ++ gdt_load_code (k_flush_cs X) ++ [Add ESP 4]) (y, m);
  sys_run tss_load_code s.

Definition bringup (tss0 : tss_entry) (gdt0 : list gdt_entry) (s : system * mem) : option (system * mem) :=
  s ← init_segments tss0 gdt0 s;
  sys_run (Call (k_ret_paging X) (k_paging X) :: paging_enable_identity_code (l_cr3 L)) s.
End bringup.

(** *** Bytes stored *)

Lemma mem_bytes_app m a n k : mem_bytes m a (n + k) = mem_bytes m a n ++ mem_bytes m (a + Z.of_nat n) k.
Proof.
  revert a. induction n as [|n IH]; intros a; [by rewrite Z.add_0_r|]. cbn [Nat.add]. rewrite !mem_bytes_S, IH. cbn [app].
  do 3 f_equal. lia.
Qed.

Lemma mem_bytes_length m a n : length (mem_bytes m a n) = n.
Proof. unfold mem_bytes. by rewrite length_fmap, length_seq. Qed.

Lemma gdt_bytes_length e : length (gdt_bytes e) = 8%nat.
Proof. done. Qed.

Lemma gdt_at_bytes m base gdt : mem_bytes m base (8 * length gdt) = gdt ≫= gdt_bytes → gdt_at m base gdt.
Proof.
  revert base. induction gdt as [|e gdt IH]; intros base E i e' Hi; [done|]. cbn [length] in E.
  replace (8 * S (length gdt))%nat with (8 + 8 * length gdt)%nat in E by lia. rewrite mem_bytes_app in E. cbn [mbind list_bind] in E.
  apply app_inj_1 in E as [E1 E2]; [|by rewrite mem_bytes_length]. destruct i as [|i].
  - injection Hi as <-. exists (access e). split; [by left|]. rewrite Z.add_0_r, E1. by destruct e.
  - destruct (IH (base + 8) E2 i e' Hi) as (a & Ha & E). exists a. split; [exact Ha|]. rewrite <- E. f_equal. lia.
Qed.

Lemma wr_bytes_spec y K m a bs : ymapped y K m → Forall (λ b, is_u8 b) bs → 0 <= a → a + Z.of_nat (length bs) <= GiB4 →
  (∀ x, within a (Z.of_nat (length bs)) x → K x) →
  ∃ m', wr_bytes y m a bs = Some m' ∧ changes_only (within a (Z.of_nat (length bs))) m m' ∧ mem_bytes m' a (length bs) = bs.
Proof.
  revert m a. induction bs as [|b bs IH]; intros m a Hy HF Ha Hl HK; [by exists m|]. apply Forall_cons in HF as [Hb HF].
  cbn [length] in *. unfold within in HK. cbn [wr_bytes]. rewrite (wr8_mapped y K), bind_Some by (exact Hy || lia || apply HK; lia).
  assert (changes_only (within a 1) m (st8 m a b)) as H1 by (apply changes_only_st8; [lia|unfold within; lia]).
  destruct (IH (st8 m a b) (a + 1)) as (m' & E & Hc & Hm); [|exact HF|lia|lia|unfold within; intros x Hx; apply HK; lia|].
  { eapply ymapped_changes; [exact Hy|]. eapply changes_only_mono; [|exact H1]. intros x Hx. unfold within in Hx. apply HK. lia. }
  exists m'. split; [exact E|]. split.
  - eapply changes_only_trans; (eapply changes_only_mono; [|first [exact H1|exact Hc]]); unfold within; lia.
  - rewrite mem_bytes_S, Hm. f_equal. rewrite Hc by (unfold within; lia). rewrite ld8_st8, decide_True by (lia || done). by apply u8_small.
Qed.

(** *** The layout *)

Definition apart (r s : Z * Z) : Prop := r.1 + r.2 <= s.1 ∨ s.1 + s.2 <= r.1.

(** The stack, the three variables and the page directory do not overlap. *)
Record layout_ok (L : klayout) (X : linked) : Prop := {
  ly_stack : 0 <= l_kernel_stack L ∧ l_kernel_stack L + 4096 < GiB4;
  ly_vars : 0 <= l_tss L ∧ l_tss L + 104 <= GiB4 ∧ 0 <= k_gp X ∧ k_gp X + 6 <= GiB4 ∧ 0 <= l_gdt L ∧ l_gdt L + 48 <= GiB4;
  ly_dir : page_addr (l_cr3 L);
  ly_flush : is_u32 (k_flush_cs X);
  ly_frame : 0 <= k_frame X <= 2048;
  ly_apart : ForallOrdPairs apart [(l_kernel_stack L, 4096); (l_tss L, 104); (k_gp X, 6); (l_gdt L, 48); (l_cr3 L, 4096)]
}.

(** What the start-up writes. *)
Definition boot_vars (L : klayout) (X : linked) (x : Z) : Prop :=
  within (l_kernel_stack L) 4096 x ∨ within (l_tss L) 104 x ∨ within (k_gp X) 6 x ∨ within (l_gdt L) 48 x.

Ltac apart_facts H :=
  repeat match type of H with
  | ForallOrdPairs _ (_ :: _) => let H1 := fresh in let H2 := fresh in inversion H as [|? ? H1 H2]; clear H; subst; rename H2 into H;
      repeat match type of H1 with
      | Forall _ (_ :: _) => let A := fresh "Ap" in let B := fresh in
          inversion H1 as [|? ? A B]; clear H1; subst; rename B into H1; unfold apart in A; cbn [fst snd] in A
      end
  end.

Section stages.
Context (L : klayout) (X : linked) (Hly : layout_ok L X).
Abbreviation ks := (l_kernel_stack L).
Abbreviation K := (λ x, ¬ within (l_cr3 L) 4096 x).
Abbreviation sp0 := (ks + 4076 - k_frame X).

(** Before paging nothing depends on the memory. *)
Lemma entry_mapped y m : multiboot_entry y → ymapped y K m.
Proof. intros H. apply ymapped_off, H. Qed.

Lemma setr_entry r v y : multiboot_entry y → multiboot_entry (setr r v y).
Proof. intros [H1 H2 H3 [F1 F2 F3]]. by repeat split. Qed.

(** Up to kmain, with its frame. *)
Lemma stage_loader y m : multiboot_entry y →
  ∃ y', (s ← sys_run (loader_code ks (k_start X) (k_end X) (k_loop X) (k_kmain X)) (y, m); sys_run [Add ESP (- k_frame X)] s) =
      Some (y', put_words m (ks + 4076) (kmain_frame y (k_start X) (k_end X) (k_loop X))) ∧
    multiboot_entry y' ∧ getr y' ESP = sp0.
Proof.
  intros Hme. destruct (ly_stack _ _ Hly) as [H0 Hl]. pose proof (ly_frame _ _ Hly) as Hfr.
  destruct (loader_spec y m ks (k_start X) (k_end X) (k_loop X) (k_kmain X) Hme H0 Hl) as (y1 & -> & Hm1 & _ & He & _).
  rewrite bind_Some. cbn [sys_run]. cbn [sys_exec privileged andb]. rewrite bind_Some, He. eexists. split; [reflexivity|].
  split; [by apply setr_entry|]. rewrite getr_setr, u32_small; lia.
Qed.

(** The variables the C code stores. *)
Lemma stage_tables y m tss gdt gp : multiboot_entry y → Forall (λ b, is_u8 b) (gdt ≫= gdt_bytes) →
  length gdt = 6%nat → gp = mkPtr 47 (l_gdt L) → length (tss_bytes tss) = 104%nat → Forall (λ b, is_u8 b) (tss_bytes tss) →
  ∃ m', (m ← wr_bytes y m (l_tss L) (tss_bytes tss); m ← wr_bytes y m (k_gp X) (le16 (ptr_limit gp) ++ le32 (ptr_base gp));
         wr_bytes y m (l_gdt L) (gdt ≫= gdt_bytes)) = Some m' ∧
    mem_bytes m' (l_tss L) 104 = tss_bytes tss ∧ ptr_at m' (k_gp X) gp ∧ gdt_at m' (l_gdt L) gdt ∧
    changes_only (λ x, within (l_tss L) 104 x ∨ within (k_gp X) 6 x ∨ within (l_gdt L) 48 x) m m'.
Proof.
  intros Hme Hgu Hgl -> Htl Htu. destruct (ly_vars _ _ Hly) as (T0 & T1 & P0 & P1 & G0 & G1).
  pose proof (ly_apart _ _ Hly) as Hap. apart_facts Hap.
  assert (length (gdt ≫= gdt_bytes) = 48%nat) as Hgb.
  { do 6 (destruct gdt as [|? gdt]; [done|]). destruct gdt; [|done]. by rewrite !bind_cons, !length_app. }
  set (pb := le16 47 ++ le32 (l_gdt L)). assert (Forall (λ b, is_u8 b) pb) as Hpu by (repeat constructor; apply u8_range || done).
  assert (∀ m, ymapped y (λ _, True) m) as Hy by (intros m1; apply ymapped_off, Hme).
  destruct (wr_bytes_spec y (λ _, True) m (l_tss L) (tss_bytes tss)) as (m1 & -> & C1 & B1); [apply Hy|done|done|rewrite Htl; lia|done|].
  rewrite bind_Some. cbn [ptr_limit ptr_base]. fold pb.
  destruct (wr_bytes_spec y (λ _, True) m1 (k_gp X) pb) as (m2 & -> & C2 & B2); [apply Hy|done|done|change (length pb) with 6%nat; lia|done|].
  rewrite bind_Some. change (length pb) with 6%nat in C2, B2.
  destruct (wr_bytes_spec y (λ _, True) m2 (l_gdt L) (gdt ≫= gdt_bytes)) as (m3 & -> & C3 & B3); [apply Hy|done|done|rewrite Hgb; lia|done|].
  rewrite Htl in C1, B1. rewrite Hgb in C3, B3. change (Z.of_nat 104) with 104 in C1. change (Z.of_nat 6) with 6 in C2. change (Z.of_nat 48) with 48 in C3.
  exists m3. split; [reflexivity|]. split; [|split; [|split]].
  - rewrite <- B1. apply mem_bytes_ext; [lia|lia|]. unfold within. intros x Hx. rewrite C3, C2 by (unfold within; lia). done.
  - unfold ptr_at. cbn [ptr_limit ptr_base]. fold pb. rewrite <- B2. apply mem_bytes_ext; [lia|lia|]. unfold within. intros x Hx. apply C3; unfold within; lia.
  - apply gdt_at_bytes. by rewrite Hgl.
  - intros x Hx Hn. unfold within in Hn. rewrite C3, C2, C1 by (unfold within; lia). done.
Qed.

Lemma stack_in_K x : within ks 4096 x → K x.
Proof. intros Hx Hn. pose proof (ly_apart _ _ Hly) as Hap. apart_facts Hap. unfold within in *. lia. Qed.
Lemma gdt_in_K x : within (l_gdt L) 48 x → K x.
Proof. intros Hx Hn. pose proof (ly_apart _ _ Hly) as Hap. apart_facts Hap. unfold within in *. lia. Qed.
Lemma gp_in_K x : within (k_gp X) 6 x → K x.
Proof. intros Hx Hn. pose proof (ly_apart _ _ Hly) as Hap. apart_facts Hap. unfold within in *. lia. Qed.

(** The call of gdt_load: its argument and its return address. *)
Lemma call_gdt_load y m gdt : multiboot_entry y → getr y ESP = sp0 → length gdt = 6%nat →
  ptr_at m (k_gp X) (mkPtr 47 (l_gdt L)) → gdt_at m (l_gdt L) gdt →
  ∃ y', sys_run [PushI (k_gp X); Call (k_ret_gdt X) (k_gdt_load X)] (y, m) = Some (y', put_words m (sp0 - 8) [k_ret_gdt X; k_gp X]) ∧
    (is_u32 (k_ret_gdt X) → gdt_call y' K (put_words m (sp0 - 8) [k_ret_gdt X; k_gp X]) (sp0 - 8) (k_ret_gdt X) (k_gp X) [] gdt (l_gdt L)) ∧
    y_cr0 y' = y_cr0 y ∧ changes_only (within (sp0 - 8) 8) m (put_words m (sp0 - 8) [k_ret_gdt X; k_gp X]).
Proof.
  intros Hme He Hgl Hptr Hat. destruct (ly_stack _ _ Hly) as [H0 Hl]. pose proof (ly_frame _ _ Hly) as Hfr.
  destruct (ly_vars _ _ Hly) as (T0 & T1 & P0 & P1 & G0 & G1). pose proof (me_flat _ Hme) as Hf.
  assert (∀ x, within (sp0 - 8) 8 x → within ks 4096 x) as Hin by (unfold within; lia).
  cbn [sys_run]. cbn [sys_exec privileged andb]. change m with (put_words m sp0 []) at 1.
  replace (put_words m sp0 []) with (put_words m (sp0 - 4 + 4) []) by (f_equal; lia).
  rewrite (push_spec K), bind_Some; [|exact Hf|by apply entry_mapped|lia|lia|lia|intros x Hx; apply stack_in_K; unfold within in *; lia].
  cbn [sys_exec privileged andb]. replace (put_words m (sp0 - 4) [k_gp X]) with (put_words m (sp0 - 8 + 4) [k_gp X]) by (f_equal; lia).
  rewrite (push_spec K), !bind_Some; [|by destruct Hf|by apply entry_mapped, setr_entry|rewrite getr_setr; lia|lia|lia|intros x Hx; apply stack_in_K; unfold within in *; lia].
  set (m1 := put_words m (sp0 - 8) _). pose proof (put_words_changes m (sp0 - 8) [k_ret_gdt X; k_gp X] ltac:(lia) ltac:(cbn [length]; lia)) as Hc.
  cbn [length] in Hc. change (4 * Z.of_nat 2) with 8 in Hc. fold m1 in Hc.
  eexists. split; [reflexivity|]. split; [|split; [reflexivity|exact Hc]]. intros Hret.
  pose proof (ly_apart _ _ Hly) as Hap. apart_facts Hap. split.
  - split; [by destruct Hf|apply Hme|by apply (ymapped_off), Hme|reflexivity|cbn [length]; lia| |].
    + apply put_words_at; [lia|cbn [length]; lia|]. repeat constructor; lia.
    + intros x Hx. apply stack_in_K, Hin. exact Hx.
  - unfold ptr_at. rewrite <- Hptr. apply mem_bytes_ext; [lia|lia|]. unfold within. intros x Hx. apply Hc; unfold within; lia.
  - split; [lia|]. split; [lia|]. apply gp_in_K.
  - eapply gdt_at_ext; [lia|rewrite Hgl; lia|exact Hat|]. rewrite Hgl. unfold within. intros x Hx. apply Hc; unfold within; lia.
  - exact Hgl.
  - split; [lia|]. split; [lia|]. apply gdt_in_K.
  - cbn [length]. unfold within. lia.
Qed.

Lemma stage_segments y m gdt e1 e2 e5 : multiboot_entry y → getr y ESP = sp0 → kernel_gdt gdt (l_tss L) e1 e2 e5 → length gdt = 6%nat →
  is_u32 (k_ret_gdt X) → ptr_at m (k_gp X) (mkPtr 47 (l_gdt L)) → gdt_at m (l_gdt L) gdt →
  ∃ y' m', (s ← sys_run ([PushI (k_gp X); Call (k_ret_gdt X) (k_gdt_load X)] ++ gdt_load_code (k_flush_cs X) ++ [Add ESP 4]) (y, m);
            sys_run tss_load_code s) = Some (y', m') ∧
    segments_loaded y' ∧ gdt_env y' K m' (busy_gdt gdt e5) (l_gdt L) ∧ y_tr y' = 0x28 ∧ y_task y' = Some (Tss32 (l_tss L) 104 0) ∧
    getr y' ESP = sp0 ∧ y_cr0 y' = y_cr0 y ∧ changes_only (λ x, within (sp0 - 8) 8 x ∨ within (l_gdt L) 48 x) m m'.
Proof.
  intros Hme He Hkg Hgl Hret Hptr Hat. destruct (ly_stack _ _ Hly) as [H0 Hl]. pose proof (ly_frame _ _ Hly) as Hfr.
  destruct (ly_vars _ _ Hly) as (_ & _ & _ & _ & G0 & G1).
  destruct (call_gdt_load y m gdt Hme He Hgl Hptr Hat) as (y1 & E1 & Hgc & Hcr1 & Hc1). set (m1 := put_words m _ _) in *.
  destruct (gdt_load_spec K gdt (l_gdt L) (l_tss L) e1 e2 e5 Hkg y1 m1 _ _ _ _ (k_flush_cs X) (Hgc Hret) (ly_flush _ _ Hly))
    as (y2 & E2 & _ & Hre & Hsl & Hge & Hca & Hcr2 & _).
  rewrite sys_run_app, E1, bind_Some, sys_run_app, E2, bind_Some. cbn [sys_run]. cbn [sys_exec privileged andb]. rewrite !bind_Some.
  pose proof (ca_esp _ _ _ _ _ Hca) as Hsp. set (y3 := setr ESP _ y2). unfold tss_load_code. cbn [sys_run]. cbn [sys_exec privileged andb]. rewrite bind_Some.
  set (y4 := setr EAX _ y3).
  assert (gdt_env y4 K (marked_mem (l_gdt L) m1) gdt (l_gdt L)) as Hge4 by (destruct Hge as [J1 J2 J3 J4 J5 J6 J7]; by split).
  destruct (step_task K gdt (l_gdt L) (l_tss L) e1 e2 e5 Hkg y4 _ Hge4) as [E4 G4]; [apply ax_low; lia|]. rewrite E4, bind_Some.
  eexists _, _. split; [reflexivity|]. split; [|split; [exact G4|]].
  { destruct Hsl as [S1 S2 S3 [F1 F2 F3]]. by repeat split. }
  split; [reflexivity|]. split; [reflexivity|]. split; [|split].
  - unfold getr. cbn. rewrite Hsp. rewrite u32_small; lia.
  - change (y_cr0 y2 = y_cr0 y). by rewrite Hcr2.
  - pose proof (marked_mem_changes (l_gdt L) m1 G0 G1) as Hmm. intros x Hx Hn. unfold marks, within in *.
    rewrite ld8_st8 by lia. case_decide; [lia|]. rewrite Hmm, Hc1; [done|done|unfold within; lia|done|lia].
Qed.

Lemma stage_paging y m gdt : segments_loaded y → gdt_env y K m gdt (l_gdt L) → getr y ESP = sp0 → Z.testbit (y_cr0 y) PE = true →
  is_u32 (k_ret_paging X) → words_at m (l_cr3 L) page_directory →
  ∃ y', sys_run (Call (k_ret_paging X) (k_paging X) :: paging_enable_identity_code (l_cr3 L)) (y, m) =
      Some (y', put_words m (sp0 - 4) [k_ret_paging X]) ∧
    paging_on y' (l_cr3 L) ∧ same_segments y y' ∧ x_eip (y_core y') = k_ret_paging X ∧ getr y' ESP = sp0 ∧
    words_at (put_words m (sp0 - 4) [k_ret_paging X]) (l_cr3 L) page_directory ∧
    changes_only (within (sp0 - 4) 4) m (put_words m (sp0 - 4) [k_ret_paging X]).
Proof.
  intros [_ _ _ Hf] Hge He Hpe Hret Hw. destruct (ly_stack _ _ Hly) as [H0 Hl]. pose proof (ly_frame _ _ Hly) as Hfr.
  cbn [sys_run]. cbn [sys_exec privileged andb]. change m with (put_words m sp0 []) at 1.
  replace (put_words m sp0 []) with (put_words m (sp0 - 4 + 4) []) by (f_equal; lia).
  assert (∀ x, within (sp0 - 4) 4 x → K x) as Hin by (intros x Hx; apply stack_in_K; unfold within in *; lia).
  rewrite (push_spec K), !bind_Some; [|exact Hf|apply Hge|lia|lia|lia|exact Hin].
  set (m1 := put_words m _ _). pose proof (put_words_changes m (sp0 - 4) [k_ret_paging X] ltac:(lia) ltac:(cbn [length]; lia)) as Hc. fold m1 in Hc.
  cbn [length] in Hc. change (4 * Z.of_nat 1) with 4 in Hc. set (y1 := with_core _ _).
  assert (words_at m1 (l_cr3 L) page_directory) as Hw1.
  { destruct (ly_dir _ _ Hly) as [Hd _]. change (length page_directory) with 1024%nat.
    eapply words_changes; [exact Hw|exact Hc|lia|change (length page_directory) with 1024%nat; lia|].
    change (length page_directory) with 1024%nat. intros x Hx Hx'. exact (Hin x Hx' Hx). }
  assert (called y1 K m1 (sp0 - 4) [k_ret_paging X]) as Hca.
  { split; [by destruct Hf|apply Hge| |reflexivity|cbn [length]; lia| |exact Hin].
    - change (ymapped y K m1). eapply ymapped_changes; [apply Hge|]. eapply changes_only_mono; [exact Hin|exact Hc].
    - apply put_words_at; [lia|cbn [length]; lia|]. repeat constructor; apply Hret. }
  destruct (paging_enable_spec y1 K m1 (sp0 - 4) (k_ret_paging X) [] (l_cr3 L) Hca Hpe (ly_dir _ _ Hly) Hw1 ltac:(auto))
    as (y' & -> & Hpo & [R1 R2 R3 R4] & Hsg & _).
  exists y'. split; [reflexivity|]. split; [exact Hpo|]. split; [destruct Hsg as [J1 J2 J3]; by split|]. split; [exact R1|].
  split; [rewrite R2, u32_small; lia|]. by split.
Qed.
End stages.

Lemma busy_lookup gdt e5 gp sel : sel / 8 ≠ 5 → 0 <= sel → seg_lookup (busy_gdt gdt e5) gp sel = seg_lookup gdt gp sel.
Proof.
  intros Hn Hs. unfold seg_lookup, busy_gdt. rewrite list_lookup_insert_ne; [done|]. pose proof (Z.div_pos sel 8 Hs ltac:(lia)). lia.
Qed.

Lemma tss_bytes_wf t : length (tss_bytes t) = 104%nat ∧ Forall (λ b, is_u8 b) (tss_bytes t).
Proof.
  split; [done|]. unfold tss_bytes. rewrite !Forall_app. split_and!; [|repeat constructor; apply u8_range..].
  apply Forall_bind. apply Forall_true. intros v. repeat constructor; apply u8_range.
Qed.

Lemma gdt_init_u8 tss_addr base gdt0 gdt gp : length gdt0 = 6%nat → gdt_init tss_addr base gdt0 = Some (gdt, gp) →
  Forall (λ b, is_u8 b) (gdt ≫= gdt_bytes).
Proof.
  intros Hl. do 6 (destruct gdt0 as [|? gdt0]; [done|]). destruct gdt0; [|done]. intros E. unfold gdt_init, gdt_set_gate in E.
  cbn [lookup list_lookup mbind option_bind] in E. injection E as <- _. unfold gdt_bytes, le16.
  cbn [insert list_insert Z.to_nat Pos.to_nat mbind list_bind app limit_low base_low base_middle access granularity base_high].
  repeat constructor; first [apply u8_range|done].
Qed.


(** The state the start-up leaves. *)
Record cpu_up (L : klayout) (gdt : list gdt_entry) (gp : table_ptr) (y : system) (m : mem) : Prop := {
  cu_segments : segments_loaded y;
  cu_gdtr : y_gdtr y = gp;
  cu_reads : ∀ sel, 0 <= sel < 65536 → Z.testbit sel 2 = false → sel / 8 ≠ 5 →
    ('(_, bs) ← descriptor y m sel; seg_decode bs) = seg_lookup gdt gp sel;
  cu_task : y_tr y = tss_load ∧ y_task y = Some (Tss32 (l_tss L) 104 0);
  cu_paging : paging_on y (l_cr3 L);
  cu_identity : ∀ la, is_u32 la → translate y m la = Some la
}.

Lemma reads_up L K y y' m m' gdt e5 : layout_ok L K → gdt_env y (λ x, ¬ within (l_cr3 L) 4096 x) m (busy_gdt gdt e5) (l_gdt L) →
  same_segments y y' → ring y' = 0 → paging_on y' (l_cr3 L) → words_at m' (l_cr3 L) page_directory →
  (∀ x, within (l_gdt L) 48 x → ld8 m' x = ld8 m x) →
  gdt_env y' (λ x, ¬ within (l_cr3 L) 4096 x) m' (busy_gdt gdt e5) (l_gdt L).
Proof.
  intros Hly [G1 G2 G3 G4 G5 [G6 G6'] G7] [_ _ (S1 & _)] Hr [P1 P2 P3 P4] Hw Hx. split; try done.
  - apply ymapped_on; [done|done|]. rewrite P1. apply identity_kmapped; [|auto]. apply directory_space; [apply Hly|exact Hw].
  - by rewrite S1.
  - eapply gdt_at_ext; [exact G6|rewrite G5; exact G6'|exact G4|]. rewrite G5. exact Hx.
Qed.

(** The state between the two. *)
Record segments_up (L : klayout) (X : linked) (y0 : system) (m0 : mem) (tss : tss_entry) (gdt : list gdt_entry) (y : system) (m : mem) : Prop := {
  su_segments : segments_loaded y;
  su_table : ∃ e5, gdt_env y (λ x, ¬ within (l_cr3 L) 4096 x) m (busy_gdt gdt e5) (l_gdt L);
  su_task : y_tr y = tss_load ∧ y_task y = Some (Tss32 (l_tss L) 104 0);
  su_tss : mem_bytes m (l_tss L) 104 = tss_bytes tss;
  su_frame : words_at m (l_kernel_stack L + 4076) (kmain_frame y0 (k_start X) (k_end X) (k_loop X));
  su_esp : getr y ESP = l_kernel_stack L + 4076 - k_frame X;
  su_cr0 : Z.testbit (y_cr0 y) PE = true;
  su_changes : changes_only (boot_vars L X) m0 m
}.

Lemma init_segments_spec L X y m tss0 gdt0 gdt gp : multiboot_entry y → layout_ok L X → length gdt0 = 6%nat →
  is_u32 (getr y EAX) → is_u32 (getr y EBX) →
  Forall (λ v, is_u32 v) [k_start X; k_end X; k_loop X; k_ret_gdt X; k_ret_paging X] →
  gdt_init (l_tss L) (l_gdt L) gdt0 = Some (gdt, gp) →
  ∃ y' m', init_segments L X tss0 gdt0 (y, m) = Some (y', m') ∧
    segments_up L X y m (tss_init (l_kernel_stack L +ᵤ 4096) 0x10 tss0) gdt y' m'.
Proof.
  intros Hme Hly Hgl Hax Hbx Hu Eg. rewrite !Forall_cons in Hu. destruct Hu as (U1 & U2 & U3 & U4 & U5 & _).
  destruct (ly_stack _ _ Hly) as [H0 Hl]. destruct (ly_vars _ _ Hly) as (T0 & T1 & P0 & P1 & G0 & G1). pose proof (ly_frame _ _ Hly) as Hfr.
  destruct (gdt_init_kernel (l_tss L) _ _ _ _ Hgl ltac:(lia) Eg) as (Hgp & Hlen & e1 & e2 & e5 & Hkg).
  destruct (stage_loader L X Hly y m Hme) as (y1 & EA & Hm1 & He1). set (fr := kmain_frame y _ _ _) in *. set (m1 := put_words m _ fr) in *.
  pose proof (put_words_changes m (l_kernel_stack L + 4076) fr ltac:(lia) ltac:(change (length fr) with 5%nat; lia)) as C1. fold m1 in C1.
  change (4 * Z.of_nat (length fr)) with 20 in C1.
  assert (words_at m1 (l_kernel_stack L + 4076) fr) as W1.
  { apply put_words_at; [lia|change (length fr) with 5%nat; lia|]. unfold fr, kmain_frame. by rewrite !Forall_cons. }
  set (tss := tss_init (l_kernel_stack L +ᵤ 4096) 0x10 tss0). destruct (tss_bytes_wf tss) as [Htl Htu].
  destruct (stage_tables L X Hly y1 m1 tss gdt gp Hm1 (gdt_init_u8 _ _ _ _ _ Hgl Eg) Hlen Hgp Htl Htu) as (m2 & EB & Ht2 & Hp2 & Hg2 & C2).
  destruct (stage_segments L X Hly y1 m2 gdt e1 e2 e5 Hm1 He1 Hkg Hlen U4) as (y3 & m3 & EC & Hs3 & Hge3 & Htr & Htk & He3 & Hcr & C3);
    [by rewrite <- Hgp|exact Hg2|].
  exists y3, m3. pose proof (ly_apart _ _ Hly) as Hap. apart_facts Hap. split; [|split].
  - apply option.bind_Some in EA as (s1 & EA1 & EA2). apply option.bind_Some in EB as (ma & EB1 & EB). apply option.bind_Some in EB as (mb & EB2 & EB3).
    unfold init_segments. rewrite EA1, bind_Some, EA2, bind_Some. cbv zeta. fold tss. by rewrite EB1, bind_Some, Eg, bind_Some, EB2, bind_Some, EB3, bind_Some.
  - exact Hs3.
  - by exists e5.
  - by split.
  - rewrite <- Ht2. apply mem_bytes_ext; [lia|lia|]. unfold within. intros x Hx. apply C3; unfold within; lia.
  - fold fr. eapply words_changes; [|exact C3|lia|change (length fr) with 5%nat; lia|change (length fr) with 5%nat; unfold within; intros x Hx; lia].
    eapply words_changes; [exact W1|exact C2|lia|change (length fr) with 5%nat; lia|change (length fr) with 5%nat; unfold within; intros x Hx; lia].
  - exact He3.
  - rewrite Hcr. apply Hm1.
  - intros x Hx Hn. unfold boot_vars, within in Hn. rewrite C3, C2, C1 by (unfold within; lia). done.
Qed.

Lemma bringup_spec L X y m tss0 gdt0 : multiboot_entry y → layout_ok L X → length gdt0 = 6%nat →
  words_at m (l_cr3 L) page_directory → is_u32 (getr y EAX) → is_u32 (getr y EBX) →
  Forall (λ v, is_u32 v) [k_start X; k_end X; k_loop X; k_ret_gdt X; k_ret_paging X] →
  ∃ y' m' gdt gp, bringup L X tss0 gdt0 (y, m) = Some (y', m') ∧ gdt_init (l_tss L) (l_gdt L) gdt0 = Some (gdt, gp) ∧
    cpu_up L gdt gp y' m' ∧ words_at m' (l_cr3 L) page_directory ∧
    mem_bytes m' (l_tss L) 104 = tss_bytes (tss_init (l_kernel_stack L +ᵤ 4096) 0x10 tss0) ∧
    words_at m' (l_kernel_stack L + 4076) (kmain_frame y (k_start X) (k_end X) (k_loop X)) ∧
    x_eip (y_core y') = k_ret_paging X ∧ getr y' ESP = l_kernel_stack L + 4076 - k_frame X ∧ changes_only (boot_vars L X) m m'.
Proof.
  intros Hme Hly Hgl Hdir Hax Hbx Hu. destruct (gdt_init_some (l_tss L) (l_gdt L) gdt0 Hgl) as (gdt & gp & Eg).
  destruct (init_segments_spec L X y m tss0 gdt0 gdt gp Hme Hly Hgl Hax Hbx Hu Eg) as (y3 & m3 & E3 & [Hs [e5 Hge] Htk Htss Hfr Hsp Hpe C13]).
  rewrite !Forall_cons in Hu. destruct Hu as (_ & _ & _ & _ & U5 & _). destruct (gdt_init_entries _ _ _ _ _ Hgl Eg) as [-> _].
  destruct (ly_stack _ _ Hly) as [H0 Hl]. destruct (ly_vars _ _ Hly) as (T0 & T1 & P0 & P1 & G0 & G1). pose proof (ly_frame _ _ Hly) as Hf.
  destruct (ly_dir _ _ Hly) as [Hd _]. pose proof (ly_apart _ _ Hly) as Hap. apart_facts Hap.
  assert (words_at m3 (l_cr3 L) page_directory) as W3.
  { eapply words_changes; [exact Hdir|exact C13|lia|change (length page_directory) with 1024%nat; lia|].
    change (length page_directory) with 1024%nat. unfold boot_vars, within. intros x Hx. lia. }
  destruct (stage_paging L X Hly y3 m3 _ Hs Hge Hsp Hpe U5 W3) as (y4 & ED & Hpo & Hsg & Hip & He4 & W4 & C4).
  set (m4 := put_words m3 _ _) in *.
  assert (segments_loaded y4) as Hs4.
  { destruct Hsg as [(D1 & D2 & D3) (S1 & S2 & S3) _], Hs as [I1 I2 I3 [F1 F2 F3]].
    split; [by rewrite S1|by rewrite S2|intros g; by rewrite S3|]. split; [by rewrite D1|by rewrite D2|intros g; by rewrite D3]. }
  assert (ring y4 = 0) as Hr4 by (unfold ring, cpl; by rewrite (sl_cs _ Hs4)).
  pose proof (reads_up L X y3 y4 m3 m4 gdt e5 Hly Hge Hsg Hr4 Hpo W4) as Hup.
  assert (gdt_env y4 (λ x, ¬ within (l_cr3 L) 4096 x) m4 (busy_gdt gdt e5) (l_gdt L)) as Hge4.
  { apply Hup. unfold within. intros x Hx. apply C4; unfold within; lia. }
  exists y4, m4, gdt, (mkPtr 47 (l_gdt L)). split; [unfold bringup; by rewrite E3, bind_Some|]. split; [exact Eg|].
  split; [|split; [exact W4|split; [|split; [|split; [exact Hip|split; [exact He4|]]]]]].
  - split; [exact Hs4|apply Hge4| |by destruct Hsg as [_ _ (_ & -> & ->)]|exact Hpo|].
    + intros sel Hsel Ht Hn. rewrite <- (busy_lookup gdt e5) by lia. rewrite <- (ge_gdtr _ _ _ _ _ Hge4). by apply (gdt_env_reads _ _ _ _ _ Hge4).
    + intros la Hla. destruct Hpo as [Q1 Q2 Q3 Q4]. unfold translate, tables. rewrite Q2, Q4, lookup_empty, Q3, Q1. cbn [negb].
      apply directory_walk; [apply Hly|exact W4|exact Hla].
  - rewrite <- Htss. apply mem_bytes_ext; [lia|lia|]. unfold within. intros x Hx. apply C4; unfold within; lia.
  - eapply words_changes; [exact Hfr|exact C4|lia|cbn [length kmain_frame]; lia|cbn [length kmain_frame]; unfold within; intros x Hx; lia].
  - intros x Hx Hn. rewrite C4; [by apply C13|exact Hx|]. unfold boot_vars, within in *. lia.
Qed.

(** ** The whole boot *)

(** The kernel as GRUB loads it, with what kmain needs of its data; the
    directory is the table of paging.s, outside what is written. *)
Record kernel_image (L : klayout) (W : Z → Prop) (m : mem) : Prop := {
  ki_dir : words_at m (l_cr3 L) page_directory;
  ki_apart : ∀ x, W x → ¬ within (l_cr3 L) 4096 x;
  ki_fb : ∀ x, fb_bytes x → W x;
  ki_base : hdr W (l_base L) ∧ 0 < l_base L ∧ ∀ x, within (l_base L) 8 x → ¬ fb_bytes x;
  ki_digit : is_u32 (l_digit L) ∧ W (l_digit L) ∧ ¬ fb_bytes (l_digit L);
  ki_lits : ∀ str m', str ∈ kmain_literals → changes_only W m m' → cstring_at (l_cr3 L) m' (l_lit L str) str
}.

Lemma image_boot_ok L W m : page_addr (l_cr3 L) → kernel_image L W m → boot_ok L W m.
Proof.
  intros Hp [H1 H2 H3 H4 H5 H6]. split; try done. apply identity_kmapped; [by apply directory_space|exact H2].
Qed.

Lemma image_info_changes L W mbi ks ke av tb m m' a b fs : image_info L W mbi ks ke av tb m a b fs → changes_only W m m' →
  image_info L W mbi ks ke av tb m' a b fs.
Proof.
  intros [H1 H2 H3] Hc. split; [|intros m2 H; apply H2|exact H3]; [intros m2 H; apply H1|]; by eapply changes_only_trans.
Qed.

Lemma shell_file_changes L W m m' a fs d : shell_file L W m a fs d → changes_only W m m' → shell_file L W m' a fs d.
Proof.
  intros [(i & f & H1 & H2 & H3 & H4) H5] Hc. split; [|exact H5]. exists i, f. split; [exact H1|]. split; [exact H2|]. split; [exact H3|].
  intros j x Hj. destruct (H4 j x Hj) as [Hu Hk]. split; [exact Hu|]. by eapply kreads_changes.
Qed.

(** ** Properties *)

(** C7: the start-up leaves the processor as the rest of the kernel takes it to
    be.  Entered by a Multiboot loader, loader.s puts kmain's arguments on its
    stack, and gdt_load, tss_load and paging_enable_identity, called by kmain in
    turn, end with the kernel's flat segments in every segment register, the
    processor reading from memory the descriptors of gdt_init, the task state
    segment in the task register, and paging on with the table of paging.s, by
    which every address is its own translation and stays so whatever the kernel
    writes outside that table. *)
Theorem startup_correct L X y m tss0 gdt0 : multiboot_entry y → layout_ok L X → length gdt0 = 6%nat →
  words_at m (l_cr3 L) page_directory → is_u32 (getr y EAX) → is_u32 (getr y EBX) →
  Forall (λ v, is_u32 v) [k_start X; k_end X; k_loop X; k_ret_gdt X; k_ret_paging X] →
  ∃ y' m' gdt gp, bringup L X tss0 gdt0 (y, m) = Some (y', m') ∧ gdt_init (l_tss L) (l_gdt L) gdt0 = Some (gdt, gp) ∧
    cpu_up L gdt gp y' m' ∧ (∀ W, (∀ x, W x → ¬ within (l_cr3 L) 4096 x) → kmapped (l_cr3 L) W m') ∧
    mem_bytes m' (l_tss L) 104 = tss_bytes (tss_init (l_kernel_stack L +ᵤ 4096) 0x10 tss0) ∧
    words_at m' (l_kernel_stack L + 4076) [k_loop X; getr y EAX; getr y EBX; k_start X; k_end X] ∧
    x_eip (y_core y') = k_ret_paging X ∧ getr y' ESP = l_kernel_stack L + 4076 - k_frame X ∧ changes_only (boot_vars L X) m m'.
Proof.
  intros Hme Hly Hgl Hdir Hax Hbx Hu.
  destruct (bringup_spec L X y m tss0 gdt0 Hme Hly Hgl Hdir Hax Hbx Hu) as (y' & m' & gdt & gp & E & Eg & Hup & Hw & Hrest).
  exists y', m', gdt, gp. split; [exact E|]. split; [exact Eg|]. split; [exact Hup|]. split; [|exact Hrest].
  intros W HW. apply identity_kmapped; [|exact HW]. apply directory_space; [apply Hly|exact Hw].
Qed.

(** C6: from GRUB to the shell: entered with the Multiboot magic number in eax
    and the address of the boot information in ebx, the start-up ends in kmain
    with its four parameters on the stack, and kmain, run on the memory it left
    with these parameters, boots: it ends in the jump to the shell, the current
    process, with the kernel in the initial state of its invariant and nothing
    changed but what the boot may write. *)
Theorem grub_boots L X W y m tss0 gdt0 avail table mstart mend files data s :
  let mbi := getr y EBX in
  multiboot_entry y → getr y EAX = MULTIBOOT_BOOTLOADER_MAGIC → layout_ok L X → length gdt0 = 6%nat →
  Forall (λ v, is_u32 v) [k_start X; k_end X; k_loop X; k_ret_gdt X; k_ret_paging X] →
  kernel_image L W m → (∀ x, boot_vars L X x → W x) →
  boot_info L W mbi (k_start X) (k_end X) avail table m →
  image_info L W mbi (k_start X) (k_end X) avail table m mstart mend files → shell_file L W m mstart files data →
  is_u32 (l_trampoline L) →
  frames_needed data <= count_upto (λ g, negb (boot_used mbi (k_start X) (k_end X) avail table mstart mend g)) all_frames →
  (∀ tr', l_dev L tr' PIC1_DATA_PORT = imr (observe pics_step s tr').1) →
  ∃ y' m', bringup L X tss0 gdt0 (y, m) = Some (y', m') ∧ paging_on y' (l_cr3 L) ∧ segments_loaded y' ∧
    ∀ k tm, fresh_state k → c_mem (kb_con k) = m' → t_next_high (observe timer_step tm (c_ports (kb_con k))) = false →
      let arg i := ld32 m' (l_kernel_stack L + 4080 + 4 * i) in
      ∃ k' sp dir st, kmain L (arg 0) (arg 1) (arg 2) (arg 3) k = Some (Jumped k' sp dir) ∧ booted (machine_of k') ∧
        current (kb_tab k') = Some 0%nat ∧ loaded st data (c_mem (kb_con k')) (kb_pfa k') dir ∧
        changes_only W m (c_mem (kb_con k')).
Proof.
  intros mbi Hme Hmg Hly Hgl Hu Hki HW Hi Him Hsh Htr Hen Hdev.
  destruct (bringup_spec L X y m tss0 gdt0 Hme Hly Hgl (ki_dir _ _ _ Hki)) as (y' & m' & gdt & gp & E & _ & Hup & _ & _ & Hfr & _ & _ & Hc);
    [rewrite Hmg; lia|destruct (bi_range _ _ _ _ _ _ _ _ Hi); unfold mbi in *; lia|exact Hu|].
  apply (changes_only_mono _ W) in Hc; [|exact HW]. exists y', m'. split; [exact E|]. split; [apply Hup|]. split; [apply Hup|].
  intros k tm Hf Hm Htm arg. set (ks := l_kernel_stack L) in *.
  assert (arg 0 = MULTIBOOT_BOOTLOADER_MAGIC) as -> by (unfold arg; rewrite <- Hmg, <- (Hfr 1%nat _ eq_refl); f_equal; lia).
  assert (arg 1 = mbi) as -> by (unfold arg; rewrite <- (Hfr 2%nat mbi eq_refl); f_equal; lia).
  assert (arg 2 = k_start X) as -> by (unfold arg; rewrite <- (Hfr 3%nat _ eq_refl); f_equal; lia).
  assert (arg 3 = k_end X) as -> by (unfold arg; rewrite <- (Hfr 4%nat _ eq_refl); f_equal; lia).
  destruct (kmain_spec L W mbi (k_start X) (k_end X) avail table mstart mend files data k s tm)
    as (k' & sp & dir & ? & st & P & Ek & HWk & Hb & _ & _ & Hcur & _ & _ & _ & _ & _ & _ & _ & _ & _ & _ & Hlo & _);
    rewrite ?Hm; [|exact Hf| | | |exact Htr|exact Hen|exact Hdev|exact Htm|].
  - eapply boot_ok_changes; [apply image_boot_ok; [apply Hly|exact Hki]|exact Hc].
  - by eapply boot_info_changes.
  - by eapply image_info_changes.
  - by eapply shell_file_changes.
  - exists k', sp, dir, st. split; [exact Ek|]. split; [exact Hb|]. split; [exact Hcur|]. split; [exact Hlo|].
    rewrite Hm in HWk. exact (changes_only_trans _ _ _ _ Hc HWk).
Qed.

(** ** Witnesses *)

(** A processor as a Multiboot loader leaves it: the magic number in eax, the
    address 0x9100 in the other registers, selectors of its own. *)
Definition grub_core : core := mkCore (λ r, if reg_eqb r EAX then MULTIBOOT_BOOTLOADER_MAGIC else 0x9100) 0x100000 2 0 0x18 0x20 (λ _, 0x20).
Definition grub_system : system :=
  mkSys grub_core 0x11 0 (mkPtr 0 0) (mkPtr 0 0) (Code 0 GiB4 0 true false) (Data 0 GiB4 0 true false) (λ _, Data 0 GiB4 0 true false) 0 None ∅.

Lemma grub_entry : multiboot_entry grub_system.
Proof. by repeat split. Qed.

Definition example_linked : linked := mkLinked 0x8000 0xB000 0xAB00 0xAB10 0xA180 0xAB20 0xAB30 0xAB40 0xAB50 0xAB60 64.

Lemma example_layout_ok dev : layout_ok (example_layout dev) example_linked.
Proof.
  split; [cbn; lia|cbn; lia|split; [cbn; lia|done]|cbn; lia|cbn; lia|].
  repeat (constructor; [repeat (constructor; [unfold apart; cbn; lia|]); constructor|]). constructor.
Qed.

Lemma example_linked_words : Forall (λ v, is_u32 v)
  [k_start example_linked; k_end example_linked; k_loop example_linked; k_ret_gdt example_linked; k_ret_paging example_linked].
Proof. repeat constructor; cbn; lia. Qed.

Lemma identity_words m pd : space_at m pd identity_space → words_at m pd page_directory.
Proof.
  intros Hs i w Hi. pose proof (lookup_lt_Some _ _ _ Hi) as Hl. change (length page_directory) with 1024%nat in Hl.
  pose proof (page_directory_lookup (Z.of_nat i) ltac:(lia)) as E. rewrite Nat2Z.id, Hi in E. injection E as ->.
  rewrite (sa_pde _ _ _ Hs) by lia. done.
Qed.

Lemma startup_correct_witness : ∃ (m : mem) y' m',
  bringup (example_layout example_dev) example_linked tss_zero example_gdt (grub_system, m) = Some (y', m') ∧
  segments_loaded y' ∧ translate y' m' 0xB8000 = Some 0xB8000 ∧ ld32 m' 0x7FF0 = MULTIBOOT_BOOTLOADER_MAGIC ∧ ld32 m' 0x7FF4 = 0x9100.
Proof.
  destruct (identity_dir_exists 0x8000 ∅) as [m Hm]; [split; [lia|done]|].
  destruct (startup_correct (example_layout example_dev) example_linked grub_system m tss_zero example_gdt grub_entry (example_layout_ok _)
    eq_refl (identity_words _ _ Hm) ltac:(cbn; lia) ltac:(cbn; lia) example_linked_words)
    as (y' & m' & gdt & gp & E & _ & [Hs _ _ _ _ Hid] & _ & _ & Hfr & _).
  exists m, y', m'. split; [exact E|]. split; [exact Hs|]. split; [apply Hid; lia|].
  split; [exact (Hfr 1%nat _ eq_refl)|exact (Hfr 2%nat _ eq_refl)].
Defined.

Lemma example_kernel_image img dev (m : mem) : space_at m 0x8000 identity_space → kmapped 0x8000 boot_writes m →
  (∀ m', changes_only boot_writes m m' → bytes_at 0x8000 m' 0x9000 (boot_blob img)) →
  kernel_image (example_layout dev) boot_writes m.
Proof.
  intros Hs Hk Hb. destruct (example_boot_ok img dev m Hk Hb) as [_ H2 H3 H4 H5].
  split; [by apply identity_words|unfold boot_writes, fb_bytes, within; cbn; lia|done..].
Qed.

Lemma grub_boots_witness : ∃ (m : mem) y' m' k' sp dir,
  bringup (example_layout example_dev) example_linked tss_zero example_gdt (grub_system, m) = Some (y', m') ∧
  kmain (example_layout example_dev) (ld32 m' 0x7FF0) (ld32 m' 0x7FF4) (ld32 m' 0x7FF8) (ld32 m' 0x7FFC) (example_kstate m') =
    Some (Jumped k' sp dir) ∧ booted (machine_of k').
Proof.
  destruct (example_boot shell_image) as (m & Hk & Hb & _ & Hs); [apply (bool_decide_unpack _); vm_compute; exact I|vm_compute; lia|].
  destruct (grub_boots (example_layout example_dev) example_linked boot_writes grub_system m tss_zero example_gdt example_avail
    (frame_meets 0x9150 0x9168) 0x9180 (0x9180 + Z.of_nat (length shell_image)) (image_files [(bytes "shell", [0xF4])]) [0xF4]
    (reset_pic, reset_pic) grub_entry eq_refl (example_layout_ok _) eq_refl example_linked_words (example_kernel_image _ _ _ Hs Hk Hb)
    ltac:(unfold boot_vars, boot_writes, within; cbn; lia) (example_boot_info _ _ _ Hb) (example_image_info _ _ Hb) (example_shell_file _ _ Hb)
    ltac:(cbn; lia) example_enough (λ tr, eq_refl)) as (y' & m' & E & _ & _ & Hrun).
  destruct (Hrun (example_kstate m') (mkTimer 0 false 0) (example_fresh m') eq_refl eq_refl) as (k' & sp & dir & st & Ek & Hbt & _).
  exists m, y', m', k', sp, dir. split; [exact E|]. split; [exact Ek|exact Hbt].
Defined.
