(* ===== verification/Ulib.v ===== *)
(** * programs/ulib.h: the string functions of the user programs

    A program runs on the memory ring 3 sees, which is a finite map from
    addresses to bytes: an address outside it is a page fault, [None].
    [ustring] describes a string in it.

    streq, ustrlen and itoa are proved against lists: equality, length, and the
    decimal numeral of an integer, read back by [dec_value]. *)

From stdpp Require Import prelude gmap.
From Stdlib Require Import ZArith Lia.
From S2P Require Import Prelude.

(** ** The memory of a program *)

Abbreviation umem := (gmap Z Z).

Definition uld8 (m : umem) (a : Z) : option Z := m !! u32 a.
Definition ust8 (m : umem) (a v : Z) : option umem :=
  match m !! u32 a with Some _ => Some (<[u32 a := u8 v]> m) | None => None end.

(** ** The functions *)

Definition streq_step (m : umem) (p : Z * Z) : option ((Z * Z) + Z) :=
  let '(a, b) := p in
  x ← uld8 m a;
  y ← uld8 m b;
  if negb (x =? 0) && (x =? y) then Some (inl (a +ᵤ 1, b +ᵤ 1))
  else Some (inr (if x =? y then 1 else 0)).
Definition streq (m : umem) (a b : Z) : option Z := while (streq_step m) (a, b).

Definition ustrlen_step (m : umem) (s len : Z) : option (Z + Z) :=
  c ← uld8 m (s +ᵤ len);
  if c =? 0 then Some (inr len) else Some (inl (len +ᵤ 1)).
Definition ustrlen (m : umem) (s : Z) : option Z := while (ustrlen_step m s) 0.

(** The first loop of itoa: the digits, the lowest first. *)
Definition itoa_step (buf : Z) (s : umem * Z * Z) : option ((umem * Z * Z) + (umem * Z)) :=
  let '(m, i, n) := s in
  if 0 <? n then
    m ← ust8 m (buf +ᵤ i) (48 + Z.rem n 10);
    Some (inl (m, i + 1, Z.quot n 10))
  else Some (inr (m, i)).

(** The second one: they are turned round. *)
Definition itoa_swap (buf i j : Z) (m : umem) : option umem :=
  tmp ← uld8 m (buf +ᵤ j);
  b ← uld8 m (buf +ᵤ (i - 1 - j));
  m ← ust8 m (buf +ᵤ j) b;
  ust8 m (buf +ᵤ (i - 1 - j)) tmp.

Definition itoa (n buf : Z) (m : umem) : option umem :=
  if n =? 0 then
    m ← ust8 m buf 48;
    ust8 m (buf +ᵤ 1) 0
  else
    '(m, i) ← while (itoa_step buf) (m, 0, n);
    m ← ust8 m (buf +ᵤ i) 0;
    for_range 0 (Z.quot i 2) (itoa_swap buf i) m.

(** ** Specifications *)

(** The bytes [bs] lie at [a]. *)
Definition ubytes (m : umem) (a : Z) (bs : list Z) : Prop :=
  ∀ i b, bs !! i = Some b → m !! (a + Z.of_nat i) = Some b.

(** The string [bs] lies at [s], with its NUL. *)
Record ustring (m : umem) (s : Z) (bs : list Z) : Prop := {
  us_addr : 0 <= s;
  us_fits : s + Z.of_nat (length bs) < 4294967296;
  us_bytes : ubytes m s bs;
  us_nonzero : Forall (λ b, 0 < b < 256) bs;
  us_nul : m !! (s + Z.of_nat (length bs)) = Some 0
}.

(** A buffer a program may write to. *)
Definition ubuffer (m : umem) (a len : Z) : Prop :=
  0 <= a ∧ a + len <= 4294967296 ∧ ∀ k, 0 <= k < len → is_Some (m !! (a + k)).

(** Only the [len] bytes at [a] differ, and the same addresses are mapped. *)
Definition uchanges (a len : Z) (m m' : umem) : Prop :=
  dom m' = dom m ∧ ∀ x, x < a ∨ a + len <= x → m' !! x = m !! x.

Definition digit (d : Z) : Prop := 48 <= d <= 57.

(** The value of a decimal numeral. *)
Definition dec_value (ds : list Z) : Z := fold_left (λ v d, 10 * v + (d - 48)) ds 0.

(** ** Accesses *)

Lemma uchanges_trans a len m1 m2 m3 : uchanges a len m1 m2 → uchanges a len m2 m3 → uchanges a len m1 m3.
Proof. intros [D1 H1] [D2 H2]. split; [congruence|]. intros x Hx. by rewrite H2, H1. Qed.

Lemma ubuffer_changes a len b l m m' : ubuffer m a len → uchanges b l m m' → ubuffer m' a len.
Proof.
  intros (H0 & H1 & Hk) [D _]. split; [done|]. split; [done|]. intros k Hk'.
  apply elem_of_dom. rewrite D. apply elem_of_dom. by apply Hk.
Qed.

Lemma ust8_buffer m a len k v : ubuffer m a len → 0 <= k < len → is_u8 v →
  ∃ m', ust8 m (a +ᵤ k) v = Some m' ∧ uchanges a len m m' ∧
    (∀ j, m' !! (a + j) = if decide (j = k) then Some v else m !! (a + j)).
Proof.
  intros (H0 & H1 & Hk) Hkl Hv. unfold ust8. rewrite !(u32_small (u32 (a + k))) by apply u32_range.
  rewrite (u32_small (a + k)) by lia. destruct (Hk k Hkl) as [b Hb]. rewrite Hb. eexists. split; [done|].
  rewrite u8_small by done. split; [split|].
  - apply dom_insert_lookup_L. by eexists.
  - intros x Hx. apply lookup_insert_ne. lia.
  - intros j. case_decide as E; [subst; apply lookup_insert_eq|apply lookup_insert_ne; lia].
Qed.

Lemma uld8_at m a k : is_u32 (a + k) → uld8 m (a +ᵤ k) = m !! (a + k).
Proof. intros H. unfold uld8. rewrite !(u32_small (u32 (a + k))) by apply u32_range. by rewrite u32_small. Qed.

(** ** ustrlen and streq *)

Lemma ustring_cons m s b bs : ustring m s (b :: bs) → m !! s = Some b ∧ 0 < b < 256 ∧ ustring m (s + 1) bs.
Proof.
  intros [H0 Hf Hb Hz Hn]. apply Forall_cons in Hz as [Hz1 Hz]. simpl in *. split; [|split; [done|]].
  - specialize (Hb O b eq_refl). by rewrite Z.add_0_r in Hb.
  - split; [lia|lia| |done|].
    + intros i c Hi. replace (s + 1 + Z.of_nat i) with (s + Z.of_nat (S i)) by lia. by apply Hb.
    + by replace (s + 1 + Z.of_nat (length bs)) with (s + Z.of_nat (S (length bs))) by lia.
Qed.

Lemma ustring_nil m s : ustring m s [] → m !! s = Some 0.
Proof. intros [_ _ _ _ Hn]. simpl in Hn. by rewrite Z.add_0_r in Hn. Qed.

Lemma ustrlen_spec m s bs : ustring m s bs → ustrlen m s = Some (Z.of_nat (length bs)).
Proof.
  intros [Ha Hf Hb Hz H0].
  destruct (while_ind (λ n, 0 <= n <= Z.of_nat (length bs)) (λ r, r = Z.of_nat (length bs)) (λ n, Z.of_nat (length bs) - n)
    (ustrlen_step m s) 0) as (r & Hr & ->); simpl; [lia|lia| |done].
  intros n Hn. unfold ustrlen_step. rewrite uld8_at by lia.
  destruct (decide (n = Z.of_nat (length bs))) as [->|Hne].
  - rewrite H0. by eexists.
  - destruct (lookup_lt_is_Some_2 bs (Z.to_nat n)) as [b Hlk]; [lia|].
    pose proof (Hb _ _ Hlk) as Hl. rewrite Z2Nat.id in Hl by lia. rewrite Hl, bind_Some.
    pose proof (Forall_lookup_1 _ _ _ _ Hz Hlk) as Hnz. cbn in Hnz. ztest. eexists. split; [done|]. simpl. rewrite u32_small by lia. lia.
Qed.

Lemma streq_spec m s1 s2 a b : ustring m s1 a → ustring m s2 b →
  streq m s1 s2 = Some (if decide (a = b) then 1 else 0).
Proof.
  intros Ha Hb.
  destruct (while_ind
    (λ p, ∃ a' b', ustring m p.1 a' ∧ ustring m p.2 b' ∧ (a' = b' ↔ a = b) ∧ Z.of_nat (length a') = s1 + Z.of_nat (length a) - p.1)
    (λ r, r = if decide (a = b) then 1 else 0) (λ p, s1 + Z.of_nat (length a) - p.1)
    (streq_step m) (s1, s2)) as (r & Hr & ->); simpl; [| | |done].
  - exists a, b. split_and!; [done|done|done|lia].
  - destruct Ha. lia.
  - clear Ha Hb. intros [p q] (a' & b' & Ha & Hb & Hd & Hlen); simpl in *. unfold uld8.
    pose proof (us_addr _ _ _ Ha). pose proof (us_fits _ _ _ Ha). pose proof (us_addr _ _ _ Hb). pose proof (us_fits _ _ _ Hb).
    rewrite (u32_small p), (u32_small q) by lia.
    destruct a' as [|x a'], b' as [|y b'].
    + rewrite (ustring_nil _ _ Ha), (ustring_nil _ _ Hb), !bind_Some. eexists. split; [done|]. simpl. rewrite decide_True by tauto. done.
    + destruct (ustring_cons _ _ _ _ Hb) as (-> & Hy & _). rewrite (ustring_nil _ _ Ha), !bind_Some, (proj2 (Z.eqb_neq 0 y)) by lia.
      eexists. split; [done|]. simpl. rewrite decide_False by (rewrite <- Hd; done). done.
    + destruct (ustring_cons _ _ _ _ Ha) as (-> & Hx & _). rewrite (ustring_nil _ _ Hb), !bind_Some, !(proj2 (Z.eqb_neq x 0)) by lia.
      eexists. split; [done|]. simpl. rewrite decide_False by (rewrite <- Hd; done). done.
    + destruct (ustring_cons _ _ _ _ Ha) as (-> & Hx & Ha'). destruct (ustring_cons _ _ _ _ Hb) as (-> & Hy & Hb').
      rewrite !bind_Some, (proj2 (Z.eqb_neq x 0)) by lia. simpl in *. destruct (Z.eqb_spec x y) as [->|Hne].
      * eexists. split; [done|]. simpl. rewrite !u32_small by lia. split; [|lia].
        exists a', b'. split_and!; [done|done| |lia]. rewrite <- Hd. naive_solver.
      * eexists. split; [done|]. simpl. rewrite decide_False; [done|]. rewrite <- Hd. naive_solver.
Qed.

(** ** itoa *)

Lemma dec_value_snoc ds d : dec_value (ds ++ [d]) = 10 * dec_value ds + (d - 48).
Proof. unfold dec_value. by rewrite fold_left_app. Qed.

(** The value of digits with the lowest first. *)
Definition rev_value (ds : list Z) : Z := foldr (λ d v, (d - 48) + 10 * v) 0 ds.

Lemma rev_value_reverse ds : dec_value (reverse ds) = rev_value ds.
Proof. induction ds as [|d ds IH]; [done|]. rewrite reverse_cons, dec_value_snoc, IH. simpl. lia. Qed.

Lemma rev_value_snoc ds d : rev_value (ds ++ [d]) = rev_value ds + 10 ^ Z.of_nat (length ds) * (d - 48).
Proof.
  induction ds as [|x ds IH]; [simpl; lia|]. simpl length. rewrite Nat2Z.inj_succ, Z.pow_succ_r by lia.
  simpl. rewrite IH. lia.
Qed.

Lemma rev_value_nonneg ds : Forall digit ds → 0 <= rev_value ds.
Proof. induction 1 as [|d ds Hd _ IH]; simpl; [lia|]. unfold digit in Hd. lia. Qed.

(** What the first loop has written: [n] is what is left of [n0]. *)
Record written (n0 buf : Z) (m0 m : umem) (l : list Z) (n : Z) : Prop := {
  wr_changes : uchanges buf 12 m0 m;
  wr_bytes : ubytes m buf l;
  wr_rest : ∀ k, Z.of_nat (length l) <= k → m !! (buf + k) = m0 !! (buf + k);
  wr_digits : Forall digit l;
  wr_value : n0 = n * 10 ^ Z.of_nat (length l) + rev_value l;
  wr_left : 0 <= n;
  wr_last : n = 0 → ∃ d, last l = Some d ∧ d ≠ 48
}.

Lemma written_short n0 buf m0 m l n : written n0 buf m0 m l n → 0 < n0 < 2147483648 → 0 < n → (length l <= 9)%nat.
Proof.
  intros H Hn0 Hn. pose proof (wr_value _ _ _ _ _ _ H) as Hv. pose proof (rev_value_nonneg _ (wr_digits _ _ _ _ _ _ H)) as H0.
  destruct (Nat.le_gt_cases (length l) 9) as [|Hl]; [done|exfalso].
  assert (10 ^ 10 <= 10 ^ Z.of_nat (length l)) as Hp by (apply Z.pow_le_mono_r; lia).
  change (10 ^ 10) with 10000000000 in Hp. nia.
Qed.

Lemma written_step n0 buf m0 m l n : written n0 buf m0 m l n → ubuffer m0 buf 12 → 0 < n0 < 2147483648 → 0 < n →
  ∃ m' d, itoa_step buf (m, Z.of_nat (length l), n) = Some (inl (m', Z.of_nat (length (l ++ [d])), n / 10)) ∧
    written n0 buf m0 m' (l ++ [d]) (n / 10).
Proof.
  intros H Hb Hn0 Hn. pose proof (written_short _ _ _ _ _ _ H Hn0 Hn) as Hl. destruct H as [Hc Hby Hr Hd Hv _ _].
  unfold itoa_step. ztest. rewrite Z.rem_mod_nonneg, Z.quot_div_nonneg by lia. set (d := 48 + n mod 10).
  assert (digit d) as Hdig by (subst d; unfold digit; word_lia).
  destruct (ust8_buffer m buf 12 (Z.of_nat (length l)) d) as (m' & -> & Hc' & Hm');
    [by eapply ubuffer_changes|lia|unfold digit in Hdig; lia|].
  exists m', d. rewrite bind_Some, length_app. simpl length. rewrite Nat2Z.inj_add.
  split; [reflexivity|]. split.
  - by eapply uchanges_trans.
  - intros i b Hi. rewrite Hm'. case_decide as E.
    + assert (i = length l) as -> by lia. rewrite list_lookup_middle in Hi; [congruence|done].
    + apply Hby. apply lookup_app_Some in Hi as [Hi|[Hge Hi]]; [done|]. apply list_lookup_singleton_Some in Hi as [? _]. lia.
  - intros k Hk. rewrite length_app in Hk. simpl in Hk. rewrite Hm', decide_False by lia. apply Hr. lia.
  - apply Forall_app. split; [done|by apply Forall_singleton].
  - rewrite rev_value_snoc, length_app, Hv, Nat2Z.inj_add, Z.pow_add_r by lia. simpl length. change (10 ^ Z.of_nat 1) with 10.
    subst d. rewrite (Z.div_mod n 10) at 1 by lia. lia.
  - word_lia.
  - intros H0. exists d. rewrite last_snoc. split; [done|]. subst d. word_lia.
Qed.

Lemma itoa_digits n0 buf m0 : ubuffer m0 buf 12 → 0 < n0 < 2147483648 →
  ∃ m l, while (itoa_step buf) (m0, 0, n0) = Some (m, Z.of_nat (length l)) ∧ written n0 buf m0 m l 0.
Proof.
  intros Hb Hn0.
  destruct (while_ind (λ s, ∃ m l n, s = (m, Z.of_nat (length l), n) ∧ written n0 buf m0 m l n)
    (λ r, ∃ m l, r = (m, Z.of_nat (length l)) ∧ written n0 buf m0 m l 0) (λ s, s.2) (itoa_step buf) (m0, 0, n0))
    as (r & Hr & m & l & -> & Hw).
  - exists m0, [], n0. split; [done|]. split; try done.
    + simpl. lia.
    + lia.
    + lia.
  - simpl. lia.
  - intros s (m & l & n & -> & Hw). destruct (decide (n = 0)) as [->|Hne].
    + eexists. split; [reflexivity|]. simpl. by exists m, l.
    + pose proof (wr_left _ _ _ _ _ _ Hw). destruct (written_step _ _ _ _ _ _ Hw Hb Hn0) as (m' & d & -> & Hw'); [lia|].
      eexists. split; [reflexivity|]. simpl. split; [by eexists _, _, _|]. word_lia.
  - exists m, l. by split.
Qed.

(** The digits when [j] pairs have been swapped. *)
Definition swapped (l : list Z) (j k : Z) : Z :=
  let i := Z.of_nat (length l) in
  nth (Z.to_nat (if (k <? j) || (i - j <=? k) then i - 1 - k else k)) l 0.

Lemma swapped_all l k : 0 <= k < Z.of_nat (length l) →
  swapped l (Z.of_nat (length l) / 2) k = nth (Z.to_nat (Z.of_nat (length l) - 1 - k)) l 0.
Proof.
  intros Hk. unfold swapped. cbv zeta. set (i := Z.of_nat (length l)) in *.
  destruct (Z.ltb_spec k (i / 2)), (Z.leb_spec (i - i / 2) k); cbn [orb]; try done.
  by replace k with (i - 1 - k) at 1 by word_lia.
Qed.

Lemma swapped_step l j k : 0 <= j < Z.of_nat (length l) / 2 → 0 <= k < Z.of_nat (length l) →
  swapped l (j + 1) k = (if decide (k = Z.of_nat (length l) - 1 - j) then swapped l j j
                         else if decide (k = j) then swapped l j (Z.of_nat (length l) - 1 - j) else swapped l j k).
Proof.
  intros Hj Hk. unfold swapped. cbv zeta. set (i := Z.of_nat (length l)) in *. assert (2 * (i / 2) <= i) by word_lia.
  repeat case_decide; repeat (zcase; cbn [orb]; try lia); do 2 f_equal; lia.
Qed.

Lemma itoa_swaps buf m l : ubuffer m buf 12 → (length l <= 10)%nat → Forall digit l → ubytes m buf l →
  ∃ m', for_range 0 (Z.quot (Z.of_nat (length l)) 2) (itoa_swap buf (Z.of_nat (length l))) m = Some m' ∧
    uchanges buf 12 m m' ∧ ubytes m' buf (reverse l) ∧ m' !! (buf + Z.of_nat (length l)) = m !! (buf + Z.of_nat (length l)) ∧
    (∀ k, Z.of_nat (length l) < k → m' !! (buf + k) = m !! (buf + k)).
Proof.
  intros Hb Hl Hd Hby. rewrite Z.quot_div_nonneg by lia. set (i := Z.of_nat (length l)).
  destruct (for_range_ind (λ j m', uchanges buf 12 m m' ∧ (∀ k, 0 <= k < i → m' !! (buf + k) = Some (swapped l j k)) ∧
      (∀ k, i <= k → m' !! (buf + k) = m !! (buf + k))) (itoa_swap buf i) 0 (i / 2) m) as (m' & -> & Hc & Hs & Hr).
  - word_lia.
  - split; [by split|]. split; [|done]. intros k Hk. unfold swapped. fold i.
    rewrite (proj2 (Z.ltb_ge k 0)), (proj2 (Z.leb_gt (i - 0) k)) by lia. cbn [orb].
    destruct (lookup_lt_is_Some_2 l (Z.to_nat k)) as [d Hlk]; [lia|]. pose proof (Hby _ _ Hlk) as Hm. rewrite Z2Nat.id in Hm by lia.
    rewrite Hm. by rewrite (nth_lookup_Some _ _ 0 _ Hlk).
  - intros j m1 Hj (Hc & Hs & Hr). assert (2 * (i / 2) <= i) by word_lia.
    assert (∀ k, is_u8 (swapped l j k)) as Hu8.
    { intros k. unfold swapped. cbv zeta. destruct (nth_lookup_or_length l (Z.to_nat (if (k <? j) || (Z.of_nat (length l) - j <=? k)
        then Z.of_nat (length l) - 1 - k else k)) 0) as [Hlk|Hge].
      - pose proof (Forall_lookup_1 _ _ _ _ Hd Hlk) as Hdig. unfold digit in Hdig. lia.
      - rewrite nth_overflow by exact Hge. lia. }
    pose proof (ubuffer_changes _ _ _ _ _ _ Hb Hc) as Hb1. pose proof Hb1 as (B0 & B1 & _).
    unfold itoa_swap. rewrite !uld8_at by lia. rewrite (Hs j), (Hs (i - 1 - j)), !bind_Some by lia.
    destruct (ust8_buffer m1 buf 12 j _ Hb1 ltac:(lia) (Hu8 (i - 1 - j))) as (m2 & -> & Hc2 & H2). rewrite bind_Some.
    destruct (ust8_buffer m2 buf 12 (i - 1 - j) _ (ubuffer_changes _ _ _ _ _ _ Hb1 Hc2) ltac:(lia) (Hu8 j)) as (m3 & -> & Hc3 & H3).
    exists m3. split; [done|]. split; [by eapply uchanges_trans; [|eapply uchanges_trans]|]. split.
    + intros k Hk. rewrite H3, H2, swapped_step by done. fold i. repeat case_decide; try done. by apply Hs.
    + intros k Hk. rewrite H3, H2, !decide_False by lia. by apply Hr.
  - exists m'. split; [done|]. split; [done|]. split; [|split; [by apply Hr|intros k Hk; apply Hr; lia]].
    intros k d Hk. apply reverse_lookup_Some in Hk as [Hk Hkl]. rewrite Hs by lia. unfold i. rewrite swapped_all by lia.
    f_equal. replace (Z.to_nat _) with (length l - S k)%nat by lia. by apply nth_lookup_Some.
Qed.

Lemma itoa_spec n buf m : ubuffer m buf 12 → 0 < n < 2147483648 →
  ∃ m' ds, itoa n buf m = Some m' ∧ ustring m' buf ds ∧ Forall digit ds ∧ dec_value ds = n ∧ (∃ d, head ds = Some d ∧ d ≠ 48) ∧
    (length ds <= 10)%nat ∧ uchanges buf 12 m m'.
Proof.
  intros Hb Hn. unfold itoa. rewrite (proj2 (Z.eqb_neq n 0)) by lia.
  destruct (itoa_digits n buf m Hb Hn) as (m1 & l & -> & [Hc Hby Hr Hd Hv _ Hlast]). rewrite bind_Some.
  specialize (Hlast eq_refl) as (d & Hlast & Hd0). apply last_Some in Hlast as [l0 ->].
  assert (length (l0 ++ [d]) <= 10)%nat as Hl.
  { apply Forall_app in Hd as [Hd Hdd]. rewrite Forall_singleton in Hdd. unfold digit in Hdd.
    rewrite length_app. simpl. destruct (Nat.le_gt_cases (length l0) 9) as [|Hl]; [lia|exfalso].
    rewrite rev_value_snoc in Hv. pose proof (rev_value_nonneg _ Hd).
    assert (10 ^ 10 <= 10 ^ Z.of_nat (length l0)) as Hp by (apply Z.pow_le_mono_r; lia). change (10 ^ 10) with 10000000000 in Hp. nia. }
  set (l := l0 ++ [d]) in *. destruct (ust8_buffer m1 buf 12 (Z.of_nat (length l)) 0) as (m2 & -> & Hc2 & H2);
    [by eapply ubuffer_changes|lia|lia|]. rewrite bind_Some.
  assert (ubytes m2 buf l) as Hby2.
  { intros k x Hk. pose proof (lookup_lt_Some _ _ _ Hk). rewrite H2, decide_False by lia. by apply Hby. }
  destruct (itoa_swaps buf m2 l) as (m3 & -> & Hc3 & Hby3 & Hnul & _); [by do 2 (eapply ubuffer_changes; [|eassumption])|done|done|done|].
  destruct Hb as (B0 & B1 & _). exists m3, (reverse l). split; [done|]. split.
  { split; [lia|rewrite length_reverse; lia|done| |].
    - apply Forall_reverse. apply (Forall_impl _ _ _ Hd). unfold digit. lia.
    - rewrite length_reverse, Hnul, H2, decide_True; done. }
  split; [by apply Forall_reverse|]. split; [rewrite rev_value_reverse; lia|]. split.
  - exists d. subst l. by rewrite reverse_snoc.
  - rewrite length_reverse. split; [done|]. by do 2 (eapply uchanges_trans; [eassumption|]).
Qed.

Lemma itoa_all n buf m : ubuffer m buf 12 → -2147483648 <= n < 2147483648 →
  ∃ m' ds, itoa n buf m = Some m' ∧ ustring m' buf ds ∧ uchanges buf 12 m m' ∧ (length ds <= 10)%nat ∧
    ustrlen m' buf = Some (Z.of_nat (length ds)) ∧
    (n < 0 → ds = []) ∧
    (0 <= n → Forall digit ds ∧ dec_value ds = n ∧ (n = 0 → ds = [48]) ∧ (0 < n → head ds ≠ Some 48)).
Proof.
  intros Hb Hn. pose proof Hb as (B0 & B1 & _). destruct (Z.lt_trichotomy n 0) as [H|[->|H]].
  - destruct (ust8_buffer m buf 12 0 0 Hb) as (m' & E & Hc & Hm); [lia|lia|].
    assert (ustring m' buf []) as Hs.
    { split; [lia|simpl; lia|done|done|]. simpl. by rewrite Hm. }
    exists m', []. unfold itoa. rewrite (proj2 (Z.eqb_neq n 0)) by lia.
    assert (while (itoa_step buf) (m, 0, n) = Some (m, 0)) as ->.
    { destruct (while_ind (λ s, s = (m, 0, n)) (λ r, r = (m, 0)) (λ _, 0) (itoa_step buf) (m, 0, n)) as (r & -> & ->); [done|lia| |done].
      intros s ->. unfold itoa_step. rewrite (proj2 (Z.ltb_ge 0 n)) by lia. by eexists. }
    rewrite bind_Some, E, bind_Some. split; [by rewrite for_range_nil|]. split; [done|]. split; [done|]. split; [simpl; lia|].
    split; [by apply ustrlen_spec|]. split; [done|lia].
  - destruct (ust8_buffer m buf 12 0 48 Hb) as (m1 & E1 & Hc1 & Hm1); [lia|lia|].
    destruct (ust8_buffer m1 buf 12 1 0 (ubuffer_changes _ _ _ _ _ _ Hb Hc1)) as (m2 & E2 & Hc2 & Hm2); [lia|lia|].
    assert (ustring m2 buf [48]) as Hs.
    { split; [lia|simpl; lia| |repeat constructor|simpl; by rewrite Hm2].
      intros [|[]] b Hi; simpl in *; simplify_eq. by rewrite Hm2, decide_False, Hm1, decide_True. }
    exists m2, [48]. unfold itoa. simpl (0 =? 0). replace (ust8 m buf 48) with (ust8 m (buf +ᵤ 0) 48).
    + rewrite E1, bind_Some. split; [done|]. split; [done|]. split; [by eapply uchanges_trans|]. split; [simpl; lia|].
      split; [by apply ustrlen_spec|]. split; [lia|]. intros _. split; [repeat constructor; unfold digit; lia|]. split; [done|]. split; [done|lia].
    + unfold ust8. by rewrite Z.add_0_r, !(u32_small (u32 buf)) by apply u32_range.
  - destruct (itoa_spec n buf m Hb) as (m' & ds & E & Hs & Hd & Hv & (d & Hh & H48) & Hl & Hc); [lia|].
    exists m', ds. split_and!; try done; [by apply ustrlen_spec|lia|]. intros _. split_and!; try done; [lia|congruence].
Qed.

(** *** The numeral as a function *)

Fixpoint rev_digits (fuel : nat) (n : Z) : list Z :=
  match fuel with
  | O => []
  | S f => if n <=? 0 then [] else (48 + n mod 10) :: rev_digits f (n / 10)
  end.

(** The numeral of an [int] as itoa has it: ten digits are enough. *)
Definition decimal (n : Z) : list Z := if n =? 0 then [48] else reverse (rev_digits 10 n).

Lemma rev_digits_unique l fuel : Forall digit l → (∀ d, last l = Some d → d ≠ 48) → (length l <= fuel)%nat →
  rev_digits fuel (rev_value l) = l.
Proof.
  revert fuel. induction l as [|d l IH]; intros fuel HF Hlast Hf; [by destruct fuel|].
  destruct fuel as [|fuel]; [simpl in Hf; lia|]. apply Forall_cons in HF as [Hd HF]. cbn [rev_digits rev_value foldr]. fold (rev_value l).
  pose proof (rev_value_nonneg l HF) as H0. unfold digit in Hd.
  assert (0 < d - 48 + 10 * rev_value l) as Hpos.
  { destruct l as [|e l]; [pose proof (Hlast d eq_refl); simpl; lia|].
    enough (rev_value (e :: l) ≠ 0) by lia. intros E. specialize (IH (length (e :: l)) HF).
    rewrite E in IH. cbn in IH. specialize (IH ltac:(intros x Hx; apply Hlast; rewrite last_cons_cons; exact Hx) ltac:(lia)). done. }
  rewrite (proj2 (Z.leb_gt _ 0)) by lia. f_equal; [word_lia|].
  replace ((d - 48 + 10 * rev_value l) / 10) with (rev_value l) by word_lia. apply IH; [done| |simpl in Hf; lia].
  intros x Hx. apply Hlast. destruct l; [done|]. by rewrite last_cons_cons.
Qed.

Lemma itoa_decimal n buf m : ubuffer m buf 12 → -2147483648 <= n < 2147483648 →
  ∃ m', itoa n buf m = Some m' ∧ ustring m' buf (decimal n) ∧ uchanges buf 12 m m' ∧ (length (decimal n) <= 10)%nat.
Proof.
  intros Hb Hn. destruct (itoa_all n buf m Hb Hn) as (m' & ds & E & Hs & Hc & Hl & _ & Hneg & Hnon). exists m'. split; [done|].
  enough (decimal n = ds) as -> by done. unfold decimal. destruct (Z.lt_trichotomy n 0) as [H|[->|H]].
  - rewrite Hneg by done. rewrite (proj2 (Z.eqb_neq n 0)) by lia. cbn [rev_digits]. by rewrite (proj2 (Z.leb_le n 0)) by lia.
  - destruct Hnon as (_ & _ & H0 & _); [lia|]. by rewrite H0.
  - destruct Hnon as (Hd & Hv & _ & Hh); [lia|]. rewrite (proj2 (Z.eqb_neq n 0)) by lia.
    assert (rev_value (reverse ds) = n) as <- by (by rewrite <- rev_value_reverse, reverse_involutive).
    rewrite rev_digits_unique; [apply reverse_involutive|by apply Forall_reverse| |by rewrite length_reverse].
    intros d Hd' ->. apply Hh; [lia|]. rewrite <- (reverse_involutive ds). apply last_Some in Hd' as [l ->]. by rewrite reverse_snoc.
Qed.

(** ** Properties *)

(** C40: itoa writes the decimal numeral of a non-negative int, without leading
    zeros and with its NUL, into a buffer of 12 bytes and nowhere else; ustrlen
    of it is its length, and it is read back as the number.  A negative number
    comes out as the empty string. *)
Theorem itoa_roundtrip n buf m : ubuffer m buf 12 → -2147483648 <= n < 2147483648 →
  ∃ m' ds, itoa n buf m = Some m' ∧ ustring m' buf ds ∧ uchanges buf 12 m m' ∧ (length ds <= 10)%nat ∧
    ustrlen m' buf = Some (Z.of_nat (length ds)) ∧
    (n < 0 → ds = []) ∧
    (0 <= n → Forall digit ds ∧ dec_value ds = n ∧ (n = 0 → ds = [48]) ∧ (0 < n → head ds ≠ Some 48)).
Proof. apply itoa_all. Qed.

(** ** Witnesses *)

Lemma itoa_roundtrip_witness : ∃ m' ds,
  itoa 305 0x1000 (list_to_map (map (λ k, (0x1000 + k, 0)) (seqZ 0 12))) = Some m' ∧ ustring m' 0x1000 ds ∧ dec_value ds = 305.
Proof.
  destruct (itoa_roundtrip 305 0x1000 (list_to_map (map (λ k, (0x1000 + k, 0)) (seqZ 0 12)))) as (m' & ds & E & Hs & _ & _ & _ & _ & Hv).
  - split; [lia|]. split; [lia|]. intros k Hk.
    assert (k = 0 ∨ k = 1 ∨ k = 2 ∨ k = 3 ∨ k = 4 ∨ k = 5 ∨ k = 6 ∨ k = 7 ∨ k = 8 ∨ k = 9 ∨ k = 10 ∨ k = 11) as Hin by lia.
    destruct_or! Hin; rewrite Hin; eexists; vm_compute; reflexivity.
  - lia.
  - exists m', ds. split; [exact E|]. split; [exact Hs|]. exact (proj1 (proj2 (Hv ltac:(lia)))).
Defined.

Example itoa_305 : (m ← itoa 305 0x1000 (list_to_map (map (λ k, (0x1000 + k, 0)) (seqZ 0 12)));
  Some (map (λ k, uld8 m (0x1000 + k)) (seqZ 0 4))) = Some [Some 51; Some 48; Some 53; Some 0].
Proof. vm_compute. reflexivity. Qed.
