(* ===== verification/Usys.v ===== *)
(** * programs/syscall.h: the system calls as the programs see them

    A user program is an interaction tree: its events are the system calls, with
    the registers the wrapper sets and the memory at that moment, and the page
    fault.  The answer to a call is the register eax and the memory afterwards.

    [os_handler] answers the calls as syscall_dispatch does, from the point of
    view of one process: it keeps a log of what the process did, and takes what
    depends on others from arguments: the lines typed, the result of each
    SYS_SPAWN, the process table, the names of the files, and which processes
    end.  A process that never gets the processor back is [Gone]; one that waits
    for a process that never ends is. *)

From stdpp Require Import prelude gmap strings.
From Stdlib Require Import ZArith Lia.
From ITree Require Import ITree ITreeFacts Events.State Events.StateFacts.
From S2P Require Import Prelude Memory Fs Process Ulib.

Abbreviation SYS_WRITE := 1.
Abbreviation SYS_EXIT := 2.
Abbreviation SYS_YIELD := 3.
Abbreviation SYS_SPAWN := 4.
Abbreviation SYS_READ := 5.
Abbreviation SYS_WAIT := 6.
Abbreviation SYS_GETPROCS := 7.
Abbreviation SYS_LISTFILES := 8.
Abbreviation SYS_CLEAR := 9.

Declare Scope prog_scope.
Notation "'let*' x := t 'in' k" := (ITree.bind t (λ x, k))
  (at level 10, x name, t at level 100, k at level 200) : prog_scope.
Notation "'let*' x , y := t 'in' k" := (ITree.bind t (λ r, match r with (x, y) => k end))
  (at level 10, x name, y name, t at level 100, k at level 200) : prog_scope.
Notation "a ≈ₜ b" := (eutt eq a b) (at level 70) : prog_scope.
Global Open Scope prog_scope.

(** ** Programs *)

Variant sysE : Type → Type :=
  | Sys (eax : Z) (args : list Z) (m : umem) : sysE (Z * umem)
  | Fault : sysE void.

(** A memory access: [None] is a page fault. *)
Definition lift {A} (o : option A) : itree sysE A :=
  match o with
  | Some a => Ret a
  | None => let* v := ITree.trigger Fault in match (v : void) with end
  end.

(** The wrappers; [args] are ebx and ecx, as far as the wrapper sets them, and an
    [int] result is the signed reading of eax. *)
Definition int_call (n : Z) (args : list Z) (m : umem) : itree sysE (Z * umem) :=
  let* eax, m := ITree.trigger (Sys n args m) in Ret (s32 eax, m).
Definition void_call (n : Z) (args : list Z) (m : umem) : itree sysE umem :=
  let* eax, m := ITree.trigger (Sys n args m) in Ret m.

Definition write (buf len : Z) (m : umem) := int_call SYS_WRITE [buf; len] m.
Definition exit {A} (m : umem) : itree sysE A :=
  let* _, _ := ITree.trigger (Sys SYS_EXIT [] m) in ITree.spin.
Definition yield (m : umem) := void_call SYS_YIELD [] m.
Definition spawn (name : Z) (m : umem) := int_call SYS_SPAWN [name] m.
Definition read (buf max : Z) (m : umem) := int_call SYS_READ [buf; max] m.
Definition wait (pid : Z) (m : umem) := int_call SYS_WAIT [u32 pid] m.
Definition getprocs (buf max : Z) (m : umem) := int_call SYS_GETPROCS [buf; u32 max] m.
Definition listfiles (buf max : Z) (m : umem) := int_call SYS_LISTFILES [buf; max] m.
Definition clear (m : umem) := void_call SYS_CLEAR [] m.

(** ** The operating system, as one process sees it *)

Inductive event :=
  | EWrite (bs : list Z)
  | EClear
  | ESpawn (name : list Z)
  | EWait (pid : Z)
  | EExit.

(** What the process did, and the lines still to be typed. *)
Record os := mkOs { o_log : list event; o_input : list (list Z) }.

Definition log (e : event) (s : os) : os := mkOs (o_log s ++ [e]) (o_input s).

(** Buffers and strings of the process. *)
Fixpoint uread (m : umem) (a : Z) (n : nat) : option (list Z) :=
  match n with
  | O => Some []
  | S n' => b ← uld8 m a; bs ← uread m (a + 1) n'; Some (b :: bs)
  end.
Fixpoint uwrite (m : umem) (a : Z) (bs : list Z) : option umem :=
  match bs with
  | [] => Some m
  | b :: bs' => m ← ust8 m a b; uwrite m (a + 1) bs'
  end.
Definition uread_string (m : umem) (a : Z) : option (list Z) :=
  n ← ustrlen m a; uread m a (Z.to_nat n).

(** The others: the result of SYS_SPAWN of a name, the processes there are, the
    files there are, and whether the process with a number is dead or dies some
    time, as seen after what this one did. *)
Record world := mkWorld {
  w_spawn : list event → list Z → Z;
  w_procs : list event → list process;
  w_files : list file;
  w_ends : list event → Z → bool
}.

Section os.
Context (w : world).

(** One call: the answer, or [None] when the process does not get the processor
    again; the outer [None] is a pointer to memory that is not there. *)
Definition os_call (n : Z) (args : list Z) (m : umem) (s : os) : option (os * option (Z * umem)) :=
  if n =? SYS_EXIT then Some (log EExit s, None)
  else if n =? SYS_YIELD then Some (s, Some (n, m))
  else if n =? SYS_CLEAR then Some (log EClear s, Some (0, m))
  else if n =? SYS_SPAWN then
    match args with
    | [name] => bs ← uread_string m name; Some (log (ESpawn bs) s, Some (u32 (w_spawn w (o_log s) bs), m))
    | _ => None
    end
  else if n =? SYS_WAIT then
    match args with
    | [pid] => Some (log (EWait pid) s, if w_ends w (o_log s) pid then Some (0, m) else None)
    | _ => None
    end
  else
    match args with
    | [buf; len] =>
        if n =? SYS_WRITE then bs ← uread m buf (Z.to_nat len); Some (log (EWrite bs) s, Some (len, m))
        else if n =? SYS_READ then
          match o_input s with
          | [] => Some (s, None)
          | l :: ls =>
              let out := take (Z.to_nat len) l in
              m ← uwrite m buf out; Some (mkOs (o_log s) ls, Some (Z.of_nat (length out), m))
          end
        else if n =? SYS_GETPROCS then
          let out := take (Z.to_nat (s32 len)) (live (w_procs w (o_log s))) in
          m ← uwrite m buf (out ≫= info_bytes); Some (s, Some (Z.of_nat (length out), m))
        else if n =? SYS_LISTFILES then
          let out := listing len (w_files w) in
          m ← uwrite m buf (out ++ [0]); Some (s, Some (Z.of_nat (length out), m))
        else Some (s, Some (0xFFFFFFFF, m))
    | _ => None
    end.
End os.

(** The process does not run any more, or made an access that faults. *)
Variant goneE : Type → Type :=
  | Gone (s : os) : goneE void
  | Crashed (s : os) : goneE void.

Definition stop {A} (e : goneE void) : itree goneE A :=
  let* v := ITree.trigger e in match (v : void) with end.

Definition os_handler (w : world) : ∀ T, sysE T → Monads.stateT os (itree goneE) T :=
  λ T e s,
    match e in sysE T return itree goneE (os * T) with
    | Sys n args m =>
        match os_call w n args m s with
        | Some (s', Some r) => Ret (s', r)
        | Some (s', None) => stop (Gone s')
        | None => stop (Crashed s)
        end
    | Fault => stop (Crashed s)
    end.

(** programs/start.s: main is called, and if it returns, `jmp $`. *)
Definition start {A B} (main : umem → itree sysE A) (m : umem) : itree sysE B :=
  let* _ := main m in ITree.spin.

(** The whole run of a program. *)
Definition run {A} (w : world) (t : itree sysE A) (s : os) : itree goneE (os * A) :=
  interp_state (os_handler w) t s.

(** ** Rules for runs *)

Lemma stop_bind {A B} e (k : A → itree goneE B) : ITree.bind (stop e) k ≈ₜ stop e.
Proof.
  unfold stop. rewrite bind_bind. eapply eqit_bind; [reflexivity|]. intros [].
Qed.

(** A program whose main ends the process or never returns runs as main does. *)
Lemma run_start {A B} w (main : umem → itree sysE A) m s e : run w (main m) s ≈ₜ stop e → run w (start (B := B) main m) s ≈ₜ stop e.
Proof. intros H. unfold run, start in *. rewrite interp_state_bind, H. apply stop_bind. Qed.

Section rules.
Context (w : world) {A : Type}.
Implicit Types (s : os) (m : umem).

Lemma run_sys n args m s s' r (k : Z * umem → itree sysE A) : os_call w n args m s = Some (s', Some r) →
  run w (ITree.bind (ITree.trigger (Sys n args m)) k) s ≈ₜ run w (k r) s'.
Proof.
  intros E. unfold run. rewrite interp_state_bind, interp_state_trigger. unfold os_handler. rewrite E, bind_ret_l. reflexivity.
Qed.

Lemma run_gone n args m s s' (k : Z * umem → itree sysE A) : os_call w n args m s = Some (s', None) →
  run w (ITree.bind (ITree.trigger (Sys n args m)) k) s ≈ₜ stop (Gone s').
Proof.
  intros E. unfold run. rewrite interp_state_bind, interp_state_trigger. unfold os_handler. rewrite E. apply stop_bind.
Qed.

Lemma run_lift {B} (o : option B) b s (k : B → itree sysE A) : o = Some b →
  run w (ITree.bind (lift o) k) s ≈ₜ run w (k b) s.
Proof. intros ->. unfold run, lift. rewrite bind_ret_l. reflexivity. Qed.

Lemma run_bind_bind {B C} (t : itree sysE B) (h : B → itree sysE C) (k : C → itree sysE A) s :
  run w (ITree.bind (ITree.bind t h) k) s ≈ₜ run w (ITree.bind t (λ x, ITree.bind (h x) k)) s.
Proof. unfold run. rewrite bind_bind. reflexivity. Qed.

Lemma run_ret_bind {B} (b : B) (k : B → itree sysE A) s : run w (ITree.bind (Ret b) k) s ≈ₜ run w (k b) s.
Proof. unfold run. rewrite bind_ret_l. reflexivity. Qed.

Lemma run_int_call n args m s s' v m' (k : Z * umem → itree sysE A) : os_call w n args m s = Some (s', Some (v, m')) →
  run w (ITree.bind (int_call n args m) k) s ≈ₜ run w (k (s32 v, m')) s'.
Proof.
  intros E. unfold int_call. rewrite run_bind_bind, (run_sys _ _ _ _ _ _ _ E), run_ret_bind. reflexivity.
Qed.

Lemma run_void_call n args m s s' v m' (k : umem → itree sysE A) : os_call w n args m s = Some (s', Some (v, m')) →
  run w (ITree.bind (void_call n args m) k) s ≈ₜ run w (k m') s'.
Proof.
  intros E. unfold void_call. rewrite run_bind_bind, (run_sys _ _ _ _ _ _ _ E), run_ret_bind. reflexivity.
Qed.

Lemma run_exit m s : run w (exit (A := A) m) s ≈ₜ stop (Gone (log EExit s)).
Proof. unfold exit. by apply run_gone. Qed.

(** One turn of a loop that goes round again. *)
Lemma run_iter {I} (body : I → itree sysE (I + A)) i s (t : itree goneE (os * A)) :
  run w (ITree.bind (body i) (λ r, match r with inl j => ITree.iter body j | inr a => Ret a end)) s ≈ₜ t →
  run w (ITree.iter body i) s ≈ₜ t.
Proof.
  intros H. rewrite <- H. unfold run. rewrite unfold_iter. eapply eutt_interp_state_eq; [|reflexivity].
  eapply eqit_bind; [reflexivity|]. intros [j|a]; [apply tau_eutt|reflexivity].
Qed.

(** The same for a loop inside a program. *)
Lemma run_loop_bind {I B} (body : I → itree sysE (I + B)) i s (k : B → itree sysE A) (t : itree goneE (os * A)) :
  run w (ITree.bind (body i) (λ r, match r with inl j => ITree.bind (ITree.iter body j) k | inr b => k b end)) s ≈ₜ t →
  run w (ITree.bind (ITree.iter body i) k) s ≈ₜ t.
Proof.
  intros H. rewrite <- H. unfold run. eapply eutt_interp_state_eq; [|reflexivity]. rewrite unfold_iter, bind_bind.
  eapply eqit_bind; [reflexivity|]. intros [j|b]; [by rewrite tau_eutt|by rewrite bind_ret_l].
Qed.
End rules.

(** ** Buffers *)

Lemma s32_range v : -2147483648 <= s32 v < 2147483648.
Proof. unfold s32. pose proof (u32_range v). cbv zeta. zcase; lia. Qed.

Lemma ust8_u32 m a v : ust8 m (u32 a) v = ust8 m a v.
Proof. unfold ust8. by rewrite !(u32_small (u32 a)) by apply u32_range. Qed.

Lemma uread_spec m a bs : ubytes m a bs → 0 <= a → a + Z.of_nat (length bs) <= 4294967296 →
  uread m a (length bs) = Some bs.
Proof.
  revert a. induction bs as [|b bs IH]; intros a Hb Ha Hf; [done|]. simpl in *. unfold uld8. rewrite u32_small by lia.
  pose proof (Hb O b eq_refl) as H0. rewrite Z.add_0_r in H0. rewrite H0, bind_Some, IH; [done| |lia|lia].
  intros i c Hi. replace (a + 1 + Z.of_nat i) with (a + Z.of_nat (S i)) by lia. by apply Hb.
Qed.

Lemma uread_string_spec m a bs : ustring m a bs → uread_string m a = Some bs.
Proof.
  intros H. unfold uread_string. rewrite (ustrlen_spec _ _ _ H), bind_Some, Nat2Z.id. destruct H. apply uread_spec; [done|lia|lia].
Qed.

Lemma uwrite_at m a len k bs : ubuffer m a len → 0 <= k → k + Z.of_nat (length bs) <= len → Forall (λ b, is_u8 b) bs →
  ∃ m', uwrite m (a + k) bs = Some m' ∧ uchanges a len m m' ∧ ubytes m' (a + k) bs ∧
    (∀ j, j < k ∨ k + Z.of_nat (length bs) <= j → m' !! (a + j) = m !! (a + j)).
Proof.
  intros Hb Hk Hl HF. revert m k Hb Hk Hl. induction HF as [|b bs Hu _ IH]; intros m k Hb Hk Hl.
  - exists m. split; [done|]. split; [by split|]. split; [done|]. done.
  - cbn [uwrite]. simpl in Hl. rewrite <- ust8_u32. destruct (ust8_buffer m a len k b Hb) as (m1 & -> & Hc1 & H1); [lia|done|].
    rewrite bind_Some. replace (a + k + 1) with (a + (k + 1)) by lia.
    destruct (IH m1 (k + 1)) as (m2 & -> & Hc2 & Hb2 & H2); [by eapply ubuffer_changes|lia|lia|].
    exists m2. split; [done|]. split; [by eapply uchanges_trans|]. split.
    + intros [|i] c Hi; simpl in Hi; simplify_eq.
      * rewrite Z.add_0_r, H2 by lia. rewrite H1. by rewrite decide_True.
      * replace (a + k + Z.of_nat (S i)) with (a + (k + 1) + Z.of_nat i) by lia. by apply Hb2.
    + simpl. intros j Hj. rewrite H2, H1, decide_False by lia. done.
Qed.

Lemma uwrite_spec m a len bs : ubuffer m a len → Z.of_nat (length bs) <= len → Forall (λ b, is_u8 b) bs →
  ∃ m', uwrite m a bs = Some m' ∧ uchanges a len m m' ∧ ubytes m' a bs.
Proof.
  intros Hb Hl HF. destruct (uwrite_at m a len 0 bs Hb) as (m' & E & Hc & Hby & _); [lia|lia|done|].
  rewrite Z.add_0_r in *. by exists m'.
Qed.

Lemma ubytes_app m a b1 b2 : ubytes m a (b1 ++ b2) ↔ ubytes m a b1 ∧ ubytes m (a + Z.of_nat (length b1)) b2.
Proof.
  split.
  - intros H. split; intros i b Hi.
    + apply H. by apply lookup_app_l_Some.
    + rewrite <- Z.add_assoc, <- Nat2Z.inj_add. apply H. by rewrite lookup_app_r, Nat.add_sub' by lia.
  - intros [H1 H2] i b [Hi|[Hge Hi]]%lookup_app_Some; [by apply H1|].
    replace (a + Z.of_nat i) with (a + Z.of_nat (length b1) + Z.of_nat (i - length b1)) by lia. by apply H2.
Qed.

Lemma ubytes_changes m m' a len x bs : ubytes m x bs → uchanges a len m m' →
  x + Z.of_nat (length bs) <= a ∨ a + len <= x → ubytes m' x bs.
Proof. intros Hb [_ Hc] Ha i b Hi. pose proof (lookup_lt_Some _ _ _ Hi). rewrite Hc by lia. by apply Hb. Qed.

(** Strings survive changes elsewhere. *)
Lemma ustring_changes m m' a len s bs : ustring m s bs → uchanges a len m m' →
  s + Z.of_nat (length bs) < a ∨ a + len <= s → ustring m' s bs.
Proof.
  intros [H1 H2 H3 H4 H5] [_ Hc] Ha. split; [done|done| |done|].
  - intros i b Hi. pose proof (lookup_lt_Some _ _ _ Hi). rewrite Hc by lia. by apply H3.
  - rewrite Hc by lia. done.
Qed.

Lemma ubuffer_shorter a len len' m : ubuffer m a len' → len <= len' → ubuffer m a len.
Proof. intros (H0 & H1 & Hk) Hl. split; [done|]. split; [lia|]. intros k Hk'. apply Hk. lia. Qed.

(** ** Rules for the calls *)

Section calls.
Context (w : world) {A : Type}.

Lemma run_write buf bs m s (k : Z * umem → itree sysE A) : ubytes m buf bs → 0 <= buf → buf + Z.of_nat (length bs) <= 4294967296 →
  Z.of_nat (length bs) < 2147483648 →
  run w (ITree.bind (write buf (Z.of_nat (length bs)) m) k) s ≈ₜ run w (k (Z.of_nat (length bs), m)) (log (EWrite bs) s).
Proof.
  intros Hb H0 Hf Hl. unfold write. rewrite (run_int_call w _ _ _ s (log (EWrite bs) s) (Z.of_nat (length bs)) m).
  - rewrite s32_small by lia. reflexivity.
  - cbn. by rewrite Nat2Z.id, uread_spec.
Qed.

Lemma run_clear m s (k : umem → itree sysE A) : run w (ITree.bind (clear m) k) s ≈ₜ run w (k m) (log EClear s).
Proof. unfold clear. by rewrite (run_void_call w _ _ _ s (log EClear s) 0 m). Qed.

(** [wait] returns when the process ends, and never when it does not. *)
Lemma run_wait pid m s (k : Z * umem → itree sysE A) :
  run w (ITree.bind (wait pid m) k) s ≈ₜ
  if w_ends w (o_log s) (u32 pid) then run w (k (0, m)) (log (EWait (u32 pid)) s) else stop (Gone (log (EWait (u32 pid)) s)).
Proof.
  unfold wait. destruct (w_ends w (o_log s) (u32 pid)) eqn:E.
  - rewrite (run_int_call w _ _ _ s (log (EWait (u32 pid)) s) 0 m); [reflexivity|]. cbn. by rewrite E.
  - unfold int_call. rewrite run_bind_bind. apply run_gone. cbn. by rewrite E.
Qed.

Lemma run_spawn name bs m s (k : Z * umem → itree sysE A) : ustring m name bs →
  run w (ITree.bind (spawn name m) k) s ≈ₜ run w (k (s32 (u32 (w_spawn w (o_log s) bs)), m)) (log (ESpawn bs) s).
Proof.
  intros H. unfold spawn. apply (run_int_call w). cbn. by rewrite (uread_string_spec _ _ _ H).
Qed.

Lemma run_read_blocks buf max m s (k : Z * umem → itree sysE A) : o_input s = [] →
  run w (ITree.bind (read buf max m) k) s ≈ₜ stop (Gone s).
Proof. intros H. unfold read, int_call. rewrite run_bind_bind. apply run_gone. cbn. by rewrite H. Qed.

Lemma run_read buf max m s l ls (k : Z * umem → itree sysE A) : o_input s = l :: ls → ubuffer m buf max → 0 <= max < 2147483648 →
  Forall (λ b, is_u8 b) l →
  let out := take (Z.to_nat max) l in
  ∃ m', run w (ITree.bind (read buf max m) k) s ≈ₜ run w (k (Z.of_nat (length out), m')) (mkOs (o_log s) ls) ∧
    uchanges buf max m m' ∧ ubytes m' buf out.
Proof.
  intros Hi Hb Hm HF out. assert (Z.of_nat (length out) <= max) as Hl by (subst out; rewrite length_take; lia).
  destruct (uwrite_spec m buf max out Hb Hl) as (m' & E & Hc & Hby); [by apply Forall_take|].
  exists m'. split; [|by split]. unfold read.
  rewrite (run_int_call w _ _ _ s (mkOs (o_log s) ls) (Z.of_nat (length out)) m').
  - rewrite s32_small by lia. reflexivity.
  - cbn. rewrite Hi. fold out. by rewrite E.
Qed.

Lemma run_listfiles buf max m s (k : Z * umem → itree sysE A) : ubuffer m buf max → 0 < max < 2147483648 →
  let out := listing max (w_files w) in Forall (λ b, is_u8 b) out →
  ∃ m', run w (ITree.bind (listfiles buf max m) k) s ≈ₜ run w (k (Z.of_nat (length out), m')) s ∧
    uchanges buf max m m' ∧ ubytes m' buf out.
Proof.
  intros Hb Hm out HF. assert (Z.of_nat (length out) < max) as Hl by (apply listing_length; lia).
  destruct (uwrite_spec m buf max (out ++ [0]) Hb) as (m' & E & Hc & Hby).
  { rewrite length_app. simpl. lia. }
  { apply Forall_app. split; [done|]. by apply Forall_singleton. }
  exists m'. split; [|split; [done|]].
  - unfold listfiles. rewrite (run_int_call w _ _ _ s s (Z.of_nat (length out)) m').
    + rewrite s32_small by lia. reflexivity.
    + cbn. fold out. by rewrite E.
  - intros i b Hi. apply Hby. by apply lookup_app_l_Some.
Qed.

Lemma run_getprocs buf max m s (k : Z * umem → itree sysE A) : ubuffer m buf (40 * max) → 0 <= max < 2147483648 →
  let out := take (Z.to_nat max) (live (w_procs w (o_log s))) in
  Forall (λ p, name_ok (p_name p)) out →
  ∃ m', run w (ITree.bind (getprocs buf max m) k) s ≈ₜ run w (k (Z.of_nat (length out), m')) s ∧
    uchanges buf (40 * max) m m' ∧ ubytes m' buf (out ≫= info_bytes).
Proof.
  intros Hb Hm out HF. assert (Z.of_nat (length out) <= max) as Hl by (subst out; rewrite length_take; lia).
  destruct (uwrite_spec m buf (40 * max) (out ≫= info_bytes) Hb) as (m' & E & Hc & Hby).
  { rewrite infos_length by done. lia. }
  { apply Forall_bind. apply (Forall_impl _ _ _ HF). intros p Hp. by apply info_bytes_ok. }
  exists m'. split; [|by split]. unfold getprocs. rewrite (u32_small max) by lia.
  rewrite (run_int_call w _ _ _ s s (Z.of_nat (length out)) m').
  - rewrite s32_small by lia. reflexivity.
  - cbn. rewrite (s32_small max) by lia. fold out. by rewrite E.
Qed.
End calls.

(** Several events at once. *)
Definition logs (es : list event) (s : os) : os := mkOs (o_log s ++ es) (o_input s).

Lemma log_logs e es s : logs es (log e s) = logs (e :: es) s.
Proof. unfold logs, log. cbn. by rewrite <- app_assoc. Qed.

Lemma logs_nil s : logs [] s = s.
Proof. destruct s. unfold logs. cbn. by rewrite app_nil_r. Qed.

Lemma log_one e s : log e s = logs [e] s.
Proof. done. Qed.

(** ** String literals *)

(** Membership in a closed list of literals, by evaluation. *)
Ltac in_literals := match goal with |- ?P => apply (bool_decide_eq_true_1 P); vm_compute; reflexivity end.

(** A call of [write] with a literal at [a] and a length of its own. *)
Lemma run_write_lit w {A} a n str m s (k : Z * umem → itree sysE A) : ustring m a str → 0 <= n <= Z.of_nat (length str) →
  n < 2147483648 →
  run w (ITree.bind (write a n m) k) s ≈ₜ run w (k (n, m)) (log (EWrite (take (Z.to_nat n) str)) s).
Proof.
  intros [H0 Hf Hb _ _] Hn H31. assert (n = Z.of_nat (length (take (Z.to_nat n) str))) as Hlen by (rewrite length_take; lia).
  rewrite Hlen at 1. rewrite run_write; [by rewrite <- Hlen| |done|lia|lia].
  intros i b Hi. apply Hb. by apply lookup_take_Some in Hi as [? _].
Qed.

(** ** Concrete memories *)

Lemma uread_bytes m a n bs : uread m a n = Some bs → 0 <= a → a + Z.of_nat n <= 4294967296 → length bs = n ∧ ubytes m a bs.
Proof.
  revert a bs. induction n as [|n IH]; intros a bs E Ha Hf; cbn in E; [by simplify_eq|].
  unfold uld8 in E. rewrite u32_small in E by lia. destruct (m !! a) as [b|] eqn:Eb; [|done]. cbn in E.
  destruct (uread m (a + 1) n) as [bs'|] eqn:E'; [|done]. cbn in E. simplify_eq.
  destruct (IH _ _ E') as [Hl Hb]; [lia|lia|]. split; [simpl; lia|]. intros [|i] c Hi; simpl in Hi; simplify_eq.
  - by rewrite Z.add_0_r.
  - replace (a + Z.of_nat (S i)) with (a + 1 + Z.of_nat i) by lia. by apply Hb.
Qed.

Lemma ustring_read m a s : uread m a (S (length s)) = Some (s ++ [0]) → 0 <= a → a + Z.of_nat (length s) < 4294967296 →
  Forall (λ b, 0 < b < 256) s → ustring m a s.
Proof.
  intros E Ha Hf HF. destruct (uread_bytes _ _ _ _ E) as [_ Hb]; [lia|lia|]. split; [done|done| |done|].
  - intros i b Hi. apply Hb. by apply lookup_app_l_Some.
  - apply Hb. by rewrite list_lookup_middle.
Qed.

Lemma ubuffer_read m a n bs : uread m a n = Some bs → 0 <= a → a + Z.of_nat n <= 4294967296 → ubuffer m a (Z.of_nat n).
Proof.
  intros E Ha Hf. destruct (uread_bytes _ _ _ _ E Ha Hf) as [Hl Hb]. split; [done|]. split; [done|]. intros k Hk.
  destruct (lookup_lt_is_Some_2 bs (Z.to_nat k)) as [b Hlk]; [lia|]. exists b. rewrite <- (Z2Nat.id k) by lia. by apply Hb.
Qed.

(** A memory to run programs in: [strs] one after the other, each in [slot]
    bytes, and [room] zero bytes after them. *)
Definition place_bytes (a : Z) (bs : list Z) : umem := list_to_map (zip (seqZ a (Z.of_nat (length bs))) bs).
Definition place_strings (a : Z) (slot : nat) (strs : list (list Z)) (room : nat) : umem :=
  place_bytes a ((strs ≫= in_slot slot) ++ replicate room 0).
