(* ===== verification/UserKernel.v ===== *)
(** * System calls from both sides

    Usys.v answers the calls of one program on the memory ring 3 sees;
    syscall_dispatch (Kernel.v) runs on physical memory, through the page
    directory of the process.  Here the two meet: [sees] relates the two
    memories, and [user_calls_refine] shows that when the kernel returns from a
    call, at once or after it gave up the processor, the program gets the answer
    and finds the memory that the model of Usys.v says. [fresh_process_sees]
    starts this: the memory of a process that was just loaded. *)

From stdpp Require Import prelude gmap strings.
From Stdlib Require Import ZArith Lia.
From S2P Require Import Prelude Ports Memory Kutil FrameAlloc Pfa Paging Fs Process ProcessCreate Fb Keyboard Pic Tables Mkfs Kernel Kmain Ulib Usys.

(** ** The memory of a process in physical memory *)

Section user.
Context {A : Type} `{FrameAllocLaws A}.

(** The process: its directory, the mounted image, the addresses it can use and
    where they are. *)
Context (cr3 base : Z) (files : list file) (V : Z → Prop) (phi : Z → Z).
Implicit Types (fa : A) (m : mem) (um : umem) (s : kernel A) (t : term).

(** What a system call may write: the caller's memory, the screen and free
    frames. *)
Definition call_writes (fa : A) (x : Z) : Prop := image V phi x ∨ fb_bytes x ∨ free_bytes fa x.

(** The address space of the process, which no such write disturbs. *)
Record user_space (fa : A) (m : mem) : Prop := {
  vs_walk : ∀ m', changes_only (call_writes fa) m m' → ∀ va, V va →
    walk m' cr3 va = Some (phi va) ∧ user_walk m' cr3 va = Some (phi va);
  vs_closed : ∀ m', changes_only (call_writes fa) m m' → ∀ va, is_u32 va → ¬ V va → user_walk m' cr3 va = None;
  vs_range : ∀ va, V va → 0 <= va < 0xC0000000 ∧ is_u32 (phi va);
  vs_inj : ∀ a b, V a → V b → phi a = phi b → a = b;
  vs_apart : ∀ va, V va → ¬ fb_bytes (phi va) ∧ ¬ free_bytes fa (phi va);
  vs_screen : ∀ x, fb_bytes x → ¬ free_bytes fa x;
  vs_identity : ∀ m', changes_only (call_writes fa) m m' → ∀ x, fb_bytes x ∨ free_bytes fa x → walk m' cr3 x = Some x;
  vs_image : sofs_stable cr3 (call_writes fa) m base files;
  vs_ok : fa_ok fa
}.

Lemma user_space_changes fa m m' : user_space fa m → changes_only (call_writes fa) m m' → user_space fa m'.
Proof.
  intros [H1 H2 H3 H4 H5 H6 H7 H8 H9] Hc. split; try done;
    intros m2 Hm2; first [apply H1|apply H2|apply H7|apply H8]; exact (changes_only_trans _ _ _ _ Hc Hm2).
Qed.

Lemma free_shrunk fa fa' x : shrunk fa fa' → free_bytes fa' x → free_bytes fa x.
Proof. intros [_ Hs] (g & Hg & Hf & Hx). exists g. split; [exact Hg|]. split; [by apply Hs|exact Hx]. Qed.

Lemma user_space_shrunk fa fa' m : user_space fa m → shrunk fa fa' → user_space fa' m.
Proof.
  intros [H1 H2 H3 H4 H5 H6 H7 H8 H9] Hs. pose proof (free_shrunk fa fa') as Hfb.
  assert (∀ m', changes_only (call_writes fa') m m' → changes_only (call_writes fa) m m') as Hc.
  { intros m'. apply changes_only_mono. unfold call_writes. intros x [?|[?|?]]; auto. }
  split; try done.
  - intros m' Hm'. by apply H1, Hc.
  - intros m' Hm'. by apply H2, Hc.
  - intros va Hva. destruct (H5 va Hva) as [? Hn]. split; [done|]. intros Hf. apply Hn. by apply Hfb.
  - intros x Hx Hf. apply (H6 x Hx). by apply Hfb.
  - intros m' Hm' x Hx. apply H7; [by apply Hc|]. destruct Hx; auto.
  - intros m' Hm'. by apply H8, Hc.
  - apply Hs.
Qed.

(** The memory [um] of Usys.v is what ring 3 sees of [m]. *)
Record sees (m : mem) (um : umem) : Prop := {
  se_dom : ∀ va, is_Some (um !! va) ↔ V va;
  se_byte : ∀ va b, um !! va = Some b → ld8 m (phi va) = b
}.

Lemma sees_ring3 fa m um va : user_space fa m → sees m um → is_u32 va →
  um !! va = (pa ← user_walk m cr3 va; Some (ld8 m pa)).
Proof.
  intros Hu [Hd Hb] Hva. destruct (um !! va) as [b|] eqn:E.
  - destruct (vs_walk _ _ Hu m (changes_only_refl _ _) va) as [_ ->]; [apply Hd; by eexists|]. cbn. by rewrite (Hb _ _ E).
  - rewrite (vs_closed _ _ Hu m (changes_only_refl _ _) va Hva); [done|]. intros HV. apply Hd in HV as [? ?]. congruence.
Qed.

Lemma sees_u8 m um va b : sees m um → um !! va = Some b → is_u8 b.
Proof. intros Hs E. rewrite <- (se_byte _ _ Hs _ _ E). apply ld8_range. Qed.

(** Writes to the screen and to free frames. *)
Definition elsewhere (fa : A) (x : Z) : Prop := fb_bytes x ∨ free_bytes fa x.

Lemma elsewhere_writes fa x : elsewhere fa x → call_writes fa x.
Proof. intros [?|?]; unfold call_writes; auto. Qed.

Lemma sees_kept fa m m' um : user_space fa m → sees m um → changes_only (elsewhere fa) m m' → sees m' um.
Proof.
  intros Hu [Hd Hb] Hc. split; [exact Hd|]. intros va b E. rewrite <- (Hb _ _ E). assert (V va) as HV by (apply Hd; by eexists).
  apply Hc; [apply (vs_range _ _ Hu va HV)|]. destruct (vs_apart _ _ Hu va HV). by intros [?|?].
Qed.

Lemma sees_kreads fa m um va b (R : Z → Prop) : user_space fa m → sees m um → um !! va = Some b → (∀ x, R x → elsewhere fa x) →
  kreads cr3 R m va b.
Proof.
  intros Hu Hs E HR m' Hc. assert (V va) as HV by (apply (se_dom _ _ Hs); by eexists).
  assert (changes_only (elsewhere fa) m m') as Hc' by (by eapply changes_only_mono). unfold kld8.
  destruct (vs_walk _ _ Hu m') with (va := va) as [-> _]; [eapply changes_only_mono; [apply elsewhere_writes|exact Hc']|exact HV|].
  cbn. f_equal. by apply (se_byte _ _ (sees_kept _ _ _ _ Hu Hs Hc')).
Qed.

Lemma buffer_vmapped fa m um a n : user_space fa m → sees m um → ubuffer um a n → vmapped cr3 (within a n) phi m.
Proof.
  intros Hu Hs (_ & _ & Hb). assert (∀ va, within a n va → V va) as HV.
  { intros va Hva. apply (se_dom _ _ Hs). replace va with (a + (va - a)) by lia. apply Hb. unfold within in Hva. lia. }
  split.
  - intros m' Hc va Hva. apply (vs_walk _ _ Hu); [|by apply HV]. eapply changes_only_mono; [|exact Hc].
    intros x (v & Hv & E). left. exists v. split; [by apply HV|exact E].
  - intros va Hva%HV. destruct (vs_range _ _ Hu va Hva). split; lia.
  - intros x y Hx Hy. by apply (vs_inj _ _ Hu); apply HV.
Qed.

Lemma fb_mapped_user fa m : user_space fa m → fb_mapped cr3 m.
Proof.
  intros Hu m' Hc a _ Ha. apply (vs_identity _ _ Hu); [|by left]. eapply changes_only_mono; [|exact Hc]. unfold call_writes. auto.
Qed.

(** ** Accesses of Usys.v that succeed *)

Definition low (um : umem) : Prop := ∀ va, is_Some (um !! va) → 0 <= va < 0xC0000000.

Lemma sees_low fa m um : user_space fa m → sees m um → low um.
Proof. intros Hu Hs va Hva. apply (vs_range _ _ Hu). by apply (se_dom _ _ Hs). Qed.

Lemma uread_fits um a n bs : low um → is_u32 a → uread um a n = Some bs → a + Z.of_nat n <= 4294967296.
Proof.
  intros Hl. revert a bs. induction n as [|n IH]; intros a bs Ha E; [lia|]. cbn in E. unfold uld8 in E. rewrite u32_small in E by lia.
  destruct (um !! a) as [b|] eqn:Eb; [|done]. cbn in E. destruct (Hl a) as [_ Hlo]; [by eexists|].
  destruct (uread um (a + 1) n) as [bs'|] eqn:E'; [|done]. specialize (IH (a + 1) bs' ltac:(lia) E'). lia.
Qed.

Lemma uwrite_inv um a bs um' : low um → is_u32 a → Forall (λ b, is_u8 b) bs → uwrite um a bs = Some um' →
  let n := Z.of_nat (length bs) in
  ubuffer um a n ∧ ∀ x, um' !! x = if decide (within a n x) then bs !! Z.to_nat (x - a) else um !! x.
Proof.
  intros Hl Ha HF. revert um a Hl Ha. induction HF as [|b bs Hb HF IH]; intros um a Hl Ha E; cbn [uwrite] in E.
  { injection E as <-. cbn. split; [split; [lia|split; [lia|intros; lia]]|]. intros x. rewrite decide_False; [done|unfold within; lia]. }
  unfold ust8 in E. rewrite u32_small in E by lia. destruct (um !! a) as [b0|] eqn:Eb; [|done]. rewrite bind_Some in E.
  destruct (Hl a) as [_ Hlo]; [by eexists|]. rewrite u8_small in E by exact Hb.
  assert (∀ x, is_Some (<[a:=b]> um !! x) ↔ is_Some (um !! x)) as Hdom.
  { intros x. destruct (decide (x = a)) as [->|Hne]; [rewrite lookup_insert_eq, Eb; split; by eexists|by rewrite lookup_insert_ne]. }
  destruct (IH (<[a:=b]> um) (a + 1)) as [(_ & Hf & Hm) Hx]; [intros va Hva; apply Hl; by apply Hdom|lia|exact E|].
  cbn [length] in *. split; [split; [lia|split; [lia|]]|].
  - intros k Hk. destruct (decide (k = 0)) as [->|]; [rewrite Z.add_0_r; by eexists|].
    apply Hdom. replace (a + k) with (a + 1 + (k - 1)) by lia. apply Hm. lia.
  - intros x. rewrite Hx. unfold within in *. destruct (decide (x = a)) as [->|Hne].
    + rewrite decide_False, decide_True, Z.sub_diag by lia. apply lookup_insert_eq.
    + rewrite lookup_insert_ne by done. repeat case_decide; try lia; [|done].
      by replace (Z.to_nat (x - a)) with (S (Z.to_nat (x - (a + 1)))) by lia.
Qed.

(** A buffer the kernel filled. *)
Lemma sees_written fa m m' um um' a bs : user_space fa m → sees m um → is_u32 a → Forall (λ b, is_u8 b) bs →
  uwrite um a bs = Some um' → changes_only (image (within a (Z.of_nat (length bs))) phi) m m' → bytes_at cr3 m' a bs →
  user_space fa m' ∧ sees m' um'.
Proof.
  intros Hu Hs Ha HF E Hc Hb. destruct (uwrite_inv _ _ _ _ (sees_low _ _ _ Hu Hs) Ha HF E) as [Hbuf Hx].
  set (n := Z.of_nat (length bs)) in *. destruct Hs as [Hd Hby].
  assert (∀ va, within a n va → V va) as HV.
  { intros va Hva. apply Hd. replace va with (a + (va - a)) by lia. apply Hbuf. unfold within in Hva. lia. }
  assert (changes_only (call_writes fa) m m') as Hcw.
  { eapply changes_only_mono; [|exact Hc]. intros x (v & Hv & Ev). left. exists v. split; [by apply HV|exact Ev]. }
  split; [by eapply user_space_changes|]. split.
  - intros va. rewrite Hx. case_decide as Hin; [|apply Hd]. split; [intros _; by apply HV|]. intros _.
    apply lookup_lt_is_Some_2. unfold within, n in Hin. lia.
  - intros va b Hva. rewrite Hx in Hva. case_decide as Hin.
    + pose proof (Hb _ _ Hva) as Hk. rewrite Z2Nat.id in Hk by (unfold within in Hin; lia). replace (a + (va - a)) with va in Hk by lia.
      unfold kld8 in Hk. destruct (vs_walk _ _ Hu m' Hcw va (HV va Hin)) as [Hw _]. rewrite Hw in Hk. cbn in Hk. congruence.
    + rewrite <- (Hby _ _ Hva). assert (V va) as Hva' by (apply Hd; by eexists). apply Hc; [apply (vs_range _ _ Hu va Hva')|].
      intros (v & Hv & Ev). apply Hin. by rewrite <- (vs_inj _ _ Hu v va (HV v Hv) Hva' Ev).
Qed.

(** ** The calls *)

Context (saved tr : Z).

(** The caller is back: its memory is [um], the screen shows [t]. *)
Record answered (s0 s : kernel A) (um : umem) (t : term) : Prop := {
  an_space : user_space (k_fa s) (c_mem (k_con s));
  an_sees : sees (c_mem (k_con s)) um;
  an_shows : shows (k_con s) t ∧ term_wf t;
  an_changes : changes_only (call_writes (k_fa s0)) (c_mem (k_con s0)) (c_mem (k_con s));
  an_free : ∀ x, free_bytes (k_fa s) x → free_bytes (k_fa s0) x
}.

(** The effect of an event on the screen. *)
Definition show_event (t : term) (e : event) : term :=
  match e with EWrite bs => term_write t bs | EClear => blank_screen | _ => t end.

(** Where the kernel goes on with a call that gave up the processor. *)
Definition waits (r : syscall_regs) : list kcont :=
  if r_eax r =? SYS_YIELD then [Yielded r]
  else if r_eax r =? SYS_READ then [ReadSched r; ReadHalt r]
  else if r_eax r =? SYS_WAIT then [WaitSched r; WaitHalt r]
  else [].

(** The kernel's runs on behalf of a call that can end it: the call itself
    (SYS_YIELD only if there is no other process to run), and the resumptions. *)
Inductive arrival (r : syscall_regs) (s : kernel A) : option (outcome A) → Prop :=
  | at_call : (r_eax r = SYS_YIELD → ¬ any_ready s) → arrival r s (syscall_dispatch cr3 saved (mounted base) tr r s)
  | at_resume k : k ∈ waits r → arrival r s (resume cr3 saved k s).

(** Sizes as an [int] has them. *)
Definition sizes_ok (r : syscall_regs) : Prop :=
  (r_eax r = SYS_WRITE → r_ecx r < 2147483648) ∧ (r_eax r = SYS_LISTFILES → 0 < r_ecx r <= 2147483648).

Lemma set_kbd_same s : set_kbd (k_kbd s) s = s.
Proof. by destruct s. Qed.

Section call.
Context (r : syscall_regs) (s : kernel A) (um : umem) (t : term) (l : line).
Abbreviation m := (c_mem (k_con s)).
Context (Hu : user_space (k_fa s) m) (Hs : sees m um) (Hsh : shows (k_con s) t) (Ht : term_wf t).
Context (Hk : kinv s) (Hh : holds (k_kbd s) l) (Htext : Forall (λ b, is_u8 b) (text l)).
Context (Hbx : is_u32 (r_ebx r)) (Hcx : is_u32 (r_ecx r)).
Abbreviation call := (syscall_dispatch cr3 saved (mounted base) tr r s).

Lemma answered_same : answered s s um t.
Proof. split; [exact Hu|exact Hs|by split|done|done]. Qed.

(** After writes to the screen. *)
Lemma answered_screen c t' : wrote (k_con s) t' c → term_wf t' → answered s (set_con c s) um t'.
Proof.
  intros [Hc _ Hw] Ht'. assert (changes_only (elsewhere (k_fa s)) m (c_mem c)) as Hce.
  { eapply changes_only_mono; [|exact Hc]. intros x Hx. by left. }
  assert (changes_only (call_writes (k_fa s)) m (c_mem c)) as Hcw by (eapply changes_only_mono; [apply elsewhere_writes|exact Hce]).
  split; cbn; [|by eapply sees_kept|by split|exact Hcw|done]. by eapply user_space_changes.
Qed.

(** After a write to the caller's buffer. *)
Lemma answered_buffer m' k a bs um' : is_u32 a → Forall (λ b, is_u8 b) bs → uwrite um a bs = Some um' →
  changes_only (image (within a (Z.of_nat (length bs))) phi) m m' → bytes_at cr3 m' a bs →
  answered s (set_mem m' (set_kbd k s)) um' t.
Proof.
  intros Ha HF E Hc Hb. destruct (sees_written _ _ _ _ _ _ _ Hu Hs Ha HF E Hc Hb) as [Hu' Hs'].
  assert (∀ x, image (within a (Z.of_nat (length bs))) phi x → image V phi x) as Hi.
  { intros x (va & Hva & <-). exists va. split; [|done]. apply (se_dom _ _ Hs).
    destruct (uwrite_inv _ _ _ _ (sees_low _ _ _ Hu Hs) Ha HF E) as [(_ & _ & Hbuf) _].
    replace va with (a + (va - a)) by lia. apply Hbuf. unfold within in Hva. lia. }
  split; cbn; [exact Hu'|exact Hs'| | |done].
  - split; [|exact Ht]. apply shows_changes; [exact Hsh|]. eapply changes_only_mono; [|exact Hc].
    intros x (va & Hva & <-)%Hi. by apply (vs_apart _ _ Hu).
  - eapply changes_only_mono; [|exact Hc]. intros x Hx%Hi. by left.
Qed.

Lemma call_write bs : r_eax r = SYS_WRITE → r_ecx r < 2147483648 → uread um (r_ebx r) (Z.to_nat (r_ecx r)) = Some bs →
  ∃ s', call = Some (Return s' (set_eax (r_ecx r) r)) ∧ answered s s' um (term_write t bs).
Proof.
  intros Hn Hlt E. pose proof (uread_fits _ _ _ _ (sees_low _ _ _ Hu Hs) Hbx E) as Hfit.
  destruct (uread_bytes _ _ _ _ E) as [Hl Hb]; [lia|exact Hfit|].
  destruct (fb_write_spec cr3 (r_ebx r) bs (k_con s) t (fb_mapped_user _ _ Hu) Hsh Ht) as (c & Ew & Hw); [lia|lia|lia| |].
  - intros i b Hi. pose proof (Hb i b Hi) as Hbi. split; [by eapply sees_u8|]. eapply sees_kreads; [exact Hu|exact Hs|exact Hbi|]. by left.
  - replace (Z.of_nat (length bs)) with (r_ecx r) in Ew by lia. unfold syscall_dispatch. rewrite Hn. cbn [Z.eqb Pos.eqb].
    rewrite Ew, bind_Some. eexists. split; [by rewrite u32_small by lia|]. apply answered_screen; [exact Hw|by apply term_write_wf].
Qed.

Lemma call_clear : r_eax r = SYS_CLEAR → ∃ s', call = Some (Return s' (set_eax 0 r)) ∧ answered s s' um blank_screen.
Proof.
  intros Hn. destruct (fb_clear_spec cr3 (k_con s) (fb_mapped_user _ _ Hu)) as (c & E & Hw).
  unfold syscall_dispatch. rewrite Hn. cbn [Z.eqb Pos.eqb]. rewrite E, bind_Some. eexists. split; [reflexivity|].
  apply answered_screen; [exact Hw|]. split; [reflexivity|cbn; lia].
Qed.

Lemma call_getprocs out um' : r_eax r = SYS_GETPROCS → out = take (Z.to_nat (s32 (r_ecx r))) (live (procs (k_tab s))) →
  uwrite um (r_ebx r) (out ≫= info_bytes) = Some um' →
  ∃ s', call = Some (Return s' (set_eax (Z.of_nat (length out)) r)) ∧ answered s s' um' t.
Proof.
  intros Hn -> E. set (out := take _ _) in *. pose proof (ki_tab _ Hk) as Hw.
  assert (Forall (λ p, name_ok (p_name p)) out) as Hok.
  { apply Forall_take, Forall_forall. intros p Hp. apply list_elem_of_filter in Hp as [_ Hp].
    apply list_elem_of_lookup in Hp as [i Hi]. by eapply (tw_name _ Hw). }
  assert (Forall (λ b, is_u8 b) (out ≫= info_bytes)) as HF.
  { apply Forall_bind. apply (Forall_impl _ _ _ Hok). intros p Hp. by apply info_bytes_ok. }
  pose proof (infos_length _ Hok) as Hlen. destruct (uwrite_inv _ _ _ _ (sees_low _ _ _ Hu Hs) Hbx HF E) as [Hbuf _]. rewrite Hlen in Hbuf.
  destruct (process_get_info_spec cr3 m (k_tab s) (r_ebx r) (s32 (r_ecx r)) phi Hw) as (m' & Eg & Hb & Hc);
    [by eapply buffer_vmapped|lia|apply Hbuf|]. fold out in Eg, Hb, Hc.
  assert (length out <= 16)%nat as Hl16.
  { unfold out, live. rewrite length_take. pose proof (length_filter (λ p, state p ≠ PROC_STATE_DEAD) (procs (k_tab s))). rewrite (tw_len _ Hw) in *. lia. }
  unfold syscall_dispatch. rewrite Hn. cbn [Z.eqb Pos.eqb]. rewrite Eg, bind_Some. eexists. split; [by rewrite u32_small by lia|].
  replace (set_mem m' s) with (set_mem m' (set_kbd (k_kbd s) s)) by (by rewrite set_kbd_same).
  eapply answered_buffer; [exact Hbx|exact HF|exact E| |exact Hb]. rewrite Hlen. exact Hc.
Qed.

Lemma listing_u8 room : Forall (λ b, is_u8 b) (listing room files).
Proof.
  assert (∀ f, f ∈ files → Forall (λ b, is_u8 b) (f_name f)) as Hnm.
  { intros f [i Hi]%list_elem_of_lookup.
    destruct (so_entry _ _ _ _ (vs_image _ _ Hu m (changes_only_refl _ _)) _ _ Hi) as (Hcs & _).
    apply Forall_lookup. intros k b Hkb. destruct (cs_bytes _ _ _ _ Hcs k b Hkb). lia. }
  clear - Hnm. revert room. induction files as [|f fs IH]; intros room; cbn [listing]; [constructor|].
  destruct (_ <? _); [|constructor]. apply Forall_app_2; [apply Hnm, list_elem_of_here|]. constructor; [lia|].
  apply IH. intros g Hg. by apply Hnm, list_elem_of_further.
Qed.

Lemma call_listfiles out um' : r_eax r = SYS_LISTFILES → 0 < r_ecx r <= 2147483648 → out = listing (r_ecx r) files →
  uwrite um (r_ebx r) (out ++ [0]) = Some um' →
  ∃ s', call = Some (Return s' (set_eax (Z.of_nat (length out)) r)) ∧ answered s s' um' t.
Proof.
  intros Hn Hsz -> E. set (out := listing _ _) in *.
  assert (Forall (λ b, is_u8 b) (out ++ [0])) as HF by (apply Forall_app_2; [apply listing_u8|by apply Forall_singleton]).
  pose proof (listing_length (r_ecx r) files ltac:(lia)) as Hll. fold out in Hll.
  assert (Z.of_nat (length (out ++ [0])) = Z.of_nat (length out) + 1) as Hlen by (rewrite length_app; cbn; lia).
  destruct (uwrite_inv _ _ _ _ (sees_low _ _ _ Hu Hs) Hbx HF E) as [Hbuf _]. rewrite Hlen in Hbuf.
  destruct (fs_list_spec cr3 m base files (r_ebx r) (r_ecx r) phi) as (m' & El & Hc & Hb);
    [by eapply buffer_vmapped| |exact Hsz|lia|apply Hbuf|].
  - intros m' Hm'. apply (vs_image _ _ Hu). eapply changes_only_mono; [|exact Hm']. intros x (va & Hva & <-). left. exists va.
    split; [|done]. apply (se_dom _ _ Hs). replace va with (r_ebx r + (va - r_ebx r)) by lia. apply Hbuf. unfold within in Hva. fold out in Hva. lia.
  - fold out in El, Hc, Hb. unfold syscall_dispatch. rewrite Hn. cbn [Z.eqb Pos.eqb]. rewrite El, bind_Some.
    eexists. split; [by rewrite u32_small by lia|]. replace (set_mem m' s) with (set_mem m' (set_kbd (k_kbd s) s)) by (by rewrite set_kbd_same).
    eapply answered_buffer; [exact Hbx|exact HF|exact E| |exact Hb]. rewrite Hlen. exact Hc.
Qed.

(** SYS_READ, whenever it finds the line. *)
Lemma call_read out um' : out = take (Z.to_nat (r_ecx r)) (text l) → uwrite um (r_ebx r) out = Some um' →
  ∃ s', read_line_ret cr3 r s = Some (Return s' (set_eax (Z.of_nat (length out)) r)) ∧ answered s s' um' t.
Proof.
  intros -> E. set (out := take _ _) in *. set (n := Z.of_nat (length out)).
  assert (Forall (λ b, is_u8 b) out) as HF by (by apply Forall_take).
  destruct (uwrite_inv _ _ _ _ (sees_low _ _ _ Hu Hs) Hbx HF E) as [Hbuf _]. fold n in Hbuf.
  assert (n = if r_ecx r <? kb_line_len (k_kbd s) then r_ecx r else kb_line_len (k_kbd s)) as Hn.
  { unfold n, out. rewrite length_take, (ho_len _ _ Hh). destruct (Z.ltb_spec (r_ecx r) (Z.of_nat (length (text l)))); lia. }
  assert (keyboard_read_line cr3 (r_ebx r) (r_ecx r) (k_kbd s) m = keyboard_read_line cr3 (r_ebx r) n (k_kbd s) m) as Hmax.
  { unfold keyboard_read_line. rewrite <- Hn. replace (if n <? kb_line_len (k_kbd s) then n else kb_line_len (k_kbd s)) with n; [done|].
    rewrite Hn. zcases. }
  destruct (keyboard_read_line_spec cr3 (r_ebx r) n (k_kbd s) l m phi Hh) as (k' & m' & Er & _ & Hb & Hc);
    [lia|lia|apply Hbuf|by eapply buffer_vmapped|exact Htext|].
  assert (take (Z.to_nat n) (text l) = out) as Ho by (unfold n, out; rewrite Nat2Z.id, length_take, <- take_take, firstn_all; done).
  rewrite Ho in *. unfold read_line_ret. rewrite Hmax, Er, bind_Some. eexists. split; [reflexivity|].
  eapply answered_buffer; [exact Hbx|exact HF|exact E| |exact Hb]. exact Hc.
Qed.
End call.

Lemma arrival_plain r s out : waits r = [] → arrival r s out → out = syscall_dispatch cr3 saved (mounted base) tr r s.
Proof. intros Hw [_|k Hk]; [done|]. rewrite Hw in Hk. by apply elem_of_nil in Hk. Qed.

Lemma set_eax_same r : set_eax (r_eax r) r = r.
Proof. by destruct r. Qed.

Lemma yield_returns r s out : kinv s → r_eax r = SYS_YIELD → arrival r s out → out = Some (Return s r).
Proof.
  intros Hk Hn [Hno|k Hw].
  - destruct (ki_current _ Hk) as (c & p & Hc & Hp & _). unfold syscall_dispatch. rewrite Hn. cbn [Z.eqb Pos.eqb].
    destruct (call_schedule_spec saved (Yielded r) (λ s, Some (Return s r)) s c p Hk Hc Hp (λ _, I)) as [(s' & sw & _ & He & _)|[_ ->]];
      [|reflexivity]. destruct He as (_ & _ & _ & (i & _ & _ & Hi) & _). destruct (Hno Hn). by exists i.
  - unfold waits in Hw. rewrite Hn in Hw. apply list_elem_of_singleton in Hw as ->. reflexivity.
Qed.

Lemma wait_returns r s out : kinv s → r_eax r = SYS_WAIT → ¬ (∃ p, p ∈ live (procs (k_tab s)) ∧ pid p = r_ebx r) →
  arrival r s out → out = Some (Return s (set_eax 0 r)).
Proof.
  intros Hk Hn Hno Har. assert (process_is_alive (k_tab s) (r_ebx r) = Some 0) as Hal.
  { rewrite (process_is_alive_spec _ _ (ki_tab _ Hk)). rewrite bool_decide_false; [done|]. intros He. apply Exists_exists in He as (p & Hp & Hq & Hd).
    apply Hno. exists p. split; [|exact Hq]. unfold live. by apply list_elem_of_filter. }
  assert (wait_test saved r s = Some (Return s (set_eax 0 r)) ∧ wait_rest r s = Some (Return s (set_eax 0 r))) as [E1 E2]
    by (unfold wait_test, wait_rest; by rewrite Hal).
  destruct Har as [_|k Hw].
  - unfold syscall_dispatch. rewrite Hn. cbn [Z.eqb Pos.eqb]. exact E1.
  - unfold waits in Hw. rewrite Hn in Hw. repeat (apply elem_of_cons in Hw as [->|Hw]; [done|]). by apply elem_of_nil in Hw.
Qed.

Lemma read_arrives r s l out : r_eax r = SYS_READ → holds (k_kbd s) l → entered l = true →
  arrival r s out → out = read_line_ret cr3 r s.
Proof.
  intros Hn Hh He Har. assert (keyboard_has_line (k_kbd s) = 1) as Hl by (unfold keyboard_has_line; by rewrite (ho_done _ _ Hh), He).
  destruct Har as [_|k Hw].
  - unfold syscall_dispatch. rewrite Hn. cbn [Z.eqb Pos.eqb]. unfold read_test. by rewrite Hl.
  - unfold waits in Hw. rewrite Hn in Hw. cbn [Z.eqb Pos.eqb] in Hw.
    repeat (apply elem_of_cons in Hw as [->|Hw]; [cbn [resume]; unfold read_test, read_rest; by rewrite Hl|]). by apply elem_of_nil in Hw.
Qed.

(** *** SYS_SPAWN *)

(** [nm] is a file of the image, with the contents [data]. *)
Definition program_file (fa : A) (m : mem) (nm data : list Z) : Prop :=
  (∃ i f, list_find (λ f, f_name f = nm) files = Some (i, f) ∧
    f_size f = Z.of_nat (length data) ∧ (base +ᵤ f_offset f) + Z.of_nat (length data) <= 4294967296 ∧
    ∀ k b, data !! k = Some b → is_u8 b ∧ kreads cr3 (free_bytes fa) m ((base +ᵤ f_offset f) + Z.of_nat k) b) ∧
  Z.of_nat (length data) <= 0xBFC00000.

Lemma user_name fa m um a nm m' : user_space fa m → sees m um → ustring um a nm → changes_only (free_bytes fa) m m' →
  cstring_at cr3 m' a nm.
Proof.
  intros Hu Hs [H1 H2 H3 H4 H5] Hc.
  assert (∀ va b, um !! va = Some b → kld8 cr3 m' va = Some b) as Hrd.
  { intros va b E. apply (sees_kreads fa m um va b (free_bytes fa) Hu Hs E); [by right|exact Hc]. }
  split; [lia|lia| |by apply Hrd]. intros i b Hi. split; [by apply Hrd, H3|]. by apply (Forall_lookup_1 _ _ _ _ H4 Hi).
Qed.

Lemma user_loadable s um a nm data : user_space (k_fa s) (c_mem (k_con s)) → sees (c_mem (k_con s)) um → kinv s →
  ustring um a nm → program_file (k_fa s) (c_mem (k_con s)) nm data →
  loadable cr3 (c_mem (k_con s)) (k_fa s) (k_tab s) base files a nm data.
Proof.
  intros Hu Hs Hk Hstr [Hf Hsz].
  assert (∀ m1 m2, changes_only (free_bytes (k_fa s)) m1 m2 → changes_only (call_writes (k_fa s)) m1 m2) as Hcw.
  { intros m1 m2. apply changes_only_mono. unfold call_writes. auto. }
  split; [split| | | |exact Hf|exact Hsz].
  - intros m' Hm' x _ Hx. apply (vs_identity _ _ Hu); [by apply Hcw|by right].
  - apply Hu.
  - intros g x Hg Hgf Hx. by exists g.
  - apply Hk.
  - intros m' Hm'. apply (vs_image _ _ Hu). by apply Hcw.
  - intros m' Hm'. by eapply user_name.
Qed.

Lemma answered_spawn s um t m' fa' (t' : proctab) : user_space (k_fa s) (c_mem (k_con s)) → sees (c_mem (k_con s)) um → shows (k_con s) t → term_wf t →
  changes_only (free_bytes (k_fa s)) (c_mem (k_con s)) m' → shrunk (k_fa s) fa' →
  answered s (mkKernel t' (k_kbd s) (mkCon m' (fb_cursor (k_con s)) (c_ports (k_con s))) fa' (k_tss s)) um t.
Proof.
  intros Hu Hs Hsh Ht Hc Hshr.
  assert (changes_only (elsewhere (k_fa s)) (c_mem (k_con s)) m') as Hce by (eapply changes_only_mono; [|exact Hc]; by right).
  split; cbn.
  - eapply user_space_shrunk; [|exact Hshr]. eapply user_space_changes; [exact Hu|]. eapply changes_only_mono; [apply elsewhere_writes|exact Hce].
  - by eapply sees_kept.
  - split; [|exact Ht]. apply shows_changes; [exact Hsh|]. eapply changes_only_mono; [|exact Hc]. intros x Hx Hf. exact (vs_screen _ _ Hu x Hf Hx).
  - eapply changes_only_mono; [apply elsewhere_writes|exact Hce].
  - intros x (g & Hg & Hgf & Hx). exists g. split; [exact Hg|]. split; [|exact Hx]. by apply Hshr.
Qed.

(** What the table is after it. *)
Definition spawned (t t' : proctab) (v : Z) : Prop :=
  v = -1 ∧ t' = t ∨
  v = s32 (next_pid t) ∧ ∃ slot q, first_dead t slot ∧ procs t' = <[slot := q]> (procs t) ∧ pid q = next_pid t ∧ ready q ∧ current t' = current t.

Lemma spawn_refines r s um t nm :
  user_space (k_fa s) (c_mem (k_con s)) → sees (c_mem (k_con s)) um → shows (k_con s) t → term_wf t → kinv s → is_u32 tr →
  r_eax r = SYS_SPAWN → ustring um (r_ebx r) nm →
  (∀ f, f ∈ files → f_name f ≠ nm) ∨ (∃ data, program_file (k_fa s) (c_mem (k_con s)) nm data) →
  ∃ s' v, syscall_dispatch cr3 saved (mounted base) tr r s = Some (Return s' (set_eax (u32 v) r)) ∧
    answered s s' um t ∧ spawned (k_tab s) (k_tab s') v.
Proof.
  intros Hu Hs Hsh Ht Hk Htr Hn Hstr Hfile. unfold syscall_dispatch. rewrite Hn. cbn [Z.eqb Pos.eqb].
  pose proof (conj (vs_ok _ _ Hu) (λ g _ Hg, Hg) : shrunk (k_fa s) (k_fa s)) as Hsame.
  destruct Hfile as [Hno|[data Hdata]].
  - rewrite (process_create_not_found cr3 tr _ _ _ base files (r_ebx r) nm (ki_tab _ Hk)), bind_Some; [|..|exact Hno].
    + eexists _, (-1). split; [reflexivity|]. split; [|by left]. by apply answered_spawn.
    + apply (vs_image _ _ Hu). apply changes_only_refl.
    + eapply user_name; [exact Hu|exact Hs|exact Hstr|apply changes_only_refl].
  - destruct (process_create_spec cr3 tr _ _ _ base files (r_ebx r) nm data (user_loadable _ _ _ _ _ Hu Hs Hk Hstr Hdata) Htr)
      as [(slot & v & m' & fa' & t' & Hfd & -> & Hc & Hshr & Hout)|[_ ->]]; rewrite bind_Some.
    + eexists _, v. split; [reflexivity|]. split; [by apply answered_spawn|]. cbn [k_tab].
      destruct Hout as [(-> & -> & _)|(p & dir & ks & Hp & -> & -> & _)]; [by left|right]. split; [reflexivity|].
      exists slot. eexists. split; [exact Hfd|]. split; [reflexivity|]. by split_and!.
    + eexists _, (-1). split; [reflexivity|]. split; [|by left]. by apply answered_spawn.
Qed.
(** What SYS_READ and SYS_WAIT wait for; and for SYS_SPAWN, that the name is no
    file's or a program's, and that the model of Usys.v is told the result. *)
Definition due (w : world) (o : os) (um : umem) (r : syscall_regs) (s : kernel A) (l : line) : Prop :=
  (r_eax r = SYS_READ → entered l = true ∧ head (o_input o) = Some (text l)) ∧
  (r_eax r = SYS_WAIT → ¬ ∃ p, p ∈ live (procs (k_tab s)) ∧ pid p = r_ebx r) ∧
  (r_eax r = SYS_SPAWN → ∃ nm, ustring um (r_ebx r) nm ∧
    ((∀ f, f ∈ files → f_name f ≠ nm) ∨ ∃ data, program_file (k_fa s) (c_mem (k_con s)) nm data) ∧
    ∀ s' v, syscall_dispatch cr3 saved (mounted base) tr r s = Some (Return s' (set_eax v r)) → v = u32 (w_spawn w (o_log o) nm)).

(** All the calls. *)
Lemma calls_refine w o args um o' v um' r s l t out :
  user_space (k_fa s) (c_mem (k_con s)) → sees (c_mem (k_con s)) um → shows (k_con s) t → term_wf t →
  kinv s → holds (k_kbd s) l → Forall (λ b, is_u8 b) (text l) → is_u32 (r_ebx r) → is_u32 (r_ecx r) → sizes_ok r →
  is_u32 tr → args `prefix_of` [r_ebx r; r_ecx r] → w_files w = files → w_procs w (o_log o) = procs (k_tab s) →
  os_call w (r_eax r) args um o = Some (o', Some (v, um')) → due w o um r s l → arrival r s out →
  ∃ s' evs, out = Some (Return s' (set_eax v r)) ∧ o_log o' = o_log o ++ evs ∧ answered s s' um' (foldl show_event t evs).
Proof.
  intros Hu Hs Hsh Ht Hk Hh Htx Hbx Hcx [Sw Sl] Htr Hargs Hwf Hwp E (Dr & Dw & Dsp) Har.
  assert (answered s s um t) as Hsame by (by apply answered_same).
  assert (∀ s' um2 out2, out2 = Some (Return s' (set_eax v r)) → answered s s' um2 t → ∃ s'0 evs, out2 = Some (Return s'0 (set_eax v r)) ∧
    o_log o = o_log o ++ evs ∧ answered s s'0 um2 (foldl show_event t evs)) as Hquiet.
  { intros s' um2 out2 Ho Ha. exists s', []. rewrite app_nil_r. by split. }
  unfold os_call in E. destruct (Z.eqb_spec (r_eax r) SYS_EXIT) as [Hn|N2]; [done|].
  destruct (Z.eqb_spec (r_eax r) SYS_YIELD) as [Hn|N3].
  { injection E as <- <- <-. apply (Hquiet s); [|exact Hsame]. rewrite set_eax_same. by apply yield_returns. }
  destruct (Z.eqb_spec (r_eax r) SYS_CLEAR) as [Hn|N9].
  { injection E as <- <- <-. apply arrival_plain in Har as ->; [|unfold waits; by rewrite Hn].
    destruct (call_clear r s um Hu Hs Hn) as (s' & Hc & Ha). exists s', [EClear]. split; [exact Hc|]. by split. }
  destruct (Z.eqb_spec (r_eax r) SYS_SPAWN) as [Hn|Hsp].
  { destruct (Dsp Hn) as (nm & Hnm & Hfile & Hw). destruct args as [|p [|? ?]]; try done. destruct Hargs as [rest Hargs].
    injection Hargs as <- _. rewrite (uread_string_spec _ _ _ Hnm), bind_Some in E. injection E as <- <- <-.
    apply arrival_plain in Har as ->; [|unfold waits; by rewrite Hn].
    destruct (spawn_refines r s um t nm Hu Hs Hsh Ht Hk Htr Hn Hnm Hfile) as (s' & v & Hc & Ha & _).
    exists s', [ESpawn nm]. rewrite <- (Hw _ _ Hc). by split. }
  destruct (Z.eqb_spec (r_eax r) SYS_WAIT) as [Hn|N6].
  { destruct args as [|p [|? ?]]; try done. destruct (w_ends _ _ _); [|done]. injection E as <- <- <-. exists s, [EWait p]. split; [|by split].
    by apply wait_returns; [..|apply Dw|]. }
  destruct args as [|buf [|len [|? ?]]]; try done. destruct Hargs as [rest Hargs]. injection Hargs as <- <- _.
  destruct (Z.eqb_spec (r_eax r) SYS_READ) as [Hn|N5].
  { destruct (Dr Hn) as [He Hin]. rewrite Hn in E. cbn [Z.eqb Pos.eqb] in E. destruct (o_input o) as [|i ins]; [done|]. injection Hin as ->.
    apply option.bind_Some in E as (um2 & Ew & E). injection E as <- <- <-.
    destruct (call_read r s um t l Hu Hs Hsh Ht Hh Htx Hbx Hcx _ _ eq_refl Ew) as (s' & Hc & Ha).
    rewrite (read_arrives _ _ _ _ Hn Hh He Har). by apply (Hquiet s'). }
  assert (waits r = []) as Hw.
  { unfold waits. rewrite (proj2 (Z.eqb_neq _ _) N3), (proj2 (Z.eqb_neq _ _) N5), (proj2 (Z.eqb_neq _ _) N6). done. }
  apply (arrival_plain _ _ _ Hw) in Har as ->.
  destruct (Z.eqb_spec (r_eax r) SYS_WRITE) as [Hn|N1].
  { apply option.bind_Some in E as (bs & Er & E). injection E as <- <- <-.
    destruct (call_write r s um t Hu Hs Hsh Ht Hbx Hcx bs Hn (Sw Hn) Er) as (s' & Hc & Ha). exists s', [EWrite bs]. by split. }
  destruct (Z.eqb_spec (r_eax r) SYS_GETPROCS) as [Hn|N7].
  { apply option.bind_Some in E as (um2 & Ew & E). injection E as <- <- <-. rewrite Hwp in *.
    destruct (call_getprocs r s um t Hu Hs Hsh Ht Hk Hbx _ _ Hn eq_refl Ew) as (s' & Hc & Ha). by apply (Hquiet s'). }
  destruct (Z.eqb_spec (r_eax r) SYS_LISTFILES) as [Hn|N8].
  { apply option.bind_Some in E as (um2 & Ew & E). injection E as <- <- <-. rewrite Hwf in *.
    destruct (call_listfiles r s um t Hu Hs Hsh Ht Hbx _ _ Hn (Sl Hn) eq_refl Ew) as (s' & Hc & Ha). by apply (Hquiet s'). }
  injection E as <- <- <-. apply (Hquiet s); [|exact Hsame]. unfold syscall_dispatch.
  rewrite (proj2 (Z.eqb_neq _ _) N1), (proj2 (Z.eqb_neq _ _) N2), (proj2 (Z.eqb_neq _ _) N3), (proj2 (Z.eqb_neq _ _) Hsp), (proj2 (Z.eqb_neq _ _) N5),
    (proj2 (Z.eqb_neq _ _) N6), (proj2 (Z.eqb_neq _ _) N7), (proj2 (Z.eqb_neq _ _) N8), (proj2 (Z.eqb_neq _ _) N9). done.
Qed.

End user.

(** ** A process that was just loaded *)

Lemma lookup_place_bytes a bs va : place_bytes a bs !! va = if decide (within a (Z.of_nat (length bs)) va) then bs !! Z.to_nat (va - a) else None.
Proof.
  unfold place_bytes, within. revert a. induction bs as [|b bs IH]; intros a.
  { case_decide; [cbn [length] in *; lia|]. apply (lookup_empty (M := gmap Z)). }
  cbn [length]. rewrite seqZ_cons by lia. cbn [zip zip_with list_to_map foldr].
  replace (Z.pred (Z.of_nat (S (length bs)))) with (Z.of_nat (length bs)) by lia. rewrite <- Z.add_1_r.
  destruct (decide (va = a)) as [->|Hne].
  - rewrite decide_True, Z.sub_diag by lia. apply lookup_insert_eq.
  - rewrite lookup_insert_ne by done. rewrite IH. repeat case_decide; try lia; [|done].
    by replace (Z.to_nat (va - a)) with (S (Z.to_nat (va - (a + 1)))) by lia.
Qed.

(** An image seen through another directory. *)
Lemma sofs_transfer cr3 dir m base files : sofs_at cr3 m base files →
  (∀ x, within base (8 + 72 * Z.of_nat (length files)) x → walk m dir x = walk m cr3 x) → sofs_at dir m base files.
Proof.
  intros [H1 H2 H3 H4 H5] Hw.
  assert (∀ x, within base (8 + 72 * Z.of_nat (length files)) x → kld8 dir m x = kld8 cr3 m x) as Hb by (intros x Hx; unfold kld8; by rewrite Hw).
  assert (∀ a, base <= a → a + 4 <= base + (8 + 72 * Z.of_nat (length files)) → kld32 dir m a = kld32 cr3 m a) as Hb4.
  { intros a Ha Hf. unfold kld32. by rewrite !Hb by (unfold within; lia). }
  split; [done|done|by rewrite Hb4 by lia|by rewrite Hb4 by lia|]. intros i f Hi. pose proof (lookup_lt_Some _ _ _ Hi).
  destruct (H5 i f Hi) as ([C1 C2 C3 C4] & Hl & H6 & H7). rewrite !Hb4 by lia. split; [|done]. split; [done|done| |].
  - intros k b Hk. pose proof (lookup_lt_Some _ _ _ Hk). rewrite Hb by (unfold within; lia). by apply C3.
  - rewrite Hb by (unfold within; lia). exact C4.
Qed.

Section fresh.
Context {A : Type} `{FrameAllocLaws A}.
Context (fa0 fa : A) (data : list Z) (m : mem) (dir base : Z) (files : list file).
Abbreviation code_end := (4096 * page_count data).

(** The program padded to whole pages, and the stack. *)
Definition process_memory : umem :=
  place_bytes 0 (data ++ replicate (Z.to_nat code_end - length data) 0) ∪ place_bytes USER_STACK_VIRT (replicate 4096 0).
Definition process_addr (va : Z) : Prop := within 0 code_end va ∨ within USER_STACK_VIRT 4096 va.
Definition process_phys (va : Z) : Z := default 0 (user_walk m dir va).

Context (Hlo : loaded fa0 data m fa dir) (Hsz : Z.of_nat (length data) <= 0xBFC00000).

Lemma code_range : Z.of_nat (length data) <= code_end <= 0xBFC00000.
Proof. unfold page_count in *. clear - Hsz. word_lia. Qed.

Lemma process_lookup va : process_memory !! va =
  if decide (within 0 code_end va) then Some (nth (Z.to_nat va) data 0)
  else if decide (within USER_STACK_VIRT 4096 va) then Some 0 else None.
Proof.
  pose proof code_range as Hc. unfold process_memory. rewrite lookup_union, !lookup_place_bytes.
  rewrite length_app, !length_replicate, Z.sub_0_r.
  replace (Z.of_nat (length data + (Z.to_nat code_end - length data))) with code_end by lia. change (Z.of_nat 4096) with 4096.
  destruct (decide (within 0 code_end va)) as [Hin|Hout].
  - rewrite decide_False by (unfold within in *; lia). rewrite (right_id_L None _).
    destruct (decide (Z.to_nat va < length data)%nat) as [Hlt|Hge].
    + rewrite lookup_app_l by exact Hlt. destruct (lookup_lt_is_Some_2 _ _ Hlt) as [b Hb]. by rewrite Hb, (nth_lookup_Some _ _ _ _ Hb).
    + rewrite lookup_app_r, lookup_replicate_2 by (unfold within in Hin; lia). by rewrite nth_overflow by lia.
  - rewrite (left_id_L None _). case_decide as Hst; [|done]. apply lookup_replicate_2. unfold within in Hst. lia.
Qed.

Lemma process_byte va : process_addr va → ∃ pa b, user_walk m dir va = Some pa ∧ walk m dir va = Some pa ∧ ld8 m pa = b ∧
  process_memory !! va = Some b ∧ is_u32 va ∧ is_u32 pa ∧ free_bytes fa0 pa ∧ ¬ free_bytes fa pa ∧ va < 0xC0000000.
Proof.
  intros Hva. pose proof code_range as Hc. assert (is_u32 va ∧ va < 0xC0000000) as [Hu Hlt] by (unfold process_addr, within in Hva; lia).
  assert (∃ pa b, user_walk m dir va = Some pa ∧ walk m dir va = Some pa ∧ ld8 m pa = b ∧ process_memory !! va = Some b)
    as (pa & b & E1 & E2 & E3 & E4).
  { rewrite process_lookup. destruct (decide (within 0 code_end va)) as [Hin|Hout].
    - destruct (lo_code _ _ _ _ _ Hlo va) as (pa & H1 & H2 & H3); [exact Hin|]. by exists pa, (nth (Z.to_nat va) data 0).
    - destruct Hva as [Hin|Hst]; [done|]. destruct (lo_stack _ _ _ _ _ Hlo va Hst) as (pa & H1 & H2 & H3).
      exists pa, 0. by rewrite decide_True. }
  exists pa, b. destruct (lo_private _ _ _ _ _ Hlo va pa Hu E1) as (Hpa & Hf0 & Hf).
  assert (0 <= pa / 4096 < MAX_FRAMES ∧ within (pa / 4096 * 4096) 4096 pa) as [Hg Hw] by (unfold within; clear - Hpa; word_lia).
  do 4 (split; [assumption|]). split; [exact Hu|]. split; [exact Hpa|]. split; [|split; [|exact Hlt]].
  - exists (pa / 4096). split; [exact Hg|]. split; [exact Hf0|exact Hw].
  - intros (g & Hg' & Hgf & Hin). assert (pa / 4096 = g) as Eg by (unfold within in Hin; clear - Hin; word_lia). congruence.
Qed.

Context (Hlow : code_end <= fb) (Hfb : ∀ x, fb_bytes x → ¬ free_bytes fa0 x).
Context (Hfree : ∀ g, 0 <= g < MAX_FRAMES → fa_free fa g = true → page_count data <= g ∧ g ≠ 0xBFFFF).
Context (Himg : sofs_stable dir (call_writes process_addr process_phys fa) m base files).

(** No call writes to its page tables. *)
Lemma fresh_walk m' va : changes_only (call_writes process_addr process_phys fa) m m' → is_u32 va →
  walk m' dir va = walk m dir va ∧ user_walk m' dir va = user_walk m dir va.
Proof.
  intros Hc Hva. destruct (lo_dir _ _ _ _ _ Hlo) as (sp & Hsp & Hff & Hf0 & Hup).
  assert (space_at m' dir sp) as Hsp'.
  { eapply space_at_changes; [exact Hsp|]. eapply changes_only_mono; [|exact Hc]. intros x [(v & Hv & <-)|[Hx|Hx]] Hfp.
    - destruct (process_byte v Hv) as (pa & b & E & _ & _ & _ & Hu & _). unfold process_phys in Hfp. rewrite E in Hfp. exact (Hup v pa Hu E Hfp).
    - exact (Hfb x Hx (Hf0 x Hfp)).
    - exact (Hff x Hx Hfp). }
  destruct (walk_space m dir sp Hsp va Hva) as [-> ->]. destruct (walk_space m' dir sp Hsp' va Hva) as [-> ->]. by split.
Qed.

Lemma fresh_process : user_space dir base files process_addr process_phys fa m ∧ sees process_addr process_phys m process_memory.
Proof.
  pose proof code_range as Hcr.
  assert (∀ va pa, user_walk m dir va = Some pa → process_phys va = pa) as Hphys by (intros va pa E; unfold process_phys; by rewrite E).
  assert (∀ x, free_bytes fa x → free_bytes fa0 x) as Hsub.
  { intros x (g & Hg & Hgf & Hx). exists g. split; [exact Hg|]. split; [by apply (lo_sub _ _ _ _ _ Hlo)|exact Hx]. }
  split; split.
  - intros m' Hc va Hva. destruct (process_byte va Hva) as (pa & b & E1 & E2 & _ & _ & Hu & _).
    destruct (fresh_walk m' va Hc Hu) as [-> ->]. rewrite (Hphys _ _ E1). by split.
  - intros m' Hc va Hu Hn. destruct (fresh_walk m' va Hc Hu) as [_ ->]. unfold process_addr, within in Hn.
    apply (lo_rest _ _ _ _ _ Hlo va Hu); unfold within; lia.
  - intros va Hva. destruct (process_byte va Hva) as (pa & b & E1 & _ & _ & _ & Hu & Hpa & _ & _ & Hlt). rewrite (Hphys _ _ E1).
    split; [lia|exact Hpa].
  - intros x y Hx Hy E. destruct (process_byte x Hx) as (pa & b & E1 & _ & _ & _ & Hux & _).
    destruct (process_byte y Hy) as (pa' & b' & E1' & _ & _ & _ & Huy & _). rewrite (Hphys _ _ E1), (Hphys _ _ E1') in E. subst pa'.
    exact (lo_inj _ _ _ _ _ Hlo x y pa Hux Huy E1 E1').
  - intros va Hva. destruct (process_byte va Hva) as (pa & b & E1 & _ & _ & _ & _ & _ & Hf0 & Hf & _). rewrite (Hphys _ _ E1).
    split; [|exact Hf]. intros Hx. exact (Hfb _ Hx Hf0).
  - intros x Hx Hf. exact (Hfb x Hx (Hsub x Hf)).
  - intros m' Hc x Hx. assert (is_u32 x ∧ code_end <= x ∧ ¬ within USER_STACK_VIRT 4096 x) as (Hu & Hge & Hns).
    { destruct Hx as [Hx|(g & Hg & Hgf & Hx)]; [unfold fb_bytes, within in *; lia|]. destruct (Hfree g Hg Hgf) as [Hpc Hne].
      unfold within in *. lia. }
    destruct (fresh_walk m' x Hc Hu) as [-> _]. by apply (lo_rest _ _ _ _ _ Hlo x Hu).
  - exact Himg.
  - apply Hlo.
  - intros va. rewrite process_lookup. unfold process_addr. repeat case_decide; split; intros Hv; try (by eexists); try tauto. by destruct Hv.
  - intros va b Hb. assert (process_addr va) as Hva.
    { rewrite process_lookup in Hb. unfold process_addr. repeat case_decide; auto. done. }
    destruct (process_byte va Hva) as (pa & b' & E1 & _ & E3 & E4 & _). rewrite (Hphys _ _ E1). congruence.
Qed.
End fresh.

(** ** Properties *)

(** C9: the system calls keep their promise to the programs.  Take a process in
    its address space, the memory [um] its program sees, and a call that Usys.v
    answers by [v] and the memory [um'].  When the kernel ends the call, at the
    call itself or when the process gets the processor back, with the line typed
    that SYS_READ waits for, without the process that SYS_WAIT waits for, it
    returns [v] in eax; ring 3 then sees exactly [um']; the screen shows what the
    call wrote; the address space is as it was; and nothing is written but the
    process's own memory, the screen and free frames. *)
Theorem user_calls_refine {A} `{FrameAllocLaws A} cr3 base files V phi saved tr w o args um o' v um' r (s : kernel A) l t out :
  user_space cr3 base files V phi (k_fa s) (c_mem (k_con s)) → sees V phi (c_mem (k_con s)) um →
  shows (k_con s) t → term_wf t → kinv s → holds (k_kbd s) l → Forall (λ b, is_u8 b) (text l) →
  is_u32 (r_ebx r) → is_u32 (r_ecx r) → sizes_ok r → is_u32 tr → args `prefix_of` [r_ebx r; r_ecx r] →
  w_files w = files → w_procs w (o_log o) = procs (k_tab s) →
  os_call w (r_eax r) args um o = Some (o', Some (v, um')) →
  due cr3 base files saved tr w o um r s l → arrival cr3 base saved tr r s out →
  ∃ s' evs, out = Some (Return s' (set_eax v r)) ∧ o_log o' = o_log o ++ evs ∧
    user_space cr3 base files V phi (k_fa s') (c_mem (k_con s')) ∧ sees V phi (c_mem (k_con s')) um' ∧
    (∀ va, is_u32 va → um' !! va = (pa ← user_walk (c_mem (k_con s')) cr3 va; Some (ld8 (c_mem (k_con s')) pa))) ∧
    shows (k_con s') (foldl show_event t evs) ∧ changes_only (call_writes V phi (k_fa s)) (c_mem (k_con s)) (c_mem (k_con s')).
Proof.
  intros. edestruct (calls_refine (A := A)) as (s' & evs & Eo & El & [Hu Hs [Hsh _] Hc _]); [eassumption..|].
  exists s', evs. split; [exact Eo|]. split; [exact El|]. split; [exact Hu|]. split; [exact Hs|]. split; [|by split].
  intros va Hva. by eapply sees_ring3.
Qed.

(** C10: what a program finds when it starts.  In the process that process_create
    makes, ring 3 sees the file at 0, padded with zeros to whole pages, a page of
    zeros for the stack, and nothing else; and the address space is one that
    system calls keep.  The program ends below the frame buffer, the image and
    the free frames, which the kernel uses by their physical addresses. *)
Theorem fresh_process_sees {A} `{FrameAllocLaws A} cr3 tr m (fa : A) t base files name nm data slot :
  loadable cr3 m fa t base files name nm data → is_u32 tr → first_dead t slot → frames_needed data <= nfree fa →
  4096 * page_count data <= fb → (∀ x, fb_bytes x → ¬ free_bytes fa x) →
  (∀ g, 0 <= g < MAX_FRAMES → fa_free fa g = true → page_count data <= g ∧ g ≠ 0xBFFFF) →
  4096 * page_count data <= base → base + 8 + 72 * Z.of_nat (length files) <= USER_STACK_VIRT →
  (∀ m', changes_only (elsewhere fa) m m' → sofs_at cr3 m' base files ∧
     ∀ x, within base (8 + 72 * Z.of_nat (length files)) x → walk m' cr3 x = Some x) →
  ∃ m' fa' t' q, process_create cr3 tr (mounted base) name m fa t = Some (s32 (next_pid t), (m', fa', t')) ∧
    procs t' !! slot = Some q ∧ let dir := page_dir_phys q in let V := process_addr data in let phi := process_phys m' dir in
    user_space dir base files V phi fa' m' ∧ sees V phi m' (process_memory data) ∧
    ∀ va, is_u32 va → process_memory data !! va = (pa ← user_walk m' dir va; Some (ld8 m' pa)).
Proof.
  intros Hla Htr Hfd Hen Hlow Hfb Hfree Hb1 Hb2 Himg. pose proof (la_size _ _ _ _ _ _ _ _ _ Hla) as Hsz.
  destruct (create_enough cr3 tr m fa t base files name nm data slot Hla Htr Hfd Hen) as (m' & fa' & p & dir & ks & Hp & E & Hc & _ & _ & Hlo & _).
  eexists m', fa', _, _. split; [exact E|]. split; [apply list_lookup_insert_eq; by eapply lookup_lt_Some|]. cbn [page_dir_phys].
  assert (∀ x, free_bytes fa' x → free_bytes fa x) as Hsub.
  { intros x (g & Hg & Hgf & Hx). exists g. split; [exact Hg|]. split; [by apply (lo_sub _ _ _ _ _ Hlo)|exact Hx]. }
  destruct (fresh_process fa fa' data m' dir base files Hlo Hsz Hlow Hfb) as [Hu Hs].
  - intros g Hg Hgf. apply Hfree; [exact Hg|]. by apply (lo_sub _ _ _ _ _ Hlo).
  - intros m2 Hc2. destruct (Himg m2) as [Hso Hw].
    { eapply changes_only_trans; [eapply changes_only_mono; [|exact Hc]; by right|]. eapply changes_only_mono; [|exact Hc2].
      intros x [(va & Hva & <-)|[Hx|Hx]]; [|by left|right; by apply Hsub].
      destruct (process_byte _ _ _ _ _ Hlo Hsz va Hva) as (pa & b & Ew & _ & _ & _ & _ & _ & Hf & _). unfold process_phys. rewrite Ew. by right. }
    apply (sofs_transfer cr3); [exact Hso|]. intros x Hx. rewrite (Hw x Hx). pose proof (so_addr _ _ _ _ Hso) as Hb0.
    assert (is_u32 x) as Hux by (unfold within in Hx; lia).
    destruct (fresh_walk fa fa' data m' dir Hlo Hsz Hfb m2 x Hc2 Hux) as [-> _].
    apply (lo_rest _ _ _ _ _ Hlo x Hux); unfold within in *; lia.
  - split; [exact Hu|]. split; [exact Hs|]. intros va Hva. by eapply sees_ring3.
Qed.

(** ** Witnesses *)

(** The shell of the example image after the boot, and its kernel stack. *)
Lemma example_process : ∃ (m0 : mem) (k' : kstate) (st : pfa) dir ks, let m := c_mem (kb_con k') in
  (loaded st [0xF4] m (kb_pfa k') dir ∧ stack_apart st m (kb_pfa k') dir ks ∧ page_addr ks ∧ fa_free st (ks / 4096) = true ∧
   esp0 (kb_tss k') = ks +ᵤ 4096) ∧ cpu_ready (example_layout example_dev) (example_kstate m0) k' ∧
  kinv (m_kernel (machine_of k')) ∧ (∃ t, shows (kb_con k') t ∧ term_wf t) ∧ (∀ x, fb_bytes x → ¬ free_bytes st x) ∧
  (∀ g, 0 <= g < MAX_FRAMES → fa_free st g = true → 256 <= g < 512) ∧
  ∀ R, (∀ x, R x → elsewhere st x) → (∀ m2 va, changes_only R m m2 → is_u32 va → walk m2 dir va = walk m dir va) →
    sofs_stable dir R m 0x9180 (image_files [(bytes "shell", [0xF4])]).
Proof.
  destruct (example_boot shell_image) as (m & Hk & Hb & Hid & _); [apply (bool_decide_unpack _); vm_compute; exact I|vm_compute; lia|].
  destruct (kmain_spec (example_layout example_dev) boot_writes 0x9100 0x8000 0xB000 example_avail (frame_meets 0x9150 0x9168)
    0x9180 (0x9180 + Z.of_nat (length shell_image)) (image_files [(bytes "shell", [0xF4])]) [0xF4] (example_kstate m)
    (reset_pic, reset_pic) (mkTimer 0 false 0) (example_boot_ok _ _ _ Hk Hb) (example_fresh m) (example_boot_info _ _ _ Hb)
    (example_image_info _ _ Hb) (example_shell_file _ _ Hb) ltac:(cbn; lia) example_enough (λ tr, eq_refl) eq_refl)
    as (k' & sp & dir & ks & st & P & _ & HW & Hbt & Hcr & _ & _ & _ & _ & _ & _ & _ & _ & Hkp & Hkf & _ & [_ Hst] & Hlo & Hsa & Htss & Hsh & _).
  exists m, k', st, dir, ks. cbv zeta. set (m1 := c_mem (kb_con k')) in *.
  assert (∀ g, 0 <= g < MAX_FRAMES → fa_free st g = true → 256 <= g < 512) as Hfree.
  { intros g Hg Hgf. cbn [fa_free pfa_frame_alloc] in Hgf. rewrite Hst in Hgf by exact Hg. apply negb_true_iff in Hgf. unfold boot_used in Hgf.
    apply orb_false_iff in Hgf as [_ [_ Hgf]%orb_false_iff]. apply negb_false_iff in Hgf. rewrite example_free in Hgf.
    apply andb_prop in Hgf as [H1%Z.leb_le H2%Z.ltb_lt]. lia. }
  assert (∀ x, free_bytes st x → within 0x100000 0x100000 x) as Hfb.
  { intros x (g & Hg & Hgf & Hx). specialize (Hfree g Hg Hgf). unfold within in *. lia. }
  split; [split; [exact Hlo|]; split; [exact Hsa|]; split; [exact Hkp|]; split; [exact Hkf|exact Htss]|].
  split; [exact Hcr|]. split; [apply (mi_kernel _ (booted_inv _ Hbt))|].
  split; [|split; [intros x Hx Hf%Hfb; unfold fb_bytes, within in *; lia|split; [exact Hfree|]]].
  - eexists. split; [exact Hsh|]. apply term_write_wf. split; [reflexivity|cbn; lia].
  - intros R HR Hw m2 Hc. assert (changes_only boot_writes m m2) as Hc2.
    { eapply changes_only_trans; [exact HW|]. eapply changes_only_mono; [|exact Hc].
      intros x Hx. destruct (HR x Hx) as [Hx'|Hx'%Hfb]; [by left|]. right. right. right. by left. }
    apply (mkfs_sofs _ _ _ _ shell_image); [reflexivity| |lia|reflexivity|apply (bool_decide_unpack _); vm_compute; exact I].
    intros i b Hi. pose proof (lookup_lt_Some _ _ _ Hi) as Hl. change (length shell_image) with 84%nat in Hl.
    pose proof (blob_image _ _ (Hb m2 Hc2) i b Hi) as Hk2. unfold kld8 in *. rewrite (Hid m2) in Hk2 by (exact Hc2 || (unfold within; lia)).
    assert (is_u32 (0x9180 + Z.of_nat i)) as Hu by lia. rewrite (Hw m2 _ Hc Hu).
    destruct (lo_rest _ _ _ _ _ Hlo (0x9180 + Z.of_nat i) Hu) as [-> _]; [change (page_count [0xF4]) with 1; lia|unfold within; lia|exact Hk2].
Qed.

Lemma example_call_writes (st fa : pfa) m dir x : loaded st [0xF4] m fa dir →
  call_writes (process_addr [0xF4]) (process_phys m dir) fa x → elsewhere st x.
Proof.
  intros Hlo [(va & Hva & <-)|[Hx|(g & Hg & Hgf & Hx)]]; [right|by left|right].
  - destruct (process_byte _ _ _ _ _ Hlo ltac:(vm_compute; discriminate) va Hva) as (pa & b & E & _ & _ & _ & _ & _ & Hf & _).
    unfold process_phys. by rewrite E.
  - exists g. split; [exact Hg|]. split; [by apply (lo_sub _ _ _ _ _ Hlo)|exact Hx].
Qed.

Lemma example_memory_0 : process_memory [0xF4] !! 0 = Some 0xF4.
Proof. rewrite process_lookup by (vm_compute; discriminate). reflexivity. Qed.

Lemma fresh_process_sees_witness : ∃ (m : mem) (st : pfa) m' st' t' q pa,
  process_create 0x8000 0x123456 (mounted 0x100000) (0x100000 + 160) m st example_tab = Some (3, (m', st', t')) ∧
  procs t' !! 2%nat = Some q ∧ process_memory [1; 2; 3] !! 1 = Some 2 ∧ user_walk m' (page_dir_phys q) 1 = Some pa ∧ ld8 m' pa = 2.
Proof.
  destruct example_kernel_memory as (m & st & Hla & Hn & Hfree & Hk & Hso).
  assert (∀ x, free_bytes st x → 0x10000 <= x < 0x20000) as Hfb.
  { intros x (g & Hg & Hgf & Hx). rewrite Hfree in Hgf by exact Hg. apply andb_prop in Hgf as [H1%Z.leb_le H2%Z.ltb_lt]. unfold within in *. lia. }
  destruct (fresh_process_sees 0x8000 0x123456 m st _ _ _ _ _ _ 2 Hla) as (m' & st' & t' & q & E & Hq & _ & _ & Hm);
    [lia|exact example_first_dead|exact (Z.le_trans 6 16 _ ltac:(lia) Hn)|vm_compute; discriminate| | |vm_compute; discriminate|vm_compute; discriminate| |].
  - intros x Hx Hf%Hfb. unfold fb_bytes, within in Hx. lia.
  - intros g Hg Hgf. change (page_count [1; 2; 3]) with 1. rewrite Hfree in Hgf by exact Hg. apply andb_prop in Hgf as [H1%Z.leb_le H2%Z.ltb_lt]. lia.
  - intros m2 Hc. assert (∀ x, elsewhere st x → 0x10000 <= x < 0x100000) as He.
    { intros x [Hx|Hx%Hfb]; [unfold fb_bytes, within in Hx|]; lia. }
    split; [exact (Hso _ m2 Hc He)|]. intros x Hx. change (length (image_files example_files)) with 2%nat in Hx.
    apply Hk; [|unfold within in Hx; lia|unfold within in *; lia]. eapply changes_only_mono; [|exact Hc]. intros y Hy%He. unfold within. lia.
  - assert (process_memory [1; 2; 3] !! 1 = Some 2) as H1 by (rewrite process_lookup by (vm_compute; discriminate); reflexivity).
    pose proof (Hm 1 ltac:(lia)) as H2. rewrite H1 in H2. symmetry in H2. apply option.bind_Some in H2 as (pa & Hw & Hb).
    injection Hb as Hb. exists m, st, m', st', t', q, pa. split; [exact E|]. split; [exact Hq|]. split; [exact H1|]. split; [exact Hw|exact Hb].
Defined.

(** The shell writes its first byte to the screen. *)
Lemma user_calls_refine_witness : ∃ (s s' : kernel pfa) cr3 t,
  syscall_dispatch cr3 0 (mounted 0x9180) 0 (mkRegs 0 0 0 0 1 0 SYS_WRITE) s = Some (Return s' (mkRegs 0 0 0 0 1 0 1)) ∧
  shows (k_con s') (term_write t [0xF4]).
Proof.
  destruct example_process as (m0 & k' & st & dir & ks & (Hlo & _) & _ & Hk & (t & Hsh & Ht) & Hscr & Hfree & Himg).
  assert (Z.of_nat (length [0xF4]) <= 0xBFC00000) as Hsz by (vm_compute; discriminate).
  destruct (fresh_process st (kb_pfa k') [0xF4] (c_mem (kb_con k')) dir 0x9180 (image_files [(bytes "shell", [0xF4])]) Hlo Hsz)
    as [Hu Hs]; [vm_compute; discriminate|exact Hscr| | |].
  { intros g Hg Hgf. change (page_count [0xF4]) with 1. specialize (Hfree g Hg (lo_sub _ _ _ _ _ Hlo g Hg Hgf)). lia. }
  { apply Himg; [intros x; by apply example_call_writes|]. intros m2 va Hc Hva.
    exact (proj1 (fresh_walk st (kb_pfa k') [0xF4] (c_mem (kb_con k')) dir Hlo Hsz Hscr m2 va Hc Hva)). }
  set (s := m_kernel (machine_of k')) in *. set (r := mkRegs 0 0 0 0 1 0 SYS_WRITE).
  set (w := mkWorld (λ _ _, 0) (λ _, procs (k_tab s)) (image_files [(bytes "shell", [0xF4])]) (λ _ _, true)).
  destruct (user_calls_refine dir 0x9180 (image_files [(bytes "shell", [0xF4])]) _ _ 0 0 w (mkOs [] []) [0; 1] (process_memory [0xF4])
    (mkOs [EWrite [0xF4]] []) 1 (process_memory [0xF4]) r s (mkLine [] false) t
    (syscall_dispatch dir 0 (mounted 0x9180) 0 r s) Hu Hs Hsh Ht Hk) as (s' & evs & E & El & _ & _ & _ & Hs' & _).
  - by apply empty_kbd_holds.
  - constructor.
  - cbn; lia.
  - cbn; lia.
  - split; [intros _; cbn; lia|done].
  - lia.
  - by exists [].
  - reflexivity.
  - reflexivity.
  - unfold os_call. change (r_eax r) with 1. cbn [Z.eqb Pos.eqb]. change (Z.to_nat 1) with 1%nat. cbn [uread].
    unfold uld8. change (u32 0) with 0. rewrite example_memory_0, !bind_Some. reflexivity.
  - split; [done|]. split; done.
  - apply at_call. done.
  - cbn in El. subst evs. exists s, s', dir, t. split; [exact E|exact Hs'].
Defined.
