(* ===== verification/Int80.v ===== *)
(** * A system call, from `int 0x80` to the instruction after it

    Cpu.v runs the assembly of a system call up to the call of syscall_dispatch
    and from its return on; UserKernel.v shows that syscall_dispatch answers as
    Usys.v tells the programs.  Here they are one: [program_state] is what the
    kernel keeps true of a program while it runs in ring 3, with the stack that
    the processor switches to on `int 0x80`; [system_call_correct] takes a
    program from there through the gate, the call and the return, to ring 3 with
    the answer in eax and [program_state] again; [loaded_state] is its start, in
    a process that process_create made. *)

From stdpp Require Import prelude gmap strings.
From Stdlib Require Import ZArith Lia.
From S2P Require Import Prelude Ports Memory Kutil FrameAlloc Pfa Paging Fs Process ProcessCreate Fb Keyboard Pic Tables Mkfs Kernel Kmain Cpu Ulib Usys UserKernel.

(** The page of the kernel stack that ends at [top]. *)
Definition kstack (top x : Z) : Prop := within (top - 4096) 4096 x.

(** ** A program and its kernel stack *)

Section program.
Context {A : Type} `{FrameAllocLaws A}.
Context (cr3 base : Z) (files : list file) (V : Z → Prop) (phi : Z → Z) (top : Z).
Implicit Types (fa : A) (m : mem) (um : umem).

(** What runs in the kernel on behalf of the program may write. *)
Definition kernel_writes (fa : A) (x : Z) : Prop := call_writes V phi fa x ∨ kstack top x.

(** The program sees [um]; neither its calls nor the kernel's use of the stack
    touch the page tables or the image, or each other's memory. *)
Record program_state (fa : A) (m : mem) (um : umem) : Prop := {
  pg_space : user_space cr3 base files V phi fa m;
  pg_sees : sees V phi m um;
  pg_tables : ∀ m', changes_only (kernel_writes fa) m m' → ∀ va, is_u32 va →
    walk m' cr3 va = walk m cr3 va ∧ user_walk m' cr3 va = user_walk m cr3 va;
  pg_image : sofs_stable cr3 (kernel_writes fa) m base files;
  pg_apart : ∀ x, kstack top x → ¬ call_writes V phi fa x;
  pg_stack : ∀ x, kstack top x → is_u32 x ∧ walk m cr3 x = Some x
}.

Lemma call_kernel_writes fa x : call_writes V phi fa x → kernel_writes fa x.
Proof. by left. Qed.

Lemma stack_kernel_writes fa x : kstack top x → kernel_writes fa x.
Proof. by right. Qed.

Lemma fewer_writes fa fa' x : (∀ y, free_bytes fa' y → free_bytes fa y) → call_writes V phi fa' x → call_writes V phi fa x.
Proof. intros Hs. unfold call_writes. intros [?|[?|?]]; auto. Qed.

Lemma program_mapped fa m um : program_state fa m um → kmapped cr3 (kstack top) m.
Proof.
  intros Hp m' Hc x Hx Hk. destruct (pg_tables _ _ _ Hp m') with x as [-> _]; [|exact Hx|by apply (pg_stack _ _ _ Hp)].
  eapply changes_only_mono; [|exact Hc]. apply stack_kernel_writes.
Qed.

(** It lasts through whatever the kernel does, if the program's memory is told. *)
Lemma program_moves fa fa' m m' um um' : program_state fa m um → changes_only (kernel_writes fa) m m' →
  (∀ x, free_bytes fa' x → free_bytes fa x) → fa_ok fa' → sees V phi m' um' → program_state fa' m' um'.
Proof.
  intros [[H1 H2 H3 H4 H5 H6 H7 H8 H9] Hs Ht Hi Ha Hk] Hc Hsub Hok Hs'.
  pose proof (fewer_writes fa fa') as Hfw. pose proof (λ x, Hfw x Hsub) as Hfewer. clear Hfw.
  assert (∀ m2, changes_only (kernel_writes fa') m' m2 → changes_only (kernel_writes fa) m m2) as Hkw.
  { intros m2 Hc2. eapply changes_only_trans; [exact Hc|]. eapply changes_only_mono; [|exact Hc2].
    intros x [Hx|Hx]; [left; by apply Hfewer|by right]. }
  assert (∀ m2, changes_only (call_writes V phi fa') m' m2 → changes_only (kernel_writes fa) m m2) as Hcw.
  { intros m2 Hc2. apply Hkw. eapply changes_only_mono; [|exact Hc2]. apply call_kernel_writes. }
  assert (∀ m2, changes_only (kernel_writes fa) m m2 → ∀ va, V va → walk m2 cr3 va = Some (phi va) ∧ user_walk m2 cr3 va = Some (phi va)) as Hw.
  { intros m2 Hc2 va Hva. destruct (Ht m2 Hc2 va) as [-> ->]; [destruct (H3 va Hva); lia|]. exact (H1 m (changes_only_refl _ _) va Hva). }
  split; [split| | | | |].
  - intros m2 Hc2. exact (Hw m2 (Hcw m2 Hc2)).
  - intros m2 Hc2 va Hu Hn. destruct (Ht m2 (Hcw m2 Hc2) va Hu) as [_ ->]. exact (H2 m (changes_only_refl _ _) va Hu Hn).
  - exact H3.
  - exact H4.
  - intros va Hva. destruct (H5 va Hva) as [Hn Hf]. split; [exact Hn|]. intros Hx. exact (Hf (Hsub _ Hx)).
  - intros x Hx Hf. exact (H6 x Hx (Hsub _ Hf)).
  - intros m2 Hc2 x Hx. assert (fb_bytes x ∨ free_bytes fa x) as Hx' by (destruct Hx; auto).
    assert (is_u32 x) as Hu.
    { destruct Hx' as [Hx'|(g & Hg & _ & Hx')]; [|change MAX_FRAMES with 1048576 in Hg]; unfold fb_bytes, within in *; lia. }
    destruct (Ht m2 (Hcw m2 Hc2) x Hu) as [-> _]. exact (H7 m (changes_only_refl _ _) x Hx').
  - intros m2 Hc2. exact (Hi m2 (Hcw m2 Hc2)).
  - exact Hok.
  - exact Hs'.
  - intros m2 Hc2 va Hu. destruct (Ht m2 (Hkw m2 Hc2) va Hu) as [-> ->]. destruct (Ht m' Hc va Hu) as [-> ->]. by split.
  - intros m2 Hc2. exact (Hi m2 (Hkw m2 Hc2)).
  - intros x Hx Hw'. exact (Ha x Hx (Hfewer x Hw')).
  - intros x Hx. destruct (Hk x Hx) as [Hu E]. split; [exact Hu|]. by destruct (Ht m' Hc x Hu) as [-> _].
Qed.

(** The kernel's stack is not the program's. *)
Lemma sees_stack fa m m' um : program_state fa m um → changes_only (kstack top) m m' → sees V phi m' um.
Proof.
  intros Hp Hc. destruct (pg_sees _ _ _ Hp) as [Hd Hb]. split; [exact Hd|]. intros va b E. rewrite <- (Hb _ _ E).
  assert (V va) as HV by (apply Hd; by eexists). apply Hc; [apply (vs_range _ _ _ _ _ _ _ (pg_space _ _ _ Hp) va HV)|].
  intros Hk. apply (pg_apart _ _ _ Hp _ Hk). left. by exists va.
Qed.

Lemma program_stack fa m m' um : program_state fa m um → changes_only (kstack top) m m' → program_state fa m' um.
Proof.
  intros Hp Hc. eapply program_moves; [exact Hp| |done|apply Hp|by eapply sees_stack].
  eapply changes_only_mono; [|exact Hc]. apply stack_kernel_writes.
Qed.
End program.

Lemma back_running c c3 v : running c → back_to c c3 v → is_u32 v → running c3.
Proof.
  intros [[Hr Hip] [Hf Hfi] Hm Hs] [B1 B2 B3 B4 B5 [B6 B6'] B7] Hv. split.
  - split; [|by rewrite B3]. intros r. destruct (decide (r = EAX)) as [->|Hne]; [by rewrite B1|by rewrite (B2 r Hne)].
  - by rewrite B4.
  - by rewrite B6, B6'.
  - unfold cpl. rewrite B6. intros Hc g. rewrite B7. by apply Hs.
Qed.

(** ** The start: a process that was just loaded *)

Section loaded.
Context {A : Type} `{FrameAllocLaws A}.
Context (fa0 fa : A) (data : list Z) (m : mem) (dir ks base : Z) (files : list file).
Abbreviation code_end := (4096 * page_count data).
Abbreviation writes := (kernel_writes (process_addr data) (process_phys m dir) (ks + 4096) fa).
Context (Hlo : loaded fa0 data m fa dir) (Hsz : Z.of_nat (length data) <= 0xBFC00000).
Context (Hap : stack_apart fa0 m fa dir ks) (Hpage : page_addr ks) (Hks : fa_free fa0 (ks / 4096) = true).
Context (Hlow : code_end <= fb) (Hfb : ∀ x, fb_bytes x → ¬ free_bytes fa0 x).
Context (Hfree : ∀ g, 0 <= g < MAX_FRAMES → fa_free fa0 g = true → page_count data <= g ∧ g ≠ 0xBFFFF).

Lemma stack_free x : kstack (ks + 4096) x → within ks 4096 x ∧ free_bytes fa0 x.
Proof.
  intros Hx. destruct Hpage as [Hk Ha]. unfold kstack, within in Hx. split; [unfold within; clear - Hx; lia|].
  exists (ks / 4096). split; [clear - Hk; word_lia|]. split; [exact Hks|]. unfold within. clear - Hx Ha. word_lia.
Qed.

Lemma loaded_tables m' va : changes_only writes m m' → is_u32 va →
  walk m' dir va = walk m dir va ∧ user_walk m' dir va = user_walk m dir va.
Proof.
  intros Hc Hva. destruct Hap as (sp & Hsp & Hst & Hff & Hf0 & Hup).
  assert (space_at m' dir sp) as Hsp'.
  { eapply space_at_changes; [exact Hsp|]. eapply changes_only_mono; [|exact Hc]. intros x [[(v & Hv & <-)|[Hx|Hx]]|Hx] Hfp.
    - destruct (process_byte fa0 fa data m dir Hlo Hsz v Hv) as (pa & b & E & _ & _ & _ & Hu & _). unfold process_phys in Hfp.
      rewrite E in Hfp. by destruct (Hup v pa Hu E).
    - exact (Hfb x Hx (Hf0 x Hfp)).
    - exact (Hff x Hx Hfp).
    - apply stack_free in Hx as [Hx _]. by destruct (Hst x Hx). }
  destruct (walk_space m dir sp Hsp va Hva) as [-> ->]. destruct (walk_space m' dir sp Hsp' va Hva) as [-> ->]. by split.
Qed.

Lemma loaded_state : sofs_stable dir writes m base files →
  program_state dir base files (process_addr data) (process_phys m dir) (ks + 4096) fa m (process_memory data).
Proof.
  intros Himg. destruct (fresh_process fa0 fa data m dir base files Hlo Hsz Hlow Hfb) as [Hu Hs].
  { intros g Hg Hgf. apply Hfree; [exact Hg|]. by apply (lo_sub _ _ _ _ _ Hlo). }
  { intros m' Hc. apply Himg. eapply changes_only_mono; [|exact Hc]. apply call_kernel_writes. }
  split; [exact Hu|exact Hs| |exact Himg| |].
  - intros m' Hc va Hva. by apply loaded_tables.
  - destruct Hap as (sp & Hsp & Hst & Hff & Hf0 & Hup). intros x [Hx Hxf]%stack_free [(v & Hv & <-)|[Hc|Hc]].
    + destruct (process_byte fa0 fa data m dir Hlo Hsz v Hv) as (pa & b & E & _ & _ & _ & Hva & _).
      unfold process_phys in Hx. rewrite E in Hx. by destruct (Hup v pa Hva E).
    + exact (Hfb x Hc Hxf).
    + by destruct (Hst x Hx).
  - intros x Hx. apply stack_free in Hx as [Hx (g & Hg & Hgf & Hin)]. destruct Hpage as [Hk Ha]. destruct (Hfree g Hg Hgf) as [Hpc Hns].
    assert (is_u32 x ∧ code_end <= x ∧ ¬ within USER_STACK_VIRT 4096 x) as (Hux & Hge & Hnst).
    { change MAX_FRAMES with 1048576 in Hg. unfold within in *. clear - Hk Hx Hg Hin Hpc Hns. lia. }
    split; [exact Hux|]. by apply (lo_rest _ _ _ _ _ Hlo x Hux).
Qed.
End loaded.

(** ** Properties *)

(** C13: a system call, from the program's side.  In ring 3, `int 0x80` reaches
    syscall_dispatch with the program's registers where its parameter points and
    with the program's memory untouched.  Take any run of the kernel that ends
    the call, at once or after it gave up the processor, where Usys.v answers by
    [v], the memory [um'] and the events [evs]: it returns [v], shows [evs] on
    the screen, and writes only the program's memory, the screen and free frames.
    Once the code compiled from it has returned, with its
    parameter in place and eax stored there, the program is back in ring 3 after
    the `int`, eax is [v], every other register is as it was, its memory is
    [um'], and the next call finds all as this one did. *)
Theorem system_call_correct {A} `{FrameAllocLaws A} tss_addr gdt_addr gdt0 gdt gdtr h sys idt_addr idt0 ports i tss base files V phi c m (fa : A) um top ret dispatch :
  length gdt0 = 6%nat → is_u32 tss_addr → gdt_init tss_addr gdt_addr gdt0 = Some (gdt, gdtr) →
  length idt0 = 256%nat → (∀ n, is_u32 (h n)) → is_u32 sys → idt_init h sys idt_addr idt0 ports = Some i →
  ss0 tss = 0x10 → esp0 tss = top → 4096 <= top < 4294967296 → is_u32 ret →
  running c → cpl c = 3 → program_state (x_cr3 c) base files V phi top fa m um →
  ∃ g c0 m0 c1 m1, soft_int (idt_table i) (idtr i) (cpl c) 0x80 = Some g ∧ enter gdt gdtr tss g None (c, m) = Some (c0, m0) ∧ x_eip c0 = sys ∧
    exec_all gdt gdtr (syscall_entry ret dispatch) (c0, m0) = Some (c1, m1) ∧ x_eip c1 = dispatch ∧ cpl c1 = 0 ∧ x_reg c1 ESP = top - 56 ∧
    ld32 m1 (top - 52) = top - 48 ∧ words_at m1 (top - 48) (regs_words (regs_of c)) ∧ changes_only (kstack top) m m1 ∧
    program_state (x_cr3 c) base files V phi top fa m1 um ∧
    ∀ saved tr w o args o' v um' (s : kernel A) l t out,
      program_state (x_cr3 c) base files V phi top (k_fa s) (c_mem (k_con s)) um →
      shows (k_con s) t → term_wf t → kinv s → holds (k_kbd s) l → Forall (λ b, is_u8 b) (text l) → sizes_ok (regs_of c) → is_u32 tr →
      args `prefix_of` [x_reg c EBX; x_reg c ECX] → w_files w = files → w_procs w (o_log o) = procs (k_tab s) →
      os_call w (x_reg c EAX) args um o = Some (o', Some (v, um')) →
      due (x_cr3 c) base files saved tr w o um (regs_of c) s l → arrival (x_cr3 c) base saved tr (regs_of c) s out →
      ∃ s' evs, out = Some (Return s' (set_eax v (regs_of c))) ∧ o_log o' = o_log o ++ evs ∧ shows (k_con s') (foldl show_event t evs) ∧
        changes_only (call_writes V phi (k_fa s)) (c_mem (k_con s)) (c_mem (k_con s')) ∧
        ∀ c2 m2, returned c c2 → x_reg c2 ESP = top - 52 → changes_only (kstack top) (c_mem (k_con s')) m2 →
          (∀ x, within (top - 48) 48 x → ¬ within (top - 24) 4 x → ld8 m2 x = ld8 m1 x) → ld32 m2 (top - 24) = v →
          ∃ c3, exec_all gdt gdtr syscall_exit (c2, m2) = Some (c3, m2) ∧ back_to c c3 v ∧ running c3 ∧
            program_state (x_cr3 c3) base files V phi top (k_fa s') m2 um' ∧
            ∀ va, is_u32 va → um' !! va = (pa ← user_walk m2 (x_cr3 c3) va; Some (ld8 m2 pa)).
Proof.
  intros Hgl Hta Eg Hil Hh Hsys Ei Hss Hesp Htop Hret Hrun Hcpl Hp.
  assert (∀ x, within (top - 56) 56 x → kstack top x) as HK by (intros x; unfold kstack, within; lia).
  destruct (syscall_roundtrip tss_addr gdt_addr gdt0 gdt gdtr h sys idt_addr idt0 ports i tss c m (kstack top) top ret dispatch)
    as (g & c0 & m0 & c1 & m1 & Es & E0 & Hip & E1 & Hd & Hc1 & _ & _ & Hch & Hsp & _ & Harg & Hw & Hback); try done; [lia|by eapply program_mapped|].
  exists g, c0, m0, c1, m1. do 9 (split; [assumption|]).
  assert (changes_only (kstack top) m m1) as Hch1 by (by eapply changes_only_mono).
  split; [exact Hch1|]. split; [by eapply program_stack|].
  intros saved tr w o args o' v um' s l t out Hps Hsh Ht Hk Hl Htx Hsz Htr Hargs Hwf Hwp Ecall Hdue Har.
  destruct (rn_regs _ Hrun) as [Hu32 _].
  destruct (calls_refine (A := A) (x_cr3 c) base files V phi saved tr w o args um o' v um' (regs_of c) s l t out) as (s' & evs & Eo & El & Ha);
    try done; [apply Hps|apply Hps|apply Hu32|apply Hu32|].
  exists s', evs. split; [exact Eo|]. split; [exact El|]. split; [apply Ha|]. split; [apply Ha|].
  intros c2 m2 Hr2 Hsp2 Hc2 Hframe Hv.
  assert (program_state (x_cr3 c) base files V phi top (k_fa s') (c_mem (k_con s')) um') as Hps'.
  { eapply program_moves; [exact Hps| |apply Ha|apply (an_space _ _ _ _ _ _ _ _ _ Ha)|apply Ha].
    eapply changes_only_mono; [|apply (an_changes _ _ _ _ _ _ _ _ _ Ha)]. apply call_kernel_writes. }
  apply (program_stack _ _ _ _ _ _ _ _ _ _ Hps') in Hc2 as Hps2.
  destruct (Hback c2 m2 v Hr2 Hsp2 (program_mapped _ _ _ _ _ _ _ _ _ Hps2) Hframe Hv) as (c3 & E3 & Hb).
  exists c3. split; [exact E3|]. split; [exact Hb|]. split; [eapply back_running; [exact Hrun|exact Hb|rewrite <- Hv; apply ld32_range]|].
  rewrite (bt_cr3 _ _ _ Hb). split; [exact Hps2|]. intros va Hva. eapply sees_ring3; [apply Hps2|apply Hps2|exact Hva].
Qed.

(** ** Witnesses *)

(** The shell of the example image, booted by kmain, writes its first byte to
    the screen. *)
Definition shell_core (dir : Z) : core :=
  mkCore (λ r, if reg_eqb r EBX then 0 else 1) 2 0x202 dir 0x1B 0x23 (λ _, 0x23).
Definition kernel_core (dir sp : Z) : core := mkCore (λ _, sp) 0 2 dir 0x08 0x10 (λ _, 0x23).

Lemma shell_core_running dir : running (shell_core dir).
Proof. split; cbn; [split; [intros r; destruct r; cbn; lia|lia]|split; [lia|done]|by left|done]. Qed.

Lemma example_program : ∃ (m0 : mem) (k' : kstate) dir top, let m := c_mem (kb_con k') in
  program_state dir 0x9180 (image_files [(bytes "shell", [0xF4])]) (process_addr [0xF4]) (process_phys m dir) top (kb_pfa k') m
    (process_memory [0xF4]) ∧
  0x101000 <= top <= 0x200000 ∧ esp0 (kb_tss k') = top ∧ cpu_ready (example_layout example_dev) (example_kstate m0) k' ∧
  kinv (m_kernel (machine_of k')) ∧ ∃ t, shows (kb_con k') t ∧ term_wf t.
Proof.
  destruct example_process as (m0 & k' & st & dir & ks & (Hlo & Hsa & Hkp & Hkf & Htss) & Hcr & Hk & Hsh & Hscr & Hfree & Himg).
  pose proof (Hfree (ks / 4096) (page_frame _ Hkp) Hkf) as Hr. destruct (Hkp) as [_ Hal].
  assert (0x100000 <= ks <= 0x1FF000) as Hks by (clear - Hr Hal; word_lia).
  exists m0, k', dir, (ks + 4096). cbv zeta. split; [|split; [lia|split; [rewrite Htss; apply u32_small; lia|by split_and!]]].
  assert (∀ g, 0 <= g < MAX_FRAMES → fa_free st g = true → page_count [0xF4] <= g ∧ g ≠ 0xBFFFF) as Hf2.
  { intros g Hg Hgf. change (page_count [0xF4]) with 1. specialize (Hfree g Hg Hgf). lia. }
  assert (Z.of_nat (length [0xF4]) <= 0xBFC00000) as Hsz by (vm_compute; discriminate).
  apply (loaded_state st (kb_pfa k') [0xF4] (c_mem (kb_con k')) dir ks _ _ Hlo Hsz Hsa Hkp Hkf); [vm_compute; discriminate|exact Hscr|exact Hf2|].
  apply Himg.
  - intros x [Hx|Hx]; [by eapply example_call_writes|]. right. by apply (stack_free st ks).
  - intros m2 va Hc Hva. exact (proj1 (loaded_tables st (kb_pfa k') [0xF4] _ dir ks Hlo Hsz Hsa Hkp Hkf Hscr m2 va Hc Hva)).
Qed.

Lemma system_call_correct_witness : ∃ (k' : kstate) dir top c1 m1 (s' : kernel pfa) m2 c3 t,
  esp0 (kb_tss k') = top ∧ words_at m1 (top - 48) (regs_words (mkRegs 1 1 1 1 1 0 SYS_WRITE)) ∧ x_eip c1 = 0xB000 ∧
  syscall_dispatch dir 0 (mounted 0x9180) 0 (mkRegs 1 1 1 1 1 0 SYS_WRITE) (set_mem m1 (m_kernel (machine_of k'))) =
    Some (Return s' (mkRegs 1 1 1 1 1 0 1)) ∧ shows (k_con s') (term_write t [0xF4]) ∧
  exec_all (kb_gdt k') (kb_gdtr k') syscall_exit (kernel_core dir (top - 52), m2) = Some (c3, m2) ∧ back_to (shell_core dir) c3 1.
Proof.
  destruct example_program as (m0 & k' & dir & top & Hp & Htop & Htss & Hcr & Hk & t & Hsh & Ht).
  destruct (cr_idt _ _ _ Hcr) as (ports & i & Ei & _).
  destruct (system_call_correct 0xA100 0xA200 (replicate 6 (mkGdt 0 0 0 0 0 0)) (kb_gdt k') (kb_gdtr k') (λ n, 0xA800 + n mod 256) 0xA900 0xA300
    (replicate 256 (mkIdt 0 0 0 0 0)) ports i (kb_tss k') 0x9180 (image_files [(bytes "shell", [0xF4])]) _ _ (shell_core dir) _
    (kb_pfa k') _ top 0xA910 0xB000 eq_refl ltac:(lia) (proj1 (cr_gdt _ _ _ Hcr)) (length_replicate _ _) ltac:(intros n; word_lia)
    ltac:(lia) Ei (cr_ss _ _ _ Hcr) Htss ltac:(lia) ltac:(lia) (shell_core_running dir) eq_refl Hp)
    as (g & c0 & m0' & c1 & m1 & _ & _ & _ & _ & Hip & _ & _ & _ & Hw & Hc1 & Hp1 & Hcall).
  set (s := set_mem m1 (m_kernel (machine_of k'))).
  set (w := mkWorld (λ _ _, 0) (λ _, procs (k_tab s)) (image_files [(bytes "shell", [0xF4])]) (λ _ _, true)).
  destruct (Hcall 0 0 w (mkOs [] []) [0; 1] (mkOs [EWrite [0xF4]] []) 1 (process_memory [0xF4]) s (mkLine [] false) t
    (syscall_dispatch dir 0 (mounted 0x9180) 0 (regs_of (shell_core dir)) s) Hp1) as (s' & evs & Eo & El & Hs' & Hch & Hret).
  - cbn [k_con s set_mem set_con]. apply shows_changes; [exact Hsh|]. eapply changes_only_mono; [|exact Hc1].
    unfold kstack, fb_bytes, within. intros x Hx. lia.
  - exact Ht.
  - eapply kinv_same; [..|exact Hk]; [reflexivity|reflexivity|]. exists (mkLine [] false). by apply empty_kbd_holds.
  - by apply empty_kbd_holds.
  - constructor.
  - split; [intros _; cbn; lia|done].
  - lia.
  - by exists [].
  - reflexivity.
  - reflexivity.
  - unfold os_call. change (x_reg (shell_core dir) EAX) with 1. cbn [Z.eqb Pos.eqb]. change (Z.to_nat 1) with 1%nat. cbn [uread].
    unfold uld8. change (u32 0) with 0. rewrite example_memory_0, !bind_Some. reflexivity.
  - split; [done|]. split; done.
  - apply at_call. done.
  - destruct (Hret (kernel_core dir (top - 52)) (st32 (c_mem (k_con s')) (top - 24) 1)) as (c3 & E3 & Hb & _).
    + by split.
    + reflexivity.
    + intros x Hx Hn. apply ld8_st32; [lia|exact Hx|]. unfold kstack, within in *. lia.
    + intros x Hx Hn. rewrite ld8_st32; [|lia|unfold within in Hx; lia|exact Hn]. apply Hch; [unfold within in Hx; lia|].
      apply (pg_apart _ _ _ _ _ _ _ _ _ Hp1). unfold kstack, within in *. lia.
    + apply ld32_st32_eq; lia.
    + cbn in El. subst evs. eexists k', dir, top, c1, m1, s', _, c3, t. by split_and!.
Defined.
