(* ===== verification/Shell.v ===== *)
(** * programs/shell.c, hello.c and program.c

    The shell is a loop that never ends: it prompts, reads a line, cuts blanks
    off its end, and carries out a command of its own or runs a program and waits
    for it.  [session] is what a user may expect to see for the lines typed; the
    shell is proved to do exactly that, for any list of lines. *)

From stdpp Require Import prelude gmap strings.
From Stdlib Require Import ZArith Lia.
From ITree Require Import ITree ITreeFacts.
From S2P Require Import Prelude Fs Ulib Usys.

(** ** The code

    [cmd] and [filebuf] are the arrays of main on its stack, [lit] the places of
    the string literals. *)

Section code.
Context (lit : list Z → Z).

Definition hello_main (m : umem) : itree sysE umem :=
  let* _, m := write (lit (bytesln "Hello, World!")) 14 m in
  exit m.

Definition program_main (m : umem) : itree sysE umem :=
  let* _, m := write (lit (bytesln "Hello from 'program'!")) 22 m in
  exit m.

Context (cmd filebuf : Z).

Definition is_blank (c : Z) : bool := (c =? 32) || (c =? 10).

(** The loop that cuts blanks off. *)
Definition trim_step (s : umem * Z) : option ((umem * Z) + (umem * Z)) :=
  let '(m, len) := s in
  if 0 <? len then
    c ← uld8 m (cmd +ᵤ (len - 1));
    if is_blank c then m ← ust8 m (cmd +ᵤ (len - 1)) 0; Some (inl (m, len - 1))
    else Some (inr (m, len))
  else Some (inr (m, len)).

Definition shell_help (m : umem) : itree sysE umem :=
  let* _, m := write (lit (bytesln "Available commands:")) 20 m in
  let* _, m := write (lit (bytesln "  help    - show this help")) 27 m in
  let* _, m := write (lit (bytesln "  ls      - list programs")) 26 m in
  let* _, m := write (lit (bytesln "  clear   - clear screen")) 25 m in
  let* _, m := write (lit (bytesln "  exit    - halt the system")) 28 m in
  let* _, m := write (lit (bytesln "  <name>  - run a program")) 26 m in
  Ret m.

Definition shell_ls (m : umem) : itree sysE umem :=
  let* len, m := listfiles filebuf 512 m in
  if 0 <? len then
    let* _, m := write filebuf (u32 len) m in
    Ret m
  else Ret m.

Definition shell_run (m : umem) : itree sysE umem :=
  let* pid, m := spawn cmd m in
  if pid <? 0 then
    let* _, m := write (lit (bytes "Unknown command: ")) 17 m in
    let* n := lift (ustrlen m cmd) in
    let* _, m := write cmd n m in
    let* _, m := write (lit [10]) 1 m in
    Ret m
  else
    let* _, m := wait pid m in
    Ret m.

Definition shell_command (m : umem) : itree sysE umem :=
  let* b := lift (streq m cmd (lit (bytes "help"))) in
  if negb (b =? 0) then shell_help m else
  let* b := lift (streq m cmd (lit (bytes "ls"))) in
  if negb (b =? 0) then shell_ls m else
  let* b := lift (streq m cmd (lit (bytes "clear"))) in
  if negb (b =? 0) then clear m else
  let* b := lift (streq m cmd (lit (bytes "exit"))) in
  if negb (b =? 0) then
    let* _, m := write (lit (bytesln "Goodbye!")) 9 m in
    exit m
  else shell_run m.

(** One turn of the loop of main. *)
Definition shell_turn (m : umem) : itree sysE (umem + void) :=
  let* _, m := write (lit (bytes "> ")) 2 m in
  let* len, m := read cmd 127 m in
  if len <=? 0 then Ret (inl m) else
  let* m := lift (ust8 m (cmd +ᵤ len) 0) in
  let* m, len := lift (while trim_step (m, len)) in
  if len =? 0 then Ret (inl m) else
  let* m := shell_command m in
  Ret (inl m).

Definition shell_main (m : umem) : itree sysE void :=
  let* _, m := write (lit (bytesln "=== MiniShell v1.0 ===")) 23 m in
  let* _, m := write (lit (bytesln "Type 'help' for available commands." ++ [10])) 37 m in
  ITree.iter shell_turn m.

(** The literals of shell.c. *)
Definition shell_literals : list (list Z) :=
  [bytesln "=== MiniShell v1.0 ==="; bytesln "Type 'help' for available commands." ++ [10]; bytes "> ";
   bytesln "Available commands:"; bytesln "  help    - show this help"; bytesln "  ls      - list programs";
   bytesln "  clear   - clear screen"; bytesln "  exit    - halt the system"; bytesln "  <name>  - run a program";
   bytes "Unknown command: "; [10]; bytesln "Goodbye!"; bytes "help"; bytes "ls"; bytes "clear"; bytes "exit"].
End code.

(** ** What the user sees *)

(** The line without the blanks at its end. *)
Fixpoint trim (l : list Z) : list Z :=
  match l with
  | [] => []
  | c :: l' => match trim l' with [] => if decide (c ∈ bytesln " ") then [] else [c] | t => c :: t end
  end.

Definition help_text : list event :=
  EWrite <$> [bytesln "Available commands:"; bytesln "  help    - show this help"; bytesln "  ls      - list programs";
              bytesln "  clear   - clear screen"; bytesln "  exit    - halt the system"; bytesln "  <name>  - run a program"].

(** The reply to a command other than exit, given what happened before. *)
Definition reply (w : world) (past : list event) (c : list Z) : list event :=
  if decide (c = bytes "help") then help_text
  else if decide (c = bytes "ls") then
    match listing 512 (w_files w) with [] => [] | out => [EWrite out] end
  else if decide (c = bytes "clear") then [EClear]
  else
    let pid := s32 (u32 (w_spawn w past c)) in
    if pid <? 0 then [ESpawn c; EWrite (bytes "Unknown command: "); EWrite c; EWrite [10]]
    else [ESpawn c; EWait pid].

(** Whether the shell comes back from it: not from a program that never ends. *)
Definition returns (w : world) (past : list event) (c : list Z) : bool :=
  let pid := s32 (u32 (w_spawn w past c)) in
  bool_decide (c ∈ bytes <$> ["help"; "ls"; "clear"]%string) || (pid <? 0) || w_ends w (past ++ [ESpawn c]) pid.

Fixpoint session (w : world) (lines : list (list Z)) (past : list event) : os :=
  let past := past ++ [EWrite (bytes "> ")] in
  match lines with
  | [] => mkOs past []
  | l :: ls =>
      if decide (trim l = []) then session w ls past
      else if decide (trim l = bytes "exit") then mkOs (past ++ [EWrite (bytesln "Goodbye!"); EExit]) ls
      else if returns w past (trim l) then session w ls (past ++ reply w past (trim l))
      else mkOs (past ++ reply w past (trim l)) ls
  end.

(** ** Trimming *)

(** Blanks are the space and the newline. *)
Lemma is_blank_spec c : is_blank c = bool_decide (c ∈ bytesln " ").
Proof.
  change (bytesln " ") with [32; 10]. unfold is_blank. symmetry.
  destruct (Z.eqb_spec c 32), (Z.eqb_spec c 10);
    [apply bool_decide_eq_true_2..|apply bool_decide_eq_false_2]; rewrite !elem_of_cons, elem_of_nil; lia.
Qed.

Lemma trim_snoc l c : trim (l ++ [c]) = if is_blank c then trim l else l ++ [c].
Proof.
  induction l as [|a l IH]; cbn [app trim]; [rewrite is_blank_spec; by case_decide; case_bool_decide|]. rewrite IH.
  destruct (is_blank c); [done|]. by destruct l.
Qed.

Lemma ustring_cut m m' a l c : ustring m a (l ++ [c]) → (∀ j, m' !! (a + j) = if decide (j = Z.of_nat (length l)) then Some 0 else m !! (a + j)) →
  ustring m' a l.
Proof.
  intros [H0 Hf Hb Hz _] Hm. rewrite length_app in Hf. simpl in Hf. apply Forall_app in Hz as [Hz _]. split; [done|lia| |done|].
  - intros i b Hi. pose proof (lookup_lt_Some _ _ _ Hi). rewrite Hm, decide_False by lia. apply Hb. by apply lookup_app_l_Some.
  - by rewrite Hm, decide_True.
Qed.

Lemma trim_loop cmd m l : ubuffer m cmd 128 → ustring m cmd l → (length l <= 127)%nat →
  ∃ m', while (trim_step cmd) (m, Z.of_nat (length l)) = Some (m', Z.of_nat (length (trim l))) ∧
    ustring m' cmd (trim l) ∧ uchanges cmd 128 m m'.
Proof.
  intros Hb Hs Hl.
  destruct (while_ind (λ s, ∃ m' l', s = (m', Z.of_nat (length l')) ∧ ustring m' cmd l' ∧ trim l' = trim l ∧ (length l' <= 127)%nat ∧ uchanges cmd 128 m m')
    (λ r, ∃ m', r = (m', Z.of_nat (length (trim l))) ∧ ustring m' cmd (trim l) ∧ uchanges cmd 128 m m') (λ s, s.2)
    (trim_step cmd) (m, Z.of_nat (length l))) as (r & -> & m' & -> & Hs' & Hc).
  - exists m, l. split_and!; [done|done|done|done|by split].
  - simpl. lia.
  - intros s (m1 & l' & -> & Hs1 & Ht & Hl1 & Hc1). unfold trim_step.
    destruct l' as [|x l0 _] using rev_ind.
    { eexists. split; [reflexivity|]. cbn. exists m1. rewrite <- Ht. by split_and!. }
    rewrite length_app in *. simpl length in *. rewrite Nat2Z.inj_add. ztest. replace (Z.of_nat (length l0) + Z.of_nat 1 - 1) with (Z.of_nat (length l0)) by lia.
    pose proof Hb as (B0 & B1 & _). rewrite uld8_at by lia.
    pose proof (us_bytes _ _ _ Hs1 (length l0) x) as Hx. rewrite list_lookup_middle in Hx by done. rewrite (Hx eq_refl), bind_Some.
    rewrite trim_snoc in Ht. destruct (is_blank x).
    + destruct (ust8_buffer m1 cmd 128 (Z.of_nat (length l0)) 0) as (m2 & -> & Hc2 & H2); [by eapply ubuffer_changes|lia|lia|].
      rewrite bind_Some. eexists. split; [reflexivity|]. split; [|simpl; lia].
      exists m2, l0. split_and!; [done|by eapply ustring_cut|done|lia|by eapply uchanges_trans].
    + eexists. split; [reflexivity|]. exists m1. rewrite <- Ht, length_app. split_and!; [|done|done]. simpl. f_equal. lia.
  - by exists m'.
Qed.

(** ** The commands *)

Section shell.
Context (w : world) (lit : list Z → Z) (cmd filebuf : Z).

(** The arrays of main, and the literals apart from them. *)
Record shell_frame (m : umem) : Prop := {
  sf_cmd : ubuffer m cmd 128;
  sf_file : ubuffer m filebuf 512;
  sf_lits : ∀ str, str ∈ shell_literals → ustring m (lit str) str;
  sf_apart : ∀ str, str ∈ shell_literals →
    (lit str + Z.of_nat (length str) < cmd ∨ cmd + 128 <= lit str) ∧
    (lit str + Z.of_nat (length str) < filebuf ∨ filebuf + 512 <= lit str)
}.

Lemma shell_frame_changes a len m m' : shell_frame m → uchanges a len m m' → (a = cmd ∧ len <= 128 ∨ a = filebuf ∧ len <= 512) →
  shell_frame m'.
Proof.
  intros [H1 H2 H3 H4] Hc Ha. split; [by eapply ubuffer_changes|by eapply ubuffer_changes| |done].
  intros str Hstr. eapply ustring_changes; [by apply H3|exact Hc|]. specialize (H4 str Hstr). lia.
Qed.

(** [write] of a literal of the shell. *)
Lemma shell_write {A} m s str n (k : Z * umem → itree sysE A) : shell_frame m → str ∈ shell_literals → n = Z.of_nat (length str) →
  run w (ITree.bind (write (lit str) n m) k) s ≈ₜ run w (k (n, m)) (log (EWrite str) s).
Proof.
  intros Hf Hstr ->. pose proof (sf_lits _ Hf _ Hstr) as Hs. rewrite (run_write_lit w _ _ _ _ _ _ Hs).
  - by rewrite Nat2Z.id, take_ge.
  - lia.
  - apply (Forall_forall (λ l, Z.of_nat (length l) < 2147483648) shell_literals); [|done]. repeat constructor; cbn; lia.
Qed.

Lemma shell_streq {A} m s c str (k : Z → itree sysE A) : shell_frame m → ustring m cmd c → str ∈ shell_literals →
  run w (ITree.bind (lift (streq m cmd (lit str))) k) s ≈ₜ run w (k (if decide (c = str) then 1 else 0)) s.
Proof. intros Hf Hc Hstr. apply run_lift. apply streq_spec; [done|]. by apply (sf_lits _ Hf). Qed.

Lemma run_help {A} m s (k : umem → itree sysE A) : shell_frame m →
  run w (ITree.bind (shell_help lit m) k) s ≈ₜ run w (k m) (logs help_text s).
Proof.
  intros Hf. unfold shell_help.
  do 6 (rewrite run_bind_bind; rewrite shell_write; [|exact Hf|in_literals|reflexivity]).
  rewrite run_ret_bind. unfold help_text. cbn [fmap list_fmap]. rewrite log_one, !log_logs. reflexivity.
Qed.

Lemma run_program {A} m s c (k : umem → itree sysE A) : shell_frame m → ustring m cmd c → (length c <= 127)%nat →
  c ≠ bytes "help" → c ≠ bytes "ls" → c ≠ bytes "clear" →
  run w (ITree.bind (shell_run lit cmd m) k) s ≈ₜ
  if returns w (o_log s) c then run w (k m) (logs (reply w (o_log s) c) s) else stop (Gone (logs (reply w (o_log s) c) s)).
Proof.
  intros Hf Hc Hl N1 N2 N3. unfold shell_run, reply, returns. rewrite !decide_False by done.
  rewrite bool_decide_eq_false_2 by (cbn [fmap list_fmap]; rewrite !elem_of_cons, elem_of_nil; tauto). cbn [orb]. rewrite run_bind_bind, (run_spawn w _ _ _ _ _ Hc).
  set (pid := s32 _). destruct (Z.ltb_spec pid 0) as [Hneg|Hpos].
  - rewrite run_bind_bind, shell_write; [|exact Hf|in_literals|reflexivity]. cbv beta iota.
    rewrite run_bind_bind, run_lift; [|by apply ustrlen_spec]. destruct Hc as [C0 C1 C2 _ _].
    rewrite run_bind_bind, run_write; [|done|done|lia|lia]. cbv beta iota.
    rewrite run_bind_bind, shell_write; [|exact Hf|in_literals|reflexivity]. rewrite run_ret_bind, (log_one (EWrite [10])), !log_logs. reflexivity.
  - assert (u32 pid = pid) as Hu by (apply u32_small; pose proof (s32_range (u32 (w_spawn w (o_log s) c))); lia).
    rewrite run_bind_bind, run_wait, Hu. cbn [log o_log]. destruct (w_ends w (o_log s ++ [ESpawn c]) pid); cbn [orb].
    + rewrite run_ret_bind, (log_one (EWait pid)), log_logs. reflexivity.
    + rewrite (log_one (EWait pid)), log_logs. reflexivity.
Qed.

Lemma returns_builtin past c : c ∈ bytes <$> ["help"; "ls"; "clear"]%string → returns w past c = true.
Proof. intros H. unfold returns. by rewrite bool_decide_eq_true_2. Qed.

Context (Hfiles : Forall (λ b, is_u8 b) (listing 512 (w_files w))).

Lemma run_ls {A} m s (k : umem → itree sysE A) : shell_frame m →
  ∃ m', shell_frame m' ∧
    run w (ITree.bind (shell_ls filebuf m) k) s ≈ₜ
    run w (k m') (logs (match listing 512 (w_files w) with [] => [] | out => [EWrite out] end) s).
Proof.
  intros Hf. unfold shell_ls. pose proof (listing_length 512 (w_files w) ltac:(lia)) as Hl.
  edestruct (run_listfiles (A := A) w filebuf 512 m s) as (m' & E & Hc & Hb); [apply (sf_file _ Hf)|lia|exact Hfiles|].
  exists m'. split; [eapply shell_frame_changes; [exact Hf|exact Hc|lia]|]. rewrite run_bind_bind, E. cbv beta iota.
  pose proof (sf_file _ Hf) as (F0 & F1 & _). set (out := listing 512 (w_files w)) in *. destruct (Z.ltb_spec 0 (Z.of_nat (length out))) as [Hpos|Hz].
  - rewrite u32_small, run_bind_bind, run_write by (done || lia). rewrite run_ret_bind. destruct out; [simpl in Hpos; lia|]. reflexivity.
  - destruct out; [|simpl in Hz; lia]. rewrite run_ret_bind, logs_nil. reflexivity.
Qed.

(** The test for a built-in command, passed and failed. *)
Ltac test_yes Heq := rewrite run_bind_bind, Heq by in_literals; rewrite decide_True by done; cbn [negb Z.eqb].
Ltac test_no Heq := rewrite run_bind_bind, Heq by in_literals; rewrite decide_False by done; cbn [negb Z.eqb].

Lemma run_exit_command {A} m s (k : umem → itree sysE A) : shell_frame m → ustring m cmd (bytes "exit") →
  run w (ITree.bind (shell_command lit cmd filebuf m) k) s ≈ₜ stop (Gone (logs [EWrite (bytesln "Goodbye!"); EExit] s)).
Proof.
  intros Hf Hc. pose proof (λ str k H, shell_streq (A := A) m s _ str k Hf Hc H) as Heq. unfold shell_command.
  do 3 test_no Heq. test_yes Heq. rewrite run_bind_bind, shell_write; [|exact Hf|in_literals|reflexivity].
  unfold exit. rewrite run_bind_bind, run_gone; [|reflexivity]. rewrite (log_one EExit), log_logs. reflexivity.
Qed.

Lemma run_command {A} m s c (k : umem → itree sysE A) : shell_frame m → ustring m cmd c → (length c <= 127)%nat → c ≠ bytes "exit" →
  ∃ m', shell_frame m' ∧
    run w (ITree.bind (shell_command lit cmd filebuf m) k) s ≈ₜ
    if returns w (o_log s) c then run w (k m') (logs (reply w (o_log s) c) s) else stop (Gone (logs (reply w (o_log s) c) s)).
Proof.
  intros Hf Hc Hl Hne. pose proof (λ str k H, shell_streq (A := A) m s c str k Hf Hc H) as Heq. unfold shell_command.
  destruct (decide (c = bytes "help")) as [E|N1].
  { exists m. split; [done|]. test_yes Heq. rewrite run_help, returns_builtin by (done || rewrite E; apply list_elem_of_fmap_2; set_solver). unfold reply. rewrite decide_True by done. reflexivity. }
  destruct (decide (c = bytes "ls")) as [E|N2].
  { destruct (run_ls m s k Hf) as (m' & Hf' & Hls). exists m'. split; [done|]. test_no Heq. test_yes Heq.
    rewrite Hls, returns_builtin by (rewrite E; apply list_elem_of_fmap_2; set_solver). unfold reply. rewrite decide_False, decide_True by done. reflexivity. }
  destruct (decide (c = bytes "clear")) as [E|N3].
  { exists m. split; [done|]. do 2 test_no Heq. test_yes Heq.
    rewrite run_clear, returns_builtin by (rewrite E; apply list_elem_of_fmap_2; set_solver). unfold reply. rewrite !decide_False, decide_True by done. reflexivity. }
  exists m. split; [done|]. do 4 test_no Heq. by rewrite (run_program _ _ _ _ Hf Hc Hl).
Qed.

(** ** The turns of the loop *)

(** What the shell does with a line: go round again, or stop. *)
Lemma run_turn m s l ls (t : itree goneE (os * void)) : shell_frame m → o_input s = l :: ls → (length l <= 127)%nat → Forall (λ b, 0 < b < 256) l →
  let past := o_log s ++ [EWrite (bytes "> ")] in
  (trim l = bytes "exit" → t = stop (Gone (mkOs (past ++ [EWrite (bytesln "Goodbye!"); EExit]) ls))) →
  (trim l ≠ bytes "exit" → trim l ≠ [] → returns w past (trim l) = false → t = stop (Gone (mkOs (past ++ reply w past (trim l)) ls))) →
  (trim l ≠ bytes "exit" → trim l = [] ∨ returns w past (trim l) = true → ∀ m', shell_frame m' →
     run w (ITree.iter (shell_turn lit cmd filebuf) m') (mkOs (past ++ if decide (trim l = []) then [] else reply w past (trim l)) ls) ≈ₜ t) →
  run w (ITree.iter (shell_turn lit cmd filebuf) m) s ≈ₜ t.
Proof.
  intros Hf Hi Hl HF past Hexit Hstop Hgo. apply run_iter. unfold shell_turn at 1.
  rewrite run_bind_bind, shell_write; [|exact Hf|in_literals|reflexivity]. cbv beta iota. rewrite run_bind_bind.
  edestruct (run_read (A := void) w cmd 127 m) as (m1 & -> & Hc1 & Hb1);
    [exact Hi|eapply ubuffer_shorter; [apply (sf_cmd _ Hf)|lia]|lia|eapply Forall_impl; [exact HF|intros ? ?; simpl in *; lia]|].
  rewrite take_ge in * by lia. cbv beta iota. cbn [log o_log]. fold past.
  assert (shell_frame m1) as Hf1 by (eapply shell_frame_changes; [exact Hf|exact Hc1|lia]).
  destruct (Z.leb_spec (Z.of_nat (length l)) 0) as [Hz|Hpos].
  { destruct l; [|simpl in Hz; lia]. rewrite run_ret_bind. specialize (Hgo ltac:(done) ltac:(by left) m1 Hf1).
    rewrite decide_True, app_nil_r in Hgo by done. exact Hgo. }
  destruct (ust8_buffer m1 cmd 128 (Z.of_nat (length l)) 0 (sf_cmd _ Hf1)) as (m2 & E2 & Hc2 & H2); [lia|lia|].
  rewrite run_bind_bind, (run_lift w _ _ _ _ E2). assert (shell_frame m2) as Hf2 by (eapply shell_frame_changes; [exact Hf1|exact Hc2|lia]).
  assert (ustring m2 cmd l) as Hs2.
  { destruct (sf_cmd _ Hf1) as (C0 & C1 & _). split; [done|lia| |done|by rewrite H2, decide_True].
    intros i b Hib. pose proof (lookup_lt_Some _ _ _ Hib). rewrite H2, decide_False by lia. by apply Hb1. }
  destruct (trim_loop cmd m2 l (sf_cmd _ Hf2) Hs2 Hl) as (m3 & E3 & Hs3 & Hc3).
  rewrite run_bind_bind, (run_lift w _ _ _ _ E3). assert (shell_frame m3) as Hf3 by (eapply shell_frame_changes; [exact Hf2|exact Hc3|lia]).
  assert (length (trim l) <= length l)%nat as Htl.
  { clear. induction l as [|a l IH]; [done|]. cbn [trim]. destruct (trim l), (decide (a ∈ bytesln " ")); simpl in *; lia. }
  destruct (Z.eqb_spec (Z.of_nat (length (trim l))) 0) as [Hz|Hnz].
  { assert (trim l = []) as Ht by (destruct (trim l); [done|simpl in Hz; lia]). rewrite run_ret_bind.
    specialize (Hgo ltac:(rewrite Ht; done) ltac:(by left) m3 Hf3). rewrite decide_True, app_nil_r in Hgo by done. exact Hgo. }
  assert (trim l ≠ []) as Hne by (intros E; rewrite E in Hnz; simpl in Hnz; lia). rewrite run_bind_bind.
  destruct (decide (trim l = bytes "exit")) as [Hx|Hx].
  - rewrite Hexit by done. rewrite Hx in Hs3. rewrite (run_exit_command _ _ _ Hf3 Hs3). reflexivity.
  - edestruct (run_command (A := void) m3 (mkOs past ls) (trim l)) as (m4 & Hf4 & ->); [exact Hf3|exact Hs3|lia|exact Hx|].
    cbn [o_log]. destruct (returns w past (trim l)) eqn:Hr.
    + rewrite run_ret_bind. specialize (Hgo Hx ltac:(by right) m4 Hf4). rewrite decide_False in Hgo by done. exact Hgo.
    + rewrite Hstop by done. reflexivity.
Qed.

Lemma run_loop lines m past : shell_frame m → Forall (λ l, (length l <= 127)%nat ∧ Forall (λ b, 0 < b < 256) l) lines →
  run w (ITree.iter (shell_turn lit cmd filebuf) m) (mkOs past lines) ≈ₜ stop (Gone (session w lines past)).
Proof.
  intros Hf HF. revert m past Hf. induction HF as [|l ls [Hl Hb] _ IH]; intros m past Hf; cbn [session].
  - apply run_iter. unfold shell_turn at 1. rewrite run_bind_bind, shell_write; [|exact Hf|in_literals|reflexivity]. cbv beta iota.
    rewrite run_bind_bind, run_read_blocks by done. reflexivity.
  - eapply run_turn; [exact Hf|reflexivity|exact Hl|exact Hb| | |]; cbn [o_log].
    + intros Hx. rewrite decide_False, decide_True by (rewrite ?Hx; done). done.
    + intros Hx Hne Hr. by rewrite !decide_False, Hr by done.
    + intros Hx Hr m' Hf'. rewrite IH by exact Hf'. destruct (decide (trim l = [])); [by rewrite app_nil_r|].
      destruct Hr as [?|Hr]; [done|]. by rewrite decide_False, Hr by done.
Qed.
End shell.

(** ** Properties *)

(** C15: the shell, started by _start, whatever lines are typed, prints its
    banner and then for each line a prompt and exactly the reply due: nothing for
    a blank line, the help, the list of files, a cleared screen, "Unknown
    command" for a name that cannot be run, and otherwise the program is run and
    waited for: the next prompt comes when it ends, and never if it does not.
    exit says goodbye and ends it, and without a further line it waits for
    ever. *)
Theorem shell_session w lit cmd filebuf m lines : shell_frame lit cmd filebuf m →
  Forall (λ b, is_u8 b) (listing 512 (w_files w)) →
  Forall (λ l, (length l <= 127)%nat ∧ Forall (λ b, 0 < b < 256) l) lines →
  run (A := umem) w (start (shell_main lit cmd filebuf) m) (mkOs [] lines) ≈ₜ
  stop (Gone (session w lines [EWrite (bytesln "=== MiniShell v1.0 ==="); EWrite (bytesln "Type 'help' for available commands." ++ [10])])).
Proof.
  intros Hf Hfiles Hlines. apply run_start. unfold shell_main.
  do 2 (rewrite shell_write; [|exact Hf|in_literals|reflexivity]). unfold log. cbn [o_log o_input app]. by apply run_loop.
Qed.

(** The two demonstration programs print their line and exit. *)
Lemma hello_run w lit m s : ustring m (lit (bytesln "Hello, World!")) (bytesln "Hello, World!") →
  run (A := umem) w (start (hello_main lit) m) s ≈ₜ stop (Gone (logs [EWrite (bytesln "Hello, World!"); EExit] s)).
Proof.
  intros Hs. apply run_start. unfold hello_main. rewrite (run_write_lit w _ _ _ _ _ _ Hs) by (cbn; lia).
  rewrite run_exit, log_one, log_logs. reflexivity.
Qed.

Lemma program_run w lit m s : ustring m (lit (bytesln "Hello from 'program'!")) (bytesln "Hello from 'program'!") →
  run (A := umem) w (start (program_main lit) m) s ≈ₜ stop (Gone (logs [EWrite (bytesln "Hello from 'program'!"); EExit] s)).
Proof.
  intros Hs. apply run_start. unfold program_main. rewrite (run_write_lit w _ _ _ _ _ _ Hs) by (cbn; lia).
  rewrite run_exit, log_one, log_logs. reflexivity.
Qed.

(** ** Witnesses *)

Definition shell_example_lit : list Z → Z := string_place 0x1000 64 shell_literals.
Definition shell_example_umem : umem := place_strings 0x1000 64 shell_literals 640.

Lemma shell_example_frame : shell_frame shell_example_lit 0x1400 0x1480 shell_example_umem.
Proof.
  split.
  - apply (ubuffer_read _ _ 128 (replicate 128 0)); [vm_compute; reflexivity|lia|lia].
  - apply (ubuffer_read _ _ 512 (replicate 512 0)); [vm_compute; reflexivity|lia|lia].
  - apply Forall_forall. unfold shell_literals. repeat (apply Forall_cons; split; [|]); [..|by constructor];
      (apply ustring_read; [vm_compute; reflexivity|vm_compute; congruence|vm_compute; reflexivity|by repeat constructor]).
  - apply Forall_forall. unfold shell_literals. repeat (apply Forall_cons; split; [|]); [..|by constructor];
      (split; left; vm_compute; reflexivity).
Qed.

Definition shell_example_world : world := mkWorld (λ _ bs, if decide (bs = bytes "spin") then 7 else -1) (λ _, []) [] (λ _ _, false).

(** A name that is no program, then a program that never ends: "exit" is not
    read any more. *)
Lemma shell_session_witness :
  run (A := umem) shell_example_world (start (shell_main shell_example_lit 0x1400 0x1480) shell_example_umem)
    (mkOs [] [bytes "nope  "; bytes "spin"; bytes "exit"]) ≈ₜ
  stop (Gone (mkOs [EWrite (bytesln "=== MiniShell v1.0 ==="); EWrite (bytesln "Type 'help' for available commands." ++ [10]);
    EWrite (bytes "> "); ESpawn (bytes "nope"); EWrite (bytes "Unknown command: "); EWrite (bytes "nope"); EWrite [10];
    EWrite (bytes "> "); ESpawn (bytes "spin"); EWait 7] [bytes "exit"])).
Proof.
  apply (shell_session shell_example_world shell_example_lit 0x1400 0x1480 shell_example_umem [bytes "nope  "; bytes "spin"; bytes "exit"] shell_example_frame).
  - constructor.
  - repeat constructor; vm_compute; congruence.
Defined.

