(* ===== verification/Top.v ===== *)
(** * programs/top.c: the process viewer

    A loop that clears the screen, prints the table of the live processes and
    waits for a line: `q` ends it.  [top_session] is what a user sees. *)

From stdpp Require Import prelude gmap strings.
From Stdlib Require Import ZArith Lia.
From ITree Require Import ITree ITreeFacts.
From S2P Require Import Prelude Memory Fs Process Ulib Usys.

(** ** The code

    [procs], [cmd] and [numbuf] are the arrays of main on its stack, [lit] the
    places of the string literals. *)

(** A word of a [struct proc_info]. *)
Definition uld32 (m : umem) (a : Z) : option Z :=
  b0 ← uld8 m a; b1 ← uld8 m (a + 1); b2 ← uld8 m (a + 2); b3 ← uld8 m (a + 3);
  Some (word_of b0 b1 b2 b3).

Section code.
Context (lit : list Z → Z) (procs cmd numbuf : Z).

Definition state_name (s : Z) : Z :=
  if s =? 1 then lit (bytes "READY  ")
  else if s =? 2 then lit (bytes "RUNNING")
  else lit (bytes "DEAD   ").

(** `while (pad-- > 0) write(" ", 1);` *)
Definition top_pad (s : Z * umem) : itree sysE ((Z * umem) + umem) :=
  let '(pad, m) := s in
  if 0 <? pad then
    let* _, m := write (lit (bytes " ")) 1 m in
    Ret (inl (pad - 1, m))
  else Ret (inr m).

(** The line of process [i]. *)
Definition top_row (i : Z) (m : umem) : itree sysE umem :=
  let* pid := lift (uld32 m (procs +ᵤ 40 * i)) in
  let* m := lift (itoa (s32 pid) numbuf m) in
  let* n := lift (ustrlen m numbuf) in
  let* _, m := write numbuf n m in
  let* n := lift (ustrlen m numbuf) in
  let* m := ITree.iter top_pad (6 - s32 n, m) in
  let* st := lift (uld32 m (procs +ᵤ (40 * i + 4))) in
  let* _, m := write (state_name st) 7 m in
  let* _, m := write (lit (bytes "  ")) 2 m in
  let* n := lift (ustrlen m (procs +ᵤ (40 * i + 8))) in
  let* _, m := write (procs +ᵤ (40 * i + 8)) n m in
  let* _, m := write (lit [10]) 1 m in
  Ret m.

(** The `for` loop over them. *)
Definition top_rows (count : Z) (s : Z * umem) : itree sysE ((Z * umem) + umem) :=
  let '(i, m) := s in
  if i <? count then
    let* m := top_row i m in
    Ret (inl (i + 1, m))
  else Ret (inr m).

(** What it does with the line it has read. *)
Definition top_command (len : Z) (m : umem) : itree sysE (umem + void) :=
  if 0 <? len then
    let* m := lift (ust8 m (cmd +ᵤ len) 0) in
    let* c := lift (uld8 m cmd) in
    if c =? 113 then exit m else Ret (inl m)
  else Ret (inl m).

(** One turn of the loop of main. *)
Definition top_turn (m : umem) : itree sysE (umem + void) :=
  let* m := clear m in
  let* _, m := write (lit (bytesln "=== Process Viewer (top) ===" ++ [10])) 30 m in
  let* _, m := write (lit (bytesln "PID   STATE    NAME")) 20 m in
  let* _, m := write (lit (bytesln "----  -------  ----------------")) 31 m in
  let* count, m := getprocs procs 16 m in
  let* m := ITree.iter (top_rows count) (0, m) in
  let* _, m := write (lit (10 :: bytesln "Enter to refresh, 'q'+Enter to quit.")) 38 m in
  let* len, m := read cmd 15 m in
  top_command len m.

Definition top_main (m : umem) : itree sysE void := ITree.iter top_turn m.
End code.

Definition top_literals : list (list Z) :=
  [bytesln "=== Process Viewer (top) ===" ++ [10]; bytesln "PID   STATE    NAME"; bytesln "----  -------  ----------------";
   10 :: bytesln "Enter to refresh, 'q'+Enter to quit."; bytes "READY  "; bytes "RUNNING"; bytes "DEAD   ";
   bytes " "; bytes "  "; [10]].

(** ** What the user sees *)

(** A name up to its NUL. *)
Fixpoint c_name (l : list Z) : list Z :=
  match l with [] => [] | c :: l' => if c =? 0 then [] else c :: c_name l' end.

Definition state_text (s : Z) : list Z :=
  if s =? 1 then bytes "READY  " else if s =? 2 then bytes "RUNNING" else bytes "DEAD   ".

Definition row (p : process) : list event :=
  let num := decimal (s32 (pid p)) in
  EWrite num :: replicate (6 - length num) (EWrite (bytes " ")) ++
  [EWrite (state_text (state p)); EWrite (bytes "  "); EWrite (c_name (p_name p)); EWrite [10]].

(** The heading; the newline of its last line is not printed. *)
Definition heading : list event :=
  [EClear; EWrite (bytesln "=== Process Viewer (top) ===" ++ [10]); EWrite (bytesln "PID   STATE    NAME");
   EWrite (bytes "----  -------  ----------------")].

Definition top_screen (w : world) (past : list event) : list event :=
  heading ++ (take 16 (live (w_procs w (past ++ heading))) ≫= row) ++
  [EWrite (10 :: bytesln "Enter to refresh, 'q'+Enter to quit.")].

Fixpoint top_session (w : world) (lines : list (list Z)) (past : list event) : os :=
  let past := past ++ top_screen w past in
  match lines with
  | [] => mkOs past []
  | l :: ls => if decide (head l = Some 113) then mkOs (past ++ [EExit]) ls else top_session w ls past
  end.

(** ** Reading the table *)

Lemma uld32_le_bytes m a v : ubytes m a (le_bytes v) → is_u32 v → 0 <= a → a + 4 <= 4294967296 → uld32 m a = Some v.
Proof.
  intros Hb Hv Ha Hf. unfold uld32, uld8. rewrite !u32_small by lia.
  pose proof (Hb 0%nat _ eq_refl) as E0. pose proof (Hb 1%nat _ eq_refl) as E1. pose proof (Hb 2%nat _ eq_refl) as E2.
  pose proof (Hb 3%nat _ eq_refl) as E3. rewrite Z.add_0_r in E0. change (Z.of_nat 1) with 1 in E1. change (Z.of_nat 2) with 2 in E2.
  change (Z.of_nat 3) with 3 in E3. rewrite E0, E1, E2, E3, !bind_Some. f_equal. unfold word_of. word_lia.
Qed.

(** What SYS_GETPROCS may report. *)
Record info_ok (p : process) : Prop := {
  io_pid : is_u32 (pid p);
  io_state : is_u32 (state p);
  io_name : name_ok (p_name p);
  io_nul : 0 ∈ p_name p
}.

Lemma c_name_ustring m a nm : ubytes m a nm → 0 ∈ nm → Forall (λ b, is_u8 b) nm → 0 <= a → a + Z.of_nat (length nm) <= 4294967296 →
  ustring m a (c_name nm) ∧ (length (c_name nm) < length nm)%nat.
Proof.
  revert a. induction nm as [|c nm IH]; intros a Hb H0 HF Ha Hf; [by apply elem_of_nil in H0|].
  apply Forall_cons in HF as [Hc HF]. pose proof (Hb 0%nat _ eq_refl) as E0. rewrite Z.add_0_r in E0.
  cbn [c_name length] in *. destruct (Z.eqb_spec c 0) as [->|Hne].
  - split; [|simpl; lia]. split; [done|simpl; lia|done|done|]. simpl. by rewrite Z.add_0_r.
  - apply elem_of_cons in H0 as [?|H0]; [done|]. destruct (IH (a + 1)) as [[S0 S1 S2 S3 S4] Hl]; [|done|done|lia|lia|].
    { intros i b Hi. replace (a + 1 + Z.of_nat i) with (a + Z.of_nat (S i)) by lia. by apply Hb. }
    split; [|simpl; lia]. split; [done|simpl; lia| |constructor; [lia|done]|].
    + intros [|i] b Hi; simpl in Hi; simplify_eq; [by rewrite Z.add_0_r|].
      replace (a + Z.of_nat (S i)) with (a + 1 + Z.of_nat i) by lia. by apply S2.
    + simpl. by replace (a + Z.of_nat (S (length (c_name nm)))) with (a + 1 + Z.of_nat (length (c_name nm))) by lia.
Qed.

Lemma infos_at m a ps i p : ubytes m a (ps ≫= info_bytes) → Forall info_ok ps → ps !! i = Some p →
  ubytes m (a + 40 * Z.of_nat i) (info_bytes p).
Proof.
  revert a i. induction ps as [|q ps IH]; intros a i Hb HF Hi; [done|]. apply Forall_cons in HF as [Hq HF].
  change ((q :: ps) ≫= info_bytes) with (info_bytes q ++ (ps ≫= info_bytes)) in Hb. apply ubytes_app in Hb as [Hq1 Hb].
  rewrite (proj1 (info_bytes_ok q (io_name _ Hq))) in Hb. destruct i as [|i]; simpl in Hi; simplify_eq.
  - by rewrite Z.mul_0_r, Z.add_0_r.
  - replace (a + 40 * Z.of_nat (S i)) with (a + Z.of_nat 40 + 40 * Z.of_nat i) by lia. by apply IH.
Qed.

(** ** The rows *)

Section top.
Context (w : world) (lit : list Z → Z) (procs cmd numbuf : Z).

(** The arrays of main, and the literals apart from them. *)
Record top_frame (m : umem) : Prop := {
  tf_procs : ubuffer m procs 640;
  tf_cmd : ubuffer m cmd 16;
  tf_num : ubuffer m numbuf 12;
  tf_arrays : numbuf + 12 <= procs ∨ procs + 640 <= numbuf;
  tf_lits : ∀ str, str ∈ top_literals → ustring m (lit str) str;
  tf_apart : ∀ str, str ∈ top_literals →
    (lit str + Z.of_nat (length str) < procs ∨ procs + 640 <= lit str) ∧
    (lit str + Z.of_nat (length str) < cmd ∨ cmd + 16 <= lit str) ∧
    (lit str + Z.of_nat (length str) < numbuf ∨ numbuf + 12 <= lit str)
}.

Lemma top_frame_changes a len m m' : top_frame m → uchanges a len m m' →
  (a = procs ∧ len <= 640 ∨ a = cmd ∧ len <= 16 ∨ a = numbuf ∧ len <= 12) → top_frame m'.
Proof.
  intros [H1 H2 H3 H4 H5 H6] Hc Ha. split; [by eapply ubuffer_changes..|done| |done].
  intros str Hstr. eapply ustring_changes; [by apply H5|exact Hc|]. specialize (H6 str Hstr). lia.
Qed.

Lemma top_write {A} m s str n (k : Z * umem → itree sysE A) : top_frame m → str ∈ top_literals → 0 <= n <= Z.of_nat (length str) →
  run w (ITree.bind (write (lit str) n m) k) s ≈ₜ run w (k (n, m)) (log (EWrite (take (Z.to_nat n) str)) s).
Proof.
  intros Hf Hstr Hn. apply run_write_lit; [by apply (tf_lits _ Hf)|done|].
  assert (Z.of_nat (length str) < 2147483648); [|lia].
  apply (Forall_forall (λ l, Z.of_nat (length l) < 2147483648) top_literals); [|done]. repeat constructor; cbn; lia.
Qed.

Lemma logs_logs es es' s : logs es' (logs es s) = logs (es ++ es') s.
Proof. unfold logs. cbn. by rewrite app_assoc. Qed.

Lemma run_pad {A} n pad m s (k : umem → itree sysE A) : top_frame m → n = Z.to_nat pad →
  run w (ITree.bind (ITree.iter (top_pad lit) (pad, m)) k) s ≈ₜ run w (k m) (logs (replicate n (EWrite (bytes " "))) s).
Proof.
  intros Hf. revert pad s. induction n as [|n IH]; intros pad s Hn; apply run_loop_bind; unfold top_pad at 1.
  - rewrite (proj2 (Z.ltb_ge 0 pad)), run_ret_bind by lia. cbn [replicate]. rewrite logs_nil. reflexivity.
  - rewrite (proj2 (Z.ltb_lt 0 pad)) by lia. rewrite run_bind_bind, top_write; [|exact Hf|in_literals|cbn; lia].
    rewrite run_ret_bind, IH by lia. rewrite log_logs. reflexivity.
Qed.

Lemma state_name_lit st : ∃ str, state_name lit st = lit str ∧ state_text st = str ∧ str ∈ top_literals ∧ length str = 7%nat.
Proof.
  unfold state_name, state_text. destruct (st =? 1); [|destruct (st =? 2)]; eexists; (split; [reflexivity|]); (split; [reflexivity|]);
    (split; [in_literals|reflexivity]).
Qed.

Lemma run_row {A} m s ps i p (k : umem → itree sysE A) : top_frame m → ubytes m procs (ps ≫= info_bytes) → Forall info_ok ps →
  (length ps <= 16)%nat → ps !! i = Some p →
  ∃ m', top_frame m' ∧ ubytes m' procs (ps ≫= info_bytes) ∧
    run w (ITree.bind (top_row lit procs numbuf (Z.of_nat i) m) k) s ≈ₜ run w (k m') (logs (row p) s).
Proof.
  intros Hf Hb HF Hl Hi. pose proof (lookup_lt_Some _ _ _ Hi) as Hil. pose proof (Forall_lookup_1 _ _ _ _ HF Hi) as [P1 P2 P3 P4].
  pose proof (tf_procs _ Hf) as (B0 & B1 & _). pose proof (tf_num _ Hf) as (N0 & N1 & _).
  assert (Z.of_nat (length (ps ≫= info_bytes)) = 40 * Z.of_nat (length ps)) as Hlen.
  { apply infos_length. apply (Forall_impl _ _ _ HF). by intros q []. }
  assert (∀ m', ubytes m' procs (ps ≫= info_bytes) →
    uld32 m' (procs +ᵤ 40 * Z.of_nat i) = Some (pid p) ∧ uld32 m' (procs +ᵤ (40 * Z.of_nat i + 4)) = Some (state p) ∧
    ustring m' (procs +ᵤ (40 * Z.of_nat i + 8)) (c_name (p_name p)) ∧ (length (c_name (p_name p)) < 32)%nat) as Hread.
  { intros m' Hb'. pose proof (infos_at _ _ _ _ _ Hb' HF Hi) as Hp. unfold info_bytes in Hp. rewrite !ubytes_app in Hp.
    destruct Hp as (Hp1 & Hp2 & Hp3). change (Z.of_nat (length (le_bytes _))) with 4 in Hp2, Hp3. change (Z.of_nat (length (le_bytes _))) with 4 in Hp3.
    rewrite !u32_small by lia. split; [apply uld32_le_bytes; (done || lia)|]. split.
    - rewrite Z.add_assoc. apply uld32_le_bytes; (done || lia).
    - destruct P3 as [P3 P5]. rewrite Z.add_assoc. replace (procs + 40 * Z.of_nat i + 8) with (procs + 40 * Z.of_nat i + 4 + 4) by lia.
      rewrite <- P3. apply c_name_ustring; (done || lia). }
  destruct (Hread m Hb) as (E1 & _). unfold top_row.
  destruct (itoa_decimal (s32 (pid p)) numbuf m (tf_num _ Hf) (s32_range _)) as (m1 & E2 & Hnum & Hc & Hdl).
  assert (top_frame m1) as Hf1 by (eapply top_frame_changes; [exact Hf|exact Hc|lia]).
  assert (ubytes m1 procs (ps ≫= info_bytes)) as Hb1.
  { eapply ubytes_changes; [exact Hb|exact Hc|]. pose proof (tf_arrays _ Hf). lia. }
  exists m1. split; [done|]. split; [done|]. destruct (Hread m1 Hb1) as (_ & E3 & Hname & Hnl).
  set (num := decimal (s32 (pid p))) in *. pose proof (ustrlen_spec _ _ _ Hnum) as En. pose proof Hnum as [U0 U1 U2 _ _].
  rewrite run_bind_bind, (run_lift w _ _ _ _ E1), run_bind_bind, (run_lift w _ _ _ _ E2), run_bind_bind, (run_lift w _ _ _ _ En).
  rewrite run_bind_bind, run_write; [|done|done|lia|lia]. cbv beta iota. rewrite run_bind_bind, (run_lift w _ _ _ _ En).
  rewrite s32_small by lia. rewrite run_bind_bind, (run_pad (6 - length num) _ m1 _ _ Hf1) by lia.
  rewrite run_bind_bind, (run_lift w _ _ _ _ E3). destruct (state_name_lit (state p)) as (str & -> & Est & Hin & Hs7).
  rewrite run_bind_bind, top_write; [|done|done|lia]. cbv beta iota.
  rewrite run_bind_bind, top_write; [|done|in_literals|cbn; lia]. cbv beta iota.
  rewrite run_bind_bind, (run_lift w _ _ _ _ (ustrlen_spec _ _ _ Hname)). pose proof Hname as [V0 V1 V2 _ _].
  rewrite run_bind_bind, run_write; [|done|done|lia|lia]. cbv beta iota.
  rewrite run_bind_bind, top_write; [|done|in_literals|cbn; lia]. rewrite run_ret_bind.
  unfold row. fold num. rewrite Est, (take_ge str) by lia. rewrite (log_one (EWrite (take _ [10]))), !log_logs, logs_logs. reflexivity.
Qed.

Lemma run_rows {A} m s ps j (k : umem → itree sysE A) : top_frame m → ubytes m procs (ps ≫= info_bytes) → Forall info_ok ps →
  (length ps <= 16)%nat → (j <= length ps)%nat →
  ∃ m', top_frame m' ∧
    run w (ITree.bind (ITree.iter (top_rows lit procs numbuf (Z.of_nat (length ps))) (Z.of_nat j, m)) k) s ≈ₜ
    run w (k m') (logs (drop j ps ≫= row) s).
Proof.
  intros Hf Hb HF Hl. remember (length ps - j)%nat as n eqn:Hn. revert m s j Hf Hb Hn.
  induction n as [|n IH]; intros m s j Hf Hb Hn Hj.
  - exists m. split; [done|]. apply run_loop_bind. unfold top_rows at 1. rewrite (proj2 (Z.ltb_ge _ _)), run_ret_bind by lia.
    rewrite drop_ge by lia. cbn [mbind list_bind]. rewrite logs_nil. reflexivity.
  - destruct (lookup_lt_is_Some_2 ps j) as [p Hp]; [lia|].
    edestruct (run_row (A := A) m s ps j p) as (m1 & Hf1 & Hb1 & E1); [done|done|done|done|done|].
    destruct (IH m1 (logs (row p) s) (S j) Hf1 Hb1) as (m' & Hf' & E'); [lia|lia|].
    exists m'. split; [done|]. apply run_loop_bind. unfold top_rows at 1. rewrite (proj2 (Z.ltb_lt _ _)), run_bind_bind by lia.
    rewrite E1, run_ret_bind. replace (Z.of_nat j + 1) with (Z.of_nat (S j)) by lia. rewrite E', logs_logs.
    by rewrite (drop_S _ _ _ Hp).
Qed.

(** ** The turns of the loop *)

Context (Hprocs : ∀ past, Forall info_ok (take 16 (live (w_procs w past)))).

Abbreviation top_loop := (ITree.iter (top_turn lit procs cmd numbuf)).

(** The rest of a turn, from the line it waits for on. *)
Definition top_rest (m : umem) : itree sysE void :=
  ITree.bind (read cmd 15 m) (λ r, ITree.bind (match r with (len, m) => top_command cmd len m end)
    (λ r, match r with inl m => top_loop m | inr v => Ret v end)).

Lemma run_screen m s (t : itree goneE (os * void)) : top_frame m →
  (∀ m', top_frame m' → run w (top_rest m') (logs (top_screen w (o_log s)) s) ≈ₜ t) → run w (top_loop m) s ≈ₜ t.
Proof.
  intros Hf Hrest. apply run_iter. unfold top_turn at 1. rewrite run_bind_bind, run_clear.
  do 3 (rewrite run_bind_bind, top_write; [|exact Hf|in_literals|cbn; lia]; cbv beta iota).
  pose proof (Hprocs (o_log s ++ heading)) as Hok. set (ps := take 16 (live (w_procs w (o_log s ++ heading)))) in *.
  assert (∀ e1 e2 e3, heading = [EClear; e1; e2; e3] → log e3 (log e2 (log e1 (log EClear s))) = logs heading s) as Hlog.
  { intros e1 e2 e3 ->. by rewrite log_one, !log_logs. }
  rewrite Hlog by reflexivity. rewrite run_bind_bind.
  edestruct (run_getprocs (A := void) w procs 16 m (logs heading s)) as (m1 & -> & Hc & Hb);
    [apply (tf_procs _ Hf)|lia|apply (Forall_impl _ _ _ Hok); by intros q []|]. cbv beta iota.
  change (take (Z.to_nat 16) (live (w_procs w (o_log (logs heading s))))) with ps in *.
  assert (top_frame m1) as Hf1 by (eapply top_frame_changes; [exact Hf|exact Hc|lia]). rewrite run_bind_bind.
  edestruct (run_rows (A := void) m1 (logs heading s) ps 0) as (m2 & Hf2 & ->); [exact Hf1|exact Hb|exact Hok|subst ps; rewrite length_take; lia|lia|].
  rewrite run_bind_bind, top_write; [|exact Hf2|in_literals|cbn; lia]. cbv beta iota. rewrite run_bind_bind.
  rewrite <- (Hrest m2 Hf2). rewrite log_one, !logs_logs. reflexivity.
Qed.

Lemma run_answer m s l ls (t : itree goneE (os * void)) : top_frame m → o_input s = l :: ls → Forall (λ b, 0 < b < 256) l →
  (head l = Some 113 → t = stop (Gone (mkOs (o_log s ++ [EExit]) ls))) →
  (head l ≠ Some 113 → ∀ m', top_frame m' → run w (top_loop m') (mkOs (o_log s) ls) ≈ₜ t) →
  run w (top_rest m) s ≈ₜ t.
Proof.
  intros Hf Hi HF Hq Hgo. unfold top_rest.
  edestruct (run_read (A := void) w cmd 15 m) as (m1 & -> & Hc1 & Hb1);
    [exact Hi|eapply ubuffer_shorter; [apply (tf_cmd _ Hf)|lia]|lia|eapply Forall_impl; [exact HF|intros ? ?; simpl in *; lia]|].
  cbv beta iota. set (out := take (Z.to_nat 15) l) in *.
  assert (top_frame m1) as Hf1 by (eapply top_frame_changes; [exact Hf|exact Hc1|lia]). unfold top_command.
  assert (length out <= 15)%nat as Hl by (subst out; rewrite length_take; lia).
  destruct l as [|c l]; [rewrite (proj2 (Z.ltb_ge 0 _)), run_ret_bind by (subst out; simpl; lia); by apply Hgo|].
  rewrite (proj2 (Z.ltb_lt _ _)) by (subst out; simpl; lia).
  destruct (ust8_buffer m1 cmd 16 (Z.of_nat (length out)) 0 (tf_cmd _ Hf1)) as (m2 & E2 & Hc2 & H2); [lia|lia|].
  rewrite run_bind_bind, (run_lift w _ _ _ _ E2), run_bind_bind.
  assert (uld8 m2 cmd = Some c) as E3.
  { destruct (tf_cmd _ Hf1) as (C0 & C1 & _). unfold uld8. rewrite u32_small by lia. rewrite <- (Z.add_0_r cmd), H2, decide_False by (subst out; simpl; lia).
    apply (Hb1 0%nat c). reflexivity. }
  rewrite (run_lift w _ _ _ _ E3). destruct (Z.eqb_spec c 113) as [->|Hne].
  - rewrite Hq by done. unfold exit. rewrite run_bind_bind. apply run_gone. reflexivity.
  - rewrite run_ret_bind. apply Hgo; [simpl; congruence|]. eapply top_frame_changes; [exact Hf1|exact Hc2|lia].
Qed.

Lemma run_top lines m past : top_frame m → Forall (Forall (λ b, 0 < b < 256)) lines →
  run w (top_loop m) (mkOs past lines) ≈ₜ stop (Gone (top_session w lines past)).
Proof.
  intros Hf HF. revert m past Hf. induction HF as [|l ls Hl _ IH]; intros m past Hf; cbn [top_session];
    (apply run_screen; [exact Hf|]; intros m1 Hf1; unfold logs; cbn [o_log o_input]).
  - unfold top_rest. by rewrite run_read_blocks.
  - eapply run_answer; [exact Hf1|reflexivity|exact Hl| |]; cbn [o_log].
    + intros E. by rewrite decide_True.
    + intros E m2 Hf2. rewrite decide_False by done. by apply IH.
Qed.
End top.

(** ** Properties *)

(** C16: top, started by _start, whatever lines are typed, clears the screen and
    prints the heading, a line for each of the first 16 live processes with its
    number, state and name, and the prompt, and does so again for each line until
    one begins with `q`, when it exits.  (The heading's last line comes without
    its newline.) *)
Theorem top_shows w lit procs cmd numbuf m lines : top_frame lit procs cmd numbuf m →
  (∀ past, Forall info_ok (take 16 (live (w_procs w past)))) →
  Forall (Forall (λ b, 0 < b < 256)) lines →
  run (A := umem) w (start (top_main lit procs cmd numbuf) m) (mkOs [] lines) ≈ₜ stop (Gone (top_session w lines [])).
Proof. intros Hf Hp Hl. apply run_start. by apply run_top. Qed.

(** ** Witnesses *)

Definition top_example_lit : list Z → Z := string_place 0x1000 64 top_literals.
Definition top_example_umem : umem := place_strings 0x1000 64 top_literals 768.

Lemma top_example_frame : top_frame top_example_lit 0x1280 0x1500 0x1510 top_example_umem.
Proof.
  split.
  - apply (ubuffer_read _ _ 640 (replicate 640 0)); [vm_compute; reflexivity|lia|lia].
  - apply (ubuffer_read _ _ 16 (replicate 16 0)); [vm_compute; reflexivity|lia|lia].
  - apply (ubuffer_read _ _ 12 (replicate 12 0)); [vm_compute; reflexivity|lia|lia].
  - right. lia.
  - apply Forall_forall. unfold top_literals. repeat (apply Forall_cons; split; [|]); [..|by constructor];
      (apply ustring_read; [vm_compute; reflexivity|vm_compute; congruence|vm_compute; reflexivity|by repeat constructor]).
  - apply Forall_forall. unfold top_literals. repeat (apply Forall_cons; split; [|]); [..|by constructor];
      (split_and!; left; vm_compute; reflexivity).
Qed.

Definition top_example_procs : list process :=
  [mkProc 1 2 0 0 0 0 (bytes "shell" ++ replicate 27 0); mkProc 12 1 0 0 0 0 (bytes "top" ++ replicate 29 0)].

Lemma top_shows_witness :
  run (A := umem) (mkWorld (λ _ _, -1) (λ _, top_example_procs) [] (λ _ _, true)) (start (top_main top_example_lit 0x1280 0x1500 0x1510) top_example_umem) (mkOs [] [bytes "q"]) ≈ₜ
  stop (Gone (mkOs (heading ++
    [EWrite (bytes "1"); EWrite (bytes " "); EWrite (bytes " "); EWrite (bytes " "); EWrite (bytes " "); EWrite (bytes " ");
     EWrite (bytes "RUNNING"); EWrite (bytes "  "); EWrite (bytes "shell"); EWrite [10];
     EWrite (bytes "12"); EWrite (bytes " "); EWrite (bytes " "); EWrite (bytes " "); EWrite (bytes " ");
     EWrite (bytes "READY  "); EWrite (bytes "  "); EWrite (bytes "top"); EWrite [10];
     EWrite (10 :: bytesln "Enter to refresh, 'q'+Enter to quit."); EExit]) [])).
Proof.
  apply (top_shows (mkWorld (λ _ _, -1) (λ _, top_example_procs) [] (λ _ _, true)) top_example_lit 0x1280 0x1500 0x1510 top_example_umem [bytes "q"] top_example_frame).
  - intros past. cbn [w_procs]. replace (take 16 (live top_example_procs)) with top_example_procs by reflexivity.
    assert (∀ a b nm, is_u32 a → is_u32 b → length nm = 32%nat → Forall (λ c, is_u8 c) nm → 0 ∈ nm →
      info_ok (mkProc a b 0 0 0 0 nm)) as Hok by (intros; split; [done|done|by split|done]).
    apply Forall_cons; split; [|apply Forall_cons; split; [|by constructor]]; (apply Hok; [lia|lia|reflexivity|repeat constructor; lia|in_literals]).
  - repeat constructor.
Defined.
